(* ===== verification/_CoqProject ===== *)
-Q . S2P
Prelude.v
CString.v
Memory.v
Search.v
BlockDevice.v
Fat32Types.v
Fat32.v
Fat32Chain.v
Fat32Facts.v
Fat32Ops.v
Fat32Access.v
Fat32Abs.v
Fat32Refine.v
Fat32Codes.v
Fat32Props.v
Fat32Tree.v
Fat32Client.v
Fat32Edge.v
Fat32Examples.v
ClientExamples.v
DirList.v
DirTree.v
DirSearch.v
DirProps.v
DirExamples.v
Paging.v
IntStr.v
PortIO.v
Framebuffer.v
Keyboard.v
KeyboardProps.v
Clock.v
ClockProps.v
Disk.v
Descriptors.v
Process.v
Scheduler.v
ProcessInv.v
ProcessProps.v
ExecProps.v
SchedProps.v
ProcessExamples.v
Kernel.v
KernelProps.v
KernelExamples.v
KernelTree.v
ShellStrings.v
Shell.v
ShellCommands.v
ShellLogic.v
ShellRules.v
ShellDirs.v
ShellFiles.v
ShellEntries.v
ShellKernel.v
ShellInput.v
ShellSession.v
ShellTerminal.v
ShellStart.v
ShellExamples.v
Insert.v
InsertProps.v
InsertExamples.v
