(* ===== verification/Prelude.v ===== *)
(** * UsusBuntu OS: the kernel of a small i386 operating system, verified

    The program is a protected-mode kernel in C with a FAT32-like file system,
    paging, user processes, a text console, a keyboard, a clock and a shell that
    runs as its first process.  This library translates its C sources to
    executable functions and proves what they do.  File names below are those of
    src/src/; header names are those of src/src/header/.

    ** How the program hangs together

    [kernel_setup] (kernel.c) programs the interrupt controller, fills the
    descriptor tables, mounts or formats the file system on the ATA disk, loads
    the file "shell" and starts it as process 1.  From then on the kernel runs in
    [main_interrupt_handler] (interrupt.c) only: key presses go to the keyboard
    driver, timer ticks save the interrupted context, and interrupt 0x30 is the
    system call with its number in eax and pointers into the caller's memory in
    ebx, ecx and edx.  fat32.c is also linked into the host tool
    external-inserter.c, there with a disk image in memory.

    ** The files

    - [Prelude] (this file): machine integers as Z with their wrap-around,
      outcomes, C loops and array accesses, the flat memory, byte encodings.
    - [CString]: stdlib/string.c.
    - [Search]: the two string matchers of fat32.c, with their correctness.
    - [BlockDevice]: the interface fat32.c needs from [read_blocks] and
      [write_blocks] (a class of operations and a class of laws) and its instance
      for the image of external-inserter.c; [Disk]: disk.c on a port bus, the
      ATA protocol as the interface [AtaDrive], and the proof that with such a
      drive disk.c is a block device ([ata_device_spec]).
    - [Fat32Types], [Fat32]: the packed structures and driver entry points of
      filesystem/fat32.h and fat32.c; [Fat32Chain] (cluster chains), [Fat32Facts],
      [Fat32Ops], [Fat32Access] (what each operation does on any block device),
      [Fat32Abs] (a directory as a finite map), [Fat32Refine], [Fat32Codes] (the
      answers as functions of that map), [Fat32Props] and [Fat32Edge] (the
      theorems), [Fat32Examples] (concrete disks).
    - [Fat32Tree]: the whole disk as a finite tree of directories, and what each
      driver operation does to it; [Fat32Client]: programs that ask requests and
      choose the next one by the answers, their runs on a disk and on a tree,
      and lives with reboots; [ClientExamples]: such lives on concrete disks.
    - [DirList], [DirTree], [DirSearch], [DirProps], [DirExamples]: the listings
      and searches in the second half of fat32.c, and what they print.
    - [Paging]: paging.c and memory/paging.h, with its theorems.
    - [IntStr]: decimal conversion in process.c and user-shell.c.
    - [PortIO]: portio.c as the interface [PortBus], the interrupt controller's
      part of interrupt.c and the timer's of scheduler.c.
    - [Framebuffer]: framebuffer.c, and the terminal it implements.
    - [Keyboard], [KeyboardProps]: keyboard.c, against a US keyboard written down
      row by row, apart from the driver's tables.
    - [Clock], [ClockProps]: clock.c.
    - [Descriptors]: gdt.c and idt.c.
    - [Process], [Scheduler]: process.c and scheduler.c; [ProcessInv],
      [ProcessProps], [ExecProps], [SchedProps], [ProcessExamples]: the transition
      system of creations, destructions, timer interrupts and switches, with any
      arguments ([sys_reachable false]) or with careful ones only, no destruction of
      pid 0 and parent clusters below 2^24 ([sys_reachable true]).
    - [Kernel], [KernelProps], [KernelExamples]: the dispatchers of interrupt.c
      and kernel.c over all components; [KernelTree]: the file system calls on
      the tree of the disk.
    - [Memory]: runs of bytes in memory, what a change leaves alone, C strings.
    - [ShellStrings]: the string routines of user-shell.c on memory; [Shell]: its
      globals, system call wrappers and cd, as actions of a monad over any machine
      that has memory and interrupt 0x30 (class [Os]); [ShellCommands]: every other
      command, the line editor and the main loop.
    - [ShellLogic], [ShellRules]: what the shell relies on (the laws [OsFrame] and
      [OsSpec] of the system calls, [layout_ok] for its objects) and weakest
      preconditions for its actions; [ShellDirs]: cd; [ShellFiles]: mkdir and cat;
      [ShellEntries]: touch and rm.
    - [ShellKernel]: the proof that the kernel keeps the laws ([kernel_os_spec]);
      [ShellInput]: the line editor; [ShellSession]: keyboard interrupts and the
      shell's main loop together; [ShellTerminal]: an abstract shell over the tree
      of the disk and sessions of typed lines; [ShellStart]: the program from its
      first instruction; [ShellExamples]: a linked shell on a concrete machine.
    - [Insert], [InsertProps], [InsertExamples]: external-inserter.c from its
      arguments to the image, and with fat32.c and the kernel.

    ** Conventions

    A C integer of w bits is a Z, wrapped ([u8], [u32], [i8], [i32], ...) where
    the source stores, casts or computes modulo.  A static or global is a field of
    a component's record; an operation takes and returns it.  [outcome] is the
    result of an operation: a value, an access outside an array ([Oob]) or no fuel
    left ([NoFuel]); C return codes are part of the value.  Pointers of callers
    and the screen are addresses in one flat memory [mem], a function from
    32-bit addresses to bytes, so that aliasing is visible: [memmove], the
    request structs of system calls and the strings they point to live there.
    The memory is what the kernel sees while it runs: every page directory maps
    the first 4 MiB and the kernel's half alike.  What the program
    reads uninitialised or past an object (the bytes after a literal, a stale
    local, stack contents) is an argument, collected in [Kernel.Environment] for
    the kernel; theorems hold for every value of it.  Reads of a block device
    return data without a new device state: a drive ready for commands before a
    read is ready for commands after it, and its answers depend on the sectors
    only ([AtaDrive]).

    ** Bounds and fuel

    - [Fat32.CHAIN_FUEL] = 513 rounds for cluster chains: a chain without cycle
      has at most 512 clusters.  [read_loop_terminates_iff_chain] shows that the
      loop of the source ends exactly when these rounds suffice.
    - The recursions of the traversals carry a depth; the searches of the source
      stop ten levels below the start themselves, and for the listing and the
      path search the theorems show a result for every tree within the depth.
    - [Framebuffer.putchar] needs one scroll at most; [read_rtc] at most three
      rounds and as many polls as an update takes, on a clock that advances at
      most once during the call; ATA polling as many as the drive is busy.
    - Every theorem about a function with fuel states that it returns, under
      hypotheses on the state and not on the fuel alone.

    ** What the theorems show

    - File system: on any block device, a client that asks requests anywhere on
      the disk sees an abstract directory tree ([clients_see_a_tree]), across
      power cycles with any driver state before each mount
      ([tree_outlives_reboots]), and through interrupt 0x30 with requests in
      memory ([file_syscalls_refine_tree]); for one directory, runs of requests
      refine a finite map from 8.3 names to contents
      ([file_operations_refine_map], [file_syscalls_refine_map]).  Formatting,
      remounting, error codes; and the requests that damage the disk.
    - Matching and searching: both matchers decide substring occurrence; both
      search commands print the pruned tree of matching files, on disks whose text
      files do not overrun the array they are read to; listings and the path search.
    - Processes: the invariant of the process table in every reachable state, and
      the stronger one of careful use that "kill 0" breaks; the operations' safety and results, what an executable becomes, fairness of
      round robin, and the defects: slots that never come back, directories that
      leak or are freed while in use, the control block the timer saves into.
    - Whole kernel: booting starts the shell ([kernel_setup_starts_shell]); through
      the whole life of the kernel ([kernel_life]: booting, then user programs and
      handled interrupts in turn) the process system stays in a reachable state
      ([interrupts_keep_process_table]).
    - From the host to the running shell: what the inserter does to an image
      ([inserter_inserts_file]), and the composition of inserter, boot and process
      creation on any disk with the image's blocks ([inserted_shell_boots]).
    - Paging: what mapping changes, directory life cycle, the aliasing of all
      user pages to frame 0 and the overrun of the frame map.
    - Devices: the console refines a wrapping, scrolling terminal; the keyboard is
      a transducer from scancodes to characters; the clock returns one of the
      times it passed through, in the local time zone; ATA write then read;
      segment and gate descriptors as the processor decodes them; the interrupt
      controller's masks.
    - Shell: cd follows any path through the directory tree, mkdir, touch and rm
      change the tree of the whole disk as their names, padded or not, make of it
      ([mkdir_creates_directory], [touch_creates_file],
      [rm_follows_previous_request]), cat prints what the clusters of a file hold up to
      their first NUL, all against the kernel's laws; the
      line editor delivers what was typed; and sessions at the keyboard, lines of cd, mkdir, touch and words the
      shell does not know, are those of an abstract shell over the tree of the disk,
      through every layer from the scancodes to the blocks
      ([session_moves_the_shell]), from the program's first instruction on
      ([shell_runs_from_start]).
    ** Not modelled

    - Assembly: kernel-entrypoint.s, intsetup.s (stubs and the context switch) and
      crt0.s.  A context switch is the context handed to it; a handler runs to
      completion, as interrupts are off inside the kernel's gates.
    - Registers without a reader in C: GDTR, IDTR, the task register, CR3 (kept as
      the directory the scheduler chose) and the TLB.  The interrupts that
      [initialize_idt] lets in before the gates are filled are not interleaved
      with booting.
    - The host's side of external-inserter.c: opening, reading and writing files,
      parsing the cluster number and the usage message.  A host file longer than
      its buffer is out of bounds in the source.
    - putchar and int_to_char of user-shell.c, which nothing calls.  Arrays on the
      shell's stack have one address per function ([Shell.Layout]); two that are
      alive at once do not overlap unless the source overruns them, and the 48
      bytes behind buf, which its commands overrun, are an object of their own;
      the byte that touch and rm write behind their names counts with those arrays.
      The commands without a theorem are definitions only.
    - cmos.c, which the build does not compile, and command.c, which is empty. *)
From Stdlib Require String Ascii.
From Stdlib Require Export ZArith Lia ZifyBool.
From stdpp Require Export base numbers option list.

#[global] Set Default Goal Selector "!".
#[global] Open Scope Z_scope.

(** ** Machine integers: the value a C object of the given width holds *)

Definition u8 (z : Z) : Z := z mod 2 ^ 8.
Definition u16 (z : Z) : Z := z mod 2 ^ 16.
Definition u32 (z : Z) : Z := z mod 2 ^ 32.
Definition i8 (z : Z) : Z := (z + 2 ^ 7) mod 2 ^ 8 - 2 ^ 7.
Definition i32 (z : Z) : Z := (z + 2 ^ 31) mod 2 ^ 32 - 2 ^ 31.

(** ** Outcomes: a value, an access outside an array, or no fuel left *)

Inductive outcome (A : Type) : Type :=
  | Ret (a : A)
  | Oob
  | NoFuel.
Arguments Ret {A} a.
Arguments Oob {A}.
Arguments NoFuel {A}.

#[global] Instance outcome_ret : MRet outcome := fun A a => Ret a.
#[global] Instance outcome_bind : MBind outcome := fun A B f e =>
  match e with
  | Ret a => f a
  | Oob => Oob
  | NoFuel => NoFuel
  end.

(** Array accesses with a C index: negative or past-the-end is [Oob]. *)
Definition aget {A} (l : list A) (i : Z) : outcome A :=
  if i <? 0 then Oob else
  match l !! Z.to_nat i with Some x => Ret x | None => Oob end.

Definition aset {A} (l : list A) (i : Z) (x : A) : outcome (list A) :=
  if (0 <=? i) && (i <? Z.of_nat (length l))
  then Ret (<[Z.to_nat i := x]> l) else Oob.

(** [for (i = lo; i < lo + n; i++) s = body i s] *)
Fixpoint for_up {T} (lo n : nat) (body : nat -> T -> T) (s : T) : T :=
  match n with
  | O => s
  | S n' => for_up (S lo) n' body (body lo s)
  end.

(** The same loop with a body that may fail. *)
Fixpoint for_upM {T} (lo n : nat) (body : nat -> T -> outcome T) (s : T) : outcome T :=
  match n with
  | O => Ret s
  | S n' => s' ← body lo s; for_upM (S lo) n' body s'
  end.

(** [for (i = n; i != 0; i--) s = body (i - 1) s] *)
Fixpoint for_down {T} (n : nat) (body : nat -> T -> T) (s : T) : T :=
  match n with
  | O => s
  | S n' => for_down n' body (body n' s)
  end.

(** ** Flat byte memory, addressed modulo 2^32 *)

Definition mem : Type := Z -> Z.
Definition load (m : mem) (a : Z) : Z := m (u32 a).
Definition store (m : mem) (a v : Z) : mem :=
  fun x => if x =? u32 a then u8 v else m x.

(** The [n] bytes from [a], and a block of bytes stored at [a]. *)
Definition load_bytes (m : mem) (a : Z) (n : nat) : list Z :=
  (fun i => load m (a + Z.of_nat i)) <$> seq 0 n.
Definition store_bytes (m : mem) (a : Z) (bs : list Z) : mem :=
  fun x =>
    let k := u32 (x - a) in
    if k <? Z.of_nat (length bs) then nth (Z.to_nat k) bs 0 else m x.

Definition is_byte (c : Z) : Prop := 0 <= c < 256.
#[export] Instance is_byte_dec c : Decision (is_byte c).
Proof. unfold is_byte. apply _. Defined.

(** The characters of a literal. *)
Fixpoint bytes_of (s : String.string) : list Z :=
  match s with
  | String.EmptyString => []
  | String.String c s' => Z.of_N (Ascii.N_of_ascii c) :: bytes_of s'
  end.

(** ** Byte strings: slices, fixed-size chunks, little-endian integers *)

Definition sub {A} (bs : list A) (off n : nat) : list A := take n (drop off bs).

Fixpoint chunks {A} (k n : nat) (bs : list A) : list (list A) :=
  match n with
  | O => []
  | S n' => take k bs :: chunks k n' (drop k bs)
  end.

Fixpoint le_encode (n : nat) (z : Z) : list Z :=
  match n with
  | O => []
  | S n' => z mod 256 :: le_encode n' (z / 256)
  end.
Fixpoint le_decode (bs : list Z) : Z :=
  match bs with
  | [] => 0
  | b :: bs' => b + 256 * le_decode bs'
  end.

(** The first index at which a test holds. *)
Fixpoint first_index {A} (f : A -> bool) (l : list A) : option nat :=
  match l with
  | [] => None
  | x :: l' => if f x then Some 0%nat else S <$> first_index f l'
  end.

(** Split the C conditions of the context and the goal. *)
Ltac split_cond :=
  repeat match goal with
  | |- context [ if ?b then _ else _ ] => let E := fresh "E" in destruct b eqn:E
  | H : context [ if ?b then _ else _ ] |- _ => let E := fresh "E" in destruct b eqn:E
  end.

(** Decide a closed proposition by computation. *)
Ltac by_compute := apply (bool_decide_unpack _); vm_compute; exact I.

(** ** Lemmas *)

Lemma bind_ret_l {A B} (a : A) (f : A -> outcome B) : (x ← Ret a; f x) = f a.
Proof. reflexivity. Qed.

Lemma bind_ret_inv {A B} (e : outcome A) (f : A -> outcome B) b :
  (x ← e; f x) = Ret b -> exists a, e = Ret a /\ f a = Ret b.
Proof. destruct e; cbn; [eauto | discriminate | discriminate]. Qed.

Lemma bind_assoc {A B C} (e : outcome A) (f : A -> outcome B) (g : B -> outcome C) :
  (y ← (x ← e; f x); g y) = (x ← e; y ← f x; g y).
Proof. by destruct e. Qed.

Lemma u8_range z : 0 <= u8 z < 256.
Proof. unfold u8. apply Z.mod_pos_bound. lia. Qed.
Lemma u16_range z : 0 <= u16 z < 65536.
Proof. unfold u16. apply Z.mod_pos_bound. lia. Qed.
Lemma u32_range z : 0 <= u32 z < 2 ^ 32.
Proof. unfold u32. apply Z.mod_pos_bound. lia. Qed.
Lemma i32_range z : - 2 ^ 31 <= i32 z < 2 ^ 31.
Proof. unfold i32. pose proof (Z.mod_pos_bound (z + 2 ^ 31) (2 ^ 32)). lia. Qed.

Lemma u8_id z : 0 <= z < 256 -> u8 z = z.
Proof. intros. unfold u8. apply Z.mod_small. lia. Qed.
Lemma u16_id z : 0 <= z < 65536 -> u16 z = z.
Proof. intros. unfold u16. apply Z.mod_small. lia. Qed.
Lemma u32_id z : 0 <= z < 2 ^ 32 -> u32 z = z.
Proof. intros. unfold u32. apply Z.mod_small. lia. Qed.
Lemma i32_id z : - 2 ^ 31 <= z < 2 ^ 31 -> i32 z = z.
Proof. intros. unfold i32. rewrite Z.mod_small; lia. Qed.
Lemma i8_id z : - 128 <= z < 128 -> i8 z = z.
Proof. intros. unfold i8. rewrite Z.mod_small; lia. Qed.

Lemma aget_ret {A} (l : list A) i x :
  aget l i = Ret x <-> 0 <= i /\ l !! Z.to_nat i = Some x.
Proof.
  unfold aget. destruct (Z.ltb_spec i 0).
  - split; [discriminate | lia].
  - destruct (l !! Z.to_nat i); split; try discriminate; [| |].
    + intros [= ->]. by split; [lia |].
    + by intros [_ [= ->]].
    + by intros [_ ?].
Qed.

Lemma aset_ret {A} (l : list A) i x l' :
  aset l i x = Ret l' <->
  0 <= i < Z.of_nat (length l) /\ l' = <[Z.to_nat i := x]> l.
Proof.
  unfold aset.
  destruct (Z.leb_spec 0 i), (Z.ltb_spec i (Z.of_nat (length l))); cbn;
    split; try discriminate; try lia; [intros [= <-]; by split; [lia |] | by intros [_ ->]].
Qed.

Lemma aset_in {A} (l : list A) i x :
  0 <= i < Z.of_nat (length l) -> aset l i x = Ret (<[Z.to_nat i := x]> l).
Proof. intros. by apply aset_ret. Qed.

Lemma for_up_S {T} lo n (body : nat -> T -> T) s :
  for_up lo (S n) body s = body (lo + n)%nat (for_up lo n body s).
Proof.
  revert lo s; induction n as [|n IH]; intros lo s.
  - cbn. by rewrite Nat.add_0_r.
  - change (for_up lo (S (S n)) body s)
      with (for_up (S lo) (S n) body (body lo s)).
    rewrite IH. cbn. f_equal. lia.
Qed.

(** An invariant indexed by the loop counter. *)
Lemma for_up_ind {T} (P : nat -> T -> Prop) (body : nat -> T -> T) lo n s :
  P lo s ->
  (forall i s', (lo <= i < lo + n)%nat -> P i s' -> P (S i) (body i s')) ->
  P (lo + n)%nat (for_up lo n body s).
Proof.
  revert lo s; induction n as [|n IH]; intros lo s H0 HS; cbn.
  - by rewrite Nat.add_0_r.
  - replace (lo + S n)%nat with (S lo + n)%nat by lia.
    apply IH; [apply HS; [lia | done] |].
    intros i s' ? ?. apply HS; [lia | done].
Qed.

(** The same for a loop whose body may fail: it does not. *)
Lemma for_upM_ind {T} (P : nat -> T -> Prop) (body : nat -> T -> outcome T) lo n s :
  P lo s ->
  (forall i s', (lo <= i < lo + n)%nat -> P i s' -> exists s'', body i s' = Ret s'' /\ P (S i) s'') ->
  exists s', for_upM lo n body s = Ret s' /\ P (lo + n)%nat s'.
Proof.
  revert lo s; induction n as [|n IH]; intros lo s H0 HS; cbn [for_upM].
  - exists s. by rewrite Nat.add_0_r.
  - destruct (HS lo s) as (s1 & -> & H1); [lia | done |]. rewrite bind_ret_l.
    replace (lo + S n)%nat with (S lo + n)%nat by lia.
    apply IH; [done |]. intros i s' ? ?. apply HS; [lia | done].
Qed.

Lemma for_down_ind {T} (P : nat -> T -> Prop) (body : nat -> T -> T) n s :
  P n s ->
  (forall i s', (i < n)%nat -> P (S i) s' -> P i (body i s')) ->
  P O (for_down n body s).
Proof.
  revert s; induction n as [|n IH]; intros s Hn HS; cbn; [done |].
  apply IH; [apply HS; [lia | done] |].
  intros i s' ? ?. apply HS; [lia | done].
Qed.

Lemma load_store_eq m a v : load (store m a v) a = u8 v.
Proof. unfold load, store. by rewrite Z.eqb_refl. Qed.

Lemma load_store_ne m a b v : u32 a <> u32 b -> load (store m a v) b = load m b.
Proof. unfold load, store. intros. destruct (Z.eqb_spec (u32 b) (u32 a)); congruence. Qed.

Lemma lookup_nth {A} (l : list A) i d : (i < length l)%nat -> l !! i = Some (nth i l d).
Proof. intros [x Hx]%lookup_lt_is_Some_2. by rewrite (nth_lookup_Some _ _ d _ Hx). Qed.

Lemma nth_byte bs i : Forall is_byte bs -> is_byte (nth i bs 0).
Proof.
  intros H. destruct (decide (i < length bs)%nat).
  - apply (Forall_lookup_1 _ bs i); [done | by apply lookup_nth].
  - rewrite nth_overflow by lia. split; lia.
Qed.

Lemma length_chunks {A} k n (bs : list A) : length (chunks k n bs) = n.
Proof. revert bs. induction n; intros bs; cbn; auto. Qed.

Lemma concat_chunks {A} k n (bs : list A) :
  length bs = (k * n)%nat -> mjoin (chunks k n bs) = bs.
Proof.
  revert bs. induction n as [|n IH]; intros bs Hl; cbn.
  - destruct bs; cbn in *; [done | lia].
  - rewrite IH; [apply take_drop |]. rewrite length_drop. lia.
Qed.

Lemma chunks_concat {A} k (ls : list (list A)) :
  Forall (fun l => length l = k) ls -> chunks k (length ls) (mjoin ls) = ls.
Proof.
  induction 1 as [|l ls Hl Hls IH]; [done |].
  change (mjoin (l :: ls)) with (l ++ mjoin ls). cbn [length chunks].
  rewrite take_app_length', drop_app_length' by done. by rewrite IH.
Qed.

Lemma chunks_Forall {A} (P : A -> Prop) k n (bs : list A) :
  Forall P bs -> Forall (Forall P) (chunks k n bs).
Proof.
  revert bs. induction n as [|n IH]; intros bs H; cbn; constructor;
    auto using Forall_take, Forall_drop.
Qed.

Lemma chunks_length {A} k n (bs : list A) :
  length bs = (k * n)%nat -> Forall (fun l => length l = k) (chunks k n bs).
Proof.
  revert bs. induction n as [|n IH]; intros bs H; cbn; constructor.
  - rewrite length_take. lia.
  - apply IH. rewrite length_drop. lia.
Qed.

Lemma length_le_encode n z : length (le_encode n z) = n.
Proof. revert z. induction n; intros z; cbn; auto. Qed.

Lemma le_encode_bytes n z : Forall is_byte (le_encode n z).
Proof.
  revert z. induction n as [|n IH]; intros z; cbn; constructor; [| apply IH].
  apply Z.mod_pos_bound. lia.
Qed.

Lemma le_decode_encode n z : 0 <= z < 256 ^ Z.of_nat n -> le_decode (le_encode n z) = z.
Proof.
  revert z. induction n as [|n IH]; intros z Hz; cbn -[Z.mul Z.div Z.modulo].
  - cbn in Hz. lia.
  - rewrite IH; [pose proof (Z.div_mod z 256); lia |].
    rewrite Nat2Z.inj_succ, Z.pow_succ_r in Hz by lia.
    split; [apply Z.div_pos; lia | apply Z.div_lt_upper_bound; lia].
Qed.

Lemma le_encode_decode bs : Forall is_byte bs -> le_encode (length bs) (le_decode bs) = bs.
Proof.
  induction 1 as [|b bs Hb Hbs IH]; cbn -[Z.mul Z.div Z.modulo]; [done |].
  unfold is_byte in Hb.
  rewrite (Z.mul_comm 256), Z.mod_add, Z.div_add, Z.mod_small, (Z.div_small b) by lia.
  by rewrite Z.add_0_l, IH.
Qed.

Lemma le_decode_range bs : Forall is_byte bs ->
  0 <= le_decode bs < 256 ^ Z.of_nat (length bs).
Proof.
  induction 1 as [|b bs Hb Hbs IH]; cbn -[Z.mul Z.pow]; [done |].
  unfold is_byte in Hb. rewrite Nat2Z.inj_succ, Z.pow_succ_r; lia.
Qed.

Lemma first_index_Some {A} (f : A -> bool) l i :
  first_index f l = Some i <->
  (exists x : A, l !! i = Some x /\ f x = true) /\
  forall (j : nat) (x : A), (j < i)%nat -> l !! j = Some x -> f x = false.
Proof.
  revert i. induction l as [|y l IH]; intros i; cbn.
  - split; [done | intros [(x & ? & _) _]; done].
  - destruct (f y) eqn:E.
    + split.
      * intros [= <-]. split; [by exists y | lia].
      * intros [_ Hj]. destruct i as [|i]; [done |].
        specialize (Hj O y). rewrite Hj in E; [done | lia | done].
    + destruct i as [|i].
      * split; [by destruct (first_index f l) |].
        intros [(x & [= ->] & ?) _]. congruence.
      * transitivity (first_index f l = Some i).
        { destruct (first_index f l); cbn; naive_solver. }
        rewrite IH. cbn. split; intros [Hx Hj]; (split; [done |]).
        -- intros [|j] x Hlt Hl; [cbn in Hl; congruence |]. apply (Hj j); [lia | done].
        -- intros j x Hlt Hl. apply (Hj (S j)); [lia | done].
Qed.

Lemma first_index_None {A} (f : A -> bool) l :
  first_index f l = None <-> forall (i : nat) (x : A), l !! i = Some x -> f x = false.
Proof.
  induction l as [|y l IH]; cbn; [done |].
  destruct (f y) eqn:E; split.
  - done.
  - intros H. specialize (H O y eq_refl). congruence.
  - intros H. destruct (first_index f l); [done |].
    intros [|i] x Hx; [by injection Hx as <- |]. by eapply IH.
  - intros H. rewrite (proj2 IH); [done |]. intros i x Hx. by apply (H (S i)).
Qed.

Lemma load_store_bytes m a bs x :
  0 <= a -> a + Z.of_nat (length bs) <= 2 ^ 32 -> 0 <= x < 2 ^ 32 ->
  load (store_bytes m a bs) x =
    if (a <=? x) && (x <? a + Z.of_nat (length bs)) then nth (Z.to_nat (x - a)) bs 0
    else load m x.
Proof.
  intros Ha Hl Hx. unfold load, store_bytes. rewrite (u32_id x) by done.
  destruct (Z.leb_spec a x); cbn.
  - rewrite u32_id by lia. split_cond; lia || done.
  - unfold u32. replace ((x - a) mod 2 ^ 32) with (x - a + 2 ^ 32); [split_cond; lia || done |].
    rewrite <- (Z.mod_add _ 1) by lia. rewrite Z.mod_small; lia.
Qed.

(** Testing a bit with a mask. *)
Lemma land_pow2_zero v n : 0 <= n -> (Z.land v (2 ^ n) =? 0) = negb (Z.testbit v n).
Proof.
  intros Hn. destruct (Z.testbit v n) eqn:E; cbn.
  - apply Z.eqb_neq. intros E0. assert (Z.testbit (Z.land v (2 ^ n)) n = true) as Ht.
    { by rewrite Z.land_spec, E, Z.pow2_bits_true. }
    by rewrite E0, Z.bits_0 in Ht.
  - apply Z.eqb_eq, Z.bits_inj'. intros k Hk. rewrite Z.land_spec, Z.bits_0.
    destruct (decide (k = n)) as [->|]; [by rewrite E | by rewrite Z.pow2_bits_false, andb_false_r].
Qed.

(** A property of numbers below a bound, checked one by one. *)
Lemma below_forall (P : Z -> bool) n v : forallb (fun i => P (Z.of_nat i)) (seq 0 n) = true -> 0 <= v < Z.of_nat n -> P v = true.
Proof.
  intros Hall Hv. rewrite forallb_forall in Hall. specialize (Hall (Z.to_nat v)).
  rewrite Z2Nat.id in Hall by lia. apply Hall, in_seq. lia.
Qed.

Create HintDb kern.
Create Rewrite HintDb kern.
#[export] Hint Rewrite @bind_ret_l @bind_assoc : kern.
#[export] Hint Resolve u8_range u16_range u32_range i32_range : kern.

(** Invert a successful chain of binds and array accesses. *)
Ltac inv_ret :=
  repeat match goal with
  | H : Ret _ = Ret _ |- _ => injection H as H; subst
  | H : Oob = Ret _ |- _ => discriminate H
  | H : NoFuel = Ret _ |- _ => discriminate H
  | H : (_ ≫= _) = Ret _ |- _ =>
      let a := fresh "a" in let E := fresh "E" in
      apply bind_ret_inv in H as (a & E & H); cbn beta in H
  end.

