(* ===== verification/CString.v ===== *)
(** * The freestanding C string library (src/stdlib/string.c)

    The five functions on the flat byte memory of the prelude.  Pointers are
    addresses taken modulo 2^32; [size_t] is 32 bits wide on this target. *)
From S2P Require Import Prelude.

(** ** Definitions *)

Definition memset (m : mem) (s c : Z) (n : nat) : mem :=
  for_up 0 n (fun i m => store m (s + Z.of_nat i) (u8 c)) m.

Definition memcpy (m : mem) (dest src : Z) (n : nat) : mem :=
  for_up 0 n (fun i m => store m (dest + Z.of_nat i) (load m (src + Z.of_nat i))) m.

(** [memcmp] reads through two byte accessors: memory from a pointer
    ([fun i => load m (p + i)]) or the bytes of a structure field. *)
Fixpoint memcmp_from (buf1 buf2 : nat -> Z) (i n : nat) : Z :=
  match n with
  | O => 0
  | S n' =>
    if buf1 i <? buf2 i then -1
    else if buf2 i <? buf1 i then 1
    else memcmp_from buf1 buf2 (S i) n'
  end.
Definition memcmp (buf1 buf2 : nat -> Z) (n : nat) : Z := memcmp_from buf1 buf2 0 n.

Definition memmove (m : mem) (dest src : Z) (n : nat) : mem :=
  if dest <? src
  then for_up 0 n (fun i m => store m (dest + Z.of_nat i) (load m (src + Z.of_nat i))) m
  else for_down n (fun i m => store m (dest + Z.of_nat i) (load m (src + Z.of_nat i))) m.

(** [strlen] scans from [str]; [fuel] bounds the scan. *)
Fixpoint strlen_from (buf : nat -> Z) (res fuel : nat) : outcome Z :=
  match fuel with
  | O => NoFuel
  | S fuel' => if buf res =? 0 then Ret (Z.of_nat res) else strlen_from buf (S res) fuel'
  end.
Definition strlen (buf : nat -> Z) (fuel : nat) : outcome Z := strlen_from buf 0 fuel.

(** The accessor of a pointer and the one of an array. *)
Definition at_ptr (m : mem) (p : Z) : nat -> Z := fun i => load m (p + Z.of_nat i).
Definition at_list (l : list Z) : nat -> Z := fun i => nth i l 0.

(** ** Lemmas *)

(** [n] bytes from [p] do not wrap around the address space. *)
Definition in_space (p : Z) (n : nat) : Prop := 0 <= p /\ p + Z.of_nat n <= 2 ^ 32.

Definition bytes_ok (m : mem) : Prop := forall a, 0 <= m a < 256.

Lemma load_range m a : bytes_ok m -> 0 <= load m a < 256.
Proof. intros H. apply H. Qed.
#[export] Hint Resolve load_range : kern.

Lemma store_bytes_ok m a v : bytes_ok m -> bytes_ok (store m a v).
Proof. intros H x. unfold store. destruct (x =? u32 a); [apply u8_range | apply H]. Qed.

Lemma load_store_in m a b v :
  0 <= a < 2 ^ 32 -> 0 <= b < 2 ^ 32 ->
  load (store m a v) b = if b =? a then u8 v else load m b.
Proof. intros. unfold load, store. by rewrite !u32_id by done. Qed.

(** What any copy loop leaves behind: the bytes [lo .. hi) of the target hold
    the source's old bytes, every other address is untouched. *)
Definition copied (m m' : mem) (dest src : Z) (lo hi : nat) : Prop :=
  forall a, 0 <= a < 2 ^ 32 ->
    load m' a =
      if (dest + Z.of_nat lo <=? a) && (a <? dest + Z.of_nat hi)
      then load m (src + (a - dest)) else load m a.

Lemma copied_step m m' dest src lo hi i :
  bytes_ok m -> 0 <= dest + Z.of_nat i < 2 ^ 32 -> 0 <= src + Z.of_nat i < 2 ^ 32 ->
  copied m m' dest src lo hi ->
  load m' (src + Z.of_nat i) = load m (src + Z.of_nat i) ->
  (S i = lo \/ i = hi) -> (lo <= hi)%nat ->
  copied m (store m' (dest + Z.of_nat i) (load m' (src + Z.of_nat i))) dest src
         (Nat.min lo i) (Nat.max hi (S i)).
Proof.
  intros Hok Hd Hs Hc He Hi Hlh a Ha.
  rewrite load_store_in, He, u8_id by auto with kern.
  destruct (Z.eqb_spec a (dest + Z.of_nat i)) as [-> |].
  - split_cond; [f_equal; lia | lia].
  - rewrite Hc by done. split_cond; lia || done.
Qed.

(** Outside what was written, and behind or ahead of it, the source is intact. *)
Lemma copied_src m m' dest src lo hi i :
  0 <= src + Z.of_nat i < 2 ^ 32 -> copied m m' dest src lo hi ->
  src + Z.of_nat i < dest + Z.of_nat lo \/ dest + Z.of_nat hi <= src + Z.of_nat i ->
  load m' (src + Z.of_nat i) = load m (src + Z.of_nat i).
Proof. intros Hr Hc Ho. rewrite Hc by done. split_cond; lia || done. Qed.

Lemma copy_up m dest src n :
  bytes_ok m -> in_space dest n -> in_space src n ->
  dest <= src \/ src + Z.of_nat n <= dest ->
  copied m (memcpy m dest src n) dest src 0 n.
Proof.
  intros Hok Hd Hs Ho. unfold in_space in *.
  apply (for_up_ind (fun k m' => copied m m' dest src 0 k) _ 0 n m).
  - intros a Ha. split_cond; lia || done.
  - intros i m' Hi Hc.
    replace (S i) with (Nat.max i (S i)) by lia.
    change O with (Nat.min O i).
    apply copied_step; [done | lia | lia | done | | lia | lia].
    eapply copied_src; [lia | done | lia].
Qed.

Lemma copy_down m dest src n :
  bytes_ok m -> in_space dest n -> in_space src n -> src <= dest ->
  copied m (for_down n (fun i m => store m (dest + Z.of_nat i) (load m (src + Z.of_nat i))) m)
         dest src 0 n.
Proof.
  intros Hok Hd Hs Ho. unfold in_space in *.
  apply (for_down_ind (fun k m' => copied m m' dest src k n) _ n m).
  - intros a Ha. split_cond; lia || done.
  - intros i m' Hi Hc.
    replace n with (Nat.max n (S i)) by lia.
    replace i with (Nat.min (S i) i) at 3 by lia.
    apply copied_step; [done | lia | lia | done | | lia | lia].
    eapply copied_src; [lia | done | lia].
Qed.

Lemma memcmp_from_eq b1 b2 i n :
  memcmp_from b1 b2 i n = 0 <-> forall k, (i <= k < i + n)%nat -> b1 k = b2 k.
Proof.
  revert i; induction n as [|n IH]; intros i; cbn.
  - split; [lia | done].
  - destruct (Z.ltb_spec (b1 i) (b2 i)) as [|].
    { split; [discriminate |]. intros Hk. specialize (Hk i). lia. }
    destruct (Z.ltb_spec (b2 i) (b1 i)) as [|].
    { split; [discriminate |]. intros Hk. specialize (Hk i). lia. }
    rewrite IH. split; intros Hk k ?; [| apply Hk; lia].
    destruct (decide (k = i)) as [-> |]; [lia | apply Hk; lia].
Qed.

Lemma memcmp_zero b1 b2 n :
  memcmp b1 b2 n = 0 <-> forall k, (k < n)%nat -> b1 k = b2 k.
Proof. unfold memcmp. rewrite memcmp_from_eq. split; intros H k ?; apply H; lia. Qed.

Lemma memcmp_from_lt b1 b2 i n :
  memcmp_from b1 b2 i n = -1 <->
  exists k, (i <= k < i + n)%nat /\ b1 k < b2 k /\
            forall j, (i <= j < k)%nat -> b1 j = b2 j.
Proof.
  revert i; induction n as [|n IH]; intros i; cbn.
  - split; [discriminate | intros (k & ? & _); lia].
  - destruct (Z.ltb_spec (b1 i) (b2 i)) as [|].
    { split; [intros _; exists i; repeat split; [lia | lia | lia | lia] | done]. }
    destruct (Z.ltb_spec (b2 i) (b1 i)) as [|].
    { split; [discriminate |]. intros (k & ? & ? & Hj).
      destruct (decide (k = i)) as [-> |]; [lia |]. specialize (Hj i). lia. }
    rewrite IH. split.
    + intros (k & ? & ? & Hj). exists k. repeat split; [lia | lia | lia |].
      intros j ?. destruct (decide (j = i)) as [-> |]; [lia | apply Hj; lia].
    + intros (k & ? & ? & Hj). exists k.
      destruct (decide (k = i)) as [-> |]; [lia |].
      repeat split; [lia | lia | lia |]. intros j ?. apply Hj. lia.
Qed.

Lemma memcmp_from_swap b1 b2 i n : memcmp_from b2 b1 i n = - memcmp_from b1 b2 i n.
Proof.
  revert i; induction n as [|n IH]; intros i; cbn; [done |].
  destruct (Z.ltb_spec (b1 i) (b2 i)), (Z.ltb_spec (b2 i) (b1 i)); lia || done.
Qed.

Lemma strlen_from_spec buf k fuel n :
  strlen_from buf k fuel = Ret n <->
  exists j, n = Z.of_nat (k + j) /\ (j < fuel)%nat /\ buf (k + j)%nat = 0 /\
            forall i, (i < j)%nat -> buf (k + i)%nat <> 0.
Proof.
  revert k; induction fuel as [|fuel IH]; intros k; cbn.
  - split; [discriminate | intros (j & _ & ? & _); lia].
  - destruct (Z.eqb_spec (buf k) 0) as [E|E].
    + split.
      * intros [= <-]. exists O. rewrite Nat.add_0_r. repeat split; [lia | done | lia].
      * intros (j & -> & ? & ? & Hi). destruct j as [|j]; [by rewrite Nat.add_0_r |].
        exfalso. apply (Hi O); [lia |]. by rewrite Nat.add_0_r.
    + rewrite IH. split.
      * intros (j & -> & ? & H0 & Hi). exists (S j).
        replace (k + S j)%nat with (S k + j)%nat by lia.
        repeat split; [lia | done |]. intros [|i] ?; [by rewrite Nat.add_0_r |].
        replace (k + S i)%nat with (S k + i)%nat by lia. apply Hi. lia.
      * intros (j & -> & ? & H0 & Hi). destruct j as [|j].
        { by rewrite Nat.add_0_r in H0. }
        exists j. replace (S k + j)%nat with (k + S j)%nat by lia.
        repeat split; [lia | done |]. intros i ?.
        replace (S k + i)%nat with (k + S i)%nat by lia. apply Hi. lia.
Qed.

(** ** Properties *)

(** [memmove] copies the [n] bytes the source held before the call,
    whatever the overlap of the two regions, and changes nothing else. *)
Theorem memmove_copies m dest src n :
  bytes_ok m -> in_space dest n -> in_space src n ->
  copied m (memmove m dest src n) dest src 0 n.
Proof.
  intros. unfold memmove. destruct (Z.ltb_spec dest src).
  - apply copy_up; [done | done | done | lia].
  - by apply copy_down.
Qed.

Lemma memmove_copies_witness :
  copied (fun a => a mod 256) (memmove (fun a => a mod 256) 12 10 5) 12 10 0 5 /\
  load_bytes (memmove (fun a => a mod 256) 12 10 5) 10 7 = [10; 11; 10; 11; 12; 13; 14].
Proof.
  split; [| reflexivity].
  apply memmove_copies.
  - intros a. apply Z.mod_pos_bound. lia.
  - split; lia.
  - split; lia.
Defined.
