(* ===== verification/Memory.v ===== *)
(** * Slices of the flat memory

    Runs of bytes and NUL-terminated strings at an address, and what the stores
    and copies of the C code do to them: [patched] for a change of one run of
    bytes, [cstring] for a string. *)
From S2P Require Import Prelude CString.
#[local] Open Scope Z_scope.

(** ** Runs of bytes *)

Lemma length_load_bytes m a n : length (load_bytes m a n) = n.
Proof. unfold load_bytes. by rewrite length_fmap, length_seq. Qed.

Lemma load_bytes_app m a n k :
  load_bytes m a (n + k) = load_bytes m a n ++ load_bytes m (a + Z.of_nat n) k.
Proof.
  unfold load_bytes. rewrite seq_app, fmap_app. f_equal.
  assert (seq (0 + n) k = Nat.add n <$> seq 0 k) as ->.
  { rewrite fmap_add_seq. f_equal. lia. }
  rewrite <- list_fmap_compose. apply list_fmap_ext. intros i j _. cbn. f_equal. lia.
Qed.

Lemma take_load_bytes m a n k : (n <= k)%nat -> take n (load_bytes m a k) = load_bytes m a n.
Proof.
  intros Hn. replace k with (n + (k - n))%nat by lia. rewrite load_bytes_app.
  apply take_app_length'. unfold load_bytes. by rewrite length_fmap, length_seq.
Qed.

Lemma load_bytes_range m p n : bytes_ok m -> Forall is_byte (load_bytes m p n).
Proof. intros Hm. unfold load_bytes. rewrite Forall_fmap. apply Forall_true. intros i. by apply load_range. Qed.

Lemma load_bytes_lookup m p n i : load_bytes m p n !! i = if decide (i < n)%nat then Some (load m (p + Z.of_nat i)) else None.
Proof.
  unfold load_bytes. rewrite list_lookup_fmap. destruct (decide _).
  - by rewrite lookup_seq_lt.
  - by rewrite lookup_seq_ge by lia.
Qed.

(** A run is the list [bs] when it agrees byte by byte. *)
Lemma load_bytes_eq m p bs :
  load_bytes m p (length bs) = bs <-> forall i c, bs !! i = Some c -> load m (p + Z.of_nat i) = c.
Proof.
  split.
  - intros E i c Hc. rewrite <- E, load_bytes_lookup in Hc. destruct (decide _); congruence.
  - intros Hi. apply list_eq. intros i. rewrite load_bytes_lookup. destruct (decide _) as [Hlt|Hge].
    + destruct (lookup_lt_is_Some_2 _ _ Hlt) as [c Hc]. rewrite Hc. f_equal. by apply Hi.
    + symmetry. apply lookup_ge_None. lia.
Qed.

Lemma load_bytes_ext m m' p n : (forall i, (i < n)%nat -> load m' (p + Z.of_nat i) = load m (p + Z.of_nat i)) ->
  load_bytes m' p n = load_bytes m p n.
Proof.
  intros Hi. apply list_eq. intros i. rewrite !load_bytes_lookup. destruct (decide _); [| done]. by rewrite Hi.
Qed.

Lemma load_bytes_stored m a bs : Forall is_byte bs -> 0 <= a -> a + Z.of_nat (length bs) <= 2 ^ 32 ->
  load_bytes (store_bytes m a bs) a (length bs) = bs.
Proof.
  intros Hb Ha Hsp. apply load_bytes_eq. intros i c Hc. pose proof (lookup_lt_Some _ _ _ Hc).
  rewrite load_store_bytes by lia. split_cond; try lia.
  replace (Z.to_nat _) with i by lia. by apply nth_lookup_Some.
Qed.

Lemma store_bytes_bytes_ok m a bs : Forall is_byte bs -> bytes_ok m -> bytes_ok (store_bytes m a bs).
Proof. intros Hb Hm x. unfold store_bytes. cbv zeta. split_cond; [by apply nth_byte | apply Hm]. Qed.

Lemma memcpy_ok m dest src n : bytes_ok m -> bytes_ok (memcpy m dest src n).
Proof.
  intros Hm. unfold memcpy. apply (for_up_ind (fun _ => bytes_ok)); [done |].
  intros i m' _ Hm'. by apply store_bytes_ok.
Qed.
Lemma memset_ok m p c n : bytes_ok m -> bytes_ok (memset m p c n).
Proof.
  intros Hm. unfold memset. apply (for_up_ind (fun _ => bytes_ok)); [done |].
  intros i m' _ Hm'. by apply store_bytes_ok.
Qed.

(** ** Changes *)

(** [m'] is [m] with [bs] at [p]. *)
Definition patched (m m' : mem) (p : Z) (bs : list Z) : Prop := forall a, 0 <= a < 2 ^ 32 ->
  load m' a = if (p <=? a) && (a <? p + Z.of_nat (length bs)) then nth (Z.to_nat (a - p)) bs 0 else load m a.

(** Two runs that do not touch. *)
Definition apart (p : Z) (n : nat) (q : Z) (k : nat) : Prop := p + Z.of_nat n <= q \/ q + Z.of_nat k <= p.

Lemma patched_store m p v : 0 <= p < 2 ^ 32 -> patched m (store m p v) p [u8 v].
Proof.
  intros Hp a Ha. rewrite load_store_in by done. cbn [length]. destruct (Z.eqb_spec a p) as [->|].
  - rewrite Z.sub_diag. split_cond; lia || done.
  - split_cond; lia || done.
Qed.

Lemma patched_store_bytes m p bs : in_space p (length bs) -> patched m (store_bytes m p bs) p bs.
Proof. intros [H0 H1] a Ha. by apply load_store_bytes. Qed.

Lemma patched_memcpy m dest src n : bytes_ok m -> in_space dest n -> in_space src n -> apart dest n src n ->
  patched m (memcpy m dest src n) dest (load_bytes m src n).
Proof.
  intros Hm Hd Hs Hap a Ha. rewrite length_load_bytes. destruct Hd, Hs.
  assert (n = 0%nat \/ dest <= src \/ src + Z.of_nat n <= dest) as [->|Hor] by (unfold apart in *; lia).
  { cbn. split_cond; lia || done. }
  rewrite (copy_up m dest src n) by (unfold in_space; auto; lia). rewrite Z.add_0_r.
  split_cond; [| done]. replace (src + (a - dest)) with (src + Z.of_nat (Z.to_nat (a - dest))) by lia.
  symmetry. apply nth_lookup_Some. rewrite load_bytes_lookup. destruct (decide _); [done | lia].
Qed.

Lemma patched_memset m p c n : in_space p n -> patched m (memset m p c n) p (replicate n (u8 c)).
Proof.
  intros [H0 H1]. unfold memset.
  apply (for_up_ind (fun k m' => patched m m' p (replicate k (u8 c))) _ 0 n m).
  - intros a Ha. cbn. split_cond; lia || done.
  - intros i m' Hi Hp a Ha. rewrite load_store_in by lia. rewrite (Hp a Ha), !length_replicate.
    destruct (Z.eqb_spec a (p + Z.of_nat i)) as [->|].
    + split_cond; try lia. rewrite nth_lookup, lookup_replicate_2 by lia. unfold u8. by rewrite Z.mod_mod.
    + split_cond; try lia; try done. by rewrite !nth_lookup, !lookup_replicate_2 by lia.
Qed.

Lemma patched_bytes_ok m m' p bs : patched m m' p bs -> bytes_ok m -> Forall is_byte bs ->
  forall a, 0 <= a < 2 ^ 32 -> 0 <= load m' a < 256.
Proof. intros Hp Hm Hb a Ha. rewrite Hp by done. destruct (_ && _); [by apply nth_byte | by apply load_range]. Qed.

Section Patched.
Context {m m' : mem} {p : Z} {bs : list Z} (Hp : patched m m' p bs).

Lemma patched_at : in_space p (length bs) -> load_bytes m' p (length bs) = bs.
Proof using Hp.
  intros [H0 H1]. apply load_bytes_eq. intros i c Hc. pose proof (lookup_lt_Some _ _ _ Hc).
  rewrite Hp by lia. split_cond; try lia. replace (Z.to_nat _) with i by lia. by apply nth_lookup_Some.
Qed.

Lemma patched_other q n : in_space q n -> apart p (length bs) q n -> load_bytes m' q n = load_bytes m q n.
Proof using Hp.
  intros [H0 H1] Hap. apply load_bytes_ext. intros i Hi. rewrite Hp by lia. unfold apart in Hap. split_cond; lia || done.
Qed.
End Patched.

(** One more byte behind a patch. *)
Lemma patched_snoc m m' p bs v : patched m m' p bs -> in_space p (S (length bs)) ->
  patched m (store m' (p + Z.of_nat (length bs)) v) p (bs ++ [u8 v]).
Proof.
  intros Hp [H0 H1] a Ha. rewrite load_store_in by lia. rewrite (Hp a Ha), length_app. cbn [length].
  destruct (Z.eqb_spec a (p + Z.of_nat (length bs))) as [->|].
  - split_cond; try lia. rewrite app_nth2 by lia. by replace (_ - _)%nat with 0%nat by lia.
  - split_cond; try lia; try done. by rewrite app_nth1 by lia.
Qed.

Lemma patched_step m m' p bs i v : patched m m' p bs -> length bs = i -> is_byte v -> in_space p (S i) ->
  patched m (store m' (p + Z.of_nat i) v) p (bs ++ [v]).
Proof. intros Hp <- Hv Hsp. rewrite <- (u8_id v Hv) at 2. by apply patched_snoc. Qed.

Lemma patched_nil m p : patched m m p [].
Proof. intros a Ha. cbn [length]. split_cond; lia || done. Qed.

(** ** Strings *)

Definition nonzero (c : Z) : Prop := c <> 0.
Definition cstring (m : mem) (p : Z) (s : list Z) : Prop :=
  in_space p (S (length s)) /\ load_bytes m p (S (length s)) = s ++ [0] /\ Forall nonzero s.

Lemma nonzero_all s : Forall (fun c => c <> 0) s -> Forall nonzero s.
Proof. done. Qed.

Section Strings.
Context {m : mem} {p : Z} {s : list Z} (Hs : cstring m p s).

Lemma cstring_char i : (i < length s)%nat -> exists c, s !! i = Some c /\ c <> 0 /\ load m (p + Z.of_nat i) = c.
Proof using Hs.
  destruct Hs as (_ & E & Hnz). intros Hi. destruct (lookup_lt_is_Some_2 _ _ Hi) as [c Hc].
  exists c. split_and!; [done | by apply (Forall_lookup_1 _ _ _ _ Hnz Hc) |].
  apply (load_bytes_eq m p (s ++ [0])); [by rewrite length_app, Nat.add_1_r | by apply lookup_app_l_Some].
Qed.

Lemma cstring_end : load m (p + Z.of_nat (length s)) = 0.
Proof using Hs.
  destruct Hs as (_ & E & _). apply (load_bytes_eq m p (s ++ [0])); [by rewrite length_app, Nat.add_1_r |].
  by apply list_lookup_middle.
Qed.

(** The rest of a string. *)
Lemma cstring_drop i : (i <= length s)%nat -> cstring m (p + Z.of_nat i) (drop i s).
Proof using Hs.
  intros Hi. destruct Hs as ([H0 H1] & E & Hnz). split_and!.
  - rewrite length_drop. split; lia.
  - rewrite length_drop. replace (S (length s)) with (i + S (length s - i))%nat in E by lia.
    rewrite load_bytes_app in E. rewrite <- (take_drop i s) in E at 2. rewrite <- app_assoc in E.
    apply app_inj_1 in E as [_ E]; [done |]. rewrite length_load_bytes, length_take. lia.
  - by apply Forall_drop.
Qed.
End Strings.

Lemma cstring_intro m p s : in_space p (S (length s)) -> Forall nonzero s ->
  (forall i c, s !! i = Some c -> load m (p + Z.of_nat i) = c) -> load m (p + Z.of_nat (length s)) = 0 -> cstring m p s.
Proof.
  intros Hsp Hnz Hi H0. split_and!; [done | | done].
  replace (S (length s)) with (length (s ++ [0])) by (by rewrite length_app, Nat.add_1_r).
  apply load_bytes_eq. intros i c Hc. apply lookup_app_Some in Hc as [Hc|[Hge Hc]]; [by apply Hi |].
  apply list_lookup_singleton_Some in Hc as [Hz <-]. by replace i with (length s) by lia.
Qed.

Lemma cstring_ext m m' p s : load_bytes m' p (S (length s)) = load_bytes m p (S (length s)) -> cstring m p s -> cstring m' p s.
Proof. intros E (H1 & H2 & H3). split_and!; [done | by rewrite E | done]. Qed.

(** A string stored with its terminator. *)
Lemma patched_cstring m m' p s : patched m m' p (s ++ [0]) -> in_space p (S (length s)) -> Forall nonzero s -> cstring m' p s.
Proof.
  intros Hp Hsp Hnz. split_and!; [done | | done].
  replace (S (length s)) with (length (s ++ [0])) in * by (by rewrite length_app, Nat.add_1_r). by apply (patched_at Hp).
Qed.

Lemma strlen_cstring m p s fuel : cstring m p s -> (length s < fuel)%nat -> strlen (at_ptr m p) fuel = Ret (Z.of_nat (length s)).
Proof.
  intros Hs Hf. unfold strlen. apply strlen_from_spec. exists (length s).
  split_and!; [done | done | by apply (cstring_end Hs) |].
  intros i Hi. destruct (cstring_char Hs i Hi) as (c & _ & Hc & E). unfold at_ptr. cbn [Nat.add]. by rewrite E.
Qed.
