(* ===== verification/Search.v ===== *)
(** * String matching (src/fat32.c, [knuth_morris_pratt] and [boyer_moore])

    Both matchers take [strlen] of their arguments first and only read the
    characters before the terminator, so a pattern and a text are the lists of
    those characters. [char_at] reads one of them, or the terminator; any other
    index is an access outside the string. *)
From S2P Require Import Prelude.

Definition char_at (s : list Z) (i : nat) : outcome Z :=
  match s !! i with
  | Some c => Ret c
  | None => if decide (i = length s) then Ret 0 else Oob
  end.

(** ** Knuth-Morris-Pratt *)

Definition int_at (a : list nat) (i : nat) : outcome nat :=
  match a !! i with Some k => Ret k | None => Oob end.

(** [while (k > 0 && pattern[k] != c) k = pi[k - 1];] *)
Fixpoint kmp_fallback (p : list Z) (pi : list nat) (c : Z) (k fuel : nat) : outcome nat :=
  match fuel with
  | O => NoFuel
  | S fuel' =>
    if decide (k = 0%nat) then Ret k else
    pk ← char_at p k;
    if pk =? c then Ret k else
    k' ← int_at pi (k - 1);
    kmp_fallback p pi c k' fuel'
  end.

(** One round of either loop: fall back, then extend the match. *)
Definition kmp_advance (p : list Z) (pi : list nat) (c : Z) (k : nat) : outcome nat :=
  k1 ← kmp_fallback p pi c k (S k);
  pk ← char_at p k1;
  Ret (if pk =? c then S k1 else k1).

Arguments kmp_advance : simpl never.

(** The bounding function: [pi] holds the entries assigned so far. *)
Fixpoint kmp_table (p : list Z) (i n : nat) (pi : list nat) (k : nat) : outcome (list nat) :=
  match n with
  | O => Ret pi
  | S n' =>
    c ← char_at p i;
    k' ← kmp_advance p pi c k;
    kmp_table p (S i) n' (pi ++ [k']) k'
  end.

Fixpoint kmp_scan (p : list Z) (pi : list nat) (t : list Z) (i n j : nat) : outcome bool :=
  match n with
  | O => Ret false
  | S n' =>
    c ← char_at t i;
    j' ← kmp_advance p pi c j;
    if decide (j' = length p) then Ret true else kmp_scan p pi t (S i) n' j'
  end.

Definition knuth_morris_pratt (buffer_pattern buffer_text : list Z) : outcome bool :=
  let m := length buffer_pattern in
  let n := length buffer_text in
  if decide (m = 0%nat) then Ret false else
  pi ← kmp_table buffer_pattern 1 (m - 1) [0%nat] 0;
  kmp_scan buffer_pattern pi buffer_text 0 n 0.

(** ** Boyer-Moore with the last-occurrence table *)

Fixpoint bm_last (p : list Z) (i : nat) (bad_char : list Z) : outcome (list Z) :=
  match p with
  | [] => Ret bad_char
  | c :: p' => bad_char' ← aset bad_char (u8 c) (Z.of_nat i); bm_last p' (S i) bad_char'
  end.

(** [while (j >= 0 && pattern[j] == text[s + j]) j--;] with [j1 = j + 1]. *)
Fixpoint bm_match (p t : list Z) (s j1 : nat) : outcome Z :=
  match j1 with
  | O => Ret (-1)
  | S j =>
    a ← char_at p j;
    b ← char_at t (s + j);
    if a =? b then bm_match p t s j else Ret (Z.of_nat j)
  end.

Fixpoint bm_scan (p t bad_char : list Z) (s fuel : nat) : outcome bool :=
  match fuel with
  | O => NoFuel
  | S fuel' =>
    if Z.of_nat s <=? Z.of_nat (length t) - Z.of_nat (length p) then
      j ← bm_match p t s (length p);
      if j <? 0 then Ret true else
      c ← char_at t (s + Z.to_nat j);
      last ← aget bad_char (u8 c);
      bm_scan p t bad_char
        (Z.to_nat (Z.of_nat s + (if 1 <? j - last then j - last else 1))) fuel'
    else Ret false
  end.

Definition boyer_moore (buffer_pattern buffer_text : list Z) : outcome bool :=
  bad_char ← bm_last buffer_pattern 0 (replicate 256 (-1));
  bm_scan buffer_pattern buffer_text bad_char 0 (length buffer_text + 2).

(** ** Specification: the pattern occurs in the text *)

Definition occurs_at (p t : list Z) (s : nat) : Prop :=
  forall i, (i < length p)%nat -> t !! (s + i)%nat = p !! i.
Definition occurs (p t : list Z) : Prop :=
  exists s, (s + length p <= length t)%nat /\ occurs_at p t s.

Lemma occurs_app p t : occurs p t <-> exists u v, t = u ++ p ++ v.
Proof.
  split.
  - intros (s & Hs & Ho). exists (take s t), (drop (s + length p) t).
    rewrite <- (take_drop s t) at 1. f_equal.
    rewrite <- (take_drop (length p) (drop s t)) at 1. rewrite drop_drop. f_equal.
    apply list_eq_same_length with (length p); [done | rewrite length_take, length_drop; lia |].
    intros i x y Hi Hx Hy. rewrite lookup_take_lt, lookup_drop, Ho in Hx by done. congruence.
  - intros (u & v & ->). exists (length u). rewrite !length_app. split; [lia |].
    intros i Hi. rewrite lookup_app_r by lia. rewrite lookup_app_l by lia. f_equal. lia.
Qed.

Lemma char_at_lookup s i c : s !! i = Some c -> char_at s i = Ret c.
Proof. unfold char_at. by intros ->. Qed.

(** ** Borders *)

Section Borders.
Context (p : list Z).

(** [pre k w]: the first [k] characters of the pattern end [w]. *)
Definition pre (k : nat) (w : list Z) : Prop := take k p `suffix_of` w.

Lemma pre_0 w : pre 0 w.
Proof. apply suffix_nil. Qed.

Lemma pre_trans k l w : pre k (take l p) -> pre l w -> pre k w.
Proof. unfold pre. intros. by etrans. Qed.

(** Two matches ending at the same place: the shorter ends the longer. *)
Lemma pre_pre k l w :
  (k <= l)%nat -> (l <= length p)%nat -> pre k w -> pre l w -> pre k (take l p).
Proof.
  unfold pre. intros Hkl Hl [u ->] [v Hv].
  apply app_eq_inv in Hv as [(w & _ & Hw) | (w & _ & Hw)]; [by exists w |].
  destruct w as [|x w]; [by exists [] |].
  apply (f_equal length) in Hw. rewrite length_app, !length_take in Hw. cbn in Hw. lia.
Qed.

Lemma pre_snoc k w c : p !! k = Some c -> pre (S k) (w ++ [c]) <-> pre k w.
Proof.
  unfold pre. intros Hk. rewrite (take_S_r _ _ _ Hk). split.
  - intros [u Hu]. rewrite app_assoc in Hu. apply app_inj_tail in Hu as [-> _].
    by exists u.
  - intros [u ->]. exists u. by rewrite app_assoc.
Qed.

Lemma pre_snoc_char k w c : (S k <= length p)%nat -> pre (S k) (w ++ [c]) -> p !! k = Some c.
Proof.
  unfold pre. intros Hl.
  destruct (lookup_lt_is_Some_2 p k) as [x Hx]; [lia |].
  rewrite (take_S_r _ _ _ Hx). intros [u Hu]. rewrite app_assoc in Hu.
  apply app_inj_tail in Hu as [_ ->]. done.
Qed.

(** [k] is the length of the longest proper border of the first [l] characters. *)
Definition border (l k : nat) : Prop :=
  (k < l)%nat /\ pre k (take l p) /\
  forall k', (k' < l)%nat -> pre k' (take l p) -> (k' <= k)%nat.

Definition table_ok (pi : list nat) : Prop :=
  forall l, (0 < l <= length pi)%nat -> exists k, pi !! (l - 1)%nat = Some k /\ border l k.

Lemma fallback_spec pi c w : table_ok pi -> (length pi <= length p)%nat ->
  forall fuel k, (k < fuel)%nat -> (k < length p)%nat -> (k <= length pi)%nat -> pre k w ->
  exists k1, kmp_fallback p pi c k fuel = Ret k1 /\ (k1 <= k)%nat /\ pre k1 w /\
    (k1 = 0%nat \/ p !! k1 = Some c) /\
    forall k', (k1 < k' <= k)%nat -> pre k' w -> p !! k' <> Some c.
Proof.
  intros Hpi Hlen fuel. induction fuel as [|fuel IH]; intros k Hf Hk Hkl Hw; [lia | cbn].
  destruct (decide (k = 0%nat)) as [->|Hk0].
  { exists O. repeat split; [lia | done | by left | lia]. }
  destruct (lookup_lt_is_Some_2 p k) as [x Hx]; [lia |].
  rewrite (char_at_lookup _ _ _ Hx), bind_ret_l.
  destruct (Z.eqb_spec x c) as [->|Hxc].
  { exists k. repeat split; [lia | done | by right | lia]. }
  destruct (Hpi k) as (b & Hb & Hbk & Hbp & Hmax); [lia |].
  unfold int_at. rewrite Hb, bind_ret_l.
  destruct (IH b) as (k1 & -> & Hk1 & Hw1 & Hc1 & Hno); [lia | lia | lia | by eapply pre_trans |].
  exists k1. repeat split; [lia | done | done |].
  intros k' Hk' Hp'. destruct (decide (k' = k)) as [->|]; [congruence |].
  apply Hno; [| done]. split; [lia |].
  apply Hmax; [lia |]. by apply (pre_pre k' k w); [lia | lia | |].
Qed.

(** One round keeps the longest match, whatever bound [b] on its length. *)
Definition longest (b : nat) (w : list Z) (k : nat) : Prop :=
  (k <= b)%nat /\ pre k w /\ forall k', (k' <= b)%nat -> pre k' w -> (k' <= k)%nat.

Lemma advance_spec pi c w b k :
  table_ok pi -> (length pi <= length p)%nat -> (b < length p)%nat -> (k <= length pi)%nat ->
  longest b w k ->
  exists k', kmp_advance p pi c k = Ret k' /\ longest (S b) (w ++ [c]) k'.
Proof.
  intros Hpi Hlen Hb Hk (Hkb & Hw & Hmax). unfold kmp_advance.
  destruct (fallback_spec pi c w Hpi Hlen (S k) k) as (k1 & -> & Hk1 & Hw1 & Hc1 & Hno);
    [lia | lia | lia | done |].
  rewrite bind_ret_l.
  destruct (lookup_lt_is_Some_2 p k1) as [x Hx]; [lia |].
  rewrite (char_at_lookup _ _ _ Hx), bind_ret_l.
  eexists; split; [done |].
  assert (Hup : forall k', (S k' <= S b)%nat -> pre (S k') (w ++ [c]) ->
            (k' <= k1)%nat /\ p !! k' = Some c).
  { intros k' Hk' Hp'. pose proof (pre_snoc_char k' w c ltac:(lia) Hp') as Hc.
    apply (pre_snoc _ _ _ Hc) in Hp'. split; [| done].
    destruct (decide (k' <= k1)%nat) as [|Hn]; [done |]. exfalso.
    apply (Hno k'); [| done | done]. split; [lia |]. apply Hmax; [lia | done]. }
  destruct (Z.eqb_spec x c) as [->|Hxc].
  - repeat split; [lia | by apply pre_snoc |].
    intros [|k'] ? Hp'; [lia |]. destruct (Hup k'); [lia | done |]. lia.
  - destruct Hc1 as [-> | Hc1]; [| congruence].
    repeat split; [lia | apply pre_0 |].
    intros [|k'] ? Hp'; [lia |]. destruct (Hup k') as [Hle Hc]; [lia | done |].
    replace k' with 0%nat in Hc by lia. congruence.
Qed.

Lemma table_spec n : forall i pi k,
  (i + n = length p)%nat -> (0 < i)%nat -> length pi = i -> table_ok pi -> border i k ->
  exists pi', kmp_table p i n pi k = Ret pi' /\ length pi' = length p /\ table_ok pi'.
Proof.
  induction n as [|n IH]; intros i pi k Hin Hi Hlen Hpi (Hki & Hkp & Hkm); cbn.
  { exists pi. repeat split; [lia | done]. }
  destruct (lookup_lt_is_Some_2 p i) as [c Hc]; [lia |].
  rewrite (char_at_lookup _ _ _ Hc), bind_ret_l.
  destruct (advance_spec pi c (take i p) (i - 1) k) as (k' & -> & Hk'i & Hk'p & Hk'm);
    [done | lia | lia | lia | |].
  { repeat split; [lia | done |]. intros k' ? ?. apply Hkm; [lia | done]. }
  rewrite bind_ret_l. rewrite <- (take_S_r _ _ _ Hc) in *.
  replace (S (i - 1)) with i in * by lia.
  assert (border (S i) k') as Hb.
  { repeat split; [lia | done |]. intros k'' ? ?. apply Hk'm; [lia | done]. }
  apply IH; [lia | lia | rewrite length_app; cbn; lia | | done].
  intros l Hl. rewrite length_app in Hl. cbn in Hl.
  destruct (decide (l = S i)) as [->|].
  - exists k'. split; [| done]. rewrite lookup_app_r by lia.
    by replace (S i - 1 - length pi)%nat with 0%nat by lia.
  - rewrite lookup_app_l by lia. apply Hpi. lia.
Qed.

(** An occurrence ends where the whole pattern ends a prefix of the text. *)
Lemma pre_occurs t e : (e <= length t)%nat -> pre (length p) (take e t) -> occurs p t.
Proof.
  unfold pre. intros He [u Hu]. rewrite (take_ge p) in Hu by done.
  apply occurs_app. exists u, (drop e t).
  by rewrite app_assoc, <- Hu, take_drop.
Qed.

Lemma occurs_pre t : occurs p t -> exists e, (e <= length t)%nat /\ pre (length p) (take e t).
Proof.
  intros (u & v & ->)%occurs_app. exists (length u + length p)%nat. unfold pre.
  rewrite !length_app. split; [lia |]. rewrite (take_ge p) by done.
  rewrite app_assoc, take_app_le by (rewrite length_app; lia).
  rewrite take_ge by (rewrite length_app; lia). by exists u.
Qed.

Lemma scan_spec pi t : table_ok pi -> length pi = length p ->
  forall n i j, (i + n = length t)%nat ->
  longest (length p - 1) (take i t) j -> (0 < length p)%nat ->
  (forall e, (e <= i)%nat -> ~ pre (length p) (take e t)) ->
  exists b, kmp_scan p pi t i n j = Ret b /\ (b = true <-> occurs p t).
Proof.
  intros Hpi Hlen n. induction n as [|n IH]; intros i j Hin Hj Hp Hno; cbn.
  { exists false. split; [done |]. split; [done |]. intros Ho.
    destruct (occurs_pre t Ho) as (e & He & Hpe). destruct (Hno e); [lia | done]. }
  destruct (lookup_lt_is_Some_2 t i) as [c Hc]; [lia |].
  rewrite (char_at_lookup _ _ _ Hc), bind_ret_l.
  destruct (advance_spec pi c (take i t) (length p - 1) j) as (j' & -> & Hl);
    [done | lia | lia | destruct Hj; lia | done |].
  rewrite bind_ret_l. rewrite <- (take_S_r _ _ _ Hc) in Hl.
  destruct Hl as (Hjb & Hjp & Hjm). replace (S (length p - 1)) with (length p) in * by lia.
  destruct (decide (j' = length p)) as [->|Hne].
  - exists true. split; [done |]. split; [intros _ | done].
    apply (pre_occurs t (S i)); [lia | done].
  - apply IH; [lia | | lia |].
    + repeat split; [lia | done |]. intros k' ? ?. apply Hjm; [lia | done].
    + intros e He Hpe. destruct (decide (e = S i)) as [->|].
      * assert (length p <= j')%nat by (apply Hjm; [lia | done]). lia.
      * apply (Hno e); [lia | done].
Qed.
End Borders.

Lemma kmp_spec p t :
  exists b, knuth_morris_pratt p t = Ret b /\ (b = true <-> p <> [] /\ occurs p t).
Proof.
  unfold knuth_morris_pratt.
  destruct (decide (length p = 0%nat)) as [H0|H0].
  { exists false. split; [done |]. split; [done |]. intros [Hp _].
    by destruct p. }
  assert (Hb : border p 1 0).
  { repeat split; [lia | apply pre_0 | lia]. }
  destruct (table_spec p (length p - 1) 1 [0%nat] 0) as (pi & -> & Hlen & Hpi);
    [lia | lia | done | | done |].
  { intros l Hl. cbn in Hl. replace l with 1%nat by lia. by exists O. }
  rewrite bind_ret_l.
  destruct (scan_spec p pi t Hpi Hlen (length t) 0 0) as (b & -> & Hbt); [lia | | lia | |].
  - repeat split; [lia | apply pre_0 |]. intros k' Hk' [u Hu].
    apply (f_equal length) in Hu. rewrite length_app, !length_take in Hu. lia.
  - intros e He [u Hu]. apply (f_equal length) in Hu.
    rewrite length_app, !length_take in Hu. lia.
  - exists b. split; [done |]. rewrite Hbt. split; [| naive_solver].
    intros Ho. split; [| done]. intros ->. done.
Qed.

(** ** The last-occurrence table and the shift *)

Section BoyerMoore.
Context (p t : list Z).

(** [last] is the last index of [c] below [hi], or -1. *)
Definition last_occ (hi : nat) (c last : Z) : Prop :=
  -1 <= last < Z.of_nat hi /\
  forall i, (i < hi)%nat -> p !! i = Some c -> Z.of_nat i <= last.

Definition bm_table_ok (hi : nat) (bad : list Z) : Prop :=
  length bad = 256%nat /\
  forall c, is_byte c -> exists l, aget bad c = Ret l /\ last_occ hi c l.

Lemma bm_table_step i c bad :
  (forall k, p !! i = Some k -> is_byte k) -> p !! i = Some c -> bm_table_ok i bad ->
  exists bad', aset bad (u8 c) (Z.of_nat i) = Ret bad' /\ bm_table_ok (S i) bad'.
Proof.
  intros Hby Hc [Hlen Htab]. pose proof (Hby c Hc) as Hr. unfold is_byte in *.
  rewrite u8_id, aset_in by lia. eexists; split; [done |].
  split; [by rewrite length_insert |]. intros d Hd. unfold is_byte in Hd.
  destruct (Htab d Hd) as (l & Hl & Hlr & Hlm).
  apply aget_ret in Hl as [_ Hl].
  destruct (decide (d = c)) as [->|Hdc].
  - exists (Z.of_nat i). split.
    + apply aget_ret. split; [lia |]. apply list_lookup_insert_eq. lia.
    + split; [lia |]. intros j Hj _. lia.
  - exists l. split.
    + apply aget_ret. split; [lia |]. rewrite list_lookup_insert_ne by lia. done.
    + split; [lia |]. intros j Hj Hjd.
      destruct (decide (j = i)) as [->|]; [congruence | apply Hlm; [lia | done]].
Qed.

Lemma bm_last_spec q : forall i bad,
  (forall k, (k < length q)%nat -> p !! (i + k)%nat = q !! k) ->
  Forall is_byte q -> bm_table_ok i bad ->
  exists bad', bm_last q i bad = Ret bad' /\ bm_table_ok (i + length q) bad'.
Proof.
  induction q as [|c q IH]; intros i bad Hq Hby Hbad; cbn.
  { exists bad. by rewrite Nat.add_0_r. }
  apply Forall_cons_1 in Hby as [Hc Hby].
  assert (p !! i = Some c) as Hi by (rewrite <- (Nat.add_0_r i); apply (Hq O); cbn; lia).
  destruct (bm_table_step i c bad) as (bad' & -> & Hok); [congruence | done | done |].
  rewrite bind_ret_l. replace (i + S (length q))%nat with (S i + length q)%nat by lia.
  apply IH; [| done | done].
  intros k Hk. change (q !! k) with ((c :: q) !! S k).
  rewrite <- (Hq (S k)) by (cbn; lia). f_equal. lia.
Qed.

Lemma bm_match_spec s j1 : (j1 <= length p)%nat -> (s + j1 <= length t)%nat ->
  exists j, bm_match p t s j1 = Ret j /\ -1 <= j < Z.of_nat j1 /\
    (forall i, (i < j1)%nat -> j < Z.of_nat i -> t !! (s + i)%nat = p !! i) /\
    (0 <= j -> t !! (s + Z.to_nat j)%nat <> p !! Z.to_nat j).
Proof.
  induction j1 as [|j IH]; intros Hp Ht; cbn.
  { exists (-1). repeat split; lia. }
  destruct (lookup_lt_is_Some_2 p j) as [a Ha]; [lia |].
  destruct (lookup_lt_is_Some_2 t (s + j)) as [b Hb]; [lia |].
  rewrite (char_at_lookup _ _ _ Ha), (char_at_lookup _ _ _ Hb), !bind_ret_l.
  destruct (Z.eqb_spec a b) as [->|Hab].
  - destruct IH as (x & Hx & Hr & Hm & Hd); [lia | lia |].
    exists x. repeat split; [done | lia | lia | | done].
    intros i Hi Hxi. destruct (decide (i = j)) as [->|]; [congruence | apply Hm; lia].
  - exists (Z.of_nat j). repeat split; [lia | lia | lia |].
    intros _. rewrite Nat2Z.id. congruence.
Qed.

(** A mismatch at [j] rules out every alignment before the shifted one. *)
Lemma bm_shift_safe s j c last s' :
  (j < length p)%nat -> t !! (s + j)%nat = Some c -> p !! j <> Some c ->
  last_occ (length p) c last ->
  (s <= s')%nat -> Z.of_nat s' < Z.of_nat s + Z.max 1 (Z.of_nat j - last) ->
  ~ occurs_at p t s'.
Proof.
  intros Hj Hc Hne [Hl Hmax] Hss Hs' Ho. unfold occurs_at in Ho.
  destruct (decide (s' = s)) as [->|].
  { specialize (Ho j Hj). congruence. }
  specialize (Ho (j - (s' - s))%nat ltac:(lia)).
  replace (s' + (j - (s' - s)))%nat with (s + j)%nat in Ho by lia.
  specialize (Hmax (j - (s' - s))%nat ltac:(lia) ltac:(congruence)). lia.
Qed.

Lemma bm_scan_spec bad :
  bm_table_ok (length p) bad -> Forall is_byte t ->
  forall fuel s, (length t + 2 <= s + fuel)%nat -> (s <= length t + 1)%nat ->
  (forall s', (s' < s)%nat -> ~ occurs_at p t s') ->
  exists b, bm_scan p t bad s fuel = Ret b /\ (b = true <-> occurs p t).
Proof.
  intros [Hlen Hbad] Hbt fuel. induction fuel as [|fuel IH]; intros s Hf Hs Hno; cbn; [lia |].
  destruct (Z.leb_spec (Z.of_nat s) (Z.of_nat (length t) - Z.of_nat (length p))) as [Hle|Hgt].
  - destruct (bm_match_spec s (length p)) as (j & -> & Hj & Hm & Hd); [lia | lia |].
    rewrite bind_ret_l. destruct (Z.ltb_spec j 0) as [Hj0|Hj0].
    { exists true. split; [done |]. split; [intros _ | done].
      exists s. split; [lia |]. intros i Hi. apply Hm; lia. }
    destruct (lookup_lt_is_Some_2 t (s + Z.to_nat j)) as [c Hc]; [lia |].
    rewrite (char_at_lookup _ _ _ Hc), bind_ret_l.
    pose proof (proj1 (Forall_lookup is_byte t) Hbt _ _ Hc) as Hcb.
    destruct (Hbad c Hcb) as (l & Hl & Hocc).
    rewrite u8_id by done. rewrite Hl, bind_ret_l.
    assert (Hsafe : forall s', (s <= s')%nat ->
      Z.of_nat s' < Z.of_nat s + Z.max 1 (j - l) -> ~ occurs_at p t s').
    { intros s' ? ?. apply (bm_shift_safe s (Z.to_nat j) c l); [lia | done | | done | done | lia].
      rewrite <- Hc. apply not_eq_sym, Hd. lia. }
    destruct Hocc as [Hlr _].
    apply IH; [split_cond; lia | split_cond; lia |].
    intros s' Hs'. destruct (decide (s' < s)%nat); [by apply Hno |].
    apply Hsafe; [lia |]. revert Hs'. split_cond; lia.
  - exists false. split; [done |]. split; [done |].
    intros (s' & Hs' & Ho). exfalso. apply (Hno s'); [lia | done].
Qed.
End BoyerMoore.

Lemma bm_spec p t : Forall is_byte p -> Forall is_byte t ->
  exists b, boyer_moore p t = Ret b /\ (b = true <-> occurs p t).
Proof.
  intros Hp Ht. unfold boyer_moore.
  destruct (bm_last_spec p p 0 (replicate 256 (-1))) as (bad & -> & Hok); [done | done | |].
  - split; [done |]. intros c Hc. unfold is_byte in Hc. exists (-1). split.
    + apply aget_ret. split; [lia |]. apply lookup_replicate. split; [done | lia].
    + split; [lia | lia].
  - rewrite bind_ret_l. apply bm_scan_spec; [done | done | lia | lia | lia].
Qed.

(** ** Properties *)

(** C21: [knuth_morris_pratt] terminates, reads no character and no [pi] entry
    out of range, and answers whether a nonempty pattern occurs in the text. *)
Theorem knuth_morris_pratt_correct p t :
  exists b, knuth_morris_pratt p t = Ret b /\
    (b = true <-> p <> [] /\ exists u v, t = u ++ p ++ v).
Proof. setoid_rewrite <- occurs_app. apply kmp_spec. Qed.

(** C22: [boyer_moore] terminates, stays inside its pattern, text and
    [bad_char] arrays, and answers whether the pattern occurs in the text. *)
Theorem boyer_moore_correct p t : Forall is_byte p -> Forall is_byte t ->
  exists b, boyer_moore p t = Ret b /\ (b = true <-> exists u v, t = u ++ p ++ v).
Proof. setoid_rewrite <- occurs_app. apply bm_spec. Qed.

Lemma boyer_moore_correct_witness :
  boyer_moore [97; 98] [98; 97; 97; 98; 99] = Ret true /\
  exists b, boyer_moore [97; 98] [98; 97; 97; 98; 99] = Ret b /\
    (b = true <-> exists u v, [98; 97; 97; 98; 99] = u ++ [97; 98] ++ v).
Proof.
  split; [reflexivity |]. apply boyer_moore_correct.
  - repeat constructor; lia.
  - repeat constructor; lia.
Defined.

(** the two search commands use interchangeable matchers: on a nonempty
    pattern both give the same answer, on the empty one they differ. *)
Theorem matchers_agree p t : Forall is_byte p -> Forall is_byte t ->
  (p <> [] -> knuth_morris_pratt p t = boyer_moore p t) /\
  knuth_morris_pratt [] t = Ret false /\ boyer_moore [] t = Ret true.
Proof.
  intros Hp Ht. split; [| split; [done |]].
  - intros Hne. destruct (kmp_spec p t) as (b & -> & Hb), (bm_spec p t Hp Ht) as (b' & -> & Hb').
    f_equal. apply eq_bool_prop_intro. destruct b, b'; naive_solver.
  - destruct (bm_spec [] t) as (b & -> & Hb); [constructor | done |].
    f_equal. apply Hb. exists O. split; [cbn; lia |]. intros i Hi. cbn in Hi. lia.
Qed.

Lemma matchers_agree_witness :
  ([97; 98] <> [] -> knuth_morris_pratt [97; 98] [97; 97; 98] = boyer_moore [97; 98] [97; 97; 98]) /\
  knuth_morris_pratt [] [97; 97; 98] = Ret false /\ boyer_moore [] [97; 97; 98] = Ret true.
Proof. apply matchers_agree; repeat constructor; lia. Defined.
