(* ===== verification/BlockDevice.v ===== *)
(** * Block devices: what src/fat32.c needs from [read_blocks]/[write_blocks]

    fat32.c is linked twice: with the ATA driver of src/disk.c in the kernel and
    with the in-memory disk image of src/external-inserter.c in the host tool.
    The class states the interface, the specification class what a device
    promises, and the image device of the inserter is an instance. *)
From S2P Require Import Prelude.

Definition BLOCK_SIZE : Z := 512.

Class BlockDevice (D : Type) := {
  read_blocks : D -> Z -> Z -> outcome (list Z);
  write_blocks : D -> list Z -> Z -> Z -> outcome D;
}.

(** The contents of [n] consecutive blocks. *)
Definition blocks_of (blk : Z -> list Z) (lba : Z) (n : nat) : list Z :=
  mjoin ((fun i => blk (lba + Z.of_nat i)) <$> seq 0 n).

Class BlockDeviceSpec (D : Type) `{BlockDevice D} := {
  dev_ok : D -> Prop;
  dev_block : D -> Z -> list Z;
  dev_capacity : Z;
  (** 512 clusters of 4 blocks fit. *)
  dev_capacity_fat : 2048 <= dev_capacity;
  dev_block_ok d i : dev_ok d -> 0 <= i < dev_capacity ->
    length (dev_block d i) = 512%nat /\ Forall is_byte (dev_block d i);
  read_blocks_spec d lba n : dev_ok d -> 0 <= lba -> 0 < n < 256 ->
    lba + n <= dev_capacity ->
    read_blocks d lba n = Ret (blocks_of (dev_block d) lba (Z.to_nat n));
  write_blocks_spec d bs lba n : dev_ok d -> 0 <= lba -> 0 < n < 256 ->
    lba + n <= dev_capacity -> length bs = (512 * Z.to_nat n)%nat -> Forall is_byte bs ->
    exists d', write_blocks d bs lba n = Ret d' /\ dev_ok d' /\
      forall i, 0 <= i < dev_capacity ->
        dev_block d' i =
          if (lba <=? i) && (i <? lba + n)
          then sub bs (512 * Z.to_nat (i - lba)) 512 else dev_block d i;
}.

(** ** The inserter's image device (src/external-inserter.c) *)

(** [image_storage] is a 4 MiB buffer: a byte at each offset below the size. *)
Record Image := mkImage { image_storage : Z -> Z }.
Definition IMAGE_SIZE : Z := 4 * 1024 * 1024.

Definition image_offset (logical_block_address : Z) (i : nat) : Z :=
  u32 (BLOCK_SIZE * u32 (logical_block_address + Z.of_nat i)).

Definition image_bytes (img : Image) (off : Z) : list Z :=
  (fun k => image_storage img (off + Z.of_nat k)) <$> seq 0 512.

Fixpoint image_read (img : Image) (lba : Z) (i n : nat) : outcome (list Z) :=
  match n with
  | O => Ret []
  | S n' =>
    let off := image_offset lba i in
    if off + BLOCK_SIZE <=? IMAGE_SIZE then
      rest ← image_read img lba (S i) n';
      Ret (image_bytes img off ++ rest)
    else Oob
  end.

Definition image_put (img : Image) (off : Z) (bs : list Z) : Image :=
  mkImage (fun x => if (off <=? x) && (x <? off + Z.of_nat (length bs))
                    then nth (Z.to_nat (x - off)) bs 0 else image_storage img x).

Fixpoint image_write (img : Image) (bs : list Z) (lba : Z) (i n : nat) : outcome Image :=
  match n with
  | O => Ret img
  | S n' =>
    let off := image_offset lba i in
    if off + BLOCK_SIZE <=? IMAGE_SIZE then
      image_write (image_put img off (sub bs (512 * i) 512)) bs lba (S i) n'
    else Oob
  end.

#[export] Instance image_device : BlockDevice Image := {
  read_blocks img lba n := image_read img lba 0 (Z.to_nat n);
  write_blocks img bs lba n := image_write img bs lba 0 (Z.to_nat n);
}.

(** ** The image device meets the specification *)

Definition image_ok (img : Image) : Prop := forall x, is_byte (image_storage img x).
Definition image_block (img : Image) (i : Z) : list Z := image_bytes img (512 * i).

Lemma image_offset_in lba i : 0 <= lba -> lba + Z.of_nat i < 8192 ->
  image_offset lba i = 512 * (lba + Z.of_nat i).
Proof. intros. unfold image_offset, BLOCK_SIZE. rewrite (u32_id (lba + _)), u32_id; lia. Qed.

Lemma image_block_ok img i : image_ok img ->
  length (image_block img i) = 512%nat /\ Forall is_byte (image_block img i).
Proof.
  intros Hok. unfold image_block, image_bytes. split.
  - by rewrite length_fmap, length_seq.
  - rewrite Forall_fmap. apply Forall_true. intros k. apply Hok.
Qed.

Lemma image_read_spec img lba n : forall i, 0 <= lba -> lba + Z.of_nat (i + n) <= 8192 ->
  image_read img lba i n = Ret (mjoin ((fun k => image_block img (lba + Z.of_nat k)) <$> seq i n)).
Proof.
  induction n as [|n IH]; intros i H0 Hn; [done |].
  cbn [image_read]. rewrite image_offset_in by lia. unfold BLOCK_SIZE, IMAGE_SIZE.
  split_cond; [| lia]. rewrite IH by lia. by rewrite bind_ret_l.
Qed.

Lemma image_put_ok img off bs : image_ok img -> Forall is_byte bs -> image_ok (image_put img off bs).
Proof.
  intros Hok Hbs x. cbn. split_cond; [| apply Hok].
  by apply nth_byte.
Qed.

Lemma image_put_block img j bs i : length bs = 512%nat ->
  image_block (image_put img (512 * j) bs) i = if i =? j then bs else image_block img i.
Proof.
  intros Hl. unfold image_block, image_bytes, image_put. cbn [image_storage]. rewrite Hl.
  destruct (Z.eqb_spec i j) as [->|Hne].
  - apply list_eq_same_length with 512%nat;
      [done | by rewrite length_fmap, length_seq |].
    intros k x y Hk Hx Hy. apply list_lookup_fmap_Some in Hx as (k' & -> & Hk').
    apply lookup_seq in Hk' as [-> _]. split_cond; [| lia].
    replace (Z.to_nat _) with k by lia.
    by apply nth_lookup_Some.
  - apply list_fmap_ext. intros k k' Hk. apply lookup_seq in Hk as [-> ?].
    split_cond; [lia | done].
Qed.

Lemma image_write_spec bs lba n : forall i img, 0 <= lba -> lba + Z.of_nat (i + n) <= 8192 ->
  length bs = (512 * (i + n))%nat -> Forall is_byte bs -> image_ok img ->
  exists img', image_write img bs lba i n = Ret img' /\ image_ok img' /\
    forall j, image_block img' j =
      if (lba + Z.of_nat i <=? j) && (j <? lba + Z.of_nat (i + n))
      then sub bs (512 * Z.to_nat (j - lba)) 512 else image_block img j.
Proof.
  induction n as [|n IH]; intros i img H0 Hn Hl Hb Hok.
  { exists img. split_and!; [done | done |]. intros j. split_cond; [lia | done]. }
  cbn [image_write]. rewrite image_offset_in by lia. unfold BLOCK_SIZE, IMAGE_SIZE.
  split_cond; [| lia].
  assert (length (sub bs (512 * i) 512) = 512%nat) as Hs.
  { unfold sub. rewrite length_take, length_drop. lia. }
  destruct (IH (S i) (image_put img (512 * (lba + Z.of_nat i)) (sub bs (512 * i) 512)))
    as (img' & -> & Hok' & Hblk); [lia | lia | lia | done | |].
  { apply image_put_ok; [done |]. by apply Forall_take, Forall_drop. }
  exists img'. split_and!; [done | done |]. intros j. rewrite Hblk, image_put_block by done.
  destruct (Z.eqb_spec j (lba + Z.of_nat i)) as [->|].
  - split_cond; try lia. f_equal. lia.
  - split_cond; done || lia.
Qed.

#[export] Instance image_spec : BlockDeviceSpec Image.
Proof.
  refine {| dev_ok := image_ok; dev_block := image_block; dev_capacity := 8192 |}.
  - done.
  - intros. by apply image_block_ok.
  - intros d lba n Hok H0 Hn Hc. apply image_read_spec; lia.
  - intros d bs lba n Hok H0 Hn Hc Hl Hb.
    destruct (image_write_spec bs lba (Z.to_nat n) 0 d) as (d' & Hw & Hok' & Hblk);
      [lia | lia | lia | done | done |].
    exists d'. split_and!; [done | done |]. intros i Hi. rewrite Hblk.
    split_cond; done || lia.
Defined.
