(* ===== verification/Fat32Types.v ===== *)
(** * On-disk structures of the file system (src/header/filesystem/fat32.h)

    The packed C structures as records, with the byte layout the compiler gives
    them: a directory entry is 32 bytes, a directory table 64 entries and a file
    allocation table 512 words, both one cluster of 2048 bytes. *)
From S2P Require Import Prelude.

Definition CLUSTER_BLOCK_COUNT : Z := 4.
Definition CLUSTER_SIZE : Z := 2048.
Definition CLUSTER_MAP_SIZE : nat := 512.
Definition CLUSTER_0_VALUE : Z := 0x0FFFFFF0.
Definition CLUSTER_1_VALUE : Z := 0x0FFFFFFF.
Definition FAT32_FAT_END_OF_FILE : Z := 0x0FFFFFFF.
Definition FAT32_FAT_EMPTY_ENTRY : Z := 0.
Definition FAT_CLUSTER_NUMBER : Z := 1.
Definition ROOT_CLUSTER_NUMBER : Z := 2.
Definition ATTR_SUBDIRECTORY : Z := 16.
Definition UATTR_NOT_EMPTY : Z := 170.
(** [sizeof(struct FAT32DirectoryTable) / sizeof(struct FAT32DirectoryEntry)] *)
Definition DIR_LENGTH : nat := 64.

(** ** struct FAT32DirectoryEntry *)

Record FAT32DirectoryEntry := mkEntry {
  name : list Z;
  ext : list Z;
  attribute : Z;
  user_attribute : Z;
  undelete : Z;
  create_time : Z;
  create_date : Z;
  access_date : Z;
  cluster_high : Z;
  modified_time : Z;
  modified_date : Z;
  cluster_low : Z;
  filesize : Z;
}.

Definition encode_entry (e : FAT32DirectoryEntry) : list Z :=
  name e ++ ext e ++
  le_encode 1 (attribute e) ++ le_encode 1 (user_attribute e) ++ le_encode 1 (undelete e) ++
  le_encode 2 (create_time e) ++ le_encode 2 (create_date e) ++ le_encode 2 (access_date e) ++
  le_encode 2 (cluster_high e) ++ le_encode 2 (modified_time e) ++
  le_encode 2 (modified_date e) ++ le_encode 2 (cluster_low e) ++ le_encode 4 (filesize e).

Definition decode_entry (bs : list Z) : FAT32DirectoryEntry := {|
  name := sub bs 0 8;
  ext := sub bs 8 3;
  attribute := le_decode (sub bs 11 1);
  user_attribute := le_decode (sub bs 12 1);
  undelete := le_decode (sub bs 13 1);
  create_time := le_decode (sub bs 14 2);
  create_date := le_decode (sub bs 16 2);
  access_date := le_decode (sub bs 18 2);
  cluster_high := le_decode (sub bs 20 2);
  modified_time := le_decode (sub bs 22 2);
  modified_date := le_decode (sub bs 24 2);
  cluster_low := le_decode (sub bs 26 2);
  filesize := le_decode (sub bs 28 4);
|}.

(** [{0}]: every byte of the entry is zero. *)
Definition zero_entry : FAT32DirectoryEntry :=
  mkEntry (replicate 8 0) (replicate 3 0) 0 0 0 0 0 0 0 0 0 0 0.

(** ** struct FAT32DirectoryTable and struct FAT32FileAllocationTable *)

Definition encode_table (t : list FAT32DirectoryEntry) : list Z := mjoin (encode_entry <$> t).
Definition decode_table (bs : list Z) : list FAT32DirectoryEntry :=
  decode_entry <$> chunks 32 DIR_LENGTH bs.

Definition encode_fat (f : list Z) : list Z := mjoin (le_encode 4 <$> f).
Definition decode_fat (bs : list Z) : list Z := le_decode <$> chunks 4 CLUSTER_MAP_SIZE bs.

(** ** struct FAT32DriverRequest *)

Record FAT32DriverRequest := mkRequest {
  buf : Z;
  req_name : list Z;
  req_ext : list Z;
  parent_cluster_number : Z;
  buffer_size : Z;
}.

(** The packed struct. *)
Definition request_bytes (r : FAT32DriverRequest) : list Z :=
  le_encode 4 (buf r) ++ req_name r ++ req_ext r ++ le_encode 4 (parent_cluster_number r) ++ le_encode 4 (buffer_size r).

(** ** Values that fit their C types *)

Definition entry_ok (e : FAT32DirectoryEntry) : Prop :=
  length (name e) = 8%nat /\ Forall is_byte (name e) /\
  length (ext e) = 3%nat /\ Forall is_byte (ext e) /\
  is_byte (attribute e) /\ is_byte (user_attribute e) /\ is_byte (undelete e) /\
  Forall (fun v => 0 <= v < 2 ^ 16)
    [create_time e; create_date e; access_date e; cluster_high e;
     modified_time e; modified_date e; cluster_low e] /\
  0 <= filesize e < 2 ^ 32.

Definition table_ok (t : list FAT32DirectoryEntry) : Prop :=
  length t = DIR_LENGTH /\ Forall entry_ok t.
Definition fat_ok (f : list Z) : Prop :=
  length f = CLUSTER_MAP_SIZE /\ Forall (fun v => 0 <= v < 2 ^ 32) f.
Definition cluster_ok (bs : list Z) : Prop := length bs = 2048%nat /\ Forall is_byte bs.

(** ** Round trips *)

Lemma sub_app_here {A} (a b : list A) n : length a = n -> sub (a ++ b) 0 n = a.
Proof. intros <-. apply take_app_length. Qed.

Lemma sub_app_skip {A} (a b : list A) off n :
  (length a <= off)%nat -> sub (a ++ b) off n = sub b (off - length a) n.
Proof. intros H. unfold sub. by rewrite drop_app_ge. Qed.

Lemma length_sub {A} (bs : list A) off n : (off + n <= length bs)%nat -> length (sub bs off n) = n.
Proof. intros. unfold sub. rewrite length_take, length_drop. lia. Qed.

Lemma sub_bytes bs off n : Forall is_byte bs -> Forall is_byte (sub bs off n).
Proof. intros. by apply Forall_take, Forall_drop. Qed.

Lemma sub_split {A} (bs : list A) off n off' k :
  off' = (off + n)%nat -> sub bs off n ++ sub bs off' k = sub bs off (n + k).
Proof.
  intros ->. unfold sub. rewrite <- drop_drop.
  rewrite <- (take_drop n (take (n + k) (drop off bs))).
  rewrite take_take, Nat.min_l by lia. f_equal.
  by rewrite take_drop_commute.
Qed.

Lemma sub_all {A} (a : list A) n : length a = n -> sub a 0 n = a.
Proof. intros <-. apply firstn_all. Qed.

Lemma le_field bs off n k : length bs = k -> (off + n <= k)%nat -> Forall is_byte bs ->
  le_encode n (le_decode (sub bs off n)) = sub bs off n.
Proof.
  intros <- Hn Hb. rewrite <- (length_sub bs off n) at 1 by done.
  by apply le_encode_decode, sub_bytes.
Qed.

(** Cut one field out of the concatenation of all of them. *)
Ltac cut_field :=
  repeat (rewrite sub_app_skip by (rewrite ?length_le_encode; lia));
  rewrite ?length_le_encode;
  first [rewrite sub_app_here by (rewrite ?length_le_encode; lia)
        | rewrite sub_all by (rewrite ?length_le_encode; lia)].

Lemma decode_encode_entry e : entry_ok e -> decode_entry (encode_entry e) = e.
Proof.
  intros (Hn & _ & He & _ & Ha & Hu & Hd & Hw & Hf).
  unfold is_byte in *. rewrite !Forall_cons in Hw. destruct Hw as (?&?&?&?&?&?&?&_).
  unfold decode_entry, encode_entry.
  assert (Hskip : forall off n r, sub (name e ++ ext e ++ r) (11 + off) n = sub r off n).
  { intros off n r. rewrite !sub_app_skip by lia. rewrite Hn, He. f_equal. lia. }
  rewrite (sub_app_here (name e)) by done.
  rewrite (sub_app_skip (name e) _ 8), Hn, (sub_app_here (ext e)) by lia.
  rewrite (Hskip 0%nat 1%nat), (Hskip 1%nat 1%nat), (Hskip 2%nat 1%nat), (Hskip 3%nat 2%nat),
    (Hskip 5%nat 2%nat), (Hskip 7%nat 2%nat), (Hskip 9%nat 2%nat), (Hskip 11%nat 2%nat),
    (Hskip 13%nat 2%nat), (Hskip 15%nat 2%nat), (Hskip 17%nat 4%nat).
  destruct e; cbn [name ext attribute user_attribute undelete create_time create_date
    access_date cluster_high modified_time modified_date cluster_low filesize] in *.
  f_equal; cut_field; apply le_decode_encode; lia.
Qed.

Lemma decode_entry_ok bs : length bs = 32%nat -> Forall is_byte bs -> entry_ok (decode_entry bs).
Proof.
  intros Hl Hb.
  assert (Hr : forall off n, (off + n <= 32)%nat ->
    0 <= le_decode (sub bs off n) < 256 ^ Z.of_nat n).
  { intros off n Hn. pose proof (le_decode_range (sub bs off n) (sub_bytes _ _ _ Hb)) as Hr.
    by rewrite length_sub in Hr by lia. }
  unfold entry_ok, is_byte; cbn [name ext attribute user_attribute undelete create_time
    create_date access_date cluster_high modified_time modified_date cluster_low filesize
    decode_entry].
  split_and!; try (apply sub_bytes; done); try (apply length_sub; lia);
    try (apply (Hr _ 1%nat); lia); try (apply (Hr _ 4%nat); lia).
  repeat constructor; apply (Hr _ 2%nat); lia.
Qed.

Lemma encode_decode_entry bs : length bs = 32%nat -> Forall is_byte bs ->
  encode_entry (decode_entry bs) = bs.
Proof.
  intros Hl Hb. unfold encode_entry, decode_entry; cbn [name ext attribute user_attribute
    undelete create_time create_date access_date cluster_high modified_time modified_date
    cluster_low filesize].
  rewrite !(le_field bs _ _ 32) by (done || lia).
  by rewrite !sub_split, sub_all by done.
Qed.

Lemma length_encode_entry e : entry_ok e -> length (encode_entry e) = 32%nat.
Proof.
  intros (Hn & _ & He & _). unfold encode_entry.
  rewrite !length_app, !length_le_encode. lia.
Qed.

Lemma encode_entry_bytes e : entry_ok e -> Forall is_byte (encode_entry e).
Proof.
  intros (_ & Hn & _ & He & _). unfold encode_entry.
  rewrite !Forall_app. split_and!; auto using le_encode_bytes.
Qed.

Lemma zero_entry_ok : entry_ok zero_entry.
Proof. unfold entry_ok, is_byte. cbn. split_and!; try lia; repeat constructor; lia. Qed.

(** Tables and allocation tables fill one cluster. *)
Lemma decode_encode_table t : table_ok t -> decode_table (encode_table t) = t.
Proof.
  intros [Hl Ht]. unfold decode_table, encode_table.
  rewrite <- Hl, <- (length_fmap encode_entry t), chunks_concat.
  - rewrite <- list_fmap_compose. rewrite <- (list_fmap_id t) at 2.
    apply list_fmap_ext. intros i e He. apply decode_encode_entry.
    by eapply Forall_lookup_1.
  - rewrite Forall_fmap. eapply Forall_impl; [done |]. apply length_encode_entry.
Qed.

Lemma decode_table_ok bs : cluster_ok bs -> table_ok (decode_table bs).
Proof.
  intros [Hl Hb]. unfold table_ok, decode_table. rewrite length_fmap, length_chunks.
  split; [done |]. rewrite Forall_fmap.
  pose proof (chunks_length 32 DIR_LENGTH bs Hl) as H1.
  pose proof (chunks_Forall is_byte 32 DIR_LENGTH bs Hb) as H2.
  eapply Forall_impl; [apply Forall_and; split; [exact H1 | exact H2] |].
  intros c [? ?]. by apply decode_entry_ok.
Qed.

Lemma encode_decode_table bs : cluster_ok bs -> encode_table (decode_table bs) = bs.
Proof.
  intros [Hl Hb]. unfold encode_table, decode_table. rewrite <- list_fmap_compose.
  rewrite <- (concat_chunks 32 DIR_LENGTH bs) at 2 by done. f_equal.
  rewrite <- (list_fmap_id (chunks _ _ _)) at 2. apply list_fmap_ext. intros i c Hc.
  apply encode_decode_entry.
  - exact (Forall_lookup_1 _ _ _ _ (chunks_length 32 DIR_LENGTH bs Hl) Hc).
  - exact (Forall_lookup_1 _ _ _ _ (chunks_Forall is_byte 32 DIR_LENGTH bs Hb) Hc).
Qed.

Lemma mjoin_length {A} k (ls : list (list A)) :
  Forall (fun l => length l = k) ls -> length (mjoin ls) = (k * length ls)%nat.
Proof.
  induction 1 as [|l ls Hl _ IH]; [cbn; lia |].
  change (mjoin (l :: ls)) with (l ++ mjoin ls). cbn [length]. rewrite length_app. lia.
Qed.

Lemma encode_table_ok t : table_ok t -> cluster_ok (encode_table t).
Proof.
  intros [Hl Ht]. unfold cluster_ok, encode_table. split.
  - rewrite (mjoin_length 32); [by rewrite length_fmap, Hl |].
    rewrite Forall_fmap. eapply Forall_impl; [done | apply length_encode_entry].
  - apply Forall_join. rewrite Forall_fmap.
    eapply Forall_impl; [done | apply encode_entry_bytes].
Qed.

Lemma decode_encode_fat f : fat_ok f -> decode_fat (encode_fat f) = f.
Proof.
  intros [Hl Hf]. unfold decode_fat, encode_fat.
  rewrite <- Hl, <- (length_fmap (le_encode 4) f), chunks_concat.
  - rewrite <- list_fmap_compose. rewrite <- (list_fmap_id f) at 2.
    apply list_fmap_ext. intros i v Hv. apply le_decode_encode.
    by apply (Forall_lookup_1 _ _ _ _ Hf Hv).
  - rewrite Forall_fmap. apply Forall_true. intros v. apply length_le_encode.
Qed.

Lemma encode_fat_ok f : fat_ok f -> cluster_ok (encode_fat f).
Proof.
  intros [Hl _]. unfold cluster_ok, encode_fat. split.
  - rewrite (mjoin_length 4); [by rewrite length_fmap, Hl |].
    rewrite Forall_fmap. apply Forall_true. intros v. apply length_le_encode.
  - apply Forall_join. rewrite Forall_fmap. apply Forall_true. intros v. apply le_encode_bytes.
Qed.

Lemma decode_fat_ok bs : cluster_ok bs -> fat_ok (decode_fat bs).
Proof.
  intros [Hl Hb]. unfold fat_ok, decode_fat. rewrite length_fmap, length_chunks.
  split; [done |]. rewrite Forall_fmap.
  pose proof (chunks_length 4 CLUSTER_MAP_SIZE bs Hl) as H1.
  pose proof (chunks_Forall is_byte 4 CLUSTER_MAP_SIZE bs Hb) as H2.
  eapply Forall_impl; [apply Forall_and; split; [exact H1 | exact H2] |].
  intros c [Hc ?]. pose proof (le_decode_range c) as Hr. rewrite Hc in Hr. by apply Hr.
Qed.

Lemma encode_decode_fat bs : cluster_ok bs -> encode_fat (decode_fat bs) = bs.
Proof.
  intros [Hl Hb]. unfold encode_fat, decode_fat. rewrite <- list_fmap_compose.
  rewrite <- (concat_chunks 4 CLUSTER_MAP_SIZE bs) at 2 by done. f_equal.
  rewrite <- (list_fmap_id (chunks _ _ _)) at 2. apply list_fmap_ext. intros i c Hc.
  unfold compose, id.
  pose proof (Forall_lookup_1 _ _ _ _ (chunks_length 4 CLUSTER_MAP_SIZE bs Hl) Hc) as H4.
  cbn beta in H4. rewrite <- H4 at 1. apply le_encode_decode.
  by apply (Forall_lookup_1 _ _ _ _ (chunks_Forall is_byte 4 CLUSTER_MAP_SIZE bs Hb) Hc).
Qed.
