(* ===== verification/Fat32.v ===== *)
(** * The FAT32 driver (src/fat32.c)

    Every driver entry point as a state transformer on the driver's static state
    and the block device it is linked with.  Data buffers of a request live in
    the caller's memory: [write] loads them from the flat memory, [read] stores
    through a [put] operation so that it can fill flat memory or a local array. *)
From Stdlib Require Import String.
From S2P Require Import Prelude CString BlockDevice Fat32Types.
#[local] Open Scope Z_scope.

(** ** Driver state *)

(** struct FAT32DriverState *)
Record FAT32DriverState := mkDriver {
  fat_table : list Z;
  dir_table_buf : list FAT32DirectoryEntry;
  cluster_buf : list Z;
}.

(** The driver together with the device it talks to. *)
Record Fs (D : Type) := mkFs { driver_state : FAT32DriverState; disk : D }.
Arguments mkFs {D}.
Arguments driver_state {D}.
Arguments disk {D}.

(** [static struct FAT32DriverState driver_state = {0};] *)
Definition initial_driver_state : FAT32DriverState :=
  mkDriver (replicate CLUSTER_MAP_SIZE 0) (replicate DIR_LENGTH zero_entry) (replicate 2048 0).

Definition fat_of {D} (fs : Fs D) : list Z := fat_table (driver_state fs).
Definition dir_of {D} (fs : Fs D) : list FAT32DirectoryEntry := dir_table_buf (driver_state fs).
Definition set_fat {D} (fs : Fs D) (f : list Z) : Fs D :=
  mkFs (mkDriver f (dir_of fs) (cluster_buf (driver_state fs))) (disk fs).
Definition set_dir {D} (fs : Fs D) (t : list FAT32DirectoryEntry) : Fs D :=
  mkFs (mkDriver (fat_of fs) t (cluster_buf (driver_state fs))) (disk fs).
Definition set_disk {D} (fs : Fs D) (d : D) : Fs D := mkFs (driver_state fs) d.

(** ** Helpers *)

Definition fs_signature : list Z :=
  Eval vm_compute in
  bytes_of "Course          Designed by     Lab Sister ITB  Made with <3    -----------2024"%string
  ++ [10] ++ replicate 430 0 ++ [79; 107].

Definition cluster_to_lba (cluster : Z) : Z := u32 (cluster * CLUSTER_BLOCK_COUNT).

(** [int32_t] division rounded up (C truncates towards zero). *)
Definition ceil_div (a b : Z) : Z := Z.quot a b + (if Z.rem a b =? 0 then 0 else 1).

(** [cluster_low | (cluster_high << 16)] *)
Definition entry_cluster (e : FAT32DirectoryEntry) : Z :=
  u32 (Z.lor (cluster_low e) (Z.shiftl (cluster_high e) 16)).

(** Name and extension equal to the given bytes. *)
Definition entry_match (nm ex : list Z) (e : FAT32DirectoryEntry) : bool :=
  (memcmp (at_list (name e)) (at_list nm) 8 =? 0) &&
  (memcmp (at_list (ext e)) (at_list ex) 3 =? 0).

Definition init_directory_table (dir_table : list FAT32DirectoryEntry) (nm : list Z)
    (parent_dir_cluster : Z) : outcome (list FAT32DirectoryEntry) :=
  e ← aget dir_table 0;
  aset dir_table 0
    (mkEntry (take 8 nm) (ext e) ATTR_SUBDIRECTORY UATTR_NOT_EMPTY (undelete e)
       (create_time e) (create_date e) (access_date e)
       (Z.land (Z.shiftr parent_dir_cluster 16) 0xFFFF)
       (modified_time e) (modified_date e)
       (Z.land parent_dir_cluster 0xFFFF) (filesize e)).

Definition find_entry_index (dir_table : list FAT32DirectoryEntry) (nm ex : list Z) : Z :=
  match first_index (fun e => entry_match nm ex e && (user_attribute e =? UATTR_NOT_EMPTY))
                    dir_table with
  | Some i => Z.of_nat i
  | None => -1
  end.

Definition find_empty_entry_index (dir_table : list FAT32DirectoryEntry) : Z :=
  match first_index (fun e => memcmp (at_list (encode_entry e)) (at_list (replicate 32 0)) 32 =? 0)
                    dir_table with
  | Some i => Z.of_nat i
  | None => -1
  end.

Definition is_same_directory (req1 req2 : FAT32DriverRequest) : bool :=
  (parent_cluster_number req1 =? parent_cluster_number req2) &&
  (memcmp (at_list (req_name req1)) (at_list (req_name req2)) 8 =? 0) &&
  (memcmp (at_list (req_ext req1)) (at_list (req_ext req2)) 3 =? 0).

Section Driver.
Context {D : Type} `{BlockDevice D}.

Definition write_clusters (d : D) (ptr : list Z) (cluster_number cluster_count : Z) : outcome D :=
  write_blocks d ptr (cluster_to_lba cluster_number) (u8 (cluster_count * CLUSTER_BLOCK_COUNT)).

Definition read_clusters (d : D) (cluster_number cluster_count : Z) : outcome (list Z) :=
  read_blocks d (cluster_to_lba cluster_number) (u8 (cluster_count * CLUSTER_BLOCK_COUNT)).

(** [read_clusters] into a directory table. *)
Definition read_dir_cluster (d : D) (cluster_number : Z) : outcome (list FAT32DirectoryEntry) :=
  bs ← read_clusters d cluster_number 1; Ret (decode_table bs).

(** ** Formatting and mounting *)

Definition is_empty_storage (d : D) : outcome bool :=
  boot_sector ← read_blocks d 0 1;
  Ret (negb (memcmp (at_list boot_sector) (at_list fs_signature) 512 =? 0)).

(** [lit_tail] holds the three bytes that follow the literal "root" and its
    terminator in memory: [init_directory_table] copies eight bytes. *)
Definition create_fat32 (lit_tail : list Z) (fs : Fs D) : outcome (Fs D) :=
  d1 ← write_blocks (disk fs) fs_signature 0 1;
  f0 ← aset (fat_of fs) 0 CLUSTER_0_VALUE;
  f1 ← aset f0 1 CLUSTER_1_VALUE;
  f2 ← aset f1 ROOT_CLUSTER_NUMBER FAT32_FAT_END_OF_FILE;
  f ← for_upM 3 (CLUSTER_MAP_SIZE - 3) (fun i f => aset f (Z.of_nat i) FAT32_FAT_EMPTY_ENTRY) f2;
  d2 ← write_clusters d1 (encode_fat f) FAT_CLUSTER_NUMBER 1;
  root_dir_table ← init_directory_table (replicate DIR_LENGTH zero_entry)
                     (bytes_of "root" ++ [0] ++ lit_tail) ROOT_CLUSTER_NUMBER;
  d3 ← write_clusters d2 (encode_table root_dir_table) ROOT_CLUSTER_NUMBER 1;
  Ret (set_disk (set_fat fs f) d3).

Definition initialize_filesystem_fat32 (lit_tail : list Z) (fs : Fs D) : outcome (Fs D) :=
  empty ← is_empty_storage (disk fs);
  if (empty : bool) then create_fat32 lit_tail fs
  else bs ← read_clusters (disk fs) FAT_CLUSTER_NUMBER 1; Ret (set_fat fs (decode_fat bs)).

(** ** Directory navigation *)

Definition move_to_child_directory (fs : Fs D) (r : FAT32DriverRequest) : outcome Z :=
  directory ← read_dir_cluster (disk fs) (parent_cluster_number r);
  match first_index (fun e => (memcmp (at_list (ext e)) (at_list (bytes_of "dir")) 3 =? 0) &&
                              (memcmp (at_list (name e)) (at_list (req_name r)) 8 =? 0))
                    (drop 1 directory) with
  | Some i => e ← aget directory (Z.of_nat i + 1); Ret (entry_cluster e)
  | None => Ret 0
  end.

Definition move_to_parent_directory (fs : Fs D) (r : FAT32DriverRequest) : outcome Z :=
  directory ← read_dir_cluster (disk fs) (parent_cluster_number r);
  e ← aget directory 0; Ret (entry_cluster e).

Definition read_directory (fs : Fs D) (r : FAT32DriverRequest) : outcome (Fs D * Z) :=
  t ← read_dir_cluster (disk fs) (parent_cluster_number r);
  let fs := set_dir fs t in
  e0 ← aget t 0;
  if negb (attribute e0 =? ATTR_SUBDIRECTORY) then Ret (fs, -1) else
  match first_index (entry_match (req_name r) (req_ext r)) t with
  | None => Ret (fs, 2)
  | Some i =>
    e ← aget t (Z.of_nat i);
    if negb (attribute e =? ATTR_SUBDIRECTORY) then Ret (fs, 1) else
    t' ← read_dir_cluster (disk fs) (entry_cluster e);
    Ret (set_dir fs t', 0)
  end.

(** [move_dir] never loads its two local tables from the disk: [src_table] and
    [dest_table] are whatever the stack held. *)
Definition move_dir (src_table dest_table : list FAT32DirectoryEntry) (fs : Fs D)
    (src_req dest_req : FAT32DriverRequest) : outcome (Fs D * Z) :=
  if is_same_directory src_req dest_req then Ret (fs, 4) else
  let i := find_entry_index src_table (req_name src_req) (req_ext src_req) in
  if i =? -1 then Ret (fs, 1) else
  entry_to_move ← aget src_table i;
  '(fs, rc) ← read_directory fs dest_req;
  if negb (rc =? 0) then Ret (fs, 2) else
  let j := find_empty_entry_index dest_table in
  if j =? -1 then Ret (fs, 3) else
  dest_table ← aset dest_table j entry_to_move;
  src_table ← aset src_table i zero_entry;
  d1 ← write_clusters (disk fs) (encode_table src_table) (parent_cluster_number src_req) 1;
  d2 ← write_clusters d1 (encode_table dest_table) (parent_cluster_number dest_req) 1;
  Ret (set_disk fs d2, 0).

(** ** Reading a file *)

(** The do-while loop over the cluster chain.  A chain that does not repeat has
    at most 512 clusters, so [CHAIN_FUEL] rounds decide it. *)
Definition CHAIN_FUEL : nat := 513.

Fixpoint read_chain {B} (put : B -> Z -> list Z -> outcome B) (fat : list Z) (d : D)
    (b : B) (cluster_number offset : Z) (fuel : nat) : outcome B :=
  match fuel with
  | O => NoFuel
  | S fuel' =>
    bs ← read_clusters d cluster_number 1;
    b' ← put b (u32 (offset * CLUSTER_SIZE)) bs;
    next ← aget fat cluster_number;
    if next =? FAT32_FAT_END_OF_FILE then Ret b'
    else read_chain put fat d b' next (u32 (offset + 1)) fuel'
  end.

Definition read {B} (put : B -> Z -> list Z -> outcome B) (fs : Fs D) (b : B)
    (r : FAT32DriverRequest) : outcome (Fs D * B * Z) :=
  t ← read_dir_cluster (disk fs) (parent_cluster_number r);
  let fs := set_dir fs t in
  e0 ← aget t 0;
  if negb (attribute e0 =? ATTR_SUBDIRECTORY) then Ret (fs, b, -1) else
  match first_index (entry_match (req_name r) (req_ext r)) t with
  | None => Ret (fs, b, 3)
  | Some i =>
    e ← aget t (Z.of_nat i);
    if attribute e =? ATTR_SUBDIRECTORY then Ret (fs, b, 1) else
    if negb (filesize e <=? buffer_size r) then Ret (fs, b, 2) else
    b' ← read_chain put (fat_of fs) (disk fs) b (entry_cluster e) 0 CHAIN_FUEL;
    Ret (fs, b', 0)
  end.

(** [request.buf] in flat memory. *)
Definition put_mem (base : Z) (m : mem) (off : Z) (bs : list Z) : outcome mem :=
  Ret (store_bytes m (u32 (base + off)) bs).
Definition read_mem (fs : Fs D) (m : mem) (r : FAT32DriverRequest) : outcome (Fs D * mem * Z) :=
  read (put_mem (buf r)) fs m r.

(** ** Writing a file or a directory *)

Definition cluster_available (fat : list Z) : Z :=
  Z.of_nat (length (List.filter (fun v => v =? FAT32_FAT_EMPTY_ENTRY) (drop 2 fat))).

Definition first_empty_cluster (fat : list Z) : Z :=
  match first_index (fun v => v =? FAT32_FAT_EMPTY_ENTRY) (drop 2 fat) with
  | Some i => Z.of_nat (i + 2)
  | None => 0
  end.

Fixpoint empty_from (i : nat) (fat : list Z) : list Z :=
  match fat with
  | [] => []
  | v :: fat' =>
    if v =? FAT32_FAT_EMPTY_ENTRY then Z.of_nat i :: empty_from (S i) fat'
    else empty_from (S i) fat'
  end.

(** The array [empty_clusters[CLUSTER_MAP_SIZE] = {0}] after its loop. *)
Definition empty_clusters (fat : list Z) : list Z :=
  empty_from 0 fat ++ replicate (CLUSTER_MAP_SIZE - length (empty_from 0 fat)) 0.

Fixpoint write_file_clusters (m : mem) (base : Z) (empties : list Z) (cluster_count : Z)
    (i n : nat) (fat : list Z) (d : D) : outcome (list Z * D) :=
  match n with
  | O => Ret (fat, d)
  | S n' =>
    cluster_number ← aget empties (Z.of_nat i);
    fat' ← (if Z.of_nat i =? u32 (cluster_count - 1)
            then aset fat cluster_number FAT32_FAT_END_OF_FILE
            else next ← aget empties (Z.of_nat i + 1); aset fat cluster_number next);
    d' ← write_clusters d
           (load_bytes m (base + Z.of_nat i * CLUSTER_SIZE) 2048) cluster_number 1;
    write_file_clusters m base empties cluster_count (S i) n' fat' d'
  end.

(** The slot of the new entry: the first free one from index 1, else index 0. *)
Definition new_entry_index (t : list FAT32DirectoryEntry) : nat :=
  match first_index (fun e => negb (user_attribute e =? UATTR_NOT_EMPTY)) (drop 1 t) with
  | Some i => S i
  | None => O
  end.

Definition write (fs : Fs D) (m : mem) (r : FAT32DriverRequest) : outcome (Fs D * Z) :=
  t ← read_dir_cluster (disk fs) (parent_cluster_number r);
  let fs := set_dir fs t in
  e0 ← aget t 0;
  if negb (attribute e0 =? ATTR_SUBDIRECTORY) then Ret (fs, -1) else
  match first_index (entry_match (req_name r) (req_ext r)) t with
  | Some _ => Ret (fs, 1)
  | None =>
    let cluster_count := u32 (ceil_div (i32 (buffer_size r)) CLUSTER_SIZE) in
    if cluster_available (fat_of fs) <? cluster_count then Ret (fs, -1) else
    let empty_cluster := first_empty_cluster (fat_of fs) in
    let new_entry attr := mkEntry (take 8 (req_name r)) (take 3 (req_ext r)) attr UATTR_NOT_EMPTY
      0 0 0 0 (Z.land (Z.shiftr empty_cluster 16) 0xFFFF) 0 0 (Z.land empty_cluster 0xFFFF)
      (buffer_size r) in
    '(fat, d, e) ←
      (if buffer_size r =? 0 then
        new_dir_table ← init_directory_table (replicate DIR_LENGTH zero_entry) (req_name r)
                          (parent_cluster_number r);
        fat ← aset (fat_of fs) empty_cluster FAT32_FAT_END_OF_FILE;
        d ← write_clusters (disk fs) (encode_table new_dir_table) empty_cluster 1;
        Ret (fat, d, new_entry ATTR_SUBDIRECTORY)
      else
        '(fat, d) ← write_file_clusters m (buf r) (empty_clusters (fat_of fs)) cluster_count
                      0 (Z.to_nat cluster_count) (fat_of fs) (disk fs);
        Ret (fat, d, new_entry 0));
    t' ← aset t (Z.of_nat (new_entry_index t)) e;
    d1 ← write_clusters d (encode_table t') (parent_cluster_number r) 1;
    d2 ← write_clusters d1 (encode_fat fat) FAT_CLUSTER_NUMBER 1;
    Ret (set_disk (set_dir (set_fat fs fat) t') d2, 0)
  end.

(** ** Deleting a file or an empty directory *)

(** The do-while loop that frees the chain. *)
Fixpoint free_chain (fat : list Z) (cluster_number : Z) (fuel : nat) : outcome (list Z) :=
  match fuel with
  | O => NoFuel
  | S fuel' =>
    next_cluster ← aget fat cluster_number;
    fat' ← aset fat cluster_number FAT32_FAT_EMPTY_ENTRY;
    if next_cluster =? FAT32_FAT_END_OF_FILE then Ret fat'
    else free_chain fat' next_cluster fuel'
  end.

(** The entry after [memset] of its name and extension. *)
Definition removed_entry (e : FAT32DirectoryEntry) : FAT32DirectoryEntry :=
  mkEntry (replicate 8 0) (replicate 3 0) (attribute e) 0 (undelete e)
    (create_time e) (create_date e) (access_date e) (cluster_high e)
    (modified_time e) (modified_date e) (cluster_low e) (filesize e).

Definition delete (fs : Fs D) (r : FAT32DriverRequest) : outcome (Fs D * Z) :=
  t ← read_dir_cluster (disk fs) (parent_cluster_number r);
  let fs := set_dir fs t in
  e0 ← aget t 0;
  if negb (attribute e0 =? ATTR_SUBDIRECTORY) then Ret (fs, -1) else
  match first_index (entry_match (req_name r) (req_ext r)) t with
  | None => Ret (fs, 1)
  | Some i =>
    entry ← aget t (Z.of_nat i);
    not_empty ←
      (if attribute entry =? ATTR_SUBDIRECTORY then
         dir_table ← read_dir_cluster (disk fs) (entry_cluster entry);
         Ret (existsb (fun e => user_attribute e =? UATTR_NOT_EMPTY) (drop 1 dir_table))
       else Ret false);
    if (not_empty : bool) then Ret (fs, 2) else
    t' ← aset t (Z.of_nat i) (removed_entry entry);
    fat' ← free_chain (fat_of fs) (entry_cluster entry) CHAIN_FUEL;
    d1 ← write_clusters (disk fs) (encode_table t') (parent_cluster_number r) 1;
    d2 ← write_clusters d1 (encode_fat fat') FAT_CLUSTER_NUMBER 1;
    Ret (set_disk (set_dir (set_fat fs fat') t') d2, 0)
  end.
End Driver.
