(* ===== verification/Fat32Chain.v ===== *)
(** * Cluster chains of the file allocation table

    The pure part of the driver's correctness: which clusters are free, what the
    allocation loop of [write] links together, and what [delete] releases. *)
From S2P Require Import Prelude CString BlockDevice Fat32Types Fat32.

Abbreviation EOF := FAT32_FAT_END_OF_FILE.

(** [chain fat c l]: following the table from [c] visits exactly [l], then EOF. *)
Inductive chain (fat : list Z) : Z -> list Z -> Prop :=
  | chain_end c : aget fat c = Ret EOF -> chain fat c [c]
  | chain_next c n l : aget fat c = Ret n -> n <> EOF -> chain fat n l -> chain fat c (c :: l).

(** The table after linking the clusters of [cl] one to the next. *)
Fixpoint link_chain (fat : list Z) (cl : list Z) : list Z :=
  match cl with
  | [] => fat
  | c :: cl' =>
    match cl' with
    | [] => <[Z.to_nat c := EOF]> fat
    | n :: _ => link_chain (<[Z.to_nat c := n]> fat) cl'
    end
  end.

(** The table after releasing the clusters of [cl]. *)
Definition zero_all (fat : list Z) (cl : list Z) : list Z :=
  foldl (fun f c => <[Z.to_nat c := FAT32_FAT_EMPTY_ENTRY]> f) fat cl.

(** Cluster numbers that index the table. *)
Definition in_table (fat : list Z) (c : Z) : Prop := 0 <= c < Z.of_nat (length fat).

(** ** Chains *)

Lemma chain_det fat c l1 : chain fat c l1 -> forall l2, chain fat c l2 -> l1 = l2.
Proof.
  induction 1 as [c Hc | c n l Hc Hn _ IH]; intros l2 H2; inversion H2; subst.
  - done.
  - congruence.
  - congruence.
  - f_equal. apply IH. congruence.
Qed.

Lemma chain_hd fat c l : chain fat c l -> exists l', l = c :: l'.
Proof. inversion 1; eauto. Qed.

Lemma chain_in_table fat c l : chain fat c l -> Forall (in_table fat) l.
Proof.
  induction 1 as [c Hc | c n l Hc Hn _ IH]; constructor; try done;
    apply aget_ret in Hc as [? ?%lookup_lt_Some]; unfold in_table; lia.
Qed.

(** Every member starts a strictly shorter chain, so none comes twice. *)
Lemma chain_suffix fat c l x : chain fat c l -> x ∈ l ->
  exists l', chain fat x l' /\ (length l' <= length l)%nat.
Proof.
  induction 1 as [c Hc | c n l Hc Hn Hl IH]; intros Hx.
  - apply list_elem_of_singleton in Hx as ->. exists [c]. by split; [constructor |].
  - apply elem_of_cons in Hx as [->|Hx].
    + exists (c :: l). by split; [eapply chain_next |].
    + destruct (IH Hx) as (l' & ? & ?). exists l'. split; [done | cbn; lia].
Qed.

Lemma chain_NoDup fat c l : chain fat c l -> NoDup l.
Proof.
  induction 1 as [c Hc | c n l Hc Hn Hl IH]; constructor; try done.
  - apply not_elem_of_nil.
  - constructor.
  - intros Hin. destruct (chain_suffix fat n l c Hl Hin) as (l' & Hl' & Hlen).
    assert (l' = c :: l) as -> by (eapply chain_det; [done | by eapply chain_next]).
    cbn in Hlen. lia.
Qed.

(** A chain of a 512-entry table has at most 512 clusters. *)
Lemma chain_length fat c l : chain fat c l -> (length l <= length fat)%nat.
Proof.
  intros Hc. pose proof (chain_NoDup _ _ _ Hc) as Hnd. pose proof (chain_in_table _ _ _ Hc) as Hin.
  assert (Z.to_nat <$> l ⊆ seq 0 (length fat)) as Hsub.
  { intros n Hn. apply list_elem_of_fmap in Hn as (z & -> & Hz).
    rewrite Forall_forall in Hin. specialize (Hin z Hz). unfold in_table in Hin.
    apply elem_of_seq. lia. }
  rewrite <- (length_seq (length fat) 0), <- (length_fmap Z.to_nat l).
  apply submseteq_length, NoDup_submseteq; [| done].
  apply NoDup_fmap_2_strong; [| done].
  rewrite Forall_forall in Hin. intros x y Hx Hy Hxy.
  pose proof (Hin x Hx). pose proof (Hin y Hy). unfold in_table in *. lia.
Qed.

(** ** Updates *)

Lemma aget_insert_ne (fat : list Z) c x v : 0 <= c -> 0 <= x -> x <> c ->
  aget (<[Z.to_nat c := v]> fat) x = aget fat x.
Proof.
  intros. unfold aget. destruct (Z.ltb_spec x 0); [done |].
  by rewrite list_lookup_insert_ne by lia.
Qed.

Lemma aget_insert_eq (fat : list Z) c v : in_table fat c -> aget (<[Z.to_nat c := v]> fat) c = Ret v.
Proof.
  intros [? ?]. apply aget_ret. split; [done |]. apply list_lookup_insert_eq. lia.
Qed.

Lemma in_table_insert (fat : list Z) (c : nat) (v x : Z) : in_table (<[c := v]> fat) x <-> in_table fat x.
Proof. unfold in_table. by rewrite length_insert. Qed.

Lemma chain_frame fat c l x v : chain fat c l -> 0 <= x -> x ∉ l ->
  chain (<[Z.to_nat x := v]> fat) c l.
Proof.
  intros Hc Hx. pose proof (chain_in_table _ _ _ Hc) as Hin.
  induction Hc as [c Hc | c n l Hc Hn Hl IH]; intros Hnin;
    apply Forall_cons in Hin as [[Hc0 _] Hin]; apply not_elem_of_cons in Hnin as [? ?].
  - constructor. by rewrite aget_insert_ne.
  - apply chain_next with n; [by rewrite aget_insert_ne | done | by apply IH].
Qed.

Lemma link_chain_cons2 fat c n cl :
  link_chain fat (c :: n :: cl) = link_chain (<[Z.to_nat c := n]> fat) (n :: cl).
Proof. reflexivity. Qed.

Lemma link_chain_one fat c : link_chain fat [c] = <[Z.to_nat c := EOF]> fat.
Proof. reflexivity. Qed.

Lemma link_chain_length fat cl : length (link_chain fat cl) = length fat.
Proof.
  revert fat. induction cl as [|c [|n cl] IH]; intros fat;
    rewrite ?link_chain_cons2, ?link_chain_one; [done | |].
  - apply length_insert.
  - rewrite IH. apply length_insert.
Qed.

Lemma link_chain_other fat cl x : Forall (in_table fat) cl -> 0 <= x -> x ∉ cl ->
  aget (link_chain fat cl) x = aget fat x.
Proof.
  revert fat. induction cl as [|c [|n cl] IH]; intros fat Hin Hx Hnin;
    rewrite ?link_chain_cons2, ?link_chain_one; [done | |];
    apply Forall_cons in Hin as [[Hc _] Hin]; apply not_elem_of_cons in Hnin as [? Hnin].
  - by apply aget_insert_ne.
  - rewrite IH; [by apply aget_insert_ne | | done | done].
    eapply Forall_impl; [done |]. intros z. apply in_table_insert.
Qed.

Lemma link_chain_chain fat c cl : Forall (in_table fat) (c :: cl) -> NoDup (c :: cl) ->
  EOF ∉ c :: cl -> chain (link_chain fat (c :: cl)) c (c :: cl).
Proof.
  revert fat c. induction cl as [|n cl IH]; intros fat c Hin Hnd Heof.
  - apply Forall_cons in Hin as [Hc _]. constructor. by apply aget_insert_eq.
  - apply Forall_cons in Hin as [Hc Hin]. apply NoDup_cons in Hnd as [Hcn Hnd].
    apply not_elem_of_cons in Heof as [_ Heof].
    assert (Forall (in_table (<[Z.to_nat c := n]> fat)) (n :: cl)) as Hin'.
    { eapply Forall_impl; [done |]. intros z. apply in_table_insert. }
    apply chain_next with n.
    + rewrite link_chain_cons2, link_chain_other; [by apply aget_insert_eq | done | by destruct Hc | done].
    + apply not_elem_of_cons in Heof as [? _]. done.
    + rewrite link_chain_cons2. by apply IH.
Qed.

(** ** Free clusters *)

Lemma elem_of_empty_from fat i c :
  c ∈ empty_from i fat <-> exists k, fat !! k = Some 0 /\ c = Z.of_nat (i + k).
Proof.
  revert i. induction fat as [|v fat IH]; intros i; cbn.
  - split; [by intros ?%elem_of_nil | intros (k & ? & _); done].
  - unfold FAT32_FAT_EMPTY_ENTRY. destruct (Z.eqb_spec v 0) as [->|Hv].
    + rewrite elem_of_cons, IH. split.
      * intros [-> | (k & Hk & ->)]; [exists O | exists (S k)]; (split; [done | lia]).
      * intros ([|k] & Hk & ->); [left; lia |]. right. exists k. split; [done | lia].
    + rewrite IH. split.
      * intros (k & Hk & ->). exists (S k). split; [done | lia].
      * intros ([|k] & Hk & ->); [cbn in Hk; congruence |]. exists k. split; [done | lia].
Qed.

Lemma NoDup_empty_from fat i : NoDup (empty_from i fat).
Proof.
  revert i. induction fat as [|v fat IH]; intros i; cbn; [constructor |].
  destruct (v =? _); [| apply IH]. constructor; [| apply IH].
  intros (k & _ & Hk)%elem_of_empty_from. lia.
Qed.

Lemma length_empty_from fat i :
  length (empty_from i fat) = length (List.filter (fun v => v =? FAT32_FAT_EMPTY_ENTRY) fat).
Proof.
  revert i. induction fat as [|v fat IH]; intros i; cbn; [done |].
  destruct (v =? _); cbn; by rewrite IH.
Qed.

Lemma first_index_empty_from fat i :
  head (empty_from i fat) =
    (fun k => Z.of_nat (i + k)) <$> first_index (fun v => v =? FAT32_FAT_EMPTY_ENTRY) fat.
Proof.
  revert i. induction fat as [|v fat IH]; intros i; cbn; [done |].
  destruct (v =? _); cbn; [f_equal; lia |]. rewrite IH.
  destruct (first_index _ fat); cbn; [f_equal; lia | done].
Qed.

(** The first free cluster has no free one before it. *)
Lemma first_index_count {A} (f : A -> bool) l k : first_index f l = Some k -> (k + length (List.filter f l) <= length l)%nat.
Proof.
  revert k. induction l as [|x l IH]; intros k; cbn [first_index List.filter length]; [done |]. destruct (f x).
  - intros [= <-]. pose proof (filter_length_le f l). cbn [length]. lia.
  - destruct (first_index f l) as [k0|]; [| done]. intros [= <-]. specialize (IH k0 eq_refl). lia.
Qed.
Lemma first_empty_bound fat : length fat = CLUSTER_MAP_SIZE -> 0 < cluster_available fat ->
  first_empty_cluster fat + cluster_available fat <= 512.
Proof.
  unfold cluster_available, first_empty_cluster. intros Hlen Hav. destruct (first_index _ (drop 2 fat)) as [k|] eqn:E.
  - apply first_index_count in E. rewrite length_drop, Hlen in E. unfold CLUSTER_MAP_SIZE in E. lia.
  - rewrite first_index_None in E. assert (List.filter (fun v => v =? FAT32_FAT_EMPTY_ENTRY) (drop 2 fat) = []) as Ef; [| rewrite Ef in Hav; cbn in Hav; lia].
    clear Hav. revert E. induction (drop 2 fat) as [|x l IH]; intros E; [done |]. cbn [List.filter]. rewrite (E 0%nat x eq_refl).
    apply IH. intros i y. apply (E (S i) y).
Qed.

(** The reserved entries are never free, so all loops of [write] agree. *)
Section Reserved.
Context (fat : list Z) (Hlen : length fat = CLUSTER_MAP_SIZE).
Context (H0 : fat !! 0%nat = Some CLUSTER_0_VALUE) (H1 : fat !! 1%nat = Some CLUSTER_1_VALUE).

Lemma reserved_split : exists f, fat = CLUSTER_0_VALUE :: CLUSTER_1_VALUE :: f.
Proof.
  destruct fat as [|a [|b f]]; [done | done |]. injection H0 as ->. injection H1 as ->. eauto.
Qed.

Lemma empty_from_drop2 : empty_from 0 fat = empty_from 2 (drop 2 fat).
Proof. destruct reserved_split as [f ->]. done. Qed.

Lemma cluster_available_length : cluster_available fat = Z.of_nat (length (empty_from 0 fat)).
Proof. rewrite empty_from_drop2, length_empty_from. done. Qed.

Lemma first_empty_head c cl : empty_from 0 fat = c :: cl -> first_empty_cluster fat = c.
Proof.
  intros He. pose proof (first_index_empty_from (drop 2 fat) 2) as Hh.
  rewrite <- empty_from_drop2, He in Hh. unfold first_empty_cluster.
  destruct (first_index _ _); cbn in Hh; [injection Hh as ->; lia | done].
Qed.

Lemma first_empty_none : empty_from 0 fat = [] -> first_empty_cluster fat = 0.
Proof.
  intros He. pose proof (first_index_empty_from (drop 2 fat) 2) as Hh.
  rewrite <- empty_from_drop2, He in Hh. unfold first_empty_cluster.
  destruct (first_index _ _); cbn in Hh; done.
Qed.

Lemma free_cluster c : c ∈ empty_from 0 fat ->
  2 <= c < 512 /\ in_table fat c /\ aget fat c = Ret 0.
Proof.
  rewrite elem_of_empty_from. intros (k & Hk & ->).
  pose proof (lookup_lt_Some _ _ _ Hk) as Hl. rewrite Hlen in Hl. unfold CLUSTER_MAP_SIZE in Hl.
  split_and!.
  - destruct k as [|[|k]]; [rewrite H0 in Hk; done | rewrite H1 in Hk; done | lia].
  - unfold CLUSTER_MAP_SIZE in *. lia.
  - unfold in_table, CLUSTER_MAP_SIZE in *. lia.
  - apply aget_ret. split; [lia |]. by rewrite Nat2Z.id.
Qed.

Lemma empty_clusters_get i : (i < length (empty_from 0 fat))%nat ->
  exists c, empty_from 0 fat !! i = Some c /\ aget (empty_clusters fat) (Z.of_nat i) = Ret c.
Proof.
  intros Hi. destruct (lookup_lt_is_Some_2 _ _ Hi) as [c Hc]. exists c. split; [done |].
  apply aget_ret. split; [lia |]. rewrite Nat2Z.id. unfold empty_clusters.
  by rewrite lookup_app_l.
Qed.
End Reserved.

(** ** Releasing a chain *)

Lemma zero_all_length fat cl : length (zero_all fat cl) = length fat.
Proof.
  unfold zero_all. revert fat. induction cl as [|c cl IH]; intros fat; cbn; [done |].
  by rewrite IH, length_insert.
Qed.

Lemma zero_all_get fat cl x : Forall (in_table fat) cl -> in_table fat x ->
  aget (zero_all fat cl) x = if bool_decide (x ∈ cl) then Ret 0 else aget fat x.
Proof.
  unfold zero_all. revert fat. induction cl as [|c cl IH]; intros fat Hin Hx; cbn; [done |].
  apply Forall_cons in Hin as [Hc Hin]. rewrite IH.
  - destruct (decide (x ∈ cl)) as [Hxl|Hxl].
    + rewrite !bool_decide_true; [done | by apply elem_of_cons; right | done].
    + rewrite (bool_decide_false (x ∈ cl)) by done.
      destruct (decide (x = c)) as [->|Hne].
      * rewrite bool_decide_true by (by apply elem_of_cons; left). by apply aget_insert_eq.
      * rewrite bool_decide_false by (by apply not_elem_of_cons).
        apply aget_insert_ne; [by destruct Hc | by destruct Hx | done].
  - eapply Forall_impl; [done |]. intros z. apply in_table_insert.
  - by apply in_table_insert.
Qed.

Lemma free_chain_spec fat c l : chain fat c l -> forall fuel, (length l <= fuel)%nat ->
  free_chain fat c fuel = Ret (zero_all fat l).
Proof.
  intros Hc. revert fat c Hc. induction l as [|x l IH]; intros fat c Hc fuel Hf.
  { by inversion Hc. }
  pose proof (chain_in_table _ _ _ Hc) as Hin. pose proof (chain_NoDup _ _ _ Hc) as Hnd.
  apply Forall_cons in Hin as [Hx Hin]. apply NoDup_cons in Hnd as [Hxl _].
  destruct fuel as [|fuel]; cbn in Hf; [lia |]. cbn [free_chain].
  inversion Hc as [c' Hg | c' n l' Hg Hn Hl']; subst.
  - rewrite Hg, bind_ret_l, aset_in, bind_ret_l by done. by rewrite Z.eqb_refl.
  - rewrite Hg, bind_ret_l, aset_in, bind_ret_l by done.
    destruct (Z.eqb_spec n FAT32_FAT_END_OF_FILE); [done |].
    apply IH; [| lia]. apply chain_frame; [done | by destruct Hx | done].
Qed.

(** Tables of equal length are equal when they agree at every index. *)
Lemma aget_ext (f g : list Z) : length f = length g ->
  (forall x, in_table f x -> aget f x = aget g x) -> f = g.
Proof.
  intros Hl Hx. apply list_eq_same_length with (length g); [done | done |].
  intros i x y Hi Hf Hg.
  assert (in_table f (Z.of_nat i)) as Hi' by (unfold in_table; lia).
  specialize (Hx _ Hi'). unfold aget in Hx. rewrite Nat2Z.id, Hf, Hg in Hx.
  destruct (Z.ltb_spec (Z.of_nat i) 0); [lia |]. congruence.
Qed.

(** Releasing what was just linked out of free clusters restores the table. *)
Lemma zero_link_id fat cl : Forall (in_table fat) cl ->
  (forall c, c ∈ cl -> aget fat c = Ret 0) -> zero_all (link_chain fat cl) cl = fat.
Proof.
  intros Hin Hz.
  assert (Forall (in_table (link_chain fat cl)) cl) as Hin'.
  { eapply Forall_impl; [done |]. intros z. unfold in_table. by rewrite link_chain_length. }
  apply aget_ext.
  - by rewrite zero_all_length, link_chain_length.
  - intros x Hx. unfold in_table in Hx. rewrite zero_all_length in Hx.
    rewrite zero_all_get by done. case_bool_decide as Hxc; [by rewrite Hz |].
    apply link_chain_other; [done | lia | done].
Qed.

Lemma link_chain_fat_ok fat cl : fat_ok fat -> Forall (fun c => 0 <= c < 512) cl ->
  fat_ok (link_chain fat cl).
Proof.
  intros [Hl Hf] Hcl. split; [by rewrite link_chain_length |].
  revert fat Hl Hf. induction cl as [|c [|n cl] IH]; intros fat Hl Hf;
    rewrite ?link_chain_cons2, ?link_chain_one; [done | |];
    apply Forall_cons in Hcl as [_ Hcl].
  - apply Forall_insert; [done | done].
  - apply IH; [done | by rewrite length_insert |]. apply Forall_insert; [done |].
    apply Forall_cons in Hcl as [? _]. lia.
Qed.

Lemma zero_all_fat_ok fat cl : fat_ok fat -> fat_ok (zero_all fat cl).
Proof.
  intros [Hl Hf]. split; [by rewrite zero_all_length |].
  unfold zero_all. clear Hl. revert fat Hf.
  induction cl as [|c cl IH]; intros fat Hf; cbn; [done |].
  apply IH, Forall_insert; done.
Qed.

(** ** Counting free clusters *)

Lemma filter_insert (g : Z -> bool) (f : list Z) (i : nat) v w : f !! i = Some w ->
  Z.of_nat (length (List.filter g (<[i := v]> f))) =
    Z.of_nat (length (List.filter g f)) - (if g w then 1 else 0) + (if g v then 1 else 0).
Proof.
  revert i. induction f as [|x f IH]; intros [|i] Hi; try done.
  - injection Hi as ->. cbn [insert list_insert List.filter]. destruct (g v), (g w); cbn [length]; lia.
  - change (<[S i := v]> (x :: f)) with (x :: <[i := v]> f). cbn [List.filter].
    specialize (IH i Hi). destruct (g x); cbn [length]; lia.
Qed.

Lemma cluster_available_insert fat c v w : 2 <= c -> aget fat c = Ret w ->
  cluster_available (<[Z.to_nat c := v]> fat) =
    cluster_available fat - (if w =? 0 then 1 else 0) + (if v =? 0 then 1 else 0).
Proof.
  intros Hc [_ Hw]%aget_ret. unfold cluster_available.
  assert (exists k, Z.to_nat c = (2 + k)%nat) as [k Hk] by (exists (Z.to_nat c - 2)%nat; lia).
  rewrite Hk in *. destruct fat as [|a [|b fat]]; [done | done |].
  by apply (filter_insert (fun v => v =? FAT32_FAT_EMPTY_ENTRY) fat k v w).
Qed.

Lemma cluster_available_link fat cl : Forall (fun c => 2 <= c) cl -> NoDup cl ->
  (forall c, c ∈ cl -> aget fat c = Ret 0) ->
  cluster_available (link_chain fat cl) = cluster_available fat - Z.of_nat (length cl).
Proof.
  revert fat. induction cl as [|c [|n cl] IH]; intros fat H2 Hnd Hfree.
  - cbn. lia.
  - rewrite link_chain_one, (cluster_available_insert _ _ _ 0).
    + change (EOF =? 0) with false. change (0 =? 0) with true. cbn [length]. lia.
    + by apply Forall_cons in H2 as [? _].
    + apply Hfree. apply elem_of_cons. by left.
  - rewrite link_chain_cons2. apply Forall_cons in H2 as [Hc H2]. apply NoDup_cons in Hnd as [Hcn Hnd].
    assert (2 <= n) by (by apply Forall_cons in H2 as [? _]).
    rewrite IH; [| done | done |].
    + rewrite (cluster_available_insert _ _ _ 0); [| done | apply Hfree, elem_of_cons; by left].
      cbn [length]. split_cond; lia.
    + intros x Hx. rewrite Forall_forall in H2. pose proof (H2 x Hx).
      rewrite aget_insert_ne; [| lia | lia | by intros ->].
      apply Hfree. apply elem_of_cons. by right.
Qed.

Lemma cluster_available_zero fat cl : Forall (fun c => 2 <= c) cl -> NoDup cl ->
  (forall c, c ∈ cl -> exists v, aget fat c = Ret v /\ v <> 0) ->
  cluster_available (zero_all fat cl) = cluster_available fat + Z.of_nat (length cl).
Proof.
  unfold zero_all. revert fat. induction cl as [|c cl IH]; intros fat H2 Hnd Hused; cbn [foldl length].
  - lia.
  - apply Forall_cons in H2 as [Hc H2]. apply NoDup_cons in Hnd as [Hcn Hnd].
    destruct (Hused c) as (v & Hv & Hv0); [apply elem_of_cons; by left |].
    rewrite IH; [| done | done |].
    + rewrite (cluster_available_insert _ _ _ v) by done. unfold FAT32_FAT_EMPTY_ENTRY. split_cond; lia.
    + intros x Hx. rewrite Forall_forall in H2. pose proof (H2 x Hx).
      rewrite aget_insert_ne; [| lia | lia | by intros ->].
      apply Hused. apply elem_of_cons. by right.
Qed.
