(* ===== verification/Fat32Facts.v ===== *)
(** * Specifications of the driver's operations

    Proved against the block-device specification, so they hold for every device
    that meets it: cluster reads and writes, the file-system invariant, and what
    formatting, writing, reading and deleting do to the abstract contents. *)
From Stdlib Require Import String.
From S2P Require Import Prelude CString BlockDevice Fat32Types Fat32 Fat32Chain.
#[local] Open Scope Z_scope.
#[local] Open Scope string_scope.
#[local] Open Scope list_scope.
#[local] Open Scope Z_scope.

(** ** Directory lookups *)

(** The bytes compared are exactly the 8.3 name. *)
Lemma entry_match_spec nm ex e :
  length (name e) = 8%nat -> length (ext e) = 3%nat -> length nm = 8%nat -> length ex = 3%nat ->
  entry_match nm ex e = true <-> name e = nm /\ ext e = ex.
Proof.
  intros Hn He Hnm Hex. unfold entry_match. rewrite andb_true_iff, !Z.eqb_eq, !memcmp_zero.
  unfold at_list. split.
  - intros [H1 H2]. split.
    + apply (nth_ext _ _ 0 0); [congruence |]. intros k Hk. apply H1. lia.
    + apply (nth_ext _ _ 0 0); [congruence |]. intros k Hk. apply H2. lia.
  - by intros [-> ->].
Qed.

Lemma entry_match_self nm ex e : name e = nm -> ext e = ex -> entry_match nm ex e = true.
Proof.
  intros <- <-. unfold entry_match.
  rewrite andb_true_iff, !Z.eqb_eq, !memcmp_zero. done.
Qed.

(** Whether a table's own entry says it is a directory. *)
Definition is_dir_table (t : list FAT32DirectoryEntry) : Prop :=
  exists e, t !! 0%nat = Some e /\ attribute e = ATTR_SUBDIRECTORY.

#[export] Instance is_dir_table_dec t : Decision (is_dir_table t).
Proof.
  refine (match t !! 0%nat as o return t !! 0%nat = o -> _ with
          | Some e => fun E => cast_if (decide (attribute e = ATTR_SUBDIRECTORY))
          | None => fun E => right _ end eq_refl).
  - by exists e.
  - intros (e' & He' & ?). congruence.
  - intros (e' & He' & ?). congruence.
Defined.

Definition lookup_entry (r : FAT32DriverRequest) (t : list FAT32DirectoryEntry) : option nat :=
  first_index (entry_match (req_name r) (req_ext r)) t.

(** A request as the C types allow it. *)
Definition req_ok (r : FAT32DriverRequest) : Prop :=
  length (req_name r) = 8%nat /\ Forall is_byte (req_name r) /\
  length (req_ext r) = 3%nat /\ Forall is_byte (req_ext r) /\
  0 <= buffer_size r < 2 ^ 32 /\ 0 <= parent_cluster_number r < 2 ^ 32.

(** ** The device, one cluster at a time *)

Section Facts.
Context {D : Type} `{BlockDeviceSpec D}.

Definition dev_cluster (d : D) (c : Z) : list Z := blocks_of (dev_block d) (4 * c) 4.

(** [d'] is [d] with cluster [c] replaced by [bs]. *)
Definition wrote (d : D) (c : Z) (bs : list Z) (d' : D) : Prop :=
  dev_ok d' /\
  (forall c', 0 <= c' < 512 -> dev_cluster d' c' = if c' =? c then bs else dev_cluster d c') /\
  (c <> 0 -> dev_block d' 0 = dev_block d 0).

Lemma cluster_to_lba_in c : 0 <= c < 512 -> cluster_to_lba c = 4 * c.
Proof. intros. unfold cluster_to_lba, CLUSTER_BLOCK_COUNT. rewrite u32_id; lia. Qed.

Lemma dev_cluster_blocks d c : dev_cluster d c =
  dev_block d (4 * c) ++ dev_block d (4 * c + 1) ++ dev_block d (4 * c + 2) ++ dev_block d (4 * c + 3).
Proof.
  unfold dev_cluster, blocks_of. cbn [seq]. rewrite !fmap_cons. cbn [mjoin list_join fmap list_fmap].
  rewrite app_nil_r, Z.add_0_r. done.
Qed.

Lemma dev_cluster_ok d c : dev_ok d -> 0 <= c < 512 -> cluster_ok (dev_cluster d c).
Proof.
  intros Hok Hc. pose proof dev_capacity_fat. rewrite dev_cluster_blocks.
  destruct (dev_block_ok d (4 * c)) as [L0 B0]; [done | lia |].
  destruct (dev_block_ok d (4 * c + 1)) as [L1 B1]; [done | lia |].
  destruct (dev_block_ok d (4 * c + 2)) as [L2 B2]; [done | lia |].
  destruct (dev_block_ok d (4 * c + 3)) as [L3 B3]; [done | lia |].
  split; [rewrite !length_app; lia | rewrite !Forall_app; tauto].
Qed.

Lemma read_cluster_spec d c : dev_ok d -> 0 <= c < 512 ->
  read_clusters d c 1 = Ret (dev_cluster d c).
Proof.
  intros Hok Hc. pose proof dev_capacity_fat. unfold read_clusters.
  rewrite cluster_to_lba_in by done. change (u8 (1 * CLUSTER_BLOCK_COUNT)) with 4.
  apply read_blocks_spec; [done | lia | lia | lia].
Qed.

Lemma read_dir_cluster_spec d c : dev_ok d -> 0 <= c < 512 ->
  read_dir_cluster d c = Ret (decode_table (dev_cluster d c)).
Proof. intros. unfold read_dir_cluster. by rewrite read_cluster_spec. Qed.

Lemma write_cluster_spec d bs c : dev_ok d -> 0 <= c < 512 -> cluster_ok bs ->
  exists d', write_clusters d bs c 1 = Ret d' /\ wrote d c bs d'.
Proof.
  intros Hok Hc [Hl Hb]. pose proof dev_capacity_fat. unfold write_clusters.
  rewrite cluster_to_lba_in by done. change (u8 (1 * CLUSTER_BLOCK_COUNT)) with 4.
  destruct (write_blocks_spec d bs (4 * c) 4) as (d' & -> & Hok' & Hblk);
    [done | lia | lia | lia | done | done |].
  exists d'. split; [done |]. split_and!; [done | |].
  - intros c' Hc'. rewrite !dev_cluster_blocks, !Hblk by lia.
    destruct (Z.eqb_spec c' c) as [->|Hne].
    + split_cond; try lia.
      replace (Z.to_nat (4 * c - 4 * c)) with 0%nat by lia.
      replace (Z.to_nat (4 * c + 1 - 4 * c)) with 1%nat by lia.
      replace (Z.to_nat (4 * c + 2 - 4 * c)) with 2%nat by lia.
      replace (Z.to_nat (4 * c + 3 - 4 * c)) with 3%nat by lia.
      by rewrite !sub_split, sub_all by done.
    + split_cond; lia || done.
  - intros. rewrite Hblk by lia. split_cond; lia || done.
Qed.

Lemma wrote_same d c bs d' : wrote d c bs d' -> 0 <= c < 512 -> dev_cluster d' c = bs.
Proof. intros (_ & Hw & _) Hc. rewrite Hw by done. by rewrite Z.eqb_refl. Qed.

Lemma wrote_other d c bs d' c' : wrote d c bs d' -> 0 <= c' < 512 -> c' <> c ->
  dev_cluster d' c' = dev_cluster d c'.
Proof. intros (_ & Hw & _) Hc Hne. rewrite Hw by done. split_cond; lia || done. Qed.

(** Writing twice, and reading the boot block. *)
Lemma dev_block_0_cluster d : dev_ok d -> dev_block d 0 = take 512 (dev_cluster d 0).
Proof.
  intros Hok. pose proof dev_capacity_fat. rewrite dev_cluster_blocks. change (4 * 0) with 0.
  destruct (dev_block_ok d 0) as [Hl _]; [done | lia |].
  by rewrite take_app_length'.
Qed.

Lemma write_boot_spec d : dev_ok d ->
  exists d', write_blocks d fs_signature 0 1 = Ret d' /\ dev_ok d' /\
    dev_block d' 0 = fs_signature /\
    forall c, 0 < c < 512 -> dev_cluster d' c = dev_cluster d c.
Proof.
  intros Hok. pose proof dev_capacity_fat.
  destruct (write_blocks_spec d fs_signature 0 1) as (d' & -> & Hok' & Hblk);
    [done | lia | lia | lia | done | | ].
  { by_compute. }
  exists d'. split_and!; [done | done | |].
  - rewrite Hblk by lia. done.
  - intros c Hc. rewrite !dev_cluster_blocks, !Hblk by lia. split_cond; lia || done.
Qed.

(** ** The invariant of a mounted file system *)

Definition fs_inv (fs : Fs D) : Prop :=
  dev_ok (disk fs) /\ fat_ok (fat_of fs) /\
  fat_of fs !! 0%nat = Some CLUSTER_0_VALUE /\ fat_of fs !! 1%nat = Some CLUSTER_1_VALUE /\
  dev_cluster (disk fs) 1 = encode_fat (fat_of fs) /\
  dev_block (disk fs) 0 = fs_signature.

(** The directory table stored in cluster [p], and clusters a directory may use. *)
Definition dir_at (fs : Fs D) (p : Z) : list FAT32DirectoryEntry :=
  decode_table (dev_cluster (disk fs) p).
Definition allocated (fs : Fs D) (p : Z) : Prop := 2 <= p < 512 /\ aget (fat_of fs) p <> Ret 0.

Lemma dir_at_ok fs p : dev_ok (disk fs) -> 0 <= p < 512 -> table_ok (dir_at fs p).
Proof. intros. by apply decode_table_ok, dev_cluster_ok. Qed.

Lemma is_empty_storage_spec d : dev_ok d ->
  is_empty_storage d = Ret (bool_decide (dev_block d 0 <> fs_signature)).
Proof.
  intros Hok. pose proof dev_capacity_fat. unfold is_empty_storage.
  rewrite read_blocks_spec by (done || lia). change (Z.to_nat 1) with 1%nat.
  unfold blocks_of. cbn [seq]. rewrite fmap_cons, bind_ret_l. cbn [mjoin list_join fmap list_fmap].
  rewrite app_nil_r, Z.add_0_r. f_equal.
  destruct (dev_block_ok d 0) as [Hl _]; [done | lia |].
  destruct (Z.eqb_spec (memcmp (at_list (dev_block d 0)) (at_list fs_signature) 512) 0) as [E|E].
  - rewrite bool_decide_false; [done |]. intros Hne. apply Hne.
    apply (nth_ext _ _ 0 0); [done |]. intros k Hk. rewrite memcmp_zero in E. apply E. lia.
  - rewrite bool_decide_true; [done |]. intros Heq. rewrite Heq in E. apply E.
    by apply memcmp_zero.
Qed.

(** *** Formatting *)

Definition fresh_fat : list Z := [CLUSTER_0_VALUE; CLUSTER_1_VALUE; EOF] ++ replicate 509 0.
(** The table [init_directory_table] makes of a zeroed one. *)
Definition new_dir_table (nm : list Z) (p : Z) : list FAT32DirectoryEntry :=
  mkEntry (take 8 nm) (replicate 3 0) ATTR_SUBDIRECTORY UATTR_NOT_EMPTY 0 0 0 0
    (Z.land (Z.shiftr p 16) 0xFFFF) 0 0 (Z.land p 0xFFFF) 0 :: replicate 63 zero_entry.
Definition root_table (lit_tail : list Z) : list FAT32DirectoryEntry :=
  new_dir_table (bytes_of "root" ++ [0] ++ lit_tail) ROOT_CLUSTER_NUMBER.

Lemma init_directory_table_spec nm p :
  init_directory_table (replicate DIR_LENGTH zero_entry) nm p = Ret (new_dir_table nm p).
Proof. reflexivity. Qed.

Lemma land_16_range z : 0 <= Z.land z 0xFFFF < 2 ^ 16.
Proof. change 0xFFFF with (Z.ones 16). rewrite Z.land_ones by lia. apply Z.mod_pos_bound. lia. Qed.

Lemma new_dir_table_ok nm p : (8 <= length nm)%nat -> Forall is_byte nm ->
  table_ok (new_dir_table nm p).
Proof.
  intros Hl Hb. split; [done |]. unfold new_dir_table. apply Forall_cons. split.
  - unfold entry_ok. cbn [name ext attribute user_attribute undelete create_time create_date
      access_date cluster_high modified_time modified_date cluster_low filesize].
    split_and!; [| | done | by_compute | by_compute | by_compute | by_compute | | lia | lia].
    + rewrite length_take. lia.
    + by apply Forall_take.
    + rewrite !Forall_cons. split_and!; try lia; try apply land_16_range. constructor.
  - apply Forall_replicate, zero_entry_ok.
Qed.

Lemma clear_fat_loop n : forall lo (f : list Z), (lo + n = length f)%nat ->
  for_upM lo n (fun i f => aset f (Z.of_nat i) FAT32_FAT_EMPTY_ENTRY) f =
    Ret (take lo f ++ replicate n 0).
Proof.
  induction n as [|n IH]; intros lo f Hn; cbn [for_upM].
  - rewrite take_ge by lia. cbn [replicate]. by rewrite app_nil_r.
  - rewrite aset_in, bind_ret_l by lia. rewrite Nat2Z.id.
    rewrite IH by (rewrite length_insert; lia). f_equal.
    rewrite (take_S_r _ _ 0) by (apply list_lookup_insert_eq; lia).
    by rewrite take_insert_ge, <- app_assoc by lia.
Qed.

Lemma root_table_ok lit_tail : length lit_tail = 3%nat -> Forall is_byte lit_tail ->
  table_ok (root_table lit_tail).
Proof.
  intros Hl Hb. apply new_dir_table_ok.
  - rewrite !length_app, Hl. done.
  - rewrite !Forall_app. split_and!; [by_compute | by_compute | done].
Qed.

Lemma fresh_fat_ok : fat_ok fresh_fat.
Proof.
  split; [done |]. unfold fresh_fat. rewrite Forall_app. split.
  - repeat constructor; done.
  - apply Forall_replicate. lia.
Qed.

Lemma create_fat32_spec lit_tail fs :
  dev_ok (disk fs) -> length (fat_of fs) = CLUSTER_MAP_SIZE ->
  length lit_tail = 3%nat -> Forall is_byte lit_tail ->
  exists fs', create_fat32 lit_tail fs = Ret fs' /\ fs_inv fs' /\
    fat_of fs' = fresh_fat /\ dir_at fs' ROOT_CLUSTER_NUMBER = root_table lit_tail.
Proof.
  intros Hok Hlen Hl Hb. unfold create_fat32.
  destruct (write_boot_spec (disk fs)) as (d1 & -> & Hok1 & Hb1 & _); [done |].
  rewrite bind_ret_l.
  do 3 (rewrite aset_in, bind_ret_l by (rewrite ?length_insert, Hlen; done)).
  rewrite clear_fat_loop by (by rewrite !length_insert, Hlen). rewrite bind_ret_l.
  match goal with |- context [encode_fat ?f] => assert (f = fresh_fat) as -> end.
  { by destruct (fat_of fs) as [|a [|b [|c f]]]. }
  destruct (write_cluster_spec d1 (encode_fat fresh_fat) FAT_CLUSTER_NUMBER) as (d2 & -> & W2);
    [done | done | apply encode_fat_ok, fresh_fat_ok |].
  rewrite bind_ret_l.
  rewrite init_directory_table_spec.
  rewrite bind_ret_l.
  fold (root_table lit_tail).
  destruct (write_cluster_spec d2 (encode_table (root_table lit_tail)) ROOT_CLUSTER_NUMBER)
    as (d3 & -> & W3); [apply W2 | done | by apply encode_table_ok, root_table_ok |].
  rewrite bind_ret_l. eexists; split; [done |]. split; [| split; [done |]].
  - split_and!; cbn [disk set_disk fat_of set_fat driver_state fat_table].
    + apply W3.
    + apply fresh_fat_ok.
    + done.
    + done.
    + rewrite (wrote_other _ _ _ _ _ W3) by done. by apply (wrote_same _ _ _ _ W2).
    + destruct W3 as (_ & _ & ->); [| done]. by destruct W2 as (_ & _ & ->).
  - unfold dir_at. cbn [disk set_disk]. rewrite (wrote_same _ _ _ _ W3) by done.
    by apply decode_encode_table, root_table_ok.
Qed.

Lemma mount_spec lit_tail fs : dev_ok (disk fs) -> dev_block (disk fs) 0 = fs_signature ->
  initialize_filesystem_fat32 lit_tail fs =
    Ret (set_fat fs (decode_fat (dev_cluster (disk fs) 1))).
Proof.
  intros Hok Hs. unfold initialize_filesystem_fat32.
  rewrite is_empty_storage_spec, bind_ret_l by done.
  rewrite bool_decide_false by (intros Hne; by apply Hne).
  by rewrite read_cluster_spec, bind_ret_l.
Qed.
End Facts.
