(* ===== verification/Fat32Ops.v ===== *)
(** * What writing, reading and deleting do

    Specifications of [write], [read] and [delete] in terms of the abstract
    contents of the device: the directory table of the parent cluster, the
    allocation table and the contents of the file's clusters. *)
From S2P Require Import Prelude CString BlockDevice Fat32Types Fat32 Fat32Chain Fat32Facts.

(** ** Pure facts *)

(** The two 16-bit halves of a cluster number. *)
Lemma cluster_halves c : 0 <= c < 2 ^ 32 ->
  u32 (Z.lor (Z.land c 0xFFFF) (Z.shiftl (Z.land (Z.shiftr c 16) 0xFFFF) 16)) = c.
Proof.
  intros Hc. change 0xFFFF with (Z.ones 16). unfold u32. rewrite <- Z.land_ones by lia.
  apply Z.bits_inj'. intros n Hn.
  rewrite Z.land_spec, Z.lor_spec, Z.shiftl_spec, !Z.land_spec by lia.
  rewrite (Z.testbit_ones_nonneg 16 n), (Z.testbit_ones_nonneg 32 n) by lia.
  destruct (Z.ltb_spec n 16).
  - rewrite (Z.testbit_neg_r _ (n - 16)) by lia.
    rewrite andb_true_r, andb_false_l, orb_false_r.
    destruct (Z.ltb_spec n 32); [by rewrite andb_true_r | lia].
  - rewrite andb_false_r, orb_false_l.
    rewrite Z.testbit_ones_nonneg, Z.shiftr_spec by lia.
    replace (n - 16 + 16) with n by lia.
    destruct (Z.ltb_spec n 32).
    + destruct (Z.ltb_spec (n - 16) 16); [by rewrite !andb_true_r | lia].
    + rewrite andb_false_r. symmetry. destruct (Z.eq_dec c 0) as [->|]; [apply Z.bits_0 |].
      apply Z.bits_above_log2; [lia |].
      assert (Z.log2 c < 32) by (apply Z.log2_lt_pow2; lia). lia.
Qed.

Definition clusters_needed (size : Z) : Z := u32 (ceil_div (i32 size) CLUSTER_SIZE).

Lemma clusters_needed_small size : 0 <= size < 2 ^ 31 ->
  clusters_needed size = (size + 2047) / 2048.
Proof.
  intros Hs. unfold clusters_needed, ceil_div, CLUSTER_SIZE. rewrite i32_id by lia.
  rewrite Z.quot_div_nonneg, Z.rem_mod_nonneg by lia.
  assert (size / 2048 + (if size mod 2048 =? 0 then 0 else 1) = (size + 2047) / 2048) as ->.
  { destruct (Z.eqb_spec (size mod 2048) 0); Z.div_mod_to_equations; lia. }
  apply u32_id. Z.div_mod_to_equations. lia.
Qed.

Lemma clusters_needed_range size : 0 <= clusters_needed size < 2 ^ 32.
Proof. apply u32_range. Qed.

Definition new_entry (r : FAT32DriverRequest) (c attr : Z) : FAT32DirectoryEntry :=
  mkEntry (take 8 (req_name r)) (take 3 (req_ext r)) attr UATTR_NOT_EMPTY
    0 0 0 0 (Z.land (Z.shiftr c 16) 0xFFFF) 0 0 (Z.land c 0xFFFF) (buffer_size r).

Lemma new_entry_ok r c attr : req_ok r -> is_byte attr -> entry_ok (new_entry r c attr).
Proof.
  intros (Hn & Hnb & He & Heb & Hs & _) Ha. unfold entry_ok, new_entry.
  cbn [name ext attribute user_attribute undelete create_time create_date
      access_date cluster_high modified_time modified_date cluster_low filesize].
  rewrite !take_ge by lia.
  split_and!; [done | done | done | done | done | by_compute | by_compute | | lia | lia].
  rewrite !Forall_cons. split_and!; try lia; try apply land_16_range. constructor.
Qed.

Lemma new_entry_cluster r c attr : 0 <= c < 2 ^ 32 -> entry_cluster (new_entry r c attr) = c.
Proof. apply cluster_halves. Qed.

Lemma new_entry_match r c attr : req_ok r ->
  entry_match (req_name r) (req_ext r) (new_entry r c attr) = true.
Proof. intros (Hn & _ & He & _). apply entry_match_self; cbn; apply take_ge; lia. Qed.

Lemma new_entry_index_bound t : table_ok t -> (new_entry_index t < length t)%nat.
Proof.
  intros [Hl _]. unfold new_entry_index. rewrite Hl. unfold DIR_LENGTH in *.
  destruct (first_index _ _) as [i|] eqn:E; [| lia].
  apply first_index_Some in E as [(x & Hx & _) _]. apply lookup_lt_Some in Hx.
  rewrite length_drop in Hx. lia.
Qed.

(** A free slot is never a live entry. *)
Lemma new_entry_index_free t e : new_entry_index t <> 0%nat ->
  t !! new_entry_index t = Some e -> user_attribute e <> UATTR_NOT_EMPTY.
Proof.
  unfold new_entry_index. destruct (first_index _ _) as [i|] eqn:E; [| done].
  intros _ He. apply first_index_Some in E as [(x & Hx & Hux) _].
  rewrite lookup_drop in Hx. change (1 + i)%nat with (S i) in Hx. assert (x = e) as -> by congruence.
  by destruct (Z.eqb_spec (user_attribute e) UATTR_NOT_EMPTY).
Qed.

(** A directory has room when some slot after the first is not live. *)
Definition has_room (t : list FAT32DirectoryEntry) : Prop := new_entry_index t <> 0%nat.

Lemma insert_ok t i e : table_ok t -> entry_ok e -> table_ok (<[i := e]> t).
Proof. intros [Hl Ht] He. split; [by rewrite length_insert | by apply Forall_insert]. Qed.

Lemma dir_head t : table_ok t ->
  exists e0, aget t 0 = Ret e0 /\ t !! 0%nat = Some e0 /\
    (negb (attribute e0 =? ATTR_SUBDIRECTORY) = negb (bool_decide (is_dir_table t))).
Proof.
  intros [Hl _]. destruct t as [|e0 t]; [done |]. exists e0. split_and!; [done | done |].
  f_equal. destruct (Z.eqb_spec (attribute e0) ATTR_SUBDIRECTORY) as [E|E].
  - rewrite bool_decide_true; [done |]. by exists e0.
  - rewrite bool_decide_false; [done |]. intros (e & [= ->] & ?). done.
Qed.

Lemma is_dir_insert t i e : i <> 0%nat -> is_dir_table t -> is_dir_table (<[i := e]> t).
Proof. intros Hi (e0 & He & Ha). exists e0. by rewrite list_lookup_insert_ne. Qed.

(** Lookups after one slot changed. *)
Lemma lookup_entry_new r t i e : lookup_entry r t = None -> (i < length t)%nat ->
  entry_match (req_name r) (req_ext r) e = true -> lookup_entry r (<[i := e]> t) = Some i.
Proof.
  unfold lookup_entry. rewrite first_index_None. intros Hn Hi He. apply first_index_Some. split.
  - exists e. by rewrite list_lookup_insert_eq.
  - intros j x Hj Hx. rewrite list_lookup_insert_ne in Hx by lia. by apply (Hn j).
Qed.

Lemma lookup_entry_other r t i e j : lookup_entry r t = Some j -> i <> j ->
  entry_match (req_name r) (req_ext r) e = false -> lookup_entry r (<[i := e]> t) = Some j.
Proof.
  unfold lookup_entry. rewrite !first_index_Some. intros [(x & Hx & Hm) Hj] Hij He. split.
  - exists x. by rewrite list_lookup_insert_ne.
  - intros k y Hk Hy. destruct (decide (k = i)) as [->|].
    + assert (i < length t)%nat.
      { apply lookup_lt_Some in Hy. by rewrite length_insert in Hy. }
      rewrite list_lookup_insert_eq in Hy by done. congruence.
    + rewrite list_lookup_insert_ne in Hy by done. by apply (Hj k).
Qed.

Lemma lookup_entry_gone r t i e e' : lookup_entry r t = Some i ->
  (forall j x, j <> i -> t !! j = Some x -> entry_match (req_name r) (req_ext r) x = false) ->
  entry_match (req_name r) (req_ext r) e' = false -> t !! i = Some e ->
  lookup_entry r (<[i := e']> t) = None.
Proof.
  intros _ Hu He' He. apply first_index_None. intros j x Hx.
  destruct (decide (j = i)) as [->|].
  - apply lookup_lt_Some in He. rewrite list_lookup_insert_eq in Hx by done. congruence.
  - rewrite list_lookup_insert_ne in Hx by done. by apply (Hu j).
Qed.

Section Ops.
Context {D : Type} `{BlockDeviceSpec D}.

(** ** Writing *)

(** The contents after the allocation loop: the clusters of [cl] hold the data. *)
Lemma write_file_spec m base empties count : bytes_ok m -> forall cl i fat d,
  (forall k c, cl !! k = Some c -> aget empties (Z.of_nat (i + k)) = Ret c) ->
  count = Z.of_nat (i + length cl) -> count < 2 ^ 32 -> length fat = 512%nat ->
  dev_ok d -> Forall (fun c => 0 <= c < 512) cl -> NoDup cl ->
  exists d', write_file_clusters m base empties count i (length cl) fat d =
      Ret (link_chain fat cl, d') /\ dev_ok d' /\
    (forall k c, cl !! k = Some c ->
       dev_cluster d' c = load_bytes m (base + Z.of_nat (i + k) * CLUSTER_SIZE) 2048) /\
    (forall c, 0 <= c < 512 -> c ∉ cl -> dev_cluster d' c = dev_cluster d c) /\
    (0 ∉ cl -> dev_block d' 0 = dev_block d 0).
Proof.
  intros Hm. induction cl as [|c cl IH]; intros i fat d Hget Hcount Hc32 Hlen Hok Hcl Hnd.
  { exists d. split_and!; done. }
  apply Forall_cons in Hcl as [Hc Hcl]. apply NoDup_cons in Hnd as [Hccl Hnd].
  pose proof (Hget O c eq_refl) as Hg. rewrite Nat.add_0_r in Hg.
  cbn [length] in Hcount. cbn [length write_file_clusters]. rewrite Hg, bind_ret_l.
  destruct (write_cluster_spec d (load_bytes m (base + Z.of_nat i * CLUSTER_SIZE) 2048) c)
    as (d1 & Hd1 & W1); [done | done | |].
  { split; [by unfold load_bytes; rewrite length_fmap, length_seq |].
    unfold load_bytes. rewrite Forall_fmap. apply Forall_true. intros k. by apply load_range. }
  assert (exists fat1, length fat1 = 512%nat /\
    (if Z.of_nat i =? u32 (count - 1) then aset fat c FAT32_FAT_END_OF_FILE
     else next ← aget empties (Z.of_nat i + 1); aset fat c next) = Ret fat1 /\
    link_chain fat1 cl = link_chain fat (c :: cl)) as (fat1 & Hl1 & -> & Hlink).
  { rewrite u32_id by lia. destruct cl as [|n cl].
    - exists (<[Z.to_nat c := EOF]> fat). rewrite length_insert. split_and!; [done | | done].
      split_cond; [| cbn in Hcount; lia]. apply aset_in. lia.
    - exists (<[Z.to_nat c := n]> fat). rewrite length_insert. split_and!; [done | | done].
      split_cond; [cbn in Hcount; lia |].
      pose proof (Hget 1%nat n eq_refl) as Hn. replace (Z.of_nat i + 1) with (Z.of_nat (i + 1)) by lia.
      rewrite Hn, bind_ret_l. apply aset_in. lia. }
  rewrite bind_ret_l, Hd1, bind_ret_l.
  destruct (IH (S i) fat1 d1) as (d' & -> & Hok' & Hdata & Hother & Hboot);
    [| cbn in Hcount; lia | done | done | apply W1 | done | done |].
  { intros k x Hx. rewrite <- (Hget (S k) x Hx). f_equal. lia. }
  exists d'. rewrite Hlink. split_and!; [done | done | | |].
  - intros [|k] x Hx.
    + injection Hx as <-. rewrite Hother by done. rewrite Nat.add_0_r. by apply (wrote_same _ _ _ _ W1).
    + rewrite (Hdata k x Hx). do 3 f_equal. lia.
  - intros x Hx [? Hxcl]%not_elem_of_cons. rewrite Hother by done.
    by apply (wrote_other _ _ _ _ _ W1).
  - intros [? H0cl]%not_elem_of_cons. rewrite Hboot by done. by apply W1.
Qed.

(** The code [write] returns. *)
Definition write_code (fs : Fs D) (r : FAT32DriverRequest) : Z :=
  let t := dir_at fs (parent_cluster_number r) in
  if negb (bool_decide (is_dir_table t)) then -1 else
  match lookup_entry r t with
  | Some _ => 1
  | None => if cluster_available (fat_of fs) <? clusters_needed (buffer_size r) then -1 else 0
  end.

Lemma write_reject fs m r : dev_ok (disk fs) -> 0 <= parent_cluster_number r < 512 ->
  write_code fs r <> 0 ->
  write fs m r = Ret (set_dir fs (dir_at fs (parent_cluster_number r)), write_code fs r).
Proof.
  intros Hok Hp. unfold write, write_code. rewrite read_dir_cluster_spec, bind_ret_l by done.
  fold (dir_at fs (parent_cluster_number r)).
  destruct (dir_head (dir_at fs (parent_cluster_number r))) as (e0 & -> & _ & Hd); [by apply dir_at_ok |].
  rewrite bind_ret_l, Hd. clear Hd. unfold lookup_entry. intros Hc.
  destruct (negb _); [done |]. destruct (first_index _ _); [done |].
  change (fat_of (set_dir _ _)) with (fat_of fs). unfold clusters_needed in *.
  by destruct (cluster_available (fat_of fs) <? _).
Qed.

(** The clusters a file of the request's size gets. *)
Definition new_clusters (fs : Fs D) (r : FAT32DriverRequest) : list Z :=
  take (Z.to_nat (clusters_needed (buffer_size r))) (empty_from 0 (fat_of fs)).

(** The state after a successful [write] of entry [e] with table [fat']. *)
Definition written (fs : Fs D) (r : FAT32DriverRequest) (e : FAT32DirectoryEntry) (fat' : list Z)
    (d' : D) : Fs D :=
  let t := dir_at fs (parent_cluster_number r) in
  mkFs (mkDriver fat' (<[new_entry_index t := e]> t) (cluster_buf (driver_state fs))) d'.

Lemma write_code_0 fs r : write_code fs r = 0 ->
  is_dir_table (dir_at fs (parent_cluster_number r)) /\
  lookup_entry r (dir_at fs (parent_cluster_number r)) = None /\
  clusters_needed (buffer_size r) <= cluster_available (fat_of fs).
Proof.
  unfold write_code. case_bool_decide; cbn [negb]; [| done].
  destruct (lookup_entry r (dir_at fs (parent_cluster_number r))); [done |].
  destruct (Z.ltb_spec (cluster_available (fat_of fs)) (clusters_needed (buffer_size r))); done.
Qed.

(** The three directory and table writes that end [write] and [delete]. *)
Lemma commit_spec d p t fat : dev_ok d -> 2 <= p < 512 -> table_ok t -> fat_ok fat ->
  exists d1 d2, write_clusters d (encode_table t) p 1 = Ret d1 /\
    write_clusters d1 (encode_fat fat) FAT_CLUSTER_NUMBER 1 = Ret d2 /\ dev_ok d2 /\
    dev_cluster d2 p = encode_table t /\ dev_cluster d2 1 = encode_fat fat /\
    (forall c, 0 <= c < 512 -> c <> p -> c <> 1 -> dev_cluster d2 c = dev_cluster d c) /\
    dev_block d2 0 = dev_block d 0.
Proof.
  intros Hok Hp Ht Hf.
  destruct (write_cluster_spec d (encode_table t) p) as (d1 & -> & W1);
    [done | lia | by apply encode_table_ok |].
  destruct (write_cluster_spec d1 (encode_fat fat) FAT_CLUSTER_NUMBER) as (d2 & E2 & W2);
    [apply W1 | done | by apply encode_fat_ok |].
  unfold FAT_CLUSTER_NUMBER in *.
  exists d1, d2. split_and!; [done | done | apply W2 | | | |].
  - rewrite (wrote_other _ _ _ _ _ W2) by lia. by apply (wrote_same _ _ _ _ W1); lia.
  - by apply (wrote_same _ _ _ _ W2).
  - intros c Hc Hcp Hc1. rewrite (wrote_other _ _ _ _ _ W2) by done.
    by apply (wrote_other _ _ _ _ _ W1).
  - destruct W1 as (_ & _ & HW1), W2 as (_ & _ & HW2). rewrite HW2, HW1 by lia. done.
Qed.

Section Written.
Context (fs : Fs D) (m : mem) (r : FAT32DriverRequest).
Context (Hinv : fs_inv fs) (Hr : req_ok r) (Hm : bytes_ok m).
Context (Hp : 2 <= parent_cluster_number r < 512) (Hcode : write_code fs r = 0).

#[local] Abbreviation t := (dir_at fs (parent_cluster_number r)).
#[local] Abbreviation cl := (new_clusters fs r).

Lemma new_clusters_facts :
  length cl = Z.to_nat (clusters_needed (buffer_size r)) /\
  Forall (fun c => 2 <= c < 512) cl /\ NoDup cl /\
  (forall c, c ∈ cl -> aget (fat_of fs) c = Ret 0) /\
  (forall k c, cl !! k = Some c -> aget (empty_clusters (fat_of fs)) (Z.of_nat k) = Ret c).
Proof.
  destruct Hinv as (_ & [Hlen _] & H0f & H1f & _), (write_code_0 _ _ Hcode) as (_ & _ & Hav).
  rewrite (cluster_available_length _ Hlen H0f H1f) in Hav.
  pose proof (clusters_needed_range (buffer_size r)).
  assert (Hsub : forall c, c ∈ cl -> c ∈ empty_from 0 (fat_of fs)).
  { intros c (i & Hi & _)%elem_of_take. by eapply list_elem_of_lookup_2. }
  split_and!.
  - unfold new_clusters. rewrite length_take. lia.
  - apply Forall_forall. intros c Hc%Hsub. by apply (free_cluster _ Hlen H0f H1f).
  - pose proof (NoDup_empty_from (fat_of fs) 0) as Hnd.
    rewrite <- (take_drop (Z.to_nat (clusters_needed (buffer_size r)))) in Hnd.
    by apply NoDup_app in Hnd as [? _].
  - intros c Hc%Hsub. by apply (free_cluster _ Hlen H0f H1f).
  - intros k c Hk. unfold new_clusters in Hk. apply lookup_take_Some in Hk as [Hk _].
    destruct (empty_clusters_get (fat_of fs) Hlen k) as (c' & Hc' & ->); [by eapply lookup_lt_Some |].
    congruence.
Qed.

(** The entry, table and allocation table a successful file [write] leaves. *)
Definition file_entry : FAT32DirectoryEntry := new_entry r (first_empty_cluster (fat_of fs)) 0.
Definition dir_entry : FAT32DirectoryEntry :=
  new_entry r (first_empty_cluster (fat_of fs)) ATTR_SUBDIRECTORY.

Lemma write_prefix :
  write fs m r =
    '(fat, d, e) ←
      (if buffer_size r =? 0 then
        fat ← aset (fat_of fs) (first_empty_cluster (fat_of fs)) FAT32_FAT_END_OF_FILE;
        d ← write_clusters (disk fs)
              (encode_table (new_dir_table (req_name r) (parent_cluster_number r)))
              (first_empty_cluster (fat_of fs)) 1;
        Ret (fat, d, dir_entry)
      else
        '(fat, d) ← write_file_clusters m (buf r) (empty_clusters (fat_of fs))
                      (clusters_needed (buffer_size r)) 0
                      (Z.to_nat (clusters_needed (buffer_size r))) (fat_of fs) (disk fs);
        Ret (fat, d, file_entry));
    d1 ← write_clusters d (encode_table (<[new_entry_index t := e]> t)) (parent_cluster_number r) 1;
    d2 ← write_clusters d1 (encode_fat fat) FAT_CLUSTER_NUMBER 1;
    Ret (written fs r e fat d2, 0).
Proof.
  destruct (write_code_0 _ _ Hcode) as (Hdir & Hlook & Hav).
  destruct Hinv as (Hok & _). unfold write. rewrite read_dir_cluster_spec, bind_ret_l by (done || lia).
  fold (dir_at fs (parent_cluster_number r)).
  assert (table_ok t) as Htab by (apply dir_at_ok; [done | lia]).
  destruct (dir_head t) as (e0 & -> & _ & Hd); [done |].
  rewrite bind_ret_l, Hd, bool_decide_true by done. cbn [negb].
  unfold lookup_entry in Hlook. rewrite Hlook.
  change (fat_of (set_dir fs t)) with (fat_of fs). change (disk (set_dir fs t)) with (disk fs).
  fold (clusters_needed (buffer_size r)).
  destruct (Z.ltb_spec (cluster_available (fat_of fs)) (clusters_needed (buffer_size r))); [lia |].
  rewrite init_directory_table_spec, bind_ret_l.
  pose proof (new_entry_index_bound t Htab) as Hb.
  destruct (buffer_size r =? 0).
  - rewrite !bind_assoc. destruct (aset _ _ _); [rewrite !bind_ret_l | done | done].
    rewrite !bind_assoc. destruct (write_clusters _ _ _ _); [rewrite !bind_ret_l | done | done].
    rewrite aset_in, bind_ret_l, Nat2Z.id by lia. done.
  - rewrite !bind_assoc.
    destruct (write_file_clusters _ _ _ _ _ _ _ _) as [[fat d] | |]; [rewrite !bind_ret_l | done | done].
    rewrite aset_in, bind_ret_l, Nat2Z.id by lia. done.
Qed.

Lemma written_table_ok e : entry_ok e -> table_ok (<[new_entry_index t := e]> t).
Proof. intros. destruct Hinv as (Hok & _). apply insert_ok; [apply dir_at_ok; [done | lia] | done]. Qed.

Lemma write_file_ok : buffer_size r <> 0 ->
  exists d', write fs m r = Ret (written fs r file_entry (link_chain (fat_of fs) cl) d', 0) /\
    dev_ok d' /\
    dev_cluster d' (parent_cluster_number r) = encode_table (<[new_entry_index t := file_entry]> t) /\
    dev_cluster d' 1 = encode_fat (link_chain (fat_of fs) cl) /\
    (aget (fat_of fs) (parent_cluster_number r) <> Ret 0 -> forall k c, cl !! k = Some c ->
       dev_cluster d' c = load_bytes m (buf r + Z.of_nat k * CLUSTER_SIZE) 2048) /\
    (forall c, 0 <= c < 512 -> c ∉ cl -> c <> parent_cluster_number r -> c <> 1 ->
       dev_cluster d' c = dev_cluster (disk fs) c) /\
    dev_block d' 0 = dev_block (disk fs) 0.
Proof.
  intros Hs. destruct new_clusters_facts as (Hlen & Hcl & Hnd & Hfree & Hget).
  destruct Hinv as (Hok & Hfok & _). pose proof (clusters_needed_range (buffer_size r)).
  rewrite write_prefix. destruct (Z.eqb_spec (buffer_size r) 0); [done |].
  assert (Hcl0 : Forall (fun c => 0 <= c < 512) cl) by (eapply Forall_impl; [done | cbn; lia]).
  destruct (write_file_spec m (buf r) (empty_clusters (fat_of fs)) (clusters_needed (buffer_size r))
    Hm cl 0 (fat_of fs) (disk fs)) as (d0 & Hw & Hok0 & Hdata & Hother & Hboot);
    [done | lia | lia | apply Hfok | done | done | done |].
  rewrite <- Hlen, Hw, !bind_ret_l.
  destruct (commit_spec d0 (parent_cluster_number r) (<[new_entry_index t := file_entry]> t)
    (link_chain (fat_of fs) cl)) as (d1 & d2 & -> & E2 & Hok2 & H2p & H21 & H2o & H2b);
    [done | done | apply written_table_ok, new_entry_ok; [done | by_compute] |
     by apply link_chain_fat_ok |].
  rewrite bind_ret_l, E2, bind_ret_l. rewrite Forall_forall in Hcl.
  exists d2. split_and!; [done | done | done | done | | |].
  - intros Hpar k c Hk. assert (Hc : c ∈ cl) by (by eapply list_elem_of_lookup_2).
    pose proof (Hcl c Hc). rewrite H2o; [by apply (Hdata k c) | lia | | lia].
    intros ->. by apply Hpar, Hfree.
  - intros c Hc Hccl Hcp Hc1. rewrite H2o by done. by apply Hother.
  - rewrite H2b, Hboot; [done |]. intros Hin. specialize (Hcl 0 Hin). cbn in Hcl. lia.
Qed.

Lemma write_dir_ok : buffer_size r = 0 -> 0 < cluster_available (fat_of fs) ->
  let c := first_empty_cluster (fat_of fs) in
  let fat' := <[Z.to_nat c := EOF]> (fat_of fs) in
  exists d', write fs m r = Ret (written fs r dir_entry fat' d', 0) /\ dev_ok d' /\
    2 <= c < 512 /\ aget (fat_of fs) c = Ret 0 /\ fat_ok fat' /\
    dev_cluster d' (parent_cluster_number r) = encode_table (<[new_entry_index t := dir_entry]> t) /\
    dev_cluster d' 1 = encode_fat fat' /\
    (aget (fat_of fs) (parent_cluster_number r) <> Ret 0 ->
       dev_cluster d' c = encode_table (new_dir_table (req_name r) (parent_cluster_number r))) /\
    (forall x, 0 <= x < 512 -> x <> c -> x <> parent_cluster_number r -> x <> 1 ->
       dev_cluster d' x = dev_cluster (disk fs) x) /\
    dev_block d' 0 = dev_block (disk fs) 0.
Proof.
  intros Hs Hav c. subst c. destruct Hinv as (Hok & [Hlen Hf] & H0f & H1f & _).
  rewrite (cluster_available_length _ Hlen H0f H1f) in Hav.
  destruct (empty_from 0 (fat_of fs)) as [|c' el] eqn:Eel; [cbn in Hav; lia |].
  destruct (free_cluster (fat_of fs) Hlen H0f H1f c') as (Hc & Hin & Hfree).
  { rewrite Eel. apply elem_of_cons. by left. }
  rewrite write_prefix. rewrite Hs, Z.eqb_refl.
  rewrite (first_empty_head _ Hlen H0f H1f _ _ Eel). intros fat'.
  rewrite (aset_in (fat_of fs)), bind_ret_l by apply Hin. fold fat'.
  assert (fat_ok fat') as Hfok'.
  { split; [by unfold fat'; rewrite length_insert | by apply Forall_insert]. }
  destruct (write_cluster_spec (disk fs)
    (encode_table (new_dir_table (req_name r) (parent_cluster_number r))) c') as (d0 & -> & W0);
    [done | lia | apply encode_table_ok, new_dir_table_ok; [destruct Hr; lia | apply Hr] |].
  rewrite !bind_ret_l.
  destruct (commit_spec d0 (parent_cluster_number r) (<[new_entry_index t := dir_entry]> t) fat')
    as (d1 & d2 & -> & E2 & Hok2 & H2p & H21 & H2o & H2b);
    [apply W0 | done | apply written_table_ok, new_entry_ok; [done | by_compute] | done |].
  rewrite bind_ret_l, E2, bind_ret_l.
  exists d2. split_and!; try done; try lia.
  - intros Hpar. rewrite H2o; [by apply (wrote_same _ _ _ _ W0); lia | lia | | lia].
    intros ->. done.
  - intros x Hx Hxc Hxp Hx1. rewrite H2o by done. by apply (wrote_other _ _ _ _ _ W0).
  - rewrite H2b. apply W0. lia.
Qed.
End Written.
End Ops.
