(* ===== verification/Fat32Access.v ===== *)
(** * What reading and deleting do

    The chain walk of [read] delivers the clusters of the file in order, the one
    of [delete] releases exactly them; the return codes of both. *)
From S2P Require Import Prelude CString Memory BlockDevice Fat32Types Fat32 Fat32Chain Fat32Facts Fat32Ops.

(** The [put]s of a read, one per cluster. *)
Fixpoint deliver {B} (put : B -> Z -> list Z -> outcome B) (b : B) (offset : Z)
    (bss : list (list Z)) : outcome B :=
  match bss with
  | [] => Ret b
  | bs :: bss' =>
    b' ← put b (u32 (offset * CLUSTER_SIZE)) bs;
    deliver put b' (u32 (offset + 1)) bss'
  end.

Section Access.
Context {D : Type} `{BlockDeviceSpec D}.

(** The bytes of a list of clusters. *)
Definition clusters_data (d : D) (l : list Z) : list Z := mjoin (dev_cluster d <$> l).

Lemma clusters_data_cons d c l : clusters_data d (c :: l) = dev_cluster d c ++ clusters_data d l.
Proof. reflexivity. Qed.

Lemma clusters_data_length d l : dev_ok d -> Forall (fun c => 0 <= c < 512) l ->
  length (clusters_data d l) = (2048 * length l)%nat.
Proof.
  intros Hok. induction 1 as [|c l Hc Hl IH]; [done |].
  rewrite clusters_data_cons, length_app, IH. destruct (dev_cluster_ok d c Hok Hc) as [-> _].
  cbn [length]. lia.
Qed.

Lemma clusters_data_ext d d' l : (forall c, c ∈ l -> dev_cluster d' c = dev_cluster d c) ->
  clusters_data d' l = clusters_data d l.
Proof.
  intros Hd. unfold clusters_data. f_equal. apply list_fmap_ext.
  intros i c Hc. apply Hd. by eapply list_elem_of_lookup_2.
Qed.

Lemma chain_clusters fat c l : fat_ok fat -> chain fat c l -> Forall (fun x => 0 <= x < 512) l.
Proof.
  intros [Hl _] Hc%chain_in_table. eapply Forall_impl; [exact Hc |].
  intros x. unfold in_table. rewrite Hl. done.
Qed.

(** ** Reading *)

Lemma read_chain_spec {B} (put : B -> Z -> list Z -> outcome B) fat d c l :
  chain fat c l -> fat_ok fat -> dev_ok d -> forall fuel b off, (length l <= fuel)%nat ->
  read_chain put fat d b c off fuel = deliver put b off (dev_cluster d <$> l).
Proof.
  intros Hc Hf Hok. pose proof (chain_clusters _ _ _ Hf Hc) as Hin.
  induction Hc as [c Hc | c n l Hc Hn Hl IH]; intros [|fuel] b off Hfuel;
    try (cbn [length] in Hfuel; lia); apply Forall_cons in Hin as [Hc0 Hin];
    cbn [read_chain]; rewrite read_cluster_spec, bind_ret_l by done; rewrite fmap_cons;
    cbn [deliver]; (destruct (put b (u32 (off * CLUSTER_SIZE)) (dev_cluster d c)); [| done | done]);
    rewrite !bind_ret_l, Hc, bind_ret_l.
  - by rewrite Z.eqb_refl.
  - destruct (Z.eqb_spec n FAT32_FAT_END_OF_FILE); [done |].
    apply IH; [done | cbn [length] in Hfuel; lia].
Qed.

(** Delivering into flat memory stores the bytes one after the other. *)
Lemma deliver_mem base d l : dev_ok d -> Forall (fun c => 0 <= c < 512) l ->
  forall m off, 0 <= base -> 0 <= off ->
  base + 2048 * (off + Z.of_nat (length l)) <= 2 ^ 32 -> off + Z.of_nat (length l) < 2 ^ 20 ->
  exists m', deliver (put_mem base) m off (dev_cluster d <$> l) = Ret m' /\
    (bytes_ok m -> bytes_ok m') /\
    forall x, 0 <= x < 2 ^ 32 -> load m' x =
      if (base + 2048 * off <=? x) && (x <? base + 2048 * (off + Z.of_nat (length l)))
      then nth (Z.to_nat (x - (base + 2048 * off))) (clusters_data d l) 0 else load m x.
Proof.
  intros Hok. induction 1 as [|c l Hc Hl IH]; intros m off Hb Hoff Hend Hsm.
  { exists m. split_and!; [done | done |]. intros x Hx. cbn [length]. split_cond; lia || done. }
  cbn [length] in *. rewrite fmap_cons. cbn [deliver]. unfold CLUSTER_SIZE.
  rewrite (u32_id (off * 2048)), (u32_id (off + 1)) by lia. 
  change (put_mem base m (off * 2048) (dev_cluster d c))
    with (Ret (store_bytes m (u32 (base + off * 2048)) (dev_cluster d c))). rewrite bind_ret_l.
  destruct (dev_cluster_ok d c Hok Hc) as [Hlen Hby].
  destruct (IH (store_bytes m (u32 (base + off * 2048)) (dev_cluster d c)) (off + 1))
    as (m' & -> & Hbm & Hm'); [done | lia | lia | lia |].
  exists m'. split_and!; [done | intros; by apply Hbm, store_bytes_bytes_ok |].
  intros x Hx. rewrite Hm' by done.
  rewrite u32_id, load_store_bytes, Hlen, clusters_data_cons by lia.
  split_cond; try lia; try done.
  - rewrite app_nth2 by lia. f_equal. lia.
  - rewrite app_nth1 by lia. f_equal. lia.
Qed.

(** The code [read] returns. *)
Definition read_code (fs : Fs D) (r : FAT32DriverRequest) : Z :=
  let t := dir_at fs (parent_cluster_number r) in
  if negb (bool_decide (is_dir_table t)) then -1 else
  match lookup_entry r t with
  | None => 3
  | Some i =>
    match t !! i with
    | None => 3
    | Some e => if attribute e =? ATTR_SUBDIRECTORY then 1
                else if negb (filesize e <=? buffer_size r) then 2 else 0
    end
  end.

Lemma lookup_entry_bound r t i : lookup_entry r t = Some i ->
  exists e, t !! i = Some e /\ aget t (Z.of_nat i) = Ret e /\
    entry_match (req_name r) (req_ext r) e = true.
Proof.
  intros [(e & He & Hm) _]%first_index_Some. exists e. split_and!; [done | | done].
  apply aget_ret. split; [lia |]. by rewrite Nat2Z.id.
Qed.

Lemma read_prefix {B} (put : B -> Z -> list Z -> outcome B) fs b r :
  dev_ok (disk fs) -> 0 <= parent_cluster_number r < 512 ->
  read put fs b r =
    if read_code fs r =? 0 then
      match lookup_entry r (dir_at fs (parent_cluster_number r)) ≫=
              (fun i => dir_at fs (parent_cluster_number r) !! i) with
      | Some e =>
        b' ← read_chain put (fat_of fs) (disk fs) b (entry_cluster e) 0 CHAIN_FUEL;
        Ret (set_dir fs (dir_at fs (parent_cluster_number r)), b', 0)
      | None => Oob
      end
    else Ret (set_dir fs (dir_at fs (parent_cluster_number r)), b, read_code fs r).
Proof.
  intros Hok Hp. unfold read, read_code. rewrite read_dir_cluster_spec, bind_ret_l by done.
  fold (dir_at fs (parent_cluster_number r)).
  destruct (dir_head (dir_at fs (parent_cluster_number r))) as (e0 & -> & _ & Hd); [by apply dir_at_ok |].
  rewrite bind_ret_l, Hd. clear Hd. destruct (negb (bool_decide (is_dir_table _))); [done |].
  fold (lookup_entry r (dir_at fs (parent_cluster_number r))).
  destruct (lookup_entry r (dir_at fs (parent_cluster_number r))) as [i|] eqn:El; [| done].
  destruct (lookup_entry_bound _ _ _ El) as (e & He & -> & _). rewrite bind_ret_l.
  change (Some i ≫= (fun i => dir_at fs (parent_cluster_number r) !! i))
    with (dir_at fs (parent_cluster_number r) !! i). rewrite He.
  destruct (attribute e =? _); [done |]. by destruct (negb _).
Qed.

Lemma read_ok fs m r i e l : dev_ok (disk fs) -> fat_ok (fat_of fs) ->
  0 <= parent_cluster_number r < 512 -> read_code fs r = 0 ->
  lookup_entry r (dir_at fs (parent_cluster_number r)) = Some i ->
  dir_at fs (parent_cluster_number r) !! i = Some e ->
  chain (fat_of fs) (entry_cluster e) l ->
  0 <= buf r -> buf r + 2048 * Z.of_nat (length l) <= 2 ^ 32 ->
  exists m', read_mem fs m r = Ret (set_dir fs (dir_at fs (parent_cluster_number r)), m', 0) /\
    (bytes_ok m -> bytes_ok m') /\
    forall x, 0 <= x < 2 ^ 32 -> load m' x =
      if (buf r <=? x) && (x <? buf r + 2048 * Z.of_nat (length l))
      then nth (Z.to_nat (x - buf r)) (clusters_data (disk fs) l) 0 else load m x.
Proof.
  intros Hok Hf Hp Hcode Hi He Hl Hb Hend. unfold read_mem.
  rewrite read_prefix, Hcode, Z.eqb_refl, Hi by done.
  change (Some i ≫= (fun i => dir_at fs (parent_cluster_number r) !! i))
    with (dir_at fs (parent_cluster_number r) !! i). rewrite He.
  pose proof (chain_length _ _ _ Hl) as Hlen. pose proof (proj1 Hf) as Hflen.
  rewrite Hflen in Hlen. unfold CLUSTER_MAP_SIZE in Hlen.
  rewrite (read_chain_spec _ _ _ _ l); [| done | done | done | unfold CHAIN_FUEL; lia].
  destruct (deliver_mem (buf r) (disk fs) l Hok (chain_clusters _ _ _ Hf Hl) m 0)
    as (m' & -> & Hbm & Hm'); [done | lia | lia | lia |].
  exists m'. split_and!; [done | done |]. intros x Hx. rewrite Hm' by done.
  by rewrite !Z.mul_0_r, !Z.add_0_r, Z.add_0_l.
Qed.

(** ** Deleting *)

(** A directory none of whose slots after the first is live. *)
Definition dir_empty (t : list FAT32DirectoryEntry) : bool :=
  negb (existsb (fun e => user_attribute e =? UATTR_NOT_EMPTY) (drop 1 t)).

(** The code [delete] returns. *)
Definition delete_code (fs : Fs D) (r : FAT32DriverRequest) : Z :=
  let t := dir_at fs (parent_cluster_number r) in
  if negb (bool_decide (is_dir_table t)) then -1 else
  match lookup_entry r t ≫= (fun i => t !! i) with
  | None => 1
  | Some e =>
    if (attribute e =? ATTR_SUBDIRECTORY) && negb (dir_empty (dir_at fs (entry_cluster e)))
    then 2 else 0
  end.

(** The state after a successful [delete] of slot [i]. *)
Definition deleted (fs : Fs D) (r : FAT32DriverRequest) (i : nat) (e : FAT32DirectoryEntry)
    (l : list Z) (d' : D) : Fs D :=
  mkFs (mkDriver (zero_all (fat_of fs) l)
          (<[i := removed_entry e]> (dir_at fs (parent_cluster_number r)))
          (cluster_buf (driver_state fs))) d'.

Lemma delete_code_cases fs r : delete_code fs r = -1 \/ delete_code fs r = 1 \/
  exists i e, is_dir_table (dir_at fs (parent_cluster_number r)) /\
    lookup_entry r (dir_at fs (parent_cluster_number r)) = Some i /\
    dir_at fs (parent_cluster_number r) !! i = Some e /\
    (delete_code fs r = 0 \/ delete_code fs r = 2).
Proof.
  unfold delete_code. case_bool_decide as Hd; cbn [negb]; [| by left]. right.
  destruct (lookup_entry r (dir_at fs (parent_cluster_number r))) as [i|] eqn:El; [| by left].
  destruct (lookup_entry_bound _ _ _ El) as (e & He & _). right. exists i, e.
  split_and!; [done | done | done |].
  change (Some i ≫= (fun i => dir_at fs (parent_cluster_number r) !! i))
    with (dir_at fs (parent_cluster_number r) !! i). rewrite He.
  destruct (_ && _); [by right | by left].
Qed.

Lemma delete_not_found fs r : dev_ok (disk fs) -> 0 <= parent_cluster_number r < 512 ->
  delete_code fs r = -1 \/ delete_code fs r = 1 ->
  delete fs r = Ret (set_dir fs (dir_at fs (parent_cluster_number r)), delete_code fs r).
Proof.
  intros Hok Hp. unfold delete, delete_code. rewrite read_dir_cluster_spec, bind_ret_l by done.
  fold (dir_at fs (parent_cluster_number r)).
  destruct (dir_head (dir_at fs (parent_cluster_number r))) as (e0 & -> & _ & Hd); [by apply dir_at_ok |].
  rewrite bind_ret_l, Hd. clear Hd. destruct (negb (bool_decide (is_dir_table _))); [done |].
  fold (lookup_entry r (dir_at fs (parent_cluster_number r))).
  destruct (lookup_entry r (dir_at fs (parent_cluster_number r))) as [i|] eqn:El; [| done].
  destruct (lookup_entry_bound _ _ _ El) as (e & He & _ & _).
  change (Some i ≫= (fun i => dir_at fs (parent_cluster_number r) !! i))
    with (dir_at fs (parent_cluster_number r) !! i). rewrite He.
  destruct (_ && _); intros [?|?]; done.
Qed.

Lemma delete_prefix fs r i e : dev_ok (disk fs) -> 0 <= parent_cluster_number r < 512 ->
  is_dir_table (dir_at fs (parent_cluster_number r)) ->
  lookup_entry r (dir_at fs (parent_cluster_number r)) = Some i ->
  dir_at fs (parent_cluster_number r) !! i = Some e -> 0 <= entry_cluster e < 512 ->
  delete fs r =
    if delete_code fs r =? 2 then Ret (set_dir fs (dir_at fs (parent_cluster_number r)), 2) else
    fat' ← free_chain (fat_of fs) (entry_cluster e) CHAIN_FUEL;
    d1 ← write_clusters (disk fs)
           (encode_table (<[i := removed_entry e]> (dir_at fs (parent_cluster_number r))))
           (parent_cluster_number r) 1;
    d2 ← write_clusters d1 (encode_fat fat') FAT_CLUSTER_NUMBER 1;
    Ret (mkFs (mkDriver fat' (<[i := removed_entry e]> (dir_at fs (parent_cluster_number r)))
                 (cluster_buf (driver_state fs))) d2, 0).
Proof.
  intros Hok Hp Hdir Hl He Hec. unfold delete, delete_code.
  rewrite read_dir_cluster_spec, bind_ret_l by done.
  fold (dir_at fs (parent_cluster_number r)).
  destruct (dir_head (dir_at fs (parent_cluster_number r))) as (e0 & -> & _ & Hd); [by apply dir_at_ok |].
  rewrite bind_ret_l, Hd, bool_decide_true by done. clear Hd. cbn [negb].
  fold (lookup_entry r (dir_at fs (parent_cluster_number r))). rewrite Hl.
  change (Some i ≫= (fun i => dir_at fs (parent_cluster_number r) !! i))
    with (dir_at fs (parent_cluster_number r) !! i). rewrite He.
  destruct (lookup_entry_bound _ _ _ Hl) as (e' & He' & -> & _).
  assert (e' = e) as -> by congruence. rewrite bind_ret_l.
  assert (aset (dir_at fs (parent_cluster_number r)) (Z.of_nat i) (removed_entry e) =
    Ret (<[i := removed_entry e]> (dir_at fs (parent_cluster_number r)))) as Hset.
  { rewrite aset_in, Nat2Z.id; [done |]. apply lookup_lt_Some in He. lia. }
  destruct (Z.eqb_spec (attribute e) ATTR_SUBDIRECTORY); cbn [andb].
  - change (disk (set_dir fs _)) with (disk fs).
    rewrite read_dir_cluster_spec, !bind_ret_l by done. fold (dir_at fs (entry_cluster e)).
    unfold dir_empty. rewrite negb_involutive.
    destruct (existsb _ _); [done |]. by rewrite Hset.
  - rewrite bind_ret_l. by rewrite Hset.
Qed.

Lemma removed_entry_ok e : entry_ok e -> entry_ok (removed_entry e).
Proof.
  intros (? & ? & ? & ? & ? & ? & ? & ? & ?). unfold entry_ok, removed_entry.
  cbn [name ext attribute user_attribute undelete create_time create_date
      access_date cluster_high modified_time modified_date cluster_low filesize].
  assert (forall n, Forall is_byte (replicate n 0)) as Hz by (intros n; by apply Forall_replicate).
  assert (is_byte 0) by by_compute. by repeat (split; [by auto |]).
Qed.

Lemma delete_ok fs r i e l : dev_ok (disk fs) -> fat_ok (fat_of fs) ->
  2 <= parent_cluster_number r < 512 -> delete_code fs r = 0 ->
  lookup_entry r (dir_at fs (parent_cluster_number r)) = Some i ->
  dir_at fs (parent_cluster_number r) !! i = Some e ->
  chain (fat_of fs) (entry_cluster e) l ->
  exists d', delete fs r = Ret (deleted fs r i e l d', 0) /\ dev_ok d' /\
    dev_cluster d' (parent_cluster_number r) =
      encode_table (<[i := removed_entry e]> (dir_at fs (parent_cluster_number r))) /\
    dev_cluster d' 1 = encode_fat (zero_all (fat_of fs) l) /\
    (forall c, 0 <= c < 512 -> c <> parent_cluster_number r -> c <> 1 ->
       dev_cluster d' c = dev_cluster (disk fs) c) /\
    dev_block d' 0 = dev_block (disk fs) 0.
Proof.
  intros Hok Hf Hp Hcode Hi He Hl.
  pose proof (chain_clusters _ _ _ Hf Hl) as Hcl. destruct (chain_hd _ _ _ Hl) as [l' El].
  rewrite El in Hcl. apply Forall_cons in Hcl as [Hec _].
  assert (is_dir_table (dir_at fs (parent_cluster_number r))) as Hdir.
  { unfold delete_code in Hcode. case_bool_decide; done. }
  assert (table_ok (dir_at fs (parent_cluster_number r))) as Htab by (apply dir_at_ok; [done | lia]).
  rewrite (delete_prefix fs r i e), Hcode by (done || lia). change (0 =? 2) with false.
  pose proof (chain_length _ _ _ Hl) as Hlen. destruct Hf as [Hflen Hf'].
  rewrite Hflen in Hlen. unfold CLUSTER_MAP_SIZE in Hlen.
  rewrite (free_chain_spec _ _ l), bind_ret_l; [| done | unfold CHAIN_FUEL; lia].
  destruct (commit_spec (disk fs) (parent_cluster_number r)
    (<[i := removed_entry e]> (dir_at fs (parent_cluster_number r))) (zero_all (fat_of fs) l))
    as (d1 & d2 & -> & E2 & ? & ? & ? & ? & ?); [done | done | | by apply zero_all_fat_ok |].
  { apply insert_ok; [done |]. apply removed_entry_ok. destruct Htab as [_ Htab].
    by apply (Forall_lookup_1 _ _ _ _ Htab He). }
  rewrite bind_ret_l, E2, bind_ret_l. exists d2. by split_and!.
Qed.
End Access.
