(* ===== verification/Fat32Abs.v ===== *)
(** * A directory as a finite map

    The abstract view of one directory: a map from 8.3 names to files (their
    bytes) and subdirectories (their cluster).  [represents] relates it to the
    driver's state; it holds of a freshly formatted root, and [write] and
    [delete] act on it as insertion and deletion. *)
From stdpp Require Import gmap.
From S2P Require Import Prelude CString BlockDevice Fat32Types Fat32 Fat32Chain Fat32Facts Fat32Ops Fat32Access.
#[local] Open Scope Z_scope.

Inductive node : Type :=
  | File (data : list Z)
  | Dir (cluster : Z).

(** Name and extension. *)
Definition key : Type := (list Z * list Z)%type.
Definition key_of (e : FAT32DirectoryEntry) : key := (name e, ext e).
Definition req_key (r : FAT32DriverRequest) : key := (req_name r, req_ext r).
Definition zero_key : key := (replicate 8 0, replicate 3 0).
Definition live (e : FAT32DirectoryEntry) : Prop := user_attribute e = UATTR_NOT_EMPTY.
#[export] Instance live_dec e : Decision (live e).
Proof. unfold live. apply _. Defined.

(** An entry and the list of its clusters: a live one owns its chain, a free
    slot owns nothing and has the all-zero name. *)
Definition slot_wf (fat : list Z) (p : Z) (e : FAT32DirectoryEntry) (l : list Z) : Prop :=
  if decide (live e) then
    chain fat (entry_cluster e) l /\ p ∉ l /\ 1 ∉ l /\ key_of e <> zero_key /\
    (attribute e <> ATTR_SUBDIRECTORY ->
       filesize e <= 2048 * Z.of_nat (length l) /\
       Z.of_nat (length l) = clusters_needed (filesize e))
  else l = [] /\ key_of e = zero_key.

(** ** Which clusters a chain may contain *)

Lemma chain_agree fat fat' c l : chain fat c l ->
  (forall x, x ∈ l -> aget fat' x = aget fat x) -> chain fat' c l.
Proof.
  induction 1 as [c Hc | c n l Hc Hn Hl IH]; intros Ha.
  - constructor. rewrite Ha; [done |]. by apply list_elem_of_singleton.
  - apply chain_next with n; [| done |].
    + rewrite Ha; [done |]. apply elem_of_cons. by left.
    + apply IH. intros x Hx. apply Ha. apply elem_of_cons. by right.
Qed.

(** No chain runs through cluster 0: its entry leads out of the table. *)
Lemma no_chain_0 fat l : length fat = CLUSTER_MAP_SIZE ->
  fat !! 0%nat = Some CLUSTER_0_VALUE -> ~ chain fat 0 l.
Proof.
  intros Hlen H0 Hl. assert (aget fat 0 = Ret CLUSTER_0_VALUE) as Hg0 by (by apply aget_ret).
  inversion Hl as [? Hg | ? n l' Hg Hn Hl']; subst; rewrite Hg0 in Hg; injection Hg as Hg; [done |].
  subst n. pose proof (chain_in_table _ _ _ Hl') as Hin. destruct (chain_hd _ _ _ Hl') as [? ->].
  apply Forall_cons in Hin as [[_ Hin] _]. rewrite Hlen in Hin.
  unfold CLUSTER_0_VALUE, CLUSTER_MAP_SIZE in Hin. lia.
Qed.

(** So no cluster of a chain is free. *)
Lemma chain_not_free fat c l x : length fat = CLUSTER_MAP_SIZE ->
  fat !! 0%nat = Some CLUSTER_0_VALUE -> chain fat c l -> x ∈ l -> aget fat x <> Ret 0.
Proof.
  intros Hlen H0 Hl. revert x. induction Hl as [c Hc | c n l Hc Hn Hl IH]; intros x Hx.
  - apply list_elem_of_singleton in Hx as ->. by rewrite Hc.
  - apply elem_of_cons in Hx as [->|Hx]; [| by apply IH].
    rewrite Hc. intros [= ->]. by apply (no_chain_0 fat l).
Qed.

Lemma entry_match_key r e : req_ok r -> entry_ok e ->
  entry_match (req_name r) (req_ext r) e = bool_decide (key_of e = req_key r).
Proof.
  intros (Hn & _ & He & _) (Hen & _ & Hee & _). apply eq_bool_prop_intro.
  rewrite bool_decide_spec. unfold key_of, req_key. split.
  - intros Hm%Is_true_true. apply entry_match_spec in Hm as [-> ->]; done.
  - intros [= ? ?]. apply Is_true_true. by apply entry_match_self.
Qed.

Section Abs.
Context {D : Type} `{BlockDeviceSpec D}.

Definition node_of (d : D) (e : FAT32DirectoryEntry) (l : list Z) : node :=
  if decide (attribute e = ATTR_SUBDIRECTORY) then Dir (entry_cluster e)
  else File (take (Z.to_nat (filesize e)) (clusters_data d l)).

(** The slots of directory [p] are well formed and own disjoint clusters [ls]. *)
Record dir_wf (fs : Fs D) (p : Z) (own : key) (ls : list (list Z)) : Prop := {
  dw_inv : fs_inv fs;
  dw_p : 2 <= p < 512;
  dw_alloc : aget (fat_of fs) p <> Ret 0;
  dw_head : exists e0, dir_at fs p !! 0%nat = Some e0 /\
    attribute e0 = ATTR_SUBDIRECTORY /\ live e0 /\ key_of e0 = own /\ own <> zero_key;
  dw_len : length ls = DIR_LENGTH;
  dw_slot : forall (i : nat) e l, i <> 0%nat -> dir_at fs p !! i = Some e -> ls !! i = Some l ->
    slot_wf (fat_of fs) p e l;
  dw_disj : forall (i j : nat) l l' x, i <> 0%nat -> j <> 0%nat -> i <> j ->
    ls !! i = Some l -> ls !! j = Some l' -> x ∈ l -> x ∈ l' -> False;
  dw_uniq : forall (i j : nat) e e', dir_at fs p !! i = Some e -> dir_at fs p !! j = Some e' ->
    live e -> key_of e = key_of e' -> i = j;
}.

(** [M] is the contents of directory [p], whose own entry is named [own]. *)
Definition represents_with (fs : Fs D) (p : Z) (own : key) (ls : list (list Z))
    (M : gmap key node) : Prop :=
  dir_wf fs p own ls /\
  forall k n, M !! k = Some n <-> exists i e l, i <> 0%nat /\ dir_at fs p !! i = Some e /\
    ls !! i = Some l /\ live e /\ key_of e = k /\ node_of (disk fs) e l = n.

Definition represents (fs : Fs D) (p : Z) (own : key) (M : gmap key node) : Prop :=
  exists ls, represents_with fs p own ls M.

(** The clusters of the live entry with a name, whole. *)
Definition stored (fs : Fs D) (p : Z) (k : key) (bs : list Z) : Prop :=
  exists i e l, i <> 0%nat /\ dir_at fs p !! i = Some e /\ live e /\ key_of e = k /\
    chain (fat_of fs) (entry_cluster e) l /\ bs = clusters_data (disk fs) l.

Lemma stored_same (fs fs' : Fs D) p k bs : fat_of fs' = fat_of fs -> disk fs' = disk fs -> stored fs p k bs -> stored fs' p k bs.
Proof.
  destruct fs as [[f dt cb] d], fs' as [[f' dt' cb'] d']. cbn [fat_of driver_state fat_table disk]. by intros -> ->.
Qed.

(** ** Lookups *)

Section View.
Context (fs : Fs D) (p : Z) (own : key) (ls : list (list Z)) (M : gmap key node).
Context (Hrep : represents_with fs p own ls M).

Lemma rep_table_ok : table_ok (dir_at fs p).
Proof.
  pose proof Hrep as [[(Hok & _) Hp _ _ _ _ _ _] _]. apply dir_at_ok; [done | lia].
Qed.

Lemma rep_entry_ok i e : dir_at fs p !! i = Some e -> entry_ok e.
Proof. destruct rep_table_ok as [_ Ht]. intros He. by apply (Forall_lookup_1 _ _ _ _ Ht He). Qed.

Lemma rep_is_dir : is_dir_table (dir_at fs p).
Proof. pose proof Hrep as [[_ _ _ (e0 & ? & ? & _) _ _ _ _] _]. by exists e0. Qed.

Lemma rep_slot i e : dir_at fs p !! i = Some e -> exists l, ls !! i = Some l.
Proof.
  intros He%lookup_lt_Some. destruct rep_table_ok as [Hl _]. pose proof Hrep as [Hwf _].
  apply lookup_lt_is_Some_2. rewrite (dw_len _ _ _ _ Hwf), <- Hl. done.
Qed.

(** A named entry is live, and is the only one of its name. *)
Lemma rep_lookup_Some r i e : req_ok r -> p = parent_cluster_number r -> req_key r <> zero_key ->
  dir_at fs p !! i = Some e ->
  (lookup_entry r (dir_at fs p) = Some i <-> live e /\ key_of e = req_key r).
Proof.
  intros Hr Hp Hz He. pose proof Hrep as [Hwf _].
  assert (forall j x, dir_at fs p !! j = Some x ->
    key_of x = req_key r -> live x) as Hlive.
  { intros [|j] x Hx Hk.
    - destruct (dw_head _ _ _ _ Hwf) as (e0 & He0 & _ & ? & _). congruence.
    - destruct (rep_slot (S j) x Hx) as [l Hl]. pose proof (dw_slot _ _ _ _ Hwf (S j) x l) as Hs.
      unfold slot_wf in Hs. destruct (decide (live x)); [done |].
      destruct Hs as [_ Hs]; [done | done | done |]. congruence. }
  unfold lookup_entry. rewrite first_index_Some. split.
  - intros [(x & Hx & Hm) _]. assert (x = e) as -> by congruence.
    rewrite entry_match_key, bool_decide_eq_true in Hm by eauto using rep_entry_ok. eauto.
  - intros [Hle Hk]. split.
    + exists e. split; [done |]. rewrite entry_match_key by eauto using rep_entry_ok.
      by apply bool_decide_eq_true.
    + intros j x Hj Hx. rewrite entry_match_key by eauto using rep_entry_ok.
      apply bool_decide_eq_false. intros Hkx.
      assert (i = j); [| lia]. eapply (dw_uniq _ _ _ _ Hwf); [done | done | done | congruence].
Qed.

Lemma rep_lookup_None r : req_ok r -> p = parent_cluster_number r ->
  req_key r <> zero_key -> req_key r <> own -> M !! req_key r = None ->
  lookup_entry r (dir_at fs p) = None.
Proof.
  intros Hr Hp Hz Hown HM. destruct (lookup_entry r (dir_at fs p)) as [i|] eqn:El; [| done].
  exfalso. destruct (lookup_entry_bound _ _ _ El) as (e & He & _ & _).
  destruct (proj1 (rep_lookup_Some r i e Hr Hp Hz He) El) as [Hlive Hk].
  destruct (rep_slot i e He) as [l Hl]. pose proof Hrep as [Hwf HMr].
  destruct (decide (i = 0%nat)) as [->|Hi].
  - destruct (dw_head _ _ _ _ Hwf) as (e0 & He0 & _ & _ & Ho & _). congruence.
  - enough (M !! req_key r = Some (node_of (disk fs) e l)) by congruence.
    apply HMr. by exists i, e, l.
Qed.

Lemma rep_lookup r n : req_ok r -> p = parent_cluster_number r ->
  req_key r <> zero_key -> M !! req_key r = Some n ->
  exists i e l, i <> 0%nat /\ lookup_entry r (dir_at fs p) = Some i /\
    dir_at fs p !! i = Some e /\ ls !! i = Some l /\ live e /\ key_of e = req_key r /\
    node_of (disk fs) e l = n /\ chain (fat_of fs) (entry_cluster e) l /\ p ∉ l /\ 1 ∉ l /\
    (attribute e <> ATTR_SUBDIRECTORY ->
       filesize e <= 2048 * Z.of_nat (length l) /\
       Z.of_nat (length l) = clusters_needed (filesize e)).
Proof.
  intros Hr Hp Hz HM. pose proof Hrep as [Hwf HMr]. apply HMr in HM as (i & e & l & Hi & He & Hl & Hlive & Hk & Hn).
  pose proof (dw_slot _ _ _ _ Hwf i e l Hi He Hl) as Hs. unfold slot_wf in Hs.
  destruct (decide (live e)); [| done]. exists i, e, l.
  destruct Hs as (? & ? & ? & ? & ?). split_and!; try done. by apply (rep_lookup_Some r i e).
Qed.

Lemma rep_key_not_own k : is_Some (M !! k) -> k <> own /\ k <> zero_key.
Proof.
  intros [n HM]. pose proof Hrep as [Hwf HMr]. apply HMr in HM as (i & e & l & Hi & He & Hl & Hlive & Hk & Hn).
  pose proof (dw_slot _ _ _ _ Hwf i e l Hi He Hl) as Hs. unfold slot_wf in Hs.
  destruct (decide (live e)); [| done]. split; [| destruct Hs as (? & ? & ? & ? & ?); congruence].
  intros ->. destruct (dw_head _ _ _ _ Hwf) as (e0 & He0 & _ & _ & Ho & _).
  apply Hi. eapply (dw_uniq _ _ _ _ Hwf); [done | done | done | congruence].
Qed.
End View.

(** Only the allocation table and the device matter, not the driver's buffers. *)
Lemma represents_same (fs fs' : Fs D) p own M : fat_of fs' = fat_of fs -> disk fs' = disk fs ->
  represents fs p own M -> represents fs' p own M.
Proof.
  destruct fs as [[f dt cb] d], fs' as [[f' dt' cb'] d']. cbn [fat_of driver_state fat_table disk].
  intros -> -> (ls & Hwf & HM). exists ls. split; [| exact HM]. destruct Hwf. by constructor.
Qed.

(** ** One slot of the directory changes *)

(** [fs'] is a sound state whose table agrees with that of [fs] outside [l], and
    whose clusters agree outside [l], the directory and the allocation table. *)
Record same_outside (fs fs' : Fs D) (p : Z) (l : list Z) : Prop := {
  so_inv : fs_inv fs';
  so_fat : forall x, in_table (fat_of fs) x -> x ∉ l -> aget (fat_of fs') x = aget (fat_of fs) x;
  so_data : forall x, 0 <= x < 512 -> x ∉ l -> x <> p -> x <> 1 ->
    dev_cluster (disk fs') x = dev_cluster (disk fs) x;
}.

Section Change.
Context (fs fs' : Fs D) (p : Z) (own : key) (ls : list (list Z)) (M : gmap key node).
Context (Hrep : represents_with fs p own ls M).
Context (l : list Z) (Hso : same_outside fs fs' p l) (Hpl : p ∉ l).
Context (i : nat) (e : FAT32DirectoryEntry).
Context (Hi : i <> 0%nat) (Hib : (i < length (dir_at fs p))%nat).
Context (Hdir : dir_at fs' p = <[i := e]> (dir_at fs p)).
(** Only slot [i] owns clusters of [l]. *)
Context (Hown : forall (j : nat) lj x, j <> 0%nat -> j <> i -> ls !! j = Some lj -> x ∈ lj -> x ∉ l).

Lemma change_slot_wf j ej lj : j <> 0%nat -> j <> i -> dir_at fs p !! j = Some ej ->
  ls !! j = Some lj -> slot_wf (fat_of fs') p ej lj.
Proof.
  intros Hj Hji He Hl. pose proof Hrep as [Hwf _].
  pose proof (dw_slot _ _ _ _ Hwf j ej lj Hj He Hl) as Hs. unfold slot_wf in *.
  destruct (decide (live ej)); [| done]. destruct Hs as (Hc & ? & ? & ? & ?).
  split_and!; try done. apply chain_agree with (fat_of fs); [done |].
  intros x Hx. apply (so_fat _ _ _ _ Hso); [| by eapply Hown].
  apply chain_in_table in Hc. rewrite Forall_forall in Hc. by apply Hc.
Qed.

Lemma change_node j ej lj : j <> 0%nat -> j <> i -> dir_at fs p !! j = Some ej ->
  ls !! j = Some lj -> live ej -> node_of (disk fs') ej lj = node_of (disk fs) ej lj.
Proof.
  intros Hj Hji He Hl Hlive. pose proof Hrep as [Hwf _].
  pose proof (dw_slot _ _ _ _ Hwf j ej lj Hj He Hl) as Hs. unfold slot_wf in Hs.
  destruct (decide (live ej)); [| done]. destruct Hs as (Hc & Hpj & H1j & _).
  unfold node_of. destruct (decide _); [done |]. do 2 f_equal. apply clusters_data_ext.
  intros x Hx. pose proof (dw_inv _ _ _ _ Hwf) as (_ & Hf & _).
  pose proof (chain_clusters _ _ _ Hf Hc) as Hcl. rewrite Forall_forall in Hcl.
  apply (so_data _ _ _ _ Hso); [by apply Hcl | by eapply Hown | |]; intros ->; done.
Qed.

Lemma change_head : exists e0, dir_at fs' p !! 0%nat = Some e0 /\
    attribute e0 = ATTR_SUBDIRECTORY /\ live e0 /\ key_of e0 = own /\ own <> zero_key.
Proof.
  pose proof Hrep as [Hwf _]. destruct (dw_head _ _ _ _ Hwf) as (e0 & He0 & ?).
  exists e0. rewrite Hdir, list_lookup_insert_ne by done. done.
Qed.

Lemma change_alloc : aget (fat_of fs') p <> Ret 0.
Proof.
  pose proof Hrep as [Hwf _]. pose proof (dw_p _ _ _ _ Hwf).
  destruct (dw_inv _ _ _ _ Hwf) as (_ & [Hlen _] & _).
  rewrite (so_fat _ _ _ _ Hso); [by apply (dw_alloc _ _ _ _ Hwf) | | done].
  unfold in_table. rewrite Hlen. unfold CLUSTER_MAP_SIZE. lia.
Qed.

Lemma change_lookup j x : dir_at fs' p !! j = Some x ->
  (j = i /\ x = e) \/ (j <> i /\ dir_at fs p !! j = Some x).
Proof.
  rewrite Hdir. intros Hx. destruct (decide (j = i)) as [->|Hne].
  - left. rewrite list_lookup_insert_eq in Hx by done. split; [done | congruence].
  - right. by rewrite list_lookup_insert_ne in Hx.
Qed.

(** Slot [i] now owns [li]: empty after a removal, [l] after an insertion. *)
Lemma change_wf li : (forall x, x ∈ li -> x ∈ l) -> slot_wf (fat_of fs') p e li ->
  (live e -> forall (j : nat) x, j <> i -> dir_at fs p !! j = Some x -> live x -> key_of x <> key_of e) ->
  (live e -> key_of e <> zero_key) ->
  dir_wf fs' p own (<[i := li]> ls).
Proof.
  intros Hli Hs Hfresh Hez. pose proof Hrep as [Hwf _].
  assert (length ls = DIR_LENGTH) as Hlls by apply (dw_len _ _ _ _ Hwf).
  assert (i < length ls)%nat as Hil.
  { destruct (rep_table_ok _ _ _ _ _ Hrep) as [Hl _]. lia. }
  assert (forall (j : nat) x, dir_at fs p !! j = Some x -> key_of x <> zero_key -> live x) as Hlive.
  { intros [|j] x Hx Hk.
    - destruct (dw_head _ _ _ _ Hwf) as (e0 & He0 & _ & ? & _). congruence.
    - destruct (rep_slot _ _ _ _ _ Hrep (S j) x Hx) as [lj Hlj].
      pose proof (dw_slot _ _ _ _ Hwf (S j) x lj) as Hsx.
      unfold slot_wf in Hsx. destruct (decide (live x)); [done |].
      destruct Hsx as [_ Hsx]; [done | done | done |]. congruence. }
  constructor.
  - apply Hso.
  - apply (dw_p _ _ _ _ Hwf).
  - apply change_alloc.
  - apply change_head.
  - by rewrite length_insert.
  - intros j ej lj Hj [[-> ->]|[Hne He]]%change_lookup Hl.
    + rewrite list_lookup_insert_eq in Hl by done. by injection Hl as <-.
    + rewrite list_lookup_insert_ne in Hl by done. by apply (change_slot_wf j).
  - intros j j' lj lj' x Hj Hj' Hne Hl Hl' Hx Hx'.
    destruct (decide (j = i)) as [->|Hji], (decide (j' = i)) as [->|Hji']; [done | | |].
    + rewrite list_lookup_insert_eq in Hl by done. injection Hl as <-.
      rewrite list_lookup_insert_ne in Hl' by done. by apply (Hown j' lj' x); [| | | | apply Hli].
    + rewrite list_lookup_insert_eq in Hl' by done. injection Hl' as <-.
      rewrite list_lookup_insert_ne in Hl by done. by apply (Hown j lj x); [| | | | apply Hli].
    + rewrite list_lookup_insert_ne in Hl, Hl' by done.
      by apply (dw_disj _ _ _ _ Hwf j j' lj lj' x).
  - intros j j' x x' [[-> ->]|[Hne Hx]]%change_lookup [[-> ->]|[Hne' Hx']]%change_lookup Hlx Hk.
    + done.
    + exfalso. apply (Hfresh Hlx j' x'); [done | done | | done].
      apply (Hlive j' x' Hx'). rewrite <- Hk. by apply Hez.
    + exfalso. destruct (decide (live e)) as [Hle|Hle]; [by apply (Hfresh Hle j x) |].
      unfold slot_wf in Hs. destruct (decide (live e)); [done |]. destruct Hs as [_ Hke].
      rewrite Hke in Hk. destruct (decide (j = 0%nat)) as [->|Hj].
      * destruct (dw_head _ _ _ _ Hwf) as (e0 & He0 & _ & _ & Ho & Hoz). congruence.
      * destruct (rep_slot _ _ _ _ _ Hrep j x Hx) as [lj Hlj].
        pose proof (dw_slot _ _ _ _ Hwf j x lj Hj Hx Hlj) as Hsx. unfold slot_wf in Hsx.
        destruct (decide (live x)); [| done]. by destruct Hsx as (_ & _ & _ & ? & _).
    + by apply (dw_uniq _ _ _ _ Hwf j j' x x').
Qed.

(** Inserting a live entry into a free slot. *)
Lemma insert_represents e0 : dir_at fs p !! i = Some e0 -> ~ live e0 -> live e ->
  slot_wf (fat_of fs') p e l -> M !! key_of e = None -> key_of e <> own ->
  represents_with fs' p own (<[i := l]> ls) (<[key_of e := node_of (disk fs') e l]> M).
Proof.
  intros He0 Hfree Hlive Hs HM Hko. pose proof Hrep as [Hwf HMr].
  assert (i < length ls)%nat as Hil.
  { rewrite (dw_len _ _ _ _ Hwf). destruct (rep_table_ok _ _ _ _ _ Hrep) as [Hl _]. lia. }
  assert (key_of e <> zero_key) as Hez.
  { unfold slot_wf in Hs. destruct (decide (live e)); [| done]. by destruct Hs as (_ & _ & _ & ? & _). }
  assert (forall (j : nat) x, dir_at fs p !! j = Some x -> live x -> key_of x <> key_of e) as Hfresh.
  { intros j x Hx Hlx Hk. destruct (decide (j = 0%nat)) as [->|Hj].
    - destruct (dw_head _ _ _ _ Hwf) as (h & Hh & _ & _ & Ho & _). congruence.
    - destruct (rep_slot _ _ _ _ _ Hrep j x Hx) as [lj Hlj].
      enough (M !! key_of e = Some (node_of (disk fs) x lj)) by congruence.
      apply HMr. by exists j, x, lj. }
  split; [by apply change_wf; [| | intros _ j x _; apply Hfresh |] |].
  intros k n. destruct (decide (k = key_of e)) as [->|Hne].
  - rewrite lookup_insert_eq. split.
    + intros [= <-]. exists i, e, l. split_and!; [done | | | done | done | done].
      * rewrite Hdir. by apply list_lookup_insert_eq.
      * by apply list_lookup_insert_eq.
    + intros (j & x & lj & Hj & [[-> ->]|[Hji Hx]]%change_lookup & Hl & Hlx & Hk & Hn).
      * rewrite list_lookup_insert_eq in Hl by done. injection Hl as <-. by rewrite Hn.
      * by destruct (Hfresh j x Hx Hlx).
  - rewrite lookup_insert_ne, HMr by done. split.
    + intros (j & x & lj & Hj & Hx & Hl & Hlx & Hk & Hn).
      assert (j <> i) by (intros ->; congruence).
      exists j, x, lj. rewrite Hdir, !list_lookup_insert_ne by done.
      split_and!; try done. by rewrite (change_node j).
    + intros (j & x & lj & Hj & [[-> ->]|[Hji Hx]]%change_lookup & Hl & Hlx & Hk & Hn); [congruence |].
      rewrite list_lookup_insert_ne in Hl by done.
      exists j, x, lj. split_and!; try done. by rewrite <- (change_node j).
Qed.

(** Clearing the slot of a live entry. *)
Lemma remove_represents e0 : dir_at fs p !! i = Some e0 -> live e0 -> ~ live e ->
  key_of e = zero_key ->
  represents_with fs' p own (<[i := []]> ls) (base.delete (key_of e0) M).
Proof.
  intros He0 Hlive Hfree Hez. pose proof Hrep as [Hwf HMr].
  assert (i < length ls)%nat as Hil.
  { rewrite (dw_len _ _ _ _ Hwf). destruct (rep_table_ok _ _ _ _ _ Hrep) as [Hl _]. lia. }
  split; [apply change_wf; [by intros x ?%elem_of_nil | | done | done]; unfold slot_wf; by destruct (decide _) |].
  intros k n. destruct (decide (k = key_of e0)) as [->|Hne].
  - rewrite lookup_delete_eq. split; [done |].
    intros (j & x & lj & Hj & [[-> ->]|[Hji Hx]]%change_lookup & Hl & Hlx & Hk & Hn); [done |].
    exfalso. apply Hji. by apply (dw_uniq _ _ _ _ Hwf j i x e0).
  - rewrite lookup_delete_ne, HMr by done. split.
    + intros (j & x & lj & Hj & Hx & Hl & Hlx & Hk & Hn).
      assert (j <> i) by (intros ->; congruence).
      exists j, x, lj. rewrite Hdir, !list_lookup_insert_ne by done.
      split_and!; try done. by rewrite (change_node j).
    + intros (j & x & lj & Hj & [[-> ->]|[Hji Hx]]%change_lookup & Hl & Hlx & Hk & Hn); [done |].
      rewrite list_lookup_insert_ne in Hl by done.
      exists j, x, lj. split_and!; try done. by rewrite <- (change_node j).
Qed.
End Change.
End Abs.
