(* ===== verification/Fat32Refine.v ===== *)
(** * The driver implements a directory map

    Formatting gives the empty map; [write] inserts the bytes of the buffer, or an
    empty subdirectory; [read] returns the bytes that were inserted; [delete]
    removes the entry. *)
From Stdlib Require Import String.
From stdpp Require Import gmap.
From S2P Require Import Prelude CString Memory BlockDevice Fat32Types Fat32 Fat32Chain Fat32Facts Fat32Ops Fat32Access Fat32Abs.
#[local] Open Scope Z_scope.

(** The code of [read_directory] for what a name stands for. *)
Definition dir_code (n : option node) : Z :=
  match n with Some (Dir _) => 0 | Some (File _) => 1 | None => 2 end.

(** ** The table of a new directory *)

Lemma new_dir_table_lookup nm p i e : i <> 0%nat -> new_dir_table nm p !! i = Some e ->
  e = zero_entry.
Proof.
  destruct i as [|i]; [done |]. intros _ He. unfold new_dir_table in He.
  change (replicate 63 zero_entry !! i = Some e) in He. by apply lookup_replicate in He as [-> _].
Qed.

Lemma new_dir_is_dir nm p : is_dir_table (new_dir_table nm p).
Proof. eexists. split; [reflexivity | reflexivity]. Qed.

Section Refine.
Context {D : Type} `{BlockDeviceSpec D}.

(** A directory just initialised is empty. *)
Lemma new_dir_represents (fs : Fs D) p nm q : fs_inv fs -> 2 <= p < 512 ->
  aget (fat_of fs) p <> Ret 0 -> dir_at fs p = new_dir_table nm q ->
  (take 8 nm, replicate 3 0) <> zero_key ->
  represents fs p (take 8 nm, replicate 3 0) ∅.
Proof.
  intros Hinv Hp Hal Hdir Hnz. exists (replicate DIR_LENGTH []).
  assert (forall (i : nat) e, i <> 0%nat -> dir_at fs p !! i = Some e -> e = zero_entry) as Hz.
  { intros i e. rewrite Hdir. apply new_dir_table_lookup. }
  split; [constructor; try assumption; try apply length_replicate |].
  - rewrite Hdir. eexists. split_and!; [reflexivity | reflexivity | reflexivity | reflexivity | assumption].
  - intros i e l Hi He%Hz Hl; [| done]. subst e. apply lookup_replicate in Hl as [-> _].
    unfold slot_wf. destruct (decide (live zero_entry)); [done |]. done.
  - intros i j l l' x _ _ _ [-> _]%lookup_replicate _ Hx. by apply elem_of_nil in Hx.
  - intros i j e e' He He' Hl Hk.
    destruct (decide (i = 0%nat)) as [->|Hi]; [| apply Hz in He; [by subst e | done]].
    destruct (decide (j = 0%nat)) as [->|Hj]; [done |].
    apply Hz in He'; [subst e' | done]. rewrite Hdir in He. injection He as <-. done.
  - intros k n. rewrite lookup_empty. split; [done |].
    intros (i & e & l & Hi & He%Hz & _ & Hl & _); [by subst e | done].
Qed.

(** ** Free slots and the size of the map *)

Lemma has_room_of_size (fs : Fs D) p own ls M : represents_with fs p own ls M ->
  (size M < 63)%nat -> has_room (dir_at fs p).
Proof.
  intros Hrep Hsz Hroom. pose proof (rep_table_ok _ _ _ _ _ Hrep) as [Hlen _].
  pose proof Hrep as [Hwf HMr].
  assert (forall (i : nat) e, i <> 0%nat -> dir_at fs p !! i = Some e -> live e) as Hlive.
  { intros i e Hi He. unfold new_entry_index in Hroom.
    destruct (first_index _ _) as [k|] eqn:E; [done |]. rewrite first_index_None in E.
    specialize (E (pred i) e). rewrite lookup_drop in E.
    replace (1 + pred i)%nat with i in E by lia. specialize (E He).
    unfold live. by destruct (Z.eqb_spec (user_attribute e) UATTR_NOT_EMPTY). }
  set (ks := list_to_set (C := gset key) (key_of <$> drop 1 (dir_at fs p))).
  assert (size ks = 63%nat) as Hks.
  { unfold ks. rewrite size_list_to_set; [by rewrite length_fmap, length_drop, Hlen |].
    apply NoDup_alt. intros i j k Hi Hj.
    apply list_lookup_fmap_Some in Hi as (e & -> & He).
    apply list_lookup_fmap_Some in Hj as (e' & Hk & He').
    rewrite lookup_drop in He, He'. enough (1 + i = 1 + j)%nat by lia.
    eapply (dw_uniq _ _ _ _ Hwf); [exact He | exact He' | | done].
    apply (Hlive (1 + i)%nat); done. }
  assert (ks ⊆ dom M) as Hsub.
  { intros k. unfold ks. rewrite elem_of_list_to_set. intros (e & -> & He)%list_elem_of_fmap.
    apply list_elem_of_lookup_1 in He as [i He]. rewrite lookup_drop in He.
    destruct (rep_slot _ _ _ _ _ Hrep _ _ He) as [l Hl].
    apply elem_of_dom. exists (node_of (disk fs) e l). apply HMr. exists (1 + i)%nat, e, l.
    split_and!; try done. by apply (Hlive (1 + i)%nat). }
  apply subseteq_size in Hsub. rewrite Hks, size_dom in Hsub. lia.
Qed.

(** ** Formatting *)

Lemma create_represents lit_tail (fs : Fs D) :
  dev_ok (disk fs) -> length (fat_of fs) = CLUSTER_MAP_SIZE ->
  length lit_tail = 3%nat -> Forall is_byte lit_tail ->
  exists fs', create_fat32 lit_tail fs = Ret fs' /\ fat_of fs' = fresh_fat /\
    represents fs' ROOT_CLUSTER_NUMBER (bytes_of "root" ++ [0] ++ lit_tail, replicate 3 0) ∅.
Proof.
  intros Hok Hlen Hl Hb. destruct (create_fat32_spec lit_tail fs) as (fs' & -> & Hinv & Hf & Hd);
    [done.. |]. exists fs'. split_and!; [done | done |].
  assert (take 8 (bytes_of "root" ++ [0] ++ lit_tail) = bytes_of "root" ++ [0] ++ lit_tail) as Ht.
  { apply take_ge. rewrite !length_app, Hl. done. }
  rewrite <- Ht. apply new_dir_represents with ROOT_CLUSTER_NUMBER; [done | done | | exact Hd |].
  - by rewrite Hf.
  - rewrite Ht. done.
Qed.

(** ** Writing *)

Section Write.
Context (fs : Fs D) (m : mem) (r : FAT32DriverRequest) (own : key) (ls : list (list Z))
  (M : gmap key node).
Context (Hrep : represents_with fs (parent_cluster_number r) own ls M).
Context (Hr : req_ok r) (Hm : bytes_ok m) (Hrz : req_key r <> zero_key).

#[local] Abbreviation p := (parent_cluster_number r).
#[local] Abbreviation t := (dir_at fs p).

(** A free slot found past the first is a free slot of the map. *)
Lemma free_slot : has_room t ->
  exists e0, t !! new_entry_index t = Some e0 /\ ~ live e0 /\ (new_entry_index t < length t)%nat.
Proof.
  intros Hroom. pose proof (new_entry_index_bound t (rep_table_ok _ _ _ _ _ Hrep)) as Hb.
  destruct (lookup_lt_is_Some_2 _ _ Hb) as [e0 He0]. exists e0. split_and!; [done | | done].
  by apply (new_entry_index_free t).
Qed.

(** Chains of live entries avoid clusters that were free. *)
Lemma owned_not_free (l : list Z) : (forall c, c ∈ l -> aget (fat_of fs) c = Ret 0) ->
  forall i, ~ (exists e0, t !! i = Some e0 /\ live e0) ->
  forall (j : nat) lj x, j <> 0%nat -> j <> i -> ls !! j = Some lj -> x ∈ lj -> x ∉ l.
Proof.
  intros Hfree i Hi j lj x Hj Hji Hl Hx Hxl. pose proof Hrep as [Hwf _].
  destruct (dw_inv _ _ _ _ Hwf) as (_ & [Hflen _] & H0f & _).
  assert (j < length t)%nat as Hjt.
  { destruct (rep_table_ok _ _ _ _ _ Hrep) as [-> _]. rewrite <- (dw_len _ _ _ _ Hwf).
    by eapply lookup_lt_Some. }
  destruct (lookup_lt_is_Some_2 _ _ Hjt) as [e He].
  pose proof (dw_slot _ _ _ _ Hwf j e lj Hj He Hl) as Hs. unfold slot_wf in Hs.
  destruct (decide (live e)).
  - destruct Hs as (Hc & _). apply (chain_not_free _ _ _ x Hflen H0f Hc Hx). by apply Hfree.
  - destruct Hs as [-> _]. by apply elem_of_nil in Hx.
Qed.

(** The clauses of [same_outside] from what [write] and [delete] guarantee. *)
Lemma same_outside_intro fat' t' cb d' l : dev_ok d' -> fat_ok fat' ->
  (forall x, in_table (fat_of fs) x -> x ∉ l -> aget fat' x = aget (fat_of fs) x) ->
  0 ∉ l -> 1 ∉ l -> dev_cluster d' 1 = encode_fat fat' ->
  dev_block d' 0 = dev_block (disk fs) 0 ->
  (forall x, 0 <= x < 512 -> x ∉ l -> x <> p -> x <> 1 ->
     dev_cluster d' x = dev_cluster (disk fs) x) ->
  same_outside fs (mkFs (mkDriver fat' t' cb) d') p l.
Proof.
  intros Hok Hf Hfat H0l H1l Hd1 Hb0 Hdata. pose proof Hrep as [Hwf _].
  destruct (dw_inv _ _ _ _ Hwf) as (_ & [Hflen _] & H0f & H1f & _ & Hsig).
  constructor; [| exact Hfat | exact Hdata].
  assert (forall (i : nat) v, Z.of_nat i ∉ l -> fat_of fs !! i = Some v -> fat' !! i = Some v) as Hget.
  { intros i v Hil Hv. pose proof (lookup_lt_Some _ _ _ Hv) as Hlt.
    enough (aget fat' (Z.of_nat i) = Ret v) as Hg.
    { apply aget_ret in Hg as [_ Hg]. by rewrite Nat2Z.id in Hg. }
    rewrite Hfat; [| unfold in_table; lia | done]. apply aget_ret.
    split; [lia | by rewrite Nat2Z.id]. }
  refine (conj Hok (conj Hf (conj _ (conj _ (conj Hd1 _))))); cbn [disk driver_state fat_table fat_of].
  - by apply Hget.
  - by apply Hget.
  - by rewrite Hb0.
Qed.

(** The bytes a successful write stores. *)
Lemma clusters_data_load d' (cl : list Z) base : forall off,
  (forall (k : nat) c, cl !! k = Some c -> dev_cluster d' c = load_bytes m (base + (off + Z.of_nat k) * CLUSTER_SIZE) 2048) ->
  clusters_data d' cl = load_bytes m (base + off * CLUSTER_SIZE) (2048 * length cl).
Proof.
  induction cl as [|c cl IH]; intros off Hd; [done |].
  rewrite clusters_data_cons, (Hd 0%nat c eq_refl), Z.add_0_r.
  replace (2048 * length (c :: cl))%nat with (2048 + 2048 * length cl)%nat by (cbn [length]; lia).
  rewrite load_bytes_app. f_equal. rewrite (IH (off + 1)).
  - f_equal. unfold CLUSTER_SIZE. lia.
  - intros k x Hx. rewrite (Hd (S k) x Hx). do 2 f_equal. lia.
Qed.

Lemma write_code_new : M !! req_key r = None -> req_key r <> own ->
  clusters_needed (buffer_size r) <= cluster_available (fat_of fs) -> write_code fs r = 0.
Proof.
  intros HM Hown Hav. unfold write_code.
  rewrite bool_decide_true by by apply (rep_is_dir _ _ _ _ _ Hrep). cbn [negb].
  rewrite (rep_lookup_None _ _ _ _ _ Hrep r) by done.
  destruct (Z.ltb_spec (cluster_available (fat_of fs)) (clusters_needed (buffer_size r))); lia || done.
Qed.

Lemma key_new_entry c attr : key_of (new_entry r c attr) = req_key r.
Proof.
  destruct Hr as (Hn & _ & He & _). unfold key_of, req_key, new_entry. cbn [name ext].
  by rewrite !take_ge by lia.
Qed.

Lemma needed_clusters size : 0 < size < 2 ^ 31 ->
  0 < clusters_needed size /\ size <= 2048 * clusters_needed size.
Proof. intros Hs. rewrite clusters_needed_small by lia. Z.div_mod_to_equations. lia. Qed.

(** A file of non-zero size starts at the first free cluster. *)
Lemma new_clusters_head : write_code fs r = 0 -> 0 < buffer_size r < 2 ^ 31 ->
  exists cl, new_clusters fs r = first_empty_cluster (fat_of fs) :: cl.
Proof.
  intros Hcode Hsz. pose proof (needed_clusters _ Hsz) as [Hn _]. pose proof Hrep as [Hwf _].
  pose proof (dw_inv _ _ _ _ Hwf) as Hinv.
  destruct (new_clusters_facts fs r Hinv Hcode) as (Hlen & _).
  destruct Hinv as (_ & [Hflen _] & H0f & H1f & _).
  unfold new_clusters in *. destruct (empty_from 0 (fat_of fs)) as [|x xs] eqn:Ex.
  - rewrite take_nil in Hlen. cbn [length] in Hlen. lia.
  - rewrite (first_empty_head _ Hflen H0f H1f _ _ Ex).
    destruct (Z.to_nat _) eqn:E; [lia |]. by eexists.
Qed.

Lemma file_slot_wf d' : write_code fs r = 0 -> 0 < buffer_size r < 2 ^ 31 ->
  let fs' := written fs r (file_entry fs r) (link_chain (fat_of fs) (new_clusters fs r)) d' in
  slot_wf (fat_of fs') p (file_entry fs r) (new_clusters fs r).
Proof.
  intros Hcode Hsz fs'. pose proof Hrep as [Hwf _]. pose proof (dw_inv _ _ _ _ Hwf) as Hinv.
  destruct (new_clusters_facts fs r Hinv Hcode) as (Hlen & Hcl & Hnd & Hfree & _).
  destruct (new_clusters_head Hcode Hsz) as [cl Ecl].
  pose proof (needed_clusters _ Hsz) as [Hn Hn2].
  assert (Forall (in_table (fat_of fs)) (new_clusters fs r)) as Hint.
  { destruct Hinv as (_ & [Hflen _] & _). eapply Forall_impl; [exact Hcl |].
    intros x. unfold in_table. rewrite Hflen. unfold CLUSTER_MAP_SIZE. cbn. lia. }
  rewrite Forall_forall in Hcl.
  assert (2 <= first_empty_cluster (fat_of fs) < 512) as Hc
    by (apply Hcl; rewrite Ecl; apply elem_of_cons; by left).
  unfold slot_wf. rewrite decide_True by done. split_and!.
  - change (fat_of fs') with (link_chain (fat_of fs) (new_clusters fs r)).
    unfold file_entry. rewrite new_entry_cluster, Ecl by lia.
    apply link_chain_chain; rewrite <- Ecl; [done | done |].
    intros Hx%Hcl. unfold FAT32_FAT_END_OF_FILE in Hx. lia.
  - intros Hin. by apply (dw_alloc _ _ _ _ Hwf), Hfree.
  - intros Hx%Hcl. lia.
  - unfold file_entry. by rewrite key_new_entry.
  - intros _. change (filesize (file_entry fs r)) with (buffer_size r). rewrite Hlen.
    split; lia.
Qed.

Lemma write_file_represents : has_room t -> M !! req_key r = None -> req_key r <> own ->
  0 < buffer_size r < 2 ^ 31 -> clusters_needed (buffer_size r) <= cluster_available (fat_of fs) ->
  exists fs', write fs m r = Ret (fs', 0) /\
    cluster_available (fat_of fs') =
      cluster_available (fat_of fs) - clusters_needed (buffer_size r) /\
    fat_of fs' = link_chain (fat_of fs) (new_clusters fs r) /\
    represents_with fs' p own (<[new_entry_index t := new_clusters fs r]> ls)
      (<[req_key r := File (load_bytes m (buf r) (Z.to_nat (buffer_size r)))]> M) /\
    dir_at fs' p !! new_entry_index t = Some (file_entry fs r) /\
    same_outside fs fs' p (new_clusters fs r) /\ dir_at fs' p !! 0%nat = t !! 0%nat.
Proof.
  intros Hroom HM Hown Hsz Hav. pose proof Hrep as [Hwf _].
  pose proof (dw_inv _ _ _ _ Hwf) as Hinv. pose proof (dw_p _ _ _ _ Hwf) as Hp.
  pose proof (write_code_new HM Hown Hav) as Hcode.
  destruct (new_clusters_facts fs r Hinv Hcode) as (Hlen & Hcl & Hnd & Hfree & _).
  destruct (write_file_ok fs m r Hinv Hr Hm Hp Hcode) as (d' & Hw & Hok' & Hdp & Hd1 & Hdata & Hoth & Hb0);
    [lia |].
  destruct (free_slot Hroom) as (e0 & He0 & Hdead & Hb).
  specialize (Hdata (dw_alloc _ _ _ _ Hwf)). pose proof (needed_clusters _ Hsz) as [_ Hneed].
  pose proof (file_slot_wf d' Hcode Hsz) as Hswf. cbn zeta in Hswf.
  set (fs' := written fs r (file_entry fs r) (link_chain (fat_of fs) (new_clusters fs r)) d') in *.
  assert (key_of (file_entry fs r) = req_key r) as Hkey by apply key_new_entry.
  assert (Forall (in_table (fat_of fs)) (new_clusters fs r)) as Hint.
  { destruct Hinv as (_ & [Hflen _] & _). eapply Forall_impl; [exact Hcl |].
    intros x. unfold in_table. rewrite Hflen. unfold CLUSTER_MAP_SIZE. cbn. lia. }
  exists fs'. split; [exact Hw |]. split.
  { change (fat_of fs') with (link_chain (fat_of fs) (new_clusters fs r)).
    rewrite cluster_available_link, Hlen; [lia | | done | done].
    eapply Forall_impl; [exact Hcl | cbn; lia]. }
  split; [done |].
  assert (dir_at fs' p = <[new_entry_index t := file_entry fs r]> t) as Hdir'.
  { unfold dir_at at 1. change (disk fs') with d'. rewrite Hdp.
    apply decode_encode_table, insert_ok; [by apply (rep_table_ok _ _ _ _ _ Hrep) |].
    apply new_entry_ok; [done | by_compute]. }
  assert (same_outside fs fs' p (new_clusters fs r)) as Hso.
  { rewrite Forall_forall in Hcl. apply same_outside_intro; try done.
    - apply link_chain_fat_ok; [apply Hinv |]. apply Forall_forall. intros x Hx%Hcl. lia.
    - intros x Hx Hxl. apply link_chain_other; [done | by destruct Hx | done].
    - intros Hx%Hcl. lia.
    - intros Hx%Hcl. lia. }
  split; [| split; [rewrite Hdir'; by apply list_lookup_insert_eq | split; [done | rewrite Hdir'; by apply list_lookup_insert_ne]]].
  assert (File (load_bytes m (buf r) (Z.to_nat (buffer_size r))) =
          node_of (disk fs') (file_entry fs r) (new_clusters fs r)) as ->.
  { unfold node_of. rewrite decide_False by done. f_equal.
    change (disk fs') with d'. change (filesize (file_entry fs r)) with (buffer_size r).
    rewrite (clusters_data_load d' _ (buf r) 0) by exact Hdata.
    rewrite take_load_bytes, Z.mul_0_l, Z.add_0_r; [done |]. lia. }
  rewrite <- Hkey. rewrite <- Hkey in HM, Hown.
  apply (insert_represents fs fs' p own ls M Hrep (new_clusters fs r)) with e0; try done.
  - intros Hin. by apply (dw_alloc _ _ _ _ Hwf), Hfree.
  - apply owned_not_free; [done |]. intros (x & Hx & Hlx). congruence.
Qed.

(** The clusters of the new file hold what memory holds from [buf] on, also behind
    the file's last byte. *)
Lemma write_file_stored fs' : has_room t -> M !! req_key r = None -> req_key r <> own ->
  0 < buffer_size r < 2 ^ 31 -> clusters_needed (buffer_size r) <= cluster_available (fat_of fs) ->
  write fs m r = Ret (fs', 0) ->
  stored fs' p (req_key r) (load_bytes m (buf r) (Z.to_nat (2048 * clusters_needed (buffer_size r)))).
Proof.
  intros Hroom HM Hown Hsz Hav Hw'. pose proof Hrep as [Hwf _].
  pose proof (dw_inv _ _ _ _ Hwf) as Hinv. pose proof (dw_p _ _ _ _ Hwf) as Hp.
  pose proof (write_code_new HM Hown Hav) as Hcode.
  destruct (new_clusters_facts fs r Hinv Hcode) as (Hlen & _).
  destruct (write_file_ok fs m r Hinv Hr Hm Hp Hcode) as (d' & Hw & _ & _ & _ & Hdata & _); [lia |].
  specialize (Hdata (dw_alloc _ _ _ _ Hwf)).
  destruct (write_file_represents Hroom HM Hown Hsz Hav) as (fs2 & Hw2 & _ & _ & [Hwf' _] & He & _).
  assert (fs2 = fs') as -> by congruence.
  assert (fs' = written fs r (file_entry fs r) (link_chain (fat_of fs) (new_clusters fs r)) d') as -> by congruence.
  destruct (free_slot Hroom) as (e0 & He0 & _ & Hb).
  exists (new_entry_index t), (file_entry fs r), (new_clusters fs r).
  pose proof (file_slot_wf d' Hcode Hsz) as Hs. unfold slot_wf in Hs. rewrite decide_True in Hs by done.
  split_and!; [exact Hroom | exact He | done | by apply key_new_entry | apply Hs |].
  cbn [disk written]. rewrite (clusters_data_load d' _ (buf r) 0) by exact Hdata.
  rewrite Z.mul_0_l, Z.add_0_r. f_equal. lia.
Qed.

(** Making a directory: the new one is empty and points back to its parent. *)
Lemma write_dir_represents : has_room t -> M !! req_key r = None -> req_key r <> own ->
  req_name r <> replicate 8 0 -> buffer_size r = 0 -> 0 < cluster_available (fat_of fs) ->
  let c := first_empty_cluster (fat_of fs) in
  exists fs', write fs m r = Ret (fs', 0) /\ 2 <= c < 512 /\
    represents_with fs' p own (<[new_entry_index t := [c]]> ls) (<[req_key r := Dir c]> M) /\
    represents fs' c (req_name r, replicate 3 0) ∅ /\
    dir_at fs' c = new_dir_table (req_name r) p /\ aget (fat_of fs) c = Ret 0 /\
    fat_of fs' = <[Z.to_nat c := EOF]> (fat_of fs) /\ same_outside fs fs' p [c] /\ dir_at fs' p !! 0%nat = t !! 0%nat.
Proof.
  intros Hroom HM Hown Hnz Hsz Hav c. pose proof Hrep as [Hwf _].
  pose proof (dw_inv _ _ _ _ Hwf) as Hinv. pose proof (dw_p _ _ _ _ Hwf) as Hp.
  assert (write_code fs r = 0) as Hcode.
  { apply write_code_new; [done | done |]. rewrite Hsz. change (clusters_needed 0) with 0. lia. }
  destruct (write_dir_ok fs m r Hinv Hr Hp Hcode Hsz Hav)
    as (d' & Hw & Hok' & Hc & Hcfree & Hfok' & Hdp & Hd1 & Hdc & Hoth & Hb0). fold c in Hw, Hc, Hcfree, Hfok', Hdp, Hd1, Hdc, Hoth.
  destruct (free_slot Hroom) as (e0 & He0 & Hdead & Hb).
  specialize (Hdc (dw_alloc _ _ _ _ Hwf)).
  set (fs' := written fs r (dir_entry fs r) (<[Z.to_nat c := EOF]> (fat_of fs)) d') in *.
  assert (key_of (dir_entry fs r) = req_key r) as Hkey by apply key_new_entry.
  assert (entry_cluster (dir_entry fs r) = c) as Hec by (apply new_entry_cluster; lia).
  assert (in_table (fat_of fs) c) as Hct.
  { destruct Hinv as (_ & [Hflen _] & _). unfold in_table. rewrite Hflen. unfold CLUSTER_MAP_SIZE. lia. }
  assert (aget (fat_of fs') c = Ret EOF) as Hceof by by apply aget_insert_eq.
  assert (p ∉ [c]) as Hpc.
  { rewrite list_elem_of_singleton. intros Epc. apply (dw_alloc _ _ _ _ Hwf). by rewrite Epc. }
  assert (same_outside fs fs' p [c]) as Hso.
  { apply same_outside_intro; try done.
    - intros x [Hx _] Hxc. rewrite list_elem_of_singleton in Hxc.
      apply aget_insert_ne; [lia | done | done].
    - rewrite list_elem_of_singleton. lia.
    - rewrite list_elem_of_singleton. lia.
    - intros x Hx Hxc. rewrite list_elem_of_singleton in Hxc. by apply Hoth. }
  assert (dir_at fs' c = new_dir_table (req_name r) p) as Hdirc.
  { unfold dir_at. change (disk fs') with d'. rewrite Hdc.
    apply decode_encode_table, new_dir_table_ok; [destruct Hr; lia | apply Hr]. }
  assert (dir_at fs' p = <[new_entry_index t := dir_entry fs r]> t) as Hdir'.
  { unfold dir_at at 1. change (disk fs') with d'. rewrite Hdp.
    apply decode_encode_table, insert_ok; [by apply (rep_table_ok _ _ _ _ _ Hrep) |].
    apply new_entry_ok; [done | by_compute]. }
  exists fs'. split_and!; [done | lia | lia | | | done | done | done | done | rewrite Hdir'; by apply list_lookup_insert_ne].
  - assert (Dir c = node_of (disk fs') (dir_entry fs r) [c]) as ->.
    { unfold node_of. rewrite decide_True by done. by rewrite Hec. }
    rewrite <- Hkey. rewrite <- Hkey in HM, Hown.
    apply (insert_represents fs fs' p own ls M Hrep [c] Hso Hpc _ _) with e0; try assumption; try reflexivity.
    + apply owned_not_free; [by intros x ->%list_elem_of_singleton |].
      intros (x & Hx & Hlx). congruence.
    + unfold slot_wf. rewrite decide_True by done. rewrite Hec, Hkey.
      split_and!; [by constructor | done | | done | done].
      rewrite list_elem_of_singleton. lia.
  - assert (take 8 (req_name r) = req_name r) as Htk by (apply take_ge; destruct Hr; lia).
    rewrite <- Htk at 1. apply new_dir_represents with p; [apply Hso | lia | by rewrite Hceof | done |].
    rewrite Htk. intros [= ?]. done.
Qed.
End Write.

(** ** Deleting and reading *)

(** The size of a file's data is the size its entry records. *)
Lemma file_node_size (fs : Fs D) e l data : dev_ok (disk fs) -> node_of (disk fs) e l = File data ->
  entry_ok e -> Forall (fun c => 0 <= c < 512) l ->
  (attribute e <> ATTR_SUBDIRECTORY -> filesize e <= 2048 * Z.of_nat (length l) /\
     Z.of_nat (length l) = clusters_needed (filesize e)) ->
  attribute e <> ATTR_SUBDIRECTORY /\ Z.of_nat (length data) = filesize e.
Proof.
  intros Hok Hn (_ & _ & _ & _ & _ & _ & _ & _ & Hfr) Hcl Hs.
  unfold node_of in Hn. destruct (decide _) as [|Ha]; [done |]. injection Hn as <-.
  split; [done |]. destruct (Hs Ha) as [Hle _].
  rewrite length_take, (clusters_data_length _ _ Hok Hcl). lia.
Qed.

Lemma chain_avoids_0 fat c l : length fat = CLUSTER_MAP_SIZE -> fat !! 0%nat = Some CLUSTER_0_VALUE ->
  chain fat c l -> 0 ∉ l.
Proof.
  intros Hlen H0f Hc H0l. destruct (chain_suffix _ _ _ _ Hc H0l) as (l' & Hl' & _).
  by apply (no_chain_0 fat l').
Qed.

Lemma released_available fat c l : fat_ok fat -> fat !! 0%nat = Some CLUSTER_0_VALUE ->
  chain fat c l -> 1 ∉ l ->
  cluster_available (zero_all fat l) = cluster_available fat + Z.of_nat (length l).
Proof.
  intros Hf H0f Hc H1l. pose proof (chain_avoids_0 _ _ _ (proj1 Hf) H0f Hc) as H0l.
  pose proof (chain_clusters _ _ _ Hf Hc) as Hcl. apply cluster_available_zero.
  - rewrite Forall_forall in *. intros x Hx. specialize (Hcl x Hx). cbn in Hcl.
    destruct (decide (x = 0)) as [->|]; [done |]. destruct (decide (x = 1)) as [->|]; [done | lia].
  - by eapply chain_NoDup.
  - intros x Hx. pose proof (chain_not_free _ _ _ x (proj1 Hf) H0f Hc Hx) as Hnf.
    pose proof (chain_in_table _ _ _ Hc) as Hin. rewrite Forall_forall in Hin.
    destruct (Hin x Hx) as [Hx0 Hx1]. destruct (lookup_lt_is_Some_2 fat (Z.to_nat x)) as [v Hv]; [lia |].
    assert (aget fat x = Ret v) as Hg by (by apply aget_ret). exists v. split; [done |].
    intros ->. done.
Qed.

Section ReadDelete.
Context (fs : Fs D) (r : FAT32DriverRequest) (own : key) (ls : list (list Z)) (M : gmap key node).
Context (Hrep : represents_with fs (parent_cluster_number r) own ls M).
Context (Hr : req_ok r) (Hrz : req_key r <> zero_key).

#[local] Abbreviation p := (parent_cluster_number r).

(** Releasing the clusters of a file or of an empty subdirectory. *)
Lemma delete_represents n : M !! req_key r = Some n ->
  (forall c, n = Dir c -> dir_empty (dir_at fs c) = true) ->
  exists fs', delete fs r = Ret (fs', 0) /\ represents fs' p own (base.delete (req_key r) M) /\
    (exists (i : nat) e l, i <> 0%nat /\ dir_at fs p !! i = Some e /\ ls !! i = Some l /\ live e /\
       key_of e = req_key r /\ fat_of fs' = zero_all (fat_of fs) l /\
       chain (fat_of fs) (entry_cluster e) l /\ node_of (disk fs) e l = n /\
       same_outside fs fs' p l /\ dir_at fs' p !! 0%nat = dir_at fs p !! 0%nat /\ represents_with fs' p own (<[i := []]> ls) (base.delete (req_key r) M)) /\
    forall data, n = File data -> cluster_available (fat_of fs') =
      cluster_available (fat_of fs) + clusters_needed (Z.of_nat (length data)).
Proof.
  intros HM Hempty. pose proof Hrep as [Hwf _]. pose proof (dw_inv _ _ _ _ Hwf) as Hinv.
  pose proof (dw_p _ _ _ _ Hwf) as Hp.
  destruct (rep_lookup _ _ _ _ _ Hrep r n Hr eq_refl Hrz HM)
    as (i & e & l & Hi & Hlk & He & Hl & Hlive & Hk & Hn & Hc & Hpl & H1l & Hfsz).
  assert (delete_code fs r = 0) as Hcode.
  { unfold delete_code. rewrite bool_decide_true by by apply (rep_is_dir _ _ _ _ _ Hrep).
    cbn [negb]. rewrite Hlk. change (Some i ≫= (fun i => dir_at fs p !! i)) with (dir_at fs p !! i).
    rewrite He. destruct (Z.eqb_spec (attribute e) ATTR_SUBDIRECTORY) as [Ea|]; [| done].
    unfold node_of in Hn. rewrite decide_True in Hn by done. by rewrite (Hempty _ (eq_sym Hn)). }
  pose proof Hinv as (Hok & Hf & H0f & H1f & _).
  destruct (delete_ok fs r i e l Hok Hf Hp Hcode Hlk He Hc) as (d' & Hd & Hok' & Hdp & Hd1 & Hoth & Hb0).
  pose proof (chain_in_table _ _ _ Hc) as Hin.
  assert (same_outside fs (deleted fs r i e l d') p l) as Hso.
  { apply same_outside_intro with own ls M; try done.
    - by apply zero_all_fat_ok.
    - intros x Hx Hxl. rewrite zero_all_get by done. by rewrite bool_decide_false.
    - by apply (chain_avoids_0 _ _ _ (proj1 Hf) H0f Hc).
    - intros x Hx _ Hxp Hx1. by apply Hoth. }
  assert (dir_at (deleted fs r i e l d') p = <[i := removed_entry e]> (dir_at fs p)) as Hdir'.
  { unfold dir_at at 1. change (disk (deleted fs r i e l d')) with d'. rewrite Hdp.
    apply decode_encode_table, insert_ok; [by apply (rep_table_ok _ _ _ _ _ Hrep) |].
    apply removed_entry_ok. by apply (rep_entry_ok _ _ _ _ _ Hrep i). }
  assert (represents_with (deleted fs r i e l d') p own (<[i := []]> ls) (base.delete (req_key r) M)) as Hrep'.
  { rewrite <- Hk. apply (remove_represents fs _ p own ls M Hrep l) with (e := removed_entry e); try done.
    - by eapply lookup_lt_Some.
    - intros j lj x Hj Hji Hlj Hx Hxl. by apply (dw_disj _ _ _ _ Hwf j i lj l x). }
  exists (deleted fs r i e l d'). split; [exact Hd |]. split; [by eexists |]. split.
  { exists i, e, l. split_and!; try done. rewrite Hdir'. by apply list_lookup_insert_ne. }
  intros data ->. change (fat_of (deleted fs r i e l d')) with (zero_all (fat_of fs) l).
  rewrite (released_available _ _ _ Hf H0f Hc H1l). f_equal.
  destruct (file_node_size fs e l data Hok Hn) as [Ha Hlen];
    [by apply (rep_entry_ok _ _ _ _ _ Hrep i) | by eapply chain_clusters | done |].
  rewrite Hlen. by apply Hfsz.
Qed.

Lemma delete_missing : M !! req_key r = None -> req_key r <> own ->
  delete fs r = Ret (set_dir fs (dir_at fs p), 1).
Proof.
  intros HM Hown. pose proof Hrep as [Hwf _]. destruct (dw_inv _ _ _ _ Hwf) as (Hok & _).
  pose proof (dw_p _ _ _ _ Hwf) as Hp.
  assert (delete_code fs r = 1) as Hcode.
  { unfold delete_code. rewrite bool_decide_true by by apply (rep_is_dir _ _ _ _ _ Hrep).
    cbn [negb]. by rewrite (rep_lookup_None _ _ _ _ _ Hrep r). }
  rewrite delete_not_found, Hcode; [done | done | lia | by right].
Qed.

(** What the clusters of a file of the map hold: its bytes, and what lies behind
    them up to the end of the last cluster. *)
Lemma stored_file k data bs : M !! k = Some (File data) -> stored fs p k bs ->
  exists rest, bs = data ++ rest /\ length bs = Z.to_nat (2048 * clusters_needed (Z.of_nat (length data))).
Proof.
  intros HM (i & e & l & Hi & He & Hlive & Hk & Hc & ->). pose proof Hrep as [Hwf HMr].
  destruct (dw_inv _ _ _ _ Hwf) as (Hok & Hf & _).
  apply HMr in HM as (j & e' & l' & Hj & He' & Hl' & Hlive' & Hk' & Hn).
  assert (j = i) as -> by (apply (dw_uniq _ _ _ _ Hwf j i e' e); congruence). assert (e' = e) as -> by congruence.
  pose proof (dw_slot _ _ _ _ Hwf i e l' Hi He Hl') as Hs. unfold slot_wf in Hs.
  rewrite decide_True in Hs by done. destruct Hs as (Hc' & _ & _ & _ & Hfs).
  assert (l' = l) as -> by (by eapply chain_det). unfold node_of in Hn. destruct (decide _) as [|Ha]; [done |].
  injection Hn as <-. destruct (Hfs Ha) as [Hsz Hnl]. pose proof (chain_clusters _ _ _ Hf Hc) as Hcl.
  pose proof (clusters_data_length _ _ Hok Hcl) as Hdl. pose proof (rep_entry_ok _ _ _ _ _ Hrep i e He) as (_ & _ & _ & _ & _ & _ & _ & _ & Hfr).
  exists (drop (Z.to_nat (filesize e)) (clusters_data (disk fs) l)). split; [by rewrite take_drop |].
  rewrite length_take, Hdl, Nat.min_l, Z2Nat.id, <- Hnl by lia. lia.
Qed.

Lemma stored_exists k data : M !! k = Some (File data) -> exists bs, stored fs p k bs.
Proof.
  pose proof Hrep as [Hwf HMr]. intros (i & e & l & Hi & He & Hl & Hlive & Hk & _)%HMr.
  pose proof (dw_slot _ _ _ _ Hwf i e l Hi He Hl) as Hs. unfold slot_wf in Hs. rewrite decide_True in Hs by done.
  eexists. exists i, e, l. split_and!; [done .. | apply Hs | done].
Qed.

(** Reading returns the bytes of the map, and fills whole clusters. *)
Lemma read_file_region m data bs : M !! req_key r = Some (File data) -> stored fs p (req_key r) bs ->
  Z.of_nat (length data) <= buffer_size r -> 0 <= buf r -> buf r + 2048 * 512 <= 2 ^ 32 ->
  exists m', read_mem fs m r = Ret (set_dir fs (dir_at fs p), m', 0) /\
    (bytes_ok m -> bytes_ok m') /\ load_bytes m' (buf r) (length bs) = bs /\
    forall x, 0 <= x < 2 ^ 32 -> ~ (buf r <= x < buf r + 2048 * clusters_needed (Z.of_nat (length data))) -> load m' x = load m x.
Proof.
  intros HM Hst Hsz Hb0 Hb. destruct (stored_file _ _ _ HM Hst) as (rest & Ebs & Hbl).
  pose proof Hrep as [Hwf _]. pose proof (dw_p _ _ _ _ Hwf) as Hp.
  destruct (dw_inv _ _ _ _ Hwf) as (Hok & Hf & _).
  destruct (rep_lookup _ _ _ _ _ Hrep r _ Hr eq_refl Hrz HM)
    as (i & e & l & Hi & Hlk & He & Hl & Hlive & Hk & Hn & Hc & Hpl & H1l & Hfs).
  assert (bs = clusters_data (disk fs) l) as Ebl.
  { destruct Hst as (j & e' & l' & Hj & He' & Hlive' & Hk' & Hc' & ->).
    assert (j = i) as -> by (apply (dw_uniq _ _ _ _ Hwf j i e' e); congruence). assert (e' = e) as -> by congruence.
    f_equal. by eapply chain_det. }
  unfold node_of in Hn. destruct (decide _) as [|Ha]; [done |]. injection Hn as Hn.
  destruct (Hfs Ha) as [Hfs' Hnl]. pose proof (chain_clusters _ _ _ Hf Hc) as Hcl.
  pose proof (clusters_data_length _ _ Hok Hcl) as Hdl.
  pose proof (rep_entry_ok _ _ _ _ _ Hrep i e He) as (_ & _ & _ & _ & _ & _ & _ & _ & Hfr).
  assert (length data = Z.to_nat (filesize e)) as Hlen.
  { rewrite <- Hn, length_take, Hdl. lia. }
  pose proof (chain_length _ _ _ Hc) as Hcn. rewrite (proj1 Hf) in Hcn. unfold CLUSTER_MAP_SIZE in Hcn.
  assert (read_code fs r = 0) as Hcode.
  { unfold read_code. rewrite bool_decide_true by by apply (rep_is_dir _ _ _ _ _ Hrep).
    cbn [negb]. rewrite Hlk, He. destruct (Z.eqb_spec (attribute e) ATTR_SUBDIRECTORY); [done |].
    destruct (Z.leb_spec (filesize e) (buffer_size r)); [done | lia]. }
  destruct (read_ok fs m r i e l Hok Hf) as (m' & Hrd & Hbm & Hm'); [lia | done | done | done | done | done | lia |].
  exists m'. split_and!; [exact Hrd | done | |].
  2:{ intros x Hx Hout. rewrite Hm' by done. rewrite Hlen, Z2Nat.id, <- Hnl in Hout by lia. split_cond; lia || done. }
  rewrite Ebl. apply list_eq_same_length with (length (clusters_data (disk fs) l)); [done | apply length_load_bytes |].
  intros k x y Hk' Hx Hy. rewrite Hdl in Hk'. unfold load_bytes in Hx.
  apply list_lookup_fmap_Some in Hx as (k' & -> & [-> _]%lookup_seq).
  rewrite Hm' by lia. split_cond; [| lia].
  replace (Z.to_nat _) with k by lia. by apply nth_lookup_Some.
Qed.

Lemma read_file_frame m data : M !! req_key r = Some (File data) ->
  Z.of_nat (length data) <= buffer_size r -> 0 <= buf r -> buf r + 2048 * 512 <= 2 ^ 32 ->
  exists m', read_mem fs m r = Ret (set_dir fs (dir_at fs p), m', 0) /\
    (bytes_ok m -> bytes_ok m') /\ load_bytes m' (buf r) (length data) = data /\
    forall x, 0 <= x < 2 ^ 32 -> ~ (buf r <= x < buf r + 2048 * clusters_needed (Z.of_nat (length data))) -> load m' x = load m x.
Proof.
  intros HM Hs Hb0 Hb1. destruct (stored_exists _ _ HM) as [bs Hst].
  destruct (read_file_region m data bs HM Hst Hs Hb0 Hb1) as (m' & ? & ? & Hld & ?). exists m'. split_and!; [done | done | | done].
  destruct (stored_file _ _ _ HM Hst) as (rest & -> & _). rewrite length_app in Hld.
  rewrite <- (take_load_bytes _ _ _ (length data + length rest)), Hld by lia. by rewrite take_app_length.
Qed.

Lemma read_file_represents m data : M !! req_key r = Some (File data) ->
  Z.of_nat (length data) <= buffer_size r -> 0 <= buf r -> buf r + 2048 * 512 <= 2 ^ 32 ->
  exists m', read_mem fs m r = Ret (set_dir fs (dir_at fs p), m', 0) /\
    (bytes_ok m -> bytes_ok m') /\ load_bytes m' (buf r) (length data) = data.
Proof.
  intros HM Hs Hb0 Hb1. destruct (read_file_frame m data HM Hs Hb0 Hb1) as (m' & ? & ? & ? & _). by exists m'.
Qed.

(** Reading a directory tells files, directories and missing names apart. *)
Lemma read_directory_represents : req_key r <> own -> exists t,
  read_directory fs r = Ret (set_dir fs t, dir_code (M !! req_key r)).
Proof.
  intros Hown. pose proof Hrep as [Hwf _]. pose proof (dw_p _ _ _ _ Hwf) as Hp.
  destruct (dw_inv _ _ _ _ Hwf) as (Hok & Hf & _).
  unfold read_directory. rewrite read_dir_cluster_spec, bind_ret_l by (done || lia).
  fold (dir_at fs (parent_cluster_number r)). cbv zeta.
  destruct (dir_head (dir_at fs (parent_cluster_number r))) as (e0 & -> & _ & Hd); [apply dir_at_ok; [done | lia] |].
  rewrite bind_ret_l, Hd, bool_decide_true by by apply (rep_is_dir _ _ _ _ _ Hrep). cbn [negb].
  fold (lookup_entry r (dir_at fs (parent_cluster_number r))).
  destruct (M !! req_key r) as [n|] eqn:HM.
  - destruct (rep_lookup _ _ _ _ _ Hrep r n Hr eq_refl Hrz HM) as (i & e & l & _ & Hlk & He & _ & _ & _ & Hn & Hc & _).
    rewrite Hlk. destruct (lookup_entry_bound _ _ _ Hlk) as (e' & He' & -> & _). assert (e' = e) as -> by congruence.
    rewrite bind_ret_l. unfold node_of in Hn. destruct (decide (attribute e = ATTR_SUBDIRECTORY)) as [E|E]; subst n; cbn [dir_code].
    + rewrite E. cbn [negb Z.eqb]. pose proof (chain_clusters _ _ _ Hf Hc) as Hcl. destruct (chain_hd _ _ _ Hc) as [l' ->].
      apply Forall_cons in Hcl as [Hcl _]. rewrite read_dir_cluster_spec, bind_ret_l by done. by eexists.
    + destruct (Z.eqb_spec (attribute e) ATTR_SUBDIRECTORY); [done |]. by eexists.
  - rewrite (rep_lookup_None _ _ _ _ _ Hrep r) by done. by eexists.
Qed.

Lemma read_missing m : M !! req_key r = None -> req_key r <> own ->
  read_mem fs m r = Ret (set_dir fs (dir_at fs p), m, 3).
Proof.
  intros HM Hown. pose proof Hrep as [Hwf _]. destruct (dw_inv _ _ _ _ Hwf) as (Hok & _).
  pose proof (dw_p _ _ _ _ Hwf) as Hp.
  assert (read_code fs r = 3) as Hcode.
  { unfold read_code. rewrite bool_decide_true by by apply (rep_is_dir _ _ _ _ _ Hrep).
    cbn [negb]. by rewrite (rep_lookup_None _ _ _ _ _ Hrep r). }
  unfold read_mem. rewrite read_prefix by (done || lia). by rewrite Hcode.
Qed.
End ReadDelete.
End Refine.
