(* ===== verification/Fat32Codes.v ===== *)
(** * What the driver answers, by what the name stands for

    The codes of read and delete requests as functions of the node the directory
    has under the request's name. *)
From stdpp Require Import gmap.
From S2P Require Import Prelude CString BlockDevice Fat32Types Fat32 Fat32Chain Fat32Facts Fat32Ops Fat32Access Fat32Abs Fat32Refine.
#[local] Open Scope Z_scope.

Definition read_answer (size : Z) (n : option node) : Z :=
  match n with
  | None => 3
  | Some (Dir _) => 1
  | Some (File data) => if Z.of_nat (length data) <=? size then 0 else 2
  end.
(** [empty]: a directory of that name has no entries. *)
Definition delete_answer (empty : bool) (n : option node) : Z :=
  match n with
  | None => 1
  | Some (Dir _) => if empty then 0 else 2
  | Some (File _) => 0
  end.

Section Codes.
Context {D : Type} `{BlockDeviceSpec D} (fs : Fs D) (r : FAT32DriverRequest) (own : key) (M : gmap key node).
Context (Hrep : represents fs (parent_cluster_number r) own M) (Hr : req_ok r).
Context (Hz : req_key r <> zero_key) (Hown : req_key r <> own).

(** The entry of a name, with its kind and size. *)
Lemma entry_of_node n : M !! req_key r = Some n -> exists i e, lookup_entry r (dir_at fs (parent_cluster_number r)) = Some i /\
  dir_at fs (parent_cluster_number r) !! i = Some e /\ 0 <= entry_cluster e < 512 /\
  match n with
  | Dir c => attribute e = ATTR_SUBDIRECTORY /\ c = entry_cluster e
  | File data => attribute e <> ATTR_SUBDIRECTORY /\ Z.of_nat (length data) = filesize e
  end.
Proof using Hrep Hr Hz.
  intros HM. destruct Hrep as [ls Hls]. pose proof Hls as [Hwf _]. destruct (dw_inv _ _ _ _ Hwf) as (Hok & Hf & _).
  destruct (rep_lookup _ _ _ _ _ Hls r n Hr eq_refl Hz HM) as (i & e & l & _ & Hlk & He & _ & _ & _ & Hn & Hc & _ & _ & Hfs).
  pose proof (chain_clusters _ _ _ Hf Hc) as Hcl. exists i, e. split; [done |]. split; [done |]. split.
  - destruct (chain_hd _ _ _ Hc) as [l' ->]. by apply Forall_cons in Hcl as [? _].
  - destruct n as [data|c].
    + apply (file_node_size fs e l data Hok Hn); [by apply (rep_entry_ok _ _ _ _ _ Hls i) | done |].
      intros Ha. destruct (Hfs Ha) as [Hb Hnl]. split; [lia | exact Hnl].
    + unfold node_of in Hn. destruct (decide _); [by injection Hn as <- | done].
Qed.

Lemma read_code_answer : read_code fs r = read_answer (buffer_size r) (M !! req_key r).
Proof using Hrep Hr Hz Hown.
  destruct Hrep as [ls Hls]. unfold read_code. rewrite bool_decide_true by by apply (rep_is_dir _ _ _ _ _ Hls). cbn [negb].
  destruct (M !! req_key r) as [n|] eqn:HM; [| by rewrite (rep_lookup_None _ _ _ _ _ Hls r)].
  destruct (entry_of_node n HM) as (i & e & -> & -> & _ & Hn). destruct n as [data|c]; cbn [read_answer].
  - destruct Hn as [Ha ->]. destruct (Z.eqb_spec (attribute e) ATTR_SUBDIRECTORY); [done |]. by destruct (filesize e <=? buffer_size r).
  - destruct Hn as [-> _]. reflexivity.
Qed.

Lemma delete_code_answer empty : (forall c, M !! req_key r = Some (Dir c) -> dir_empty (dir_at fs c) = empty) ->
  delete_code fs r = delete_answer empty (M !! req_key r).
Proof using Hrep Hr Hz Hown.
  intros Hempty. destruct Hrep as [ls Hls]. unfold delete_code. rewrite bool_decide_true by by apply (rep_is_dir _ _ _ _ _ Hls). cbn [negb].
  destruct (M !! req_key r) as [n|] eqn:HM; [| by rewrite (rep_lookup_None _ _ _ _ _ Hls r)].
  destruct (entry_of_node n HM) as (i & e & -> & He & _ & Hn).
  change (Some i ≫= (fun i => dir_at fs (parent_cluster_number r) !! i)) with (dir_at fs (parent_cluster_number r) !! i).
  rewrite He. destruct n as [data|c]; cbn [delete_answer].
  - destruct Hn as [Ha _]. by destruct (Z.eqb_spec (attribute e) ATTR_SUBDIRECTORY).
  - destruct Hn as [-> ->]. cbn [Z.eqb andb]. rewrite (Hempty _ eq_refl). by destruct empty.
Qed.

(** A refused request changes the directory buffer only. *)
Lemma read_refused m : read_answer (buffer_size r) (M !! req_key r) <> 0 ->
  read_mem fs m r = Ret (set_dir fs (dir_at fs (parent_cluster_number r)), m, read_answer (buffer_size r) (M !! req_key r)).
Proof using Hrep Hr Hz Hown.
  rewrite <- read_code_answer. intros Hc. destruct Hrep as [ls [Hwf _]]. destruct (dw_inv _ _ _ _ Hwf) as (Hok & _).
  pose proof (dw_p _ _ _ _ Hwf). unfold read_mem. rewrite read_prefix by (done || lia).
  by destruct (Z.eqb_spec (read_code fs r) 0).
Qed.

Lemma delete_refused empty : (forall c, M !! req_key r = Some (Dir c) -> dir_empty (dir_at fs c) = empty) ->
  delete_answer empty (M !! req_key r) <> 0 ->
  delete fs r = Ret (set_dir fs (dir_at fs (parent_cluster_number r)), delete_answer empty (M !! req_key r)).
Proof using Hrep Hr Hz Hown.
  intros Hempty Hc. pose proof (delete_code_answer empty Hempty) as Hans. pose proof Hrep as [ls Hls]. pose proof Hls as [Hwf _].
  destruct (dw_inv _ _ _ _ Hwf) as (Hok & _). pose proof (dw_p _ _ _ _ Hwf).
  destruct (M !! req_key r) as [n|] eqn:HM.
  - destruct (entry_of_node n HM) as (i & e & Hlk & He & Hec & _).
    rewrite (delete_prefix fs r i e), Hans by (done || lia || by apply (rep_is_dir _ _ _ _ _ Hls)).
    destruct n, empty; done.
  - rewrite delete_not_found, Hans; [done | done | lia | by right].
Qed.

(** Emptiness of a directory is emptiness of its map. *)
Lemma dir_empty_map c own2 M2 : represents fs c own2 M2 -> dir_empty (dir_at fs c) = bool_decide (M2 = ∅).
Proof using Type.
  clear. intros [ls [Hwf HM]]. unfold dir_empty. destruct (existsb _ _) eqn:Hex; symmetry; cbn [negb].
  - apply bool_decide_eq_false. intros ->. apply existsb_exists in Hex as (e & He & Hlive).
    apply list_elem_of_In, list_elem_of_lookup in He as [i He]. rewrite lookup_drop in He.
    destruct (rep_slot fs c own2 ls ∅ (conj Hwf HM) _ _ He) as [l Hl].
    assert ((∅ : gmap key node) !! key_of e = Some (node_of (disk fs) e l)) as Hn; [| by rewrite lookup_empty in Hn].
    apply HM. exists (1 + i)%nat, e, l. split_and!; try done. by apply Z.eqb_eq in Hlive.
  - apply bool_decide_eq_true, map_eq. intros k. rewrite lookup_empty. apply eq_None_not_Some. intros [n Hn].
    apply HM in Hn as (i & e & l & Hi & He & _ & Hlive & _). rewrite <- not_true_iff_false in Hex. apply Hex, existsb_exists.
    exists e. split; [| by rewrite Hlive]. apply list_elem_of_In, list_elem_of_lookup. exists (pred i). rewrite lookup_drop.
    by replace (1 + pred i)%nat with i by lia.
Qed.
End Codes.
