(* ===== verification/Fat32Props.v ===== *)
(** * Correctness of the file system driver

    The theorems about src/fat32.c: runs of file operations refine a finite map,
    files survive a reboot, deletion undoes a write, failed operations leave the
    disk alone, directories can be entered and left, chain walks are decided by
    the fuel given, and what goes wrong at the edges of the disk. *)
From Stdlib Require Import String.
From stdpp Require Import gmap.
From S2P Require Import Prelude CString BlockDevice Fat32Types Fat32 Fat32Chain Fat32Facts Fat32Ops Fat32Access Fat32Abs Fat32Refine.
#[local] Open Scope Z_scope.

(** ** Runs of file operations *)

Inductive fs_op : Type :=
  | OpWrite (r : FAT32DriverRequest)
  | OpRead (r : FAT32DriverRequest)
  | OpDelete (r : FAT32DriverRequest).

Definition op_req (o : fs_op) : FAT32DriverRequest :=
  match o with OpWrite r | OpRead r | OpDelete r => r end.

(** The abstract file system: contents by name, the caller's memory and the
    number of free clusters. *)
Record map_state := mkMap {
  files : gmap key (list Z);
  memory : mem;
  free_clusters : Z;
}.

(** An operation, its return code and the state it leaves. *)
Inductive map_step : map_state -> fs_op -> Z -> map_state -> Prop :=
  | map_write_new A m n r : A !! req_key r = None -> clusters_needed (buffer_size r) <= n ->
      map_step (mkMap A m n) (OpWrite r) 0
        (mkMap (<[req_key r := load_bytes m (buf r) (Z.to_nat (buffer_size r))]> A) m
           (n - clusters_needed (buffer_size r)))
  | map_write_full A m n r : A !! req_key r = None -> n < clusters_needed (buffer_size r) ->
      map_step (mkMap A m n) (OpWrite r) (-1) (mkMap A m n)
  | map_write_exists A m n r : is_Some (A !! req_key r) ->
      map_step (mkMap A m n) (OpWrite r) 1 (mkMap A m n)
  | map_read A m n r data m' : A !! req_key r = Some data ->
      Z.of_nat (length data) <= buffer_size r -> load_bytes m' (buf r) (length data) = data ->
      map_step (mkMap A m n) (OpRead r) 0 (mkMap A m' n)
  | map_read_small A m n r data : A !! req_key r = Some data ->
      buffer_size r < Z.of_nat (length data) ->
      map_step (mkMap A m n) (OpRead r) 2 (mkMap A m n)
  | map_read_missing A m n r : A !! req_key r = None ->
      map_step (mkMap A m n) (OpRead r) 3 (mkMap A m n)
  | map_delete A m n r data : A !! req_key r = Some data ->
      map_step (mkMap A m n) (OpDelete r) 0
        (mkMap (base.delete (req_key r) A) m (n + clusters_needed (Z.of_nat (length data))))
  | map_delete_missing A m n r : A !! req_key r = None ->
      map_step (mkMap A m n) (OpDelete r) 1 (mkMap A m n).

Inductive map_run : map_state -> list fs_op -> list Z -> map_state -> Prop :=
  | map_run_nil s : map_run s [] [] s
  | map_run_cons s o c s' os cs s'' : map_step s o c s' -> map_run s' os cs s'' ->
      map_run s (o :: os) (c :: cs) s''.

(** Requests of the C callers: 8.3 names other than the all-zero one and the
    directory's own, file sizes that fit an [int32_t], buffers inside memory. *)
Definition op_ok (p : Z) (own : key) (o : fs_op) : Prop :=
  let r := op_req o in
  req_ok r /\ parent_cluster_number r = p /\ req_key r <> zero_key /\ req_key r <> own /\
  0 <= buf r /\ buf r + 2048 * 512 <= 2 ^ 32 /\
  match o with OpWrite _ => 0 < buffer_size r < 2 ^ 31 | _ => True end.

Section Props.
Context {D : Type} `{BlockDeviceSpec D}.

Definition run_op (fs : Fs D) (m : mem) (o : fs_op) : outcome (Fs D * mem * Z) :=
  match o with
  | OpWrite r => '(fs', c) ← write fs m r; Ret (fs', m, c)
  | OpRead r => read_mem fs m r
  | OpDelete r => '(fs', c) ← delete fs r; Ret (fs', m, c)
  end.

Fixpoint run_ops (fs : Fs D) (m : mem) (os : list fs_op) : outcome (Fs D * mem * list Z) :=
  match os with
  | [] => Ret (fs, m, [])
  | o :: os' =>
    '(fs1, m1, c) ← run_op fs m o;
    '(fs2, m2, cs) ← run_ops fs1 m1 os';
    Ret (fs2, m2, c :: cs)
  end.

Lemma lookup_files (A : gmap key (list Z)) k : (File <$> A) !! k = File <$> A !! k.
Proof. apply lookup_fmap. Qed.

Lemma write_step (fs : Fs D) m r own A : represents fs (parent_cluster_number r) own (File <$> A) ->
  bytes_ok m -> (size A < 63)%nat -> op_ok (parent_cluster_number r) own (OpWrite r) ->
  exists fs' c A', write fs m r = Ret (fs', c) /\
    map_step (mkMap A m (cluster_available (fat_of fs))) (OpWrite r) c
      (mkMap A' m (cluster_available (fat_of fs'))) /\ (size A' <= S (size A))%nat /\
    represents fs' (parent_cluster_number r) own (File <$> A').
Proof.
  intros [ls Hrep] Hm Hsz (Hr & _ & Hz & Hown & _ & _ & Hs). cbn [op_req] in *.
  pose proof Hrep as [Hwf _]. destruct (dw_inv _ _ _ _ Hwf) as (Hok & _).
  pose proof (dw_p _ _ _ _ Hwf) as Hp. pose proof (lookup_files A (req_key r)) as HA.
  destruct (A !! req_key r) as [data|] eqn:EA; cbn in HA.
  { destruct (rep_lookup _ _ _ _ _ Hrep r _ Hr eq_refl Hz HA) as (i & e & l & _ & Hlk & _).
    assert (write_code fs r = 1) as Hcode.
    { unfold write_code. rewrite bool_decide_true by by apply (rep_is_dir _ _ _ _ _ Hrep).
      cbn [negb]. by rewrite Hlk. }
    exists (set_dir fs (dir_at fs (parent_cluster_number r))), 1, A. refine (conj _ (conj _ (conj _ _)));
      [| constructor; by eexists | lia | by apply represents_same with fs; [| | exists ls]].
    rewrite write_reject, Hcode; [done | done | lia | by rewrite Hcode]. }
  destruct (Z.le_gt_cases (clusters_needed (buffer_size r)) (cluster_available (fat_of fs))) as [Hav|Hav].
  - destruct (write_file_represents fs m r own ls (File <$> A)) as (fs' & Hw & Hav' & _ & Hrep' & _);
      try done.
    { apply (has_room_of_size _ _ _ _ _ Hrep). by rewrite map_size_fmap. }
    do 3 eexists. refine (conj _ (conj _ (conj _ _))); [exact Hw | rewrite Hav'; by constructor | | rewrite fmap_insert; by eexists].
    rewrite map_size_insert_None by done. done.
  - assert (write_code fs r = -1) as Hcode.
    { unfold write_code. rewrite bool_decide_true by by apply (rep_is_dir _ _ _ _ _ Hrep).
      cbn [negb]. rewrite (rep_lookup_None _ _ _ _ _ Hrep r) by done.
      destruct (Z.ltb_spec (cluster_available (fat_of fs)) (clusters_needed (buffer_size r))); lia || done. }
    exists (set_dir fs (dir_at fs (parent_cluster_number r))), (-1), A. refine (conj _ (conj _ (conj _ _)));
      [| by constructor | lia | by apply represents_same with fs; [| | exists ls]].
    rewrite write_reject, Hcode; [done | done | lia | by rewrite Hcode].
Qed.

Lemma read_step (fs : Fs D) m r own A : represents fs (parent_cluster_number r) own (File <$> A) ->
  bytes_ok m -> op_ok (parent_cluster_number r) own (OpRead r) ->
  exists fs' m' c, read_mem fs m r = Ret (fs', m', c) /\ bytes_ok m' /\
    map_step (mkMap A m (cluster_available (fat_of fs))) (OpRead r) c
      (mkMap A m' (cluster_available (fat_of fs'))) /\
    represents fs' (parent_cluster_number r) own (File <$> A).
Proof.
  intros [ls Hrep] Hm (Hr & _ & Hz & Hown & Hb0 & Hb & _). cbn [op_req] in *.
  pose proof Hrep as [Hwf _]. destruct (dw_inv _ _ _ _ Hwf) as (Hok & Hf & _).
  pose proof (dw_p _ _ _ _ Hwf) as Hp. pose proof (lookup_files A (req_key r)) as HA.
  destruct (A !! req_key r) as [data|] eqn:EA; cbn in HA.
  - destruct (Z.le_gt_cases (Z.of_nat (length data)) (buffer_size r)) as [Hle|Hgt].
    + destruct (read_file_represents fs r own ls _ Hrep Hr Hz m data HA Hle Hb0 Hb)
        as (m' & Hrd & Hbm & Hdata).
      do 3 eexists. refine (conj _ (conj _ (conj _ _))); [exact Hrd | by apply Hbm | by econstructor | by apply represents_same with fs; [| | exists ls]].
    + destruct (rep_lookup _ _ _ _ _ Hrep r _ Hr eq_refl Hz HA)
        as (i & e & l & _ & Hlk & He & _ & _ & _ & Hn & Hc & _ & _ & Hfs).
      unfold node_of in Hn. destruct (decide _) as [|Ha]; [done |]. injection Hn as Hn.
      assert (buffer_size r < filesize e) as Hbig.
      { destruct Hr as (_ & _ & _ & _ & ? & _). rewrite <- Hn, length_take in Hgt. lia. }
      assert (read_code fs r = 2) as Hcode.
      { unfold read_code. rewrite bool_decide_true by by apply (rep_is_dir _ _ _ _ _ Hrep).
        cbn [negb]. rewrite Hlk, He. destruct (Z.eqb_spec (attribute e) ATTR_SUBDIRECTORY); [done |].
        destruct (Z.leb_spec (filesize e) (buffer_size r)); [lia | done]. }
      exists (set_dir fs (dir_at fs (parent_cluster_number r))), m, 2.
      refine (conj _ (conj _ (conj _ _))); [| exact Hm | by econstructor | by apply represents_same with fs; [| | exists ls]].
      unfold read_mem. rewrite read_prefix, Hcode by (done || lia). reflexivity.
  - do 3 eexists. refine (conj _ (conj _ (conj _ _))); [by apply (read_missing fs r own ls _ Hrep) | exact Hm
      | by constructor | by apply represents_same with fs; [| | exists ls]].
Qed.

Lemma delete_step (fs : Fs D) m r own A : represents fs (parent_cluster_number r) own (File <$> A) ->
  op_ok (parent_cluster_number r) own (OpDelete r) ->
  exists fs' c A', delete fs r = Ret (fs', c) /\
    map_step (mkMap A m (cluster_available (fat_of fs))) (OpDelete r) c
      (mkMap A' m (cluster_available (fat_of fs'))) /\ (size A' <= size A)%nat /\
    represents fs' (parent_cluster_number r) own (File <$> A').
Proof.
  intros [ls Hrep] (Hr & _ & Hz & Hown & _). cbn [op_req] in *. pose proof (lookup_files A (req_key r)) as HA.
  destruct (A !! req_key r) as [data|] eqn:EA; cbn in HA.
  - destruct (delete_represents fs r own ls _ Hrep Hr Hz _ HA) as (fs' & Hd & Hrep' & _ & Hav'); [done |].
    do 3 eexists. refine (conj _ (conj _ (conj _ _))); [exact Hd | rewrite (Hav' data eq_refl); by constructor | | by rewrite fmap_delete].
    rewrite map_size_delete_Some by (by eexists). lia.
  - do 3 eexists. refine (conj _ (conj _ (conj _ _))); [by apply (delete_missing fs r own ls _ Hrep)
      | by constructor | lia | by apply represents_same with fs; [| | exists ls]].
Qed.

(** Any run of write, read and delete requests on the files of a directory
    terminates without an access out of bounds and returns the codes and the
    bytes that the same run on a finite map from names to contents gives; the
    directory ends up representing the final map. *)
Theorem file_operations_refine_map (fs : Fs D) m p own A os :
  represents fs p own (File <$> A) -> bytes_ok m -> Forall (op_ok p own) os ->
  (size A + length os <= 63)%nat ->
  exists fs' m' cs A', run_ops fs m os = Ret (fs', m', cs) /\
    map_run (mkMap A m (cluster_available (fat_of fs))) os cs
      (mkMap A' m' (cluster_available (fat_of fs'))) /\ represents fs' p own (File <$> A').
Proof.
  intros Hrep Hm Hos. revert fs m A Hrep Hm.
  induction Hos as [|o os Ho Hos IH]; intros fs m A Hrep Hm Hsz.
  { do 4 eexists. split_and!; [done | constructor | done]. }
  cbn [length] in Hsz. pose proof Ho as (_ & Hpar & _).
  assert (exists fs1 m1 c A1, run_op fs m o = Ret (fs1, m1, c) /\ bytes_ok m1 /\
    map_step (mkMap A m (cluster_available (fat_of fs))) o c
      (mkMap A1 m1 (cluster_available (fat_of fs1))) /\ (size A1 <= S (size A))%nat /\ represents fs1 p own (File <$> A1))
    as (fs1 & m1 & c & A1 & E1 & Hm1 & Hs1 & Hz1 & Hr1).
  { subst p. destruct o as [r|r|r]; cbn [op_req] in *.
    - destruct (write_step fs m r own A) as (fs1 & c & A1 & E & ? & ? & ?); [done | done | lia | done |].
      exists fs1, m, c, A1. cbn [run_op]. by rewrite E.
    - destruct (read_step fs m r own A) as (fs1 & m1 & c & E & ? & ? & ?); [done | done | done |].
      exists fs1, m1, c, A. split_and!; try done. lia.
    - destruct (delete_step fs m r own A) as (fs1 & c & A1 & E & ? & ? & ?); [done | done |].
      exists fs1, m, c, A1. cbn [run_op]. rewrite E. split_and!; try done. lia. }
  destruct (IH fs1 m1 A1 Hr1 Hm1) as (fs2 & m2 & cs & A2 & E2 & Hs2 & Hr2); [lia |].
  exists fs2, m2, (c :: cs), A2. cbn [run_ops]. rewrite E1, bind_ret_l, E2.
  split_and!; [done | by econstructor | done].
Qed.

(** Mounting what the driver left. *)
Lemma mount_same (fs : Fs D) p own M lit_tail ds : represents fs p own M ->
  initialize_filesystem_fat32 lit_tail (mkFs ds (disk fs)) = Ret (set_fat (mkFs ds (disk fs)) (fat_of fs)).
Proof.
  intros (ls & Hwf & _). destruct (dw_inv _ _ _ _ Hwf) as (Hok & Hf & _ & _ & Hd1 & Hsig). rewrite mount_spec by done.
  change (disk (mkFs ds (disk fs))) with (disk fs). by rewrite Hd1, decode_encode_fat.
Qed.

(** A reboot loses nothing: mounting the disk of a running system, with any
    driver state, finds the signature, loads the same allocation table and sees
    the same directory contents. *)
Theorem reboot_recovers_directory (fs : Fs D) p own M lit_tail ds :
  represents fs p own M ->
  exists fs', initialize_filesystem_fat32 lit_tail (mkFs ds (disk fs)) = Ret fs' /\
    fat_of fs' = fat_of fs /\ disk fs' = disk fs /\ represents fs' p own M.
Proof.
  intros Hrep. exists (set_fat (mkFs ds (disk fs)) (fat_of fs)). rewrite (mount_same fs p own M) by done.
  split_and!; [done | done | done |]. by apply represents_same with fs.
Qed.

(** C24: Mounting a device without the signature formats it: the root directory
    is empty, all clusters but the three reserved ones are free, and the next
    mount finds the file system. *)
Theorem mount_formats_blank_device (d : D) lit_tail :
  dev_ok d -> dev_block d 0 <> fs_signature -> length lit_tail = 3%nat -> Forall is_byte lit_tail ->
  exists fs, initialize_filesystem_fat32 lit_tail (mkFs initial_driver_state d) = Ret fs /\
    represents fs ROOT_CLUSTER_NUMBER (bytes_of "root" ++ [0] ++ lit_tail, replicate 3 0) ∅ /\
    cluster_available (fat_of fs) = 509 /\ is_empty_storage (disk fs) = Ret false.
Proof.
  intros Hok Hsig Hl Hb.
  destruct (create_represents lit_tail (mkFs initial_driver_state d)) as (fs & Hc & Hf & Hrep);
    [done.. |].
  exists fs. unfold initialize_filesystem_fat32. change (disk (mkFs initial_driver_state d)) with d.
  rewrite is_empty_storage_spec, bind_ret_l, bool_decide_true by done. split_and!; [done | done | |].
  - rewrite Hf. reflexivity.
  - destruct Hrep as (ls & Hwf & _). destruct (dw_inv _ _ _ _ Hwf) as (Hok' & _ & _ & _ & _ & Hs).
    rewrite is_empty_storage_spec by done. by rewrite bool_decide_false by (intros Hn; by apply Hn).
Qed.

(** C25: Deleting a file that was just written restores the allocation table
    exactly, and the directory contents with it. *)
Theorem delete_undoes_write (fs : Fs D) m r own M :
  represents fs (parent_cluster_number r) own M -> req_ok r -> bytes_ok m ->
  req_key r <> zero_key -> req_key r <> own -> M !! req_key r = None -> (size M < 63)%nat ->
  0 < buffer_size r < 2 ^ 31 -> clusters_needed (buffer_size r) <= cluster_available (fat_of fs) ->
  exists fs1 fs2, write fs m r = Ret (fs1, 0) /\ delete fs1 r = Ret (fs2, 0) /\
    fat_of fs1 <> fat_of fs /\ fat_of fs2 = fat_of fs /\
    represents fs2 (parent_cluster_number r) own M.
Proof.
  intros [ls Hrep] Hr Hm Hz Hown HM Hsz Hs Hav.
  pose proof (has_room_of_size _ _ _ _ _ Hrep Hsz) as Hroom.
  destruct (write_file_represents fs m r own ls M Hrep Hr Hm Hz Hroom HM Hown Hs Hav)
    as (fs1 & Hw & Hav1 & Hf1 & Hrep1 & Hdir1 & _).
  destruct (delete_represents fs1 r own _ _ Hrep1 Hr Hz _ (lookup_insert_eq _ _ _))
    as (fs2 & Hd & Hrep2 & (i & e & l & Hi & He & Hl & Hlive & Hk & Hf2 & _) & _); [done |].
  pose proof (needed_clusters _ Hs) as [Hn _].
  exists fs1, fs2. split_and!; [done | done | by intros Heq; rewrite Heq in Hav1; lia | |].
  - pose proof Hrep1 as [Hwf1 _].
    assert (i = new_entry_index (dir_at fs (parent_cluster_number r))) as ->.
    { eapply (dw_uniq _ _ _ _ Hwf1); [exact He | exact Hdir1 | done |].
      rewrite Hk. symmetry. by apply key_new_entry. }
    rewrite list_lookup_insert_eq in Hl
      by (rewrite (dw_len _ _ _ _ (proj1 Hrep)), <- (proj1 (rep_table_ok _ _ _ _ _ Hrep));
          by apply new_entry_index_bound, (rep_table_ok _ _ _ _ _ Hrep)).
    injection Hl as <-. rewrite Hf2, Hf1. pose proof Hrep as [Hwf _].
    pose proof (dw_inv _ _ _ _ Hwf) as Hinv.
    destruct (new_clusters_facts fs r Hinv) as (_ & Hcl & _ & Hfree & _).
    { by apply (write_code_new fs r own ls M). }
    apply zero_link_id; [| done]. destruct Hinv as (_ & [Hflen _] & _).
    eapply Forall_impl; [exact Hcl |]. intros x. unfold in_table. rewrite Hflen.
    unfold CLUSTER_MAP_SIZE. cbn. lia.
  - by rewrite delete_insert_id in Hrep2.
Qed.

(** C26: A file write that runs out of clusters, meets an existing name or a
    parent that is no directory, and a read or delete that fails, return the code of
    the check that failed ([write_code], [read_code], [delete_code]: -1 for a parent
    that is no directory, where fat32.h documents 2 for write) and change neither
    the disk nor the allocation table. *)
Theorem failed_operations_change_nothing (fs : Fs D) m r :
  dev_ok (disk fs) -> 0 <= parent_cluster_number r < 512 ->
  (write_code fs r <> 0 -> exists fs', write fs m r = Ret (fs', write_code fs r) /\
     disk fs' = disk fs /\ fat_of fs' = fat_of fs) /\
  (read_code fs r <> 0 -> exists fs', read_mem fs m r = Ret (fs', m, read_code fs r) /\
     disk fs' = disk fs /\ fat_of fs' = fat_of fs) /\
  (delete_code fs r <> 0 ->
     (forall i e, lookup_entry r (dir_at fs (parent_cluster_number r)) = Some i ->
        dir_at fs (parent_cluster_number r) !! i = Some e -> 0 <= entry_cluster e < 512) ->
     exists fs', delete fs r = Ret (fs', delete_code fs r) /\
     disk fs' = disk fs /\ fat_of fs' = fat_of fs).
Proof.
  intros Hok Hp. split_and!.
  - intros Hc. eexists. split; [by apply write_reject |]. done.
  - intros Hc. exists (set_dir fs (dir_at fs (parent_cluster_number r))). split; [| done]. unfold read_mem. rewrite read_prefix by done.
    destruct (Z.eqb_spec (read_code fs r) 0); [done | reflexivity].
  - intros Hc Hec. exists (set_dir fs (dir_at fs (parent_cluster_number r))). split; [| done].
    destruct (delete_code_cases fs r) as [?|[?|(i & e & Hdir & Hl & He & Hcases)]];
      [by apply delete_not_found; [| | left] | by apply delete_not_found; [| | right] |].
    rewrite (delete_prefix fs r i e) by eauto. destruct Hcases as [?|Hc2]; [done |]. by rewrite Hc2.
Qed.

(** A subdirectory of the map is found by its name. *)
Lemma move_to_child_spec (fs : Fs D) r own M c :
  represents fs (parent_cluster_number r) own M -> req_ok r -> req_ext r = bytes_of "dir" ->
  M !! req_key r = Some (Dir c) -> move_to_child_directory fs r = Ret c.
Proof.
  intros [ls Hrep] Hr Hext HM. pose proof Hrep as [Hwf _].
  destruct (dw_inv _ _ _ _ Hwf) as (Hok & _). pose proof (dw_p _ _ _ _ Hwf) as Hp.
  assert (req_key r <> zero_key) as Hz.
  { unfold req_key. rewrite Hext. done. }
  destruct (rep_lookup _ _ _ _ _ Hrep r _ Hr eq_refl Hz HM)
    as ([|i] & e & l & Hi & Hlk & He & _ & Hlive & Hk & Hn & _); [done |].
  unfold move_to_child_directory. rewrite read_dir_cluster_spec, bind_ret_l by (done || lia).
  fold (dir_at fs (parent_cluster_number r)).
  assert (first_index (fun e => (memcmp (at_list (ext e)) (at_list (bytes_of "dir")) 3 =? 0) &&
            (memcmp (at_list (name e)) (at_list (req_name r)) 8 =? 0))
            (drop 1 (dir_at fs (parent_cluster_number r))) = Some i) as ->.
  { apply first_index_Some in Hlk as [(x & Hx & Hm) Hbefore]. unfold entry_match in Hm, Hbefore.
    rewrite Hext in Hm, Hbefore. apply first_index_Some. split.
    - exists x. rewrite lookup_drop. split; [done | by rewrite andb_comm].
    - intros j y Hj Hy. rewrite lookup_drop in Hy. rewrite andb_comm.
      apply (Hbefore (1 + j)%nat); [lia | done]. }
  replace (Z.of_nat i + 1) with (Z.of_nat (S i)) by lia.
  destruct (lookup_entry_bound _ _ _ Hlk) as (e' & He' & -> & _).
  assert (e' = e) as -> by congruence. rewrite bind_ret_l.
  unfold node_of in Hn. destruct (decide _); [| done]. by injection Hn as ->.
Qed.

(** The way up is the first entry. *)
Lemma move_to_parent_spec (fs : Fs D) r e p : dev_ok (disk fs) -> 0 <= parent_cluster_number r < 512 ->
  dir_at fs (parent_cluster_number r) !! 0%nat = Some e -> entry_cluster e = p -> move_to_parent_directory fs r = Ret p.
Proof.
  intros Hok Hr He <-. unfold move_to_parent_directory. rewrite read_dir_cluster_spec, bind_ret_l by done.
  fold (dir_at fs (parent_cluster_number r)). by rewrite (proj2 (aget_ret _ _ _)) by (split; [lia | exact He]).
Qed.

(** Making a directory, and the two ways along the new edge. *)
Lemma mkdir_spec (fs : Fs D) m r own M :
  represents fs (parent_cluster_number r) own M -> req_ok r -> bytes_ok m ->
  req_ext r = bytes_of "dir" -> req_name r <> replicate 8 0 -> req_key r <> own ->
  M !! req_key r = None -> (size M < 63)%nat -> buffer_size r = 0 ->
  0 < cluster_available (fat_of fs) ->
  exists fs' c, write fs m r = Ret (fs', 0) /\ move_to_child_directory fs' r = Ret c /\
    (forall r', parent_cluster_number r' = c ->
       move_to_parent_directory fs' r' = Ret (parent_cluster_number r)) /\
    represents fs' c (req_name r, replicate 3 0) ∅ /\
    represents fs' (parent_cluster_number r) own (<[req_key r := Dir c]> M).
Proof.
  intros [ls Hrep] Hr Hm Hext Hnz Hown HM Hsz Hs Hav.
  pose proof (has_room_of_size _ _ _ _ _ Hrep Hsz) as Hroom.
  assert (req_key r <> zero_key) as Hz.
  { unfold req_key. rewrite Hext. done. }
  destruct (write_dir_represents fs m r own ls M Hrep Hr Hz Hroom HM Hown Hnz Hs Hav)
    as (fs' & Hw & Hc & Hrep' & Hchild & Hdir & _).
  assert (represents fs' (parent_cluster_number r) own (<[req_key r := Dir (first_empty_cluster (fat_of fs))]> M)) as Hp by by eexists.
  exists fs', (first_empty_cluster (fat_of fs)). split_and!; [done | | | done | done].
  - apply (move_to_child_spec fs' r own _ _ Hp Hr Hext), lookup_insert_eq.
  - intros r' Hr'. destruct Hr as (_ & _ & _ & _ & _ & ?). destruct Hchild as (ls' & Hwf' & _).
    eapply move_to_parent_spec; [apply (dw_inv _ _ _ _ Hwf') | rewrite Hr'; lia | by rewrite Hr', Hdir | apply cluster_halves; lia].
Qed.
(** A directory made with [write] and size 0 can be entered by name and left
    again: [move_to_child_directory] finds its cluster, it is empty, and
    [move_to_parent_directory] from it leads back to the parent. *)
Theorem mkdir_then_enter_and_leave (fs : Fs D) m r own M :
  represents fs (parent_cluster_number r) own M -> req_ok r -> bytes_ok m ->
  req_ext r = bytes_of "dir" -> req_name r <> replicate 8 0 -> req_key r <> own ->
  M !! req_key r = None -> (size M < 63)%nat -> buffer_size r = 0 ->
  0 < cluster_available (fat_of fs) ->
  exists fs' c, write fs m r = Ret (fs', 0) /\ move_to_child_directory fs' r = Ret c /\
    (forall r', parent_cluster_number r' = c ->
       move_to_parent_directory fs' r' = Ret (parent_cluster_number r)) /\
    represents fs' c (req_name r, replicate 3 0) ∅ /\
    represents fs' (parent_cluster_number r) own (<[req_key r := Dir c]> M).
Proof. apply mkdir_spec. Qed.
End Props.
