(* ===== verification/Fat32Tree.v ===== *)
(** * The directory tree

    The abstract view of the whole disk: every directory's name, parent and
    contents ([tree]).  [tree_rep] says that the driver's state represents a tree
    whose directories own disjoint clusters; [write], [delete] and the look-ups act
    on the tree as the operations below, and leave every other directory as it
    was. *)
From Stdlib Require Import String.
From stdpp Require Import gmap.
From S2P Require Import Prelude CString BlockDevice Fat32Types Fat32 Fat32Chain Fat32Facts Fat32Ops Fat32Access Fat32Abs Fat32Refine Fat32Codes Fat32Props.
#[local] Open Scope Z_scope.

(** A directory: the name of its own entry, its parent's cluster, its contents. *)
Record folder := mkFolder {
  own_key : key;
  up : Z;
  nodes : gmap key node;
}.
(** The directories by cluster. *)
Abbreviation tree := (gmap Z folder).

Definition set_nodes (f : folder) (M : gmap key node) : folder := mkFolder (own_key f) (up f) M.
Definition add_node (T : tree) (p : Z) (k : key) (n : node) : tree :=
  alter (fun f => set_nodes f (<[k := n]> (nodes f))) p T.
Definition drop_node (T : tree) (p : Z) (k : key) : tree :=
  alter (fun f => set_nodes f (base.delete k (nodes f))) p T.
(** A removed directory is gone. *)
Definition prune (n : node) (T : tree) : tree := match n with Dir c => base.delete c T | File _ => T end.
(** A new, empty directory [c] under [p]. *)
Definition add_folder (T : tree) (p : Z) (k : key) (c : Z) : tree :=
  <[c := mkFolder (fst k, replicate 3 0) p ∅]> (add_node T p k (Dir c)).

(** Removing what a name stands for. *)
Definition remove_node (T : tree) (p : Z) (k : key) : tree :=
  match T !! p ≫= fun f => nodes f !! k with Some n => prune n (drop_node T p k) | None => T end.
(** Whether a node is an empty directory. *)
Definition empty_folder (T : tree) (n : option node) : bool :=
  match n with Some (Dir c) => match T !! c with Some f => bool_decide (nodes f = ∅) | None => false end | _ => false end.

(** The clusters a node takes. *)
Definition node_clusters (n : node) : Z :=
  match n with File data => clusters_needed (Z.of_nat (length data)) | Dir _ => 1 end.

Section Tree.
Context {D : Type} `{BlockDeviceSpec D}.

(** [L p] lists the clusters owned by the slots of directory [p]. *)
Record tree_rep_with (fs : Fs D) (L : Z -> list (list Z)) (T : tree) : Prop := {
  tr_root : is_Some (T !! ROOT_CLUSTER_NUMBER);
  tr_dir p f : T !! p = Some f -> represents_with fs p (own_key f) (L p) (nodes f);
  tr_disj p q (i j : nat) l l' x : is_Some (T !! p) -> is_Some (T !! q) -> i <> 0%nat -> j <> 0%nat ->
    L p !! i = Some l -> L q !! j = Some l' -> x ∈ l -> x ∈ l' -> p = q /\ i = j;
  tr_free_root p (i : nat) l : is_Some (T !! p) -> i <> 0%nat -> L p !! i = Some l -> ROOT_CLUSTER_NUMBER ∉ l;
  tr_child p f (k : key) c : T !! p = Some f -> nodes f !! k = Some (Dir c) -> exists f', T !! c = Some f' /\
    own_key f' = (fst k, replicate 3 0) /\ up f' = p /\ aget (fat_of fs) c = Ret EOF;
  tr_parent c f : T !! c = Some f -> c <> ROOT_CLUSTER_NUMBER -> exists f' (k : key),
    T !! up f = Some f' /\ nodes f' !! k = Some (Dir c);
  tr_up c f : T !! c = Some f -> exists e, dir_at fs c !! 0%nat = Some e /\ entry_cluster e = up f;
}.
Definition tree_rep (fs : Fs D) (T : tree) : Prop := exists L, tree_rep_with fs L T.

Lemma tree_represents fs T p f : tree_rep fs T -> T !! p = Some f -> represents fs p (own_key f) (nodes f).
Proof. intros [L HT] Hf. exists (L p). by apply (tr_dir _ _ _ HT). Qed.

(** A tree's shape: the root is there, subdirectories know their name and parent. *)
Definition tree_wf (T : tree) : Prop := is_Some (T !! ROOT_CLUSTER_NUMBER) /\ (forall p f, T !! p = Some f -> 2 <= p < 512) /\
  forall p f (k : key) c, T !! p = Some f -> nodes f !! k = Some (Dir c) -> c <> ROOT_CLUSTER_NUMBER /\
    exists f', T !! c = Some f' /\ own_key f' = (fst k, replicate 3 0) /\ up f' = p.

(** Only the allocation table and the device matter. *)
Lemma tree_same (fs fs' : Fs D) T : fat_of fs' = fat_of fs -> disk fs' = disk fs -> tree_rep fs T -> tree_rep fs' T.
Proof.
  destruct fs as [[f dt cb] d], fs' as [[f' dt' cb'] d']. cbn [fat_of driver_state fat_table disk].
  intros -> -> [L []]. exists L. split; try done. intros p f0 Hf. destruct (tr_dir0 p f0 Hf) as [Hwf HM]. split; [| exact HM]. destruct Hwf. by constructor.
Qed.

(** ** Who owns what *)

Section Owners.
Context (fs : Fs D) (L : Z -> list (list Z)) (T : tree) (HT : tree_rep_with fs L T).

Lemma folder_range p f : T !! p = Some f -> 2 <= p < 512.
Proof using HT. intros Hf. destruct (tr_dir _ _ _ HT p f Hf) as [Hwf _]. apply (dw_p _ _ _ _ Hwf). Qed.

Lemma folder_alloc p f : T !! p = Some f -> aget (fat_of fs) p <> Ret 0.
Proof using HT. intros Hf. destruct (tr_dir _ _ _ HT p f Hf) as [Hwf _]. apply (dw_alloc _ _ _ _ Hwf). Qed.

(** Owned clusters are allocated. *)
Lemma owned_alloc p f (i : nat) l x : T !! p = Some f -> i <> 0%nat -> L p !! i = Some l -> x ∈ l -> aget (fat_of fs) x <> Ret 0.
Proof using HT.
  intros Hf Hi Hl Hx Hfree. pose proof (tr_dir _ _ _ HT p f Hf) as Hrep. pose proof Hrep as [Hwf _].
  destruct (dw_inv _ _ _ _ Hwf) as (_ & [Hflen _] & H0f & _).
  assert (i < length (dir_at fs p))%nat as Hib.
  { destruct (rep_table_ok _ _ _ _ _ Hrep) as [-> _]. rewrite <- (dw_len _ _ _ _ Hwf). by eapply lookup_lt_Some. }
  destruct (lookup_lt_is_Some_2 _ _ Hib) as [e He]. pose proof (dw_slot _ _ _ _ Hwf i e l Hi He Hl) as Hs. unfold slot_wf in Hs.
  destruct (decide (live e)); [| destruct Hs as [-> _]; by apply elem_of_nil in Hx].
  destruct Hs as (Hc & _). by apply (chain_not_free _ _ _ x Hflen H0f Hc Hx).
Qed.

(** The slot of a subdirectory owns its cluster. *)
Lemma folder_slot p f k c : T !! p = Some f -> nodes f !! k = Some (Dir c) -> exists (i : nat) e,
  i <> 0%nat /\ dir_at fs p !! i = Some e /\ L p !! i = Some [c] /\ live e /\ key_of e = k /\ attribute e = ATTR_SUBDIRECTORY.
Proof using HT.
  intros Hf Hk. destruct (tr_dir _ _ _ HT p f Hf) as [Hwf HM]. pose proof (tr_child _ _ _ HT p f k c Hf Hk) as (_ & _ & _ & _ & Heof).
  apply HM in Hk as (i & e & l & Hi & He & Hl & Hlive & Hk & Hn).
  pose proof (dw_slot _ _ _ _ Hwf i e l Hi He Hl) as Hs. unfold slot_wf in Hs. destruct (decide (live e)); [| done]. destruct Hs as (Hc & _).
  unfold node_of in Hn. destruct (decide _) as [Ea|]; [| done]. injection Hn as Hn. rewrite Hn in Hc.
  assert (l = [c]) as ->; [| by exists i, e].
  inversion Hc as [? Hg | ? n l' Hg Hne Hl']; subst; [done |]. rewrite Heof in Hg. by injection Hg as <-.
Qed.

Lemma tree_shape : tree_wf T.
Proof using HT.
  split; [apply HT |]. split; [by apply folder_range |]. intros p f k c Hf Hk. split.
  - destruct (folder_slot p f k c Hf Hk) as (i & e & Hi & _ & Hl & _). intros ->.
    apply (tr_free_root _ _ _ HT p i _ ltac:(by eexists) Hi Hl). by apply list_elem_of_singleton.
  - destruct (tr_child _ _ _ HT p f k c Hf Hk) as (f' & ? & ? & ? & _). by exists f'.
Qed.

(** Whoever owns a directory's cluster is its entry. *)
Lemma folder_owner q fq p (j : nat) e l : T !! q = Some fq -> is_Some (T !! p) -> j <> 0%nat -> dir_at fs p !! j = Some e ->
  L p !! j = Some l -> q ∈ l -> up fq = p /\ l = [q] /\ attribute e = ATTR_SUBDIRECTORY.
Proof using HT.
  intros Hq Hp Hj He Hl Hin. destruct (decide (q = ROOT_CLUSTER_NUMBER)) as [->|Hne]; [by destruct (tr_free_root _ _ _ HT p j l Hp Hj Hl) |].
  destruct (tr_parent _ _ _ HT q fq Hq Hne) as (f' & k & Hf' & Hk).
  destruct (folder_slot _ f' k q Hf' Hk) as (i & e' & Hi & He' & Hl' & _ & _ & Ha).
  destruct (tr_disj _ _ _ HT (up fq) p i j [q] l q) as [E Ej]; [by eexists | done | done | done | exact Hl' | exact Hl | by apply list_elem_of_singleton | done |].
  subst p j. rewrite Hl' in Hl. injection Hl as <-. split_and!; [done | done |]. congruence.
Qed.
(** What a live slot with clusters [l] says of the directories among them. *)
Section Slot.
Context (p : Z) (f : folder) (i : nat) (e : FAT32DirectoryEntry) (l : list Z) (n : node).
Context (Hf : T !! p = Some f) (Hi : i <> 0%nat) (He : dir_at fs p !! i = Some e) (Hl : L p !! i = Some l) (Hlive : live e).
Context (Hc : chain (fat_of fs) (entry_cluster e) l) (Hn : node_of (disk fs) e l = n) (HM : nodes f !! key_of e = Some n).

Lemma slot_folder q fq : T !! q = Some fq -> q ∈ l -> n = Dir q /\ l = [q].
Proof using HT Hf Hi He Hl Hc Hn.
  intros Hq Hin. destruct (folder_owner q fq p i e l) as (_ & El & Ha); [done | by eexists | done .. |]. split; [| done].
  rewrite <- Hn. unfold node_of. rewrite decide_True by done. f_equal. destruct (chain_hd _ _ _ Hc) as [? E]. congruence.
Qed.

Lemma slot_name (k : key) c : nodes f !! k = Some (Dir c) -> c ∈ l -> k = key_of e.
Proof using HT Hf Hi He Hl.
  intros Hkc Hin. destruct (folder_slot p f k c Hf Hkc) as (j & e' & Hj & He' & Hl' & _ & <- & _).
  destruct (tr_disj _ _ _ HT p p j i [c] l c) as [_ ->]; [by eexists | by eexists | done .. | by apply list_elem_of_singleton | done |]. congruence.
Qed.

Lemma slot_one c : n = Dir c -> l = [c].
Proof using All.
  intros ->. destruct (folder_slot p f _ c Hf HM) as (j & e' & Hj & He' & Hl' & Hlive' & Hk' & _).
  destruct (tr_dir _ _ _ HT p f Hf) as [Hwf _]. assert (j = i) as -> by (by apply (dw_uniq _ _ _ _ Hwf j i e' e)). congruence.
Qed.

(** If the node is a file or an empty directory, [p] itself is not among them. *)
Lemma slot_not_self : (forall c fc, n = Dir c -> T !! c = Some fc -> nodes fc = ∅) -> p ∉ l.
Proof using All.
  intros Hempty Hin. destruct (slot_folder p f Hf Hin) as [En _]. pose proof (Hempty p f En Hf) as E. by rewrite E in HM.
Qed.
End Slot.
End Owners.

(** An empty directory owns nothing. *)
Lemma empty_owns_nothing (fs1 : Fs D) c own ls : represents_with fs1 c own ls ∅ -> forall (j : nat) l, j <> 0%nat -> ls !! j = Some l -> l = [].
Proof.
  intros Hrep j l Hj Hl. pose proof Hrep as [Hwf HM].
  assert (j < length (dir_at fs1 c))%nat as Hjb.
  { destruct (rep_table_ok _ _ _ _ _ Hrep) as [-> _]. rewrite <- (dw_len _ _ _ _ Hwf). by eapply lookup_lt_Some. }
  destruct (lookup_lt_is_Some_2 _ _ Hjb) as [e He]. pose proof (dw_slot _ _ _ _ Hwf j e l Hj He Hl) as Hs. unfold slot_wf in Hs.
  destruct (decide (live e)); [| by destruct Hs].
  assert ((∅ : gmap key node) !! key_of e = Some (node_of (disk fs1) e l)) as Hn; [| by rewrite lookup_empty in Hn]. apply HM. by exists j, e, l.
Qed.

(** ** One slot of one directory changes *)

Definition update (L : Z -> list (list Z)) (p : Z) (ls : list (list Z)) : Z -> list (list Z) :=
  fun q => if decide (q = p) then ls else L q.

Lemma update_eq L p ls : update L p ls p = ls.
Proof. unfold update. by rewrite decide_True. Qed.
Lemma update_ne L p q ls : q <> p -> update L p ls q = L q.
Proof. intros. unfold update. by rewrite decide_False. Qed.

Section Change.
Context (fs fs' : Fs D) (L : Z -> list (list Z)) (T : tree) (HT : tree_rep_with fs L T).
Context (p : Z) (f : folder) (Hf : T !! p = Some f) (M' : gmap key node).
Context (i : nat) (l li : list Z) (Hi : i <> 0%nat) (Hso : same_outside fs fs' p l) (Hli : forall x, x ∈ li -> x ∈ l).
Context (Hrep : represents_with fs' p (own_key f) (<[i := li]> (L p)) M') (Hhead : dir_at fs' p !! 0%nat = dir_at fs p !! 0%nat).
(** Only slot [i] of [p] owns clusters of [l]. *)
Context (Hother : forall q (j : nat) lj x, is_Some (T !! q) -> j <> 0%nat -> ~ (q = p /\ j = i) -> L q !! j = Some lj -> x ∈ lj -> x ∉ l).

#[local] Abbreviation L' := (update L p (<[i := li]> (L p))).

(** A directory other than [p] that keeps its own cluster. *)
Lemma other_dir q fq : T !! q = Some fq -> q <> p -> q ∉ l ->
  represents_with fs' q (own_key fq) (L q) (nodes fq) /\ dir_at fs' q = dir_at fs q.
Proof using All.
  intros Hq Hqp Hql. pose proof (tr_dir _ _ _ HT q fq Hq) as [Hwf HM]. pose proof (folder_range _ _ _ HT q fq Hq) as Hqr.
  pose proof (dw_inv _ _ _ _ Hwf) as (_ & Hfok & _).
  assert (dir_at fs' q = dir_at fs q) as Hdir by (unfold dir_at; f_equal; apply (so_data _ _ _ _ Hso); done || lia).
  assert (forall (j : nat) lj x, j <> 0%nat -> L q !! j = Some lj -> x ∈ lj -> x ∉ l) as Hkeep.
  { intros j lj x Hj Hl Hx. apply (Hother q j lj x); [by eexists | done | by intros [? _] | done | done]. }
  assert (forall (j : nat) e lj, j <> 0%nat -> dir_at fs q !! j = Some e -> L q !! j = Some lj -> live e ->
    node_of (disk fs') e lj = node_of (disk fs) e lj) as Hnode.
  { intros j e lj Hj He Hl Hlive. pose proof (dw_slot _ _ _ _ Hwf j e lj Hj He Hl) as Hs. unfold slot_wf in Hs.
    destruct (decide (live e)); [| done]. destruct Hs as (Hc & _ & H1 & _). unfold node_of. destruct (decide _) as [|Ha]; [done |]. do 2 f_equal.
    apply clusters_data_ext. intros x Hx. pose proof (chain_clusters _ _ _ Hfok Hc) as Hcl. rewrite Forall_forall in Hcl.
    apply (so_data _ _ _ _ Hso); [by apply Hcl | by eapply Hkeep | | by intros ->]. intros ->.
    by destruct (folder_owner _ _ _ HT p f q j e lj) as (_ & _ & ?); [done | by eexists | ..]. }
  split; [| done]. split.
  - destruct Hwf as [dinv dp dalloc dhead dlen dslot ddisj duniq]. constructor; rewrite ?Hdir; [apply Hso | exact dp | | exact dhead | exact dlen | | exact ddisj | exact duniq].
    + rewrite (so_fat _ _ _ _ Hso); [done | | done]. unfold in_table. rewrite (proj1 Hfok). unfold CLUSTER_MAP_SIZE. lia.
    + intros j e lj Hj He Hl. specialize (dslot j e lj Hj He Hl). unfold slot_wf in *. destruct (decide (live e)); [| done].
      destruct dslot as (Hc & ?). split; [| done]. apply chain_agree with (fat_of fs); [done |]. intros x Hx.
      apply (so_fat _ _ _ _ Hso); [| by eapply Hkeep]. apply chain_in_table in Hc. rewrite Forall_forall in Hc. by apply Hc.
  - intros k n. rewrite HM, Hdir. split; intros (j & e & lj & Hj & He & Hl & Hlive & Hk & Hn); exists j, e, lj; split_and!; try done;
      [by rewrite (Hnode j) | by rewrite <- (Hnode j)].
Qed.

Lemma kept_dir q fq : T !! q = Some fq -> q <> p -> q ∉ l -> represents_with fs' q (own_key fq) (L' q) (nodes fq).
Proof using All. intros Hq Hqp Hql. rewrite update_ne by done. by apply other_dir. Qed.

Lemma kept_up q fq : T !! q = Some fq -> q ∉ l \/ q = p -> exists e, dir_at fs' q !! 0%nat = Some e /\ entry_cluster e = up fq.
Proof using All.
  intros Hq Hql. destruct (tr_up _ _ _ HT q fq Hq) as (e & He & Hup). exists e. split; [| done].
  destruct (decide (q = p)) as [->|Hne]; [by rewrite Hhead |]. destruct Hql as [Hql|]; [| done]. by destruct (other_dir q fq Hq Hne Hql) as [_ ->].
Qed.

Lemma kept_slot q (j : nat) lj : L' q !! j = Some lj -> (q = p /\ j = i /\ lj = li) \/ (~ (q = p /\ j = i) /\ L q !! j = Some lj).
Proof using All.
  unfold update. destruct (decide (q = p)) as [->|Hne].
  - intros [(-> & <- & _)|[Hne Hl]]%list_lookup_insert_Some; [by left |]. right. split; [by intros [_ ->] | done].
  - intros Hl. right. split; [by intros [-> _] | done].
Qed.

(** The directories of [T] still own disjoint clusters. *)
Lemma kept_disj q r (j k : nat) lj lk x : is_Some (T !! q) -> is_Some (T !! r) -> j <> 0%nat -> k <> 0%nat ->
  L' q !! j = Some lj -> L' r !! k = Some lk -> x ∈ lj -> x ∈ lk -> q = r /\ j = k.
Proof using All.
  intros Hq Hr Hj Hk [(-> & -> & ->)|[Hn1 Hl1]]%kept_slot [(-> & -> & ->)|[Hn2 Hl2]]%kept_slot Hx1 Hx2; [done | exfalso | exfalso |].
  - by apply (Hother r k lk x); [| | | | | apply Hli].
  - by apply (Hother q j lj x); [| | | | | apply Hli].
  - by apply (tr_disj _ _ _ HT q r j k lj lk x).
Qed.

Lemma kept_root q (j : nat) lj : ROOT_CLUSTER_NUMBER ∉ li -> is_Some (T !! q) -> j <> 0%nat -> L' q !! j = Some lj -> ROOT_CLUSTER_NUMBER ∉ lj.
Proof using All. intros Hroot Hq Hj [(-> & -> & ->)|[_ Hl]]%kept_slot; [done |]. by apply (tr_free_root _ _ _ HT q j). Qed.

(** The table entry of a directory that keeps its cluster. *)
Lemma kept_eof c : 0 <= c < 512 -> c ∉ l -> aget (fat_of fs) c = Ret EOF -> aget (fat_of fs') c = Ret EOF.
Proof using All.
  intros Hc Hcl <-. apply (so_fat _ _ _ _ Hso); [| done]. destruct (tr_dir _ _ _ HT p f Hf) as [Hwf _].
  destruct (dw_inv _ _ _ _ Hwf) as (_ & [Hflen _] & _). unfold in_table. rewrite Hflen. unfold CLUSTER_MAP_SIZE. lia.
Qed.

(** The tree after a change that makes no directory: [p] has the contents [M'],
    and the directories in [l] are gone. *)
Lemma change_tree T1 : p ∉ l -> ROOT_CLUSTER_NUMBER ∉ li ->
  T1 !! p = Some (set_nodes f M') ->
  (forall q fq, q <> p -> T1 !! q = Some fq <-> T !! q = Some fq /\ q ∉ l) ->
  (forall k c, M' !! k = Some (Dir c) <-> nodes f !! k = Some (Dir c) /\ c ∉ l) ->
  (forall q fq k c, T !! q = Some fq -> nodes fq !! k = Some (Dir c) -> q ∉ l) ->
  ROOT_CLUSTER_NUMBER ∉ l -> tree_rep fs' T1.
Proof using All.
  intros Hpl Hroot Hp1 Hother1 HM' Hparents Hrl.
  assert (forall q fq, T1 !! q = Some fq -> exists fq0, T !! q = Some fq0 /\ q ∉ l /\ own_key fq = own_key fq0 /\ up fq = up fq0) as Hold.
  { intros q fq Hq. destruct (decide (q = p)) as [->|Hne]; [| by apply Hother1 in Hq as [? ?]; [exists fq |]].
    rewrite Hp1 in Hq. injection Hq as <-. by exists f. }
  assert (forall q, is_Some (T1 !! q) -> is_Some (T !! q)) as Hold'.
  { intros q [fq Hq]. destruct (Hold q fq Hq) as (fq0 & ? & _). by eexists. }
  assert (forall q fq, T !! q = Some fq -> q ∉ l -> exists fq1, T1 !! q = Some fq1 /\ own_key fq1 = own_key fq /\ up fq1 = up fq) as Hnew.
  { intros q fq Hq Hql. destruct (decide (q = p)) as [->|Hne]; [| exists fq; split; [by apply Hother1 | done]].
    assert (fq = f) as -> by congruence. by eexists. }
  assert (forall q fq k c, T1 !! q = Some fq -> nodes fq !! k = Some (Dir c) -> exists fq0, T !! q = Some fq0 /\ nodes fq0 !! k = Some (Dir c) /\ c ∉ l) as Hsub.
  { intros q fq k c Hq Hk. destruct (decide (q = p)) as [->|Hne].
    - rewrite Hp1 in Hq. injection Hq as <-. cbn in Hk. apply HM' in Hk as [? ?]. by exists f.
    - apply Hother1 in Hq as [Hq _]; [| done]. exists fq. split_and!; [done | done |].
      destruct (folder_slot _ _ _ HT q fq k c Hq Hk) as (j & e & Hj & _ & Hl & _).
      apply (Hother q j [c]); [by eexists | done | by intros [? _] | done | by apply list_elem_of_singleton]. }
  exists L'. split.
  - destruct (tr_root _ _ _ HT) as [fr Hr]. destruct (Hnew _ fr Hr Hrl) as (fr1 & ? & _). by eexists.
  - intros q fq Hq. destruct (decide (q = p)) as [->|Hne].
    + rewrite update_eq. rewrite Hp1 in Hq. injection Hq as <-. exact Hrep.
    + apply Hother1 in Hq as [Hq Hql]; [| done]. by apply kept_dir.
  - intros q r j k lj lk x Hq Hr. apply kept_disj; by apply Hold'.
  - intros q j lj Hq. apply kept_root; [done | by apply Hold'].
  - intros q fq k c Hq Hk. destruct (Hsub q fq k c Hq Hk) as (fq0 & Hq0 & Hk0 & Hc).
    destruct (tr_child _ _ _ HT q fq0 k c Hq0 Hk0) as (fc & Hfc & Ho & Hu & He). destruct (Hnew c fc Hfc Hc) as (fc1 & ? & Eo & Eu).
    exists fc1. split_and!; [done | congruence | congruence |]. pose proof (folder_range _ _ _ HT c fc Hfc). apply kept_eof; [lia | done | done].
  - intros c fc Hc Hne. destruct (Hold c fc Hc) as (fc0 & Hc0 & Hcl & _ & Hu).
    destruct (tr_parent _ _ _ HT c fc0 Hc0 Hne) as (f0 & k & Hf0 & Hk). rewrite <- Hu in Hf0.
    destruct (decide (up fc = p)) as [Ep|Hup].
    + rewrite Ep in *. assert (f0 = f) as -> by congruence. exists (set_nodes f M'), k. split; [done | by apply HM'].
    + exists f0, k. split; [| done]. apply Hother1; [done |]. split; [done | by eapply Hparents].
  - intros c fc Hc. destruct (Hold c fc Hc) as (fc0 & Hc0 & Hcl & _ & ->). apply kept_up; [done | by left].
Qed.

(** The tree after a change that makes the directory [c] under [p]. *)
Lemma extend_tree T1 (k : key) c lc (own : key) : l = [c] -> li = [c] -> T !! c = None -> nodes f !! k = None -> M' = <[k := Dir c]> (nodes f) ->
  represents_with fs' c own lc ∅ -> own = (fst k, replicate 3 0) -> aget (fat_of fs') c = Ret EOF ->
  (exists e, dir_at fs' c !! 0%nat = Some e /\ entry_cluster e = p) ->
  (forall q fq, T1 !! q = Some fq <-> (q = c /\ fq = mkFolder own p ∅) \/ (q <> c /\ q = p /\ fq = set_nodes f M') \/ (q <> c /\ q <> p /\ T !! q = Some fq)) ->
  tree_rep fs' T1.
Proof using All.
  intros El Eli HTc Hk EM Hc Eown Heof Hup HT1. pose proof (empty_owns_nothing _ _ _ _ Hc) as Hnone.
  assert (forall q fq, T !! q = Some fq -> q <> c /\ q ∉ l) as Hdirs.
  { intros q fq Hq. assert (q <> c) by congruence. by rewrite El, list_elem_of_singleton. }
  assert (forall q fq, T !! q = Some fq -> exists fq1, T1 !! q = Some fq1 /\ own_key fq1 = own_key fq /\ up fq1 = up fq /\
    forall (k' : key) (n : node), nodes fq !! k' = Some n -> nodes fq1 !! k' = Some n) as Hnew.
  { intros q fq Hq. destruct (Hdirs q fq Hq) as [Hqc _]. destruct (decide (q = p)) as [->|Hne].
    - assert (fq = f) as -> by congruence. exists (set_nodes f M'). split; [apply HT1; by right; left |]. split_and!; [done | done |].
      intros k' n Hk'. cbn. rewrite EM, lookup_insert_ne; [done | congruence].
    - exists fq. split; [apply HT1; by right; right | done]. }
  assert (forall q fq, T1 !! q = Some fq -> q <> c -> exists fq0, T !! q = Some fq0 /\ up fq = up fq0) as Hold.
  { intros q fq [[-> _]|[(_ & -> & ->)|(_ & _ & Hq)]]%HT1 Hne; [done | by exists f | by exists fq]. }
  assert (forall q (j : nat) lj x, is_Some (T1 !! q) -> j <> 0%nat -> update L' c lc q !! j = Some lj -> x ∈ lj ->
    is_Some (T !! q) /\ L' q !! j = Some lj) as Howned.
  { intros q j lj x [fq Hq] Hj Hl Hx. destruct (decide (q = c)) as [->|Hne].
    - rewrite update_eq in Hl. rewrite (Hnone j lj Hj Hl) in Hx. by apply elem_of_nil in Hx.
    - rewrite update_ne in Hl by done. split; [| done]. destruct (Hold q fq Hq Hne) as (? & ? & _). by eexists. }
  assert (T1 !! c = Some (mkFolder own p ∅)) as Hc1 by (apply HT1; by left).
  exists (update L' c lc). split.
  - destruct (tr_root _ _ _ HT) as [fr Hfr]. destruct (Hnew _ fr Hfr) as (fr1 & ? & _). by eexists.
  - intros q fq [[-> ->]|[(Hqc & -> & ->)|(Hqc & Hqp & Hq)]]%HT1; [by rewrite update_eq | |]; rewrite (update_ne L') by done.
    + by rewrite update_eq.
    + apply kept_dir; [done | done |]. by eapply Hdirs.
  - intros q q' j j' lj lj' x Hq Hq' Hj Hj' Hl Hl' Hx Hx'. destruct (Howned q j lj x Hq Hj Hl Hx) as [Hq0 Hl0].
    destruct (Howned q' j' lj' x Hq' Hj' Hl' Hx') as [Hq0' Hl0']. by apply (kept_disj q q' j j' lj lj' x).
  - intros q j lj Hq Hj Hl Hx. destruct (Howned q j lj _ Hq Hj Hl Hx) as [Hq0 Hl0]. revert Hx. apply (kept_root q j lj); [| done | done | done].
    destruct (tr_root _ _ _ HT) as [fr Hfr]. rewrite Eli, <- El. by eapply Hdirs.
  - assert (forall q fq (k' : key) c', T !! q = Some fq -> nodes fq !! k' = Some (Dir c') -> exists f', T1 !! c' = Some f' /\
      own_key f' = (fst k', replicate 3 0) /\ up f' = q /\ aget (fat_of fs') c' = Ret EOF) as Hkeep.
    { intros q fq k' c' Hq Hk'. destruct (tr_child _ _ _ HT q fq k' c' Hq Hk') as (fc & Hfc & Eo & Eu & He).
      destruct (Hnew c' fc Hfc) as (f1 & Hf1 & Eo1 & Eu1 & _). exists f1. split_and!; [done | congruence | congruence |].
      pose proof (folder_range _ _ _ HT c' fc Hfc). apply kept_eof; [lia | by eapply Hdirs | done]. }
    intros q fq k' c' [[-> ->]|[(_ & -> & ->)|(_ & _ & Hq)]]%HT1 Hk'; [done | | by apply (Hkeep q fq)].
    cbn in Hk'. rewrite EM in Hk'. apply lookup_insert_Some in Hk' as [[<- [= <-]]|[_ Hk']]; [| by apply (Hkeep p f)]. by eexists.
  - intros q fq Hq Hne. destruct (decide (q = c)) as [->|Hqc].
    + rewrite Hc1 in Hq. injection Hq as <-. exists (set_nodes f M'), k. split.
      * apply HT1. right. left. destruct (Hdirs p f Hf). done.
      * cbn. rewrite EM. apply lookup_insert_eq.
    + destruct (Hold q fq Hq Hqc) as (fq0 & Hq0 & ->). destruct (tr_parent _ _ _ HT q fq0 Hq0 Hne) as (f0 & k0 & Hf0 & Hk0).
      destruct (Hnew _ f0 Hf0) as (f1 & Hf1 & _ & _ & Hk1). exists f1, k0. split; [done | by apply Hk1].
  - intros q fq Hq. destruct (decide (q = c)) as [->|Hqc]; [rewrite Hc1 in Hq; injection Hq as <-; exact Hup |].
    destruct (Hold q fq Hq Hqc) as (fq0 & Hq0 & ->). apply kept_up; [done |]. left. by eapply Hdirs.
Qed.
End Change.

(** ** What the operations do to the tree *)

Lemma lookup_alter_ne_iff (T : tree) g p q fq : q <> p -> alter g p T !! q = Some fq <-> T !! q = Some fq.
Proof. intros Hne. by rewrite lookup_alter_ne. Qed.

Section Operations.
Context (fs : Fs D) (T : tree) (r : FAT32DriverRequest) (f : folder).
#[local] Abbreviation p := (parent_cluster_number r).
Context (HT : tree_rep fs T) (Hf : T !! p = Some f) (Hr : req_ok r) (Hz : req_key r <> zero_key).

(** [write] of a new file. *)
Lemma tree_write_file m : bytes_ok m -> req_key r <> own_key f -> nodes f !! req_key r = None -> (size (nodes f) < 63)%nat ->
  0 < buffer_size r < 2 ^ 31 -> clusters_needed (buffer_size r) <= cluster_available (fat_of fs) ->
  exists fs', write fs m r = Ret (fs', 0) /\
    cluster_available (fat_of fs') = cluster_available (fat_of fs) - clusters_needed (buffer_size r) /\
    tree_rep fs' (add_node T p (req_key r) (File (load_bytes m (buf r) (Z.to_nat (buffer_size r))))).
Proof using HT Hf Hr Hz.
  intros Hm Hown HM Hsz Hs Hav. destruct HT as [L HL]. pose proof (tr_dir _ _ _ HL p f Hf) as Hrep. pose proof Hrep as [Hwf _].
  pose proof (dw_inv _ _ _ _ Hwf) as Hinv. pose proof (has_room_of_size _ _ _ _ _ Hrep Hsz) as Hroom.
  destruct (write_file_represents fs m r _ _ _ Hrep Hr Hm Hz Hroom HM Hown Hs Hav) as (fs' & Hw & Hav' & _ & Hrep' & _ & Hso & Hhead).
  destruct (new_clusters_facts fs r Hinv) as (_ & Hcl & _ & Hfree & _); [by apply (write_code_new fs r _ _ _ Hrep) |].
  exists fs'. split_and!; [done | done |].
  assert (forall q fq, T !! q = Some fq -> q ∉ new_clusters fs r) as Hdirs.
  { intros q fq Hq Hin. by apply (folder_alloc _ _ _ HL q fq Hq), Hfree. }
  assert (ROOT_CLUSTER_NUMBER ∉ new_clusters fs r) as Hroot by (destruct (tr_root _ _ _ HL) as [fr Hfr]; by eapply Hdirs).
  eapply (change_tree fs fs' L T HL p f Hf _ (new_entry_index (dir_at fs p)) (new_clusters fs r) (new_clusters fs r)); try done.
  - intros q j lj x [fq Hq] Hj _ Hl Hx Hin. by apply (owned_alloc _ _ _ HL q fq j lj x Hq Hj Hl Hx), Hfree.
  - by eapply Hdirs.
  - unfold add_node. by rewrite lookup_alter_eq, Hf.
  - intros q fq Hne. unfold add_node. rewrite lookup_alter_ne_iff by done. split; [| by intros [? _]]. intros Hq. by eauto.
  - intros k c. rewrite lookup_insert_Some. split.
    + intros [[_ ?]|[_ Hk]]; [done |]. split; [done |]. destruct (tr_child _ _ _ HL p f k c Hf Hk) as (fc & Hc & _). by eapply Hdirs.
    + intros [Hk _]. right. split; [congruence | done].
  - intros q fq k c Hq _. by eapply Hdirs.
Qed.

(** The file's clusters hold what memory holds, also behind the file's end. *)
Lemma tree_write_stored m fs' : bytes_ok m -> req_key r <> own_key f -> nodes f !! req_key r = None -> (size (nodes f) < 63)%nat ->
  0 < buffer_size r < 2 ^ 31 -> clusters_needed (buffer_size r) <= cluster_available (fat_of fs) -> write fs m r = Ret (fs', 0) ->
  stored fs' p (req_key r) (load_bytes m (buf r) (Z.to_nat (2048 * clusters_needed (buffer_size r)))).
Proof using HT Hf Hr Hz.
  intros Hm Hown HM Hsz Hs Hav Hw. destruct HT as [L HL]. pose proof (tr_dir _ _ _ HL p f Hf) as Hrep.
  exact (write_file_stored fs m r _ _ _ Hrep Hr Hm Hz fs' (has_room_of_size _ _ _ _ _ Hrep Hsz) HM Hown Hs Hav Hw).
Qed.

(** [write] with size 0: a directory. *)
Lemma tree_mkdir m : req_name r <> replicate 8 0 -> req_key r <> own_key f -> nodes f !! req_key r = None -> (size (nodes f) < 63)%nat ->
  buffer_size r = 0 -> 0 < cluster_available (fat_of fs) ->
  exists fs' c, write fs m r = Ret (fs', 0) /\ T !! c = None /\ 2 <= c <= 512 - cluster_available (fat_of fs) /\
    cluster_available (fat_of fs') = cluster_available (fat_of fs) - 1 /\ tree_rep fs' (add_folder T p (req_key r) c).
Proof using HT Hf Hr Hz.
  intros Hnz Hown HM Hsz Hs Hav. destruct HT as [L HL]. pose proof (tr_dir _ _ _ HL p f Hf) as Hrep. pose proof Hrep as [Hwf _].
  pose proof (has_room_of_size _ _ _ _ _ Hrep Hsz) as Hroom.
  destruct (write_dir_represents fs m r _ _ _ Hrep Hr Hz Hroom HM Hown Hnz Hs Hav)
    as (fs' & Hw & Hc & Hrep' & [lc Hchild] & Hdirc & Hfree & Hfat & Hso & Hhead). set (c := first_empty_cluster (fat_of fs)) in *.
  assert (T !! c = None) as HTc by (apply eq_None_not_Some; intros [fc Hfc]; by apply (folder_alloc _ _ _ HL c fc Hfc)).
  destruct (dw_inv _ _ _ _ Hwf) as (_ & [Hflen _] & _).
  pose proof (first_empty_bound _ Hflen Hav) as Hfirst. fold c in Hfirst.
  assert (2 <= c <= 512 - cluster_available (fat_of fs)) as Hcr by lia. exists fs', c. refine (conj Hw (conj HTc (conj Hcr (conj _ _)))).
  { rewrite Hfat, (cluster_available_insert _ c EOF 0) by (done || lia). cbn. lia. }
  eapply (extend_tree fs fs' L T HL p f Hf _ (new_entry_index (dir_at fs p)) [c] [c] Hroom Hso) with (k := req_key r);
    [done | exact Hrep' | exact Hhead | | done | done | done | done | done | exact Hchild | done | | |].
  - intros q j lj x [fq Hq] Hj _ Hl Hx ->%list_elem_of_singleton. by apply (owned_alloc _ _ _ HL q fq j lj c Hq Hj Hl Hx).
  - rewrite Hfat. apply aget_insert_eq. unfold in_table. rewrite Hflen. unfold CLUSTER_MAP_SIZE. lia.
  - eexists. rewrite Hdirc. split; [done |]. destruct Hr as (_ & _ & _ & _ & _ & ?). apply cluster_halves. lia.
  - intros q fq. unfold add_folder, add_node. rewrite lookup_insert_Some. assert (p <> c) by congruence. split.
    + intros [[<- <-]|[Hne Hq]]; [by left | right]. destruct (decide (q = p)) as [->|Hqp]; [left | right].
      * rewrite lookup_alter_eq, Hf in Hq. by injection Hq as <-.
      * by rewrite lookup_alter_ne in Hq.
    + intros [[-> ->]|[(? & -> & ->)|(? & ? & ?)]]; [by left | right | right]; (split; [done |]).
      * by rewrite lookup_alter_eq, Hf.
      * by rewrite lookup_alter_ne.
Qed.

(** [delete] of a file or an empty directory. *)
Lemma tree_delete n : nodes f !! req_key r = Some n ->
  (forall c fc, n = Dir c -> T !! c = Some fc -> nodes fc = ∅) ->
  exists fs', delete fs r = Ret (fs', 0) /\
    cluster_available (fat_of fs') = cluster_available (fat_of fs) + node_clusters n /\
    tree_rep fs' (prune n (drop_node T p (req_key r))).
Proof using HT Hf Hr Hz.
  intros HM Hempty. destruct HT as [L HL]. pose proof (tr_dir _ _ _ HL p f Hf) as Hrep. pose proof Hrep as [Hwf HMr].
  destruct (dw_inv _ _ _ _ Hwf) as (_ & Hfok & H0f & _).
  assert (forall c, n = Dir c -> exists fc, T !! c = Some fc /\ nodes fc = ∅) as Hgone.
  { intros c ->. destruct (tr_child _ _ _ HL p f _ c Hf HM) as (fc & Hc & _). exists fc. split; [done | by eapply Hempty]. }
  destruct (delete_represents fs r _ _ _ Hrep Hr Hz n HM)
    as (fs' & Hd & _ & (i & e & l & Hi & He & Hl & Hlive & Hk & Hfat & Hc & Hn & Hso & Hhead & Hrep') & Hfile).
  { intros c ->. destruct (Hgone c eq_refl) as (fc & Hfc & E). destruct (tr_dir _ _ _ HL c fc Hfc) as [Hwfc HMc].
    rewrite (dir_empty_map fs c (own_key fc) (nodes fc)) by (by exists (L c)). by rewrite E. }
  assert (nodes f !! key_of e = Some n) as HMe by congruence.
  pose proof (slot_folder _ _ _ HL p f i e l n Hf Hi He Hl Hc Hn) as Hql. pose proof (slot_one _ _ _ HL p f i e l n Hf Hi He Hl Hlive Hc Hn HMe) as Hone.
  pose proof (slot_not_self _ _ _ HL p f i e l n Hf Hi He Hl Hlive Hc Hn HMe Hempty) as Hpl.
  exists fs'. split; [done |]. split.
  { destruct n as [data|c]; [by apply Hfile |]. destruct (Hgone c eq_refl) as (fc & Hfc & _). pose proof (Hone c eq_refl) as ->.
    pose proof (folder_range _ _ _ HL c fc Hfc). rewrite Hfat, (released_available _ _ _ Hfok H0f Hc); [done |].
    rewrite list_elem_of_singleton. lia. }
  eapply (change_tree fs fs' L T HL p f Hf _ i l [] Hi Hso); [by intros x ?%elem_of_nil | exact Hrep' | exact Hhead | | done | by intros ?%elem_of_nil | ..].
  - intros q j lj x Hq Hj Hne Hlj Hx Hin. apply Hne, (tr_disj _ _ _ HL q p j i lj l x); [done | by eexists | done .. ].
  - assert (drop_node T p (req_key r) !! p = Some (set_nodes f (base.delete (req_key r) (nodes f)))) as Hp.
    { unfold drop_node. by rewrite lookup_alter_eq, Hf. }
    destruct n as [data|c]; cbn [prune]; [done |]. rewrite lookup_delete_ne; [done |]. intros ->. rewrite (Hone p eq_refl) in Hpl.
    by apply Hpl, list_elem_of_singleton.
  - intros q fq Hne. transitivity (drop_node T p (req_key r) !! q = Some fq /\ q ∉ l); [| unfold drop_node; by rewrite lookup_alter_ne].
    destruct n as [data|c]; cbn [prune].
    + split; [| by intros [? _]]. intros Hq. split; [done |]. unfold drop_node in Hq. rewrite lookup_alter_ne in Hq by done.
      intros Hin. by destruct (Hql q fq Hq Hin).
    + rewrite lookup_delete_Some, (Hone c eq_refl), list_elem_of_singleton. naive_solver.
  - intros k c. rewrite lookup_delete_Some. split.
    + intros [Hne Hkc]. split; [done |]. intros Hin. apply Hne. rewrite <- Hk. symmetry. by apply (slot_name _ _ _ HL p f i e l Hf Hi He Hl k c).
    + intros [Hkc Hcl]. split; [| done]. intros <-. apply Hcl. rewrite (Hone c) by congruence. by apply list_elem_of_singleton.
  - intros q fq k c Hq Hkc Hin. destruct (Hql q fq Hq Hin) as [-> _]. by rewrite (Hempty q fq eq_refl Hq) in Hkc.
  - apply (tr_free_root _ _ _ HL p i); [by eexists | done | done].
Qed.

(** [delete] on the tree: by what the name stands for. *)
Lemma tree_delete_answer : req_key r <> own_key f ->
  let code := delete_answer (empty_folder T (nodes f !! req_key r)) (nodes f !! req_key r) in
  exists fs', delete fs r = Ret (fs', code) /\
    (if code =? 0 then tree_rep fs' (remove_node T p (req_key r)) /\
       cluster_available (fat_of fs') = cluster_available (fat_of fs) + from_option node_clusters 0 (nodes f !! req_key r)
     else fat_of fs' = fat_of fs /\ disk fs' = disk fs).
Proof using HT Hf Hr Hz.
  intros Hown code. pose proof (tree_represents fs T p f HT Hf) as Hrep.
  assert (forall c, nodes f !! req_key r = Some (Dir c) -> exists fc, T !! c = Some fc /\ dir_empty (dir_at fs c) = bool_decide (nodes fc = ∅)) as Hsub.
  { intros c HM. destruct HT as [L HL]. destruct (tr_child _ _ _ HL p f _ c Hf HM) as (fc & Hfc & _). exists fc. split; [done |].
    apply (dir_empty_map fs c (own_key fc)). by apply (tree_represents fs T); [exists L |]. }
  assert (forall c, nodes f !! req_key r = Some (Dir c) -> dir_empty (dir_at fs c) = empty_folder T (nodes f !! req_key r)) as Hempty.
  { intros c HM. destruct (Hsub c HM) as (fc & Hfc & ->). rewrite HM. cbn. by rewrite Hfc. }
  destruct (Z.eqb_spec code 0) as [E|E].
  - destruct (nodes f !! req_key r) as [nd|] eqn:HM; [| done]. destruct (tree_delete nd HM) as (fs' & Hd & Hav & HT').
    + intros c fc -> Hfc. subst code. cbn in E. rewrite Hfc in E. by destruct (bool_decide_reflect (nodes fc = ∅)).
    + exists fs'. rewrite E. split; [done |]. split; [| done]. unfold remove_node. rewrite Hf. cbn. by rewrite HM.
  - eexists. split; [by apply (delete_refused fs r _ _ Hrep Hr Hz Hown _ Hempty) | done].
Qed.
End Operations.
End Tree.
