(* ===== verification/Fat32Client.v ===== *)
(** * Programs that use the file system see a directory tree

    The promise of fat32.c to its callers, for the whole disk: a client that asks
    one request after the other, each chosen from the answers before it, sees
    exactly the abstract tree of [Fat32Tree]. *)
From Stdlib Require Import String.
From stdpp Require Import gmap.
From S2P Require Import Prelude CString BlockDevice Fat32Types Fat32 Fat32Chain Fat32Facts Fat32Ops Fat32Access Fat32Abs Fat32Refine Fat32Codes Fat32Props Fat32Tree.
#[local] Open Scope Z_scope.

(** ** The abstract file system *)

Inductive tree_op : Type :=
  | Write (r : FAT32DriverRequest)
  | Read (r : FAT32DriverRequest)
  | Delete (r : FAT32DriverRequest)
  | ReadDirectory (r : FAT32DriverRequest)
  | MoveToChild (r : FAT32DriverRequest)
  | MoveToParent (r : FAT32DriverRequest).

Definition request_of (o : tree_op) : FAT32DriverRequest :=
  match o with Write r | Read r | Delete r | ReadDirectory r | MoveToChild r | MoveToParent r => r end.

(** The tree and the number of free clusters. *)
Record tree_state := mkTree { dirs : tree; room : Z }.

(** A request, the caller's memory before and after, and the answer. *)
Inductive tree_step : tree_state -> mem -> tree_op -> Z -> mem -> tree_state -> Prop :=
  | step_write_file T n m r f : T !! parent_cluster_number r = Some f -> nodes f !! req_key r = None ->
      0 < buffer_size r -> clusters_needed (buffer_size r) <= n ->
      tree_step (mkTree T n) m (Write r) 0 m
        (mkTree (add_node T (parent_cluster_number r) (req_key r) (File (load_bytes m (buf r) (Z.to_nat (buffer_size r)))))
           (n - clusters_needed (buffer_size r)))
  | step_write_folder T n m r f c : T !! parent_cluster_number r = Some f -> nodes f !! req_key r = None ->
      buffer_size r = 0 -> T !! c = None -> 2 <= c <= 512 - n ->
      tree_step (mkTree T n) m (Write r) 0 m (mkTree (add_folder T (parent_cluster_number r) (req_key r) c) (n - 1))
  | step_write_full T n m r f : T !! parent_cluster_number r = Some f -> nodes f !! req_key r = None ->
      n < clusters_needed (buffer_size r) -> tree_step (mkTree T n) m (Write r) (-1) m (mkTree T n)
  | step_write_exists T n m r f : T !! parent_cluster_number r = Some f -> is_Some (nodes f !! req_key r) ->
      tree_step (mkTree T n) m (Write r) 1 m (mkTree T n)
  | step_read T n m r f data m' : T !! parent_cluster_number r = Some f -> nodes f !! req_key r = Some (File data) ->
      Z.of_nat (length data) <= buffer_size r -> bytes_ok m' -> load_bytes m' (buf r) (length data) = data ->
      (forall a, 0 <= a < 2 ^ 32 -> ~ (buf r <= a < buf r + 2048 * clusters_needed (Z.of_nat (length data))) -> load m' a = load m a) ->
      tree_step (mkTree T n) m (Read r) 0 m' (mkTree T n)
  | step_read_refused T n m r f : T !! parent_cluster_number r = Some f -> read_answer (buffer_size r) (nodes f !! req_key r) <> 0 ->
      tree_step (mkTree T n) m (Read r) (read_answer (buffer_size r) (nodes f !! req_key r)) m (mkTree T n)
  | step_delete T n m r f nd : T !! parent_cluster_number r = Some f -> nodes f !! req_key r = Some nd ->
      (forall c fc, nd = Dir c -> T !! c = Some fc -> nodes fc = ∅) ->
      tree_step (mkTree T n) m (Delete r) 0 m
        (mkTree (prune nd (drop_node T (parent_cluster_number r) (req_key r))) (n + node_clusters nd))
  | step_delete_full T n m r f c fc : T !! parent_cluster_number r = Some f -> nodes f !! req_key r = Some (Dir c) ->
      T !! c = Some fc -> nodes fc <> ∅ -> tree_step (mkTree T n) m (Delete r) 2 m (mkTree T n)
  | step_delete_missing T n m r f : T !! parent_cluster_number r = Some f -> nodes f !! req_key r = None ->
      tree_step (mkTree T n) m (Delete r) 1 m (mkTree T n)
  | step_read_directory T n m r f : T !! parent_cluster_number r = Some f ->
      tree_step (mkTree T n) m (ReadDirectory r) (dir_code (nodes f !! req_key r)) m (mkTree T n)
  | step_child T n m r f c : T !! parent_cluster_number r = Some f -> nodes f !! req_key r = Some (Dir c) ->
      tree_step (mkTree T n) m (MoveToChild r) c m (mkTree T n)
  | step_no_child T n m r f : T !! parent_cluster_number r = Some f -> nodes f !! req_key r = None ->
      tree_step (mkTree T n) m (MoveToChild r) 0 m (mkTree T n)
  | step_parent T n m r f : T !! parent_cluster_number r = Some f ->
      tree_step (mkTree T n) m (MoveToParent r) (up f) m (mkTree T n).

(** What a caller has to respect: the parent is a directory, the name is neither
    the empty one nor the directory's own, buffers lie in memory, no 64th entry, and
    no directory on a full disk. *)
Definition enabled (s : tree_state) (m : mem) (o : tree_op) : Prop :=
  let r := request_of o in
  req_ok r /\ bytes_ok m /\ exists f, dirs s !! parent_cluster_number r = Some f /\
  match o with
  | MoveToParent _ => True
  | MoveToChild _ => req_key r <> own_key f /\ req_ext r = bytes_of "dir" /\ forall data, nodes f !! req_key r <> Some (File data)
  | _ => req_key r <> zero_key /\ req_key r <> own_key f /\
    match o with
    | Write _ => 0 <= buffer_size r < 2 ^ 31 /\ (nodes f !! req_key r = None -> (size (nodes f) < 63)%nat /\
        (buffer_size r = 0 -> req_name r <> replicate 8 0 /\ 0 < room s))
    | Read _ => 0 <= buf r /\ buf r + 2048 * 512 <= 2 ^ 32
    | _ => True
    end
  end.

(** ** Clients *)

(** A client stops, or asks a request with some contents of its memory and goes on
    as the answer and the memory say. *)
Inductive client : Type :=
  | Stop
  | Ask (m : mem) (o : tree_op) (next : Z -> mem -> client).

Inductive client_run : tree_state -> client -> list Z -> tree_state -> Prop :=
  | run_stop s : client_run s Stop [] s
  | run_ask s m o next a m' s' answers s'' : tree_step s m o a m' s' -> client_run s' (next a m') answers s'' ->
      client_run s (Ask m o next) (a :: answers) s''.

Lemma run_ask_inv s m o next answers s'' : client_run s (Ask m o next) answers s'' -> exists a m' s' rest,
  answers = a :: rest /\ tree_step s m o a m' s' /\ client_run s' (next a m') rest s''.
Proof. inversion 1; subst. by do 4 eexists. Qed.
Lemma run_stop_inv s answers s' : client_run s Stop answers s' -> answers = [] /\ s' = s.
Proof. by inversion 1. Qed.

(** The client respects the rules whatever the answers. *)
Fixpoint allowed (s : tree_state) (cl : client) : Prop :=
  match cl with
  | Stop => True
  | Ask m o next => enabled s m o /\ forall a m' s', tree_step s m o a m' s' -> allowed s' (next a m')
  end.

(** Several clients one after the other. *)
Inductive life : tree_state -> list client -> list (list Z) -> tree_state -> Prop :=
  | life_over s : life s [] [] s
  | life_goes_on s cl answers s' cls all s'' : client_run s cl answers s' -> life s' cls all s'' ->
      life s (cl :: cls) (answers :: all) s''.

Fixpoint life_allowed (s : tree_state) (cls : list client) : Prop :=
  match cls with
  | [] => True
  | cl :: cls' => allowed s cl /\ forall answers s', client_run s cl answers s' -> life_allowed s' cls'
  end.

Section Client.
Context {D : Type} `{BlockDeviceSpec D}.

(** The driver's entry points. *)
Definition perform (fs : Fs D) (m : mem) (o : tree_op) : outcome (Fs D * mem * Z) :=
  match o with
  | Write r => '(fs', c) ← write fs m r; Ret (fs', m, c)
  | Read r => read_mem fs m r
  | Delete r => '(fs', c) ← delete fs r; Ret (fs', m, c)
  | ReadDirectory r => '(fs', c) ← read_directory fs r; Ret (fs', m, c)
  | MoveToChild r => c ← move_to_child_directory fs r; Ret (fs, m, c)
  | MoveToParent r => c ← move_to_parent_directory fs r; Ret (fs, m, c)
  end.

Fixpoint run_client (fs : Fs D) (cl : client) : outcome (Fs D * list Z) :=
  match cl with
  | Stop => Ret (fs, [])
  | Ask m o next =>
    '(fs1, m1, a) ← perform fs m o;
    '(fs2, answers) ← run_client fs1 (next a m1);
    Ret (fs2, a :: answers)
  end.

Definition state_of (fs : Fs D) (T : tree) : tree_state := mkTree T (cluster_available (fat_of fs)).

(** One request. *)
Definition simulates (fs : Fs D) (T : tree) (m : mem) (o : tree_op) : Prop := exists fs' m' a T',
  perform fs m o = Ret (fs', m', a) /\ tree_step (state_of fs T) m o a m' (state_of fs' T') /\ tree_rep fs' T'.

(** A request that leaves disk and table alone. *)
Lemma simulates_same (fs fs' : Fs D) T m o m' a : tree_rep fs T -> fat_of fs' = fat_of fs -> disk fs' = disk fs ->
  perform fs m o = Ret (fs', m', a) -> tree_step (state_of fs T) m o a m' (state_of fs T) -> simulates fs T m o.
Proof.
  intros HT Ef Ed E Hs. exists fs', m', a, T. split_and!; [done | | by eapply tree_same]. unfold state_of in *. by rewrite Ef.
Qed.

Section Requests.
Context (fs : Fs D) (T : tree) (m : mem) (r : FAT32DriverRequest) (f : folder).
#[local] Abbreviation p := (parent_cluster_number r).
Context (HT : tree_rep fs T) (Hf : T !! p = Some f) (Hr : req_ok r) (Hm : bytes_ok m).

Lemma folder_of : represents fs p (own_key f) (nodes f) /\ dev_ok (disk fs) /\ 2 <= p < 512.
Proof using HT Hf.
  pose proof (tree_represents fs T p f HT Hf) as Hrep. split; [done |]. destruct Hrep as (ls & Hwf & _).
  split; [apply (dw_inv _ _ _ _ Hwf) | apply (dw_p _ _ _ _ Hwf)].
Qed.

Lemma simulates_write : req_key r <> zero_key -> req_key r <> own_key f -> 0 <= buffer_size r < 2 ^ 31 ->
  (nodes f !! req_key r = None -> (size (nodes f) < 63)%nat /\ (buffer_size r = 0 -> req_name r <> replicate 8 0 /\ 0 < cluster_available (fat_of fs))) ->
  simulates fs T m (Write r).
Proof using HT Hf Hr Hm.
  intros Hz Hown Hs Hnew. destruct folder_of as ([ls Hls] & Hok & Hp).
  assert (forall code, write_code fs r = code -> code <> 0 -> tree_step (state_of fs T) m (Write r) code m (state_of fs T) -> simulates fs T m (Write r)) as Hrej.
  { intros code Ec Hc. eapply simulates_same; [done | | | cbn [perform]; rewrite write_reject by (done || lia || congruence); rewrite Ec; reflexivity]; done. }
  assert (bool_decide (is_dir_table (dir_at fs p)) = true) as Hdir by (apply bool_decide_true; by apply (rep_is_dir _ _ _ _ _ Hls)).
  destruct (nodes f !! req_key r) as [nd|] eqn:HM.
  { destruct (rep_lookup _ _ _ _ _ Hls r nd Hr eq_refl Hz HM) as (i & e & l & _ & Hlk & _).
    apply (Hrej 1); [unfold write_code; by rewrite Hdir, Hlk | done |]. by apply (step_write_exists T _ m r f); [| eexists]. }
  destruct (Hnew eq_refl) as [Hsz Hdirs]. destruct (Z.eq_dec (buffer_size r) 0) as [E0|E0].
  - destruct (Hdirs E0) as [Hnz Hav]. destruct (tree_mkdir fs T r f HT Hf Hr Hz m) as (fs' & c & Hw & HTc & Hc & Hav' & HT'); [done | done | done | done | done | done |].
    exists fs', m, 0, (add_folder T p (req_key r) c). cbn [perform]. rewrite Hw. split_and!; [done | | done].
    unfold state_of. rewrite Hav'. by apply (step_write_folder T _ m r f c).
  - destruct (Z.le_gt_cases (clusters_needed (buffer_size r)) (cluster_available (fat_of fs))) as [Hav|Hav].
    + destruct (tree_write_file fs T r f HT Hf Hr Hz m) as (fs' & Hw & Hav' & HT'); [done | done | done | done | lia | done |].
      do 4 eexists. cbn [perform]. rewrite Hw. split_and!; [done | | exact HT']. unfold state_of. rewrite Hav'. apply (step_write_file T _ m r f); [done | done | lia | done].
    + apply (Hrej (-1)); [| done | by apply (step_write_full T _ m r f)]. unfold write_code. rewrite Hdir, (rep_lookup_None _ _ _ _ _ Hls r) by done. cbn [negb].
      destruct (Z.ltb_spec (cluster_available (fat_of fs)) (clusters_needed (buffer_size r))); lia || done.
Qed.

Lemma simulates_read : req_key r <> zero_key -> req_key r <> own_key f -> 0 <= buf r -> buf r + 2048 * 512 <= 2 ^ 32 ->
  simulates fs T m (Read r).
Proof using HT Hf Hr Hm.
  intros Hz Hown Hb0 Hb1. destruct folder_of as (Hrep & Hok & Hp). destruct (Z.eq_dec (read_answer (buffer_size r) (nodes f !! req_key r)) 0) as [Hans|Hans].
  - destruct (nodes f !! req_key r) as [[data|c]|] eqn:HM; cbn [read_answer] in Hans; [| done | done].
    destruct (Z.leb_spec (Z.of_nat (length data)) (buffer_size r)) as [Hle|]; [| done]. destruct Hrep as [ls Hls].
    destruct (read_file_frame fs r _ ls _ Hls Hr Hz m data HM Hle Hb0 Hb1) as (m' & E & Hm' & Hld & Hout).
    eapply simulates_same; [done | | | exact E |]; [done | done |]. apply (step_read T _ m r f data m'); auto.
  - eapply simulates_same; [done | | | by apply (read_refused fs r _ _ Hrep Hr Hz Hown m) |]; [done | done | by apply step_read_refused].
Qed.

Lemma simulates_delete : req_key r <> zero_key -> req_key r <> own_key f -> simulates fs T m (Delete r).
Proof using HT Hf Hr.
  intros Hz Hown. destruct (tree_delete_answer fs T r f HT Hf Hr Hz Hown) as (fs' & Hd & Hans).
  assert (remove_node T p (req_key r) = from_option (fun nd => prune nd (drop_node T p (req_key r))) T (nodes f !! req_key r)) as Erm.
  { unfold remove_node. rewrite Hf. cbn. by destruct (nodes f !! req_key r). }
  rewrite Erm in Hans. destruct (nodes f !! req_key r) as [[data|c]|] eqn:HM; cbn [delete_answer empty_folder Z.eqb from_option] in *.
  - destruct Hans as [HT' Hav]. do 4 eexists. cbn [perform]. rewrite Hd. split_and!; [done | | exact HT']. unfold state_of. rewrite Hav.
    by apply (step_delete T _ m r f (File data)).
  - destruct HT as [L HL]. destruct (tr_child _ _ _ HL p f _ c Hf HM) as (fc & Hfc & _). rewrite Hfc in *.
    destruct (bool_decide_reflect (nodes fc = ∅)) as [Em|Em]; cbn [Z.eqb] in Hans.
    + destruct Hans as [HT' Hav]. do 4 eexists. cbn [perform]. rewrite Hd. split_and!; [done | | exact HT']. unfold state_of. rewrite Hav.
      apply (step_delete T _ m r f (Dir c)); [done | done |]. intros c' fc' [= <-] Hfc'. congruence.
    + destruct Hans as [Ef Ed]. eapply simulates_same; [by exists L | exact Ef | exact Ed | cbn [perform]; rewrite Hd; reflexivity | by apply (step_delete_full T _ m r f c fc)].
  - destruct Hans as [Ef Ed]. eapply simulates_same; [exact HT | exact Ef | exact Ed | cbn [perform]; rewrite Hd; reflexivity | by apply (step_delete_missing T _ m r f)].
Qed.

Lemma simulates_read_directory : req_key r <> zero_key -> req_key r <> own_key f -> simulates fs T m (ReadDirectory r).
Proof using HT Hf Hr.
  intros Hz Hown. destruct folder_of as ([ls Hls] & _). destruct (read_directory_represents fs r _ ls _ Hls Hr Hz Hown) as (t & E).
  eapply simulates_same; [done | | | cbn [perform]; rewrite E; reflexivity | by apply step_read_directory]; done.
Qed.

Lemma simulates_parent : simulates fs T m (MoveToParent r).
Proof using HT Hf.
  destruct folder_of as (_ & Hok & Hp). destruct HT as [L HL]. destruct (tr_up _ _ _ HL p f Hf) as (e & He & Hup).
  eapply simulates_same; [by exists L | | | cbn [perform]; rewrite (move_to_parent_spec fs r e (up f)) by (done || lia); reflexivity | by apply step_parent]; done.
Qed.

Lemma simulates_child : req_key r <> own_key f -> req_ext r = bytes_of "dir" -> (forall data, nodes f !! req_key r <> Some (File data)) ->
  simulates fs T m (MoveToChild r).
Proof using HT Hf Hr.
  intros Hown Hext Hnf. destruct folder_of as (Hrep & Hok & Hp). assert (req_key r <> zero_key) as Hz by (unfold req_key; by rewrite Hext).
  destruct (nodes f !! req_key r) as [[data|c]|] eqn:HM; [by destruct (Hnf data) | |].
  - eapply simulates_same; [done | | | cbn [perform]; rewrite (move_to_child_spec fs r _ _ c Hrep Hr Hext HM); reflexivity | by apply (step_child T _ m r f)]; done.
  - destruct Hrep as [ls Hls]. pose proof (rep_lookup_None _ _ _ _ _ Hls r Hr eq_refl Hz Hown HM) as Hlk. unfold lookup_entry in Hlk. rewrite first_index_None in Hlk.
    assert (move_to_child_directory fs r = Ret 0) as E; [| eapply simulates_same; [done | | | cbn [perform]; rewrite E; reflexivity | by apply (step_no_child T _ m r f)]; done].
    unfold move_to_child_directory. rewrite read_dir_cluster_spec, bind_ret_l by (done || lia). fold (dir_at fs p).
    assert (first_index (fun e => (memcmp (at_list (ext e)) (at_list (bytes_of "dir")) 3 =? 0) &&
      (memcmp (at_list (name e)) (at_list (req_name r)) 8 =? 0)) (drop 1 (dir_at fs p)) = None) as ->; [| done].
    apply first_index_None. intros i e He. rewrite lookup_drop in He. specialize (Hlk _ e He). unfold entry_match in Hlk. rewrite Hext in Hlk. by rewrite andb_comm.
Qed.

End Requests.

Lemma request_simulates fs T m o : tree_rep fs T -> enabled (state_of fs T) m o -> simulates fs T m o.
Proof.
  intros HT (Hr & Hm & f & Hf & Ho). cbn [state_of dirs room] in *. destruct o as [r|r|r|r|r|r]; cbn [request_of] in *.
  - destruct Ho as (? & ? & ? & ?). by apply (simulates_write fs T m r f).
  - destruct Ho as (? & ? & ? & ?). by apply (simulates_read fs T m r f).
  - destruct Ho as (? & ? & _). by apply (simulates_delete fs T m r f).
  - destruct Ho as (? & ? & _). by apply (simulates_read_directory fs T m r f).
  - destruct Ho as (? & ? & ?). by apply (simulates_child fs T m r f).
  - by apply (simulates_parent fs T m r f).
Qed.

Lemma client_simulates cl : forall (fs : Fs D) T, tree_rep fs T -> allowed (state_of fs T) cl ->
  exists fs' answers T', run_client fs cl = Ret (fs', answers) /\
    client_run (state_of fs T) cl answers (state_of fs' T') /\ tree_rep fs' T'.
Proof.
  induction cl as [|m o next IH]; intros fs T HT Hal.
  { exists fs, [], T. split_and!; [done | constructor | done]. }
  destruct Hal as [Ho Hnext]. destruct (request_simulates fs T m o HT Ho) as (fs1 & m1 & a & T1 & E1 & Hs & HT1).
  destruct (IH a m1 fs1 T1 HT1 (Hnext a m1 _ Hs)) as (fs2 & answers & T2 & E2 & Hrun & HT2).
  exists fs2, (a :: answers), T2. cbn [run_client]. rewrite E1, bind_ret_l, E2. split_and!; [done | by econstructor | done].
Qed.

(** C1: A client that asks for files and directories anywhere on the disk, one
    request after the other, each chosen from the answers before it, sees an
    abstract tree: every request terminates without an access out of bounds with the
    answer, and the bytes, that a run on the tree gives, and the disk represents the
    resulting tree, every directory a request does not name included. *)
Theorem clients_see_a_tree (fs : Fs D) T cl : tree_rep fs T -> allowed (state_of fs T) cl ->
  exists fs' answers T', run_client fs cl = Ret (fs', answers) /\
    client_run (state_of fs T) cl answers (state_of fs' T') /\ tree_rep fs' T'.
Proof. apply client_simulates. Qed.

(** ** Formatting and mounting *)

(** The tree of a new disk. *)
Definition root_only (own : key) : tree := {[ ROOT_CLUSTER_NUMBER := mkFolder own ROOT_CLUSTER_NUMBER ∅ ]}.

Lemma root_represents (fs : Fs D) own lit_tail : represents fs ROOT_CLUSTER_NUMBER own ∅ -> dir_at fs ROOT_CLUSTER_NUMBER = root_table lit_tail ->
  tree_rep fs (root_only own).
Proof.
  intros [ls Hls] Hdir. pose proof (empty_owns_nothing _ _ _ _ Hls) as Hnone. exists (fun _ => ls). unfold root_only. split.
  - by eexists.
  - by intros p f [<- <-]%lookup_singleton_Some.
  - intros p q i j l l' x _ _ Hi _ Hl _ Hx. rewrite (Hnone i l Hi Hl) in Hx. by apply elem_of_nil in Hx.
  - intros p i l _ Hi Hl. rewrite (Hnone i l Hi Hl). by intros ?%elem_of_nil.
  - by intros p f k c [<- <-]%lookup_singleton_Some Hk.
  - by intros c f [<- <-]%lookup_singleton_Some Hne.
  - intros c f [<- <-]%lookup_singleton_Some. eexists. rewrite Hdir. by split.
Qed.

Definition root_name (lit_tail : list Z) : key := (bytes_of "root" ++ [0] ++ lit_tail, replicate 3 0).

(** What a mount of the disk will find: a tree, or nothing, so that it formats. *)
Inductive holds (lit_tail : list Z) (d : D) : tree_state -> Prop :=
  | holds_blank : dev_ok d -> dev_block d 0 <> fs_signature -> holds lit_tail d (mkTree (root_only (root_name lit_tail)) 509)
  | holds_tree fs T : disk fs = d -> tree_rep fs T -> holds lit_tail d (state_of fs T).

Lemma mount_finds lit_tail d ds s : length lit_tail = 3%nat -> Forall is_byte lit_tail -> length (fat_table ds) = CLUSTER_MAP_SIZE ->
  holds lit_tail d s -> exists fs T, initialize_filesystem_fat32 lit_tail (mkFs ds d) = Ret fs /\ tree_rep fs T /\ state_of fs T = s.
Proof.
  intros Hl Hb Hlen [Hok Hsig|fs T <- HT].
  - destruct (create_fat32_spec lit_tail (mkFs ds d)) as (fs & E & _ & Hf & Hdir); [done .. |].
    destruct (create_represents lit_tail (mkFs ds d)) as (fs1 & E1 & _ & Hrep); [done .. |]. rewrite E in E1. injection E1 as <-.
    exists fs, (root_only (root_name lit_tail)). unfold initialize_filesystem_fat32. change (disk (mkFs ds d)) with d.
    rewrite is_empty_storage_spec, bind_ret_l, bool_decide_true by done. split_and!; [done | by eapply root_represents |].
    unfold state_of. by rewrite Hf.
  - exists (set_fat (mkFs ds (disk fs)) (fat_of fs)), T. assert (is_Some (T !! ROOT_CLUSTER_NUMBER)) as [f Hf] by (destruct HT as [L HL]; apply HL).
    rewrite (mount_same fs _ _ _ lit_tail ds (tree_represents fs T _ f HT Hf)). split_and!; [done | by apply (tree_same fs) | done].
Qed.

(** ** Across reboots *)

(** Power on with any driver state, mount, run a client; and again. *)
Fixpoint boots (lit_tail : list Z) (d : D) (sessions : list (FAT32DriverState * client)) : outcome (D * list (list Z)) :=
  match sessions with
  | [] => Ret (d, [])
  | (ds, cl) :: sessions' =>
    fs ← initialize_filesystem_fat32 lit_tail (mkFs ds d);
    '(fs1, answers) ← run_client fs cl;
    '(d', all) ← boots lit_tail (disk fs1) sessions';
    Ret (d', answers :: all)
  end.

(** C23: The tree outlives the power: on a disk that is blank or holds a tree, any
    number of sessions, each a power-on with arbitrary driver state, a mount and a
    client, terminates and gives the answers of one uninterrupted life of the
    abstract tree, which starts with an empty root when the disk was blank. *)
Theorem tree_outlives_reboots lit_tail sessions : length lit_tail = 3%nat -> Forall is_byte lit_tail ->
  Forall (fun session => length (fat_table (fst session)) = CLUSTER_MAP_SIZE) sessions ->
  forall (d : D) s, holds lit_tail d s -> life_allowed s (map snd sessions) ->
  exists d' all s', boots lit_tail d sessions = Ret (d', all) /\ life s (map snd sessions) all s' /\ holds lit_tail d' s'.
Proof.
  intros Hl Hb Hds. induction Hds as [|[ds cl] sessions Hlen _ IH]; intros d s Hd Hal.
  { exists d, [], s. split_and!; [done | constructor | done]. }
  destruct Hal as [Hcl Hrest]. destruct (mount_finds lit_tail d ds s Hl Hb Hlen Hd) as (fs & T & E & HT & <-).
  destruct (client_simulates cl fs T HT Hcl) as (fs1 & answers & T1 & E1 & Hrun & HT1).
  destruct (IH (disk fs1) _ (holds_tree lit_tail _ fs1 T1 eq_refl HT1) (Hrest _ _ Hrun)) as (d' & all & s' & E2 & Hlife & Hd').
  exists d', (answers :: all), s'. cbn [boots map snd]. rewrite E, bind_ret_l, E1, bind_ret_l, E2. split_and!; [done | by econstructor | done].
Qed.
End Client.
