(* ===== verification/Fat32Edge.v ===== *)
(** * The driver at the edges: corrupt chains, a full disk, a full directory

    Which chain walks terminate, and three requests that succeed although they
    damage the file system. *)
From Stdlib Require Import String.
From stdpp Require Import gmap.
From S2P Require Import Prelude CString BlockDevice Fat32Types Fat32 Fat32Chain Fat32Facts Fat32Ops Fat32Access Fat32Abs Fat32Refine.
#[local] Open Scope Z_scope.

Section Edge.
Context {D : Type} `{BlockDeviceSpec D}.

Lemma read_chain_ret_chain fat (d : D) base fuel : forall m c off m',
  read_chain (put_mem base) fat d m c off fuel = Ret m' -> exists l, chain fat c l.
Proof.
  induction fuel as [|fuel IH]; intros m c off m'; cbn [read_chain]; [done |].
  intros Hr. inv_ret. destruct (Z.eqb_spec a1 FAT32_FAT_END_OF_FILE) as [->|Hne].
  - exists [c]. by constructor.
  - destruct (IH _ _ _ _ Hr) as [l Hl]. exists (c :: l). by apply chain_next with a1.
Qed.

(** C28: The loop of [read] over a file's clusters ends exactly when the
    allocation table links the first cluster to an end-of-file mark, and then
    the 513 rounds given to it are enough; on a cyclic chain it never returns,
    whatever the number of rounds. *)
Theorem read_loop_terminates_iff_chain fat (d : D) base m c :
  fat_ok fat -> dev_ok d ->
  ((exists fuel m', read_chain (put_mem base) fat d m c 0 fuel = Ret m') <->
     exists l, chain fat c l) /\
  ((exists l, chain fat c l) ->
     exists m', read_chain (put_mem base) fat d m c 0 CHAIN_FUEL = Ret m').
Proof.
  intros Hf Hok.
  assert ((exists l, chain fat c l) ->
    exists m', read_chain (put_mem base) fat d m c 0 CHAIN_FUEL = Ret m') as Hfuel.
  { intros [l Hl]. pose proof (chain_length _ _ _ Hl) as Hlen. rewrite (proj1 Hf) in Hlen.
    unfold CLUSTER_MAP_SIZE in Hlen.
    rewrite (read_chain_spec _ _ _ _ l) by (done || unfold CHAIN_FUEL; lia).
    clear Hl Hlen. generalize 0 as off. revert m. induction l as [|x l IH]; intros m off; [by eexists |].
    rewrite fmap_cons. cbn [deliver]. apply IH. }
  split; [split | done].
  - intros (fuel & m' & Hr). by eapply read_chain_ret_chain.
  - intros Hl. destruct (Hfuel Hl) as [m' Hm']. by exists CHAIN_FUEL, m'.
Qed.

(** The boot block after a directory table was written to cluster 0. *)
Lemma dir_table_not_signature nm p d : dev_ok d -> (8 <= length nm)%nat ->
  dev_cluster d 0 = encode_table (new_dir_table nm p) -> dev_block d 0 <> fs_signature.
Proof.
  intros Hok Hl Hc Hs. rewrite (dev_block_0_cluster d Hok), Hc in Hs.
  apply (f_equal (fun l => nth 11 l 0)) in Hs. revert Hs.
  rewrite nth_firstn. change (11 <? 512)%nat with true. cbv iota.
  destruct nm as [|a [|b [|c' [|e [|f [|g [|h [|i nm]]]]]]]]; cbn [length] in Hl; try lia. discriminate.
Qed.

(** C34: Making a directory on a full disk succeeds and overwrites the boot
    sector: the next mount takes the disk for blank and formats it. *)
Theorem mkdir_on_full_disk_destroys_boot_sector (fs : Fs D) m r :
  fs_inv fs -> req_ok r -> bytes_ok m -> 2 <= parent_cluster_number r < 512 ->
  write_code fs r = 0 -> buffer_size r = 0 -> cluster_available (fat_of fs) = 0 ->
  exists fs', write fs m r = Ret (fs', 0) /\ is_empty_storage (disk fs') = Ret true.
Proof.
  intros Hinv Hr Hm Hp Hcode Hs Hav. pose proof Hinv as (Hok & [Hflen Hf] & H0f & H1f & _).
  rewrite (cluster_available_length _ Hflen H0f H1f) in Hav.
  assert (empty_from 0 (fat_of fs) = []) as He by (destruct (empty_from 0 (fat_of fs)); [done | cbn in Hav; lia]).
  pose proof (first_empty_none _ Hflen H0f H1f He) as Hfirst.
  rewrite (write_prefix fs m r Hinv Hp Hcode), Hs, Z.eqb_refl, Hfirst.
  rewrite aset_in, bind_ret_l by (rewrite Hflen; done).
  assert ((8 <= length (req_name r))%nat) as Hn by (destruct Hr; lia).
  destruct (write_cluster_spec (disk fs) (encode_table (new_dir_table (req_name r) (parent_cluster_number r))) 0)
    as (d0 & -> & W0); [done | lia | by apply encode_table_ok, new_dir_table_ok; [| apply Hr] |].
  rewrite !bind_ret_l.
  destruct (commit_spec d0 (parent_cluster_number r)
    (<[new_entry_index (dir_at fs (parent_cluster_number r)) := dir_entry fs r]> (dir_at fs (parent_cluster_number r)))
    (<[Z.to_nat 0 := EOF]> (fat_of fs))) as (d1 & d2 & -> & E2 & Hok2 & _ & _ & _ & H2b);
    [apply W0 | done | apply written_table_ok; [done | done | apply new_entry_ok; [done | by_compute]] | |].
  { split; [by rewrite length_insert | by apply Forall_insert]. }
  rewrite bind_ret_l, E2, bind_ret_l. eexists. split; [done |].
  cbn [disk written]. rewrite is_empty_storage_spec, bool_decide_true; [done | | done].
  rewrite H2b. apply (dir_table_not_signature (req_name r) (parent_cluster_number r)); [apply W0 | done |].
  by apply (wrote_same _ _ _ _ W0).
Qed.

(** Writing a file into a directory whose 63 slots are taken succeeds and
    replaces the directory's own entry: afterwards every request on that
    directory is answered with -1, so its files are lost. *)
Theorem write_into_full_directory_loses_it (fs : Fs D) m r :
  fs_inv fs -> req_ok r -> bytes_ok m -> 2 <= parent_cluster_number r < 512 ->
  write_code fs r = 0 -> buffer_size r <> 0 ->
  ~ has_room (dir_at fs (parent_cluster_number r)) ->
  exists fs', write fs m r = Ret (fs', 0) /\
    forall r', parent_cluster_number r' = parent_cluster_number r ->
      read_code fs' r' = -1 /\ write_code fs' r' = -1 /\ delete_code fs' r' = -1.
Proof.
  intros Hinv Hr Hm Hp Hcode Hs Hroom.
  destruct (write_file_ok fs m r Hinv Hr Hm Hp Hcode Hs) as (d' & Hw & _ & Hdp & _).
  eexists. split; [exact Hw |]. intros r' Hr'.
  assert (new_entry_index (dir_at fs (parent_cluster_number r)) = 0%nat) as Hidx.
  { unfold has_room in Hroom. lia. }
  pose proof (written_table_ok fs r Hinv Hp (file_entry fs r)) as Htok.
  set (fs' := written _ _ _ _ d').
  assert (~ is_dir_table (dir_at fs' (parent_cluster_number r'))) as Hnd.
  { unfold dir_at. change (disk fs') with d'. rewrite Hr', Hdp, decode_encode_table
      by (apply Htok, new_entry_ok; [done | by_compute]).
    rewrite Hidx. intros (e & He & Ha).
    destruct (dir_at fs (parent_cluster_number r)) as [|e0 t] eqn:Et; [done |].
    injection He as <-. done. }
  unfold read_code, write_code, delete_code. by rewrite bool_decide_false.
Qed.

(** A freshly formatted root directory can be deleted through its own entry:
    the request for the name of entry 0 returns 0 and marks cluster 2 free, so
    the next write may hand the root directory's cluster to a file. *)
Theorem delete_root_entry_frees_root (fs : Fs D) lit_tail r :
  dev_ok (disk fs) -> length (fat_of fs) = CLUSTER_MAP_SIZE ->
  length lit_tail = 3%nat -> Forall is_byte lit_tail ->
  req_name r = bytes_of "root" ++ [0] ++ lit_tail -> req_ext r = replicate 3 0 ->
  parent_cluster_number r = ROOT_CLUSTER_NUMBER ->
  exists fs1 fs2, create_fat32 lit_tail fs = Ret fs1 /\ delete fs1 r = Ret (fs2, 0) /\
    first_empty_cluster (fat_of fs1) = 3 /\ first_empty_cluster (fat_of fs2) = ROOT_CLUSTER_NUMBER.
Proof.
  intros Hok Hlen Hl Hb Hn He Hp.
  destruct (create_fat32_spec lit_tail fs) as (fs1 & Hc & Hinv & Hf & Hd); [done.. |].
  assert (lookup_entry r (dir_at fs1 (parent_cluster_number r)) = Some 0%nat) as Hlk.
  { rewrite Hp, Hd. unfold lookup_entry, root_table, new_dir_table. cbn [first_index].
    rewrite entry_match_self; [done | | by rewrite He]. cbn [name]. rewrite Hn.
    apply take_ge. rewrite !length_app, Hl. done. }
  assert (is_dir_table (root_table lit_tail)) as Hdir by (by eexists).
  set (e0 := hd zero_entry (root_table lit_tail)).
  assert (dir_at fs1 (parent_cluster_number r) !! 0%nat = Some e0) as He0 by (by rewrite Hp, Hd).
  assert (chain (fat_of fs1) (entry_cluster e0) [2]) as Hch by (rewrite Hf; by constructor).
  destruct Hinv as (Hok1 & Hf1 & _).
  destruct (delete_ok fs1 r 0 e0 [2] Hok1 Hf1) as (d' & Hdel & _); try done.
  - rewrite Hp. done.
  - unfold delete_code. rewrite Hlk, Hp, Hd, bool_decide_true by done. cbn [negb].
    change (Some 0%nat ≫= (fun i => root_table lit_tail !! i)) with (Some e0). cbv iota beta.
    change (entry_cluster e0) with ROOT_CLUSTER_NUMBER. by rewrite Hd, andb_false_r.
  - exists fs1, (deleted fs1 r 0 e0 [2] d'). split_and!; [done | done | |].
    + by rewrite Hf.
    + change (fat_of (deleted fs1 r 0 e0 [2] d')) with (zero_all (fat_of fs1) [2]). by rewrite Hf.
Qed.
End Edge.
