(* ===== verification/Fat32Examples.v ===== *)
(** * The file system theorems at concrete inputs

    A blank 4 MiB image of the inserter, formatted, then used, filled or damaged. *)
From Stdlib Require Import String.
From stdpp Require Import gmap.
From S2P Require Import Prelude CString BlockDevice Fat32Types Fat32 Fat32Chain Fat32Facts Fat32Ops Fat32Access Fat32Abs Fat32Refine Fat32Props Fat32Edge.
#[local] Open Scope Z_scope.

Definition blank_image : Image := mkImage (fun _ => 0).
Definition blank_fs : Fs Image := mkFs initial_driver_state blank_image.
Definition no_tail : list Z := [0; 0; 0].
Definition zero_mem : mem := fun a => a mod 256.
Definition root_own : key := (bytes_of "root" ++ [0] ++ no_tail, replicate 3 0).

(** A 5000-byte file and a directory in the root. *)
Definition file_req : FAT32DriverRequest :=
  mkRequest 4096 (bytes_of "ikuyo" ++ [0; 0; 0]) (bytes_of "txt") 2 5000.
Definition dir_req : FAT32DriverRequest :=
  mkRequest 0 (bytes_of "nestedf1") (bytes_of "dir") 2 0.

Lemma blank_ok : dev_ok blank_image.
Proof. intros x. cbn. split; lia. Qed.
Lemma blank_no_signature : dev_block blank_image 0 <> fs_signature.
Proof. intros Hs. apply (f_equal (fun l => nth 0 l 0)) in Hs. discriminate. Qed.
Lemma no_tail_bytes : Forall is_byte no_tail.
Proof. by_compute. Qed.
Lemma zero_mem_ok : bytes_ok zero_mem.
Proof. intros a. unfold zero_mem. apply Z.mod_pos_bound. lia. Qed.

Lemma file_req_ok : req_ok file_req.
Proof. unfold req_ok. split_and!; try done; by_compute. Qed.
Lemma dir_req_ok : req_ok dir_req.
Proof. unfold req_ok. split_and!; try done; by_compute. Qed.

Lemma fresh_available : cluster_available fresh_fat = 509.
Proof. reflexivity. Qed.

Lemma formatted : exists fs, create_fat32 no_tail blank_fs = Ret fs /\ fat_of fs = fresh_fat /\
  represents fs 2 root_own ∅.
Proof. apply (create_represents no_tail blank_fs); [apply blank_ok | done | done | apply no_tail_bytes]. Qed.

Lemma file_operations_refine_map_witness : exists fs fs' m' cs A',
  create_fat32 no_tail blank_fs = Ret fs /\
  run_ops fs zero_mem [OpWrite file_req; OpRead file_req; OpDelete file_req] = Ret (fs', m', cs) /\
  map_run (mkMap ∅ zero_mem 509) [OpWrite file_req; OpRead file_req; OpDelete file_req] cs
    (mkMap A' m' (cluster_available (fat_of fs'))).
Proof.
  destruct formatted as (fs & Hc & Hf & Hrep).
  destruct (file_operations_refine_map fs zero_mem 2 root_own ∅
    [OpWrite file_req; OpRead file_req; OpDelete file_req]) as (fs' & m' & cs & A' & Hr & Hm & _).
  - by rewrite fmap_empty.
  - apply zero_mem_ok.
  - pose proof file_req_ok. repeat constructor; try done; cbn; lia.
  - rewrite map_size_empty. cbn. lia.
  - exists fs, fs', m', cs, A'. rewrite Hf, fresh_available in Hm. split_and!; assumption.
Defined.

Lemma reboot_recovers_directory_witness : exists fs fs',
  create_fat32 no_tail blank_fs = Ret fs /\
  initialize_filesystem_fat32 no_tail (mkFs initial_driver_state (disk fs)) = Ret fs' /\
  represents fs' 2 root_own ∅.
Proof.
  destruct formatted as (fs & Hc & Hf & Hrep).
  destruct (reboot_recovers_directory fs 2 root_own ∅ no_tail initial_driver_state Hrep)
    as (fs' & Hm & _ & _ & Hr).
  exists fs, fs'. split_and!; assumption.
Defined.

Lemma mount_formats_blank_device_witness : exists fs,
  initialize_filesystem_fat32 no_tail blank_fs = Ret fs /\ is_empty_storage (disk fs) = Ret false.
Proof.
  destruct (mount_formats_blank_device blank_image no_tail) as (fs & Hm & _ & _ & He).
  - apply blank_ok.
  - apply blank_no_signature.
  - done.
  - apply no_tail_bytes.
  - exists fs. split; assumption.
Defined.

Lemma delete_undoes_write_witness : exists fs fs1 fs2,
  create_fat32 no_tail blank_fs = Ret fs /\
  write fs zero_mem file_req = Ret (fs1, 0) /\ delete fs1 file_req = Ret (fs2, 0) /\
  fat_of fs2 = fat_of fs.
Proof.
  destruct formatted as (fs & Hc & Hf & Hrep).
  destruct (delete_undoes_write fs zero_mem file_req root_own ∅) as (fs1 & fs2 & Hw & Hd & _ & Hfat & _).
  - done.
  - apply file_req_ok.
  - apply zero_mem_ok.
  - done.
  - done.
  - apply lookup_empty.
  - rewrite map_size_empty. lia.
  - cbn. lia.
  - rewrite Hf, fresh_available. done.
  - exists fs, fs1, fs2. split_and!; assumption.
Defined.

(** The file is not there yet: the read is refused with code 3. *)
Lemma failed_operations_change_nothing_witness : exists fs fs',
  create_fat32 no_tail blank_fs = Ret fs /\
  read_mem fs zero_mem file_req = Ret (fs', zero_mem, 3) /\ disk fs' = disk fs.
Proof.
  destruct formatted as (fs & Hc & Hf & ls & Hrep).
  pose proof Hrep as [Hwf _]. destruct (dw_inv _ _ _ _ Hwf) as (Hok & _).
  assert (read_code fs file_req = 3) as Hcode.
  { unfold read_code. rewrite bool_decide_true by by apply (rep_is_dir _ _ _ _ _ Hrep).
    cbn [negb]. change (parent_cluster_number file_req) with 2.
    by rewrite (rep_lookup_None _ _ _ _ _ Hrep file_req file_req_ok). }
  assert (0 <= parent_cluster_number file_req < 512) as Hp by (cbn; lia).
  destruct (failed_operations_change_nothing fs zero_mem file_req Hok Hp) as (_ & Hr & _).
  rewrite Hcode in Hr. destruct (Hr ltac:(lia)) as (fs' & Hrd & Hd & _). exists fs, fs'. split_and!; assumption.
Defined.

Lemma mkdir_then_enter_and_leave_witness : exists fs fs' c,
  create_fat32 no_tail blank_fs = Ret fs /\
  write fs zero_mem dir_req = Ret (fs', 0) /\ move_to_child_directory fs' dir_req = Ret c /\
  represents fs' c (bytes_of "nestedf1", replicate 3 0) ∅.
Proof.
  destruct formatted as (fs & Hc & Hf & Hrep).
  destruct (mkdir_then_enter_and_leave fs zero_mem dir_req root_own ∅) as (fs' & c & Hw & Hm & _ & Hr & _).
  - done.
  - apply dir_req_ok.
  - apply zero_mem_ok.
  - done.
  - done.
  - done.
  - apply lookup_empty.
  - rewrite map_size_empty. lia.
  - done.
  - rewrite Hf, fresh_available. done.
  - exists fs, fs', c. split_and!; assumption.
Defined.

(** ** Corrupt and full states *)

(** The root of a table that links cluster 3 to 4 and 4 to the end of file. *)
Lemma read_loop_terminates_iff_chain_witness : exists m',
  read_chain (put_mem 0) (<[3%nat := 4]> (<[4%nat := EOF]> fresh_fat)) blank_image zero_mem 3 0
    CHAIN_FUEL = Ret m'.
Proof.
  destruct (read_loop_terminates_iff_chain (<[3%nat := 4]> (<[4%nat := EOF]> fresh_fat)) blank_image
    0 zero_mem 3) as [_ Hfuel].
  - split; [done |]. apply Forall_insert; [apply Forall_insert; [apply fresh_fat_ok | done] | lia].
  - apply blank_ok.
  - apply Hfuel. exists [3; 4]. apply chain_next with 4; [done | done |]. by constructor.
Defined.

(** A sound state with a given allocation table or root directory. *)
Lemma state_with (fat : list Z) (t : list FAT32DirectoryEntry) : fat_ok fat -> table_ok t ->
  fat !! 0%nat = Some CLUSTER_0_VALUE -> fat !! 1%nat = Some CLUSTER_1_VALUE ->
  exists fs : Fs Image, fs_inv fs /\ fat_of fs = fat /\ dir_at fs 2 = t.
Proof.
  intros Hf Ht H0 H1.
  destruct (create_fat32_spec no_tail blank_fs) as (fs & _ & Hinv & _);
    [apply blank_ok | done | done | apply no_tail_bytes |].
  destruct Hinv as (Hok & _ & _ & _ & _ & Hsig).
  destruct (commit_spec (disk fs) 2 t fat) as (d1 & d2 & _ & _ & Hok2 & Hp & H1d & _ & Hb);
    [done | lia | done | done |].
  exists (mkFs (mkDriver fat [] []) d2). unfold fs_inv, dir_at. cbn [disk fat_of driver_state fat_table].
  rewrite Hp. split; [| split; [done | by apply decode_encode_table]].
  refine (conj Hok2 (conj Hf (conj H0 (conj H1 (conj H1d _))))). by rewrite Hb.
Qed.

Definition full_fat : list Z := [CLUSTER_0_VALUE; CLUSTER_1_VALUE] ++ replicate 510 EOF.
Lemma full_fat_ok : fat_ok full_fat.
Proof.
  split; [done |]. unfold full_fat. apply Forall_app. split.
  - repeat constructor; done.
  - by apply Forall_replicate.
Qed.

Lemma root_write_code (fs : Fs Image) r : parent_cluster_number r = 2 ->
  is_dir_table (dir_at fs 2) -> lookup_entry r (dir_at fs 2) = None ->
  clusters_needed (buffer_size r) <= cluster_available (fat_of fs) -> write_code fs r = 0.
Proof.
  intros Hp Hd Hl Hn. unfold write_code. rewrite Hp, bool_decide_true, Hl by done. cbn [negb].
  destruct (Z.ltb_spec (cluster_available (fat_of fs)) (clusters_needed (buffer_size r))); lia || done.
Qed.

Lemma mkdir_on_full_disk_destroys_boot_sector_witness : exists fs fs' : Fs Image,
  fs_inv fs /\ fat_of fs = full_fat /\
  write fs zero_mem dir_req = Ret (fs', 0) /\ is_empty_storage (disk fs') = Ret true.
Proof.
  destruct (state_with full_fat (root_table no_tail)) as (fs & Hinv & Hf & Hd);
    [apply full_fat_ok | apply root_table_ok; [done | apply no_tail_bytes] | done | done |].
  destruct (mkdir_on_full_disk_destroys_boot_sector fs zero_mem dir_req) as (fs' & Hw & He).
  - done.
  - apply dir_req_ok.
  - apply zero_mem_ok.
  - cbn. lia.
  - apply root_write_code; [reflexivity | rewrite Hd; apply new_dir_is_dir | rewrite Hd; reflexivity |]. rewrite Hf. done.
  - done.
  - by rewrite Hf.
  - exists fs, fs'. split_and!; assumption.
Defined.

(** 63 files in the root directory. *)
Definition full_table : list FAT32DirectoryEntry :=
  hd zero_entry (root_table no_tail) :: replicate 63
    (mkEntry (bytes_of "kaguya" ++ [0; 0]) (bytes_of "txt") 0 UATTR_NOT_EMPTY 0 0 0 0 0 0 0 3 1).
Lemma full_is_dir : is_dir_table full_table.
Proof. exists (hd zero_entry full_table). split; reflexivity. Qed.
Lemma full_table_ok : table_ok full_table.
Proof.
  split; [done |]. apply Forall_cons. split.
  - destruct (root_table_ok no_tail) as [_ Ht]; [done | apply no_tail_bytes |].
    by apply Forall_cons in Ht as [? _].
  - apply Forall_replicate. unfold entry_ok. cbn [name ext attribute user_attribute undelete create_time
      create_date access_date cluster_high modified_time modified_date cluster_low filesize].
    split_and!; try done; by_compute.
Qed.

Lemma write_into_full_directory_loses_it_witness : exists fs fs' : Fs Image,
  fs_inv fs /\ write fs zero_mem file_req = Ret (fs', 0) /\ read_code fs' file_req = -1.
Proof.
  destruct (state_with fresh_fat full_table) as (fs & Hinv & Hf & Hd);
    [apply fresh_fat_ok | apply full_table_ok | done | done |].
  destruct (write_into_full_directory_loses_it fs zero_mem file_req) as (fs' & Hw & Hc).
  - done.
  - apply file_req_ok.
  - apply zero_mem_ok.
  - cbn. lia.
  - apply root_write_code; [reflexivity | rewrite Hd; apply full_is_dir | rewrite Hd; reflexivity |].
    rewrite Hf, fresh_available. done.
  - done.
  - change (parent_cluster_number file_req) with 2. rewrite Hd. intros Hroom. by apply Hroom.
  - exists fs, fs'. split; [assumption |]. split; [assumption |]. by apply Hc.
Defined.

Lemma delete_root_entry_frees_root_witness : exists fs1 fs2,
  create_fat32 no_tail blank_fs = Ret fs1 /\
  delete fs1 (mkRequest 0 (bytes_of "root" ++ [0] ++ no_tail) (replicate 3 0) 2 0) = Ret (fs2, 0) /\
  first_empty_cluster (fat_of fs2) = 2.
Proof.
  destruct (delete_root_entry_frees_root blank_fs no_tail
    (mkRequest 0 (bytes_of "root" ++ [0] ++ no_tail) (replicate 3 0) 2 0))
    as (fs1 & fs2 & Hc & Hd & _ & Hf).
  - apply blank_ok.
  - done.
  - done.
  - apply no_tail_bytes.
  - done.
  - done.
  - done.
  - exists fs1, fs2. split_and!; assumption.
Defined.
