(* ===== verification/ClientExamples.v ===== *)
(** * A client at work

    On a blank image a client makes a directory, enters it, writes a file there,
    tries to remove the directory and asks for the way up; after a reboot a second
    client reads the file. *)
From Stdlib Require Import String.
From stdpp Require Import gmap.
From S2P Require Import Prelude CString BlockDevice Fat32Types Fat32 Fat32Chain Fat32Facts Fat32Ops Fat32Access Fat32Abs Fat32Refine Fat32Codes Fat32Props Fat32Examples Fat32Tree Fat32Client.
#[local] Open Scope Z_scope.

Definition docs_request : FAT32DriverRequest := mkRequest 4096 (bytes_of "docs" ++ replicate 4 0) (bytes_of "dir") 2 0.
Definition note_request (c : Z) : FAT32DriverRequest := mkRequest 4096 (bytes_of "note" ++ replicate 4 0) (bytes_of "txt") c 5.
Definition docs_key : key := req_key docs_request.
Definition note_key : key := req_key (note_request 0).
Definition docs_own : key := (bytes_of "docs" ++ replicate 4 0, replicate 3 0).

Definition first_client : client :=
  Ask zero_mem (Write docs_request) (fun _ _ =>
  Ask zero_mem (MoveToChild docs_request) (fun c _ =>
  Ask zero_mem (Write (note_request c)) (fun _ _ =>
  Ask zero_mem (Delete docs_request) (fun _ _ =>
  Ask zero_mem (MoveToParent (note_request c)) (fun _ _ => Stop))))).
Definition second_client : client :=
  Ask zero_mem (MoveToChild docs_request) (fun c _ =>
  Ask zero_mem (Read (note_request c)) (fun _ _ => Stop)).

Lemma docs_request_ok : req_ok docs_request.
Proof. unfold req_ok. split_and!; try done; by_compute. Qed.
Lemma note_request_ok c : 2 <= c < 512 -> req_ok (note_request c).
Proof. intros Hc. unfold req_ok. split_and!; [done | by_compute | done | by_compute | by_compute | by_compute | |]; change (parent_cluster_number (note_request c)) with c; lia. Qed.

(** The tree on the way. *)
Definition tree0 : tree := root_only (root_name no_tail).
Definition tree1 (c : Z) : tree := add_folder tree0 2 docs_key c.
Definition note_text : list Z := load_bytes zero_mem 4096 5.
Definition tree2 (c : Z) : tree := add_node (tree1 c) c note_key (File note_text).

Lemma tree0_root f : tree0 !! 2 = Some f <-> f = mkFolder (root_name no_tail) 2 ∅.
Proof. unfold tree0, root_only. change ROOT_CLUSTER_NUMBER with 2. rewrite lookup_singleton_eq. split; [by intros [= <-] | by intros ->]. Qed.
Lemma tree1_root c f : c <> 2 -> tree1 c !! 2 = Some f <-> f = mkFolder (root_name no_tail) 2 (<[docs_key := Dir c]> ∅).
Proof.
  intros Hc. unfold tree1, add_folder, add_node. rewrite lookup_insert_ne, lookup_alter_eq by done.
  rewrite (proj2 (tree0_root _) eq_refl). split; [by intros [= <-] | by intros ->].
Qed.
Lemma tree1_docs c f : tree1 c !! c = Some f <-> f = mkFolder docs_own 2 ∅.
Proof. unfold tree1, add_folder. rewrite lookup_insert_eq. split; [by intros [= <-] | by intros ->]. Qed.
Lemma tree2_root c f : c <> 2 -> tree2 c !! 2 = Some f <-> f = mkFolder (root_name no_tail) 2 (<[docs_key := Dir c]> ∅).
Proof. intros Hc. unfold tree2, add_node. rewrite lookup_alter_ne by done. by apply tree1_root. Qed.
Lemma tree2_docs c f : tree2 c !! c = Some f <-> f = mkFolder docs_own 2 (<[note_key := File note_text]> ∅).
Proof.
  unfold tree2, add_node. rewrite lookup_alter_eq. destruct (tree1 c !! c) as [f1|] eqn:E.
  - apply tree1_docs in E as ->. split; [by intros [= <-] | by intros ->].
  - pose proof (proj2 (tree1_docs c _) eq_refl) as E1. congruence.
Qed.

(** The steps they allow: the folder of the request is known. *)
Ltac folder_is L := match goal with Hf : _ !! parent_cluster_number _ = Some ?f |- _ => apply L in Hf; subst f; cbn [nodes own_key up] in * end.

Lemma step_docs n a m s : tree_step (mkTree tree0 n) zero_mem (Write docs_request) a m s -> 1 <= n ->
  exists c, 2 <= c < 512 /\ c <> 2 /\ a = 0 /\ s = mkTree (tree1 c) (n - 1).
Proof.
  intros Hs Hn. inversion Hs; subst; folder_is tree0_root.
  - cbn in *; lia.
  - exists c. split_and!; [lia | lia | | done | done]. intros ->. pose proof (proj2 (tree0_root _) eq_refl). congruence.
  - change (clusters_needed (buffer_size docs_request)) with 0 in *. lia.
  - match goal with Hex : is_Some _ |- _ => by destruct Hex as [? ?] end.
Qed.

Lemma step_enter T c n a m s M : T !! 2 = Some (mkFolder (root_name no_tail) 2 (<[docs_key := Dir c]> M)) ->
  tree_step (mkTree T n) zero_mem (MoveToChild docs_request) a m s -> a = c /\ s = mkTree T n.
Proof.
  intros HT Hs. inversion Hs; subst; match goal with Hf : T !! _ = Some ?f |- _ =>
    assert (f = mkFolder (root_name no_tail) 2 (<[docs_key := Dir c]> M)) as -> by (change (parent_cluster_number docs_request) with 2 in Hf; congruence) end;
    cbn [nodes] in *; unfold docs_key in *; simplify_map_eq; done.
Qed.

Lemma step_note c n a m s : c <> 2 -> tree_step (mkTree (tree1 c) n) zero_mem (Write (note_request c)) a m s -> 1 <= n ->
  a = 0 /\ s = mkTree (tree2 c) (n - 1).
Proof.
  intros Hc Hs Hn. inversion Hs; subst; folder_is tree1_docs; [done | cbn in *; lia | | ].
  - change (clusters_needed (buffer_size (note_request c))) with 1 in *. lia.
  - match goal with Hex : is_Some _ |- _ => by destruct Hex as [? ?] end.
Qed.

Lemma step_remove c n a m s : c <> 2 -> tree_step (mkTree (tree2 c) n) zero_mem (Delete docs_request) a m s ->
  a = 2 /\ s = mkTree (tree2 c) n.
Proof.
  intros Hc Hs. inversion Hs; subst; match goal with Hf : _ !! parent_cluster_number docs_request = Some ?f |- _ =>
    apply tree2_root in Hf; [| done]; subst f; cbn [nodes] in *; unfold docs_key in *; simplify_map_eq end; [| done].
  match goal with Hempty : forall _ _, Dir _ = Dir _ -> _ |- _ => specialize (Hempty c _ eq_refl (proj2 (tree2_docs c _) eq_refl)); discriminate end.
Qed.

Lemma step_up c n a m s : tree_step (mkTree (tree2 c) n) zero_mem (MoveToParent (note_request c)) a m s -> a = 2 /\ s = mkTree (tree2 c) n.
Proof. intros Hs. inversion Hs; subst; folder_is tree2_docs. done. Qed.

(** Both clients respect the rules. *)
Lemma second_allowed c n : 2 <= c < 512 -> c <> 2 -> allowed (mkTree (tree2 c) n) second_client.
Proof.
  intros Hc Hne. pose proof (proj2 (tree2_root c _ Hne) eq_refl) as Hroot. pose proof (proj2 (tree2_docs c _) eq_refl) as Hdocs. split.
  - split_and!; [apply docs_request_ok | apply zero_mem_ok |]. eexists. split; [exact Hroot |]. cbn [nodes]. split_and!; [done | done |].
    intros data. unfold docs_key. by rewrite lookup_insert_eq.
  - intros a m s Hs. destruct (step_enter _ c n a m s ∅ Hroot Hs) as [-> ->]. split; [| done].
    split_and!; [by apply note_request_ok | apply zero_mem_ok |]. eexists. split; [exact Hdocs |]. split_and!; [done | done | done | by vm_compute].
Qed.

Lemma first_allowed : allowed (mkTree tree0 509) first_client.
Proof.
  pose proof zero_mem_ok as Hm. pose proof docs_request_ok as Hr. split.
  { split_and!; [done | done |]. eexists. split; [by apply tree0_root |]. cbn [nodes]. split_and!; [done | done | by compute | by compute |].
    intros _. rewrite map_size_empty. split; [lia | by intros _]. }
  intros a m s Hs. apply step_docs in Hs as (c & Hc & Hne & -> & ->); [| lia]. pose proof (note_request_ok c Hc) as Hn.
  pose proof (proj2 (tree1_root c _ Hne) eq_refl) as Hroot. split.
  { split_and!; [done | done |]. eexists. split; [exact Hroot |]. cbn [nodes]. split_and!; [done | done |]. intros data. unfold docs_key. by rewrite lookup_insert_eq. }
  intros a1 m1 s1 Hs1. destruct (step_enter _ c _ a1 m1 s1 ∅ Hroot Hs1) as [-> ->]. split.
  { split_and!; [done | done |]. eexists. split; [by apply tree1_docs |]. cbn [nodes]. split_and!; [done | done | by compute | by compute |].
    intros _. rewrite map_size_empty. split; [lia | done]. }
  intros a2 m2 s2 Hs2. apply step_note in Hs2 as [-> ->]; [| done | lia]. pose proof (proj2 (tree2_root c _ Hne) eq_refl) as Hroot2. split.
  { split_and!; [done | done |]. eexists. split; [exact Hroot2 |]. done. }
  intros a3 m3 s3 Hs3. apply step_remove in Hs3 as [-> ->]; [| done]. split; [| done].
  split_and!; [done | done |]. eexists. split; [by apply tree2_docs |]. done.
Qed.

(** What the first client is told, and what it leaves. *)
Lemma first_run answers s : client_run (mkTree tree0 509) first_client answers s ->
  exists c, 2 <= c < 512 /\ c <> 2 /\ answers = [0; c; 0; 2; 2] /\ s = mkTree (tree2 c) 507.
Proof.
  intros (a & m & s1 & rest & -> & Hs & Hrun)%run_ask_inv. apply step_docs in Hs as (c & Hc & Hne & -> & ->); [| lia].
  apply run_ask_inv in Hrun as (a1 & m1 & s1 & rest1 & -> & Hs & Hrun). apply (step_enter _ c _ _ _ _ ∅) in Hs as [-> ->]; [| by apply tree1_root].
  apply run_ask_inv in Hrun as (a2 & m2 & s2 & rest2 & -> & Hs & Hrun). apply step_note in Hs as [-> ->]; [| done | lia].
  apply run_ask_inv in Hrun as (a3 & m3 & s3 & rest3 & -> & Hs & Hrun). apply step_remove in Hs as [-> ->]; [| done].
  apply run_ask_inv in Hrun as (a4 & m4 & s4 & rest4 & -> & Hs & Hrun). apply step_up in Hs as [-> ->].
  apply run_stop_inv in Hrun as [-> ->]. by exists c.
Qed.

Lemma second_run c n answers s : c <> 2 -> client_run (mkTree (tree2 c) n) second_client answers s -> answers = [c; 0].
Proof.
  intros Hne (a & m & s1 & rest & -> & Hs & Hrun)%run_ask_inv. apply (step_enter _ c _ _ _ _ ∅) in Hs as [-> ->]; [| by apply tree2_root].
  apply run_ask_inv in Hrun as (a1 & m1 & s1 & rest1 & -> & Hs & Hrun). apply run_stop_inv in Hrun as [-> _].
  assert (a1 = 0) as ->; [| done]. inversion Hs; subst; folder_is tree2_docs; [done |].
  match goal with Hans : read_answer _ _ <> 0 |- _ => change (read_answer 5 ((<[note_key := File note_text]> ∅ : gmap key node) !! note_key) <> 0) in Hans;
    rewrite lookup_insert_eq in Hans; exfalso; apply Hans; by vm_compute end.
Qed.

(** The formatted image. *)
Lemma formatted_tree : exists fs, create_fat32 no_tail blank_fs = Ret fs /\ tree_rep fs tree0 /\ state_of fs tree0 = mkTree tree0 509.
Proof.
  destruct (create_fat32_spec no_tail blank_fs) as (fs & E & _ & Hf & Hdir); [apply blank_ok | done | done | apply no_tail_bytes |].
  destruct formatted as (fs1 & E1 & _ & Hrep). rewrite E in E1. injection E1 as <-. exists fs. split_and!; [done | by eapply root_represents |].
  unfold state_of. by rewrite Hf.
Qed.

Lemma clients_see_a_tree_witness : exists fs fs' c, create_fat32 no_tail blank_fs = Ret fs /\
  run_client fs first_client = Ret (fs', [0; c; 0; 2; 2]) /\ tree_rep fs' (tree2 c).
Proof.
  destruct formatted_tree as (fs & E & HT & Es).
  destruct (clients_see_a_tree fs tree0 first_client HT) as (fs' & answers & T' & Hr & Hrun & HT').
  - rewrite Es. apply first_allowed.
  - rewrite Es in Hrun. apply first_run in Hrun as (c & _ & _ & -> & E'). injection E' as -> _.
    exists fs, fs', c. refine (conj E (conj Hr HT')).
Defined.

Lemma tree_outlives_reboots_witness : exists d c, boots no_tail blank_image
  [(initial_driver_state, first_client); (initial_driver_state, second_client)] = Ret (d, [[0; c; 0; 2; 2]; [c; 0]]).
Proof.
  destruct (tree_outlives_reboots no_tail [(initial_driver_state, first_client); (initial_driver_state, second_client)])
    with (d := blank_image) (s := mkTree tree0 509) as (d & all & s & E & Hlife & _).
  - done.
  - apply no_tail_bytes.
  - by repeat constructor.
  - constructor; [apply blank_ok | apply blank_no_signature].
  - split; [apply first_allowed |]. intros answers s (c & Hc & Hne & -> & ->)%first_run. split; [by apply second_allowed | done].
  - exists d. inversion Hlife as [|? ? a1 s1 ? all1 ? Hr1 Hl1]; subst. apply first_run in Hr1 as (c & Hc & Hne & -> & ->).
    inversion Hl1 as [|? ? a2 s2 ? all2 ? Hr2 Hl2]; subst. inversion Hl2; subst. apply second_run in Hr2 as ->; [| done]. exists c. exact E.
Defined.
