(* ===== verification/DirList.v ===== *)
(** * Directory listings and searches (src/fat32.c, from [list_dir_content] on)

    The recursive traversals that print a directory tree, the path to an entry or
    the files that contain a pattern.  They write characters through a pointer
    and an index; the buffer has no size the code knows, so it is modelled by its
    contents at every offset.  The recursion carries fuel: a depth bound. *)
From Stdlib Require Import String.
From S2P Require Import Prelude CString BlockDevice Fat32Types Fat32 Search.
#[local] Open Scope Z_scope.

(** ** The output buffer: [buffer] and the index [*dir_idx] *)

Record Out := mkOut { out_buf : nat -> Z; out_idx : nat }.

(** [buffer[idx] = c; idx++;] *)
Definition emit (o : Out) (c : Z) : Out :=
  mkOut (fun x => if Nat.eqb x (out_idx o) then c else out_buf o x) (S (out_idx o)).
Definition emits (o : Out) (cs : list Z) : Out := foldl emit o cs.

(** [idx--; buffer[idx] = 0;] *)
Definition unemit (o : Out) : Out :=
  mkOut (fun x => if Nat.eqb x (pred (out_idx o)) then 0 else out_buf o x) (pred (out_idx o)).

(** [while (idx > 0 && buffer[idx - 1] != '\n') { idx--; buffer[idx] = 0; }] *)
Fixpoint erase_line (o : Out) (n : nat) : Out :=
  match n with
  | O => o
  | S n' => if out_buf o n' =? 10 then o else erase_line (unemit o) n'
  end.

(** The characters a name loop copies: up to [n], stopping at a NUL. *)
Fixpoint until_nul (n : nat) (cs : list Z) : list Z :=
  match n, cs with
  | S n', c :: cs' => if c =? 0 then [] else c :: until_nul n' cs'
  | _, _ => []
  end.

(** Three blanks per level. *)
Definition indent (level : nat) : list Z := replicate (3 * level) 32.

Definition clear_buffer (buffer : nat -> Z) (size : nat) : nat -> Z :=
  for_up 0 size (fun i b x => if Nat.eqb x i then 0 else b x) buffer.

(** ** Strings *)

Fixpoint strncpy_from (dest src : list Z) (i : Z) (n : nat) : outcome (list Z) :=
  match n with
  | O => Ret dest
  | S n' =>
    c ← aget src i;
    dest ← aset dest i c;
    if c =? 0 then Ret dest else strncpy_from dest src (i + 1) n'
  end.

Definition custom_strncpy (dest src : list Z) (n : nat) : outcome (list Z) :=
  dest ← strncpy_from dest src 0 n;
  if (0 <? Z.of_nat n) then aset dest (Z.of_nat n - 1) 0 else Ret dest.

Fixpoint custom_strcmp (s1 s2 : list Z) : outcome Z :=
  match s1, s2 with
  | a :: s1', b :: s2' =>
    if negb (a =? 0) && (a =? b) then custom_strcmp s1' s2' else Ret (a - b)
  | _, _ => Oob
  end.

(** ** Tests on an entry *)

Definition entry_na (e : FAT32DirectoryEntry) : bool :=
  (memcmp (at_list (name e)) (at_list (replicate 8 0)) 8 =? 0) &&
  (memcmp (at_list (ext e)) (at_list (replicate 3 0)) 3 =? 0).
Definition ext_cmp (e : FAT32DirectoryEntry) (x : list Z) : Z :=
  memcmp (at_list (ext e)) (at_list x) 3.

Fixpoint foldM {A B} (f : B -> A -> outcome B) (b : B) (l : list A) : outcome B :=
  match l with
  | [] => Ret b
  | a :: l' => b' ← f b a; foldM f b' l'
  end.

Section Listing.
Context {D : Type} `{BlockDevice D}.

(** ** One directory.  The name loop runs to [j <= 8] and the extension loop to
    [j <= 3]: in the packed entry [name[8]] is [ext[0]] and [ext[3]] is [attribute]. *)

Definition list_entry (o : Out) (e : FAT32DirectoryEntry) : outcome Out :=
  if entry_na e then Ret o else
  let o := emits o (until_nul 9 (name e ++ ext e)) in
  let o := if ext_cmp e (bytes_of "dir") =? 1
           then emits (emit o 46) (until_nul 4 (ext e ++ [attribute e]))
           else if ext_cmp e (bytes_of "dir") =? 0 then emit o 47 else o in
  Ret (emit o 10).

Definition list_dir_content (buffer : nat -> Z) (d : D) (dir_cluster_number : Z) : outcome Out :=
  dirtable ← read_dir_cluster d dir_cluster_number;
  foldM list_entry (mkOut buffer 0) (drop 1 dirtable).

(** ** The whole tree *)

Fixpoint all_list_dir_content (d : D) (o : Out) (dir_cluster_number : Z) (level fuel : nat)
    : outcome Out :=
  match fuel with
  | O => NoFuel
  | S fuel' =>
    dirtable ← read_dir_cluster d dir_cluster_number;
    foldM (fun o e =>
      if entry_na e then Ret o else
      let o := emits o (indent level) in
      let o := emits o (until_nul 9 (name e ++ ext e)) in
      if ext_cmp e (bytes_of "dir") =? 0 then
        all_list_dir_content d (emit (emit o 47) 10) (entry_cluster e) (S level) fuel'
      else if ext_cmp e (bytes_of "dir") =? 1 then
        Ret (emit (emits (emit o 46) (ext e)) 10)
      else Ret (emit o 10)) o (drop 1 dirtable)
  end.

Definition print (buffer : nat -> Z) (d : D) (dir_cluster_number : Z) (fuel : nat) : outcome Out :=
  all_list_dir_content d (mkOut buffer 0) dir_cluster_number 0 fuel.

(** ** The path to an entry *)

(** [name0] is the uninitialised content of the local [char name[9]]. *)
Definition local_name (name0 : list Z) (e : FAT32DirectoryEntry) : outcome (list Z) :=
  nm ← custom_strncpy name0 (name e) 8; aset nm 8 0.

Definition dir_line (level : nat) (e : FAT32DirectoryEntry) : list Z :=
  indent level ++ until_nul 8 (name e) ++ [47; 10].

(** The state of the loop: output, [*found] and [found_lokal]. *)
Fixpoint find_and_print_path (d : D) (name0 target_dir_name : list Z) (o : Out)
    (dir_cluster_number : Z) (level fuel : nat) : outcome (Out * bool) :=
  match fuel with
  | O => NoFuel
  | S fuel' =>
    dirtable ← read_dir_cluster d dir_cluster_number;
    '(o, found, found_lokal) ← foldM (fun '(o, found, found_lokal) e =>
      if entry_na e then Ret (o, found, found_lokal) else
      nm ← local_name name0 e;
      c ← custom_strcmp nm target_dir_name;
      if (ext_cmp e (bytes_of "dir") =? 0) && (c =? 0) then
        Ret (emits o (dir_line level e), true, found_lokal)
      else if ext_cmp e (bytes_of "dir") =? 0 then
        let o := emits o (dir_line level e) in
        let found_lokal := if (found : bool) then true else found_lokal in
        '(o, found) ← find_and_print_path d name0 target_dir_name o (entry_cluster e) (S level) fuel';
        if (found : bool) then Ret (o, found, found_lokal)
        else let o := unemit o in Ret (erase_line o (out_idx o), found, found_lokal)
      else if (ext_cmp e (bytes_of "dir") =? 1) && (c =? 0) then
        Ret (emits o (indent level ++ until_nul 8 (name e) ++ [46] ++ ext e ++ [10]), true, found_lokal)
      else Ret (o, found, found_lokal)) (o, false, false) dirtable;
    Ret (o, if (found_lokal : bool) then true else found)
  end.

Definition print_path_to_dir (buffer : nat -> Z) (d : D) (dir_cluster_number : Z)
    (name0 target_dir_name : list Z) (fuel : nat) : outcome Out :=
  '(o, _) ← find_and_print_path d name0 target_dir_name (mkOut (clear_buffer buffer 255) 0)
              dir_cluster_number 0 fuel;
  Ret o.

(** ** Files that contain a pattern *)

(** [read] into the local array [file_content] of [filesize] bytes: whole clusters,
    one after the other.  A cluster that does not end inside the array overruns the
    stack above it.  [stack i] is what the [i]-th byte of the array holds before. *)
Definition put_local (content : list Z) (off : Z) (bs : list Z) : outcome (list Z) :=
  if (0 <=? off) && (off + Z.of_nat (length bs) <=? Z.of_nat (length content))
  then Ret (take (Z.to_nat off) content ++ bs ++ drop (Z.to_nat off + length bs) content)
  else Oob.
Definition read_file_content (fs : Fs D) (stack : nat -> Z) (dir_cluster_number : Z)
    (e : FAT32DirectoryEntry) : outcome (Fs D * list Z * Z) :=
  read put_local fs (stack <$> seq 0 (Z.to_nat (filesize e)))
    (mkRequest 0 (name e) (ext e) dir_cluster_number (filesize e)).

(** The C string at the start of an array; without a NUL the scan leaves it. *)
Fixpoint c_string (cs : list Z) : outcome (list Z) :=
  match cs with
  | [] => Oob
  | c :: cs' => if c =? 0 then Ret [] else s ← c_string cs'; Ret (c :: s)
  end.

Definition file_line (level : nat) (e : FAT32DirectoryEntry) (content : list Z) : list Z :=
  indent level ++ until_nul 8 (name e) ++ [46] ++ until_nul 3 (ext e) ++ [32] ++ content ++ [10].

(** The two searches differ only in [matcher].  The loop walks the indices of
    [dirtable], which a successful [read] loads again, and the entry with it.
    [*found] goes in and out: the early return at [level > limit] leaves it as it
    was. *)
Fixpoint depth_limited_search (matcher : list Z -> list Z -> outcome bool) (stack : nat -> Z) (pattern_input : list Z)
    (fs : Fs D) (o : Out) (dir_cluster_number : Z) (level limit : nat) (found : bool) (fuel : nat)
    : outcome (Fs D * Out * bool) :=
  match fuel with
  | O => NoFuel
  | S fuel' =>
    if (limit <? level)%nat then Ret (fs, o, found) else
    dirtable ← read_dir_cluster (disk fs) dir_cluster_number;
    '(_, fs, o, found, local_found) ← foldM (fun '(dirtable, fs, o, found, local_found) i =>
      e ← aget dirtable (Z.of_nat i);
      if entry_na e then Ret (dirtable, fs, o, found, local_found) else
      if ext_cmp e (bytes_of "dir") =? 0 then
        let o := emits o (dir_line level e) in
        let local_found := if (found : bool) then true else local_found in
        '(fs, o, found) ← depth_limited_search matcher stack pattern_input fs o (entry_cluster e)
                            (S level) limit found fuel';
        if (found : bool) then Ret (dirtable, fs, o, found, local_found)
        else let o := unemit o in Ret (dirtable, fs, erase_line o (out_idx o), found, local_found)
      else if ext_cmp e (bytes_of "txt") =? 0 then
        '(fs, file_content, rc) ← read_file_content fs stack dir_cluster_number e;
        if rc =? 0 then
          dirtable ← read_dir_cluster (disk fs) dir_cluster_number;
          e ← aget dirtable (Z.of_nat i);
          content ← c_string file_content;
          is_match ← matcher pattern_input content;
          if (is_match : bool)
          then Ret (dirtable, fs, emits o (file_line level e content), true, local_found)
          else Ret (dirtable, fs, o, found, local_found)
        else Ret (dirtable, fs, o, found, local_found)
      else Ret (dirtable, fs, o, found, local_found)) (dirtable, fs, o, false, false) (seq 0 DIR_LENGTH);
    Ret (fs, o, if (local_found : bool) then true else found)
  end.

Definition depth_limited_search_bm := depth_limited_search boyer_moore.
Definition depth_limited_search_kmp := depth_limited_search knuth_morris_pratt.

Definition SEARCH_LIMIT : nat := 10.
Definition search_dls_bm (buffer : nat -> Z) (fs : Fs D) (stack : nat -> Z)
    (dir_cluster_number : Z) (pattern_input : list Z) : outcome (Fs D * Out) :=
  '(fs, o, _) ← depth_limited_search_bm stack pattern_input fs
                  (mkOut (clear_buffer buffer 1024) 0) dir_cluster_number 0 SEARCH_LIMIT false
                  (SEARCH_LIMIT + 2);
  Ret (fs, o).
Definition search_dls_kmp (buffer : nat -> Z) (fs : Fs D) (stack : nat -> Z)
    (dir_cluster_number : Z) (pattern_input : list Z) : outcome (Fs D * Out) :=
  '(fs, o, _) ← depth_limited_search_kmp stack pattern_input fs
                  (mkOut (clear_buffer buffer 1024) 0) dir_cluster_number 0 SEARCH_LIMIT false
                  (SEARCH_LIMIT + 2);
  Ret (fs, o).
End Listing.
