(* ===== verification/DirTree.v ===== *)
(** * What the traversals print

    The directory tree is read once into a list of nodes; the listing and the
    path search are then pure functions of it.  The code prints the path down to
    a directory before it searches it and erases the line when nothing was found;
    [pruned] is what remains. *)
From Stdlib Require Import String.
From S2P Require Import Prelude CString BlockDevice Fat32Types Fat32 Fat32Facts Search DirList.
#[local] Open Scope Z_scope.

(** ** The text in the buffer *)

Definition out_text (o : Out) : list Z := out_buf o <$> seq 0 (out_idx o).
(** Everything from the index to offset [n] is NUL. *)
Definition zero_upto (n : nat) (o : Out) : Prop :=
  forall x, (out_idx o <= x < n)%nat -> out_buf o x = 0.
(** At the start of a line. *)
Definition at_bol (o : Out) : Prop := out_idx o = 0%nat \/ out_buf o (pred (out_idx o)) = 10.

Lemma out_text_emit o c : out_text (emit o c) = out_text o ++ [c].
Proof.
  unfold out_text, emit. cbn [out_idx out_buf]. rewrite seq_S, fmap_app. cbn [fmap list_fmap Nat.add].
  rewrite Nat.eqb_refl. f_equal. apply list_fmap_ext. intros i x [-> Hx]%lookup_seq.
  destruct (Nat.eqb_spec (0 + i) (out_idx o)); [lia | done].
Qed.

Lemma out_text_emits o cs : out_text (emits o cs) = out_text o ++ cs.
Proof.
  unfold emits. revert o. induction cs as [|c cs IH]; intros o; cbn [foldl]; [by rewrite app_nil_r |].
  rewrite IH, out_text_emit, <- app_assoc. done.
Qed.

Lemma emits_app o a b : emits o (a ++ b) = emits (emits o a) b.
Proof. apply foldl_app. Qed.

Lemma emits_idx o cs : out_idx (emits o cs) = (out_idx o + length cs)%nat.
Proof.
  unfold emits. revert o. induction cs as [|c cs IH]; intros o; cbn [foldl length]; [lia |].
  rewrite IH. cbn [out_idx emit]. lia.
Qed.

Lemma zero_upto_emit n o c : zero_upto n o -> zero_upto n (emit o c).
Proof.
  intros Hz x. cbn [out_idx out_buf emit]. intros Hx.
  destruct (Nat.eqb_spec x (out_idx o)); [lia |]. apply Hz. lia.
Qed.

Lemma zero_upto_emits n o cs : zero_upto n o -> zero_upto n (emits o cs).
Proof.
  unfold emits. revert o. induction cs as [|c cs IH]; intros o Hz; cbn [foldl]; [done |].
  by apply IH, zero_upto_emit.
Qed.

Lemma zero_upto_unemit n o : zero_upto n o -> zero_upto n (unemit o).
Proof.
  intros Hz x. cbn [out_idx out_buf unemit]. intros Hx.
  destruct (Nat.eqb_spec x (pred (out_idx o))); [done |]. apply Hz. lia.
Qed.

Lemma zero_upto_erase n m o : zero_upto n o -> zero_upto n (erase_line o m).
Proof.
  revert o. induction m as [|m IH]; intros o Hz; cbn [erase_line]; [done |].
  destruct (_ =? 10); [done |]. by apply IH, zero_upto_unemit.
Qed.

Lemma at_bol_newline o cs : at_bol (emits o (cs ++ [10])).
Proof.
  right. rewrite emits_app. cbn [emits foldl emit out_idx out_buf pred].
  by rewrite Nat.eqb_refl.
Qed.

(** The buffers agree up to the index. *)
Lemma out_text_unemit o : out_idx o <> 0%nat ->
  out_text o = out_text (unemit o) ++ [out_buf o (pred (out_idx o))].
Proof.
  intros Hn. unfold out_text. cbn [unemit out_idx out_buf].
  replace (out_idx o) with (S (pred (out_idx o))) at 1 by lia. rewrite seq_S, fmap_app. f_equal.
  apply list_fmap_ext. intros i x [-> Hx]%lookup_seq.
  destruct (Nat.eqb_spec (0 + i) (pred (out_idx o))); [lia | done].
Qed.

Lemma out_text_last o : out_idx o <> 0%nat -> last (out_text o) = Some (out_buf o (pred (out_idx o))).
Proof. intros Hn. rewrite out_text_unemit by done. apply last_snoc. Qed.

Lemma out_text_length o : length (out_text o) = out_idx o.
Proof. unfold out_text. by rewrite length_fmap, length_seq. Qed.

Lemma at_bol_text o : at_bol o <-> out_text o = [] \/ last (out_text o) = Some 10.
Proof.
  unfold at_bol. destruct (decide (out_idx o = 0%nat)) as [E|E].
  - split; [left; apply length_zero_iff_nil; by rewrite out_text_length | by left].
  - rewrite out_text_last by done. split.
    + intros [?|Hb]; [done | right; congruence].
    + intros [Ht|Hb]; [| right; congruence]. exfalso. apply E. by rewrite <- out_text_length, Ht.
Qed.

(** Erasing back to the line start removes the characters of [w]. *)
Lemma erase_line_spec w : forall o t, out_text o = t ++ w -> ~ 10 ∈ w -> (t = [] \/ last t = Some 10) ->
  out_text (erase_line o (out_idx o)) = t.
Proof.
  induction w as [|c w IH] using rev_ind; intros o t Ht Hnl Hbol.
  - rewrite app_nil_r in Ht. destruct (out_idx o) as [|i] eqn:Ei; cbn [erase_line]; [done |].
    assert (out_idx o <> 0%nat) as Hne by lia. pose proof (out_text_last o Hne) as Hl.
    rewrite Ht, Ei in Hl. cbn [pred] in Hl. destruct Hbol as [->|Hb]; [done |].
    assert (out_buf o i = 10) as -> by congruence. done.
  - assert (out_idx o <> 0%nat) as Hne.
    { rewrite <- out_text_length, Ht, !length_app. cbn [length]. lia. }
    pose proof (out_text_unemit o Hne) as Hu. rewrite Ht, app_assoc in Hu.
    apply app_inj_tail in Hu as [Hu Hc].
    destruct (out_idx o) as [|i] eqn:Ei; [done |]. cbn [erase_line pred] in *.
    assert (c <> 10) as Hc10.
    { intros ->. apply Hnl. apply elem_of_app. right. by apply list_elem_of_singleton. }
    destruct (Z.eqb_spec (out_buf o i) 10); [congruence |].
    replace i with (out_idx (unemit o)) by (cbn [unemit out_idx]; by rewrite Ei).
    apply IH; [done | | done]. intros Hin. apply Hnl, elem_of_app. by left.
Qed.

Lemma erase_after_line o o1 w : at_bol o -> ~ 10 ∈ w -> out_text o1 = out_text o ++ w ++ [10] ->
  out_text (erase_line (unemit o1) (out_idx (unemit o1))) = out_text o.
Proof.
  intros Hbol Hnl Ht. rewrite app_assoc in Ht.
  assert (out_idx o1 <> 0%nat) as Hne.
  { rewrite <- out_text_length, Ht, !length_app. cbn [length]. lia. }
  pose proof (out_text_unemit o1 Hne) as Hu. rewrite Ht in Hu. apply app_inj_tail in Hu as [Hu _].
  apply erase_line_spec with w; [done | done | by apply at_bol_text].
Qed.

(** ** Trees of lines *)

(** A directory with its line, or an entry that is printed when [hit]. *)
Inductive ptree : Type :=
  | PDir (line : list Z) (kids : list ptree)
  | PLeaf (line : list Z) (hit : bool).

Fixpoint hits (t : ptree) : bool :=
  match t with
  | PLeaf _ b => b
  | PDir _ kids => existsb hits kids
  end.

Fixpoint pruned (t : ptree) : list Z :=
  match t with
  | PLeaf line b => if b then line else []
  | PDir line kids => if existsb hits kids then line ++ flat_map pruned kids else []
  end.

(** Lines end in a newline; a directory's line has no other. *)
Fixpoint lines_ok (t : ptree) : Prop :=
  match t with
  | PLeaf line b => b = true -> exists w, line = w ++ [10]
  | PDir line kids => (exists w, line = w ++ [10] /\ ~ 10 ∈ w) /\
      (fix go ks := match ks with [] => True | k :: ks' => lines_ok k /\ go ks' end) kids
  end.

Lemma lines_ok_dir line kids : lines_ok (PDir line kids) <->
  (exists w, line = w ++ [10] /\ ~ 10 ∈ w) /\ Forall lines_ok kids.
Proof.
  cbn [lines_ok]. apply and_iff_compat_l. induction kids as [|k kids IH].
  - split; [constructor | done].
  - rewrite Forall_cons. by rewrite IH.
Qed.

Lemma not_hit_pruned t : hits t = false -> pruned t = [].
Proof. destruct t as [line kids|line b]; cbn [hits pruned]; by intros ->. Qed.

Lemma not_hits_pruned ts : existsb hits ts = false -> flat_map pruned ts = [].
Proof.
  induction ts as [|t ts IH]; cbn [existsb flat_map]; [done |].
  intros [Ht Hts]%orb_false_iff. by rewrite not_hit_pruned, IH.
Qed.

(** ** The loop over a directory *)

Fixpoint traverse {A B} (f : A -> outcome B) (l : list A) : outcome (list B) :=
  match l with
  | [] => Ret []
  | a :: l' => b ← f a; bs ← traverse f l'; Ret (b :: bs)
  end.

(** What one step or one loop adds to the text. *)
Record prints (o o' : Out) (t : list Z) : Prop := {
  pr_text : out_text o' = out_text o ++ t;
  pr_bol : at_bol o';
  pr_zero : forall n, zero_upto n o -> zero_upto n o';
}.

Lemma prints_nil o : at_bol o -> prints o o [].
Proof. constructor; [by rewrite app_nil_r | done | done]. Qed.

Lemma prints_trans o1 o2 o3 t1 t2 : prints o1 o2 t1 -> prints o2 o3 t2 -> prints o1 o3 (t1 ++ t2).
Proof.
  intros [H1 _ Z1] [H2 B2 Z2]. constructor; [by rewrite H2, H1, app_assoc | done | auto].
Qed.

Lemma prints_line o w : prints o (emits o (w ++ [10])) (w ++ [10]).
Proof.
  constructor; [apply out_text_emits | apply at_bol_newline | intros n; apply zero_upto_emits].
Qed.

(** A directory line, a fruitless search below it and the erasure. *)
Lemma prints_erased o o1 w : at_bol o -> ~ 10 ∈ w -> prints (emits o (w ++ [10])) o1 [] ->
  prints o (erase_line (unemit o1) (out_idx (unemit o1))) [].
Proof.
  intros Hbol Hnl [Ht Hb Hz]. rewrite app_nil_r, out_text_emits in Ht.
  pose proof (erase_after_line o o1 w Hbol Hnl Ht) as He.
  constructor; [by rewrite app_nil_r | | ].
  - apply at_bol_text. rewrite He. by apply at_bol_text.
  - intros n Hn. apply zero_upto_erase, zero_upto_unemit, Hz. by apply zero_upto_emits.
Qed.

Section Loop.
Context {S E : Type} (view : S -> Out) (flag : S -> bool) (ok : S -> Prop).
Context (step : S -> E -> outcome S) (tree : E -> outcome ptree).

(** A step over an entry prints the pruned tree of the entry and raises the flag
    when it holds a hit. *)
Definition step_ok (e : E) (t : ptree) : Prop := forall s, ok s -> at_bol (view s) ->
  exists s', step s e = Ret s' /\ ok s' /\ flag s' = flag s || hits t /\
    prints (view s) (view s') (pruned t).

(** The loop over well-formed entries prints the pruned trees of all of them. *)
Lemma loop_prints (P : E -> Prop) es ts s : Forall P es ->
  (forall e t, P e -> tree e = Ret t -> lines_ok t -> step_ok e t) ->
  traverse tree es = Ret ts -> Forall lines_ok ts -> ok s -> at_bol (view s) ->
  exists s', foldM step s es = Ret s' /\ ok s' /\ flag s' = flag s || existsb hits ts /\
    prints (view s) (view s') (flat_map pruned ts).
Proof.
  intros Hes Hstep. revert ts s. induction Hes as [|e es He Hes IH]; intros ts s Hts Hl Hok Hbol;
    cbn [traverse] in Hts.
  - injection Hts as <-. exists s. split_and!; [done | done | by rewrite orb_false_r | by apply prints_nil].
  - apply bind_ret_inv in Hts as (t & Htree & Hts).
    apply bind_ret_inv in Hts as (ts' & Htrees & Hts). injection Hts as <-.
    apply Forall_cons in Hl as [Ht Hl].
    destruct (Hstep e t He Htree Ht s Hok Hbol) as (s1 & Es1 & Hok1 & Hf1 & Hp1).
    destruct (IH ts' s1 Htrees Hl Hok1 (pr_bol _ _ _ Hp1)) as (s2 & Es2 & Hok2 & Hf2 & Hp2).
    exists s2. cbn [foldM]. rewrite Es1, bind_ret_l. split_and!; [done | done | |].
    + cbn [existsb]. by rewrite Hf2, Hf1, orb_assoc.
    + cbn [flat_map]. by eapply prints_trans.
Qed.
End Loop.

(** ** String comparison *)

Lemma until_nul_nonzero n cs : Forall (fun c => c <> 0) (until_nul n cs).
Proof.
  revert cs. induction n as [|n IH]; intros [|c cs]; cbn [until_nul]; try constructor.
  destruct (Z.eqb_spec c 0); [constructor |]. by constructor.
Qed.

(** The part of a C string up to its NUL. *)
Definition cstr (s : list Z) : list Z := until_nul (length s) s.

Lemma cstr_split s : 0 ∈ s -> exists r, s = cstr s ++ 0 :: r.
Proof.
  unfold cstr. induction s as [|c s IH]; [by intros ?%elem_of_nil |].
  intros Hin. cbn [length until_nul]. destruct (Z.eqb_spec c 0) as [->|Hc]; [by exists s |].
  apply elem_of_cons in Hin as [?|Hin]; [done |]. destruct (IH Hin) as [r Hr]. exists r.
  cbn [app]. by f_equal.
Qed.

Lemma strcmp_eq s t r r' : Forall (fun c => c <> 0) s -> Forall (fun c => c <> 0) t ->
  exists v, custom_strcmp (s ++ 0 :: r) (t ++ 0 :: r') = Ret v /\ (v =? 0) = bool_decide (s = t).
Proof.
  intros Hs. revert t. induction Hs as [|a s Ha Hs IH]; intros t Ht; inversion Ht as [|b t' Hb Ht']; subst;
    cbn [app custom_strcmp].
  - exists 0. done.
  - exists (0 - b). split; [done |]. rewrite bool_decide_false by done. apply Z.eqb_neq. lia.
  - destruct (Z.eqb_spec a 0); [done |]. cbn [negb andb].
    exists (a - 0). split; [by destruct (a =? 0) |].
    rewrite bool_decide_false by done. apply Z.eqb_neq. lia.
  - destruct (Z.eqb_spec a 0); [done |]. cbn [negb andb].
    destruct (Z.eqb_spec a b) as [->|Hne].
    + destruct (IH t' Ht') as (v & -> & Hv). exists v. split; [done |]. rewrite Hv.
      apply bool_decide_ext. split; [by intros -> | by intros [= ->]].
    + exists (a - b). split; [done |]. rewrite bool_decide_false by congruence.
      apply Z.eqb_neq. lia.
Qed.

(** The name compared: at most seven characters of the entry's name. *)
Definition short_name (e : FAT32DirectoryEntry) : list Z := until_nul 7 (name e).

Lemma local_name_spec name0 e : length name0 = 9%nat -> length (name e) = 8%nat ->
  exists r, local_name name0 e = Ret (short_name e ++ 0 :: r).
Proof.
  unfold local_name, custom_strncpy, short_name.
  destruct name0 as [|n0 [|n1 [|n2 [|n3 [|n4 [|n5 [|n6 [|n7 [|n8 [|]]]]]]]]]]; try done.
  destruct (name e) as [|c0 [|c1 [|c2 [|c3 [|c4 [|c5 [|c6 [|c7 [|]]]]]]]]]; try done.
  intros _ _. cbv -[Z.eqb]. repeat (match goal with |- context [?c =? 0] => destruct (Z.eqb_spec c 0) as [->|?] end).
  all: eexists; reflexivity.
Qed.

(** ** The path search *)

Section Traversals.
Context {D : Type} `{BlockDevice D}.

(** Reads of the device that succeed give a whole cluster of bytes. *)
Definition dev_reads_ok (d : D) : Prop :=
  forall c bs, read_clusters d c 1 = Ret bs -> cluster_ok bs.

Lemma dirtable_ok d c t : dev_reads_ok d -> read_dir_cluster d c = Ret t -> Forall entry_ok t.
Proof.
  intros Hd Ht. unfold read_dir_cluster in Ht. inv_ret.
  match goal with E : read_clusters _ _ _ = Ret _ |- _ => apply Hd, decode_table_ok in E as [_ ?] end.
  done.
Qed.

(** The tree of printed lines below a directory; [n] bounds its depth. *)
Fixpoint path_tree (d : D) (target_dir_name : list Z) (dir_cluster_number : Z) (level n : nat)
    : outcome (list ptree) :=
  match n with
  | O => NoFuel
  | S n' =>
    dirtable ← read_dir_cluster d dir_cluster_number;
    traverse (fun e =>
      let same := bool_decide (short_name e = cstr target_dir_name) in
      if entry_na e then Ret (PLeaf [] false)
      else if ext_cmp e (bytes_of "dir") =? 0 then
        if same then Ret (PLeaf (dir_line level e) true)
        else kids ← path_tree d target_dir_name (entry_cluster e) (S level) n';
             Ret (PDir (dir_line level e) kids)
      else Ret (PLeaf (indent level ++ until_nul 8 (name e) ++ [46] ++ ext e ++ [10])
                  ((ext_cmp e (bytes_of "dir") =? 1) && same))) dirtable
  end.

Lemma target_cmp name0 e target : length name0 = 9%nat -> entry_ok e -> 0 ∈ target ->
  exists nm v, local_name name0 e = Ret nm /\ custom_strcmp nm target = Ret v /\
    (v =? 0) = bool_decide (short_name e = cstr target).
Proof.
  intros Hn (Hl & _) Ht. destruct (local_name_spec name0 e Hn Hl) as [r Hr].
  destruct (cstr_split target Ht) as [r' Hr'].
  destruct (strcmp_eq (short_name e) (cstr target) r r') as (v & Hv & Hv0);
    [apply until_nul_nonzero | apply until_nul_nonzero |].
  exists (short_name e ++ 0 :: r), v. split_and!; [done | by rewrite Hr' at 1 | done].
Qed.

(** What the step of the path search does with one entry. *)
Definition path_view (s : Out * bool * bool) : Out := s.1.1.
Definition path_flag (s : Out * bool * bool) : bool := s.2 || s.1.2.

Lemma find_prints d name0 target n : dev_reads_ok d -> length name0 = 9%nat -> 0 ∈ target ->
  forall c level trees o, path_tree d target c level n = Ret trees -> Forall lines_ok trees -> at_bol o ->
  exists o', find_and_print_path d name0 target o c level n = Ret (o', existsb hits trees) /\
    prints o o' (flat_map pruned trees).
Proof.
  intros Hd Hn Ht. induction n as [|n IH]; intros c level trees o Htree Hl Hbol; [done |].
  cbn [path_tree find_and_print_path] in *. apply bind_ret_inv in Htree as (t & Hread & Htree).
  rewrite Hread, bind_ret_l. pose proof (dirtable_ok _ _ _ Hd Hread) as Hes.
  match type of Htree with traverse ?tr _ = _ =>
    match goal with |- context [foldM ?st _ t] =>
      destruct (loop_prints path_view path_flag (fun _ => True) st tr entry_ok t trees (o, false, false) Hes)
        as ([[o' f] l] & -> & _ & Hf & Hp); [| exact Htree | done | done | done |] end end.
  2:{ rewrite bind_ret_l. exists o'. split; [| done]. cbn in Hf. rewrite <- Hf. by destruct l. }
  intros e T He HT HlT [[o1 f] l] _ Hb. cbn [path_view fst] in Hb. unfold path_view, path_flag. cbn [fst snd].
  destruct (entry_na e).
  { injection HT as <-. exists (o1, f, l). cbn [hits pruned fst snd]. rewrite orb_false_r.
    split_and!; [done | done | done | by apply prints_nil]. }
  destruct (target_cmp name0 e target Hn He Ht) as (nm & v & -> & Hcmp & Hv).
  rewrite bind_ret_l, Hcmp, bind_ret_l, Hv. cbv zeta in HT.
  destruct (ext_cmp e (bytes_of "dir") =? 0) eqn:Edir; cbn [andb].
  - destruct (bool_decide (short_name e = cstr target)).
    + injection HT as <-. eexists. cbn [hits pruned]. rewrite orb_true_r.
      split_and!; [done | done | cbn; apply orb_true_r |]. cbn [fst snd].
      unfold dir_line. rewrite !app_assoc. change [47; 10] with ([47] ++ [10]). rewrite app_assoc.
      apply prints_line.
    + apply bind_ret_inv in HT as (kids & Hkids & HT). injection HT as <-.
      apply lines_ok_dir in HlT as [(w & Hw & Hnl) Hlk].
      destruct (IH _ _ _ (emits o1 (dir_line level e)) Hkids Hlk) as (o2 & -> & Hp2).
      { rewrite Hw. apply at_bol_newline. }
      rewrite bind_ret_l. cbn [hits pruned]. destruct (existsb hits kids) eqn:Ek.
      * eexists. split_and!; [done | done | cbn; by destruct f, l |]. cbn [fst snd].
        eapply prints_trans; [rewrite Hw; apply prints_line | by rewrite <- Hw].
      * eexists. split_and!; [done | done | cbn; by destruct f, l |]. cbn [fst snd].
        rewrite not_hits_pruned, Hw in Hp2 by done. by apply prints_erased with w.
  - assert (T = PLeaf (indent level ++ until_nul 8 (name e) ++ [46] ++ ext e ++ [10])
      ((ext_cmp e (bytes_of "dir") =? 1) && bool_decide (short_name e = cstr target))) as -> by congruence.
    cbn [hits pruned].
    destruct ((ext_cmp e (bytes_of "dir") =? 1) && bool_decide (short_name e = cstr target)).
    + eexists. split_and!; [reflexivity | done | by rewrite !orb_true_r |]. cbn [fst snd].
      rewrite !app_assoc. apply prints_line.
    + exists (o1, f, l). split_and!; [done | done | by rewrite orb_false_r | by apply prints_nil].
Qed.
End Traversals.
