(* ===== verification/DirSearch.v ===== *)
(** * The search command: which files it prints

    A naive substring test as the specification of both matchers, the tree of
    the directories and text files below a cluster, and the equality of what the
    two depth-limited searches print with the pruned tree. *)
From Stdlib Require Import String.
From S2P Require Import Prelude CString BlockDevice Fat32Types Fat32 Fat32Facts Search DirList DirTree.
#[local] Open Scope Z_scope.

(** ** The naive test *)

Definition contains (p t : list Z) : bool :=
  existsb (fun i => bool_decide (take (length p) (drop i t) = p)) (seq 0 (S (length t))).

Lemma contains_occurs p t : contains p t = true <-> occurs p t.
Proof.
  rewrite occurs_app. unfold contains. rewrite existsb_exists. split.
  - intros (i & _ & Hi). apply bool_decide_eq_true in Hi.
    exists (take i t), (drop (length p) (drop i t)). rewrite <- Hi at 1.
    by rewrite take_drop, take_drop.
  - intros (u & v & ->). exists (length u). split.
    + apply in_seq. rewrite !length_app. lia.
    + apply bool_decide_eq_true. by rewrite drop_app_length, take_app_length.
Qed.

Definition matcher_ok (matcher : list Z -> list Z -> outcome bool) (p : list Z) : Prop :=
  forall t, Forall is_byte t -> matcher p t = Ret (contains p t).

Lemma kmp_matcher_ok p : p <> [] -> matcher_ok knuth_morris_pratt p.
Proof.
  intros Hp t _. destruct (kmp_spec p t) as (b & -> & Hb). f_equal.
  apply eq_bool_prop_intro. rewrite !Is_true_true, contains_occurs, Hb. tauto.
Qed.

Lemma bm_matcher_ok p : Forall is_byte p -> matcher_ok boyer_moore p.
Proof.
  intros Hp t Ht. destruct (bm_spec p t Hp Ht) as (b & -> & Hb). f_equal.
  apply eq_bool_prop_intro. by rewrite !Is_true_true, contains_occurs, Hb.
Qed.

Section DirSearch.
Context {D : Type} `{BlockDevice D}.

(** ** Reading a file's content *)

(** The result of [read] depends on the disk and the allocation table only. *)
Lemma read_same {B} (put : B -> Z -> list Z -> outcome B) (fs1 fs2 : Fs D) b r fs1' b' rc :
  disk fs1 = disk fs2 -> fat_of fs1 = fat_of fs2 -> read put fs1 b r = Ret (fs1', b', rc) ->
  exists fs2', read put fs2 b r = Ret (fs2', b', rc) /\ disk fs2' = disk fs2 /\ fat_of fs2' = fat_of fs2.
Proof.
  destruct fs1 as [[f1 t1 c1] d1], fs2 as [[f2 t2 c2] d2]. unfold fat_of.
  cbn [disk driver_state fat_table]. intros -> ->. unfold read. cbn [disk].
  intros Hr. apply bind_ret_inv in Hr as (t & -> & Hr). rewrite bind_ret_l. unfold set_dir, fat_of in *.
  cbn [disk driver_state fat_table cluster_buf] in *.
  apply bind_ret_inv in Hr as (e0 & -> & Hr). rewrite bind_ret_l.
  destruct (negb _); [injection Hr as <- <- <-; by eexists |].
  destruct (first_index _ _) as [i|]; [| injection Hr as <- <- <-; by eexists].
  apply bind_ret_inv in Hr as (e & -> & Hr). rewrite bind_ret_l.
  destruct (attribute e =? _); [injection Hr as <- <- <-; by eexists |].
  destruct (negb _); [injection Hr as <- <- <-; by eexists |].
  apply bind_ret_inv in Hr as (b2 & -> & Hr). rewrite bind_ret_l. injection Hr as <- <- <-. by eexists.
Qed.

Lemma read_chain_bytes fat (d : D) fuel : dev_reads_ok d -> forall b c off b',
  Forall is_byte b -> read_chain put_local fat d b c off fuel = Ret b' -> Forall is_byte b'.
Proof.
  intros Hd. induction fuel as [|fuel IH]; intros b c off b' Hb Hr; cbn [read_chain] in Hr; [done |].
  apply bind_ret_inv in Hr as (bs & Hbs & Hr). apply Hd in Hbs as [_ Hbs].
  apply bind_ret_inv in Hr as (b1 & Hb1 & Hr). apply bind_ret_inv in Hr as (next & _ & Hr).
  unfold put_local in Hb1. destruct (_ && _); [| done]. injection Hb1 as <-.
  assert (Forall is_byte (take (Z.to_nat (u32 (off * CLUSTER_SIZE))) b ++ bs ++
            drop (Z.to_nat (u32 (off * CLUSTER_SIZE)) + length bs) b)) as Hb1.
  { rewrite !Forall_app. split_and!; [by apply Forall_take | done | by apply Forall_drop]. }
  destruct (next =? _); [injection Hr as <-; exact Hb1 | by eapply IH].
Qed.

Lemma read_file_content_bytes (fs : Fs D) stack c e fs' content rc : dev_reads_ok (disk fs) ->
  (forall i, is_byte (stack i)) -> read_file_content fs stack c e = Ret (fs', content, rc) ->
  Forall is_byte content.
Proof.
  intros Hd Hs. unfold read_file_content, read. intros Hr.
  apply bind_ret_inv in Hr as (t & _ & Hr). apply bind_ret_inv in Hr as (e0 & _ & Hr).
  assert (Forall is_byte (stack <$> seq 0 (Z.to_nat (filesize e)))) as Hst by (apply Forall_fmap, Forall_true; exact Hs).
  destruct (negb _); [by injection Hr as _ <- _ |].
  destruct (first_index _ _) as [i|]; [| by injection Hr as _ <- _].
  apply bind_ret_inv in Hr as (e1 & _ & Hr).
  destruct (attribute e1 =? _); [by injection Hr as _ <- _ |].
  destruct (negb _); [by injection Hr as _ <- _ |].
  apply bind_ret_inv in Hr as (b2 & Hb & Hr). injection Hr as _ <- _.
  by eapply read_chain_bytes in Hb.
Qed.

Lemma c_string_bytes l s : Forall is_byte l -> c_string l = Ret s -> Forall is_byte s.
Proof.
  intros Hl. revert s. induction Hl as [|c l Hc Hl IH]; intros s Hs; cbn [c_string] in Hs; [done |].
  destruct (c =? 0); [injection Hs as <-; constructor |].
  apply bind_ret_inv in Hs as (s' & Hs' & Hs). injection Hs as <-. constructor; auto.
Qed.

(** ** The tree of a search: directories at most [limit] deep and text files *)

Fixpoint search_tree (stack : nat -> Z) (pattern : list Z) (fs : Fs D) (dir_cluster_number : Z)
    (level limit n : nat) : outcome (list ptree) :=
  match n with
  | O => NoFuel
  | S n' =>
    if (limit <? level)%nat then Oob else
    dirtable ← read_dir_cluster (disk fs) dir_cluster_number;
    traverse (fun e =>
      if entry_na e then Ret (PLeaf [] false)
      else if ext_cmp e (bytes_of "dir") =? 0 then
        kids ← search_tree stack pattern fs (entry_cluster e) (S level) limit n';
        Ret (PDir (dir_line level e) kids)
      else if ext_cmp e (bytes_of "txt") =? 0 then
        '(_, file_content, rc) ← read_file_content fs stack dir_cluster_number e;
        if rc =? 0 then content ← c_string file_content;
                        Ret (PLeaf (file_line level e content) (contains pattern content))
        else Ret (PLeaf [] false)
      else Ret (PLeaf [] false)) dirtable
  end.

(** The loop of the search runs over indices of the table. *)
Lemma traverse_indices {A B} (f : A -> outcome B) l bs : traverse f l = Ret bs -> forall k pre, length pre = k ->
  traverse (fun i => a ← aget (pre ++ l) (Z.of_nat i); f a) (seq k (length l)) = Ret bs.
Proof.
  revert bs. induction l as [|a l IH]; intros bs E k pre Hk; cbn [length seq traverse] in *; [done |].
  apply bind_ret_inv in E as (b & Eb & E). apply bind_ret_inv in E as (bs' & Es & E).
  rewrite (proj2 (aget_ret (pre ++ a :: l) (Z.of_nat k) a)).
  2:{ rewrite Nat2Z.id. split; [lia |]. rewrite lookup_app_r, Hk, Nat.sub_diag by lia. done. }
  rewrite bind_ret_l, Eb, bind_ret_l. rewrite (cons_middle a pre l), app_assoc.
  rewrite (IH bs' Es (S k) (pre ++ [a])) by (rewrite length_app; cbn; lia). rewrite bind_ret_l. exact E.
Qed.

#[local] Notation search_state := (list FAT32DirectoryEntry * Fs D * Out * bool * bool)%type.
Definition search_view (s : search_state) : Out := s.1.1.2.
Definition search_flag (s : search_state) : bool := s.2 || s.1.2.
Definition search_inv (t : list FAT32DirectoryEntry) (fs : Fs D) (s : search_state) : Prop :=
  s.1.1.1.1 = t /\ disk s.1.1.1.2 = disk fs /\ fat_of s.1.1.1.2 = fat_of fs.

Lemma leaf_miss_step t (fs : Fs D) (x : outcome search_state) line fs1 fs2 o f l :
  search_inv t fs (t, fs2, o, f, l) -> x = Ret (t, fs2, o, f, l) -> at_bol o ->
  exists s', x = Ret s' /\ search_inv t fs s' /\
    search_flag s' = search_flag (t, fs1, o, f, l) || hits (PLeaf line false) /\
    prints (search_view (t, fs1, o, f, l)) (search_view s') (pruned (PLeaf line false)).
Proof.
  intros H2 Hs Hb. exists (t, fs2, o, f, l). cbn [hits pruned]. rewrite orb_false_r.
  split_and!; [done | done | done | by apply prints_nil].
Qed.

Lemma search_prints matcher stack pattern fs0 n : dev_reads_ok (disk fs0) -> (forall i, is_byte (stack i)) ->
  matcher_ok matcher pattern ->
  forall fs c level limit found trees o, disk fs = disk fs0 -> fat_of fs = fat_of fs0 ->
  search_tree stack pattern fs0 c level limit n = Ret trees -> Forall lines_ok trees -> at_bol o ->
  exists fs' o', depth_limited_search matcher stack pattern fs o c level limit found n =
      Ret (fs', o', existsb hits trees) /\
    disk fs' = disk fs0 /\ fat_of fs' = fat_of fs0 /\ prints o o' (flat_map pruned trees).
Proof.
  intros Hd Hst Hmt. induction n as [|n IH]; intros fs c level limit found trees o Hdk Hft Htree Hl Hbol; [done |].
  cbn [search_tree depth_limited_search] in *. destruct (limit <? level)%nat; [done |].
  apply bind_ret_inv in Htree as (t & Hread & Htree). rewrite Hdk, Hread, bind_ret_l.
  pose proof (dirtable_ok _ _ _ Hd Hread) as Hes.
  assert (length t = DIR_LENGTH) as Hlen.
  { unfold read_dir_cluster in Hread. apply bind_ret_inv in Hread as (bs & Hbs & Hread). injection Hread as <-.
    by apply Hd, decode_table_ok in Hbs as [? _]. }
  apply (fun E => traverse_indices _ _ _ E 0%nat [] eq_refl) in Htree. rewrite Hlen in Htree. cbn [app] in Htree.
  match type of Htree with traverse ?tr _ = _ =>
    match goal with |- context [foldM ?st _ (seq 0 DIR_LENGTH)] =>
      destruct (loop_prints search_view search_flag (search_inv t fs0) st tr (fun _ => True) (seq 0 DIR_LENGTH) trees
        (t, fs, o, false, false) (Forall_true _ _ (fun _ => I)))
        as ([[[[t' fs'] o'] f] l] & -> & (_ & Hdk' & Hft') & Hf & Hp);
        [| exact Htree | done | done | done |] end end.
  2:{ rewrite bind_ret_l. exists fs', o'. split_and!; try done. cbn in Hf. rewrite <- Hf. by destruct l. }
  intros i T _ HT HlT [[[[t1 fs1] o1] f] l] (Ht1 & Hdk1 & Hft1) Hb. cbn [fst snd] in Ht1, Hdk1, Hft1. subst t1.
  unfold search_view in Hb. cbn [fst snd] in Hb.
  apply bind_ret_inv in HT as (e & He & HT). rewrite He, bind_ret_l.
  destruct (entry_na e).
  { assert (T = PLeaf [] false) as -> by congruence. by apply leaf_miss_step with (fs2 := fs1). }
  destruct (ext_cmp e (bytes_of "dir") =? 0).
  - apply bind_ret_inv in HT as (kids & Hkids & HT).
    assert (T = PDir (dir_line level e) kids) as -> by congruence.
    apply lines_ok_dir in HlT as [(w & Hw & Hnl) Hlk].
    destruct (IH fs1 _ _ _ f _ (emits o1 (dir_line level e)) Hdk1 Hft1 Hkids Hlk)
      as (fs2 & o2 & -> & Hdk2 & Hft2 & Hp2).
    { rewrite Hw. apply at_bol_newline. }
    rewrite bind_ret_l. cbn [hits pruned]. unfold search_view, search_flag. cbn [fst snd].
    destruct (existsb hits kids) eqn:Ek.
    + eexists. split_and!; [reflexivity | by split_and! | by rewrite !orb_true_r |]. cbn [fst snd].
      eapply prints_trans; [rewrite Hw; apply prints_line | by rewrite <- Hw].
    + eexists. split_and!; [reflexivity | by split_and! | cbn; by destruct f, l |]. cbn [fst snd].
      rewrite not_hits_pruned, Hw in Hp2 by done. by apply prints_erased with w.
  - destruct (ext_cmp e (bytes_of "txt") =? 0);
      [| assert (T = PLeaf [] false) as -> by congruence; by apply leaf_miss_step with (fs2 := fs1)].
    apply bind_ret_inv in HT as ([[fsx content] rc] & Hrd & HT).
    destruct (read_same put_local fs0 fs1 _ _ _ _ _ (eq_sym Hdk1) (eq_sym Hft1) Hrd)
      as (fs2 & Hrd2 & Hdk2 & Hft2). unfold read_file_content at 1. rewrite Hrd2, bind_ret_l.
    assert (search_inv t fs0 (t, fs2, o1, f, l)) as Hs2 by (split_and!; cbn [fst snd]; congruence).
    destruct (rc =? 0);
      [| assert (T = PLeaf [] false) as -> by congruence; by apply leaf_miss_step with (fs2 := fs2)].
    apply bind_ret_inv in HT as (s & Hs & HT).
    assert (T = PLeaf (file_line level e s) (contains pattern s)) as -> by congruence.
    assert (disk fs2 = disk fs0) as Edk by apply Hs2.
    rewrite Edk, Hread, bind_ret_l, He, bind_ret_l, Hs, bind_ret_l, Hmt, bind_ret_l.
    2:{ eapply c_string_bytes; [| exact Hs]. by eapply read_file_content_bytes. }
    cbn [hits pruned]. destruct (contains pattern s).
    + eexists. split_and!; [reflexivity | exact Hs2 | unfold search_flag; cbn [fst snd]; by rewrite !orb_true_r |].
      unfold search_view, file_line. cbn [fst snd]. rewrite !app_assoc. apply prints_line.
    + exists (t, fs2, o1, f, l). rewrite orb_false_r.
      split_and!; [done | exact Hs2 | done | by apply prints_nil].
Qed.
End DirSearch.
