(* ===== verification/DirProps.v ===== *)
(** * Correctness of listings and searches

    The theorems about the traversals of src/fat32.c, and a small disk of three
    directories on which they are used. *)
From Stdlib Require Import String.
From S2P Require Import Prelude CString BlockDevice Fat32Types Fat32 Fat32Facts Search DirList DirTree DirSearch.
#[local] Open Scope Z_scope.

Lemma clear_buffer_zero buffer n x : (x < n)%nat -> clear_buffer buffer n x = 0.
Proof.
  intros Hx. unfold clear_buffer.
  refine (for_up_ind (fun k (b : nat -> Z) => forall y, (y < k)%nat -> b y = 0) _ 0 n buffer _ _ x Hx); [lia |].
  intros i b _ Hb y Hy. destruct (Nat.eqb_spec y i); [done |]. apply Hb. lia.
Qed.

Lemma cleared_out buffer n : zero_upto n (mkOut (clear_buffer buffer n) 0) /\
  at_bol (mkOut (clear_buffer buffer n) 0).
Proof. split; [intros x Hx; apply clear_buffer_zero; cbn in Hx; lia | by left]. Qed.

Lemma foldM_ext {A B} (f g : B -> A -> outcome B) l : (forall b a, f b a = g b a) ->
  forall b, foldM f b l = foldM g b l.
Proof.
  intros Hfg. induction l as [|a l IH]; intros b; cbn [foldM]; [done |].
  rewrite Hfg. destruct (g b a); cbn; [apply IH | done | done].
Qed.

(** The text a directory's entry contributes to [ls]. *)
Definition ls_line (e : FAT32DirectoryEntry) : list Z :=
  if entry_na e then [] else
  until_nul 9 (name e ++ ext e) ++
  (if ext_cmp e (bytes_of "dir") =? 1 then [46] ++ until_nul 4 (ext e ++ [attribute e])
   else if ext_cmp e (bytes_of "dir") =? 0 then [47] else []) ++ [10].

Lemma until_nul_length n cs : (length (until_nul n cs) <= n)%nat.
Proof.
  revert cs. induction n as [|n IH]; intros [|c cs]; cbn [until_nul length]; try lia.
  destruct (c =? 0); cbn [length]; [lia |]. specialize (IH cs). lia.
Qed.

Lemma ls_line_length e : (length (ls_line e) <= 15)%nat.
Proof.
  unfold ls_line. destruct (entry_na e); [cbn; lia |].
  pose proof (until_nul_length 9 (name e ++ ext e)). pose proof (until_nul_length 4 (ext e ++ [attribute e])).
  destruct (_ =? 1); [| destruct (_ =? 0)]; rewrite !length_app; cbn [length]; lia.
Qed.

Lemma list_entry_emits o e : list_entry o e = Ret (emits o (ls_line e)).
Proof.
  unfold list_entry, ls_line. destruct (entry_na e); [done |]. cbv zeta.
  destruct (_ =? 1); [by rewrite !emits_app |]. destruct (_ =? 0); by rewrite !emits_app.
Qed.

Lemma emits_beyond o cs x : (out_idx (emits o cs) <= x)%nat -> out_buf (emits o cs) x = out_buf o x.
Proof.
  unfold emits. revert o. induction cs as [|c cs IH]; intros o Hx; cbn [foldl] in *; [done |].
  rewrite IH by done. fold (emits (emit o c) cs) in Hx. rewrite emits_idx in Hx.
  cbn [emit out_idx out_buf] in *. destruct (Nat.eqb_spec x (out_idx o)); [lia | done].
Qed.

Section Props.
Context {D : Type} `{BlockDevice D}.

(** [list_dir_content] writes, from offset 0, one line per named slot after
    the first, in slot order, and nothing else: at most 15 characters per slot
    and 945 in all. *)
Theorem list_dir_content_lists_slots buffer (d : D) c t :
  read_dir_cluster d c = Ret t -> (length t <= 64)%nat ->
  exists o, list_dir_content buffer d c = Ret o /\ out_text o = flat_map ls_line (drop 1 t) /\
    (out_idx o <= 945)%nat /\ (forall x, (out_idx o <= x)%nat -> out_buf o x = buffer x).
Proof.
  intros Ht Hlen. unfold list_dir_content. rewrite Ht, bind_ret_l.
  assert (forall es o0, (forall x, (out_idx o0 <= x)%nat -> out_buf o0 x = buffer x) ->
    exists o, foldM list_entry o0 es = Ret o /\ out_text o = out_text o0 ++ flat_map ls_line es /\
      (forall x, (out_idx o <= x)%nat -> out_buf o x = buffer x)) as Hloop.
  { intros es. induction es as [|e es IH]; intros o0 Hrest; cbn [foldM flat_map].
    { exists o0. by rewrite app_nil_r. }
    rewrite list_entry_emits, bind_ret_l. destruct (IH (emits o0 (ls_line e))) as (o & -> & Ho & Hr).
    { intros x Hx. rewrite emits_beyond by done. apply Hrest. rewrite emits_idx in Hx. lia. }
    exists o. by rewrite Ho, out_text_emits, app_assoc. }
  destruct (Hloop (drop 1 t) (mkOut buffer 0)) as (o & -> & Ho & Hr); [done |].
  exists o. split_and!; [done | done | | done].
  rewrite <- out_text_length, Ho. change (out_text (mkOut buffer 0)) with (@nil Z). cbn [app].
  assert (length (drop 1 t) <= 63)%nat as Hd by (rewrite length_drop; lia).
  revert Hd. generalize (drop 1 t). intros es.
  assert (length (flat_map ls_line es) <= 15 * length es)%nat; [| lia].
  induction es as [|e es IH]; cbn [flat_map length]; [lia |].
  rewrite length_app. pose proof (ls_line_length e). lia.
Qed.

(** C35: On a directory tree of bounded depth [print_path_to_dir] terminates and
    leaves in its buffer exactly the lines of the entries whose name matches and
    of the directories above them, in order: every line printed for a directory
    with no match below is erased again, and the text is NUL-terminated if it is
    shorter than the 255 bytes cleared. *)
Theorem print_path_prints_matches_only buffer (d : D) c name0 target n trees :
  dev_reads_ok d -> length name0 = 9%nat -> 0 ∈ target ->
  path_tree d target c 0 n = Ret trees -> Forall lines_ok trees ->
  exists o, print_path_to_dir buffer d c name0 target n = Ret o /\
    out_text o = flat_map pruned trees /\
    forall x, (out_idx o <= x < 255)%nat -> out_buf o x = 0.
Proof.
  intros Hd Hn Ht Htree Hl. destruct (cleared_out buffer 255) as [Hz Hb].
  destruct (find_prints d name0 target n Hd Hn Ht c 0 trees _ Htree Hl Hb) as (o & Ho & [Htx _ Hzo]).
  exists o. unfold print_path_to_dir. rewrite Ho, bind_ret_l. split_and!; [done | done | by apply Hzo].
Qed.

(** The path search compares at most seven characters of an entry's name, so
    an entry whose name fills all eight is never found under its own name. *)
Theorem full_length_names_are_never_found name0 e : length name0 = 9%nat -> entry_ok e ->
  0 ∉ name e ->
  exists nm v, local_name name0 e = Ret nm /\ custom_strcmp nm (name e ++ [0]) = Ret v /\ v <> 0.
Proof.
  intros Hn He H0. destruct (target_cmp name0 e (name e ++ [0]) Hn He) as (nm & v & Hnm & Hv & Heq).
  { apply elem_of_app. right. by apply list_elem_of_singleton. }
  exists nm, v. split_and!; [done | done |]. apply Z.eqb_neq. rewrite Heq. apply bool_decide_eq_false.
  destruct He as (Hl & _). unfold short_name, cstr.
  destruct (name e) as [|c0 [|c1 [|c2 [|c3 [|c4 [|c5 [|c6 [|c7 [|]]]]]]]]]; try done.
  rewrite !not_elem_of_cons in H0. destruct H0 as (?&?&?&?&?&?&?&?&_).
  cbn. repeat (match goal with |- context [?c =? 0] => destruct (Z.eqb_spec c 0); [congruence |] end).
  done.
Qed.

(** C30: For every non-empty pattern both searches terminate on a tree of at most
    ten levels and print the same text: the lines of exactly the text files whose
    content contains the pattern, below the directories that lead to them.  That the
    tree can be read ([search_tree] returns) says of its text files: whole clusters
    fit into arrays of their sizes, so the sizes are multiples of [CLUSTER_SIZE], as
    those of the files the shell's touch makes, and each holds a NUL.  Any other text
    file that can be read overruns the kernel's stack ([short_file_overruns_stack]). *)
Theorem both_searches_print_matching_files buffer (fs : Fs D) stack c pattern trees :
  dev_reads_ok (disk fs) -> (forall i, is_byte (stack i)) -> Forall is_byte pattern -> pattern <> [] ->
  search_tree stack pattern fs c 0 SEARCH_LIMIT (SEARCH_LIMIT + 2) = Ret trees -> Forall lines_ok trees ->
  exists fs1 o1 fs2 o2, search_dls_bm buffer fs stack c pattern = Ret (fs1, o1) /\
    search_dls_kmp buffer fs stack c pattern = Ret (fs2, o2) /\
    out_text o1 = flat_map pruned trees /\ out_text o2 = flat_map pruned trees /\
    (forall x, (out_idx o1 <= x < 1024)%nat -> out_buf o1 x = 0 /\ out_buf o2 x = 0).
Proof.
  intros Hd Hs Hp Hne Htree Hl. destruct (cleared_out buffer 1024) as [Hz Hb].
  destruct (search_prints boyer_moore stack pattern fs _ Hd Hs (bm_matcher_ok _ Hp)
    fs c 0 SEARCH_LIMIT false trees _ eq_refl eq_refl Htree Hl Hb) as (fs1 & o1 & H1 & _ & _ & [Ht1 _ Hz1]).
  destruct (search_prints knuth_morris_pratt stack pattern fs _ Hd Hs (kmp_matcher_ok _ Hne)
    fs c 0 SEARCH_LIMIT false trees _ eq_refl eq_refl Htree Hl Hb) as (fs2 & o2 & H2 & _ & _ & [Ht2 _ Hz2]).
  exists fs1, o1, fs2, o2. unfold search_dls_bm, search_dls_kmp, depth_limited_search_bm, depth_limited_search_kmp. rewrite H1, H2, !bind_ret_l.
  split_and!; [done | done | done | done |].
  intros x Hx. split; [exact (Hz1 1024%nat Hz x Hx) |]. apply (Hz2 1024%nat Hz x).
  rewrite <- (out_text_length o2), Ht2, <- Ht1, out_text_length. done.
Qed.

(** The search never nests deeper than twelve calls, whatever the directory
    structure, cyclic ones included: more fuel changes nothing. *)
Theorem search_depth_is_bounded matcher stack pattern (fs : Fs D) o c found fuel :
  (SEARCH_LIMIT + 2 <= fuel)%nat ->
  depth_limited_search matcher stack pattern fs o c 0 SEARCH_LIMIT found fuel =
  depth_limited_search matcher stack pattern fs o c 0 SEARCH_LIMIT found (SEARCH_LIMIT + 2).
Proof.
  assert (forall k level f1 f2 fs o c found, (SEARCH_LIMIT + 1 - level = k)%nat -> (k < f1)%nat -> (k < f2)%nat ->
    depth_limited_search matcher stack pattern fs o c level SEARCH_LIMIT found f1 =
    depth_limited_search matcher stack pattern fs o c level SEARCH_LIMIT found f2) as Hirr.
  { induction k as [|k IH]; intros level [|f1] [|f2] fs' o' c' found' Hk H1 H2; try lia;
      cbn [depth_limited_search]; unfold SEARCH_LIMIT in *; destruct (Nat.ltb_spec 10 level); try done; [lia |].
    destruct (read_dir_cluster (disk fs') c') as [t| |]; [| done | done]. rewrite !bind_ret_l.
    erewrite foldM_ext; [reflexivity |]. intros [[[[t1 fs1] o1] g1] l1] i.
    destruct (aget t1 (Z.of_nat i)) as [e| |]; [rewrite !bind_ret_l | done | done].
    destruct (entry_na e); [done |]. destruct (_ =? 0); [| done].
    rewrite (IH (S level) f1 f2) by lia. done. }
  intros Hf. apply (Hirr 11%nat); unfold SEARCH_LIMIT in *; lia.
Qed.

(** ** The whole tree *)

(** A directory hierarchy: entries with the contents of subdirectories. *)
Inductive dnode : Type := DNode (e : FAT32DirectoryEntry) (kids : list dnode).

(** The hierarchy below a cluster, if it is at most [n] directories deep. *)
Fixpoint load_dir (d : D) (c : Z) (n : nat) : outcome (list dnode) :=
  match n with
  | O => NoFuel
  | S n' =>
    dirtable ← read_dir_cluster d c;
    traverse (fun e =>
      if ext_cmp e (bytes_of "dir") =? 0
      then kids ← load_dir d (entry_cluster e) n'; Ret (DNode e kids)
      else Ret (DNode e [])) (List.filter (fun e => negb (entry_na e)) (drop 1 dirtable))
  end.

Fixpoint render (level : nat) (x : dnode) : list Z :=
  match x with
  | DNode e kids =>
    indent level ++ until_nul 9 (name e ++ ext e) ++
    (if ext_cmp e (bytes_of "dir") =? 0 then [47; 10] ++ flat_map (render (S level)) kids
     else if ext_cmp e (bytes_of "dir") =? 1 then [46] ++ ext e ++ [10] else [10])
  end.

Lemma all_list_renders d n : forall c nodes level o, load_dir d c n = Ret nodes ->
  all_list_dir_content d o c level n = Ret (emits o (flat_map (render level) nodes)).
Proof.
  induction n as [|n IH]; intros c nodes level o Hn; [done |].
  cbn [load_dir all_list_dir_content] in *. apply bind_ret_inv in Hn as (t & -> & Hn). rewrite bind_ret_l.
  revert nodes o Hn. generalize (drop 1 t). intros es. clear t.
  induction es as [|e es IHes]; intros nodes o Hn; cbn [List.filter traverse foldM] in *.
  { by injection Hn as <-. }
  destruct (entry_na e); cbn [negb] in Hn; [by rewrite bind_ret_l; apply IHes |].
  cbn [traverse] in Hn. apply bind_ret_inv in Hn as (x & Hx & Hn).
  apply bind_ret_inv in Hn as (xs & Hxs & Hn). injection Hn as <-. cbn [flat_map].
  destruct (ext_cmp e (bytes_of "dir") =? 0) eqn:Edir.
  - apply bind_ret_inv in Hx as (kids & Hkids & Hx). assert (x = DNode e kids) as -> by congruence.
    rewrite (IH _ _ _ _ Hkids), bind_ret_l, (IHes _ _ Hxs). cbn [render]. rewrite Edir.
    by rewrite !emits_app.
  - assert (x = DNode e []) as -> by congruence. cbn [render]. rewrite Edir.
    destruct (_ =? 1); rewrite bind_ret_l, (IHes _ _ Hxs), !emits_app; done.
Qed.

(** C36: On a hierarchy at most [n] directories deep [print] terminates with [n]
    nested calls and writes the rendering of the hierarchy: every named entry on
    its own line, indented by its depth, a directory before its contents. *)
Theorem print_renders_hierarchy buffer (d : D) c n nodes : load_dir d c n = Ret nodes ->
  exists o, print buffer d c n = Ret o /\ out_text o = flat_map (render 0) nodes.
Proof.
  intros Hn. eexists. split; [by apply all_list_renders |]. by rewrite out_text_emits.
Qed.
End Props.

(** ** A disk of three directories *)

(** Clusters given one by one; reads beyond them give zeros. *)
Definition shelf : Type := Z -> list Z.
#[export] Instance shelf_device : BlockDevice shelf := {
  read_blocks s lba n := Ret (s (lba / 4));
  write_blocks s bs lba n := Ret (fun c => if c =? lba / 4 then bs else s c);
}.

Definition mk_entry (nm ex : list Z) (attr c size : Z) : FAT32DirectoryEntry :=
  mkEntry (nm ++ replicate (8 - length nm) 0) (ex ++ replicate (3 - length ex) 0) attr UATTR_NOT_EMPTY
    0 0 0 0 0 0 0 c size.
Definition mk_table (es : list FAT32DirectoryEntry) : list FAT32DirectoryEntry :=
  es ++ replicate (DIR_LENGTH - length es) zero_entry.

Definition docs : FAT32DirectoryEntry := mk_entry (bytes_of "docs") (bytes_of "dir") 16 3 0.
Definition music : FAT32DirectoryEntry := mk_entry (bytes_of "music") (bytes_of "dir") 16 4 0.
(** A file of a whole cluster, as touch makes them, with a text in it. *)
Definition notes : FAT32DirectoryEntry := mk_entry (bytes_of "notes") (bytes_of "txt") 0 5 2048.
Definition root_t : list FAT32DirectoryEntry := mk_table [mk_entry (bytes_of "root") [] 16 2 0; docs; music].
Definition docs_t : list FAT32DirectoryEntry := mk_table [mk_entry (bytes_of "docs") [] 16 2 0; notes].
Definition music_t : list FAT32DirectoryEntry := mk_table [mk_entry (bytes_of "music") [] 16 2 0].
Definition library : shelf := fun c =>
  if c =? 2 then encode_table root_t else if c =? 3 then encode_table docs_t
  else if c =? 4 then encode_table music_t
  else if c =? 5 then bytes_of "abcabd" ++ replicate 2042 0 else replicate 2048 0.

Lemma mk_tables_ok : Fat32Types.table_ok root_t /\ Fat32Types.table_ok docs_t /\ Fat32Types.table_ok music_t.
Proof. unfold Fat32Types.table_ok, entry_ok. split_and!; try reflexivity; by_compute. Qed.
