(* ===== verification/DirExamples.v ===== *)
(** * Listings and searches on the small disk

    Three directories and one text file: "docs/notes.txt" with content "abcabd" in
    a cluster, next to an empty directory "music". *)
From Stdlib Require Import String.
From S2P Require Import Prelude CString BlockDevice Fat32Types Fat32 Fat32Facts Search DirList DirTree DirSearch DirProps.
#[local] Open Scope Z_scope.

Lemma library_cluster c bs : read_clusters library c 1 = Ret bs -> exists x, bs = library x.
Proof. intros [= <-]. by eexists. Qed.

Lemma library_reads_ok : dev_reads_ok library.
Proof.
  intros c bs [x ->]%library_cluster. unfold library. destruct mk_tables_ok as (Hr & Hd & Hm).
  destruct (x =? 2); [by apply encode_table_ok |]. destruct (x =? 3); [by apply encode_table_ok |].
  destruct (x =? 4); [by apply encode_table_ok |]. destruct (x =? 5).
  - split; [reflexivity |]. apply Forall_app. split; [by_compute | by apply Forall_replicate].
  - split; [reflexivity |]. by apply Forall_replicate.
Qed.

Lemma library_root : exists t, read_dir_cluster library 2 = Ret t /\ length t = 64%nat.
Proof. eexists. split; [reflexivity |]. unfold decode_table. by rewrite length_fmap, length_chunks. Qed.

Definition buffer0 : nat -> Z := fun _ => 255.
Definition notes_name : list Z := bytes_of "notes" ++ [0].
Definition library_fs : Fs shelf :=
  mkFs (mkDriver [CLUSTER_0_VALUE; CLUSTER_1_VALUE; 268435455; 268435455; 268435455; 268435455] [] []) library.

Definition ret_or {A} (d : A) (x : outcome A) : A := match x with Ret a => a | _ => d end.
Definition path_trees : list ptree := Eval lazy in ret_or [] (path_tree library notes_name 2 0 3).
Definition search_trees : list ptree := Eval lazy in
  ret_or [] (search_tree (fun _ => 0) (bytes_of "cab") library_fs 2 0 SEARCH_LIMIT (SEARCH_LIMIT + 2)).
Definition library_nodes : list dnode := Eval lazy in ret_or [] (load_dir library 2 2).

(** Each node's lines end in newlines. *)
Ltac check_lines :=
  repeat (apply Forall_cons; split; [first
    [ by intros ?
    | by (intros _; match goal with |- exists w, ?l = _ => exists (removelast l) end)
    | apply lines_ok_dir; split;
      [ match goal with |- exists w, ?l = _ /\ _ => exists (removelast l) end; split; [reflexivity | by_compute] | ] ] | ]);
  try apply Forall_nil_2.

Lemma path_trees_ok : Forall lines_ok path_trees.
Proof. unfold path_trees. repeat check_lines. Qed.
Lemma search_trees_ok : Forall lines_ok search_trees.
Proof. unfold search_trees. repeat check_lines. Qed.

Lemma list_dir_content_lists_slots_witness : exists o,
  list_dir_content buffer0 library 2 = Ret o /\ (out_idx o <= 945)%nat.
Proof.
  destruct library_root as (t & Ht & Hl).
  destruct (list_dir_content_lists_slots buffer0 library 2 t Ht) as (o & Ho & _ & Hb & _).
  - rewrite Hl. lia.
  - exists o. split; assumption.
Defined.

(** Only "docs/" and "notes.txt" remain; the line of "music" was erased. *)
Lemma print_path_prints_matches_only_witness : exists o,
  print_path_to_dir buffer0 library 2 (replicate 9 7) notes_name 3 = Ret o /\
  out_text o = bytes_of "docs/" ++ [10] ++ bytes_of "   notes.txt" ++ [10].
Proof.
  destruct (print_path_prints_matches_only buffer0 library 2 (replicate 9 7) notes_name 3 path_trees)
    as (o & Ho & Ht & _).
  - apply library_reads_ok.
  - reflexivity.
  - by_compute.
  - lazy. reflexivity.
  - apply path_trees_ok.
  - exists o. split; [exact Ho | rewrite Ht; reflexivity].
Defined.

Lemma full_length_names_are_never_found_witness : exists nm v,
  local_name (replicate 9 7) (mk_entry (bytes_of "nestedf1") (bytes_of "dir") 16 3 0) = Ret nm /\
  custom_strcmp nm (bytes_of "nestedf1" ++ [0]) = Ret v /\ v <> 0.
Proof.
  apply (full_length_names_are_never_found (replicate 9 7)
    (mk_entry (bytes_of "nestedf1") (bytes_of "dir") 16 3 0)).
  - reflexivity.
  - unfold entry_ok. split_and!; try reflexivity; by_compute.
  - by_compute.
Defined.

Lemma both_searches_print_matching_files_witness : exists fs1 o1 fs2 o2,
  search_dls_bm buffer0 library_fs (fun _ => 0) 2 (bytes_of "cab") = Ret (fs1, o1) /\
  search_dls_kmp buffer0 library_fs (fun _ => 0) 2 (bytes_of "cab") = Ret (fs2, o2) /\
  out_text o1 = bytes_of "docs/" ++ [10] ++ bytes_of "   notes.txt abcabd" ++ [10] /\
  out_text o2 = out_text o1.
Proof.
  destruct (both_searches_print_matching_files buffer0 library_fs (fun _ => 0) 2 (bytes_of "cab") search_trees)
    as (fs1 & o1 & fs2 & o2 & H1 & H2 & Ht1 & Ht2 & _).
  - apply library_reads_ok.
  - intros i. split; [lia | reflexivity].
  - by_compute.
  - discriminate.
  - lazy. reflexivity.
  - apply search_trees_ok.
  - exists fs1, o1, fs2, o2. rewrite Ht2, Ht1. split; [exact H1 | split; [exact H2 | split; reflexivity]].
Defined.

(** The same disk with a file of six bytes: its cluster does not fit into the array
    of six bytes on the stack. *)
Definition short_notes : FAT32DirectoryEntry := mk_entry (bytes_of "notes") (bytes_of "txt") 0 5 6.
Definition short_library : shelf := fun c =>
  if c =? 3 then encode_table (mk_table [mk_entry (bytes_of "docs") [] 16 2 0; short_notes]) else library c.
Definition short_fs : Fs shelf := mkFs (driver_state library_fs) short_library.

(** Searching a disk with a text file that does not fill its clusters overruns the
    kernel's stack, whatever the pattern. *)
Theorem short_file_overruns_stack buffer stack pattern :
  search_dls_bm buffer short_fs stack 2 pattern = Oob /\ search_dls_kmp buffer short_fs stack 2 pattern = Oob.
Proof. split; reflexivity. Qed.

Lemma search_depth_is_bounded_witness :
  depth_limited_search boyer_moore (fun _ => 0) (bytes_of "cab") library_fs (mkOut buffer0 0) 2 0 SEARCH_LIMIT false 100 =
  depth_limited_search boyer_moore (fun _ => 0) (bytes_of "cab") library_fs (mkOut buffer0 0) 2 0 SEARCH_LIMIT false 12.
Proof. apply search_depth_is_bounded. unfold SEARCH_LIMIT. lia. Defined.

Lemma print_renders_hierarchy_witness : exists o,
  print buffer0 library 2 2 = Ret o /\
  out_text o = bytes_of "docs/" ++ [10] ++ bytes_of "   notes.txt" ++ [10] ++ bytes_of "music/" ++ [10].
Proof.
  destruct (print_renders_hierarchy buffer0 library 2 2 library_nodes) as (o & Ho & Ht).
  - lazy. reflexivity.
  - exists o. split; [exact Ho | rewrite Ht; reflexivity].
Defined.
