(* ===== verification/Paging.v ===== *)
(** * Page directories and the page frame counter (src/paging.c)

    Page directory entries as records of their bit fields, the static pool of 32
    directories with its used flags, and the page manager's frame map. *)
From S2P Require Import Prelude.

Definition PAGE_ENTRY_COUNT : nat := 1024.
Definition PAGE_FRAME_SIZE : Z := 4194304.
Definition PAGE_FRAME_MAX_COUNT : Z := 32.
Definition PAGING_DIRECTORY_TABLE_MAX_COUNT : nat := 32.
Definition KERNEL_VIRTUAL_ADDRESS_BASE : Z := 0xC0000000.

(** ** struct PageDirectoryEntryFlag and struct PageDirectoryEntry *)

Record PageDirectoryEntryFlag := mkFlag {
  present_bit : bool;
  write_bit : bool;
  user_bit : bool;
  pwt_bit : bool;
  pcd_bit : bool;
  accessed_bit : bool;
  dirty_bit : bool;
  use_pagesize_4_mb : bool;
}.

Record PageDirectoryEntry := mkPde {
  flag : PageDirectoryEntryFlag;
  global_page : Z;
  reserved_1 : Z;
  pat : Z;
  higher_address : Z;
  reserved_2 : Z;
  lower_address : Z;
}.

Definition zero_flag : PageDirectoryEntryFlag := mkFlag false false false false false false false false.
Definition zero_pde : PageDirectoryEntry := mkPde zero_flag 0 0 0 0 0 0.

(** The 32-bit word the MMU reads. *)
Definition pde_word (e : PageDirectoryEntry) : Z :=
  let f := flag e in
  Z.b2z (present_bit f) + 2 * Z.b2z (write_bit f) + 4 * Z.b2z (user_bit f) + 8 * Z.b2z (pwt_bit f) +
  16 * Z.b2z (pcd_bit f) + 32 * Z.b2z (accessed_bit f) + 64 * Z.b2z (dirty_bit f) +
  128 * Z.b2z (use_pagesize_4_mb f) + 2 ^ 8 * global_page e + 2 ^ 9 * reserved_1 e +
  2 ^ 12 * pat e + 2 ^ 13 * higher_address e + 2 ^ 21 * reserved_2 e + 2 ^ 22 * lower_address e.

(** [page_dir->table] *)
Abbreviation PageDirectory := (list PageDirectoryEntry).
Definition zero_directory : PageDirectory := replicate PAGE_ENTRY_COUNT zero_pde.

Definition set_pde (e : PageDirectoryEntry) (f : PageDirectoryEntryFlag) (la : Z) : PageDirectoryEntry :=
  mkPde f (global_page e) (reserved_1 e) (pat e) (higher_address e) (reserved_2 e) la.

(** [((uint32_t)addr >> 22) & 0x3FF] *)
Definition page_index (addr : Z) : Z := Z.land (Z.shiftr addr 22) 0x3FF.

Definition kernel_flag : PageDirectoryEntryFlag := mkFlag true true false false false false false true.
Definition user_flag : PageDirectoryEntryFlag := mkFlag true true true false false false false true.
Definition kernel_pde : PageDirectoryEntry := set_pde zero_pde kernel_flag 0.

(** [_paging_kernel_page_directory]: entries 0 and 0x300. *)
Definition paging_kernel_page_directory : PageDirectory :=
  <[768%nat := kernel_pde]> (<[0%nat := kernel_pde]> zero_directory).

(** [flush_single_tlb] invalidates the translation cache: no state of the model. *)
Definition update_page_directory_entry (page_dir : PageDirectory) (physical_addr virtual_addr : Z)
    (f : PageDirectoryEntryFlag) : outcome PageDirectory :=
  e ← aget page_dir (page_index virtual_addr);
  aset page_dir (page_index virtual_addr) (set_pde e f (page_index physical_addr)).

(** ** The page manager *)

Record PageManagerState := mkPages {
  page_frame_map : list bool;
  free_page_frame_count : Z;
}.

Definition initial_page_manager_state : PageManagerState :=
  mkPages (true :: replicate 31 false) PAGE_FRAME_MAX_COUNT.

Definition paging_allocate_check (pm : PageManagerState) (amount : Z) : bool :=
  amount <=? free_page_frame_count pm.

Definition paging_allocate_user_page_frame (pm : PageManagerState) (page_dir : PageDirectory)
    (virtual_addr : Z) : outcome (PageManagerState * PageDirectory * bool) :=
  let physical_addr := free_page_frame_count pm in
  if negb (paging_allocate_check pm physical_addr) then Ret (pm, page_dir, false) else
  page_dir ← update_page_directory_entry page_dir physical_addr virtual_addr user_flag;
  frames ← aset (page_frame_map pm) (u32 (PAGE_FRAME_MAX_COUNT - free_page_frame_count pm)) true;
  Ret (mkPages frames (u32 (free_page_frame_count pm - 1)), page_dir, true).

Definition paging_free_user_page_frame (pm : PageManagerState) (page_dir : PageDirectory)
    (virtual_addr : Z) : outcome (PageManagerState * PageDirectory * bool) :=
  e ← aget page_dir (page_index virtual_addr);
  page_dir ← aset page_dir (page_index virtual_addr) (set_pde e zero_flag 0);
  let last_pageframe_used := u32 (PAGE_FRAME_MAX_COUNT - free_page_frame_count pm) in
  frames ← aset (page_frame_map pm) last_pageframe_used false;
  Ret (mkPages frames (u32 (free_page_frame_count pm + 1)), page_dir, true).

(** ** The pool of page directories *)

Record DirectoryPool := mkPool {
  page_directory_list : list PageDirectory;
  page_directory_used : list bool;
}.

Definition initial_pool : DirectoryPool :=
  mkPool (replicate PAGING_DIRECTORY_TABLE_MAX_COUNT zero_directory)
    (replicate PAGING_DIRECTORY_TABLE_MAX_COUNT false).

(** Directory pointers point into the pool; [None] is NULL. *)
Definition dir_ptr : Type := option nat.

(** [_paging_kernel_page_directory] is a variable: [paging_allocate_user_page_frame]
    may have changed it, so its present contents are an argument. *)
Definition paging_create_new_page_directory (kernel_directory : PageDirectory) (p : DirectoryPool)
    : outcome (DirectoryPool * dir_ptr) :=
  match first_index negb (page_directory_used p) with
  | None => Ret (p, None)
  | Some i =>
    used ← aset (page_directory_used p) (Z.of_nat i) true;
    dir ← aget (page_directory_list p) (Z.of_nat i);
    k0 ← aget kernel_directory 0;
    k768 ← aget kernel_directory 0x300;
    dir ← aset dir 0 k0;
    dir ← aset dir 0x300 k768;
    dirs ← aset (page_directory_list p) (Z.of_nat i) dir;
    Ret (mkPool dirs used, Some i)
  end.

(** The flags cleared when a directory is freed. *)
Definition clear_pde (e : PageDirectoryEntry) : PageDirectoryEntry :=
  let f := flag e in
  set_pde e (mkFlag false false false (pwt_bit f) (pcd_bit f) (accessed_bit f) (dirty_bit f) false) 0.

Definition paging_free_page_directory (p : DirectoryPool) (page_dir : dir_ptr)
    : outcome (DirectoryPool * bool) :=
  match page_dir with
  | None => Ret (p, false)
  | Some i =>
    if (i <? PAGING_DIRECTORY_TABLE_MAX_COUNT)%nat then
      used ← aset (page_directory_used p) (Z.of_nat i) false;
      dir ← aget (page_directory_list p) (Z.of_nat i);
      dirs ← aset (page_directory_list p) (Z.of_nat i) (clear_pde <$> dir);
      Ret (mkPool dirs used, true)
    else Ret (p, false)
  end.

(** CR3 takes the physical address of a directory in the kernel's half. *)
Definition page_directory_physical (page_dir_virtual_addr : Z) : Z :=
  if KERNEL_VIRTUAL_ADDRESS_BASE <? page_dir_virtual_addr
  then u32 (page_dir_virtual_addr - KERNEL_VIRTUAL_ADDRESS_BASE) else page_dir_virtual_addr.
Definition page_directory_virtual (cr3 : Z) : Z := u32 (cr3 + KERNEL_VIRTUAL_ADDRESS_BASE).

(** ** Address translation with 4 MiB pages, as the directory describes it *)

Definition translate (dir : PageDirectory) (va : Z) : option Z :=
  match aget dir (page_index va) with
  | Ret e => if present_bit (flag e) && use_pagesize_4_mb (flag e)
             then Some (PAGE_FRAME_SIZE * lower_address e + va mod PAGE_FRAME_SIZE) else None
  | _ => None
  end.

Definition directory_ok (dir : PageDirectory) : Prop := length dir = PAGE_ENTRY_COUNT.
Definition pool_ok (p : DirectoryPool) : Prop :=
  length (page_directory_list p) = PAGING_DIRECTORY_TABLE_MAX_COUNT /\
  length (page_directory_used p) = PAGING_DIRECTORY_TABLE_MAX_COUNT /\
  Forall directory_ok (page_directory_list p).

(** ** Facts *)

Lemma page_index_mod addr : 0 <= addr < 2 ^ 32 -> page_index addr = addr / PAGE_FRAME_SIZE.
Proof.
  intros Ha. unfold page_index. change 0x3FF with (Z.ones 10).
  rewrite Z.land_ones, Z.shiftr_div_pow2 by lia. change (2 ^ 22) with PAGE_FRAME_SIZE.
  apply Z.mod_small. unfold PAGE_FRAME_SIZE. split; [apply Z.div_pos; lia | apply Z.div_lt_upper_bound; lia].
Qed.

Lemma page_index_range addr : 0 <= page_index addr < 1024.
Proof.
  unfold page_index. change 0x3FF with (Z.ones 10). rewrite Z.land_ones by lia.
  apply Z.mod_pos_bound. lia.
Qed.

Lemma directory_entry dir i : directory_ok dir -> 0 <= i < 1024 ->
  exists e, aget dir i = Ret e.
Proof.
  unfold directory_ok, PAGE_ENTRY_COUNT. intros Hd Hi.
  destruct (lookup_lt_is_Some_2 dir (Z.to_nat i)) as [e He]; [lia |].
  exists e. apply aget_ret. split; [lia | done].
Qed.

Lemma update_spec dir pa va f : directory_ok dir ->
  exists e, aget dir (page_index va) = Ret e /\
    update_page_directory_entry dir pa va f =
      Ret (<[Z.to_nat (page_index va) := set_pde e f (page_index pa)]> dir).
Proof.
  intros Hd. pose proof (page_index_range va). destruct (directory_entry dir (page_index va)) as [e He];
    [done | done |].
  exists e. split; [done |]. unfold update_page_directory_entry. rewrite He, bind_ret_l.
  apply aset_in. unfold directory_ok, PAGE_ENTRY_COUNT in Hd. lia.
Qed.

Lemma aget_insert {A} (l : list A) i j x : 0 <= i < Z.of_nat (length l) -> 0 <= j ->
  aget (<[Z.to_nat i := x]> l) j = if j =? i then Ret x else aget l j.
Proof.
  intros Hi Hj. unfold aget. destruct (Z.ltb_spec j 0); [lia |].
  destruct (Z.eqb_spec j i) as [->|Hne].
  - by rewrite list_lookup_insert_eq by lia.
  - by rewrite list_lookup_insert_ne by lia.
Qed.

(** C38: [update_page_directory_entry] with a present 4 MiB flag makes every
    address of the virtual page translate to the same offset of the physical
    page, and leaves the translation of all other pages as it was. *)
Theorem update_maps_exactly_one_page dir pa va f : directory_ok dir ->
  0 <= pa < 2 ^ 32 -> 0 <= va < 2 ^ 32 -> present_bit f = true -> use_pagesize_4_mb f = true ->
  exists dir', update_page_directory_entry dir pa va f = Ret dir' /\ directory_ok dir' /\
    forall x, 0 <= x < 2 ^ 32 ->
      translate dir' x =
        if x / PAGE_FRAME_SIZE =? va / PAGE_FRAME_SIZE
        then Some (PAGE_FRAME_SIZE * (pa / PAGE_FRAME_SIZE) + x mod PAGE_FRAME_SIZE)
        else translate dir x.
Proof.
  intros Hd Hpa Hva Hp Hs. destruct (update_spec dir pa va f Hd) as (e & He & ->).
  eexists. split; [done |]. split; [unfold directory_ok; etrans; [apply length_insert | exact Hd] |].
  intros x Hx. unfold translate. pose proof (page_index_range va). pose proof (page_index_range x).
  rewrite aget_insert by (unfold directory_ok, PAGE_ENTRY_COUNT in Hd; lia).
  rewrite <- (page_index_mod x), <- (page_index_mod va), <- (page_index_mod pa) by lia. destruct (page_index x =? page_index va); [| done].
  cbn [flag set_pde lower_address]. by rewrite Hp, Hs.
Qed.

(** C39: [paging_allocate_user_page_frame] passes the number of free frames as
    the physical address: whatever was allocated before, the new page is mapped,
    with the user flag, to physical frame 0, the one the kernel lives in. *)
Theorem allocated_pages_alias_frame_0 pm dir va : directory_ok dir -> 0 <= va < 2 ^ 32 ->
  length (page_frame_map pm) = 32%nat -> 0 < free_page_frame_count pm <= 32 ->
  exists pm' dir', paging_allocate_user_page_frame pm dir va = Ret (pm', dir', true) /\
    free_page_frame_count pm' = free_page_frame_count pm - 1 /\
    (exists e, aget dir' (va / PAGE_FRAME_SIZE) = Ret e /\ user_bit (flag e) = true) /\
    translate dir' va = Some (va mod PAGE_FRAME_SIZE).
Proof.
  intros Hd Hva Hlen Hfree. unfold paging_allocate_user_page_frame, paging_allocate_check.
  destruct (Z.leb_spec (free_page_frame_count pm) (free_page_frame_count pm)); [| lia]. cbn [negb].
  destruct (update_spec dir (free_page_frame_count pm) va user_flag Hd) as (e & He & ->).
  rewrite bind_ret_l. unfold PAGE_FRAME_MAX_COUNT. rewrite !u32_id by lia.
  rewrite aset_in, bind_ret_l by lia. do 2 eexists. split; [done |]. split; [done |].
  assert (page_index (free_page_frame_count pm) = 0) as Hz.
  { rewrite page_index_mod by lia. apply Z.div_small. unfold PAGE_FRAME_SIZE. lia. }
  pose proof (page_index_range va). unfold translate. rewrite <- page_index_mod by done.
  rewrite !aget_insert by (unfold directory_ok, PAGE_ENTRY_COUNT in Hd; lia).
  rewrite Z.eqb_refl, Hz. split; [by eexists |]. cbn [flag set_pde lower_address].
  unfold user_flag. cbn [present_bit use_pagesize_4_mb andb]. f_equal.
Qed.

(** [n] allocations in a row, one per virtual page from [va]. *)
Fixpoint allocate_pages (pm : PageManagerState) (dir : PageDirectory) (va : Z) (n : nat)
    : outcome (PageManagerState * PageDirectory) :=
  match n with
  | O => Ret (pm, dir)
  | S n' =>
    '(pm, dir, _) ← paging_allocate_user_page_frame pm dir va;
    allocate_pages pm dir (u32 (va + PAGE_FRAME_SIZE)) n'
  end.

Lemma update_ok dir pa va f : directory_ok dir ->
  exists dir', update_page_directory_entry dir pa va f = Ret dir' /\ directory_ok dir'.
Proof.
  intros Hd. destruct (update_spec dir pa va f Hd) as (e & _ & ->). eexists. split; [reflexivity |].
  unfold directory_ok. etrans; [apply length_insert | exact Hd].
Qed.

Lemma allocate_spec k dir va : directory_ok dir -> (k < 32)%nat ->
  exists dir', paging_allocate_user_page_frame
      (mkPages (replicate k true ++ replicate (32 - k) false) (32 - Z.of_nat k)) dir va =
    Ret (mkPages (replicate (S k) true ++ replicate (32 - S k) false) (32 - Z.of_nat (S k)), dir', true) /\
    directory_ok dir'.
Proof.
  intros Hd Hk. unfold paging_allocate_user_page_frame, paging_allocate_check.
  cbn [free_page_frame_count page_frame_map].
  destruct (Z.leb_spec (32 - Z.of_nat k) (32 - Z.of_nat k)); [| lia]. cbn [negb].
  destruct (update_ok dir (32 - Z.of_nat k) va user_flag Hd) as (dir' & -> & Hd').
  rewrite bind_ret_l. unfold PAGE_FRAME_MAX_COUNT. rewrite !u32_id by lia.
  rewrite aset_in, bind_ret_l by (rewrite length_app, !length_replicate; lia).
  exists dir'. split; [| done]. replace (32 - Z.of_nat k - 1) with (32 - Z.of_nat (S k)) by lia.
  do 3 f_equal. f_equal.
  replace (Z.to_nat (32 - (32 - Z.of_nat k))) with (length (replicate k true) + 0)%nat
    by (rewrite length_replicate; lia).
  rewrite insert_app_r. replace (32 - k)%nat with (S (32 - S k)) by lia. cbn [replicate insert list_insert].
  change (true :: replicate (32 - S k) false) with ([true] ++ replicate (32 - S k) false).
  rewrite app_assoc. f_equal. by rewrite <- replicate_cons_app.
Qed.

(** From the initial state the frame counter admits 32 allocations, one more
    than the 31 frames it does not mark as used; the 33rd is not refused, since
    the check compares the counter with itself, but writes past the frame map. *)
Theorem frame_counter_runs_out_of_bounds dir va : directory_ok dir ->
  (forall n, (1 <= n <= 32)%nat -> exists dir', allocate_pages initial_page_manager_state dir va n =
     Ret (mkPages (replicate n true ++ replicate (32 - n) false) (32 - Z.of_nat n), dir')) /\
  allocate_pages initial_page_manager_state dir va 33 = Oob.
Proof.
  intros Hd.
  assert (forall n k dir va, directory_ok dir -> (k + n <= 32)%nat -> exists dir', directory_ok dir' /\
    forall n', allocate_pages (mkPages (replicate k true ++ replicate (32 - k) false) (32 - Z.of_nat k)) dir va (n + n') =
      allocate_pages (mkPages (replicate (k + n) true ++ replicate (32 - (k + n)) false) (32 - Z.of_nat (k + n)))
        dir' (Nat.iter n (fun v => u32 (v + PAGE_FRAME_SIZE)) va) n') as Hloop.
  { induction n as [|n IH]; intros k dir0 va0 Hd0 Hk.
    - exists dir0. split; [done |]. intros n'. by rewrite Nat.add_0_r.
    - destruct (allocate_spec k dir0 va0 Hd0) as (dir1 & E & Hd1); [lia |].
      destruct (IH (S k) dir1 (u32 (va0 + PAGE_FRAME_SIZE)) Hd1) as (dir2 & Hd2 & E2); [lia |].
      exists dir2. split; [done |]. intros n'. cbn [Nat.add allocate_pages]. rewrite E, bind_ret_l, E2.
      replace (S k + n)%nat with (k + S n)%nat by lia. f_equal. by rewrite Nat.iter_succ_r. }
  (* the first allocation finds frame 0 marked already *)
  assert (forall n', exists dir1, directory_ok dir1 /\ allocate_pages initial_page_manager_state dir va (S n') =
    allocate_pages (mkPages (replicate 1 true ++ replicate 31 false) 31) dir1 (u32 (va + PAGE_FRAME_SIZE)) n') as Hfirst.
  { intros n'. destruct (update_ok dir 32 va user_flag Hd) as (dir1 & E & Hd1). exists dir1. split; [done |].
    cbn [allocate_pages]. unfold paging_allocate_user_page_frame.
    change (free_page_frame_count initial_page_manager_state) with 32.
    change (paging_allocate_check initial_page_manager_state 32) with true. cbn [negb].
    by rewrite E, bind_ret_l. }
  split.
  - intros [|n] Hn; [lia |]. destruct (Hfirst n) as (dir1 & Hd1 & ->).
    destruct (Hloop n 1%nat dir1 (u32 (va + PAGE_FRAME_SIZE)) Hd1) as (dir2 & Hd2 & E2); [lia |].
    specialize (E2 0%nat). rewrite Nat.add_0_r in E2. exists dir2. exact E2.
  - destruct (Hfirst 32%nat) as (dir1 & Hd1 & ->).
    destruct (Hloop 31%nat 1%nat dir1 (u32 (va + PAGE_FRAME_SIZE)) Hd1) as (dir2 & Hd2 & E2); [lia |].
    specialize (E2 1%nat). change (31 + 1)%nat with 32%nat in E2. etrans; [exact E2 |].
    cbn [allocate_pages]. destruct (update_ok dir2 0 (Nat.iter 31 (fun v => u32 (v + PAGE_FRAME_SIZE)) (u32 (va + PAGE_FRAME_SIZE))) user_flag Hd2)
      as (dir3 & E3 & _). unfold paging_allocate_user_page_frame.
    change (free_page_frame_count _) with 0. change (paging_allocate_check _ 0) with true. cbn [negb].
    by rewrite E3, bind_ret_l.
Qed.

Lemma free_when_exhausted dir va : directory_ok dir ->
  paging_free_user_page_frame (mkPages (replicate 32 true) 0) dir va = Oob.
Proof.
  intros Hd. unfold paging_free_user_page_frame. pose proof (page_index_range va).
  destruct (directory_entry dir (page_index va) Hd) as [e ->]; [done |].
  rewrite bind_ret_l, (aset_in dir), bind_ret_l by (unfold directory_ok, PAGE_ENTRY_COUNT in Hd; lia).
  reflexivity.
Qed.

(** Freeing a page removes its translation and counts a frame as free, but
    the frame it unmarks is the next unused one: the map still shows every
    allocated frame as taken, so map and counter disagree from then on; when all
    32 frames are in use the frame to unmark lies past the map. *)
Theorem freed_frames_stay_marked dir va k : directory_ok dir -> (k <= 31)%nat ->
  (exists dir', paging_free_user_page_frame
      (mkPages (replicate k true ++ replicate (32 - k) false) (32 - Z.of_nat k)) dir va =
    Ret (mkPages (replicate k true ++ replicate (32 - k) false) (33 - Z.of_nat k), dir', true) /\
    translate dir' va = None) /\
  paging_free_user_page_frame (mkPages (replicate 32 true) 0) dir va = Oob.
Proof.
  intros Hd Hk. split; [| apply free_when_exhausted; exact Hd]. unfold paging_free_user_page_frame. pose proof (page_index_range va).
  destruct (directory_entry dir (page_index va) Hd) as [e He]; [done |].
  assert (0 <= page_index va < Z.of_nat (length dir)) as Hi
    by (unfold directory_ok, PAGE_ENTRY_COUNT in Hd; lia).
  rewrite He, bind_ret_l, (aset_in dir), bind_ret_l by lia. cbn [free_page_frame_count page_frame_map].
  unfold PAGE_FRAME_MAX_COUNT. rewrite !u32_id by lia.
  rewrite aset_in, bind_ret_l by (rewrite length_app, !length_replicate; lia).
  eexists. split.
  - replace (32 - Z.of_nat k + 1) with (33 - Z.of_nat k) by lia. do 3 f_equal. f_equal.
    apply list_insert_id. rewrite lookup_app_r by (rewrite length_replicate; lia).
    apply lookup_replicate. split; [done |]. rewrite length_replicate. lia.
  - unfold translate. by rewrite aget_insert, Z.eqb_refl by lia.
Qed.

(** *** Directories *)

Lemma pool_lookup p i : pool_ok p -> (i < 32)%nat ->
  exists dir, page_directory_list p !! i = Some dir /\ aget (page_directory_list p) (Z.of_nat i) = Ret dir /\
    directory_ok dir.
Proof.
  intros (Hl & _ & Hd) Hi. destruct (lookup_lt_is_Some_2 (page_directory_list p) i) as [dir E];
    [rewrite Hl; exact Hi |].
  exists dir. split_and!; [done | | by eapply Forall_lookup_1].
  apply aget_ret. split; [lia | by rewrite Nat2Z.id].
Qed.

Lemma create_directory_spec kd p i : directory_ok kd -> pool_ok p ->
  first_index negb (page_directory_used p) = Some i ->
  exists dir k0 k768, (i < 32)%nat /\ page_directory_list p !! i = Some dir /\ directory_ok dir /\
    aget kd 0 = Ret k0 /\ aget kd 0x300 = Ret k768 /\
    paging_create_new_page_directory kd p =
      Ret (mkPool (<[i := <[768%nat := k768]> (<[0%nat := k0]> dir)]> (page_directory_list p))
             (<[i := true]> (page_directory_used p)), Some i).
Proof.
  intros Hkd Hp Hi. pose proof Hp as (Hl & Hu & _).
  assert (i < 32)%nat as Hlt.
  { apply first_index_Some in Hi as [(x & Hx & _) _]. apply lookup_lt_Some in Hx. by rewrite Hu in Hx. }
  destruct (pool_lookup p i Hp Hlt) as (dir & Hdir & Hget & Hok).
  destruct (directory_entry kd 0 Hkd) as [k0 E0]; [done |].
  destruct (directory_entry kd 0x300 Hkd) as [k768 E768]; [done |].
  exists dir, k0, k768. split_and!; [done | done | done | done | done |].
  unfold paging_create_new_page_directory. rewrite Hi.
  unfold PAGING_DIRECTORY_TABLE_MAX_COUNT, directory_ok, PAGE_ENTRY_COUNT in *.
  rewrite aset_in, bind_ret_l by lia. rewrite Hget, E0, E768, !bind_ret_l.
  rewrite (aset_in dir), bind_ret_l by lia.
  rewrite aset_in, bind_ret_l by (rewrite length_insert; lia).
  rewrite aset_in, bind_ret_l by lia. by rewrite !Nat2Z.id.
Qed.

Lemma free_directory_spec p i : pool_ok p -> (i < 32)%nat ->
  exists dir, page_directory_list p !! i = Some dir /\
    paging_free_page_directory p (Some i) =
      Ret (mkPool (<[i := clear_pde <$> dir]> (page_directory_list p))
             (<[i := false]> (page_directory_used p)), true).
Proof.
  intros Hp Hi. destruct (pool_lookup p i Hp Hi) as (dir & Hdir & Hget & Hok). exists dir.
  split; [done |]. destruct Hp as (Hl & Hu & _).
  unfold paging_free_page_directory, PAGING_DIRECTORY_TABLE_MAX_COUNT in *.
  destruct (Nat.ltb_spec i 32); [| lia]. rewrite aset_in, bind_ret_l by lia.
  rewrite Hget, bind_ret_l, aset_in, bind_ret_l by lia. by rewrite !Nat2Z.id.
Qed.

Lemma cleared_translates_nothing dir va : translate (clear_pde <$> dir) va = None.
Proof.
  unfold translate. destruct (aget (clear_pde <$> dir) (page_index va)) as [e| |] eqn:E; [| done | done].
  apply aget_ret in E as [_ E]. apply list_lookup_fmap_Some in E as (e' & -> & _). done.
Qed.

(** The entries a new directory gets. *)
Lemma new_directory_entries dir k0 k768 : directory_ok dir ->
  directory_ok (<[768%nat := k768]> (<[0%nat := k0]> dir)) /\
  aget (<[768%nat := k768]> (<[0%nat := k0]> dir)) 0 = Ret k0 /\
  aget (<[768%nat := k768]> (<[0%nat := k0]> dir)) 768 = Ret k768.
Proof.
  unfold directory_ok, PAGE_ENTRY_COUNT. intros Hok. split; [by rewrite !length_insert |].
  change 768%nat with (Z.to_nat 768). change (<[0%nat := k0]> dir) with (<[Z.to_nat 0 := k0]> dir).
  split; rewrite !aget_insert by (rewrite ?length_insert; lia); done.
Qed.

Lemma translate_entry dir va e : aget dir (page_index va) = Ret e ->
  translate dir va = if present_bit (flag e) && use_pagesize_4_mb (flag e)
    then Some (PAGE_FRAME_SIZE * lower_address e + va mod PAGE_FRAME_SIZE) else None.
Proof. intros E. unfold translate. by rewrite E. Qed.

(** C37: A new page directory is the first unused one, translates the first 4 MiB
    and the first 4 MiB of the kernel's half like the kernel's own directory and
    leaves every other directory alone; there is none exactly when all 32 are
    used.  Freeing it gives back the used flags and leaves a directory that
    translates no address. *)
Theorem page_directory_create_and_free kd p : directory_ok kd -> pool_ok p ->
  match first_index negb (page_directory_used p) with
  | None => paging_create_new_page_directory kd p = Ret (p, None) /\
      forall (i : nat) b, page_directory_used p !! i = Some b -> b = true
  | Some i =>
    exists p' dir, paging_create_new_page_directory kd p = Ret (p', Some i) /\ pool_ok p' /\
      page_directory_list p' !! i = Some dir /\
      (forall va, 0 <= va < PAGE_FRAME_SIZE -> translate dir va = translate kd va) /\
      (forall va, 0 <= va < PAGE_FRAME_SIZE ->
         translate dir (KERNEL_VIRTUAL_ADDRESS_BASE + va) = translate kd (KERNEL_VIRTUAL_ADDRESS_BASE + va)) /\
      (forall j : nat, j <> i -> page_directory_list p' !! j = page_directory_list p !! j /\
         page_directory_used p' !! j = page_directory_used p !! j) /\
      exists p'' dir', paging_free_page_directory p' (Some i) = Ret (p'', true) /\
        page_directory_used p'' = page_directory_used p /\
        page_directory_list p'' !! i = Some dir' /\ forall va, translate dir' va = None
  end.
Proof.
  intros Hkd Hp. destruct (first_index negb (page_directory_used p)) as [i|] eqn:Hi.
  - destruct (create_directory_spec kd p i Hkd Hp Hi) as (dir & k0 & k768 & Hlt & Hdir & Hok & E0 & E768 & Hc).
    destruct (new_directory_entries dir k0 k768 Hok) as (Hok' & N0 & N768).
    pose proof Hp as (Hl & Hu & Hall).
    set (dir' := <[768%nat := k768]> (<[0%nat := k0]> dir)) in *. clearbody dir'.
    set (p' := mkPool (<[i := dir']> (page_directory_list p)) (<[i := true]> (page_directory_used p))) in *.
    assert (pool_ok p') as Hp'.
    { split; [cbn; by rewrite length_insert | split; [cbn; by rewrite length_insert |]]. by apply Forall_insert. }
    exists p', dir'. split_and!; [exact Hc | exact Hp' | | | | |].
    + apply list_lookup_insert_eq. by rewrite Hl.
    + intros va Hva. unfold PAGE_FRAME_SIZE in *. assert (page_index va = 0) as Hpi.
      { rewrite page_index_mod by lia. apply Z.div_small. exact Hva. }
      rewrite (translate_entry dir' va k0), (translate_entry kd va k0); [done | |]; by rewrite Hpi.
    + intros va Hva. unfold PAGE_FRAME_SIZE, KERNEL_VIRTUAL_ADDRESS_BASE in *.
      assert (page_index (0xC0000000 + va) = 768) as Hpi.
      { rewrite page_index_mod by lia. unfold PAGE_FRAME_SIZE. Z.div_mod_to_equations. lia. }
      rewrite (translate_entry dir' _ k768), (translate_entry kd _ k768); [done | |]; by rewrite Hpi.
    + intros j Hj. cbn. by rewrite !list_lookup_insert_ne by done.
    + destruct (free_directory_spec p' i Hp' Hlt) as (dir2 & _ & Hf).
      eexists _, (clear_pde <$> dir2). split_and!; [exact Hf | | | apply cleared_translates_nothing].
      * cbn. rewrite list_insert_insert_eq. apply list_insert_id.
        apply first_index_Some in Hi as [([] & Hx & Hn) _]; done.
      * cbn. apply list_lookup_insert_eq. by rewrite length_insert, Hl.
  - unfold paging_create_new_page_directory. rewrite Hi. split; [done |].
    rewrite first_index_None in Hi. intros i b Hb. specialize (Hi i b Hb). by destruct b.
Qed.

(** ** Instances of the theorems *)

Lemma kernel_directory_ok : directory_ok paging_kernel_page_directory.
Proof. reflexivity. Qed.

Lemma initial_pool_ok : pool_ok initial_pool.
Proof. split; [reflexivity | split; [reflexivity |]]. by apply Forall_replicate. Qed.

Lemma update_maps_exactly_one_page_witness : exists dir',
  update_page_directory_entry paging_kernel_page_directory 0x1400000 0x800000 user_flag = Ret dir' /\
  directory_ok dir' /\
  forall x, 0 <= x < 2 ^ 32 ->
    translate dir' x =
      if x / PAGE_FRAME_SIZE =? 0x800000 / PAGE_FRAME_SIZE
      then Some (PAGE_FRAME_SIZE * (0x1400000 / PAGE_FRAME_SIZE) + x mod PAGE_FRAME_SIZE)
      else translate paging_kernel_page_directory x.
Proof.
  apply (update_maps_exactly_one_page paging_kernel_page_directory 0x1400000 0x800000 user_flag);
    [exact kernel_directory_ok | lia | lia | reflexivity | reflexivity].
Defined.

Lemma allocated_pages_alias_frame_0_witness : exists pm' dir',
  paging_allocate_user_page_frame initial_page_manager_state paging_kernel_page_directory 0x800000 =
    Ret (pm', dir', true) /\
  free_page_frame_count pm' = free_page_frame_count initial_page_manager_state - 1 /\
  (exists e, aget dir' (0x800000 / PAGE_FRAME_SIZE) = Ret e /\ user_bit (flag e) = true) /\
  translate dir' 0x800000 = Some (0x800000 mod PAGE_FRAME_SIZE).
Proof.
  apply (allocated_pages_alias_frame_0 initial_page_manager_state paging_kernel_page_directory 0x800000);
    [exact kernel_directory_ok | lia | reflexivity | cbn; unfold PAGE_FRAME_MAX_COUNT; lia].
Defined.

Lemma frame_counter_runs_out_of_bounds_witness :
  (forall n, (1 <= n <= 32)%nat -> exists dir',
     allocate_pages initial_page_manager_state paging_kernel_page_directory 0 n =
       Ret (mkPages (replicate n true ++ replicate (32 - n) false) (32 - Z.of_nat n), dir')) /\
  allocate_pages initial_page_manager_state paging_kernel_page_directory 0 33 = Oob.
Proof. apply (frame_counter_runs_out_of_bounds paging_kernel_page_directory 0 kernel_directory_ok). Defined.

Lemma freed_frames_stay_marked_witness : (exists dir',
  paging_free_user_page_frame
    (mkPages (replicate 4 true ++ replicate (32 - 4) false) (32 - Z.of_nat 4)) paging_kernel_page_directory 0 =
  Ret (mkPages (replicate 4 true ++ replicate (32 - 4) false) (33 - Z.of_nat 4), dir', true) /\
  translate dir' 0 = None) /\
  paging_free_user_page_frame (mkPages (replicate 32 true) 0) paging_kernel_page_directory 0 = Oob.
Proof. apply (freed_frames_stay_marked paging_kernel_page_directory 0 4 kernel_directory_ok). lia. Defined.

Lemma page_directory_create_and_free_witness : pool_ok initial_pool /\
  exists p', paging_create_new_page_directory paging_kernel_page_directory initial_pool = Ret (p', Some 0%nat).
Proof.
  split; [exact initial_pool_ok |].
  destruct (page_directory_create_and_free paging_kernel_page_directory initial_pool kernel_directory_ok initial_pool_ok) as (p' & _ & Hp & _).
  by exists p'.
Defined.
