(* ===== verification/IntStr.v ===== *)
(** * Decimal conversion (int_to_str in src/process.c and src/user-shell.c)

    [int_to_str] fills a character array from the least significant digit and
    then reverses it in place; [str_to_int] reads it back.  The array is a list:
    writing past its end is [Oob]. *)
From S2P Require Import Prelude.
#[local] Open Scope Z_scope.

(** ** The code *)

(** [while (num != 0) { rem = num % 10; str[i++] = rem + '0'; num = num / 10; }]
    Ten digits are enough for an [int]. *)
Fixpoint digit_loop (str : list Z) (i : Z) (num : Z) (fuel : nat) : outcome (list Z * Z) :=
  if num =? 0 then Ret (str, i) else
  match fuel with
  | O => NoFuel
  | S fuel' =>
    let rem := Z.rem num 10 in
    str ← aset str i (if 9 <? rem then (rem - 10) + 97 else rem + 48);
    digit_loop str (i + 1) (Z.quot num 10) fuel'
  end.

(** [while (start < end) { swap str[start], str[end]; start++; end--; }] *)
Fixpoint swap_loop (str : list Z) (start end_ : Z) (fuel : nat) : outcome (list Z) :=
  if negb (start <? end_) then Ret str else
  match fuel with
  | O => NoFuel
  | S fuel' =>
    temp ← aget str start;
    c ← aget str end_;
    str ← aset str start c;
    str ← aset str end_ temp;
    swap_loop str (start + 1) (end_ - 1) fuel'
  end.

Definition int_to_str (num : Z) (str : list Z) : outcome (list Z) :=
  if num =? 0 then str ← aset str 0 48; aset str 1 0 else
  let is_negative := num <? 0 in
  let num := if is_negative then i32 (- num) else num in
  '(str, i) ← digit_loop str 0 num 10;
  '(str, i) ← (if is_negative then str ← aset str i 45; Ret (str, i + 1) else Ret (str, i));
  str ← aset str i 0;
  swap_loop str 0 (i - 1) (length str).

(** [while (str[i] != 0) { result = result * 10 + str[i] - '0'; i++; }] *)
Fixpoint value_loop (str : list Z) (result : Z) : outcome Z :=
  match str with
  | [] => Oob
  | c :: str' => if c =? 0 then Ret result else value_loop str' (i32 (result * 10 + c - 48))
  end.

Definition str_to_int (str : list Z) : outcome Z :=
  c ← aget str 0;
  if c =? 45 then r ← value_loop (drop 1 str) 0; Ret (i32 (- r)) else value_loop str 0.

(** [custom_sprintf] with its fixed format "%02d:%02d:%02d". *)
Definition two_digits (v : Z) : list Z := [i8 (Z.quot v 10 + 48); i8 (Z.rem v 10 + 48)].
Definition custom_sprintf (h m s : Z) : list Z :=
  two_digits h ++ [58] ++ two_digits m ++ [58] ++ two_digits s ++ [0].

(** ** Specification *)

Fixpoint digits_rev (fuel : nat) (n : Z) : list Z :=
  match fuel with
  | O => []
  | S fuel' => if n =? 0 then [] else (n mod 10 + 48) :: digits_rev fuel' (n / 10)
  end.

(** Decimal notation, most significant digit first. *)
Definition decimal (z : Z) : list Z :=
  if z =? 0 then [48] else (if z <? 0 then [45] else []) ++ rev (digits_rev 10 (Z.abs z)).

(** ** Writing characters one after the other *)

Lemma aset_app (a b : list Z) x c : aset (a ++ c :: b) (Z.of_nat (length a)) x = Ret (a ++ x :: b).
Proof.
  rewrite aset_in by (rewrite length_app; cbn [length]; lia). rewrite Nat2Z.id. f_equal.
  replace (length a) with (length a + 0)%nat at 1 by lia. by rewrite insert_app_r.
Qed.

Lemma aset_end (a : list Z) x : aset a (Z.of_nat (length a)) x = Oob.
Proof. unfold aset. split_cond; [lia | done]. Qed.

Lemma digit_loop_spec fuel : forall n a b, 0 <= n < 10 ^ Z.of_nat fuel ->
  digit_loop (a ++ b) (Z.of_nat (length a)) n fuel =
    if (length (digits_rev fuel n) <=? length b)%nat
    then Ret (a ++ digits_rev fuel n ++ drop (length (digits_rev fuel n)) b,
              Z.of_nat (length a + length (digits_rev fuel n)))
    else Oob.
Proof.
  induction fuel as [|fuel IH]; intros n a b Hn.
  - change (10 ^ Z.of_nat 0) with 1 in Hn. assert (n = 0) as -> by lia.
    cbn [digit_loop digits_rev length drop]. change (0 =? 0) with true. cbv iota.
    cbn [Nat.leb]. by rewrite Nat.add_0_r.
  - cbn [digit_loop digits_rev]. destruct (Z.eqb_spec n 0) as [->|Hn0].
    { cbn [length Nat.leb]. by rewrite Nat.add_0_r. }
    rewrite Z.rem_mod_nonneg, Z.quot_div_nonneg by lia. pose proof (Z.mod_pos_bound n 10).
    destruct (Z.ltb_spec 9 (n mod 10)); [lia |].
    destruct b as [|c b]; cbn [length].
    { rewrite app_nil_r, aset_end. done. }
    rewrite aset_app, bind_ret_l. change ((n mod 10 + 48) :: b) with ([n mod 10 + 48] ++ b).
    rewrite app_assoc. replace (Z.of_nat (length a) + 1) with (Z.of_nat (length (a ++ [n mod 10 + 48])))
      by (rewrite length_app; cbn [length]; lia).
    rewrite IH.
    2:{ rewrite Nat2Z.inj_succ, Z.pow_succ_r in Hn by lia.
        split; [apply Z.div_pos; lia | apply Z.div_lt_upper_bound; lia]. }
    cbn [Nat.leb drop]. destruct (_ <=? _)%nat; [| done].
    rewrite length_app, <- app_assoc. cbn [length app]. do 2 f_equal. lia.
Qed.

(** The reversal of a segment in place. *)
Lemma swap_loop_spec n : forall s a b fuel, length s = n -> (n <= fuel)%nat ->
  swap_loop (a ++ s ++ b) (Z.of_nat (length a)) (Z.of_nat (length a + length s) - 1) fuel =
    Ret (a ++ rev s ++ b).
Proof.
  induction n as [n IH] using (well_founded_induction lt_wf). intros s a b fuel Hs Hf.
  destruct s as [|x s]; [| destruct s as [|y s _] using rev_ind].
  - destruct fuel; cbn [swap_loop length];
      match goal with |- context [?u <? ?v] => destruct (Z.ltb_spec u v) end; (lia || done).
  - destruct fuel; cbn [swap_loop length];
      match goal with |- context [?u <? ?v] => destruct (Z.ltb_spec u v) end; (lia || done).
  - assert (length (x :: s ++ [y]) = S (S (length s))) as Hl
      by (cbn [length]; rewrite length_app; cbn [length]; lia).
    rewrite Hl in *. destruct fuel as [|fuel]; [lia |]. cbn [swap_loop].
    destruct (Z.ltb_spec (Z.of_nat (length a)) (Z.of_nat (length a + S (S (length s))) - 1)); [| lia].
    cbn [negb]. rewrite <- app_comm_cons, <- app_assoc. cbn [app].
    assert (forall u, aget (a ++ u :: s ++ y :: b) (Z.of_nat (length a + S (S (length s))) - 1) = Ret y) as Hy.
    { intros u. apply aget_ret. split; [lia |].
      replace (Z.to_nat _) with (length a + S (length s))%nat by lia.
      rewrite lookup_app_r by lia. replace (_ - _)%nat with (S (length s)) by lia. cbn [lookup list_lookup].
      apply list_lookup_middle. done. }
    assert (aget (a ++ x :: s ++ y :: b) (Z.of_nat (length a)) = Ret x) as ->.
    { apply aget_ret. split; [lia |]. rewrite Nat2Z.id. by apply list_lookup_middle. }
    rewrite bind_ret_l, Hy, bind_ret_l, aset_app, bind_ret_l.
    assert (aset (a ++ y :: s ++ y :: b) (Z.of_nat (length a + S (S (length s))) - 1) x =
            Ret (a ++ y :: s ++ x :: b)) as ->.
    { replace (Z.of_nat (length a + S (S (length s))) - 1) with (Z.of_nat (length (a ++ y :: s)))
        by (rewrite length_app; cbn [length]; lia).
      replace (a ++ y :: s ++ y :: b) with ((a ++ y :: s) ++ y :: b) by (by rewrite <- app_assoc).
      rewrite aset_app. by rewrite <- app_assoc. }
    rewrite bind_ret_l.
    replace (a ++ y :: s ++ x :: b) with ((a ++ [y]) ++ s ++ ([x] ++ b)) by (by rewrite <- app_assoc).
    replace (Z.of_nat (length a) + 1) with (Z.of_nat (length (a ++ [y]))) by (rewrite length_app; cbn [length]; lia).
    replace (Z.of_nat (length a + S (S (length s))) - 1 - 1) with (Z.of_nat (length (a ++ [y]) + length s) - 1)
      by (rewrite length_app; cbn [length]; lia).
    rewrite (IH (length s)); [| lia | done | lia]. f_equal.
    cbn [rev]. rewrite rev_app_distr. cbn [rev app]. by rewrite <- !app_assoc.
Qed.

(** ** Lemmas on the whole conversion *)

Lemma digits_rev_length fuel : forall n, (length (digits_rev fuel n) <= fuel)%nat.
Proof. induction fuel as [|fuel IH]; intros n; cbn; [lia |]. destruct (n =? 0); cbn; [lia |]. specialize (IH (n / 10)). lia. Qed.

Lemma digits_rev_cons fuel n : n <> 0 -> digits_rev (S fuel) n = (n mod 10 + 48) :: digits_rev fuel (n / 10).
Proof. intros. cbn [digits_rev]. by destruct (Z.eqb_spec n 0). Qed.

Lemma length_decimal z : z <> 0 ->
  length (decimal z) = ((if (z <? 0)%Z then 1 else 0) + length (digits_rev 10 (Z.abs z)))%nat.
Proof.
  intros Hz. unfold decimal. destruct (Z.eqb_spec z 0); [done |].
  rewrite length_app, length_rev. by destruct (z <? 0).
Qed.

(** [int_to_str] on an array of any length. *)
Lemma int_to_str_spec num str : - 2 ^ 31 < num < 2 ^ 31 ->
  int_to_str num str =
    if (length (decimal num) <? length str)%nat
    then Ret (decimal num ++ [0] ++ drop (S (length (decimal num))) str) else Oob.
Proof.
  intros Hn. unfold int_to_str. destruct (Z.eqb_spec num 0) as [->|Hn0].
  { destruct str as [|a [|b str]]; [reflexivity | reflexivity |]. cbv iota.
    rewrite aset_in, bind_ret_l, aset_in by (rewrite ?length_insert; cbn [length]; lia). reflexivity. }
  rewrite length_decimal by done. unfold decimal. destruct (Z.eqb_spec num 0); [done |].
  set (ds := digits_rev 10 (Z.abs num)).
  replace (if num <? 0 then i32 (- num) else num) with (Z.abs num)
    by (destruct (Z.ltb_spec num 0); rewrite ?i32_id; lia).
  pose proof (digit_loop_spec 10 (Z.abs num) [] str) as Hd. cbn [app length] in Hd.
  change (Z.of_nat 0) with 0 in Hd. rewrite Hd by (change (10 ^ Z.of_nat 10) with 10000000000; lia).
  fold ds. clearbody ds. clear Hd.
  destruct (Nat.leb_spec (length ds) (length str)) as [Hl|Hl].
  2:{ destruct (Nat.ltb_spec ((if (num <? 0)%Z then 1 else 0) + length ds) (length str)); [lia | done]. }
  rewrite bind_ret_l. change (Z.of_nat (0 + length ds)) with (Z.of_nat (length ds)).
  set (r := drop (length ds) str).
  assert (length str = (length ds + length r)%nat) as Hlr by (unfold r; rewrite length_drop; lia).
  assert (forall ws (b : list Z), (length b + length ws = length str)%nat ->
    (str ← aset (ws ++ b) (Z.of_nat (length ws)) 0; swap_loop str 0 (Z.of_nat (length ws) - 1) (length str)) =
    if (length ws <? length str)%nat then Ret (rev ws ++ [0] ++ drop 1 b) else Oob) as Hfin.
  { intros ws [|c b] Hb; cbn [length] in Hb.
    - rewrite app_nil_r, aset_end. destruct (Nat.ltb_spec (length ws) (length str)); [lia | done].
    - rewrite aset_app, bind_ret_l. destruct (Nat.ltb_spec (length ws) (length str)); [| lia].
      pose proof (swap_loop_spec (length ws) ws [] (0 :: b) (length (ws ++ 0 :: b)) eq_refl) as Hsw.
      cbn [app length Nat.add] in Hsw. change (Z.of_nat 0) with 0 in Hsw. rewrite Hsw; [done |].
      rewrite length_app. lia. }
  destruct (Z.ltb_spec num 0); cbn [Nat.add].
  - destruct r as [|c r'] eqn:Er.
    + rewrite app_nil_r, aset_end. cbn [length] in Hlr.
      destruct (Nat.ltb_spec (S (length ds)) (length str)); [lia | done].
    + rewrite aset_app, !bind_ret_l. replace (ds ++ 45 :: r') with ((ds ++ [45]) ++ r') by (by rewrite <- app_assoc).
      replace (Z.of_nat (length ds) + 1) with (Z.of_nat (length (ds ++ [45]))) by (rewrite length_app; cbn [length]; lia).
      cbn [length] in Hlr. rewrite Hfin by (rewrite length_app; cbn [length]; lia).
      rewrite length_app. cbn [length]. rewrite Nat.add_1_r, rev_app_distr.
      replace (drop (S (S (length ds))) str) with (drop 1 r'); [done |].
      replace (S (S (length ds))) with (length ds + 2)%nat by lia.
      rewrite <- drop_drop. fold r. by rewrite Er.
  - rewrite bind_ret_l, Hfin by lia. replace (drop (S (length ds)) str) with (drop 1 r); [done |].
    unfold r. rewrite drop_drop. f_equal. lia.
Qed.

Lemma digits_rev_chars fuel : forall n, 0 <= n -> Forall (fun c => 48 <= c < 58) (digits_rev fuel n).
Proof.
  induction fuel as [|fuel IH]; intros n Hn; cbn [digits_rev]; [constructor |].
  destruct (n =? 0); [constructor |]. pose proof (Z.mod_pos_bound n 10).
  constructor; [lia |]. apply IH. apply Z.div_pos; lia.
Qed.

Lemma value_loop_digits fuel : forall n l, 0 <= n < 10 ^ Z.of_nat fuel -> n < 2 ^ 31 ->
  value_loop (rev (digits_rev fuel n) ++ l) 0 = value_loop l n.
Proof.
  induction fuel as [|fuel IH]; intros n l Hn Hlt.
  { change (10 ^ Z.of_nat 0) with 1 in Hn. by replace n with 0 by lia. }
  cbn [digits_rev]. destruct (Z.eqb_spec n 0) as [->|Hn0]; [done |].
  rewrite Nat2Z.inj_succ, Z.pow_succ_r in Hn by lia. pose proof (Z.div_mod n 10). pose proof (Z.mod_pos_bound n 10).
  cbn [rev]. rewrite <- app_assoc, IH; [| split; [apply Z.div_pos; lia | apply Z.div_lt_upper_bound; lia] | lia].
  cbn [app value_loop]. destruct (Z.eqb_spec (n mod 10 + 48) 0); [lia |].
  rewrite i32_id by lia. f_equal. lia.
Qed.

Lemma str_to_int_decimal num l : - 2 ^ 31 < num < 2 ^ 31 -> str_to_int (decimal num ++ 0 :: l) = Ret num.
Proof.
  intros Hn. unfold decimal. destruct (Z.eqb_spec num 0) as [->|Hn0]; [done |].
  pose proof (value_loop_digits 10 (Z.abs num) (0 :: l)) as Hv. change (10 ^ Z.of_nat 10) with 10000000000 in Hv.
  specialize (Hv ltac:(lia) ltac:(lia)). change (value_loop (0 :: l) (Z.abs num)) with (Ret (Z.abs num)) in Hv.
  assert (Forall (fun c => 48 <= c < 58) (rev (digits_rev 10 (Z.abs num)))) as Hc
    by (apply List.Forall_rev, digits_rev_chars; lia).
  set (ds := rev (digits_rev 10 (Z.abs num))) in *. clearbody ds.
  destruct (Z.ltb_spec num 0); cbn [app].
  - unfold str_to_int. rewrite (proj2 (aget_ret (45 :: _) 0 45)) by done. rewrite bind_ret_l.
    change (45 =? 45) with true. cbv iota. rewrite skipn_cons, skipn_O, Hv, bind_ret_l, i32_id by lia. f_equal. lia.
  - unfold str_to_int. destruct ds as [|c ds].
    { cbn in Hv. injection Hv as Hv. lia. }
    apply Forall_cons in Hc as [Hc _]. cbn [app] in *. rewrite (proj2 (aget_ret (c :: _) 0 c)) by done.
    rewrite bind_ret_l. destruct (Z.eqb_spec c 45); [lia |]. rewrite Hv. f_equal. lia.
Qed.

(** C40: Converting a number to decimal and back gives the number; the conversion
    fails, by writing past the array, exactly when the notation and its NUL are
    longer than the array, and it always terminates. *)
Theorem int_to_str_round_trip num str : - 2 ^ 31 < num < 2 ^ 31 ->
  match int_to_str num str with
  | Ret str' => length str' = length str /\ (exists rest : list Z, str' = decimal num ++ 0 :: rest) /\ str_to_int str' = Ret num
  | Oob => (length str <= length (decimal num))%nat
  | NoFuel => False
  end.
Proof.
  intros Hn. rewrite int_to_str_spec by done.
  destruct (Nat.ltb_spec (length (decimal num)) (length str)); [| done].
  split_and!; [| by eexists | by apply str_to_int_decimal].
  rewrite !length_app, length_drop. cbn [length]. lia.
Qed.

Lemma int_to_str_round_trip_witness :
  match int_to_str (-2047) (replicate 8 1) with
  | Ret str' => length str' = length (replicate 8 1) /\ (exists rest : list Z, str' = decimal (-2047) ++ 0 :: rest) /\ str_to_int str' = Ret (-2047)
  | Oob => (length (replicate 8 1) <= length (decimal (-2047)))%nat
  | NoFuel => False
  end.
Proof. apply (int_to_str_round_trip (-2047) (replicate 8 1)). lia. Defined.
