(* ===== verification/PortIO.v ===== *)
(** * Port input and output (src/portio.c) and the interrupt controller

    The four functions of portio.c are single [in]/[out] instructions: what they
    do is up to the hardware behind the ports, so the bus is an interface.  The
    PIC routines of src/interrupt.c and the timer setup of src/scheduler.c are
    sequences of port operations on any bus. *)
From S2P Require Import Prelude.

(** ** The bus *)

Class PortBus (B : Type) := {
  port_in : B -> Z -> B * Z;
  port_out : B -> Z -> Z -> B;
  port_in16 : B -> Z -> B * Z;
  port_out16 : B -> Z -> Z -> B;
}.

Definition PIC1_COMMAND : Z := 0x20.
Definition PIC1_DATA : Z := 0x21.
Definition PIC2_COMMAND : Z := 0xA0.
Definition PIC2_DATA : Z := 0xA1.
Definition PIC1_OFFSET : Z := 0x20.
Definition PIC2_OFFSET : Z := 0x28.
Definition PIC_ACK : Z := 0x20.
Definition PIC_DISABLE_ALL_MASK : Z := 0xFF.
Definition ICW1_ICW4 : Z := 0x01.
Definition ICW1_INIT : Z := 0x10.
Definition ICW4_8086 : Z := 0x01.
Definition IRQ_TIMER : Z := 0.
Definition IRQ_KEYBOARD : Z := 1.

Definition PIT_TIMER_COUNTER : Z := Z.quot 1193182 1000.
Definition PIT_COMMAND_VALUE : Z := Z.lor 0 (Z.lor (Z.shiftl 3 1) (Z.lor (Z.shiftl 3 4) (Z.shiftl 0 6))).

Section Ports.
Context {B : Type} `{PortBus B}.

Definition io_wait (b : B) : B := port_out b 0x80 0.

Definition pic_ack (b : B) (irq : Z) : B :=
  let b := if 8 <=? irq then port_out b PIC2_COMMAND PIC_ACK else b in
  port_out b PIC1_COMMAND PIC_ACK.

Definition pic_remap (b : B) : B :=
  let b := io_wait (port_out b PIC1_COMMAND (Z.lor ICW1_INIT ICW1_ICW4)) in
  let b := io_wait (port_out b PIC2_COMMAND (Z.lor ICW1_INIT ICW1_ICW4)) in
  let b := io_wait (port_out b PIC1_DATA PIC1_OFFSET) in
  let b := io_wait (port_out b PIC2_DATA PIC2_OFFSET) in
  let b := io_wait (port_out b PIC1_DATA 4) in
  let b := io_wait (port_out b PIC2_DATA 2) in
  let b := io_wait (port_out b PIC1_DATA ICW4_8086) in
  let b := io_wait (port_out b PIC2_DATA ICW4_8086) in
  let b := port_out b PIC1_DATA PIC_DISABLE_ALL_MASK in
  port_out b PIC2_DATA PIC_DISABLE_ALL_MASK.

(** [out(PIC1_DATA, in(PIC1_DATA) & ~(1 << irq))] *)
Definition unmask_irq (b : B) (irq : Z) : B :=
  let '(b, v) := port_in b PIC1_DATA in
  port_out b PIC1_DATA (u8 (Z.land v (Z.lnot (Z.shiftl 1 irq)))).

Definition activate_keyboard_interrupt (b : B) : B := unmask_irq b IRQ_KEYBOARD.

(** [cli] is the interrupt flag of the processor, not modelled. *)
Definition activate_timer_interrupt (b : B) : B :=
  let b := port_out b 0x43 PIT_COMMAND_VALUE in
  let b := port_out b 0x40 (u8 (Z.land PIT_TIMER_COUNTER 0xFF)) in
  let b := port_out b 0x40 (u8 (Z.land (Z.shiftr PIT_TIMER_COUNTER 8) 0xFF)) in
  unmask_irq b IRQ_TIMER.
End Ports.

(** ** The interrupt mask register

    Documented behaviour of the 8259A that the routines rely on: a byte written
    to the data port outside an initialisation sequence becomes the mask that is
    read back, ICW1 starts a sequence of three bytes that are not masks, and
    writes to other ports leave the mask alone. *)
Class PicSpec (B : Type) `{PortBus B} := {
  pic_mask : B -> Z;
  (** How many initialisation bytes the master still expects. *)
  pic_pending : B -> nat;
  pic_vector : B -> Z;
  pic_icw1 b v : Z.testbit v 4 = true -> Z.testbit v 0 = true -> Z.testbit v 1 = false ->
    pic_pending (port_out b PIC1_COMMAND v) = 3%nat;
  pic_icw2 b v : pic_pending b = 3%nat ->
    pic_pending (port_out b PIC1_DATA v) = 2%nat /\ pic_vector (port_out b PIC1_DATA v) = v;
  pic_icw b v n : pic_pending b = S n -> (n < 2)%nat ->
    pic_pending (port_out b PIC1_DATA v) = n /\ pic_vector (port_out b PIC1_DATA v) = pic_vector b;
  pic_ocw1 b v : pic_pending b = 0%nat -> pic_mask (port_out b PIC1_DATA v) = v /\
    pic_pending (port_out b PIC1_DATA v) = 0%nat /\ pic_vector (port_out b PIC1_DATA v) = pic_vector b;
  pic_other b p v : p <> PIC1_COMMAND -> p <> PIC1_DATA ->
    pic_mask (port_out b p v) = pic_mask b /\ pic_pending (port_out b p v) = pic_pending b /\
    pic_vector (port_out b p v) = pic_vector b;
  pic_read b b' v : pic_pending b = 0%nat -> port_in b PIC1_DATA = (b', v) ->
    v = pic_mask b /\ pic_mask b' = pic_mask b /\ pic_pending b' = pic_pending b /\ pic_vector b' = pic_vector b;
}.

Section Pic.
Context {B : Type} `{PicSpec B}.

(** Follow the expected bytes through a sequence of port writes. *)
Record pic_at (b : B) (pending : nat) (vector : option Z) : Prop := {
  at_pending : pic_pending b = pending;
  at_vector : forall v, vector = Some v -> pic_vector b = v;
}.

Lemma at_other b p v n vec : pic_at b n vec -> p <> PIC1_COMMAND -> p <> PIC1_DATA -> pic_at (port_out b p v) n vec.
Proof. intros [Hn Hv] H1 H2. destruct (pic_other b p v H1 H2) as (_ & Hp & Hve). constructor; [congruence |]. intros. rewrite Hve. auto. Qed.

Lemma at_wait b n vec : pic_at b n vec -> pic_at (io_wait b) n vec.
Proof. intros Hb. by apply at_other. Qed.

(** [unmask_irq] clears one bit of the mask. *)
Lemma unmask_spec b irq vec : pic_at b 0 vec -> 0 <= pic_mask b < 256 -> 0 <= irq < 8 ->
  pic_at (unmask_irq b irq) 0 vec /\ pic_mask (unmask_irq b irq) = Z.ldiff (pic_mask b) (2 ^ irq).
Proof.
  intros [Hn Hv] Hm Hi. unfold unmask_irq. destruct (port_in b PIC1_DATA) as [b' v] eqn:E.
  destruct (pic_read b b' v Hn E) as (-> & _ & Hp & Hve).
  set (w := u8 _). destruct (pic_ocw1 b' w) as (Hm' & Hp' & Hve'); [congruence |].
  split; [constructor; [done | intros; rewrite Hve', Hve; auto] |].
  rewrite Hm'. unfold w, u8. rewrite Z.shiftl_1_l, Z.ldiff_land, <- Z.land_ones by lia.
  rewrite <- Z.land_assoc, (Z.land_comm (Z.lnot _)), Z.land_assoc, Z.land_ones, Z.mod_small by lia. done.
Qed.

Lemma at_icw2 b v vec : pic_at b 3 vec -> pic_at (port_out b PIC1_DATA v) 2 (Some v).
Proof. intros [Hn _]. destruct (pic_icw2 b v Hn). constructor; [done | by intros ? [= <-]]. Qed.

Lemma at_icw b v n vec : (n < 2)%nat -> pic_at b (S n) vec -> pic_at (port_out b PIC1_DATA v) n vec.
Proof. intros Hlt [Hn Hv]. destruct (pic_icw b v n Hn Hlt) as [? E]. constructor; [done |]. intros. rewrite E. auto. Qed.

Lemma at_ocw1 b v vec : pic_at b 0 vec -> pic_at (port_out b PIC1_DATA v) 0 vec.
Proof. intros [Hn Hv]. destruct (pic_ocw1 b v Hn) as (_ & ? & E). constructor; [done |]. intros. rewrite E. auto. Qed.

Lemma pic_remap_at b : pic_at (pic_remap b) 0 (Some PIC1_OFFSET) /\ pic_mask (pic_remap b) = PIC_DISABLE_ALL_MASK.
Proof.
  unfold pic_remap. cbv zeta.
  match goal with |- context [port_out (port_out ?c PIC1_DATA PIC_DISABLE_ALL_MASK) PIC2_DATA _] =>
    assert (pic_at c 0 (Some PIC1_OFFSET)) as Hc end.
  { apply at_wait, at_other; [| done | done]. apply at_wait, at_icw; [lia |].
    apply at_wait, at_other; [| done | done]. apply at_wait, at_icw; [lia |].
    apply at_wait, at_other; [| done | done]. apply at_wait, at_icw2 with (vec := None).
    apply at_wait, at_other; [| done | done]. apply at_wait.
    constructor; [by apply pic_icw1 | done]. }
  split; [apply at_other; [by apply at_ocw1 | done | done] |].
  match goal with |- pic_mask (port_out ?c PIC2_DATA ?v) = _ => destruct (pic_other c PIC2_DATA v) as (-> & _) end;
    [done | done |]. apply pic_ocw1. apply Hc.
Qed.

(** Remapping the PIC and enabling keyboard and timer leaves the master
    controller initialised at vector 0x20 with exactly those two lines unmasked,
    whatever state it was in. *)
Theorem pic_setup_enables_keyboard_and_timer b :
  let b' := activate_timer_interrupt (activate_keyboard_interrupt (pic_remap b)) in
  pic_pending b' = 0%nat /\ pic_vector b' = PIC1_OFFSET /\
  pic_mask b' = 0xFF - 2 ^ IRQ_KEYBOARD - 2 ^ IRQ_TIMER.
Proof.
  cbv zeta. destruct (pic_remap_at b) as [Hr Hm]. set (b1 := pic_remap b) in *. clearbody b1.
  unfold activate_keyboard_interrupt, activate_timer_interrupt, IRQ_KEYBOARD, IRQ_TIMER.
  destruct (unmask_spec b1 1 _ Hr) as [H1 M1]; [rewrite Hm; done | done |].
  set (b2 := unmask_irq b1 1) in *. clearbody b2. cbv zeta.
  set (b3 := port_out b2 0x43 _). assert (pic_at b3 0 (Some PIC1_OFFSET)) as H3 by (by apply at_other).
  assert (pic_mask b3 = pic_mask b2) as M3 by (by apply pic_other). clearbody b3.
  set (b4 := port_out b3 0x40 _). assert (pic_at b4 0 (Some PIC1_OFFSET)) as H4 by (by apply at_other).
  assert (pic_mask b4 = pic_mask b3) as M4 by (by apply pic_other). clearbody b4.
  set (b5 := port_out b4 0x40 _). assert (pic_at b5 0 (Some PIC1_OFFSET)) as H5 by (by apply at_other).
  assert (pic_mask b5 = pic_mask b4) as M5 by (by apply pic_other). clearbody b5.
  assert (pic_mask b5 = 0xFD) as M by (rewrite M5, M4, M3, M1, Hm; done).
  destruct (unmask_spec b5 0 _ H5) as [[H6 V6] M6]; [rewrite M; done | done |].
  split_and!; [done | by apply V6 | rewrite M6, M; done].
Qed.
End Pic.

(** ** A controller that behaves as documented *)

Record Pic := mkPic { imr : Z; pending : nat; vector_base : Z }.

#[export] Instance pic_bus : PortBus Pic := {
  port_in c p := (c, if p =? PIC1_DATA then imr c else 0);
  port_out c p v :=
    if p =? PIC1_COMMAND then (if Z.testbit v 4 then mkPic (imr c) 3 (vector_base c) else c)
    else if p =? PIC1_DATA then
      match pending c with
      | O => mkPic v 0 (vector_base c)
      | 3%nat => mkPic (imr c) 2 v
      | S n => mkPic (imr c) n (vector_base c)
      end
    else c;
  port_in16 c p := (c, 0);
  port_out16 c p v := c;
}.

#[export] Instance pic_spec : PicSpec Pic.
Proof.
  refine {| pic_mask := imr; pic_pending := pending; pic_vector := vector_base |}; cbn.
  - intros b v H4 _ _. by rewrite H4.
  - intros b v Hn. by rewrite Hn.
  - intros b v n Hn Hlt. rewrite Hn. destruct n as [|[|n]]; [done | done | lia].
  - intros b v Hn. by rewrite Hn.
  - intros b p v H1 H2. destruct (Z.eqb_spec p PIC1_COMMAND), (Z.eqb_spec p PIC1_DATA); done.
  - intros b b' v _ [= <- <-]. done.
Defined.

Lemma pic_setup_enables_keyboard_and_timer_witness :
  activate_timer_interrupt (activate_keyboard_interrupt (pic_remap (mkPic 0x12 0 0x08))) = mkPic 0xFC 0 0x20 /\
  pic_mask (activate_timer_interrupt (activate_keyboard_interrupt (pic_remap (mkPic 0x12 0 0x08)))) =
    0xFF - 2 ^ IRQ_KEYBOARD - 2 ^ IRQ_TIMER.
Proof. split; [reflexivity |]. apply (pic_setup_enables_keyboard_and_timer (mkPic 0x12 0 0x08)). Defined.
