(* ===== verification/Framebuffer.v ===== *)
(** * The text console (src/framebuffer.c, scroll_up of src/keyboard.c)

    The VGA text memory is part of the flat memory, at FRAMEBUFFER_MEMORY_OFFSET;
    the cursor position is kept in [framebuffer_state] and sent to two ports.

    The second half relates the code to a terminal: a grid of 25 rows of 80 cells
    with a cursor, where a character is placed at the cursor and the grid moves
    up by a row when the cursor leaves it. *)
From S2P Require Import Prelude CString Memory PortIO.
#[local] Open Scope Z_scope.

Definition FRAMEBUFFER_MEMORY_OFFSET : Z := 0xC00B8000.
Definition CURSOR_PORT_CMD : Z := 0x03D4.
Definition CURSOR_PORT_DATA : Z := 0x03D5.
Definition MAX_COLUMN : Z := 80.
Definition MAX_ROW : Z := 25.

(** struct FramebufferState *)
Record FramebufferState := mkFb {
  cur_row : Z;
  cur_col : Z;
  start_row : Z;
  start_col : Z;
}.
Definition initial_framebuffer_state : FramebufferState := mkFb 0 0 0 0.

Definition set_cursor (fb : FramebufferState) (r c : Z) : FramebufferState := mkFb r c (start_row fb) (start_col fb).

Definition framebuffer_set_cursor {B} `{PortBus B} (b : B) (r c : Z) : B :=
  let pos := u16 (u8 r * 80 + u8 c) in
  let b := port_out b CURSOR_PORT_CMD 0x0F in
  let b := port_out b CURSOR_PORT_DATA (u8 (Z.land pos 0xFF)) in
  let b := port_out b CURSOR_PORT_CMD 0x0E in
  port_out b CURSOR_PORT_DATA (u8 (Z.land (Z.shiftr pos 8) 0xFF)).

Definition framebuffer_write (m : mem) (row col c fg bg : Z) : mem :=
  let position := u16 (u8 row * 80 + u8 col) in
  let color := u8 (Z.lor (Z.shiftl (u8 bg) 4) (Z.land (u8 fg) 0x0F)) in
  let m := store m (FRAMEBUFFER_MEMORY_OFFSET + position * 2) c in
  store m (FRAMEBUFFER_MEMORY_OFFSET + (position * 2 + 1)) color.

Definition framebuffer_clear (m : mem) : mem :=
  for_up 0 25 (fun i m => for_up 0 80 (fun j m => framebuffer_write m (Z.of_nat i) (Z.of_nat j) 0 7 0) m) m.

(** src/keyboard.c *)
Definition scroll_up (fb : FramebufferState) (m : mem) : FramebufferState * mem :=
  let m := memcpy m FRAMEBUFFER_MEMORY_OFFSET (FRAMEBUFFER_MEMORY_OFFSET + MAX_COLUMN * 2)
             (Z.to_nat (MAX_COLUMN * 2 * MAX_ROW - MAX_COLUMN * 2)) in
  let fb := mkFb (cur_row fb - 1) (cur_col fb) (start_row fb - 1) (start_col fb) in
  (fb, for_up 0 (Z.to_nat MAX_COLUMN) (fun i m => framebuffer_write m (cur_row fb) (Z.of_nat i) 32 0xF 0) m).

(** [while (cur_row >= MAX_ROW) scroll_up();] *)
Fixpoint scroll_while (fb : FramebufferState) (m : mem) (fuel : nat) : outcome (FramebufferState * mem) :=
  if negb (MAX_ROW <=? cur_row fb) then Ret (fb, m) else
  match fuel with
  | O => NoFuel
  | S fuel' => let '(fb, m) := scroll_up fb m in scroll_while fb m fuel'
  end.

(** Each round lowers the row by one. *)
Definition putchar (fb : FramebufferState) (m : mem) (c color : Z) : outcome (FramebufferState * mem) :=
  let m := if c =? 10 then m else framebuffer_write m (cur_row fb) (cur_col fb) c color 0 in
  if (cur_col fb =? 79) || (c =? 10) then
    let fb := set_cursor fb (cur_row fb + 1) 0 in
    scroll_while fb m (S (Z.to_nat (cur_row fb)))
  else Ret (set_cursor fb (cur_row fb) (cur_col fb + 1), m).

Fixpoint puts_loop (fb : FramebufferState) (m : mem) (str color : Z) (i : nat) (n : nat)
    : outcome (FramebufferState * mem) :=
  match n with
  | O => Ret (fb, m)
  | S n' =>
    let c := load m (str + Z.of_nat i) in
    if c =? 0 then Ret (fb, m) else
    '(fb, m) ← putchar fb m c color;
    puts_loop fb m str color (S i) n'
  end.

Definition puts {B} `{PortBus B} (b : B) (fb : FramebufferState) (m : mem) (str len color : Z)
    : outcome (B * FramebufferState * mem) :=
  '(fb, m) ← puts_loop fb m str color 0 (Z.to_nat len);
  Ret (framebuffer_set_cursor b (cur_row fb) (cur_col fb), fb, m).

(** ** The terminal *)

(** Cells as pairs of character and attribute, functions of row and column. *)
Abbreviation grid := (Z -> Z -> Z * Z).
Record terminal := mkTerm { cells : grid; t_row : Z; t_col : Z }.

Definition put_cell (g : grid) (r c : Z) (x : Z * Z) : grid :=
  fun r' c' => if (r' =? r) && (c' =? c) then x else g r' c'.
Definition scroll_grid (g : grid) : grid :=
  fun r c => if r <? MAX_ROW - 1 then g (r + 1) c else (32, 0x0F).

Definition newline (t : terminal) : terminal :=
  if t_row t =? MAX_ROW - 1 then mkTerm (scroll_grid (cells t)) (t_row t) 0
  else mkTerm (cells t) (t_row t + 1) 0.
Definition type_char (fg : Z) (t : terminal) (c : Z) : terminal :=
  if c =? 10 then newline t else
  let t := mkTerm (put_cell (cells t) (t_row t) (t_col t) (c, Z.land (u8 fg) 0x0F)) (t_row t) (t_col t) in
  if t_col t =? MAX_COLUMN - 1 then newline t else mkTerm (cells t) (t_row t) (t_col t + 1).

(** Screens that show the same. *)
Definition on_screen (r c : Z) : Prop := 0 <= r < MAX_ROW /\ 0 <= c < MAX_COLUMN.
Definition same_grid (g g' : grid) : Prop := forall r c, on_screen r c -> g r c = g' r c.
#[export] Instance same_grid_equiv : Equivalence same_grid.
Proof.
  split; [intros g r c _; done | intros g g' Hg r c Hrc; by rewrite Hg | ].
  intros g1 g2 g3 H1 H2 r c Hrc. by rewrite H1, H2.
Qed.
#[export] Instance put_cell_proper : Proper (same_grid ==> eq ==> eq ==> eq ==> same_grid) put_cell.
Proof. intros g g' Hg r _ <- c _ <- x _ <- r' c' Hrc. unfold put_cell. destruct (_ && _); [done | by apply Hg]. Qed.
#[export] Instance scroll_grid_proper : Proper (same_grid ==> same_grid) scroll_grid.
Proof.
  intros g g' Hg r c [Hr Hc]. unfold scroll_grid. destruct (Z.ltb_spec r (MAX_ROW - 1)); [| done].
  apply Hg. split; [lia | done].
Qed.

(** What the memory shows. *)
Definition cell_addr (r c : Z) : Z := FRAMEBUFFER_MEMORY_OFFSET + (r * 80 + c) * 2.
Definition screen (m : mem) : grid := fun r c => (load m (cell_addr r c), load m (cell_addr r c + 1)).
Definition cursor_ok (fb : FramebufferState) : Prop := on_screen (cur_row fb) (cur_col fb).
Definition shows (fb : FramebufferState) (m : mem) (t : terminal) : Prop :=
  same_grid (screen m) (cells t) /\ cur_row fb = t_row t /\ cur_col fb = t_col t.
(** Nothing but the text memory changed. *)
Definition same_outside_screen (m m' : mem) : Prop := forall a, 0 <= a < 2 ^ 32 ->
  a < FRAMEBUFFER_MEMORY_OFFSET \/ FRAMEBUFFER_MEMORY_OFFSET + 4000 <= a -> load m' a = load m a.

(** ** One cell *)

Lemma cell_addr_range r c : on_screen r c ->
  FRAMEBUFFER_MEMORY_OFFSET <= cell_addr r c /\ cell_addr r c + 1 < FRAMEBUFFER_MEMORY_OFFSET + 4000.
Proof. unfold on_screen, cell_addr, MAX_ROW, MAX_COLUMN, FRAMEBUFFER_MEMORY_OFFSET. lia. Qed.

Lemma write_load m r c ch fg bg x : 0 <= r < 256 -> 0 <= c < 256 -> 0 <= x < 2 ^ 32 ->
  load (framebuffer_write m r c ch fg bg) x =
    if x =? cell_addr r c then u8 ch
    else if x =? cell_addr r c + 1 then u8 (Z.lor (Z.shiftl (u8 bg) 4) (Z.land (u8 fg) 0x0F))
    else load m x.
Proof.
  intros Hr Hc Hx. unfold cell_addr, FRAMEBUFFER_MEMORY_OFFSET in *.
  unfold framebuffer_write, FRAMEBUFFER_MEMORY_OFFSET.
  rewrite (u8_id r), (u8_id c), u16_id by lia.
  rewrite !load_store_in by lia. rewrite (u8_id (u8 _)) by apply u8_range.
  split_cond; done || lia.
Qed.

Lemma on_screen_bytes r c : on_screen r c -> 0 <= r < 256 /\ 0 <= c < 256.
Proof. unfold on_screen, MAX_ROW, MAX_COLUMN. lia. Qed.

Lemma write_screen m r c ch fg bg : on_screen r c ->
  same_grid (screen (framebuffer_write m r c ch fg bg))
    (put_cell (screen m) r c (u8 ch, u8 (Z.lor (Z.shiftl (u8 bg) 4) (Z.land (u8 fg) 0x0F)))).
Proof.
  intros Hrc r' c' Hrc'. pose proof (cell_addr_range r c Hrc). pose proof (cell_addr_range r' c' Hrc').
  pose proof (on_screen_bytes r c Hrc) as [? ?].
  unfold screen, put_cell. unfold FRAMEBUFFER_MEMORY_OFFSET in *. rewrite !write_load by lia.
  unfold cell_addr, on_screen, MAX_ROW, MAX_COLUMN in *.
  destruct (Z.eqb_spec r' r) as [->|]; [destruct (Z.eqb_spec c' c) as [->|] |]; cbn [andb]; split_cond; lia || done.
Qed.

Lemma write_outside m r c ch fg bg : on_screen r c -> same_outside_screen m (framebuffer_write m r c ch fg bg).
Proof.
  intros Hrc a Ha Ho. pose proof (cell_addr_range r c Hrc). pose proof (on_screen_bytes r c Hrc) as [? ?].
  rewrite write_load by done. split_cond; lia || done.
Qed.

Lemma write_bytes_ok m r c ch fg bg : bytes_ok m -> bytes_ok (framebuffer_write m r c ch fg bg).
Proof. intros. by apply store_bytes_ok, store_bytes_ok. Qed.

Lemma outside_trans m1 m2 m3 : same_outside_screen m1 m2 -> same_outside_screen m2 m3 -> same_outside_screen m1 m3.
Proof. intros H1 H2 a Ha Ho. by rewrite H2, H1. Qed.

(** ** Scrolling *)

(** The row written after the copy. *)
Lemma blank_row_spec m r : bytes_ok m -> 0 <= r < MAX_ROW -> forall n, (n <= 80)%nat ->
  let m' := for_up 0 n (fun i m => framebuffer_write m r (Z.of_nat i) 32 0xF 0) m in
  bytes_ok m' /\ same_outside_screen m m' /\
  same_grid (screen m') (fun r' c' => if (r' =? r) && (c' <? Z.of_nat n) then (32, 0x0F) else screen m r' c').
Proof.
  intros Hm Hr n Hn. cbv zeta.
  apply (for_up_ind (fun k m' => (k <= 80)%nat -> bytes_ok m' /\ same_outside_screen m m' /\
    same_grid (screen m') (fun r' c' => if (r' =? r) && (c' <? Z.of_nat k) then (32, 0x0F) else screen m r' c'))
    _ 0 n m); [| | lia].
  - intros _. split_and!; [done | by intros |]. intros r' c' [_ Hc]. destruct (Z.ltb_spec c' (Z.of_nat 0)); [lia |].
    by rewrite andb_false_r.
  - intros i m' Hi IH Hk. destruct IH as (Hb & Ho & Hs); [lia |].
    assert (on_screen r (Z.of_nat i)) as Hrc by (unfold on_screen, MAX_COLUMN; lia).
    split_and!; [by apply write_bytes_ok | eapply outside_trans; [exact Ho | by apply write_outside] |].
    etrans; [by apply write_screen |]. rewrite Hs. intros r' c' [Hr' Hc']. unfold put_cell.
    change (u8 32) with 32. change (u8 (Z.lor (Z.shiftl (u8 0) 4) (Z.land (u8 15) 15))) with 15.
    destruct (Z.eqb_spec r' r) as [->|]; cbn [andb]; [| done].
    destruct (Z.eqb_spec c' (Z.of_nat i)), (Z.ltb_spec c' (Z.of_nat (S i))), (Z.ltb_spec c' (Z.of_nat i)); lia || done.
Qed.

Lemma scroll_spec fb m : bytes_ok m -> cur_row fb = MAX_ROW ->
  let '(fb', m') := scroll_up fb m in
  bytes_ok m' /\ same_outside_screen m m' /\ same_grid (screen m') (scroll_grid (screen m)) /\
  fb' = mkFb (MAX_ROW - 1) (cur_col fb) (start_row fb - 1) (start_col fb).
Proof.
  intros Hm Hr. unfold scroll_up. rewrite Hr. cbn [cur_row].
  set (m1 := memcpy m _ _ _).
  assert (copied m m1 FRAMEBUFFER_MEMORY_OFFSET (FRAMEBUFFER_MEMORY_OFFSET + 160) 0 3840) as Hc.
  { apply copy_up; [done | | | left]; unfold in_space, FRAMEBUFFER_MEMORY_OFFSET; lia. }
  assert (bytes_ok m1) as Hm1 by by apply memcpy_ok. clearbody m1.
  destruct (blank_row_spec m1 (MAX_ROW - 1) Hm1) with (n := 80%nat) as (Hb & Ho & Hs); [done | done |].
  split_and!; [exact Hb | | | done].
  - eapply outside_trans; [| exact Ho]. intros a Ha Hout. rewrite Hc by done.
    unfold FRAMEBUFFER_MEMORY_OFFSET in *. split_cond; lia || done.
  - etrans; [exact Hs |]. intros r c Hrc. unfold scroll_grid. pose proof (cell_addr_range r c Hrc) as Ha.
    assert (on_screen r c) as [Hr' Hc'] by done. unfold MAX_ROW, MAX_COLUMN in *.
    destruct (Z.ltb_spec r (25 - 1)).
    + destruct (Z.eqb_spec r (25 - 1)); [lia |]. cbn [andb]. unfold screen.
      unfold cell_addr, FRAMEBUFFER_MEMORY_OFFSET in *. rewrite !Hc by lia.
      split_cond; try lia. f_equal; f_equal; lia.
    + destruct (Z.eqb_spec r (25 - 1)); [| lia]. destruct (Z.ltb_spec c (Z.of_nat 80)); [done | lia].
Qed.

(** ** A character *)

Lemma scroll_while_spec fb m fuel : bytes_ok m -> 0 <= cur_row fb <= MAX_ROW -> (1 <= fuel)%nat ->
  exists fb' m', scroll_while fb m fuel = Ret (fb', m') /\ bytes_ok m' /\ same_outside_screen m m' /\
    cur_col fb' = cur_col fb /\
    (if cur_row fb =? MAX_ROW then cur_row fb' = MAX_ROW - 1 /\ same_grid (screen m') (scroll_grid (screen m))
     else cur_row fb' = cur_row fb /\ m' = m).
Proof.
  intros Hm Hr Hf. destruct fuel as [|fuel]; [lia |]. cbn [scroll_while].
  destruct (Z.leb_spec MAX_ROW (cur_row fb)); cbn [negb].
  - assert (cur_row fb = MAX_ROW) as Hr' by lia. pose proof (scroll_spec fb m Hm Hr') as Hs.
    destruct (scroll_up fb m) as [fb1 m1]. destruct Hs as (Hb & Ho & Hg & ->).
    exists (mkFb (MAX_ROW - 1) (cur_col fb) (start_row fb - 1) (start_col fb)), m1.
    split; [destruct fuel; reflexivity |]. split_and!; [done | done | done |].
    rewrite Hr', Z.eqb_refl. done.
  - exists fb, m. split_and!; [done | done | by intros | done |]. destruct (Z.eqb_spec (cur_row fb) MAX_ROW); [lia | done].
Qed.

Lemma newline_spec fb m t : bytes_ok m -> same_grid (screen m) (cells t) -> cur_row fb = t_row t ->
  0 <= t_row t < MAX_ROW ->
  exists fb' m', (let fb := set_cursor fb (cur_row fb + 1) 0 in scroll_while fb m (S (Z.to_nat (cur_row fb)))) = Ret (fb', m') /\
    bytes_ok m' /\ same_outside_screen m m' /\ shows fb' m' (newline t).
Proof.
  intros Hm Hg Hr Hrange. cbv zeta.
  destruct (scroll_while_spec (set_cursor fb (cur_row fb + 1) 0) m (S (Z.to_nat (cur_row (set_cursor fb (cur_row fb + 1) 0)))))
    as (fb' & m' & E & Hb & Ho & Hcol & Hcase); [done | cbn; lia | lia |].
  exists fb', m'. split_and!; [exact E | done | done |]. cbn [cur_row cur_col set_cursor] in *.
  unfold shows, newline. unfold MAX_ROW in *.
  destruct (Z.eqb_spec (cur_row fb + 1) 25), (Z.eqb_spec (t_row t) (25 - 1)); try lia; cbn [cells t_row t_col].
  - destruct Hcase as [-> Hs]. split_and!; [| lia | done]. by rewrite Hs, Hg.
  - destruct Hcase as [-> ->]. split_and!; [done | lia | done].
Qed.

Lemma putchar_shows fb m t c color : bytes_ok m -> 0 <= c < 256 -> shows fb m t -> on_screen (t_row t) (t_col t) ->
  exists fb' m', putchar fb m c color = Ret (fb', m') /\ bytes_ok m' /\ same_outside_screen m m' /\
    shows fb' m' (type_char color t c) /\ on_screen (t_row (type_char color t c)) (t_col (type_char color t c)).
Proof.
  intros Hm Hc (Hg & Hr & Hcol) Hon. assert (on_screen (t_row t) (t_col t)) as [Hr1 Hc1] by done.
  assert (forall t', t_row t' = t_row t -> on_screen (t_row (newline t')) (t_col (newline t'))) as Hnl.
  { intros t' E. unfold newline. rewrite E. unfold on_screen, MAX_ROW, MAX_COLUMN in *.
    destruct (Z.eqb_spec (t_row t) (25 - 1)); cbn [t_row t_col]; lia. }
  unfold putchar, type_char. destruct (Z.eqb_spec c 10) as [->|Hc10].
  - rewrite orb_true_r. destruct (newline_spec fb m t Hm Hg Hr Hr1) as (fb' & m' & E & Hb & Ho & Hs).
    exists fb', m'. split_and!; [exact E | done | done | exact Hs | by apply Hnl].
  - rewrite orb_false_r, Hr, Hcol. set (m1 := framebuffer_write m _ _ _ _ _).
    set (t1 := mkTerm (put_cell _ _ _ _) _ _).
    assert (same_grid (screen m1) (cells t1)) as Hg1.
    { unfold m1, t1. cbn [cells]. rewrite write_screen by done. rewrite Hg. rewrite u8_id by done.
      change (Z.shiftl (u8 0) 4) with 0. rewrite Z.lor_0_l, (u8_id (Z.land _ _)); [done |].
      change 15 with (Z.ones 4). rewrite Z.land_ones by lia. pose proof (Z.mod_pos_bound (u8 color) (2 ^ 4)). lia. }
    assert (bytes_ok m1) as Hb1 by by apply write_bytes_ok.
    assert (same_outside_screen m m1) as Ho1 by by apply write_outside.
    change (MAX_COLUMN - 1) with 79. change (t_col t1) with (t_col t). change (t_row t1) with (t_row t).
    destruct (Z.eqb_spec (t_col t) 79).
    + destruct (newline_spec fb m1 t1 Hb1 Hg1 Hr Hr1) as (fb' & m' & E & Hb & Ho & Hs).
      cbv zeta in E. rewrite Hr in E. exists fb', m'.
      split_and!; [exact E | done | by eapply outside_trans | exact Hs | by apply Hnl].
    + eexists _, m1. split_and!; [reflexivity | done | done | split_and!; [done | done | done] |].
      unfold on_screen in *. cbn [t_row t_col]. unfold MAX_COLUMN in *. lia.
Qed.

(** ** Strings *)

Definition type_string (color : Z) (t : terminal) (cs : list Z) : terminal := foldl (type_char color) t cs.

(** Whatever is at [str], printing returns and stays on the screen. *)
Lemma puts_loop_returns fb m str color n : forall i, bytes_ok m -> cursor_ok fb ->
  exists fb' m', puts_loop fb m str color i n = Ret (fb', m') /\ bytes_ok m' /\ cursor_ok fb' /\ same_outside_screen m m'.
Proof.
  revert fb m. induction n as [|n IH]; intros fb m i Hm Hc; cbn [puts_loop]; [by exists fb, m |].
  destruct (_ =? 0); [by exists fb, m |].
  destruct (putchar_shows fb m (mkTerm (screen m) (cur_row fb) (cur_col fb)) (load m (str + Z.of_nat i)) color Hm)
    as (fb1 & m1 & -> & Hm1 & Ho1 & (_ & Hr1 & Hc1) & Hon1); [by apply load_range | by split_and! | done |].
  rewrite bind_ret_l. destruct (IH fb1 m1 (S i) Hm1) as (fb2 & m2 & -> & Hm2 & Hc2 & Ho2); [by unfold cursor_ok; rewrite Hr1, Hc1 |].
  exists fb2, m2. split_and!; [done | done | done | by eapply outside_trans].
Qed.

(** Printing a string types its characters. *)
Lemma puts_spec {B} `{PortBus B} (b : B) fb m t str len color cs rest :
  bytes_ok m -> shows fb m t -> on_screen (t_row t) (t_col t) -> 0 <= len ->
  (forall i, (i <= length cs)%nat -> 0 <= str + Z.of_nat i < FRAMEBUFFER_MEMORY_OFFSET) ->
  load_bytes m str (S (length cs)) = cs ++ [0] -> Forall (fun c => c <> 0) cs ->
  rest = take (Z.to_nat len) cs ->
  exists fb' m', puts b fb m str len color =
      Ret (framebuffer_set_cursor b (t_row (type_string color t rest)) (t_col (type_string color t rest)), fb', m') /\
    shows fb' m' (type_string color t rest) /\ same_outside_screen m m' /\
    on_screen (t_row (type_string color t rest)) (t_col (type_string color t rest)).
Proof.
  intros Hm Hsh Hon Hlen Hlow Hstr Hnz ->.
  assert (forall k c, (cs ++ [0]) !! k = Some c -> load m (str + Z.of_nat k) = c) as Hload.
  { intros k c Hk. rewrite <- Hstr in Hk. unfold load_bytes in Hk.
    apply list_lookup_fmap_Some in Hk as (j & -> & [-> _]%lookup_seq). done. }
  assert (forall n i fb0 m0 t0, (i <= length cs)%nat -> bytes_ok m0 -> shows fb0 m0 t0 -> on_screen (t_row t0) (t_col t0) ->
    same_outside_screen m m0 ->
    exists fb' m', puts_loop fb0 m0 str color i n = Ret (fb', m') /\
      shows fb' m' (type_string color t0 (take n (drop i cs))) /\ same_outside_screen m m' /\
      on_screen (t_row (type_string color t0 (take n (drop i cs)))) (t_col (type_string color t0 (take n (drop i cs))))) as Hloop.
  { induction n as [|n IH]; intros i fb0 m0 t0 Hi Hm0 Hsh0 Hon0 Ho0; cbn [puts_loop take].
    { exists fb0, m0. done. }
    assert (load m0 (str + Z.of_nat i) = load m (str + Z.of_nat i)) as El.
    { pose proof (Hlow i Hi). unfold FRAMEBUFFER_MEMORY_OFFSET in *. apply Ho0; unfold FRAMEBUFFER_MEMORY_OFFSET; lia. }
    rewrite El. destruct (cs !! i) as [c|] eqn:Ec.
    - rewrite (Hload i c) by (by apply lookup_app_l_Some). pose proof (Forall_lookup_1 _ _ _ _ Hnz Ec) as Hc0. cbn in Hc0.
      destruct (Z.eqb_spec c 0); [done |]. assert (0 <= c < 256) as Hc.
      { rewrite <- (Hload i c) by (by apply lookup_app_l_Some). apply Hm. }
      destruct (putchar_shows fb0 m0 t0 c color Hm0 Hc Hsh0 Hon0) as (fb1 & m1 & -> & Hm1 & Ho1 & Hsh1 & Hon1).
      rewrite bind_ret_l. destruct (IH (S i) fb1 m1 (type_char color t0 c)) as (fb' & m' & E & Hrest);
        [by apply lookup_lt_Some in Ec | exact Hm1 | exact Hsh1 | exact Hon1 | exact (outside_trans _ _ _ Ho0 Ho1) |].
      exists fb', m'. split; [exact E |]. rewrite (drop_S cs c i Ec). exact Hrest.
    - apply lookup_ge_None in Ec. assert (i = length cs) as -> by lia.
      rewrite (Hload (length cs) 0) by (by apply list_lookup_middle). cbn [Z.eqb].
      exists fb0, m0. rewrite drop_all, take_nil. done. }
  destruct (Hloop (Z.to_nat len) 0%nat fb m t) as (fb' & m' & E & Hs & Ho & Hon'); [lia | done | done | done | by intros |].
  rewrite drop_0 in *. exists fb', m'. unfold puts. rewrite E, bind_ret_l.
  pose proof Hs as (_ & Hr' & Hc'). rewrite Hr', Hc'. split; [reflexivity |]. split; [exact Hs |]. by split.
Qed.

(** C17: [puts] of a NUL-terminated string outside the text memory refines the
    terminal: the screen and the cursor become what typing its characters one by
    one gives, up to [len] of them, with wrapping and scrolling, the hardware
    cursor is set to the same place and no other memory changes. *)
Theorem puts_refines_terminal {B} `{PortBus B} (b : B) fb m t str len color cs rest :
  bytes_ok m -> shows fb m t -> on_screen (t_row t) (t_col t) -> 0 <= len ->
  (forall i, (i <= length cs)%nat -> 0 <= str + Z.of_nat i < FRAMEBUFFER_MEMORY_OFFSET) ->
  load_bytes m str (S (length cs)) = cs ++ [0] -> Forall (fun c => c <> 0) cs ->
  rest = take (Z.to_nat len) cs ->
  exists fb' m', puts b fb m str len color =
      Ret (framebuffer_set_cursor b (t_row (type_string color t rest)) (t_col (type_string color t rest)), fb', m') /\
    shows fb' m' (type_string color t rest) /\ same_outside_screen m m' /\
    on_screen (t_row (type_string color t rest)) (t_col (type_string color t rest)).
Proof. apply puts_spec. Qed.

(** "hi" and a newline at the last cell of the screen: the screen scrolls twice. *)
Definition hi : list Z := [104; 105; 10].
Definition hi_mem : mem := store_bytes (fun _ => 0) 0x1000 (hi ++ [0]).

Lemma hi_mem_ok : bytes_ok hi_mem.
Proof.
  intros a. unfold hi_mem, store_bytes. cbv zeta. destruct (_ <? _); [| lia].
  assert (Forall is_byte (hi ++ [0])) as Hb by by_compute. apply (nth_byte _ _ Hb).
Qed.

Lemma puts_refines_terminal_witness : exists fb m,
  puts (mkPic 0 0 0) (mkFb 24 79 0 0) hi_mem 0x1000 255 9 = Ret (mkPic 0 0 0, fb, m) /\
  screen m 22 79 = (104, 9) /\ screen m 23 0 = (105, 9) /\ screen m 24 0 = (32, 15) /\
  cur_row fb = 24 /\ cur_col fb = 0.
Proof.
  destruct (puts_refines_terminal (mkPic 0 0 0) (mkFb 24 79 0 0) hi_mem (mkTerm (screen hi_mem) 24 79) 0x1000 255 9 hi hi)
    as (fb & m & E & (Hg & Hr & Hc) & _).
  - exact hi_mem_ok.
  - split; [reflexivity | split; reflexivity].
  - unfold on_screen. cbn. unfold MAX_ROW, MAX_COLUMN. lia.
  - lia.
  - intros i Hi. cbn in Hi. unfold FRAMEBUFFER_MEMORY_OFFSET. lia.
  - reflexivity.
  - by_compute.
  - reflexivity.
  - exists fb, m. split; [exact E |].
    split; [rewrite Hg by (unfold on_screen, MAX_ROW, MAX_COLUMN; lia); reflexivity |].
    split; [rewrite Hg by (unfold on_screen, MAX_ROW, MAX_COLUMN; lia); reflexivity |].
    split; [rewrite Hg by (unfold on_screen, MAX_ROW, MAX_COLUMN; lia); reflexivity |].
    split; [exact Hr | exact Hc].
Defined.
