(* ===== verification/Keyboard.v ===== *)
(** * The keyboard driver (src/keyboard.c)

    The interrupt handler as a function of the scancode the data port gives, on
    the driver's state, the cursor, the memory with the screen and the ports.
    [char] values of the two tables are below 128, so signedness plays no part. *)
From Stdlib Require Import String.
From S2P Require Import Prelude CString PortIO Framebuffer.
#[local] Open Scope Z_scope.

Definition KEYBOARD_DATA_PORT : Z := 0x60.

Definition keyboard_scancode_1_to_ascii_map : list Z := Eval vm_compute in
  [0; 0x1B] ++ bytes_of "1234567890-=" ++ [8; 9] ++ bytes_of "qwertyuiop[]" ++ [10; 0] ++
  bytes_of "asdfghjkl;'`" ++ [0] ++ bytes_of "\zxcvbnm,./" ++ [0; 42; 0; 32] ++
  replicate 16 0 ++ bytes_of "-" ++ replicate 3 0 ++ bytes_of "+" ++ replicate 177 0.

Definition shift_map : list Z :=
  [0; 0; 0; 0; 0; 0; 0; 0; 0; 0;
   0; 0; 0; 0; 0; 0; 0; 0; 0; 0;
   0; 0; 0; 0; 0; 0; 0; 0; 0; 0;
   0; 0; 0; 0; 0; 0; 0; 0; 0; 34;
   0; 0; 0; 0; 60; 95; 62; 63; 41; 33;
   64; 35; 36; 37; 94; 38; 42; 40; 0; 58;
   0; 43; 0; 0; 0; 0; 0; 0; 0; 0;
   0; 0; 0; 0; 0; 0; 0; 0; 0; 0;
   0; 0; 0; 0; 0; 0; 0; 0; 0; 0;
   0; 123; 124; 125; 0; 0; 126].

(** struct KeyboardDriverState; [read_extended_mode] is never used. *)
Record KeyboardDriverState := mkKb {
  keyboard_input_on : bool;
  capslock_on : bool;
  shift_on : bool;
  ctrl_on : bool;
  buffer_index : Z;
  keyboard_buffer : Z;
}.
Definition initial_keyboard_state : KeyboardDriverState := mkKb false false false false 0 0.

Definition set_input_on (k : KeyboardDriverState) (b : bool) : KeyboardDriverState :=
  mkKb b (capslock_on k) (shift_on k) (ctrl_on k) (buffer_index k) (keyboard_buffer k).
Definition set_capslock (k : KeyboardDriverState) (b : bool) : KeyboardDriverState :=
  mkKb (keyboard_input_on k) b (shift_on k) (ctrl_on k) (buffer_index k) (keyboard_buffer k).
Definition set_shift (k : KeyboardDriverState) (b : bool) : KeyboardDriverState :=
  mkKb (keyboard_input_on k) (capslock_on k) b (ctrl_on k) (buffer_index k) (keyboard_buffer k).
Definition set_ctrl (k : KeyboardDriverState) (b : bool) : KeyboardDriverState :=
  mkKb (keyboard_input_on k) (capslock_on k) (shift_on k) b (buffer_index k) (keyboard_buffer k).
Definition set_buffer_index (k : KeyboardDriverState) (i : Z) : KeyboardDriverState :=
  mkKb (keyboard_input_on k) (capslock_on k) (shift_on k) (ctrl_on k) (u8 i) (keyboard_buffer k).
Definition set_keyboard_buffer (k : KeyboardDriverState) (c : Z) : KeyboardDriverState :=
  mkKb (keyboard_input_on k) (capslock_on k) (shift_on k) (ctrl_on k) (buffer_index k) c.

(** The driver together with what it writes to. *)
Record Console (B : Type) := mkConsole {
  kb : KeyboardDriverState;
  fb : FramebufferState;
  video : mem;
  ports : B;
}.
Arguments mkConsole {B}.
Arguments kb {B}.
Arguments fb {B}.
Arguments video {B}.
Arguments ports {B}.

Definition keyboard_state_deactivate (k : KeyboardDriverState) : KeyboardDriverState := set_input_on k false.

(** [buf[0] = ...; *retcode = ...;] *)
Definition get_keyboard_buffer (k : KeyboardDriverState) (m : mem) (buf retcode : Z)
    : KeyboardDriverState * mem :=
  let m := store m buf (keyboard_buffer k) in
  if keyboard_buffer k =? 0
  then (k, store_bytes m retcode (le_encode 4 (u32 (-1))))
  else (set_keyboard_buffer k 0, store_bytes m retcode (le_encode 4 0)).

Definition is_keyboard_blocking (k : KeyboardDriverState) : bool := keyboard_input_on k.

Definition get_current_buffer_index (f : FramebufferState) : Z :=
  u8 (cur_col f - start_col f + (cur_row f - start_row f) * MAX_COLUMN).

Section Isr.
Context {B : Type} `{PortBus B}.

Definition keyboard_state_activate (c : Console B) : Console B :=
  let f := fb c in
  let f := mkFb (cur_row f) (cur_col f) (cur_row f) (cur_col f) in
  mkConsole (mkKb true false false false 0 (keyboard_buffer (kb c))) f (video c)
    (framebuffer_set_cursor (ports c) (cur_row f) (cur_col f)).

Definition with_kb (c : Console B) (k : KeyboardDriverState) : Console B := mkConsole k (fb c) (video c) (ports c).
Definition with_screen (c : Console B) (f : FramebufferState) (m : mem) : Console B := mkConsole (kb c) f m (ports c).
Definition with_ports (c : Console B) (b : B) : Console B := mkConsole (kb c) (fb c) (video c) b.

(** Move the cursor and tell the hardware. *)
Definition move_cursor (c : Console B) (f : FramebufferState) : Console B :=
  mkConsole (kb c) f (video c) (framebuffer_set_cursor (ports c) (cur_row f) (cur_col f)).

(** The [switch] on the scancode. *)
Definition special_key (c : Console B) (scancode : Z) : Console B :=
  let f := fb c in
  if scancode =? 0x3a then with_kb c (set_capslock (kb c) (negb (capslock_on (kb c))))
  else if scancode =? 0x2a then with_kb c (set_shift (kb c) true)
  else if scancode =? 0xaa then with_kb c (set_shift (kb c) false)
  else if scancode =? 0x36 then with_kb c (set_shift (kb c) true)
  else if scancode =? 0xb6 then with_kb c (set_shift (kb c) false)
  else if scancode =? 0x1d then with_kb c (set_ctrl (kb c) true)
  else if scancode =? 0x9d then with_kb c (set_ctrl (kb c) false)
  else if scancode =? 0x4b then
    if get_current_buffer_index f =? 0 then c else
    let f := set_cursor f (cur_row f) (cur_col f - 1) in
    let f := if cur_col f <? 0 then set_cursor f (cur_row f - 1) (MAX_COLUMN - 1) else f in
    move_cursor c f
  else if scancode =? 0x4d then
    let f := set_cursor f (cur_row f) (cur_col f + 1) in
    let f := if cur_col f =? MAX_COLUMN then set_cursor f (cur_row f + 1) 0 else f in
    move_cursor c f
  else if scancode =? 0x48 then
    if start_row f <? cur_row f then move_cursor c (set_cursor f (cur_row f - 1) (cur_col f)) else c
  else if scancode =? 0x50 then
    if cur_row f <? MAX_ROW - 1 then move_cursor c (set_cursor f (cur_row f + 1) (cur_col f)) else c
  else c.

(** Upper case and shifted symbols. *)
Definition apply_modifiers (k : KeyboardDriverState) (ascii_char : Z) : outcome Z :=
  if (97 <=? ascii_char) && (ascii_char <=? 122) then
    Ret (if xorb (capslock_on k) (shift_on k) then 65 + ascii_char - 97 else ascii_char)
  else if shift_on k && (ascii_char <? 97) then
    s ← aget shift_map (u8 ascii_char);
    Ret (if s =? 0 then ascii_char else s)
  else Ret ascii_char.

Definition backspace (c : Console B) : Console B :=
  if 0 <? buffer_index (kb c) then
    let k := set_keyboard_buffer (set_buffer_index (kb c) (buffer_index (kb c) - 1)) 8 in
    let f := fb c in
    let f :=
      if cur_col f =? 0 then
        let f := set_cursor f (cur_row f - 1) (MAX_COLUMN - 1) in
        if cur_row f <? 0 then set_cursor f 0 0 else f
      else set_cursor f (cur_row f) (cur_col f - 1) in
    mkConsole k f (framebuffer_write (video c) (cur_row f) (cur_col f) 32 0xFF 0) (ports c)
  else c.

Definition scroll_if_full (f : FramebufferState) (m : mem) : FramebufferState * mem :=
  if cur_row f =? MAX_ROW then scroll_up f m else (f, m).

Definition enter (c : Console B) : Console B :=
  let k := keyboard_state_deactivate (set_keyboard_buffer (kb c) 10) in
  let '(f, m) := scroll_if_full (set_cursor (fb c) (cur_row (fb c) + 1) 0) (video c) in
  mkConsole k f m (ports c).

Definition type_key (c : Console B) (ascii_char : Z) : outcome (Console B) :=
  ch ← apply_modifiers (kb c) ascii_char;
  let k := set_buffer_index (set_keyboard_buffer (kb c) ch) (buffer_index (kb c) + 1) in
  let f := fb c in
  let f := if MAX_COLUMN <=? cur_col f then set_cursor f (cur_row f + 1) 0 else f in
  let m := framebuffer_write (video c) (cur_row f) (cur_col f) ch 0xFF 0 in
  let '(f, m) := scroll_if_full (set_cursor f (cur_row f) (cur_col f + 1)) m in
  Ret (mkConsole k f m (ports c)).

(** The handler when the scancode is known and input is on, up to the final
    acknowledgement. *)
Definition handle_scancode (c : Console B) (scancode : Z) : outcome (Console B) :=
  let c := special_key c scancode in
  ascii_char ← aget keyboard_scancode_1_to_ascii_map scancode;
  if ascii_char =? 0 then Ret c else
  c ← (if ctrl_on (kb c) && ((ascii_char =? 99) || (ascii_char =? 67))
       then Ret (with_kb c (keyboard_state_deactivate (kb c)))
       else if ascii_char =? 8 then Ret (backspace c)
       else if ascii_char =? 10 then Ret (enter c)
       else type_key c ascii_char);
  Ret (with_ports c (framebuffer_set_cursor (ports c) (cur_row (fb c)) (cur_col (fb c)))).

Definition keyboard_isr (c : Console B) : outcome (Console B) :=
  c ← (if negb (keyboard_input_on (kb c)) then Ret (with_kb c (set_buffer_index (kb c) 0))
       else let '(b, scancode) := port_in (ports c) KEYBOARD_DATA_PORT in
            handle_scancode (with_ports c b) scancode);
  Ret (with_ports c (pic_ack (ports c) IRQ_KEYBOARD)).
End Isr.
