(* ===== verification/KeyboardProps.v ===== *)
(** * Properties of the keyboard driver

    The driver as a transducer from scancodes to characters, where the cursor can
    be, and the character that gets lost at the end of the last line. *)
From Stdlib Require Import String.
From S2P Require Import Prelude CString Memory PortIO Framebuffer Keyboard.
#[local] Open Scope Z_scope.

(** ** The driver's characters

    What [apply_modifiers] makes of a character: letters by caps lock and shift,
    the others by shift alone. *)
Definition us_plain : list Z := Eval vm_compute in bytes_of "1234567890-=[]\;" ++ [39] ++ bytes_of ",./`".
Definition us_shifted : list Z := Eval vm_compute in bytes_of "!@#$%^&*()_+{}|:" ++ [34] ++ bytes_of "<>?~".

Definition us_char (caps shift : bool) (ch : Z) : Z :=
  if (97 <=? ch) && (ch <=? 122) then (if xorb caps shift then ch - 32 else ch)
  else if shift then
    match first_index (fun p => p =? ch) us_plain with Some i => nth i us_shifted 0 | None => ch end
  else ch.

Definition modifiers_agree (caps shift : bool) (ch : Z) : bool :=
  match apply_modifiers (mkKb true caps shift false 0 0) ch with
  | Ret c => (c =? us_char caps shift ch) && (0 <? c) && (c <? 128)
  | _ => false
  end.

Lemma apply_modifiers_us k ch : 1 <= ch < 128 ->
  apply_modifiers k ch = Ret (us_char (capslock_on k) (shift_on k) ch) /\
  0 < us_char (capslock_on k) (shift_on k) ch < 128.
Proof.
  intros Hch.
  assert (forallb (fun i => let c := Z.of_nat (S i) in modifiers_agree true true c && modifiers_agree true false c &&
    modifiers_agree false true c && modifiers_agree false false c) (seq 0 127) = true) as Hall by reflexivity.
  rewrite forallb_forall in Hall. specialize (Hall (Z.to_nat (ch - 1))). cbv zeta in Hall.
  replace (Z.of_nat (S (Z.to_nat (ch - 1)))) with ch in Hall by lia.
  assert (In (Z.to_nat (ch - 1)) (seq 0 127)) as Hin by (apply in_seq; lia).
  specialize (Hall Hin). rewrite !andb_true_iff in Hall.
  assert (modifiers_agree (capslock_on k) (shift_on k) ch = true) as Hm
    by (destruct (capslock_on k), (shift_on k); tauto).
  unfold modifiers_agree in Hm.
  replace (apply_modifiers (mkKb true (capslock_on k) (shift_on k) false 0 0) ch) with (apply_modifiers k ch) in Hm by done.
  destruct (apply_modifiers k ch) as [c| |]; [| done | done]. rewrite !andb_true_iff in Hm.
  assert (c = us_char (capslock_on k) (shift_on k) ch) as -> by lia. split; [done | lia].
Qed.

Lemma ascii_map_range code : 0 <= code < 256 ->
  exists ch, aget keyboard_scancode_1_to_ascii_map code = Ret ch /\ 0 <= ch < 128 /\ ch <> 67.
Proof.
  intros Hc. assert (Forall (fun c => 0 <= c < 128 /\ c <> 67) keyboard_scancode_1_to_ascii_map) as Hall.
  { unfold keyboard_scancode_1_to_ascii_map. repeat (constructor; [lia |]). constructor. }
  destruct (lookup_lt_is_Some_2 keyboard_scancode_1_to_ascii_map (Z.to_nat code)) as [ch Hch].
  { change (length keyboard_scancode_1_to_ascii_map) with 256%nat. lia. }
  exists ch. split; [apply aget_ret; split; [lia | done] | by apply (Forall_lookup_1 _ _ _ _ Hall Hch)].
Qed.

(** ** The keys of a US keyboard

    The layout the driver is specified against, written row by row as the keys
    stand: the make code of the row's first key, then the characters printed on
    the keys, without and with shift. Nothing of it is taken from the driver's
    tables. *)
Definition key_row (first : Z) (plain shifted : list Z) : list (Z * (Z * Z)) :=
  zip (seqZ first (Z.of_nat (length plain))) (zip plain shifted).

Definition us_keys : list (Z * (Z * Z)) :=
  key_row 0x02 (bytes_of "1234567890-=") (bytes_of "!@#$%^&*()_+") ++
  key_row 0x10 (bytes_of "qwertyuiop[]") (bytes_of "QWERTYUIOP{}") ++
  key_row 0x1e (bytes_of "asdfghjkl;'`") (bytes_of "ASDFGHJKL:" ++ [34] ++ bytes_of "~") ++
  key_row 0x2b (bytes_of "\zxcvbnm,./") (bytes_of "|ZXCVBNM<>?") ++
  [(0x39, (32, 32));                                      (* space bar *)
   (0x01, (27, 27)); (0x0e, (8, 8)); (0x0f, (9, 9)); (0x1c, (10, 10));  (* escape, backspace, tab, enter *)
   (0x37, (42, 42)); (0x4a, (45, 95)); (0x4e, (43, 43))]. (* the keypad's star, minus (shifted: underscore) and plus *)

(** The characters on the key with a make code; [None]: the key types nothing
    (modifiers, function keys, the keypad's digits, break codes). *)
Definition keycap (code : Z) : option (Z * Z) :=
  snd <$> find (fun k => fst k =? code) us_keys.

Definition letter_key (plain : Z) : bool := (97 <=? plain) && (plain <=? 122).

(** Caps lock turns the shift of the letters round, and of no other key. *)
Definition typed_char (caps shift : bool) (plain shifted : Z) : Z :=
  if (if letter_key plain then xorb caps shift else shift) then shifted else plain.

(** What the driver's two tables make of a scancode, against the layout. *)
Definition key_agrees (code : Z) : bool :=
  match aget keyboard_scancode_1_to_ascii_map code, keycap code with
  | Ret ch, None => ch =? 0
  | Ret ch, Some (plain, shifted) =>
    (ch =? plain) && (0 <? ch) &&
    forallb (fun m : bool * bool => us_char (fst m) (snd m) ch =? typed_char (fst m) (snd m) plain shifted)
      [(false, false); (false, true); (true, false); (true, true)]
  | _, _ => false
  end.

Lemma tables_follow_layout code : 0 <= code < 256 ->
  match keycap code with
  | None => nth (Z.to_nat code) keyboard_scancode_1_to_ascii_map 0 = 0
  | Some (plain, shifted) =>
    nth (Z.to_nat code) keyboard_scancode_1_to_ascii_map 0 = plain /\ 0 < plain /\
    forall caps shift, us_char caps shift plain = typed_char caps shift plain shifted
  end.
Proof.
  intros Hc. assert (forallb key_agrees (seqZ 0 256) = true) as Hall by (vm_compute; reflexivity).
  rewrite forallb_forall in Hall. specialize (Hall code). rewrite <- list_elem_of_In, elem_of_seqZ in Hall.
  specialize (Hall ltac:(lia)). unfold key_agrees in Hall.
  destruct (ascii_map_range code Hc) as (ch & E & Hr & _). rewrite E in Hall.
  apply aget_ret in E as [_ E]. rewrite (nth_lookup_Some _ _ 0 _ E).
  destruct (keycap code) as [[plain shifted]|]; [| lia].
  cbn [forallb fst snd] in Hall. rewrite !andb_true_iff, !Z.eqb_eq, Z.ltb_lt in Hall.
  destruct Hall as [[-> ?] (? & ? & ? & ? & _)]. split_and!; [done | done |]. by intros [] [].
Qed.

(** ** The transducer *)

Record keys := mkKeys { k_on : bool; k_caps : bool; k_shift : bool; k_ctrl : bool; k_count : Z }.

(** Make and break codes of the modifier keys. *)
Definition key_modifier (s : keys) (code : Z) : keys :=
  if code =? 0x3a then mkKeys (k_on s) (negb (k_caps s)) (k_shift s) (k_ctrl s) (k_count s)
  else if (code =? 0x2a) || (code =? 0x36) then mkKeys (k_on s) (k_caps s) true (k_ctrl s) (k_count s)
  else if (code =? 0xaa) || (code =? 0xb6) then mkKeys (k_on s) (k_caps s) false (k_ctrl s) (k_count s)
  else if code =? 0x1d then mkKeys (k_on s) (k_caps s) (k_shift s) true (k_count s)
  else if code =? 0x9d then mkKeys (k_on s) (k_caps s) (k_shift s) false (k_count s)
  else s.

(** The key with the characters [plain] and [shifted] on it. *)
Definition key_char (s : keys) (plain shifted : Z) : keys * list Z :=
  if k_ctrl s && (plain =? 99) then (mkKeys false (k_caps s) (k_shift s) (k_ctrl s) (k_count s), [])
  else if plain =? 8 then
    (if 0 <? k_count s then (mkKeys (k_on s) (k_caps s) (k_shift s) (k_ctrl s) (k_count s - 1), [8]) else (s, []))
  else if plain =? 10 then (mkKeys false (k_caps s) (k_shift s) (k_ctrl s) (k_count s), [10])
  else (mkKeys (k_on s) (k_caps s) (k_shift s) (k_ctrl s) (u8 (k_count s + 1)),
        [typed_char (k_caps s) (k_shift s) plain shifted]).

Definition key_press (s : keys) (code : Z) : keys * list Z :=
  if negb (k_on s) then (mkKeys false (k_caps s) (k_shift s) (k_ctrl s) 0, [])
  else
    let s := key_modifier s code in
    match keycap code with
    | Some (plain, shifted) => key_char s plain shifted
    | None => (s, [])
    end.

Fixpoint key_presses (s : keys) (codes : list Z) : keys * list Z :=
  match codes with
  | [] => (s, [])
  | code :: codes' =>
    let '(s, out) := key_press s code in
    let '(s, out') := key_presses s codes' in (s, out ++ out')
  end.

Definition keys_of (k : KeyboardDriverState) : keys :=
  mkKeys (keyboard_input_on k) (capslock_on k) (shift_on k) (ctrl_on k) (buffer_index k).

Section Props.
Context {B : Type} `{PortBus B}.

Lemma special_key_keys (c : Console B) code :
  keys_of (kb (special_key c code)) = key_modifier (keys_of (kb c)) code /\
  keyboard_buffer (kb (special_key c code)) = keyboard_buffer (kb c) /\
  video (special_key c code) = video c.
Proof.
  unfold special_key, key_modifier, keys_of.
  destruct (Z.eqb_spec code 0x3a); [done |]. destruct (Z.eqb_spec code 0x2a); [done |].
  destruct (Z.eqb_spec code 0xaa); [by subst |]. destruct (Z.eqb_spec code 0x36); [done |].
  destruct (Z.eqb_spec code 0xb6); [done |]. cbn [orb]. destruct (Z.eqb_spec code 0x1d); [done |].
  destruct (Z.eqb_spec code 0x9d); [done |].
  destruct (code =? 0x4b); [by destruct (get_current_buffer_index _ =? 0) |].
  destruct (code =? 0x4d); [done |]. destruct (code =? 0x48); [by destruct (start_row _ <? _) |].
  destruct (code =? 0x50); [by destruct (cur_row _ <? _) | done].
Qed.

(** One key press: what it does to the driver's state. *)
Lemma handle_scancode_keys (c : Console B) code : 0 <= code < 256 -> keyboard_input_on (kb c) = true ->
  0 <= buffer_index (kb c) < 256 ->
  exists c', handle_scancode c code = Ret c' /\
    keys_of (kb c') = fst (key_press (keys_of (kb c)) code) /\ 0 <= buffer_index (kb c') < 256 /\
    match snd (key_press (keys_of (kb c)) code) with
    | [] => keyboard_buffer (kb c') = keyboard_buffer (kb c)
    | ch :: _ => keyboard_buffer (kb c') = ch /\ 0 < ch < 256 /\ snd (key_press (keys_of (kb c)) code) = [ch]
    end.
Proof.
  intros Hcode Hon Hbi. destruct (ascii_map_range code Hcode) as (ch & Hch & Hr & H67).
  pose proof (tables_follow_layout code Hcode) as Hcap.
  unfold handle_scancode, key_press. rewrite Hch, bind_ret_l. cbn [k_on keys_of]. rewrite Hon. cbn [negb].
  apply aget_ret in Hch as [_ Hch]. rewrite (nth_lookup_Some _ _ 0 _ Hch) in Hcap.
  destruct (special_key_keys c code) as (Hk & Hb & _). set (c1 := special_key c code) in *. clearbody c1.
  assert (0 <= buffer_index (kb c1) < 256) as Hbi1.
  { apply (f_equal k_count) in Hk. cbn in Hk. rewrite Hk. unfold key_modifier, keys_of. cbn.
    destruct (code =? 0x3a); [done |]. destruct (_ || _); [done |]. destruct (_ || _); [done |].
    destruct (code =? 0x1d); [done |]. by destruct (code =? 0x9d). }
  fold (keys_of (kb c)). rewrite <- Hk, <- Hb. clear Hk Hb.
  destruct (keycap code) as [[plain shifted]|]; [| subst ch; by exists c1].
  destruct Hcap as (<- & Hpos & Htyped). unfold key_char.
  destruct (Z.eqb_spec ch 0); [lia |]. cbn [k_ctrl keys_of].
  destruct (Z.eqb_spec ch 67); [done |]. rewrite orb_false_r.
  destruct (ctrl_on (kb c1) && (ch =? 99)); [by eexists |].
  destruct (Z.eqb_spec ch 8).
  { rewrite bind_ret_l. unfold backspace. cbn [k_count keys_of].
    destruct (Z.ltb_spec 0 (buffer_index (kb c1))).
    - eexists. split; [reflexivity |].
      cbn [fst snd kb with_ports keys_of set_keyboard_buffer set_buffer_index buffer_index keyboard_buffer
        keyboard_input_on capslock_on shift_on ctrl_on k_on k_caps k_shift k_ctrl k_count].
      rewrite u8_id by lia. split_and!; try done; try lia.
      unfold keys_of. cbn [set_keyboard_buffer set_buffer_index buffer_index keyboard_input_on capslock_on shift_on ctrl_on].
      by rewrite u8_id by lia.
    - by eexists. }
  destruct (Z.eqb_spec ch 10).
  { rewrite bind_ret_l. unfold enter. destruct (scroll_if_full _ _) as [f m]. eexists. by split. }
  unfold type_key. destruct (apply_modifiers_us (kb c1) ch) as [-> Hus]; [lia |]. rewrite bind_ret_l.
  rewrite Htyped in *.
  destruct (scroll_if_full _ _) as [f m]. rewrite bind_ret_l. eexists. split; [reflexivity |].
  pose proof (u8_range (buffer_index (kb c1) + 1)). cbn in *. split_and!; try done; lia.
Qed.

Lemma keyboard_isr_off (c : Console B) : keyboard_input_on (kb c) = false ->
  exists c', keyboard_isr c = Ret c' /\ kb c' = set_buffer_index (kb c) 0.
Proof. intros Hoff. unfold keyboard_isr. rewrite Hoff. cbn [negb]. rewrite bind_ret_l. eexists. by split. Qed.
End Props.

(** ** Typing and polling *)

(** The controller behind the data port gives the waiting scancodes one by one,
    whatever is written to the ports in between. *)
Class KeyboardDevice (B : Type) `{PortBus B} := {
  waiting : B -> list Z;
  waiting_out b p v : waiting (port_out b p v) = waiting b;
  waiting_in b code codes : waiting b = code :: codes ->
    exists b', port_in b KEYBOARD_DATA_PORT = (b', code) /\ waiting b' = codes;
}.

Section Transducer.
Context {B : Type} `{KeyboardDevice B}.

Lemma set_cursor_waiting (b : B) r c : waiting (framebuffer_set_cursor b r c) = waiting b.
Proof. unfold framebuffer_set_cursor. by rewrite !waiting_out. Qed.

Lemma special_key_waiting (c : Console B) code : waiting (ports (special_key c code)) = waiting (ports c).
Proof.
  unfold special_key. repeat (case_match; try done); cbn; by rewrite ?set_cursor_waiting.
Qed.

Lemma handle_scancode_waiting (c c' : Console B) code :
  handle_scancode c code = Ret c' -> waiting (ports c') = waiting (ports c).
Proof.
  unfold handle_scancode. intros (ch & _ & E)%bind_ret_inv. rewrite <- (special_key_waiting c code).
  set (c1 := special_key c code) in *. clearbody c1. destruct (ch =? 0); [by simplify_eq |].
  apply bind_ret_inv in E as (c2 & E2 & E). simplify_eq. cbn. rewrite set_cursor_waiting.
  destruct (_ && _); [by simplify_eq |]. destruct (ch =? 8).
  { simplify_eq. unfold backspace. by destruct (0 <? _). }
  destruct (ch =? 10).
  { simplify_eq. unfold enter. by destruct (scroll_if_full _ _). }
  unfold type_key in E2. apply bind_ret_inv in E2 as (ch' & _ & E2).
  destruct (scroll_if_full _ _) in E2. by simplify_eq.
Qed.

(** One interrupt with input on takes one scancode. *)
Lemma keyboard_isr_on (c : Console B) code codes : waiting (ports c) = code :: codes -> 0 <= code < 256 ->
  keyboard_input_on (kb c) = true -> 0 <= buffer_index (kb c) < 256 ->
  exists c', keyboard_isr c = Ret c' /\ waiting (ports c') = codes /\
    keys_of (kb c') = fst (key_press (keys_of (kb c)) code) /\ 0 <= buffer_index (kb c') < 256 /\
    match snd (key_press (keys_of (kb c)) code) with
    | [] => keyboard_buffer (kb c') = keyboard_buffer (kb c)
    | ch :: _ => keyboard_buffer (kb c') = ch /\ 0 < ch < 256 /\ snd (key_press (keys_of (kb c)) code) = [ch]
    end.
Proof.
  intros Hw Hcode Hon Hbi. destruct (waiting_in _ _ _ Hw) as (b & Hin & Hb).
  unfold keyboard_isr. rewrite Hon. cbn [negb]. rewrite Hin.
  destruct (handle_scancode_keys (with_ports c b) code Hcode Hon Hbi) as (c1 & E & Hrest).
  pose proof (handle_scancode_waiting _ _ _ E) as Hw1. rewrite E, bind_ret_l.
  eexists. split; [reflexivity |]. split; [| exact Hrest].
  cbn. unfold pic_ack. cbn. by rewrite waiting_out, Hw1.
Qed.

(** One interrupt of a sequence, with input on or off: at most one character. *)
Lemma keyboard_isr_key (c : Console B) code codes : (keyboard_input_on (kb c) = true -> waiting (ports c) = code :: codes) ->
  is_byte code -> 0 <= buffer_index (kb c) < 256 -> keyboard_buffer (kb c) = 0 ->
  exists c', keyboard_isr c = Ret c' /\
    keys_of (kb c') = fst (key_press (keys_of (kb c)) code) /\ 0 <= buffer_index (kb c') < 256 /\
    (keyboard_input_on (kb c') = true -> waiting (ports c') = codes) /\
    0 <= keyboard_buffer (kb c') < 256 /\
    snd (key_press (keys_of (kb c)) code) = if keyboard_buffer (kb c') =? 0 then [] else [keyboard_buffer (kb c')].
Proof.
  intros Hw Hcode Hbi Hk0. destruct (keyboard_input_on (kb c)) eqn:Hon.
  - destruct (keyboard_isr_on c code codes (Hw eq_refl) Hcode Hon Hbi) as (c1 & E & Hw1 & Hkeys & Hbi1 & Hm).
    exists c1. do 3 (split; [done |]). split; [done |].
    destruct (snd _) as [|ch out]; [rewrite Hm, Hk0; done |]. destruct Hm as (-> & Hch & ->).
    split; [lia |]. by destruct (Z.eqb_spec ch 0); [lia |].
  - destruct (keyboard_isr_off c Hon) as (c1 & E & Hk). exists c1. split; [done |].
    rewrite Hk. unfold key_press. cbn [k_on keys_of]. rewrite Hon. cbn [negb fst snd].
    unfold set_buffer_index, keys_of. cbn. rewrite Hon, Hk0. done.
Qed.

(** A program that polls the driver after every interrupt: the characters it
    gets are those delivered with return code 0. *)
Fixpoint poll_session (c : Console B) (buf retcode : Z) (n : nat) : outcome (Console B * list Z) :=
  match n with
  | O => Ret (c, [])
  | S n' =>
    c ← keyboard_isr c;
    let '(k, m) := get_keyboard_buffer (kb c) (video c) buf retcode in
    let got := if le_decode (load_bytes m retcode 4) =? 0 then [load m buf] else [] in
    '(c, out) ← poll_session (mkConsole k (fb c) m (ports c)) buf retcode n';
    Ret (c, got ++ out)
  end.
End Transducer.

(** What one poll delivers. *)
Lemma get_keyboard_buffer_spec k m buf retcode : 0 <= keyboard_buffer k < 256 ->
  0 <= buf < 2 ^ 32 -> 0 <= retcode -> retcode + 4 <= 2 ^ 32 -> ~ (retcode <= buf < retcode + 4) ->
  exists k' m', get_keyboard_buffer k m buf retcode = (k', m') /\ k' = set_keyboard_buffer k 0 /\
    (if le_decode (load_bytes m' retcode 4) =? 0 then [load m' buf] else []) =
      (if keyboard_buffer k =? 0 then [] else [keyboard_buffer k]).
Proof.
  intros Hk Hb Hr Hr4 Hdis. unfold get_keyboard_buffer.
  assert (forall z m0, 0 <= z < 2 ^ 32 -> le_decode (load_bytes (store_bytes m0 retcode (le_encode 4 z)) retcode 4) = z) as Hd.
  { intros z m0 Hz. pose proof (load_bytes_stored m0 retcode (le_encode 4 z)) as E.
    rewrite length_le_encode in E. rewrite E; [apply le_decode_encode; done | apply le_encode_bytes | lia | lia]. }
  destruct (Z.eqb_spec (keyboard_buffer k) 0) as [E0|].
  - eexists _, _. split; [reflexivity |]. split; [destruct k; cbn in *; by subst |].
    rewrite Hd by (pose proof (u32_range (-1)); lia). done.
  - eexists _, _. split; [reflexivity |]. split; [done |]. rewrite Hd by lia. cbn [Z.eqb].
    rewrite load_store_bytes by (rewrite ?length_le_encode; lia). rewrite length_le_encode.
    split_cond; [lia |]. by rewrite load_store_eq, u8_id.
Qed.

(** C18: The keyboard driver is a transducer: starting with input on, an interrupt
    and a poll per scancode deliver exactly the characters of the key sequence on
    a US keyboard ([us_keys], a layout written down apart from the driver's
    tables) with caps lock, shift and ctrl, until enter or ctrl-C turns the
    input off, and leave the modifiers and the character count of the sequence. *)
Theorem keyboard_transduces {B} `{KeyboardDevice B} (c : Console B) codes buf retcode :
  (keyboard_input_on (kb c) = true -> waiting (ports c) = codes) ->
  Forall is_byte codes -> 0 <= buffer_index (kb c) < 256 -> keyboard_buffer (kb c) = 0 ->
  0 <= buf < 2 ^ 32 -> 0 <= retcode -> retcode + 4 <= 2 ^ 32 -> ~ (retcode <= buf < retcode + 4) ->
  exists c' : Console B, poll_session c buf retcode (length codes) =
      Ret (c', snd (key_presses (keys_of (kb c)) codes)) /\
    keys_of (kb c') = fst (key_presses (keys_of (kb c)) codes).
Proof.
  intros Hw Hcodes Hbi Hk0 Hb Hr Hr4 Hdis. revert c Hw Hbi Hk0.
  induction Hcodes as [|code codes Hcode Hcodes IH]; intros c Hw Hbi Hk0; cbn [length poll_session key_presses].
  { by exists c. }
  destruct (keyboard_isr_key c code codes Hw Hcode Hbi Hk0) as (c1 & -> & Hkeys & Hbi1 & Hw1 & Hkb1 & Hout).
  rewrite bind_ret_l.
  destruct (get_keyboard_buffer_spec (kb c1) (video c1) buf retcode) as (k' & m' & -> & -> & ->); [done .. |].
  destruct (key_press (keys_of (kb c)) code) as [s1 out1]. cbn [fst snd] in *. subst s1.
  destruct (IH (mkConsole (set_keyboard_buffer (kb c1) 0) (fb c1) m' (ports c1))) as (c2 & E2 & Hk2);
    [done | done | done |].
  change (keys_of (kb (mkConsole (set_keyboard_buffer (kb c1) 0) (fb c1) m' (ports c1)))) with (keys_of (kb c1)) in *.
  rewrite E2, bind_ret_l. destruct (key_presses (keys_of (kb c1)) codes) as [s2 out2]. cbn [fst snd] in *.
  exists c2. split; [by rewrite <- Hout | done].
Qed.

(** ** Where the cursor goes *)

Definition arrow (code : Z) : bool := (code =? 0x4b) || (code =? 0x4d) || (code =? 0x48) || (code =? 0x50).
Definition cursor_bounded (f : FramebufferState) : Prop := 0 <= cur_row f < MAX_ROW /\ 0 <= cur_col f <= MAX_COLUMN.
(** One cell further than the screen. *)
Definition same_outside_console (m m' : mem) : Prop := forall a, 0 <= a < 2 ^ 32 ->
  a < FRAMEBUFFER_MEMORY_OFFSET \/ FRAMEBUFFER_MEMORY_OFFSET + 4002 <= a -> load m' a = load m a.

Lemma outside_console_write m r c ch fg bg : on_screen r c \/ (r = MAX_ROW /\ c = 0) ->
  same_outside_console m (framebuffer_write m r c ch fg bg).
Proof.
  intros Hrc a Ha Ho. unfold on_screen, MAX_ROW, MAX_COLUMN in *. rewrite write_load by lia.
  unfold cell_addr, FRAMEBUFFER_MEMORY_OFFSET in *. split_cond; lia || done.
Qed.

Lemma scroll_if_full_spec f m : bytes_ok m -> 0 <= cur_row f <= MAX_ROW ->
  let '(f', m') := scroll_if_full f m in
  bytes_ok m' /\ same_outside_screen m m' /\ cur_col f' = cur_col f /\ 0 <= cur_row f' < MAX_ROW.
Proof.
  intros Hm Hr. unfold scroll_if_full. destruct (Z.eqb_spec (cur_row f) MAX_ROW) as [E|].
  - pose proof (scroll_spec f m Hm E) as Hs. destruct (scroll_up f m) as [f1 m1]. destruct Hs as (Hb & Ho & _ & ->).
    cbn. split_and!; try done; unfold MAX_ROW; lia.
  - split_and!; try done; unfold MAX_ROW in *; lia.
Qed.

Lemma outside_console m m' : same_outside_screen m m' -> same_outside_console m m'.
Proof. intros Hs a Ha Ho. apply Hs; [done | lia]. Qed.
Lemma outside_console_trans m1 m2 m3 : same_outside_console m1 m2 -> same_outside_console m2 m3 -> same_outside_console m1 m3.
Proof. intros H1 H2 a Ha Ho. by rewrite H2, H1. Qed.

Section Cursor.
Context {B : Type} `{PortBus B}.

Lemma special_key_screen (c : Console B) code : arrow code = false ->
  fb (special_key c code) = fb c /\ video (special_key c code) = video c.
Proof.
  unfold arrow. rewrite !orb_false_iff. intros [[[H1 H2] H3] H4]. unfold special_key. rewrite H1, H2, H3, H4.
  by repeat case_match.
Qed.

Definition screen_step (c c' : Console B) : Prop :=
  cursor_bounded (fb c') /\ bytes_ok (video c') /\ same_outside_console (video c) (video c').

Lemma backspace_step (c : Console B) : cursor_bounded (fb c) -> bytes_ok (video c) -> screen_step c (backspace c).
Proof.
  intros [Hr Hc] Hm. unfold backspace, screen_step, cursor_bounded. destruct (0 <? _); [| done]. cbv zeta.
  set (f := if cur_col (fb c) =? 0 then _ else _).
  assert (on_screen (cur_row f) (cur_col f)) as Hf.
  { subst f. unfold on_screen, MAX_ROW, MAX_COLUMN in *. destruct (Z.eqb_spec (cur_col (fb c)) 0);
      [destruct (Z.ltb_spec (cur_row (set_cursor (fb c) (cur_row (fb c) - 1) (80 - 1))) 0) |]; cbn in *; lia. }
  cbn [fb video]. split; [unfold on_screen in Hf; lia |].
  split; [by apply write_bytes_ok | by apply outside_console_write; left].
Qed.

Lemma enter_step (c : Console B) : cursor_bounded (fb c) -> bytes_ok (video c) -> screen_step c (enter c).
Proof.
  intros [Hr Hc] Hm. unfold enter, screen_step.
  pose proof (scroll_if_full_spec (set_cursor (fb c) (cur_row (fb c) + 1) 0) (video c) Hm) as Hs.
  destruct (scroll_if_full _ _) as [f m]. destruct Hs as (Hb & Ho & Hcol & Hrow); [cbn; lia |].
  cbn [fb video]. split_and!; [| done | by apply outside_console].
  unfold cursor_bounded. rewrite Hcol. cbn. unfold MAX_COLUMN. lia.
Qed.

Lemma type_key_step (c : Console B) ch : cursor_bounded (fb c) -> bytes_ok (video c) -> 1 <= ch < 128 ->
  exists c', type_key c ch = Ret c' /\ screen_step c c'.
Proof.
  intros [Hr Hc] Hm Hch. unfold type_key. destruct (apply_modifiers_us (kb c) ch Hch) as [-> _].
  rewrite bind_ret_l. set (f := if MAX_COLUMN <=? cur_col (fb c) then _ else _).
  assert (0 <= cur_row f <= MAX_ROW /\ 0 <= cur_col f < MAX_COLUMN /\ (cur_row f = MAX_ROW -> cur_col f = 0)) as (Hfr & Hfc & Hf0).
  { subst f. unfold MAX_ROW, MAX_COLUMN in *. destruct (Z.leb_spec 80 (cur_col (fb c))); cbn; lia. }
  set (m1 := framebuffer_write _ _ _ _ _ _). assert (bytes_ok m1) as Hm1 by by apply write_bytes_ok.
  assert (same_outside_console (video c) m1) as Ho1.
  { apply outside_console_write. unfold on_screen. destruct (decide (cur_row f = MAX_ROW)); [right; auto | left; lia]. }
  pose proof (scroll_if_full_spec (set_cursor f (cur_row f) (cur_col f + 1)) m1 Hm1) as Hs.
  destruct (scroll_if_full _ _) as [f2 m2]. destruct Hs as (Hb & Ho & Hcol & Hrow); [cbn; lia |].
  eexists. split; [reflexivity |]. unfold screen_step. cbn [fb video].
  split_and!; [| done | by eapply outside_console_trans, outside_console].
  unfold cursor_bounded. rewrite Hcol. cbn. lia.
Qed.

Lemma handle_scancode_step (c : Console B) code : 0 <= code < 256 -> arrow code = false ->
  cursor_bounded (fb c) -> bytes_ok (video c) -> exists c', handle_scancode c code = Ret c' /\ screen_step c c'.
Proof.
  intros Hcode Ha Hf Hm. destruct (ascii_map_range code Hcode) as (ch & Hch & Hr & _).
  unfold handle_scancode. rewrite Hch, bind_ret_l.
  destruct (special_key_screen c code Ha) as [Ef Ev]. set (c1 := special_key c code) in *. clearbody c1.
  assert (screen_step c c1) as H1 by (unfold screen_step; rewrite Ef, Ev; done).
  assert (forall c2, screen_step c1 c2 -> screen_step c c2) as Htrans.
  { intros c2 (? & ? & ?). split_and!; [done | done |]. eapply outside_console_trans; [apply H1 | done]. }
  destruct (Z.eqb_spec ch 0); [by exists c1 |].
  assert (exists c2, (if ctrl_on (kb c1) && ((ch =? 99) || (ch =? 67)) then Ret (with_kb c1 (keyboard_state_deactivate (kb c1)))
     else if ch =? 8 then Ret (backspace c1) else if ch =? 10 then Ret (enter c1) else type_key c1 ch) = Ret c2 /\ screen_step c1 c2)
    as (c2 & -> & H2).
  { destruct H1 as (Hf1 & Hm1 & _). destruct (_ && _); [eexists; split; [done | by split_and!] |].
    destruct (ch =? 8); [eexists; split; [done | by apply backspace_step] |].
    destruct (ch =? 10); [eexists; split; [done | by apply enter_step] |]. apply type_key_step; [done | done | lia]. }
  rewrite bind_ret_l. eexists. split; [reflexivity |]. by apply (Htrans c2).
Qed.
Lemma keyboard_isr_screen (c : Console B) :
  cursor_bounded (fb c) -> bytes_ok (video c) ->
  (keyboard_input_on (kb c) = true -> forall b code, port_in (ports c) KEYBOARD_DATA_PORT = (b, code) -> 0 <= code < 256 /\ arrow code = false) ->
  exists c', keyboard_isr c = Ret c' /\ screen_step c c'.
Proof.
  intros Hf Hm Hcode. unfold keyboard_isr. destruct (keyboard_input_on _); cbn [negb].
  2:{ rewrite bind_ret_l. eexists. split; [reflexivity |]. by split_and!. }
  - destruct (port_in _ _) as [b code]. destruct (Hcode eq_refl b code eq_refl) as [Hr Ha].
    destruct (handle_scancode_step (with_ports c b) code Hr Ha Hf Hm) as (c' & -> & Hs).
    rewrite bind_ret_l. eexists. split; [reflexivity | exact Hs].
Qed.

(** Enter starts a new line. *)
Lemma keyboard_isr_enter (c c' : Console B) b : keyboard_input_on (kb c) = true -> cursor_bounded (fb c) -> bytes_ok (video c) ->
  port_in (ports c) KEYBOARD_DATA_PORT = (b, 0x1c) -> keyboard_isr c = Ret c' ->
  cursor_ok (fb c') /\ keyboard_buffer (kb c') = 10.
Proof.
  intros Hon [Hr Hc] Hm Hin E. unfold keyboard_isr in E. rewrite Hon in E. cbn [negb] in E. rewrite Hin in E.
  unfold handle_scancode in E. change (special_key (with_ports c b) 28) with (with_ports c b) in E.
  change (aget keyboard_scancode_1_to_ascii_map 28) with (Ret 10) in E. rewrite bind_ret_l in E.
  change (10 =? 0) with false in E. change ((10 =? 99) || (10 =? 67)) with false in E. rewrite andb_false_r in E.
  change (10 =? 8) with false in E. change (10 =? 10) with true in E. cbv iota in E. rewrite !bind_ret_l in E. unfold enter in E.
  pose proof (scroll_if_full_spec (set_cursor (fb (with_ports c b)) (cur_row (fb (with_ports c b)) + 1) 0) (video (with_ports c b)) Hm) as Hs.
  destruct (scroll_if_full _ _) as [f m]. destruct Hs as (_ & _ & Hcol & Hrow); [cbn; lia |].
  injection E as <-. cbn [kb fb with_ports]. split; [| done]. unfold cursor_ok, on_screen. rewrite Hcol. cbn. unfold MAX_COLUMN. lia.
Qed.
End Cursor.

(** C33: Without the arrow keys the cursor stays where typing puts it: the handler
    runs without an out-of-range access, a row in 0..24 and a column in 0..80 are
    kept by every interrupt, and the only memory it changes is the text memory
    and the one cell behind it. *)
Theorem keyboard_keeps_cursor_on_screen {B} `{PortBus B} (c : Console B) :
  cursor_bounded (fb c) -> bytes_ok (video c) ->
  (forall b code, port_in (ports c) KEYBOARD_DATA_PORT = (b, code) -> 0 <= code < 256 /\ arrow code = false) ->
  exists c' : Console B, keyboard_isr c = Ret c' /\ cursor_bounded (fb c') /\ bytes_ok (video c') /\
    same_outside_console (video c) (video c').
Proof.
  intros Hf Hm Hcode. destruct (keyboard_isr_screen c Hf Hm (fun _ => Hcode)) as (c' & E & ? & ? & ?). by exists c'.
Qed.

(** A character typed when the cursor stands behind the last cell of the last
    line is delivered to the program but never shown: it is written behind the
    text memory and the scroll that follows brings up a blank line. *)
Theorem wrapped_character_is_lost {B} `{PortBus B} (c : Console B) ch :
  cur_row (fb c) = MAX_ROW - 1 -> cur_col (fb c) = MAX_COLUMN -> bytes_ok (video c) -> 1 <= ch < 128 ->
  exists c' : Console B, type_key c ch = Ret c' /\
    keyboard_buffer (kb c') = us_char (capslock_on (kb c)) (shift_on (kb c)) ch /\
    same_grid (screen (video c')) (scroll_grid (screen (video c))) /\
    cur_row (fb c') = MAX_ROW - 1 /\ cur_col (fb c') = 1.
Proof.
  intros Hr Hc Hm Hch. unfold type_key. destruct (apply_modifiers_us (kb c) ch Hch) as [-> _].
  rewrite bind_ret_l, Hc, Hr. change (MAX_COLUMN <=? MAX_COLUMN) with true. cbv iota.
  change (cur_row (set_cursor (fb c) (MAX_ROW - 1 + 1) 0)) with MAX_ROW.
  change (cur_col (set_cursor (fb c) (MAX_ROW - 1 + 1) 0)) with 0.
  set (m1 := framebuffer_write _ _ _ _ _ _). unfold scroll_if_full. cbn [cur_row set_cursor].
  change (MAX_ROW =? MAX_ROW) with true. cbv iota.
  match goal with |- context [scroll_up ?f m1] => pose proof (scroll_spec f m1 ltac:(by apply write_bytes_ok) eq_refl) as Hs;
    destruct (scroll_up f m1) as [f2 m2] end.
  destruct Hs as (_ & _ & Hg & ->). eexists. split; [reflexivity |]. split; [done |]. cbn [fb video].
  split; [| done]. rewrite Hg. apply scroll_grid_proper. intros r col Hon. unfold screen, m1.
  pose proof (cell_addr_range r col Hon) as Ha. unfold FRAMEBUFFER_MEMORY_OFFSET in *.
  rewrite !write_load by (unfold MAX_ROW; lia).
  assert (cell_addr MAX_ROW 0 = 0xC00B8000 + 4000) as -> by done. split_cond; lia || done.
Qed.

(** ** Concrete input *)

(** A controller that holds the scancodes still to come. *)
Record Controller := mkController { codes_left : list Z }.
#[export] Instance controller_bus : PortBus Controller := {
  port_in b p := if p =? KEYBOARD_DATA_PORT then (mkController (tl (codes_left b)), hd 0 (codes_left b)) else (b, 0);
  port_out b _ _ := b;
  port_in16 b _ := (b, 0);
  port_out16 b _ _ := b;
}.
#[export] Instance controller_device : KeyboardDevice Controller.
Proof.
  refine {| waiting := codes_left |}; [done |].
  intros [l] code codes E. cbn in E. subst l. by exists (mkController codes).
Defined.

(** Shift-h, i, a, backspace, enter, and a key after the input is off. *)
Definition hi_codes : list Z := [0x2a; 0x23; 0xaa; 0x17; 0x1e; 0x0e; 0x1c; 0x1e].
Definition hi_console : Console Controller :=
  mkConsole (mkKb true false false false 0 0) (mkFb 3 4 3 4) (fun _ => 0) (mkController hi_codes).

Lemma keyboard_transduces_witness : exists c',
  poll_session hi_console 0x1000 0x2000 8 = Ret (c', [72; 105; 97; 8; 10]) /\
  keys_of (kb c') = mkKeys false false false false 0.
Proof.
  destruct (keyboard_transduces hi_console hi_codes 0x1000 0x2000) as (c' & E & Hk).
  - done.
  - by_compute.
  - cbn. lia.
  - reflexivity.
  - lia.
  - lia.
  - lia.
  - lia.
  - exists c'. split; [exact E | exact Hk].
Defined.

Definition corner_console : Console Controller :=
  mkConsole (mkKb true false false false 7 0) (mkFb 24 80 20 0) (fun _ => 1) (mkController [0x1e]).

Lemma keyboard_keeps_cursor_on_screen_witness : exists c',
  keyboard_isr corner_console = Ret c' /\ cursor_bounded (fb c').
Proof.
  destruct (keyboard_keeps_cursor_on_screen corner_console) as (c' & E & Hc & _).
  - unfold cursor_bounded. cbn. unfold MAX_ROW, MAX_COLUMN. lia.
  - intros a. cbn. lia.
  - intros b code E. cbn in E. injection E as _ <-. split; [lia | done].
  - exists c'. split; [exact E | exact Hc].
Defined.

Lemma wrapped_character_is_lost_witness : exists c',
  type_key corner_console 97 = Ret c' /\ keyboard_buffer (kb c') = 97 /\
  screen (video c') 24 0 = (32, 15) /\ cur_col (fb c') = 1.
Proof.
  destruct (wrapped_character_is_lost corner_console 97) as (c' & E & Hk & Hg & Hr & Hc).
  - reflexivity.
  - reflexivity.
  - intros a. cbn. lia.
  - lia.
  - exists c'. split; [exact E |]. split; [exact Hk |].
    split; [rewrite Hg by (unfold on_screen, MAX_ROW, MAX_COLUMN; lia); reflexivity | exact Hc].
Defined.
