(* ===== verification/Clock.v ===== *)
(** * The real-time clock (src/clock.c)

    Reading the CMOS clock through its two ports, decoding the register formats
    and moving the result to GMT+7.  The two kinds of waiting loops take fuel.
    [century_register] is a global that nothing in the program sets (0); it stays
    an argument, and [century] is the local that is read uninitialised then. *)
From S2P Require Import Prelude PortIO.
#[local] Open Scope Z_scope.

Definition CURRENT_YEAR : Z := 2024.
Definition cmos_address : Z := 0x70.
Definition cmos_data : Z := 0x71.

(** The globals second .. year. *)
Record Rtc := mkRtc {
  second : Z;
  minute : Z;
  hour : Z;
  day : Z;
  month : Z;
  year : Z;
}.

Section Clock.
Context {B : Type} `{PortBus B}.

Definition out_byte (b : B) (port value : Z) : B := port_out b port (u8 value).
Definition in_byte (b : B) (port : Z) : B * Z := port_in b port.

Definition get_update_in_progress_flag (b : B) : B * Z :=
  let b := out_byte b cmos_address 0x0A in
  let '(b, v) := in_byte b cmos_data in
  (b, Z.land v 0x80).

Definition get_RTC_register (b : B) (reg : Z) : B * Z :=
  in_byte (out_byte b cmos_address reg) cmos_data.

(** [while (get_update_in_progress_flag());] *)
Fixpoint wait_for_update (b : B) (fuel : nat) : outcome B :=
  let '(b, flag) := get_update_in_progress_flag b in
  if flag =? 0 then Ret b else
  match fuel with
  | O => NoFuel
  | S fuel' => wait_for_update b fuel'
  end.

Definition read_fields (b : B) (century_register century : Z) : B * Rtc * Z :=
  let '(b, s) := get_RTC_register b 0x00 in
  let '(b, mi) := get_RTC_register b 0x02 in
  let '(b, h) := get_RTC_register b 0x04 in
  let '(b, d) := get_RTC_register b 0x07 in
  let '(b, mo) := get_RTC_register b 0x08 in
  let '(b, y) := get_RTC_register b 0x09 in
  let '(b, century) := if century_register =? 0 then (b, century) else get_RTC_register b century_register in
  (b, mkRtc s mi h d mo y, century).

(** The condition of the [do] loop, negated; [last_year] is a byte. *)
Definition same_reading (last now : Rtc) (last_century century : Z) : bool :=
  (second last =? second now) && (minute last =? minute now) && (hour last =? hour now) &&
  (day last =? day now) && (month last =? month now) && (u8 (year last) =? year now) &&
  (last_century =? century).

Fixpoint read_until_same (b : B) (century_register : Z) (last : Rtc) (last_century : Z) (polls fuel : nat)
    : outcome (B * Rtc * Z) :=
  match fuel with
  | O => NoFuel
  | S fuel' =>
    b ← wait_for_update b polls;
    let '(b, now, century) := read_fields b century_register last_century in
    if same_reading last now last_century century then Ret (b, now, century)
    else read_until_same b century_register now century polls fuel'
  end.
End Clock.

Definition from_bcd (v : Z) : Z := Z.land v 0x0F + (v / 16) * 10.

Definition convert_bcd (registerB : Z) (t : Rtc) : Rtc :=
  if Z.land registerB 0x04 =? 0 then
    mkRtc (u8 (from_bcd (second t))) (u8 (from_bcd (minute t)))
      (u8 (Z.lor (Z.land (hour t) 0x0F + ((Z.land (hour t) 0x70) / 16) * 10) (Z.land (hour t) 0x80)))
      (u8 (from_bcd (day t))) (u8 (from_bcd (month t))) (u32 (from_bcd (year t)))
  else t.

Definition convert_century (registerB century_register century : Z) : Z :=
  if (Z.land registerB 0x04 =? 0) && negb (century_register =? 0) then u8 (from_bcd century) else century.

Definition convert_24h (registerB : Z) (t : Rtc) : Rtc :=
  if (Z.land registerB 0x02 =? 0) && negb (Z.land (hour t) 0x80 =? 0) then
    mkRtc (second t) (minute t) (u8 (Z.rem (Z.land (hour t) 0x7F + 12) 24)) (day t) (month t) (year t)
  else t.

Definition full_year (century_register century : Z) (t : Rtc) : Rtc :=
  let y :=
    if negb (century_register =? 0) then u32 (year t + century * 100)
    else
      let y := u32 (year t + Z.quot CURRENT_YEAR 100 * 100) in
      if y <? CURRENT_YEAR then u32 (y + 100) else y in
  mkRtc (second t) (minute t) (hour t) (day t) (month t) y.

Definition one_of (m : Z) (ms : list Z) : bool := existsb (Z.eqb m) ms.

(** Adjust the hour for GMT+7 *)
Definition adjust_gmt7 (t : Rtc) : Rtc :=
  let h := u8 (hour t + 7) in
  if 24 <=? h then
    let h := u8 (h - 24) in
    let d := u8 (day t + 1) in
    let m := month t in
    let y := year t in
    let '(d, m) :=
      if one_of m [1; 3; 5; 7; 8; 10; 12] && (31 <? d) then (1, u8 (m + 1))
      else if one_of m [4; 6; 9; 11] && (30 <? d) then (1, u8 (m + 1))
      else if m =? 2 then
        if ((y mod 4 =? 0) && negb (y mod 100 =? 0)) || (y mod 400 =? 0)
        then (if 29 <? d then (1, u8 (m + 1)) else (d, m))
        else (if 28 <? d then (1, u8 (m + 1)) else (d, m))
      else (d, m) in
    let '(m, y) := if 12 <? m then (1, u32 (y + 1)) else (m, y) in
    mkRtc (second t) (minute t) h d m y
  else mkRtc (second t) (minute t) h (day t) (month t) (year t).

Definition read_rtc {B} `{PortBus B} (b : B) (century_register century : Z) (polls fuel : nat) : outcome (B * Rtc) :=
  b ← wait_for_update b polls;
  let '(b, t, century) := read_fields b century_register century in
  '(b, t, century) ← read_until_same b century_register t century polls fuel;
  let '(b, registerB) := get_RTC_register b 0x0B in
  let century := convert_century registerB century_register century in
  Ret (b, adjust_gmt7 (full_year century_register century (convert_24h registerB (convert_bcd registerB t)))).
