(* ===== verification/ClockProps.v ===== *)
(** * The clock against the calendar

    A CMOS clock whose registers may change while they are read, the register
    formats, the calendar as a number of hours, and what [read_rtc] returns. *)
From S2P Require Import Prelude PortIO Clock.
#[local] Open Scope Z_scope.

(** ** The calendar *)

Definition leap (y : Z) : bool := ((y mod 4 =? 0) && negb (y mod 100 =? 0)) || (y mod 400 =? 0).
Definition month_lengths (lp : bool) : list Z := [31; if lp then 29 else 28; 31; 30; 31; 30; 31; 31; 30; 31; 30; 31].
Definition days_in_month (y m : Z) : Z := nth (Z.to_nat (m - 1)) (month_lengths (leap y)) 0.
Definition days_before_month (y m : Z) : Z := foldr Z.add 0 (take (Z.to_nat (m - 1)) (month_lengths (leap y))).
Definition days_before_year (y : Z) : Z := 365 * (y - 1) + (y - 1) / 4 - (y - 1) / 100 + (y - 1) / 400.

(** Hours since the beginning of year 1. *)
Definition hour_number (t : Rtc) : Z :=
  24 * (days_before_year (year t) + days_before_month (year t) (month t) + (day t - 1)) + hour t.

Definition valid_time (t : Rtc) : Prop :=
  0 <= second t < 60 /\ 0 <= minute t < 60 /\ 0 <= hour t < 24 /\
  1 <= month t <= 12 /\ 1 <= day t <= days_in_month (year t) (month t).

Lemma days_before_next_year y : 1 <= y -> days_before_year (y + 1) = days_before_year y + if leap y then 366 else 365.
Proof.
  intros Hy. unfold days_before_year, leap. replace (y + 1 - 1) with y by lia.
  assert (forall k, 0 < k -> y / k - (y - 1) / k = if y mod k =? 0 then 1 else 0) as Hdiv.
  { intros k Hk. destruct (Z.eqb_spec (y mod k) 0) as [E|E].
    - pose proof (Z.div_mod y k). assert ((y - 1) / k = y / k - 1); [| lia].
      symmetry. apply (Z.div_unique _ _ _ (k - 1)); lia.
    - pose proof (Z.div_mod y k). pose proof (Z.mod_pos_bound y k). assert ((y - 1) / k = y / k); [| lia].
      symmetry. apply (Z.div_unique _ _ _ (y mod k - 1)); lia. }
  pose proof (Hdiv 4 ltac:(lia)). pose proof (Hdiv 100 ltac:(lia)). pose proof (Hdiv 400 ltac:(lia)).
  assert (y mod 400 = 0 -> y mod 100 = 0) by (intros E; apply Z.mod_divide in E as [q ->]; [| lia];
    apply Z.mod_divide; [lia | exists (4 * q); lia]).
  assert (y mod 100 = 0 -> y mod 4 = 0) by (intros E; apply Z.mod_divide in E as [q ->]; [| lia];
    apply Z.mod_divide; [lia | exists (25 * q); lia]).
  destruct (Z.eqb_spec (y mod 4) 0), (Z.eqb_spec (y mod 100) 0), (Z.eqb_spec (y mod 400) 0); cbn [andb orb negb]; lia.
Qed.

Ltac month_cases m :=
  assert (m = 1 \/ m = 2 \/ m = 3 \/ m = 4 \/ m = 5 \/ m = 6 \/ m = 7 \/ m = 8 \/ m = 9 \/ m = 10 \/ m = 11 \/ m = 12)
    as [-> | [-> | [-> | [-> | [-> | [-> | [-> | [-> | [-> | [-> | [-> | ->]]]]]]]]]]] by lia.

Lemma days_in_month_eq y m : 1 <= m <= 12 ->
  days_in_month y m =
    if m =? 2 then (if leap y then 29 else 28) else if one_of m [4; 6; 9; 11] then 30 else 31.
Proof. intros Hm. unfold days_in_month. month_cases m; by destruct (leap y). Qed.

Lemma month_length y m : 1 <= m <= 12 -> 28 <= days_in_month y m <= 31.
Proof. intros Hm. rewrite days_in_month_eq by done. repeat case_match; lia. Qed.

Lemma days_before_next_month y m : 1 <= m < 12 ->
  days_before_month y (m + 1) = days_before_month y m + days_in_month y m.
Proof. intros Hm. unfold days_before_month, days_in_month. month_cases m; destruct (leap y); done. Qed.

Lemma days_before_december y : days_before_month y 12 + 31 = if leap y then 366 else 365.
Proof. unfold days_before_month. by destruct (leap y). Qed.

(** What [adjust_gmt7] does to the day: the next one in the month or the first of
    the next month. *)
Definition roll_month (y d m : Z) : Z * Z :=
  if one_of m [1; 3; 5; 7; 8; 10; 12] && (31 <? d) then (1, u8 (m + 1))
  else if one_of m [4; 6; 9; 11] && (30 <? d) then (1, u8 (m + 1))
  else if m =? 2 then
    if leap y then (if 29 <? d then (1, u8 (m + 1)) else (d, m)) else (if 28 <? d then (1, u8 (m + 1)) else (d, m))
  else (d, m).

Lemma roll_month_spec y d m : 1 <= m <= 12 -> roll_month y d m = if days_in_month y m <? d then (1, m + 1) else (d, m).
Proof.
  intros Hm. rewrite days_in_month_eq by done. unfold roll_month.
  month_cases m; cbn [one_of existsb orb andb Z.eqb Pos.eqb]; destruct (leap y); by split_cond.
Qed.

(** The adjustment is seven hours in the calendar. *)
Lemma adjust_adds_seven_hours t : valid_time t -> 1 <= year t < 2 ^ 32 - 1 ->
  valid_time (adjust_gmt7 t) /\ hour_number (adjust_gmt7 t) = hour_number t + 7 /\
  minute (adjust_gmt7 t) = minute t /\ second (adjust_gmt7 t) = second t.
Proof.
  intros (Hs & Hmi & Hh & Hmo & Hd) Hy. unfold adjust_gmt7. fold (leap (year t)).
  pose proof (month_length (year t) (month t) Hmo) as Hlen.
  rewrite (u8_id (hour t + 7)) by lia. destruct (Z.leb_spec 24 (hour t + 7)).
  2:{ unfold valid_time, hour_number. cbn [second minute hour day month year]. lia. }
  rewrite (u8_id (hour t + 7 - 24)), (u8_id (day t + 1)) by lia. cbv zeta.
  fold (roll_month (year t) (day t + 1) (month t)). rewrite roll_month_spec by done.
  unfold valid_time, hour_number.
  destruct (Z.ltb_spec (days_in_month (year t) (month t)) (day t + 1)).
  - destruct (Z.ltb_spec 12 (month t + 1)); cbn [second minute hour day month year].
    + rewrite u32_id by lia. rewrite days_before_next_year by lia. assert (month t = 12) as Em by lia.
      pose proof (days_before_december (year t)). pose proof (month_length (year t + 1) 1 ltac:(lia)).
      rewrite Em in *. change (days_in_month (year t) 12) with 31 in *.
      change (days_before_month (year t + 1) 1) with 0. lia.
    + rewrite days_before_next_month by lia. pose proof (month_length (year t) (month t + 1)). lia.
  - destruct (Z.ltb_spec 12 (month t)); [lia |]. cbn [second minute hour day month year]. lia.
Qed.

(** ** Register formats *)

(** Register B of the clock says whether values are binary and hours 0..23. *)
Record RtcFormat := mkFormat { binary_mode : bool; hours_24 : bool }.

Definition format_register (f : RtcFormat) (registerB : Z) : Prop :=
  Z.testbit registerB 2 = binary_mode f /\ Z.testbit registerB 1 = hours_24 f.

Definition encode_byte (f : RtcFormat) (v : Z) : Z := if binary_mode f then v else 16 * (v / 10) + v mod 10.
Definition encode_hour (f : RtcFormat) (h : Z) : Z :=
  if hours_24 f then encode_byte f h
  else encode_byte f (if h mod 12 =? 0 then 12 else h mod 12) + (if 12 <=? h then 0x80 else 0).

(** What the six registers hold at a time. *)
Definition encode_time (f : RtcFormat) (t : Rtc) : Rtc :=
  mkRtc (encode_byte f (second t)) (encode_byte f (minute t)) (encode_hour f (hour t))
    (encode_byte f (day t)) (encode_byte f (month t)) (encode_byte f (year t mod 100)).

(** In the 12-hour format the two twelve o'clocks are taken for each other. *)
Definition hour_as_read (f : RtcFormat) (h : Z) : Z :=
  if negb (hours_24 f) && (h mod 12 =? 0) then (h + 12) mod 24 else h.
Definition time_as_read (f : RtcFormat) (t : Rtc) : Rtc :=
  mkRtc (second t) (minute t) (hour_as_read f (hour t)) (day t) (month t) (year t).

Lemma from_bcd_encode v : 0 <= v < 100 -> from_bcd (16 * (v / 10) + v mod 10) = v.
Proof.
  intros Hv. apply Z.eqb_eq.
  exact (below_forall (fun v => from_bcd (16 * (v / 10) + v mod 10) =? v) 100 v eq_refl Hv).
Qed.

Definition decode_hour (f : RtcFormat) (h : Z) : Z :=
  let h := if binary_mode f then h
           else u8 (Z.lor (Z.land h 0x0F + (Z.land h 0x70 / 16) * 10) (Z.land h 0x80)) in
  if negb (hours_24 f) && negb (Z.land h 0x80 =? 0) then u8 (Z.rem (Z.land h 0x7F + 12) 24) else h.

Lemma decode_encode_hour f h : 0 <= h < 24 -> decode_hour f (encode_hour f h) = hour_as_read f h.
Proof.
  intros Hh. apply Z.eqb_eq. destruct f as [[|] [|]].
  all: match goal with |- context [decode_hour ?f _] =>
    exact (below_forall (fun h => decode_hour f (encode_hour f h) =? hour_as_read f h) 24 h eq_refl Hh) end.
Qed.

Lemma full_year_mod y : 2024 <= y < 2124 ->
  (let y' := u32 (y mod 100 + Z.quot CURRENT_YEAR 100 * 100) in if y' <? CURRENT_YEAR then u32 (y' + 100) else y') = y.
Proof.
  intros Hy. change (Z.quot CURRENT_YEAR 100 * 100) with 2000. cbv zeta. unfold CURRENT_YEAR.
  pose proof (Z.mod_pos_bound y 100). rewrite !u32_id; [| lia..].
  assert (y = 100 * (y / 100) + y mod 100) by (apply Z.div_mod; lia).
  assert (y / 100 = 20 \/ y / 100 = 21) as [E|E] by lia; rewrite E in *; split_cond; lia.
Qed.

(** Decoding gives the time back, but for the two twelve o'clocks. *)
Lemma decode_encode_time f registerB century t : format_register f registerB -> valid_time t -> 2024 <= year t < 2124 ->
  full_year 0 century (convert_24h registerB (convert_bcd registerB (encode_time f t))) = time_as_read f t.
Proof.
  intros [Hbin H24] (Hs & Hmi & Hh & Hmo & Hd) Hy.
  pose proof (month_length (year t) (month t) Hmo) as Hlen.
  pose proof (decode_encode_hour f (hour t) Hh) as Hhour. pose proof (full_year_mod (year t) Hy) as Hyear.
  pose proof (Z.mod_pos_bound (year t) 100).
  unfold full_year, convert_24h, convert_bcd, time_as_read, encode_time, decode_hour, encode_byte in *.
  change (Z.land registerB 4) with (Z.land registerB (2 ^ 2)). change (Z.land registerB 2) with (Z.land registerB (2 ^ 1)).
  rewrite !land_pow2_zero, Hbin, H24 by lia.
  destruct (binary_mode f); cbn [negb andb second minute hour day month year] in *.
  - destruct (negb (hours_24 f) && _); cbn [second minute hour day month year];
      change (negb (0 =? 0)) with false; cbn iota; by rewrite Hhour, Hyear.
  - rewrite !from_bcd_encode by lia.
    rewrite (u8_id (second t)), (u8_id (minute t)), (u8_id (day t)), (u8_id (month t)), (u32_id (year t mod 100)) by lia.
    destruct (negb (hours_24 f) && _); cbn [second minute hour day month year];
      change (negb (0 =? 0)) with false; cbn iota; by rewrite Hhour, Hyear.
Qed.

(** ** The device *)

(** A clock whose registers hold [contents t] at time [t]; time goes on with the
    port operations. *)
Class RtcDevice (B : Type) `{PortBus B} (contents : nat -> Z -> Z) := {
  rtc_time : B -> nat;
  rtc_index : B -> Z;
  rtc_select b r : rtc_index (port_out b cmos_address r) = r /\ (rtc_time b <= rtc_time (port_out b cmos_address r))%nat;
  rtc_read b : exists b', port_in b cmos_data = (b', contents (rtc_time b) (rtc_index b)) /\
    (rtc_time b < rtc_time b')%nat;
}.

Section Device.
Context {B : Type} `{RtcDevice B contents}.

Lemma get_register_spec (b : B) r : 0 <= r < 256 -> exists b' s,
  get_RTC_register b r = (b', contents s r) /\ (rtc_time b <= s < rtc_time b')%nat.
Proof.
  intros Hr. unfold get_RTC_register, in_byte, out_byte. rewrite u8_id by done.
  destruct (rtc_select b r) as [Hi Ht]. destruct (rtc_read (port_out b cmos_address r)) as (b' & E & Hlt).
  exists b', (rtc_time (port_out b cmos_address r)). rewrite E, Hi. split; [done | lia].
Qed.

(** A reading made between two times: each register at a later time than the one before. *)
Definition reading (t0 t1 : nat) (v : Rtc) : Prop :=
  exists s1 s2 s3 s4 s5 s6 : nat,
    (t0 <= s1 /\ s1 <= s2 /\ s2 <= s3 /\ s3 <= s4 /\ s4 <= s5 /\ s5 <= s6 /\ s6 < t1)%nat /\
    v = mkRtc (contents s1 0) (contents s2 2) (contents s3 4) (contents s4 7) (contents s5 8) (contents s6 9).

Lemma read_fields_spec (b : B) century : exists b' v,
  read_fields b 0 century = (b', v, century) /\ reading (rtc_time b) (rtc_time b') v.
Proof.
  unfold read_fields.
  destruct (get_register_spec b 0) as (b1 & s1 & -> & H1); [lia |].
  destruct (get_register_spec b1 2) as (b2 & s2 & -> & H2); [lia |].
  destruct (get_register_spec b2 4) as (b3 & s3 & -> & H3); [lia |].
  destruct (get_register_spec b3 7) as (b4 & s4 & -> & H4); [lia |].
  destruct (get_register_spec b4 8) as (b5 & s5 & -> & H5); [lia |].
  destruct (get_register_spec b5 9) as (b6 & s6 & -> & H6); [lia |].
  eexists _, _. split; [reflexivity |]. exists s1, s2, s3, s4, s5, s6. split; [lia | done].
Qed.

(** The registers change from one time to another once, at [T], and no update is
    in progress afterwards. *)
Definition registers_hold (v : Rtc) (regs : Z -> Z) : Prop :=
  regs 0 = second v /\ regs 2 = minute v /\ regs 4 = hour v /\ regs 7 = day v /\ regs 8 = month v /\ regs 9 = year v.
Context (T : nat) (v1 v2 : Rtc).
Hypothesis before : forall t, (t < T)%nat -> registers_hold v1 (contents t).
Hypothesis after : forall t, (T <= t)%nat -> registers_hold v2 (contents t) /\ Z.land (contents t 0x0A) 0x80 = 0.

Lemma reading_before t0 t1 v : reading t0 t1 v -> (t1 <= T)%nat -> v = v1.
Proof.
  intros (s1 & s2 & s3 & s4 & s5 & s6 & Hs & ->) Ht. destruct v1. unfold registers_hold in before. cbn in before.
  f_equal; apply before; lia.
Qed.
Lemma reading_after t0 t1 v : reading t0 t1 v -> (T <= t0)%nat -> v = v2.
Proof.
  intros (s1 & s2 & s3 & s4 & s5 & s6 & Hs & ->) Ht. destruct v2. unfold registers_hold in after. cbn in after.
  f_equal; apply after; lia.
Qed.
(** A later reading during the change, equal to an earlier one. *)
Lemma reading_twice t0 t1 t2 t3 v : reading t0 t1 v -> reading t2 t3 v -> (t1 <= t2)%nat -> v = v1 \/ v = v2.
Proof.
  intros H1 H2 Ht. destruct (decide (T <= t2)%nat); [right; by eapply reading_after |].
  left. eapply reading_before; [exact H1 | lia].
Qed.

Lemma wait_for_update_returns (b : B) polls : (T <= rtc_time b + polls)%nat ->
  exists b', wait_for_update b polls = Ret b' /\ (rtc_time b <= rtc_time b')%nat.
Proof.
  revert b. induction polls as [|polls IH]; intros b Hp; cbn [wait_for_update];
    unfold get_update_in_progress_flag, in_byte, out_byte; rewrite u8_id by lia;
    destruct (rtc_select b 0x0A) as [Hi Ht]; destruct (rtc_read (port_out b cmos_address 0x0A)) as (b' & -> & Hlt); rewrite Hi.
  - destruct (after (rtc_time (port_out b cmos_address 0x0A))) as [_ ->]; [lia |]. cbn. exists b'. split; [done | lia].
  - destruct (Z.eqb_spec (Z.land (contents (rtc_time (port_out b cmos_address 0x0A)) 0x0A) 0x80) 0).
    + exists b'. split; [done | lia].
    + destruct (IH b') as (b2 & E & Ht2); [lia |]. exists b2. split; [exact E | lia].
Qed.

Context (bytes : forall t r, 0 <= contents t r < 256).

Lemma same_reading_refl last century : 0 <= year last < 256 -> same_reading last last century century = true.
Proof. intros Hy. unfold same_reading. rewrite u8_id by done. by rewrite !Z.eqb_refl. Qed.
Lemma same_reading_eq last now c c' : 0 <= year last < 256 -> same_reading last now c c' = true -> last = now.
Proof.
  intros Hy. unfold same_reading. rewrite u8_id by done. rewrite !andb_true_iff, !Z.eqb_eq. destruct last, now; cbn.
  intros [[[[[[-> ->] ->] ->] ->] ->] _]. done.
Qed.
Lemma reading_year t0 t1 v : reading t0 t1 v -> 0 <= year v < 256.
Proof. intros (s1 & s2 & s3 & s4 & s5 & s6 & _ & ->). apply bytes. Qed.

(** How many more rounds the loop may need after the reading [v] that ended at [t]. *)
Definition rounds (t : nat) (v : Rtc) (n : nat) : Prop :=
  match n with
  | O => False
  | 1%nat => (T <= t)%nat /\ v = v2
  | 2%nat => (T <= t)%nat
  | _ => True
  end.

Lemma read_until_same_spec (b : B) t0 last century polls fuel :
  reading t0 (rtc_time b) last -> (T <= polls)%nat -> rounds (rtc_time b) last fuel ->
  exists b' v, read_until_same b 0 last century polls fuel = Ret (b', v, century) /\ (v = v1 \/ v = v2).
Proof.
  intros Hlast Hp. revert b t0 last Hlast. induction fuel as [|fuel IH]; intros b t0 last Hlast Hr; [done |].
  cbn [read_until_same]. destruct (wait_for_update_returns b polls) as (b1 & -> & Ht1); [lia |]. rewrite bind_ret_l.
  destruct (read_fields_spec b1 century) as (b2 & now & -> & Hnow).
  destruct (same_reading last now century century) eqn:Es.
  - apply same_reading_eq in Es as ->; [| by eapply reading_year]. exists b2, now. split; [done |].
    eapply reading_twice; [exact Hlast | exact Hnow | done].
  - eapply (IH b2 (rtc_time b1) now); [exact Hnow |].
    assert (rtc_time b1 < rtc_time b2)%nat as Hlt by (destruct Hnow as (? & ? & ? & ? & ? & ? & ? & _); lia).
    assert (last <> now) as Hne.
    { intros ->. rewrite same_reading_refl in Es; [done | by eapply reading_year]. }
    destruct fuel as [|[|[|fuel]]]; cbn [rounds] in *; [| | | done].
    + destruct Hr as [HT ->]. destruct Hne. symmetry. eapply reading_after; [exact Hnow | lia].
    + split; [lia |]. eapply reading_after; [exact Hnow | lia].
    + destruct (decide (T <= rtc_time b2)%nat); [done |]. destruct Hne.
      rewrite (reading_before _ _ _ Hlast ltac:(lia)). symmetry. eapply reading_before; [exact Hnow | lia].
Qed.
End Device.

Lemma time_as_read_valid f t : valid_time t -> valid_time (time_as_read f t).
Proof.
  intros (? & ? & Hh & ?). unfold valid_time, time_as_read, hour_as_read.
  cbn [second minute hour day month year]. split_and!; try lia.
  all: pose proof (Z.mod_pos_bound (hour t + 12) 24); case_match; lia.
Qed.

(** A clock that may be updated once and then stays readable. *)
Definition clock_settles (contents : nat -> Z -> Z) (T : nat) : Prop :=
  exists v1 v2, (forall t, (t < T)%nat -> registers_hold v1 (contents t)) /\
    (forall t, (T <= t)%nat -> registers_hold v2 (contents t) /\ Z.land (contents t 0x0A) 0x80 = 0) /\
    forall t r, 0 <= contents t r < 256.

Lemma read_rtc_answers {B} {contents} `{RtcDevice B contents} (b : B) T century polls fuel :
  clock_settles contents T -> (T <= polls)%nat -> (3 <= fuel)%nat ->
  exists (b' : B) u, read_rtc b 0 century polls fuel = Ret (b', u).
Proof.
  intros (v1 & v2 & Hbefore & Hafter & Hbytes) Hp Hfuel. unfold read_rtc.
  destruct (wait_for_update_returns T _ Hafter b polls) as (b1 & -> & _); [lia |]. rewrite bind_ret_l.
  destruct (read_fields_spec b1 century) as (b2 & v & -> & Hv).
  destruct (read_until_same_spec T _ _ Hbefore Hafter Hbytes b2 _ v century polls fuel Hv Hp) as (b3 & w & -> & Hw).
  { destruct fuel as [|[|[|fuel]]]; [lia | lia | lia | done]. }
  rewrite bind_ret_l. destruct (get_register_spec b3 0x0B) as (b4 & s & -> & _); [lia |]. by eexists _, _.
Qed.

(** C19: [read_rtc] never returns a torn reading: on a clock that goes from one
    time to the next while it is read, it returns, within three rounds, one of the
    two times moved seven hours ahead in the calendar, in every register format
    and through the ends of months and years; only the twelve o'clocks of the
    12-hour formats come out twelve hours off. *)
Theorem read_rtc_returns_local_time {B} {contents} `{RtcDevice B contents} (b : B) T f d1 d2 registerB century polls fuel :
  valid_time d1 -> valid_time d2 -> 2024 <= year d1 < 2124 -> 2024 <= year d2 < 2124 ->
  (forall t, (t < T)%nat -> registers_hold (encode_time f d1) (contents t)) ->
  (forall t, (T <= t)%nat -> registers_hold (encode_time f d2) (contents t) /\ Z.land (contents t 0x0A) 0x80 = 0) ->
  (forall t r, 0 <= contents t r < 256) -> (forall t, contents t 0x0B = registerB) -> format_register f registerB ->
  (T <= polls)%nat -> (3 <= fuel)%nat ->
  exists (b' : B) u d, read_rtc b 0 century polls fuel = Ret (b', u) /\ (d = d1 \/ d = d2) /\
    valid_time u /\ hour_number u = hour_number (time_as_read f d) + 7 /\ minute u = minute d /\ second u = second d.
Proof.
  intros Hv1 Hv2 Hy1 Hy2 Hbefore Hafter Hbytes HB Hf Hp Hfuel. unfold read_rtc.
  destruct (wait_for_update_returns T _ Hafter b polls) as (b1 & -> & _); [lia |]. rewrite bind_ret_l.
  destruct (read_fields_spec b1 century) as (b2 & v & -> & Hv).
  destruct (read_until_same_spec T _ _ Hbefore Hafter Hbytes b2 _ v century polls fuel Hv Hp) as (b3 & w & -> & Hw).
  { destruct fuel as [|[|[|fuel]]]; [lia | lia | lia | done]. }
  rewrite bind_ret_l. destruct (get_register_spec b3 0x0B) as (b4 & s & -> & _); [lia |]. rewrite HB.
  assert (exists d, (d = d1 \/ d = d2) /\ w = encode_time f d /\ valid_time d /\ 2024 <= year d < 2124)
    as (d & Hd & -> & Hvd & Hyd) by (destruct Hw as [->| ->]; [exists d1 | exists d2]; auto).
  unfold convert_century. change (negb (0 =? 0)) with false. rewrite andb_false_r.
  rewrite decode_encode_time by done.
  destruct (adjust_adds_seven_hours (time_as_read f d)) as (Hu & Hn & Hmin & Hsec);
    [exact (time_as_read_valid f d Hvd) | cbn [year time_as_read]; lia |].
  eexists b4, _, d. split; [reflexivity |]. by split_and!.
Qed.

(** A 24-hour BCD clock that passes the end of 2024 during the first reading. *)
Record Cmos := mkCmos { cmos_time : nat; cmos_index : Z }.
Definition year_end : Rtc := mkRtc 59 59 23 31 12 2024.
Definition new_year : Rtc := mkRtc 0 0 0 1 1 2025.
Definition bcd24 : RtcFormat := mkFormat false true.
Definition registers_of (t : Rtc) (r : Z) : Z :=
  if r =? 0 then second t else if r =? 2 then minute t else if r =? 4 then hour t
  else if r =? 7 then day t else if r =? 8 then month t else if r =? 9 then year t
  else if r =? 0x0B then 2 else 0.
Definition year_end_contents (t : nat) : Z -> Z :=
  registers_of (encode_time bcd24 (if (t <? 4)%nat then year_end else new_year)).
#[export] Instance cmos_bus : PortBus Cmos := {
  port_in b _ := (mkCmos (S (cmos_time b)) (cmos_index b), year_end_contents (cmos_time b) (cmos_index b));
  port_out b p v := if p =? cmos_address then mkCmos (cmos_time b) v else b;
  port_in16 b _ := (b, 0);
  port_out16 b _ _ := b;
}.
#[export] Instance cmos_device : RtcDevice Cmos year_end_contents.
Proof.
  refine {| rtc_time := cmos_time; rtc_index := cmos_index |}.
  - intros b r. by split.
  - intros b. eexists. split; [reflexivity |]. cbn. lia.
Defined.

Lemma year_end_bytes t r : 0 <= year_end_contents t r < 256.
Proof.
  unfold year_end_contents. destruct (t <? 4)%nat.
  - change (encode_time bcd24 year_end) with (mkRtc 0x59 0x59 0x23 0x31 0x12 0x24). unfold registers_of.
    cbn [second minute hour day month year]. split_cond; lia.
  - change (encode_time bcd24 new_year) with (mkRtc 0 0 0 1 1 0x25). unfold registers_of.
    cbn [second minute hour day month year]. split_cond; lia.
Qed.

Lemma read_rtc_returns_local_time_witness : exists b' u,
  read_rtc (mkCmos 0 0) 0 77 4 3 = Ret (b', u) /\ valid_time u /\
  (hour_number u = hour_number year_end + 7 \/ hour_number u = hour_number new_year + 7).
Proof.
  destruct (read_rtc_returns_local_time (mkCmos 0 0) 4 bcd24 year_end new_year 2 77 4 3) as (b' & u & d & E & Hd & Hu & Hn & _).
  - by_compute.
  - by_compute.
  - cbn. lia.
  - cbn. lia.
  - intros t Ht. unfold year_end_contents. rewrite (proj2 (Nat.ltb_lt t 4)) by lia. by split_and!.
  - intros t Ht. unfold year_end_contents. rewrite (proj2 (Nat.ltb_ge t 4)) by lia. by split_and!.
  - exact year_end_bytes.
  - intros t. unfold year_end_contents. by destruct (t <? 4)%nat.
  - by split.
  - lia.
  - lia.
  - exists b', u. split; [exact E |]. split; [exact Hu |]. rewrite Hn. destruct Hd as [->| ->]; [left | right]; done.
Defined.

(** The first reading there is 23:59:59 with the date of the next day. *)
Example torn_first_reading :
  match read_fields (mkCmos 0 0) 0 0 with (_, v, _) => v end = mkRtc 0x59 0x59 0x23 0x31 1 0x25 /\
  match read_rtc (mkCmos 0 0) 0 0 4 3 with Ret (_, u) => Some u | _ => None end = Some (mkRtc 0 0 7 1 1 2025).
Proof. by vm_compute. Qed.

(** Noon on a 12-hour clock. *)
Example noon_is_read_as_midnight :
  hour (convert_24h 0 (convert_bcd 0 (encode_time (mkFormat false false) (mkRtc 0 0 12 1 1 2025)))) = 0.
Proof. reflexivity. Qed.
