(* ===== verification/Disk.v ===== *)
(** * The ATA driver (src/disk.c)

    Polling, the register writes that start a command and the word transfers, on
    any port bus; then what the driver needs from an ATA drive, as a class, and
    the proof that with such a drive it is the block device the file system
    expects. *)
From S2P Require Import Prelude BlockDevice PortIO.
#[local] Open Scope Z_scope.

Definition ATA_STATUS_BSY : Z := 0x80.
Definition ATA_STATUS_RDY : Z := 0x40.
Definition HALF_BLOCK_SIZE : nat := 256.

(** ** The driver *)

Section Driver.
Context {B : Type} `{PortBus B}.

Fixpoint ATA_busy_wait (b : B) (polls : nat) : outcome B :=
  let '(b, status) := port_in b 0x1F7 in
  if Z.land status ATA_STATUS_BSY =? 0 then Ret b else
  match polls with
  | O => NoFuel
  | S polls' => ATA_busy_wait b polls'
  end.

Fixpoint ATA_DRQ_wait (b : B) (polls : nat) : outcome B :=
  let '(b, status) := port_in b 0x1F7 in
  if negb (Z.land status ATA_STATUS_RDY =? 0) then Ret b else
  match polls with
  | O => NoFuel
  | S polls' => ATA_DRQ_wait b polls'
  end.

(** The six port writes both functions begin with; [command] is 0x20 or 0x30. *)
Definition ata_command (b : B) (logical_block_address block_count command : Z) : B :=
  let b := port_out b 0x1F6 (u8 (Z.lor 0xE0 (Z.land (Z.shiftr logical_block_address 24) 0xF))) in
  let b := port_out b 0x1F2 block_count in
  let b := port_out b 0x1F3 (u8 logical_block_address) in
  let b := port_out b 0x1F4 (u8 (Z.shiftr logical_block_address 8)) in
  let b := port_out b 0x1F5 (u8 (Z.shiftr logical_block_address 16)) in
  port_out b 0x1F7 command.

(** [target[j] = in16(0x1F0)] for [n] words, little-endian in memory. *)
Fixpoint read_words (b : B) (n : nat) : B * list Z :=
  match n with
  | O => (b, [])
  | S n' =>
    let '(b, w) := port_in16 b 0x1F0 in
    let '(b, bs) := read_words b n' in
    (b, u8 w :: u8 (Z.shiftr w 8) :: bs)
  end.

Fixpoint read_sectors (b : B) (polls n : nat) : outcome (B * list Z) :=
  match n with
  | O => Ret (b, [])
  | S n' =>
    b ← ATA_busy_wait b polls;
    b ← ATA_DRQ_wait b polls;
    let '(b, bs) := read_words b HALF_BLOCK_SIZE in
    '(b, rest) ← read_sectors b polls n';
    Ret (b, bs ++ rest)
  end.

Definition ata_read_blocks (polls : nat) (b : B) (logical_block_address block_count : Z) : outcome (B * list Z) :=
  b ← ATA_busy_wait b polls;
  read_sectors (ata_command b logical_block_address block_count 0x20) polls (Z.to_nat block_count).

(** The words [ptr[k]], [ptr[k + 1]], ... *)
Fixpoint write_words (b : B) (ptr : list Z) (k n : nat) : B :=
  match n with
  | O => b
  | S n' =>
    write_words (port_out16 b 0x1F0 (nth (2 * k) ptr 0 + 256 * nth (2 * k + 1) ptr 0)) ptr (S k) n'
  end.

Fixpoint write_sectors (b : B) (polls : nat) (ptr : list Z) (i n : nat) : outcome B :=
  match n with
  | O => Ret b
  | S n' =>
    b ← ATA_busy_wait b polls;
    b ← ATA_DRQ_wait b polls;
    write_sectors (write_words b ptr (HALF_BLOCK_SIZE * i) HALF_BLOCK_SIZE) polls ptr (S i) n'
  end.

Definition ata_write_blocks (polls : nat) (b : B) (ptr : list Z) (logical_block_address block_count : Z) : outcome B :=
  b ← ATA_busy_wait b polls;
  write_sectors (ata_command b logical_block_address block_count 0x30) polls ptr 0 (Z.to_nat block_count).
End Driver.

(** ** An ATA drive *)

(** What a drive is doing: nothing, sending the bytes that are left, or taking the
    bytes of [left] sectors from [lba] on, with those of the current one so far. *)
Inductive ata_phase :=
  | Idle
  | Sending (bytes : list Z)
  | Taking (lba : Z) (left : nat) (got : list Z).

Definition ata_registers (r2 r3 r4 r5 r6 : Z) : Z := r3 + 256 * r4 + 65536 * r5 + 16777216 * (r6 mod 16).

Definition put_sector (disk : Z -> list Z) (lba : Z) (bs : list Z) : Z -> list Z :=
  fun i => if i =? lba then bs else disk i.

Record AtaState := mkAta {
  phase : ata_phase;
  sectors : Z -> list Z;
  regs : Z -> Z;
  (** How many more status reads show BSY, and how many after that no RDY. *)
  busy : nat;
  not_ready : nat;
}.

(** The commands of the drive used here.  It is busy for at most [ata_patience]
    status reads after a command and between sectors. *)
Class AtaDrive (B : Type) `{PortBus B} := {
  ata : B -> AtaState;
  ata_capacity : Z;
  ata_capacity_range : 2048 <= ata_capacity <= 2 ^ 28;
  ata_patience : nat;
  ata_busy_bound b : (busy (ata b) <= ata_patience)%nat;
  ata_ready_bound b : (not_ready (ata b) <= ata_patience)%nat;
  ata_status b : exists b' s, port_in b 0x1F7 = (b', s) /\
    phase (ata b') = phase (ata b) /\ sectors (ata b') = sectors (ata b) /\ regs (ata b') = regs (ata b) /\
    Z.testbit s 7 = negb (busy (ata b) =? 0)%nat /\ busy (ata b') = pred (busy (ata b)) /\
    (busy (ata b) = 0%nat -> Z.testbit s 6 = (not_ready (ata b) =? 0)%nat /\ not_ready (ata b') = pred (not_ready (ata b)));
  ata_register b p v : busy (ata b) = 0%nat -> phase (ata b) = Idle -> 0x1F2 <= p <= 0x1F6 ->
    let b' := port_out b p v in
    busy (ata b') = 0%nat /\ phase (ata b') = Idle /\ sectors (ata b') = sectors (ata b) /\
    regs (ata b') = fun q => if q =? p then v else regs (ata b) q;
  ata_read_command b : busy (ata b) = 0%nat -> phase (ata b) = Idle ->
    let r := regs (ata b) in
    let lba := ata_registers (r 0x1F2) (r 0x1F3) (r 0x1F4) (r 0x1F5) (r 0x1F6) in
    let b' := port_out b 0x1F7 0x20 in
    0 < r 0x1F2 < 256 -> lba + r 0x1F2 <= ata_capacity ->
    phase (ata b') = Sending (blocks_of (sectors (ata b)) lba (Z.to_nat (r 0x1F2))) /\
    sectors (ata b') = sectors (ata b);
  ata_write_command b : busy (ata b) = 0%nat -> phase (ata b) = Idle ->
    let r := regs (ata b) in
    let lba := ata_registers (r 0x1F2) (r 0x1F3) (r 0x1F4) (r 0x1F5) (r 0x1F6) in
    let b' := port_out b 0x1F7 0x30 in
    0 < r 0x1F2 < 256 -> lba + r 0x1F2 <= ata_capacity ->
    phase (ata b') = Taking lba (Z.to_nat (r 0x1F2)) [] /\ sectors (ata b') = sectors (ata b);
  ata_send b lo hi rest : busy (ata b) = 0%nat -> phase (ata b) = Sending (lo :: hi :: rest) ->
    exists b', port_in16 b 0x1F0 = (b', lo + 256 * hi) /\
    phase (ata b') = match rest with [] => Idle | _ => Sending rest end /\
    sectors (ata b') = sectors (ata b) /\ ((length rest mod 512)%nat <> 0%nat -> busy (ata b') = 0%nat);
  ata_take b lba left got lo hi : busy (ata b) = 0%nat -> phase (ata b) = Taking lba (S left) got -> is_byte lo -> is_byte hi ->
    let b' := port_out16 b 0x1F0 (lo + 256 * hi) in
    if (length got =? 510)%nat
    then phase (ata b') = match left with O => Idle | _ => Taking (lba + 1) left [] end /\
         sectors (ata b') = put_sector (sectors (ata b)) lba (got ++ [lo; hi])
    else phase (ata b') = Taking lba (S left) (got ++ [lo; hi]) /\ sectors (ata b') = sectors (ata b) /\ busy (ata b') = 0%nat;
}.

(** ** The driver on such a drive *)

Section Spec.
Context {B : Type} `{AtaDrive B}.

(** Same transfer, same sectors. *)
Definition same_state (b b' : B) : Prop := phase (ata b') = phase (ata b) /\ sectors (ata b') = sectors (ata b).

Lemma busy_wait_spec (b : B) polls : (busy (ata b) <= polls)%nat ->
  exists b', ATA_busy_wait b polls = Ret b' /\ same_state b b' /\ busy (ata b') = 0%nat.
Proof.
  revert b. induction polls as [|polls IH]; intros b Hb; cbn [ATA_busy_wait];
    destruct (ata_status b) as (b' & s & -> & Hp & Hs & _ & H7 & Hbusy & _);
    change ATA_STATUS_BSY with (2 ^ 7); rewrite land_pow2_zero, H7, negb_involutive by lia.
  - destruct (Nat.eqb_spec (busy (ata b)) 0); [| lia]. exists b'. split_and!; [done | done | lia].
  - destruct (Nat.eqb_spec (busy (ata b)) 0).
    + exists b'. split_and!; [done | done | lia].
    + destruct (IH b') as (b2 & E & [Hp2 Hs2] & Hb2); [lia |]. exists b2.
      split_and!; [done | split; congruence | done].
Qed.

Lemma drq_wait_spec (b : B) polls : (not_ready (ata b) <= polls)%nat -> busy (ata b) = 0%nat ->
  exists b', ATA_DRQ_wait b polls = Ret b' /\ same_state b b' /\ busy (ata b') = 0%nat.
Proof.
  revert b. induction polls as [|polls IH]; intros b Hr Hb; cbn [ATA_DRQ_wait];
    destruct (ata_status b) as (b' & s & -> & Hp & Hs & _ & _ & Hbusy & H6); destruct (H6 Hb) as [H6' Hnr];
    change ATA_STATUS_RDY with (2 ^ 6); rewrite land_pow2_zero, H6', negb_involutive by lia.
  - destruct (Nat.eqb_spec (not_ready (ata b)) 0); [| lia]. exists b'. split_and!; [done | done | lia].
  - destruct (Nat.eqb_spec (not_ready (ata b)) 0).
    + exists b'. split_and!; [done | done | lia].
    + destruct (IH b') as (b2 & E & [Hp2 Hs2] & Hb2); [lia | lia |]. exists b2.
      split_and!; [done | split; congruence | done].
Qed.

Context (polls : nat) (patient : (ata_patience <= polls)%nat).

Lemma wait_busy (b : B) : exists b', ATA_busy_wait b polls = Ret b' /\ same_state b b' /\ busy (ata b') = 0%nat.
Proof. apply busy_wait_spec. pose proof (ata_busy_bound b). lia. Qed.
Lemma wait_ready (b : B) : busy (ata b) = 0%nat ->
  exists b', ATA_DRQ_wait b polls = Ret b' /\ same_state b b' /\ busy (ata b') = 0%nat.
Proof. apply drq_wait_spec. pose proof (ata_ready_bound b). lia. Qed.

(** The registers give back the block address. *)
Lemma ata_registers_lba lba n : 0 <= lba < 2 ^ 28 ->
  ata_registers n (u8 lba) (u8 (Z.shiftr lba 8)) (u8 (Z.shiftr lba 16))
    (u8 (Z.lor 0xE0 (Z.land (Z.shiftr lba 24) 0xF))) = lba.
Proof.
  intros Hl. unfold ata_registers, u8. rewrite !Z.shiftr_div_pow2 by lia.
  change 0xF with (Z.ones 4). rewrite Z.land_ones by lia.
  assert (Z.lor 0xE0 ((lba / 2 ^ 24) mod 2 ^ 4) mod 2 ^ 8 mod 16 = (lba / 2 ^ 24) mod 2 ^ 4) as ->.
  { change 16 with (2 ^ 4). change 0xE0 with (Z.shiftl 14 4).
    rewrite <- !Z.land_ones by lia. apply Z.bits_inj'. intros k Hk.
    rewrite !Z.land_spec, Z.lor_spec, !Z.land_spec, Z.shiftl_spec by lia.
    destruct (Z.ltb_spec k 4).
    - rewrite (Z.testbit_neg_r 14) by lia. rewrite !Z.ones_spec_low by lia. by rewrite !andb_true_r.
    - rewrite (Z.ones_spec_high 4) by lia. by rewrite !andb_false_r. }
  change (2 ^ 28) with 268435456 in *. Z.to_euclidean_division_equations. lia.
Qed.

(** Starting a command. *)
Lemma ata_command_registers (b : B) lba n c : busy (ata b) = 0%nat -> phase (ata b) = Idle -> 0 <= lba < 2 ^ 28 ->
  exists b0, ata_command b lba n c = port_out b0 0x1F7 c /\ busy (ata b0) = 0%nat /\ phase (ata b0) = Idle /\
    sectors (ata b0) = sectors (ata b) /\ regs (ata b0) 0x1F2 = n /\
    (let r := regs (ata b0) in ata_registers (r 0x1F2) (r 0x1F3) (r 0x1F4) (r 0x1F5) (r 0x1F6) = lba).
Proof.
  intros Hb Hp Hl. unfold ata_command. cbv zeta.
  destruct (ata_register b 0x1F6 (u8 (Z.lor 0xE0 (Z.land (Z.shiftr lba 24) 0xF)))) as (B1 & P1 & S1 & R1); [done | done | lia |].
  set (b1 := port_out b _ _) in *.
  destruct (ata_register b1 0x1F2 n) as (B2 & P2 & S2 & R2); [done | done | lia |]. set (b2 := port_out b1 _ _) in *.
  destruct (ata_register b2 0x1F3 (u8 lba)) as (B3 & P3 & S3 & R3); [done | done | lia |]. set (b3 := port_out b2 _ _) in *.
  destruct (ata_register b3 0x1F4 (u8 (Z.shiftr lba 8))) as (B4 & P4 & S4 & R4); [done | done | lia |].
  set (b4 := port_out b3 _ _) in *.
  destruct (ata_register b4 0x1F5 (u8 (Z.shiftr lba 16))) as (B5 & P5 & S5 & R5); [done | done | lia |].
  set (b5 := port_out b4 _ _) in *.
  exists b5. split_and!; [done | done | done | congruence | |].
  - by rewrite R5, R4, R3, R2, R1.
  - rewrite R5, R4, R3, R2, R1. exact (ata_registers_lba lba n Hl).
Qed.

Definition sending (bytes : list Z) : ata_phase := match bytes with [] => Idle | _ => Sending bytes end.

Lemma read_words_spec n : forall (b : B) bs rest, length bs = (2 * n)%nat -> (length rest mod 512 = 0)%nat -> (n <= 256)%nat ->
  Forall is_byte bs -> (0 < n -> busy (ata b) = 0)%nat -> phase (ata b) = sending (bs ++ rest) ->
  exists b', read_words b n = (b', bs) /\ phase (ata b') = sending rest /\ sectors (ata b') = sectors (ata b).
Proof.
  induction n as [|n IH]; intros b bs rest Hl Hrest Hn Hbytes Hbusy Hp.
  { destruct bs; [| done]. by exists b. }
  destruct bs as [|lo [|hi bs]]; cbn [length] in Hl; [lia | lia |].
  apply Forall_cons in Hbytes as [Hlo [Hhi Hbytes]%Forall_cons].
  destruct (ata_send b lo hi (bs ++ rest)) as (b1 & E & Hp1 & Hs1 & Hb1); [lia | done |].
  cbn [read_words]. rewrite E. destruct (IH b1 bs rest) as (b2 & E2 & Hp2 & Hs2);
    [lia | done | lia | done | | by destruct bs, rest |].
  { intros Hn0. apply Hb1. rewrite length_app, Nat.Div0.add_mod, Hrest, Nat.add_0_r, Nat.Div0.mod_mod.
    rewrite Nat.mod_small; lia. }
  rewrite E2. exists b2. split_and!; [| done | congruence]. repeat f_equal.
  - unfold u8. replace (lo + 256 * hi) with (lo + hi * 2 ^ 8) by lia. rewrite Z.mod_add by lia. by apply Z.mod_small.
  - rewrite Z.shiftr_div_pow2 by lia. replace (lo + 256 * hi) with (lo + hi * 2 ^ 8) by lia.
    rewrite Z.div_add by lia. rewrite (Z.div_small lo) by done. by apply u8_id.
Qed.

Lemma read_sectors_spec n : forall (b : B) bs, length bs = (512 * n)%nat -> Forall is_byte bs ->
  phase (ata b) = sending bs ->
  exists b', read_sectors b polls n = Ret (b', bs) /\ phase (ata b') = Idle /\ sectors (ata b') = sectors (ata b).
Proof.
  induction n as [|n IH]; intros b bs Hl Hbytes Hp; cbn [read_sectors].
  { destruct bs; [| done]. by exists b. }
  destruct (wait_busy b) as (b1 & -> & [Hp1 Hs1] & Hb1). rewrite bind_ret_l.
  destruct (wait_ready b1 Hb1) as (b2 & -> & [Hp2 Hs2] & Hb2). rewrite bind_ret_l.
  destruct (read_words_spec HALF_BLOCK_SIZE b2 (take 512 bs) (drop 512 bs)) as (b3 & -> & Hp3 & Hs3).
  - rewrite length_take. unfold HALF_BLOCK_SIZE. lia.
  - rewrite length_drop, Hl. replace (512 * S n - 512)%nat with (n * 512)%nat by lia. apply Nat.Div0.mod_mul.
  - done.
  - by apply Forall_take.
  - done.
  - rewrite take_drop. congruence.
  - destruct (IH b3 (drop 512 bs)) as (b4 & -> & Hp4 & Hs4);
      [rewrite length_drop; lia | by apply Forall_drop | done |].
    rewrite bind_ret_l, take_drop. exists b4. split_and!; [done | done | congruence].
Qed.

Lemma write_words_spec ptr i n : forall (b : B) j lba left, (j + n = 256)%nat -> (0 < n)%nat ->
  (512 * S i <= length ptr)%nat -> Forall is_byte ptr -> busy (ata b) = 0%nat ->
  phase (ata b) = Taking lba (S left) (sub ptr (512 * i) (2 * j)) ->
  let b' := write_words b ptr (256 * i + j) n in
  phase (ata b') = match left with O => Idle | _ => Taking (lba + 1) left [] end /\
  sectors (ata b') = put_sector (sectors (ata b)) lba (sub ptr (512 * i) 512).
Proof.
  induction n as [|n IH]; intros b j lba left Hj Hn Hl Hbytes Hb Hp; [lia |]. cbn [write_words].
  set (lo := nth _ ptr 0). set (hi := nth _ ptr 0).
  assert (sub ptr (512 * i) (2 * j) ++ [lo; hi] = sub ptr (512 * i) (2 * S j)) as Hgot.
  { unfold sub. replace (2 * S j)%nat with (S (S (2 * j))) by lia.
    rewrite (take_S_r _ (S (2 * j)) hi), (take_S_r _ (2 * j) lo), <- app_assoc; [done | |].
    - rewrite lookup_drop. replace (512 * i + 2 * j)%nat with (2 * (256 * i + j))%nat by lia. apply lookup_nth. lia.
    - rewrite lookup_drop. replace (512 * i + S (2 * j))%nat with (2 * (256 * i + j) + 1)%nat by lia. apply lookup_nth. lia. }
  pose proof (ata_take b lba left _ lo hi Hb Hp (nth_byte _ _ Hbytes) (nth_byte _ _ Hbytes)) as Ht. cbv zeta in Ht.
  rewrite Hgot in Ht. assert (length (sub ptr (512 * i) (2 * j)) = 2 * j)%nat as Hlen.
  { unfold sub. rewrite length_take, length_drop. lia. }
  rewrite Hlen in Ht. destruct (Nat.eqb_spec (2 * j) 510).
  - replace n with O by lia. cbn [write_words]. by replace (2 * S j)%nat with 512%nat in Ht by lia.
  - destruct Ht as (Hp1 & Hs1 & Hb1).
    destruct (IH (port_out16 b 0x1F0 (lo + 256 * hi)) (S j) lba left) as [HP HS]; [lia | lia | done | done | done | done |].
    replace (S (256 * i + j)) with (256 * i + S j)%nat by lia. split; [exact HP |]. rewrite HS. congruence.
Qed.

Lemma write_sectors_spec ptr lba n : forall (b : B) i, (512 * (i + n) <= length ptr)%nat -> Forall is_byte ptr ->
  phase (ata b) = match n with O => Idle | _ => Taking (lba + Z.of_nat i) n [] end ->
  exists b', write_sectors b polls ptr i n = Ret b' /\ phase (ata b') = Idle /\
    forall k, sectors (ata b') k =
      if (lba + Z.of_nat i <=? k) && (k <? lba + Z.of_nat (i + n))
      then sub ptr (512 * Z.to_nat (k - lba)) 512 else sectors (ata b) k.
Proof.
  induction n as [|n IH]; intros b i Hl Hbytes Hp; cbn [write_sectors].
  { exists b. split_and!; [done | done |]. intros k. split_cond; [lia | done]. }
  destruct (wait_busy b) as (b1 & -> & [Hp1 Hs1] & Hb1). rewrite bind_ret_l.
  destruct (wait_ready b1 Hb1) as (b2 & -> & [Hp2 Hs2] & Hb2). rewrite bind_ret_l.
  destruct (write_words_spec ptr i HALF_BLOCK_SIZE b2 0 (lba + Z.of_nat i) n) as [HP HS];
    [done | unfold HALF_BLOCK_SIZE; lia | lia | done | done | by rewrite Hp2, Hp1, Hp |].
  rewrite Nat.add_0_r in HP, HS. set (b3 := write_words b2 _ _ _) in *.
  destruct (IH b3 (S i)) as (b' & E & Hidle & Hk); [lia | done | |].
  { rewrite HP. replace (lba + Z.of_nat (S i)) with (lba + Z.of_nat i + 1) by lia. done. }
  exists b'. split_and!; [exact E | done |]. intros k. rewrite Hk, HS. unfold put_sector. rewrite Hs2, Hs1.
  destruct (Z.eqb_spec k (lba + Z.of_nat i)) as [->|].
  - split_cond; try lia; f_equal; lia.
  - split_cond; done || lia.
Qed.

(** ** The block device of the file system *)

Definition ata_ok (b : B) : Prop :=
  phase (ata b) = Idle /\
  forall i, 0 <= i < ata_capacity -> length (sectors (ata b) i) = 512%nat /\ Forall is_byte (sectors (ata b) i).

Lemma blocks_of_ok (b : B) lba n : ata_ok b -> 0 <= lba -> lba + Z.of_nat n <= ata_capacity ->
  length (blocks_of (sectors (ata b)) lba n) = (512 * n)%nat /\ Forall is_byte (blocks_of (sectors (ata b)) lba n).
Proof.
  intros [_ Hok] Hlba0. unfold blocks_of. induction n as [|n IH]; intros Hn; [by split |].
  rewrite seq_S, fmap_app, join_app, length_app. destruct IH as [Hl Hb]; [lia |].
  destruct (Hok (lba + Z.of_nat n)) as [Hl1 Hb1]; [lia |]. cbn. rewrite app_nil_r, Hl, Hl1. split; [lia |].
  by apply Forall_app.
Qed.

Lemma ata_read_spec (b : B) lba n : ata_ok b -> 0 <= lba -> 0 < n < 256 -> lba + n <= ata_capacity ->
  exists b', ata_read_blocks polls b lba n = Ret (b', blocks_of (sectors (ata b)) lba (Z.to_nat n)) /\
    phase (ata b') = Idle /\ sectors (ata b') = sectors (ata b).
Proof.
  intros Hok Hlba0 Hn Hc. pose proof ata_capacity_range as Hcap. unfold ata_read_blocks.
  destruct (wait_busy b) as (b1 & -> & [Hp1 Hs1] & Hb1). rewrite bind_ret_l.
  destruct (ata_command_registers b1 lba n 0x20) as (b0 & -> & Hb0 & Hp0 & Hs0 & Hr2 & Hlba);
    [done | rewrite Hp1; apply Hok | lia |]. cbv zeta in Hlba.
  pose proof (ata_read_command b0 Hb0 Hp0) as Hcmd. cbv zeta in Hcmd. rewrite Hlba, Hr2 in Hcmd.
  destruct Hcmd as [Hph Hsec]; [lia | lia |].
  destruct (blocks_of_ok b lba (Z.to_nat n) Hok) as [Hl Hbytes]; [lia | lia |].
  destruct (read_sectors_spec (Z.to_nat n) (port_out b0 0x1F7 0x20) (blocks_of (sectors (ata b)) lba (Z.to_nat n)))
    as (b' & -> & Hidle & Hs'); [done | done | |].
  - rewrite Hph, Hs0, Hs1. unfold sending. case_match eqn:Heq; [| done]. cbn in Hl. lia.
  - exists b'. split_and!; [done | done | congruence].
Qed.

Lemma ata_write_spec (b : B) bs lba n : ata_ok b -> 0 <= lba -> 0 < n < 256 -> lba + n <= ata_capacity ->
  length bs = (512 * Z.to_nat n)%nat -> Forall is_byte bs ->
  exists b', ata_write_blocks polls b bs lba n = Ret b' /\ ata_ok b' /\
    forall i, sectors (ata b') i =
      if (lba <=? i) && (i <? lba + n) then sub bs (512 * Z.to_nat (i - lba)) 512 else sectors (ata b) i.
Proof.
  intros Hok Hlba0 Hn Hc Hl Hbytes. pose proof ata_capacity_range as Hcap. unfold ata_write_blocks.
  destruct (wait_busy b) as (b1 & -> & [Hp1 Hs1] & Hb1). rewrite bind_ret_l.
  destruct (ata_command_registers b1 lba n 0x30) as (b0 & -> & Hb0 & Hp0 & Hs0 & Hr2 & Hlba);
    [done | rewrite Hp1; apply Hok | lia |]. cbv zeta in Hlba.
  pose proof (ata_write_command b0 Hb0 Hp0) as Hcmd. cbv zeta in Hcmd. rewrite Hlba, Hr2 in Hcmd.
  destruct Hcmd as [Hph Hsec]; [lia | lia |].
  destruct (write_sectors_spec bs lba (Z.to_nat n) (port_out b0 0x1F7 0x30) 0) as (b' & -> & Hidle & Hk); [lia | done | |].
  { rewrite Hph. replace (lba + Z.of_nat 0) with lba by lia. case_match eqn:Heq; [lia | done]. }
  assert (forall i, sectors (ata b') i =
    if (lba <=? i) && (i <? lba + n) then sub bs (512 * Z.to_nat (i - lba)) 512 else sectors (ata b) i) as Hsec'.
  { intros i. rewrite Hk, Hsec, Hs0, Hs1. split_cond; done || lia. }
  exists b'. split_and!; [done | | done]. split; [done |]. intros i Hi. rewrite Hsec'.
  destruct Hok as [_ Hok]. destruct ((lba <=? i) && (i <? lba + n)) eqn:E; [| by apply Hok].
  split; [unfold sub; rewrite length_take, length_drop; lia | by apply Forall_take, Forall_drop].
Qed.
End Spec.

(** The bus with a drive behind it, for programs linked with this driver.  A
    [BlockDevice] read gives no device back: it leaves the sectors as they are
    and the drive idle ([ata_read_spec]). *)
Record AtaDisk (B : Type) (polls : nat) := mkAtaDisk { ata_bus : B }.
Arguments mkAtaDisk {B polls}.
Arguments ata_bus {B polls}.
#[export] Instance ata_device {B} `{PortBus B} polls : BlockDevice (AtaDisk B polls) := {
  read_blocks d lba n := '(_, bs) ← ata_read_blocks polls (ata_bus d) lba n; Ret bs;
  write_blocks d bs lba n := b ← ata_write_blocks polls (ata_bus d) bs lba n; Ret (mkAtaDisk b);
}.
Definition ata_device_spec {B} `{AtaDrive B} polls (patient : (ata_patience <= polls)%nat) :
  BlockDeviceSpec (AtaDisk B polls).
Proof.
  refine {| dev_ok d := ata_ok (ata_bus d); dev_block d := sectors (ata (ata_bus d)); dev_capacity := ata_capacity |}.
  - apply ata_capacity_range.
  - intros d i [_ Hok]. apply Hok.
  - intros d lba n Hok Hlba Hn Hc. cbn.
    destruct (ata_read_spec polls patient (ata_bus d) lba n Hok Hlba Hn Hc) as (b' & -> & _). done.
  - intros d bs lba n Hok Hlba Hn Hc Hl Hb. cbn.
    destruct (ata_write_spec polls patient (ata_bus d) bs lba n Hok Hlba Hn Hc Hl Hb) as (b' & -> & Hok' & Hs).
    exists (mkAtaDisk b'). split_and!; [done | done |]. intros i _. apply Hs.
Defined.

Lemma blocks_of_written (blk blk' : Z -> list Z) bs lba n : 0 <= lba -> length bs = (512 * n)%nat ->
  (forall i, blk' i = if (lba <=? i) && (i <? lba + Z.of_nat n) then sub bs (512 * Z.to_nat (i - lba)) 512 else blk i) ->
  blocks_of blk' lba n = bs.
Proof.
  intros Hlba0 Hl Hblk. unfold blocks_of.
  assert (forall k, (k <= n)%nat -> mjoin ((fun i => blk' (lba + Z.of_nat i)) <$> seq 0 k) = take (512 * k) bs) as Hk.
  { induction k as [|k IH]; intros Hk; [by rewrite Nat.mul_0_r |].
    rewrite seq_S, fmap_app, join_app, IH by lia. cbn [fmap list_fmap mjoin list_join Nat.add]. rewrite app_nil_r, Hblk.
    split_cond; try lia. replace (512 * Z.to_nat (lba + Z.of_nat k - lba))%nat with (512 * k)%nat by lia.
    unfold sub. replace (512 * S k)%nat with (512 * k + 512)%nat by lia. by rewrite take_take_drop. }
  rewrite Hk by done. apply take_ge. lia.
Qed.

(** C20: On a drive that follows the ATA protocol, with any bounded number of busy
    or not-ready status reads before and between sectors, [write_blocks] followed
    by [read_blocks] of the same blocks returns without running out of polls and
    gives back the bytes written; no other sector changes and the drive is idle
    again. *)
Theorem ata_write_then_read {B} `{AtaDrive B} polls (b : B) bs lba n :
  (ata_patience <= polls)%nat -> ata_ok b -> 0 <= lba -> 0 < n < 256 -> lba + n <= ata_capacity ->
  length bs = (512 * Z.to_nat n)%nat -> Forall is_byte bs ->
  exists b1 b2 : B, ata_write_blocks polls b bs lba n = Ret b1 /\ ata_read_blocks polls b1 lba n = Ret (b2, bs) /\
    ata_ok b2 /\ forall i, ~ (lba <= i < lba + n) -> sectors (ata b2) i = sectors (ata b) i.
Proof.
  intros Hpat Hok Hlba Hn Hc Hl Hb.
  destruct (ata_write_spec polls Hpat b bs lba n Hok Hlba Hn Hc Hl Hb) as (b1 & E1 & Hok1 & Hs1).
  destruct (ata_read_spec polls Hpat b1 lba n Hok1 Hlba Hn Hc) as (b2 & E2 & Hp2 & Hs2).
  rewrite (blocks_of_written (sectors (ata b)) (sectors (ata b1)) bs lba (Z.to_nat n)) in E2;
    [| done | done | intros i; rewrite Hs1; split_cond; done || lia].
  exists b1, b2. split_and!; [done | done | split; [done | rewrite Hs2; apply Hok1] |].
  intros i Hi. rewrite Hs2, Hs1. split_cond; lia || done.
Qed.

(** ** A drive that is busy once and then not ready once before every sector *)

Record SimDrive := mkSimDrive {
  sim_phase : ata_phase;
  sim_sectors : Z -> list Z;
  sim_regs : Z -> Z;
  sim_busy : bool;
  sim_not_ready : bool;
}.
Definition sim_ata (b : SimDrive) : AtaState :=
  mkAta (sim_phase b) (sim_sectors b) (sim_regs b) (if sim_busy b then 1 else 0) (if sim_not_ready b then 1 else 0).
Definition sim_command (b : SimDrive) (v : Z) : SimDrive :=
  let r := sim_regs b in
  let lba := ata_registers (r 0x1F2) (r 0x1F3) (r 0x1F4) (r 0x1F5) (r 0x1F6) in
  let n := Z.to_nat (r 0x1F2) in
  if v =? 0x20 then mkSimDrive (Sending (blocks_of (sim_sectors b) lba n)) (sim_sectors b) r true true
  else if v =? 0x30 then mkSimDrive (Taking lba n []) (sim_sectors b) r true true else b.
Definition sim_word_in (b : SimDrive) : SimDrive * Z :=
  match sim_phase b with
  | Sending (lo :: hi :: rest) =>
    let more := (length rest mod 512 =? 0)%nat in
    (mkSimDrive (match rest with [] => Idle | _ => Sending rest end) (sim_sectors b) (sim_regs b) more more, lo + 256 * hi)
  | _ => (b, 0)
  end.
Definition sim_word_out (b : SimDrive) (w : Z) : SimDrive :=
  match sim_phase b with
  | Taking lba (S more) got =>
    let got := got ++ [w mod 256; w / 256] in
    if (length got =? 512)%nat
    then mkSimDrive (match more with O => Idle | _ => Taking (lba + 1) more [] end)
           (put_sector (sim_sectors b) lba got) (sim_regs b) true true
    else mkSimDrive (Taking lba (S more) got) (sim_sectors b) (sim_regs b) false false
  | _ => b
  end.
#[export] Instance sim_bus : PortBus SimDrive := {
  port_in b p := (mkSimDrive (sim_phase b) (sim_sectors b) (sim_regs b) false (sim_busy b && sim_not_ready b),
                  if sim_busy b then 0x80 else if sim_not_ready b then 0 else 0x40);
  port_out b p v :=
    if p =? 0x1F7 then sim_command b v
    else mkSimDrive (sim_phase b) (sim_sectors b) (fun q => if q =? p then v else sim_regs b q) (sim_busy b) (sim_not_ready b);
  port_in16 b _ := sim_word_in b;
  port_out16 b _ w := sim_word_out b w;
}.
#[export] Instance sim_drive : AtaDrive SimDrive.
Proof.
  refine {| ata := sim_ata; ata_capacity := 2048; ata_patience := 1 |}; cbn.
  - lia.
  - intros b. destruct (sim_busy b); lia.
  - intros b. destruct (sim_not_ready b); lia.
  - intros b. eexists _, _. split; [reflexivity |]. by destruct (sim_busy b), (sim_not_ready b).
  - intros b p v Hb Hp Hr. destruct (Z.eqb_spec p 0x1F7); [lia |]. done.
  - intros b Hb Hp Hn Hc. done.
  - intros b Hb Hp Hn Hc. done.
  - intros b lo hi rest Hb Hp. unfold sim_word_in. rewrite Hp. eexists. split; [reflexivity |]. cbn.
    split_and!; [by destruct rest | done |]. intros Hne. by destruct (Nat.eqb_spec (511 - (Nat.divmod (length rest) 511 0 511).2) 0).
  - intros b lba left got lo hi Hb Hp Hlo Hhi. unfold sim_word_out. rewrite Hp.
    unfold is_byte in *. assert ((lo + 256 * hi) mod 256 = lo /\ (lo + 256 * hi) / 256 = hi) as [-> ->]
      by (Z.to_euclidean_division_equations; lia).
    rewrite length_app. cbn [length]. destruct (Nat.eqb_spec (length got) 510), (Nat.eqb_spec (length got + 2) 512); try lia; done.
Defined.

Definition blank_drive : SimDrive := mkSimDrive Idle (fun _ => replicate 512 0) (fun _ => 0) false false.
Definition two_sectors : list Z := replicate 512 7 ++ replicate 512 9.

Lemma ata_write_then_read_witness : exists b1 b2,
  ata_write_blocks 1 blank_drive two_sectors 0x123 2 = Ret b1 /\ ata_read_blocks 1 b1 0x123 2 = Ret (b2, two_sectors).
Proof.
  destruct (ata_write_then_read 1 blank_drive two_sectors 0x123 2) as (b1 & b2 & E1 & E2 & _).
  - reflexivity || (cbn; lia).
  - split; [reflexivity |]. intros i _. split; [reflexivity | by_compute].
  - lia.
  - lia.
  - cbn. lia.
  - reflexivity.
  - by_compute.
  - exists b1, b2. split; [exact E1 | exact E2].
Defined.
