(* ===== verification/Descriptors.v ===== *)
(** * Segment and interrupt descriptors (src/gdt.c, src/idt.c)

    The descriptor tables with the bit fields of the packed structs, installing
    the TSS and filling the interrupt table.  The second half reads the eight
    bytes of a descriptor back the way the processor does (Intel manual 3A,
    figures 3-8 and 6-2). *)
From S2P Require Import Prelude.
#[local] Open Scope Z_scope.

(** ** Packed bit fields: pairs of width and value, lowest bits first. *)

Fixpoint pack (fields : list (Z * Z)) : Z :=
  match fields with
  | [] => 0
  | (w, v) :: fields' => v mod 2 ^ w + 2 ^ w * pack fields'
  end.

Definition bits (lo w d : Z) : Z := (d / 2 ^ lo) mod 2 ^ w.

(** ** src/gdt.c *)

Definition GDT_MAX_ENTRY_COUNT : nat := 32.
Definition GDT_KERNEL_CODE_SEGMENT_SELECTOR : Z := 0x8.
Definition GDT_KERNEL_DATA_SEGMENT_SELECTOR : Z := 0x10.
Definition GDT_USER_CODE_SEGMENT_SELECTOR : Z := 0x18.
Definition GDT_USER_DATA_SEGMENT_SELECTOR : Z := 0x20.
Definition GDT_TSS_SELECTOR : Z := 0x28.
Definition sizeof_TSSEntry : Z := 104.

Record SegmentDescriptor := mkSegment {
  segment_low : Z;
  base_low : Z;
  base_mid : Z;
  type_bit : Z;
  non_system : Z;
  privilege_level : Z;
  present : Z;
  segment_high : Z;
  available : Z;
  l_bit : Z;
  default_operation_size : Z;
  granularity : Z;
  base_high : Z;
}.

Definition encode_segment (s : SegmentDescriptor) : Z :=
  pack [(16, segment_low s); (16, base_low s); (8, base_mid s); (4, type_bit s); (1, non_system s);
        (2, privilege_level s); (1, present s); (4, segment_high s); (1, available s); (1, l_bit s);
        (1, default_operation_size s); (1, granularity s); (8, base_high s)].

Definition null_segment : SegmentDescriptor := mkSegment 0 0 0 0 0 0 0 0 0 0 0 0 0.
Definition kernel_code_segment : SegmentDescriptor := mkSegment 0xFFFF 0 0 0xA 1 0 1 0xF 0 0 1 1 0.
Definition kernel_data_segment : SegmentDescriptor := mkSegment 0xFFFF 0 0 0x2 1 0 1 0xF 0 0 1 1 0.
Definition user_code_segment : SegmentDescriptor := mkSegment 0xFFFF 0 0 0xA 1 0x3 1 0xF 0 0 1 1 0.
Definition user_data_segment : SegmentDescriptor := mkSegment 0xFFFF 0 0 0x2 1 0x3 1 0xF 0 0 1 1 0.
Definition tss_segment : SegmentDescriptor :=
  mkSegment (u16 sizeof_TSSEntry) 0 0 0x9 0 0 1 (Z.shiftr (Z.land sizeof_TSSEntry (Z.shiftl 0xF 16)) 16) 0 0 1 0 0.

Definition global_descriptor_table : list SegmentDescriptor :=
  [null_segment; kernel_code_segment; kernel_data_segment; user_code_segment; user_data_segment; tss_segment]
  ++ replicate (GDT_MAX_ENTRY_COUNT - 6) null_segment.

(** [base] is the address of [_interrupt_tss_entry]. *)
Definition gdt_install_tss (base : Z) (table : list SegmentDescriptor) : outcome (list SegmentDescriptor) :=
  s ← aget table 5;
  aset table 5
    (mkSegment (segment_low s) (Z.land base 0xFFFF) (Z.shiftr (Z.land base (Z.shiftl 0xFF 16)) 16)
       (type_bit s) (non_system s) (privilege_level s) (present s) (segment_high s) (available s) (l_bit s)
       (default_operation_size s) (granularity s) (Z.shiftr (Z.land base (Z.shiftl 0xFF 24)) 24)).

(** [_gdt_gdtr.size] *)
Definition gdt_gdtr_size : Z := 8 * Z.of_nat GDT_MAX_ENTRY_COUNT - 1.

(** struct TSSEntry, its two fields in use; [ebp] is read by an assembly line. *)
Record TSSEntry := mkTss { esp0 : Z; ss0 : Z }.
Definition interrupt_tss_entry : TSSEntry := mkTss 0 GDT_KERNEL_DATA_SEGMENT_SELECTOR.
Definition set_tss_kernel_current_stack (ebp : Z) (t : TSSEntry) : TSSEntry := mkTss (u32 (ebp + 8)) (ss0 t).

(** ** src/idt.c *)

Definition IDT_MAX_ENTRY_COUNT : nat := 256.
Definition ISR_STUB_TABLE_LIMIT : nat := 64.
Definition INTERRUPT_GATE_R_BIT_1 : Z := 0.
Definition INTERRUPT_GATE_R_BIT_2 : Z := 6.
Definition INTERRUPT_GATE_R_BIT_3 : Z := 0.

Record IDTGate := mkGate {
  offset_low : Z;
  segment : Z;
  gate_reserved : Z;
  r_bit_1 : Z;
  r_bit_2 : Z;
  gate_32 : Z;
  r_bit_3 : Z;
  privilege : Z;
  valid_bit : Z;
  offset_high : Z;
}.
Definition zero_gate : IDTGate := mkGate 0 0 0 0 0 0 0 0 0 0.

Definition encode_gate (g : IDTGate) : Z :=
  pack [(16, offset_low g); (16, segment g); (5, gate_reserved g); (3, r_bit_1 g); (3, r_bit_2 g);
        (1, gate_32 g); (1, r_bit_3 g); (2, privilege g); (1, valid_bit g); (16, offset_high g)].

Definition interrupt_descriptor_table : list IDTGate := replicate IDT_MAX_ENTRY_COUNT zero_gate.
Definition idt_idtr_size : Z := 8 * Z.of_nat IDT_MAX_ENTRY_COUNT - 1.

(** Assigning [privilege] keeps its two low bits. *)
Definition set_interrupt_gate (table : list IDTGate) (int_vector handler_address gdt_seg_selector priv : Z)
    : outcome (list IDTGate) :=
  g ← aget table (u8 int_vector);
  let lower := u16 (Z.land handler_address 0xFFFF) in
  let higher := u16 (Z.land (Z.shiftr handler_address 16) 0xFFFF) in
  aset table (u8 int_vector)
    (mkGate lower (u16 gdt_seg_selector) (gate_reserved g) INTERRUPT_GATE_R_BIT_1 INTERRUPT_GATE_R_BIT_2 1
       INTERRUPT_GATE_R_BIT_3 (u8 priv mod 4) 1 higher).

(** The table filled after [lidt] and [sti]; [isr_stub_table] is assembled code's. *)
Definition initialize_idt (isr_stub_table : list Z) (table : list IDTGate) : outcome (list IDTGate) :=
  for_upM 0 ISR_STUB_TABLE_LIMIT (fun i table =>
    handler ← aget isr_stub_table (Z.of_nat i);
    if Z.of_nat i <? 0x30
    then set_interrupt_gate table (Z.of_nat i) handler GDT_KERNEL_CODE_SEGMENT_SELECTOR 0
    else set_interrupt_gate table (Z.of_nat i) handler GDT_KERNEL_CODE_SEGMENT_SELECTOR 0x3) table.

(** ** What the processor reads *)

Definition descriptor_base (d : Z) : Z := bits 16 16 d + 2 ^ 16 * bits 32 8 d + 2 ^ 24 * bits 56 8 d.
Definition descriptor_limit (d : Z) : Z :=
  let limit := bits 0 16 d + 2 ^ 16 * bits 48 4 d in
  if bits 55 1 d =? 1 then limit * 4096 + 4095 else limit.
Definition descriptor_dpl (d : Z) : Z := bits 45 2 d.
Definition descriptor_present (d : Z) : bool := bits 47 1 d =? 1.
(** S bit and type. *)
Definition descriptor_type (d : Z) : Z := bits 40 5 d.
Definition CODE_EXECUTE_READ : Z := 0x1A.
Definition DATA_READ_WRITE : Z := 0x12.
Definition TSS_AVAILABLE_32 : Z := 0x09.

Definition gate_offset (d : Z) : Z := bits 0 16 d + 2 ^ 16 * bits 48 16 d.
Definition gate_selector (d : Z) : Z := bits 16 16 d.
Definition gate_type (d : Z) : Z := bits 40 5 d.
Definition INTERRUPT_GATE_32 : Z := 0x0E.

(** [int n] of a program in ring 3 goes through a gate of DPL 3. *)
Definition user_may_raise (table : list IDTGate) (n : Z) : bool :=
  match table !! Z.to_nat n with
  | Some g => descriptor_present (encode_gate g) && (descriptor_dpl (encode_gate g) =? 3)
  | None => false
  end.

(** The descriptor a selector picks. *)
Definition selected (table : list SegmentDescriptor) (selector : Z) : option Z :=
  encode_segment <$> table !! Z.to_nat (selector / 8).

(** ** Reading a packed field *)

Lemma bits_0 w v rest : 0 <= w -> bits 0 w (v mod 2 ^ w + 2 ^ w * rest) = v mod 2 ^ w.
Proof.
  intros Hw. unfold bits. rewrite Z.pow_0_r, Z.div_1_r. rewrite (Z.mul_comm (2 ^ w)), Z.mod_add by lia.
  apply Z.mod_mod. lia.
Qed.

Lemma bits_skip lo w w0 v rest : 0 <= w0 <= lo -> bits lo w (v mod 2 ^ w0 + 2 ^ w0 * rest) = bits (lo - w0) w rest.
Proof.
  intros Hw. unfold bits. replace (2 ^ lo) with (2 ^ w0 * 2 ^ (lo - w0)) by (rewrite <- Z.pow_add_r by lia; f_equal; lia).
  rewrite <- Z.div_div by lia. rewrite (Z.mul_comm (2 ^ w0) rest), Z.div_add by lia.
  rewrite (Z.div_small (v mod 2 ^ w0)) by (apply Z.mod_pos_bound; lia). done.
Qed.

Ltac read_field :=
  cbn [pack]; repeat (rewrite bits_skip by lia); rewrite bits_0 by lia.

Lemma bits_split lo w1 w2 d : 0 <= lo -> 0 <= w1 -> 0 <= w2 ->
  bits lo (w1 + w2) d = bits lo w1 d + 2 ^ w1 * bits (lo + w1) w2 d.
Proof.
  intros Hlo H1 H2. unfold bits. rewrite (Z.pow_add_r 2 lo w1), (Z.pow_add_r 2 w1 w2) by lia.
  rewrite <- Z.div_div by lia. apply Z.rem_mul_r; lia.
Qed.

Lemma byte_of_address base k : 0 <= k -> Z.shiftr (Z.land base (Z.shiftl 0xFF k)) k = (base / 2 ^ k) mod 2 ^ 8.
Proof.
  intros Hk. rewrite Z.shiftr_land, Z.shiftr_shiftl_l, Z.sub_diag, Z.shiftl_0_r, Z.shiftr_div_pow2 by lia.
  change 0xFF with (Z.ones 8). by rewrite Z.land_ones.
Qed.

(** ** The segments *)

(** The flat segments: selector, type and privilege level. *)
Definition flat_segments : list (Z * Z * Z) :=
  [(GDT_KERNEL_CODE_SEGMENT_SELECTOR, CODE_EXECUTE_READ, 0); (GDT_KERNEL_DATA_SEGMENT_SELECTOR, DATA_READ_WRITE, 0);
   (GDT_USER_CODE_SEGMENT_SELECTOR, CODE_EXECUTE_READ, 3); (GDT_USER_DATA_SEGMENT_SELECTOR, DATA_READ_WRITE, 3)].

Definition is_flat_segment (table : list SegmentDescriptor) (selector type dpl : Z) : bool :=
  match selected table selector with
  | Some d => descriptor_present d && (descriptor_base d =? 0) && (descriptor_limit d =? 2 ^ 32 - 1) &&
              (descriptor_type d =? type) && (descriptor_dpl d =? dpl)
  | None => false
  end.

(** The fields of a segment as the processor reads them. *)
Lemma segment_fields s : let d := encode_segment s in
  descriptor_base d = base_low s mod 2 ^ 16 + 2 ^ 16 * (base_mid s mod 2 ^ 8) + 2 ^ 24 * (base_high s mod 2 ^ 8) /\
  descriptor_limit d =
    (let limit := segment_low s mod 2 ^ 16 + 2 ^ 16 * (segment_high s mod 2 ^ 4) in
     if granularity s mod 2 ^ 1 =? 1 then limit * 4096 + 4095 else limit) /\
  descriptor_type d = type_bit s mod 2 ^ 4 + 2 ^ 4 * (non_system s mod 2 ^ 1) /\
  descriptor_dpl d = privilege_level s mod 2 ^ 2 /\ descriptor_present d = (present s mod 2 ^ 1 =? 1).
Proof.
  cbv zeta. unfold descriptor_base, descriptor_limit, descriptor_type, descriptor_dpl, descriptor_present, encode_segment.
  change 5 with (4 + 1). rewrite (bits_split 40 4 1) by lia. change (40 + 4) with 44.
  set (d := pack _).
  assert (bits 16 16 d = base_low s mod 2 ^ 16) as -> by (unfold d; read_field; done).
  assert (bits 32 8 d = base_mid s mod 2 ^ 8) as -> by (unfold d; read_field; done).
  assert (bits 56 8 d = base_high s mod 2 ^ 8) as -> by (unfold d; read_field; done).
  assert (bits 0 16 d = segment_low s mod 2 ^ 16) as -> by (unfold d; read_field; done).
  assert (bits 48 4 d = segment_high s mod 2 ^ 4) as -> by (unfold d; read_field; done).
  assert (bits 55 1 d = granularity s mod 2 ^ 1) as -> by (unfold d; read_field; done).
  assert (bits 40 4 d = type_bit s mod 2 ^ 4) as -> by (unfold d; read_field; done).
  assert (bits 44 1 d = non_system s mod 2 ^ 1) as -> by (unfold d; read_field; done).
  assert (bits 45 2 d = privilege_level s mod 2 ^ 2) as -> by (unfold d; read_field; done).
  assert (bits 47 1 d = present s mod 2 ^ 1) as -> by (unfold d; read_field; done).
  done.
Qed.

(** C32: After [gdt_install_tss] the processor reads, through the selectors the
    kernel loads, flat 4 GiB code and data segments of ring 0 and ring 3, and for
    the TSS selector an available 32-bit TSS of ring 0 whose base is the address
    of the TSS; every other entry is empty. *)
Theorem gdt_selects_flat_segments base : 0 <= base < 2 ^ 32 ->
  exists table d, gdt_install_tss base global_descriptor_table = Ret table /\
    Forall (fun '(selector, type, dpl) => is_flat_segment table selector type dpl = true) flat_segments /\
    selected table GDT_TSS_SELECTOR = Some d /\ descriptor_present d = true /\
    descriptor_type d = TSS_AVAILABLE_32 /\ descriptor_dpl d = 0 /\
    descriptor_base d = base /\ descriptor_limit d = sizeof_TSSEntry /\
    length table = GDT_MAX_ENTRY_COUNT /\
    forall i s, table !! i = Some s -> (i = 0 \/ 6 <= i)%nat -> encode_segment s = 0.
Proof.
  intros Hbase.
  set (tss := mkSegment 104 (Z.land base 0xFFFF) (Z.shiftr (Z.land base (Z.shiftl 0xFF 16)) 16) 9 0 0 1 0 0 0 1 0
                (Z.shiftr (Z.land base (Z.shiftl 0xFF 24)) 24)).
  exists ([null_segment; kernel_code_segment; kernel_data_segment; user_code_segment; user_data_segment; tss]
    ++ replicate 26 null_segment), (encode_segment tss).
  split; [reflexivity |]. destruct (segment_fields tss) as (Hb & Hl & Ht & Hd & Hp).
  split; [repeat constructor |]. split; [reflexivity |].
  rewrite Hb, Hl, Ht, Hd, Hp. split_and!; try reflexivity.
  - cbn [base_low base_mid base_high tss]. rewrite !byte_of_address by lia.
    change 0xFFFF with (Z.ones 16). rewrite Z.land_ones, !Z.mod_mod by lia. Z.to_euclidean_division_equations. lia.
  - intros i s Hi [->|Hge]; [by injection Hi as <- |].
    rewrite lookup_app_r in Hi by (cbn; lia). by apply lookup_replicate in Hi as [-> _].
Qed.

Lemma gdt_selects_flat_segments_witness : exists table d,
  gdt_install_tss 0xC0123456 global_descriptor_table = Ret table /\
  selected table GDT_TSS_SELECTOR = Some d /\ descriptor_base d = 0xC0123456.
Proof.
  destruct (gdt_selects_flat_segments 0xC0123456) as (table & d & E & _ & Hsel & _ & _ & _ & Hb & _); [lia |].
  exists table, d. split; [exact E |]. split; [exact Hsel | exact Hb].
Defined.

(** ** The gates *)

Lemma gate_fields g : let d := encode_gate g in
  gate_offset d = offset_low g mod 2 ^ 16 + 2 ^ 16 * (offset_high g mod 2 ^ 16) /\
  gate_selector d = segment g mod 2 ^ 16 /\
  gate_type d = r_bit_2 g mod 2 ^ 3 + 2 ^ 3 * (gate_32 g mod 2 ^ 1 + 2 ^ 1 * (r_bit_3 g mod 2 ^ 1)) /\
  descriptor_dpl d = privilege g mod 2 ^ 2 /\ descriptor_present d = (valid_bit g mod 2 ^ 1 =? 1).
Proof.
  cbv zeta. unfold gate_offset, gate_selector, gate_type, descriptor_dpl, descriptor_present, encode_gate.
  change 5 with (3 + (1 + 1)) at 2. rewrite (bits_split 40 3 (1 + 1)) by lia. change (40 + 3) with 43.
  rewrite (bits_split 43 1 1) by lia. change (43 + 1) with 44.
  set (d := pack _).
  assert (bits 0 16 d = offset_low g mod 2 ^ 16) as -> by (unfold d; read_field; done).
  assert (bits 48 16 d = offset_high g mod 2 ^ 16) as -> by (unfold d; read_field; done).
  assert (bits 16 16 d = segment g mod 2 ^ 16) as -> by (unfold d; read_field; done).
  assert (bits 40 3 d = r_bit_2 g mod 2 ^ 3) as -> by (unfold d; read_field; done).
  assert (bits 43 1 d = gate_32 g mod 2 ^ 1) as -> by (unfold d; read_field; done).
  assert (bits 44 1 d = r_bit_3 g mod 2 ^ 1) as -> by (unfold d; read_field; done).
  assert (bits 45 2 d = privilege g mod 2 ^ 2) as -> by (unfold d; read_field; done).
  assert (bits 47 1 d = valid_bit g mod 2 ^ 1) as -> by (unfold d; read_field; done).
  done.
Qed.

Definition interrupt_gate (n : nat) (handler : Z) : IDTGate :=
  mkGate (handler mod 2 ^ 16) GDT_KERNEL_CODE_SEGMENT_SELECTOR 0 0 6 1 0 (if (n <? 0x30)%nat then 0 else 3) 1
    (handler / 2 ^ 16).

Lemma set_interrupt_gate_spec table n handler priv : table !! n = Some zero_gate -> (n < 256)%nat ->
  0 <= handler < 2 ^ 32 -> priv = (if (n <? 0x30)%nat then 0 else 3) ->
  set_interrupt_gate table (Z.of_nat n) handler GDT_KERNEL_CODE_SEGMENT_SELECTOR priv =
    Ret (<[n := interrupt_gate n handler]> table).
Proof.
  intros Hn Hlt Hh Hpriv. unfold set_interrupt_gate. rewrite u8_id by lia.
  assert (aget table (Z.of_nat n) = Ret zero_gate) as -> by (apply aget_ret; rewrite Nat2Z.id; split; [lia | done]).
  rewrite bind_ret_l. rewrite (aset_in table (Z.of_nat n)) by (apply lookup_lt_Some in Hn; lia). rewrite Nat2Z.id.
  do 2 f_equal. unfold interrupt_gate. change 0xFFFF with (Z.ones 16). rewrite !Z.land_ones, Z.shiftr_div_pow2 by lia.
  unfold u16. rewrite !Z.mod_mod by lia. rewrite (Z.mod_small (handler / 2 ^ 16)) by (Z.to_euclidean_division_equations; lia).
  subst priv. by destruct (n <? 0x30)%nat.
Qed.

Lemma initialize_idt_spec stubs : length stubs = ISR_STUB_TABLE_LIMIT -> Forall (fun h => 0 <= h < 2 ^ 32) stubs ->
  exists table, initialize_idt stubs interrupt_descriptor_table = Ret table /\ length table = IDT_MAX_ENTRY_COUNT /\
    forall n, table !! n = if (n <? 256)%nat then Some (match stubs !! n with Some h => interrupt_gate n h | None => zero_gate end) else None.
Proof.
  intros Hl Hall. unfold initialize_idt.
  destruct (for_upM_ind (fun i table => length table = IDT_MAX_ENTRY_COUNT /\
    forall n, table !! n = if (n <? 256)%nat
      then Some (if (n <? i)%nat then match stubs !! n with Some h => interrupt_gate n h | None => zero_gate end else zero_gate) else None)
    (fun i table => handler ← aget stubs (Z.of_nat i);
      if Z.of_nat i <? 0x30 then set_interrupt_gate table (Z.of_nat i) handler GDT_KERNEL_CODE_SEGMENT_SELECTOR 0
      else set_interrupt_gate table (Z.of_nat i) handler GDT_KERNEL_CODE_SEGMENT_SELECTOR 0x3) 0 ISR_STUB_TABLE_LIMIT interrupt_descriptor_table)
    as (table & E & Hlen & Hk).
  - split; [done |]. intros n. unfold interrupt_descriptor_table. destruct (Nat.ltb_spec n 256).
    + by rewrite lookup_replicate_2.
    + apply lookup_ge_None. rewrite length_replicate. unfold IDT_MAX_ENTRY_COUNT. lia.
  - intros i table Hi [Hlen Hk]. unfold ISR_STUB_TABLE_LIMIT in *.
    destruct (lookup_lt_is_Some_2 stubs i) as [h Hh]; [lia |]. pose proof (Forall_lookup_1 _ _ _ _ Hall Hh) as Hrange.
    assert (aget stubs (Z.of_nat i) = Ret h) as -> by (apply aget_ret; rewrite Nat2Z.id; split; [lia | done]).
    rewrite bind_ret_l. assert (table !! i = Some zero_gate) as Hz.
    { rewrite Hk. destruct (Nat.ltb_spec i 256); [| lia]. by rewrite Nat.ltb_irrefl. }
    exists (<[i := interrupt_gate i h]> table). split.
    { destruct (Z.ltb_spec (Z.of_nat i) 0x30); apply set_interrupt_gate_spec; try done; try lia; split_cond; done || lia. }
    split; [by rewrite length_insert |]. intros n. destruct (decide (n = i)) as [->|].
    + rewrite list_lookup_insert_eq by (unfold IDT_MAX_ENTRY_COUNT in *; lia). rewrite Hh. by split_cond; try lia.
    + rewrite list_lookup_insert_ne, Hk by done. split_cond; done || lia.
  - exists table. split_and!; [exact E | done |]. intros n. rewrite Hk. destruct (Nat.ltb_spec n 256); [| done].
    destruct (Nat.ltb_spec n (0 + ISR_STUB_TABLE_LIMIT)); [done |]. by rewrite (proj2 (lookup_ge_None stubs n)) by lia.
Qed.

(** C31: After [initialize_idt] the processor enters the kernel code segment at
    the stub of the vector, through a present 32-bit interrupt gate, for exactly
    the vectors below 64; a program in ring 3 can raise exactly the vectors 0x30
    to 0x3f, so it can make system calls but not fake exceptions, the timer or
    the keyboard. *)
Theorem idt_routes_interrupts isr_stub_table :
  length isr_stub_table = ISR_STUB_TABLE_LIMIT -> Forall (fun h => 0 <= h < 2 ^ 32) isr_stub_table ->
  exists table, initialize_idt isr_stub_table interrupt_descriptor_table = Ret table /\
    (forall n h, isr_stub_table !! n = Some h -> exists g, table !! n = Some g /\
      let d := encode_gate g in
      descriptor_present d = true /\ gate_type d = INTERRUPT_GATE_32 /\
      gate_selector d = GDT_KERNEL_CODE_SEGMENT_SELECTOR /\ gate_offset d = h) /\
    (forall n g, table !! n = Some g -> (ISR_STUB_TABLE_LIMIT <= n)%nat -> descriptor_present (encode_gate g) = false) /\
    forall n, 0 <= n -> user_may_raise table n = true <-> 0x30 <= n < 0x40.
Proof.
  intros Hl Hall. destruct (initialize_idt_spec isr_stub_table Hl Hall) as (table & E & Hlen & Hk).
  exists table. split; [exact E |]. unfold ISR_STUB_TABLE_LIMIT in *. split_and!.
  - intros n h Hh. pose proof (lookup_lt_Some _ _ _ Hh). pose proof (Forall_lookup_1 _ _ _ _ Hall Hh) as Hr. cbn beta in Hr.
    exists (interrupt_gate n h). split; [rewrite Hk, Hh; by split_cond; try lia |]. cbv zeta.
    destruct (gate_fields (interrupt_gate n h)) as (-> & -> & -> & _ & ->). cbn [interrupt_gate offset_low offset_high].
    split_and!; [done | done | done |]. Z.to_euclidean_division_equations. lia.
  - intros n g Hg Hn. rewrite Hk in Hg. destruct (n <? 256)%nat; [| done].
    rewrite (proj2 (lookup_ge_None isr_stub_table n)) in Hg by lia. by injection Hg as <-.
  - intros n Hn. unfold user_may_raise. rewrite Hk.
    destruct (Nat.ltb_spec (Z.to_nat n) 256); [| split; [done | lia]].
    destruct (isr_stub_table !! Z.to_nat n) as [h|] eqn:Eh.
    + apply lookup_lt_Some in Eh. destruct (gate_fields (interrupt_gate (Z.to_nat n) h)) as (_ & _ & _ & -> & ->).
      cbn [interrupt_gate privilege valid_bit]. destruct (Nat.ltb_spec (Z.to_nat n) 48); cbn; (split; [intros; try done; lia | intros; done || lia]).
    + apply lookup_ge_None in Eh. split; [intros; by exfalso | lia].
Qed.

Lemma idt_routes_interrupts_witness : exists table,
  initialize_idt (replicate 64 0xC0101000) interrupt_descriptor_table = Ret table /\
  user_may_raise table 0x30 = true /\ ~ user_may_raise table 0x21 = true.
Proof.
  destruct (idt_routes_interrupts (replicate 64 0xC0101000)) as (table & E & _ & _ & Hu).
  - reflexivity.
  - by_compute.
  - exists table. split; [exact E |]. split; [apply Hu; lia |]. rewrite Hu by lia. lia.
Defined.
