(* ===== verification/Process.v ===== *)
(** * Processes (src/process.c)

    The table of process control blocks, creation of a process from an
    executable in the file system, its destruction and the listing of [ps]. *)
From Stdlib Require Import String.
From S2P Require Import Prelude CString BlockDevice Fat32Types Fat32 DirList IntStr Paging.
#[local] Open Scope Z_scope.

Definition PROCESS_NAME_LENGTH_MAX : nat := 32.
Definition PROCESS_PAGE_FRAME_COUNT_MAX : Z := 8.
Definition PROCESS_COUNT_MAX : nat := 16.
Definition CPU_EFLAGS_BASE_FLAG : Z := 0x2.
Definition CPU_EFLAGS_FLAG_INTERRUPT_ENABLE : Z := 0x200.

Definition PROCESS_CREATE_SUCCESS : Z := 0.
Definition PROCESS_CREATE_FAIL_MAX_PROCESS_EXCEEDED : Z := 1.
Definition PROCESS_CREATE_FAIL_INVALID_ENTRYPOINT : Z := 2.
Definition PROCESS_CREATE_FAIL_NOT_ENOUGH_MEMORY : Z := 3.
Definition PROCESS_CREATE_FAIL_FS_READ_FAILURE : Z := 4.

(** ** Registers and contexts (src/header/cpu/interrupt.h, process.h) *)

Record CPURegister := mkCpu {
  edi : Z; esi : Z;
  ebp : Z; esp : Z;
  ebx : Z; edx : Z; ecx : Z; eax : Z;
  seg_gs : Z; seg_fs : Z; seg_es : Z; seg_ds : Z;
}.
Definition zero_cpu : CPURegister := mkCpu 0 0 0 0 0 0 0 0 0 0 0 0.

Record Context := mkContext {
  cpu : CPURegister;
  eip : Z;
  eflags : Z;
  ss : Z;
  cs : Z;
  page_directory_virtual_addr : dir_ptr;
}.

(** ** struct ProcessControlBlock *)

Inductive PROCESS_STATE : Type :=
  | PROCESS_STATE_NEW
  | PROCESS_STATE_READY
  | PROCESS_STATE_RUNNING
  | PROCESS_STATE_WAITING
  | PROCESS_STATE_TERMINATED.
#[export] Instance PROCESS_STATE_eq_dec : EqDecision PROCESS_STATE.
Proof. solve_decision. Defined.

Record ProcessControlBlock := mkPcb {
  pid : Z;
  proc_name : list Z;
  state : PROCESS_STATE;
  virtual_addr_used : list Z;
  page_frame_used_count : Z;
  context : Context;
}.

Definition zero_context : Context := mkContext zero_cpu 0 0 0 0 None.
Definition zero_pcb : ProcessControlBlock :=
  mkPcb 0 (replicate PROCESS_NAME_LENGTH_MAX 0) PROCESS_STATE_NEW (replicate 8 0) 0 zero_context.

(** ** The static state: [_process_list], [process_manager_state], [pid_counter] *)

Record ProcessManager := mkPm {
  process_list : list ProcessControlBlock;
  active_process_count : Z;
  pid_counter : Z;
}.
Definition initial_process_manager : ProcessManager :=
  mkPm (replicate PROCESS_COUNT_MAX zero_pcb) 0 1.

(** The static state of src/paging.c. *)
Record PagingState := mkPaging {
  kernel_directory : PageDirectory;
  page_manager : PageManagerState;
  directory_pool : DirectoryPool;
}.
Definition initial_paging_state : PagingState :=
  mkPaging paging_kernel_page_directory initial_page_manager_state initial_pool.

(** Pointers into [_process_list] are indices; [None] is NULL. *)
Definition process_get_current_running_pcb_pointer (pm : ProcessManager) : option Z :=
  if 0 <? active_process_count pm then Some (u32 (active_process_count pm - 1)) else None.

Definition process_generate_new_pid (pm : ProcessManager) : ProcessManager * Z :=
  (mkPm (process_list pm) (active_process_count pm) (u32 (pid_counter pm + 1)), pid_counter pm).

Definition process_list_get_inactive_index (pm : ProcessManager) : Z :=
  match first_index (fun p => pid p =? 0) (process_list pm) with
  | Some i => Z.of_nat i
  | None => -1
  end.

Definition process_list_get_pcb_by_pid (pm : ProcessManager) (wanted : Z) : option nat :=
  first_index (fun p => pid p =? wanted) (process_list pm).

(** ** Creating a process *)

(** [ceil_div(request.buffer_size + PAGE_FRAME_SIZE, PAGE_FRAME_SIZE)] *)
Definition page_frame_count_needed (r : FAT32DriverRequest) : Z :=
  u32 (ceil_div (i32 (u32 (buffer_size r + PAGE_FRAME_SIZE))) PAGE_FRAME_SIZE).

(** The bytes from [request.name] on: the packed request, then the caller's stack. *)
Definition bytes_from_name (r : FAT32DriverRequest) (stack : list Z) : list Z :=
  req_name r ++ req_ext r ++ le_encode 4 (parent_cluster_number r) ++ le_encode 4 (buffer_size r) ++ stack.

(** [memcpy(dest, s, strlen(s))] into an array. *)
Definition overlay (dest s : list Z) : outcome (list Z) :=
  if (length s <=? length dest)%nat then Ret (s ++ drop (length s) dest) else Oob.

Definition initial_context : Context :=
  mkContext (mkCpu 0 0 0 (0x400000 - 4) 0 0 0 0 0 0 0 0) 0
    (Z.lor CPU_EFLAGS_BASE_FLAG CPU_EFLAGS_FLAG_INTERRUPT_ENABLE) 0x23 0x1b None.
Definition set_directory (c : Context) (d : dir_ptr) : Context :=
  mkContext (cpu c) (eip c) (eflags c) (ss c) (cs c) d.

(** The loop over the page frames. *)
Definition map_user_pages (dir : PageDirectory) (used : list Z) (n : nat)
    : outcome (PageDirectory * list Z) :=
  for_upM 0 n (fun i '(dir, used) =>
    let virtual_addr := u32 (KERNEL_VIRTUAL_ADDRESS_BASE + Z.of_nat i * PAGE_FRAME_SIZE) in
    let physical_addr := u32 (Z.of_nat i * PAGE_FRAME_SIZE) in
    dir ← update_page_directory_entry dir physical_addr virtual_addr user_flag;
    used ← aset used (Z.of_nat i) virtual_addr;
    Ret (dir, used)) (dir, used).

Section Processes.
Context {D : Type} `{BlockDevice D}.

Definition process_create_user_process (stack : list Z) (pg : PagingState) (pm : ProcessManager)
    (fs : Fs D) (m : mem) (request : FAT32DriverRequest)
    : outcome (PagingState * ProcessManager * Fs D * mem * Z) :=
  if Z.of_nat PROCESS_COUNT_MAX <=? active_process_count pm then
    Ret (pg, pm, fs, m, PROCESS_CREATE_FAIL_MAX_PROCESS_EXCEEDED) else
  if KERNEL_VIRTUAL_ADDRESS_BASE <=? buf request then
    Ret (pg, pm, fs, m, PROCESS_CREATE_FAIL_INVALID_ENTRYPOINT) else
  let needed := page_frame_count_needed request in
  if negb (paging_allocate_check (page_manager pg) needed) || (PROCESS_PAGE_FRAME_COUNT_MAX <? needed) then
    Ret (pg, pm, fs, m, PROCESS_CREATE_FAIL_NOT_ENOUGH_MEMORY) else
  let p_index := process_list_get_inactive_index pm in
  '(pool, page_directory) ← paging_create_new_page_directory (kernel_directory pg) (directory_pool pg);
  let pg := mkPaging (kernel_directory pg) (page_manager pg) pool in
  match page_directory with
  | None => Ret (pg, pm, fs, m, PROCESS_CREATE_FAIL_NOT_ENOUGH_MEMORY)
  | Some d =>
    '(fs, m, ret) ← read_mem fs m request;
    if negb (ret =? 0) then Ret (pg, pm, fs, m, PROCESS_CREATE_FAIL_FS_READ_FAILURE) else
    new_pcb ← aget (process_list pm) p_index;
    dir ← aget (page_directory_list pool) (Z.of_nat d);
    '(dir, used) ← map_user_pages dir (virtual_addr_used new_pcb) (Z.to_nat needed);
    dirs ← aset (page_directory_list pool) (Z.of_nat d) dir;
    let pg := mkPaging (kernel_directory pg) (page_manager pg) (mkPool dirs (page_directory_used pool)) in
    let '(pm, new_pid) := process_generate_new_pid pm in
    name_string ← c_string (bytes_from_name request stack);
    new_name ← overlay (proc_name new_pcb) name_string;
    procs ← aset (process_list pm) p_index
      (mkPcb new_pid new_name PROCESS_STATE_READY used needed (set_directory initial_context (Some d)));
    Ret (pg, mkPm procs (u32 (active_process_count pm + 1)) (pid_counter pm), fs, m, PROCESS_CREATE_SUCCESS)
  end.
End Processes.

(** ** Destroying a process *)

Definition process_destroy (pg : PagingState) (pm : ProcessManager) (wanted : Z)
    : outcome (PagingState * ProcessManager * bool) :=
  match process_list_get_pcb_by_pid pm wanted with
  | None => Ret (pg, pm, false)
  | Some i =>
    pcb ← aget (process_list pm) (Z.of_nat i);
    '(pool, _) ← paging_free_page_directory (directory_pool pg) (page_directory_virtual_addr (context pcb));
    nm ← aset (proc_name pcb) 0 0;
    procs ← aset (process_list pm) (Z.of_nat i)
      (mkPcb 0 nm PROCESS_STATE_TERMINATED (virtual_addr_used pcb) (page_frame_used_count pcb) (context pcb));
    Ret (mkPaging (kernel_directory pg) (page_manager pg) pool,
         mkPm procs (active_process_count pm) (pid_counter pm), true)
  end.

(** ** ps *)

Definition state_name (s : PROCESS_STATE) : list Z :=
  match s with
  | PROCESS_STATE_READY => bytes_of "READY"
  | PROCESS_STATE_RUNNING => bytes_of "RUNNING"
  | PROCESS_STATE_TERMINATED => bytes_of "TERMINATED"
  | PROCESS_STATE_WAITING => bytes_of "WAITING"
  | PROCESS_STATE_NEW => bytes_of "NEW"
  end.

(** [pid_str0] is what the stack holds where [char pid_str[10]] lies. *)
Definition ps_entry (pid_str0 : list Z) (o : Out) (p : ProcessControlBlock) : outcome Out :=
  if pid p =? 0 then Ret o else
  nm ← c_string (proc_name p);
  let o := emits o nm in
  let o := emits o (bytes_of " (PID: ") in
  pid_str ← int_to_str (i32 (pid p)) pid_str0;
  ds ← c_string pid_str;
  let o := emits o ds in
  let o := emits o (bytes_of ") - ") in
  let o := emits o (state_name (state p)) in
  Ret (emits o [10]).

Definition ps (pid_str0 : list Z) (pm : ProcessManager) (buffer : nat -> Z) : outcome Out :=
  foldM (ps_entry pid_str0) (mkOut buffer 0) (process_list pm).
