(* ===== verification/Scheduler.v ===== *)
(** * The scheduler (src/scheduler.c) and the timer interrupt

    The scheduler's static index, the register CR3 and the context handed to
    [process_context_switch] together with the process table form the state of a
    transition system: creations, destructions, timer interrupts and switches. *)
From S2P Require Import Prelude CString BlockDevice Fat32Types Fat32 Fat32Chain Fat32Facts DirList Paging Process PortIO.
#[local] Open Scope Z_scope.

(** ** struct InterruptFrame (src/header/cpu/interrupt.h) *)

Record InterruptStack := mkIntStack {
  error_code : Z;
  int_eip : Z;
  int_cs : Z;
  int_eflags : Z;
}.

Record InterruptFrame := mkFrame {
  frame_cpu : CPURegister;
  int_number : Z;
  int_stack : InterruptStack;
}.

(** ** State *)

(** [current_running_process_index], CR3 and the context last switched to. *)
Record SchedulerState := mkSched {
  current_running_process_index : Z;
  cr3 : dir_ptr;
  running : option Context;
}.
Definition initial_scheduler_state : SchedulerState := mkSched (-1) None None.

(** [(index + 1) % active_process_count], unsigned; dividing by zero faults. *)
Definition get_next_process_index (sc : SchedulerState) (pm : ProcessManager) : outcome Z :=
  if active_process_count pm =? 0 then Oob
  else Ret (i32 (u32 (current_running_process_index sc + 1) mod active_process_count pm)).

Definition scheduler_init {B} `{PortBus B} (b : B) (pm : ProcessManager) : B * ProcessManager :=
  (activate_timer_interrupt b, mkPm (process_list pm) 1 (pid_counter pm)).

Definition set_context (p : ProcessControlBlock) (c : Context) : ProcessControlBlock :=
  mkPcb (pid p) (proc_name p) (state p) (virtual_addr_used p) (page_frame_used_count p) c.

Definition scheduler_save_context_to_current_running_pcb (pm : ProcessManager) (ctx : Context)
    : outcome ProcessManager :=
  match process_get_current_running_pcb_pointer pm with
  | None => Ret pm
  | Some i =>
    p ← aget (process_list pm) i;
    procs ← aset (process_list pm) i (set_context p ctx);
    Ret (mkPm procs (active_process_count pm) (pid_counter pm))
  end.

(** [paging_use_page_directory] and [process_context_switch]. *)
Definition scheduler_switch_to_next_process (sc : SchedulerState) (pm : ProcessManager)
    : outcome SchedulerState :=
  next ← get_next_process_index sc pm;
  next_pcb ← aget (process_list pm) next;
  Ret (mkSched next (page_directory_virtual_addr (context next_pcb)) (Some (context next_pcb))).

(** [ctx.ss] and [ctx.cs] are never assigned: [stack_ss] and [stack_cs] are what
    the stack held.  The pointer is used without a test: NULL is [Oob]. *)
Definition create_context_from_interrupt_frame (stack_ss stack_cs : Z) (pm : ProcessManager)
    (frame : InterruptFrame) : outcome Context :=
  match process_get_current_running_pcb_pointer pm with
  | None => Oob
  | Some i =>
    p ← aget (process_list pm) i;
    Ret (mkContext (frame_cpu frame) (int_eip (int_stack frame)) (int_eflags (int_stack frame))
           stack_ss stack_cs (page_directory_virtual_addr (context p)))
  end.

(** The timer branch of [main_interrupt_handler] without the port output. *)
Definition timer_interrupt (stack_ss stack_cs : Z) (pm : ProcessManager) (frame : InterruptFrame)
    : outcome ProcessManager :=
  ctx ← create_context_from_interrupt_frame stack_ss stack_cs pm frame;
  scheduler_save_context_to_current_running_pcb pm ctx.

(** ** The transition system *)

Section System.
Context {D : Type} `{BlockDevice D}.

Record System := mkSystem {
  sys_paging : PagingState;
  sys_procs : ProcessManager;
  sys_sched : SchedulerState;
  sys_fs : Fs D;
  sys_mem : mem;
}.

(** [kernel_setup] maps one page of the kernel's directory and calls
    [scheduler_init] once, after creating the first process; [step_other] is any
    code that touches only memory and file system, as most system calls do.

    The kernel checks neither the pid of system call 14 nor the parent cluster of
    system call 15: [sys_step false] takes them as they come.  [sys_step true] is
    the same system used with care: no process 0 is destroyed, which would free
    the page directory a vacant slot still points to, and parent clusters are
    below 2^24, so that their bytes end the name that is copied from the request. *)
Inductive sys_step (careful : bool) : System -> System -> Prop :=
  | step_create stack pg pm sc fs m r pg' pm' fs' m' rc :
      req_ok r -> (careful = true -> parent_cluster_number r < 2 ^ 24) ->
      process_create_user_process stack pg pm fs m r = Ret (pg', pm', fs', m', rc) ->
      sys_step careful (mkSystem pg pm sc fs m) (mkSystem pg' pm' sc fs' m')
  | step_destroy pg pm sc fs m wanted pg' pm' b :
      (careful = true -> wanted <> 0) -> process_destroy pg pm wanted = Ret (pg', pm', b) ->
      sys_step careful (mkSystem pg pm sc fs m) (mkSystem pg' pm' sc fs m)
  | step_init pg pm sc fs m :
      active_process_count pm <= 1 ->
      sys_step careful (mkSystem pg pm sc fs m) (mkSystem pg (mkPm (process_list pm) 1 (pid_counter pm)) sc fs m)
  | step_timer pg pm sc fs m stack_ss stack_cs frame pm' :
      timer_interrupt stack_ss stack_cs pm frame = Ret pm' ->
      sys_step careful (mkSystem pg pm sc fs m) (mkSystem pg pm' sc fs m)
  | step_switch pg pm sc fs m sc' :
      scheduler_switch_to_next_process sc pm = Ret sc' ->
      sys_step careful (mkSystem pg pm sc fs m) (mkSystem pg pm sc' fs m)
  | step_kernel_page pg pm sc fs m va pages dir b :
      paging_allocate_user_page_frame (page_manager pg) (kernel_directory pg) va = Ret (pages, dir, b) ->
      sys_step careful (mkSystem pg pm sc fs m) (mkSystem (mkPaging dir pages (directory_pool pg)) pm sc fs m)
  | step_other pg pm sc fs m fs' m' :
      sys_step careful (mkSystem pg pm sc fs m) (mkSystem pg pm sc fs' m').

Inductive sys_steps (careful : bool) : System -> System -> Prop :=
  | steps_refl s : sys_steps careful s s
  | steps_snoc s1 s2 s3 : sys_steps careful s1 s2 -> sys_step careful s2 s3 -> sys_steps careful s1 s3.

Definition sys_initial (s : System) : Prop :=
  sys_paging s = initial_paging_state /\ sys_procs s = initial_process_manager /\
  sys_sched s = initial_scheduler_state.
Definition sys_reachable (careful : bool) (s : System) : Prop := exists s0, sys_initial s0 /\ sys_steps careful s0 s.

Lemma sys_step_any c (s s' : System) : sys_step c s s' -> sys_step false s s'.
Proof. intros Hs. destruct Hs; by econstructor. Qed.

Lemma sys_steps_any c (s s' : System) : sys_steps c s s' -> sys_steps false s s'.
Proof.
  induction 1 as [|s1 s2 s3 _ IH Hstep]; [constructor | econstructor; [exact IH | by eapply sys_step_any]].
Qed.
Lemma sys_reachable_any c (s : System) : sys_reachable c s -> sys_reachable false s.
Proof. intros (s0 & H0 & Hs). exists s0. split; [done | by eapply sys_steps_any]. Qed.
End System.
Arguments System D : clear implicits.
