(* ===== verification/ProcessInv.v ===== *)
(** * The invariant of the process table

    What creating and destroying processes keeps ([proc_inv]): pids of live
    processes are positive, distinct and below the counter, every live process
    points to a directory of the pool, and the counters bound the number of live
    processes.  What they keep as long as pid 0 is not destroyed and parent
    clusters stay below 2^24 ([proc_owned]): every live process owns a used page
    directory of its own, and names end inside their array. *)
From S2P Require Import Prelude CString BlockDevice Fat32Types Fat32 Fat32Chain Fat32Facts Fat32Ops Fat32Access DirList DirTree IntStr Paging Process.
#[local] Open Scope Z_scope.

(** ** C strings in arrays *)

Lemma c_string_cstr l (k : nat) : l !! k = Some 0 -> exists s, c_string l = Ret s /\
  (length s <= k)%nat /\ Forall (fun c => c <> 0) s /\ exists rest, l = s ++ 0 :: rest.
Proof.
  revert k. induction l as [|c l IH]; intros k Hk; [done |]. cbn [c_string].
  destruct (Z.eqb_spec c 0) as [->|Hc].
  - exists []. split_and!; [done | cbn; lia | constructor | by exists l].
  - destruct k as [|k]; [cbn in Hk; congruence |]. destruct (IH k Hk) as (s & -> & Hl & Hs & r & ->).
    exists (c :: s). split_and!; [done | cbn; lia | by constructor | by exists r].
Qed.

Lemma c_string_exact s rest : Forall (fun c => c <> 0) s -> c_string (s ++ 0 :: rest) = Ret s.
Proof.
  induction 1 as [|c s Hc Hs IH]; [done |]. cbn [app c_string].
  destruct (Z.eqb_spec c 0); [done |]. by rewrite IH.
Qed.

(** ** Live slots *)

Definition is_live (p : ProcessControlBlock) : bool := negb (pid p =? 0).
Definition live_count (ps : list ProcessControlBlock) : nat := foldr (fun p n => Nat.b2n (is_live p) + n)%nat O ps.
Definition dir_in_use (pg : PagingState) (d : nat) : Prop :=
  page_directory_used (directory_pool pg) !! d = Some true.
Definition pcb_dir (p : ProcessControlBlock) : dir_ptr := page_directory_virtual_addr (context p).

Lemma is_live_true p : is_live p = true <-> pid p <> 0.
Proof. unfold is_live. destruct (Z.eqb_spec (pid p) 0); done. Qed.

Lemma live_count_insert ps i p q : ps !! i = Some p ->
  (live_count (<[i := q]> ps) + Nat.b2n (is_live p) = live_count ps + Nat.b2n (is_live q))%nat.
Proof.
  revert i. induction ps as [|x ps IH]; intros [|i] Hi; [done | done | |].
  - injection Hi as ->. unfold live_count. cbn [insert list_insert foldr]. lia.
  - specialize (IH i Hi). unfold live_count in *. change (<[S i := q]> (x :: ps)) with (x :: <[i := q]> ps).
    cbn [foldr]. lia.
Qed.

Lemma live_count_full ps : (forall i p, ps !! i = Some p -> pid p <> 0) -> live_count ps = length ps.
Proof.
  unfold live_count. induction ps as [|x ps IH]; intros H; [done |]. cbn [foldr length].
  rewrite (proj2 (is_live_true x)) by (apply (H 0%nat); done).
  rewrite IH; [done |]. intros i p Hp. by apply (H (S i)).
Qed.

(** ** The invariant *)

Record pcb_ok (counter : Z) (p : ProcessControlBlock) : Prop := {
  pcb_pid : 0 <= pid p < counter;
  pcb_name_length : length (proc_name p) = PROCESS_NAME_LENGTH_MAX;
  pcb_frames : length (virtual_addr_used p) = 8%nat;
  pcb_dir_bound d : pcb_dir p = Some d -> (d < 32)%nat;
}.

Record proc_inv (pg : PagingState) (pm : ProcessManager) : Prop := {
  inv_table : length (process_list pm) = PROCESS_COUNT_MAX;
  inv_kernel : directory_ok (kernel_directory pg);
  inv_pool : pool_ok (directory_pool pg);
  inv_count : 0 <= active_process_count pm <= 16;
  inv_counter : pid_counter pm <= active_process_count pm + 1;
  inv_live : Z.of_nat (live_count (process_list pm)) < pid_counter pm;
  inv_pcb i p : process_list pm !! i = Some p -> pcb_ok (pid_counter pm) p;
  inv_dir i p : process_list pm !! i = Some p -> pid p <> 0 -> is_Some (pcb_dir p);
  inv_distinct i j p q : process_list pm !! i = Some p -> process_list pm !! j = Some q -> i <> j ->
    pid p <> 0 -> pid q <> 0 -> pid p <> pid q;
}.

(** What needs care: see [Scheduler.sys_step]. *)
Record proc_owned (pg : PagingState) (pm : ProcessManager) : Prop := {
  own_used i p d : process_list pm !! i = Some p -> pid p <> 0 -> pcb_dir p = Some d -> dir_in_use pg d;
  own_distinct i j p q : process_list pm !! i = Some p -> process_list pm !! j = Some q -> i <> j ->
    pid p <> 0 -> pid q <> 0 -> pcb_dir p <> pcb_dir q;
  own_name i p : process_list pm !! i = Some p -> proc_name p !! 31%nat = Some 0;
}.

Lemma zero_pcb_ok counter : 1 <= counter -> pcb_ok counter zero_pcb.
Proof. intros. constructor; [cbn; lia | done | done | done]. Qed.

Lemma initial_slot i p : process_list initial_process_manager !! i = Some p -> p = zero_pcb.
Proof.
  intros Hp. change (replicate PROCESS_COUNT_MAX zero_pcb !! i = Some p) in Hp.
  by apply lookup_replicate in Hp as [-> _].
Qed.

Lemma proc_inv_initial : proc_inv initial_paging_state initial_process_manager.
Proof.
  constructor.
  - done.
  - exact kernel_directory_ok.
  - exact initial_pool_ok.
  - cbn. lia.
  - cbn. lia.
  - cbn. lia.
  - intros i p ->%initial_slot. apply zero_pcb_ok. cbn. lia.
  - intros i p ->%initial_slot. done.
  - intros i j p q ->%initial_slot. done.
Qed.

Lemma proc_owned_initial : proc_owned initial_paging_state initial_process_manager.
Proof.
  constructor; [intros i p d ->%initial_slot; done | intros i j p q ->%initial_slot; done |].
  intros i p ->%initial_slot. done.
Qed.

(** One slot changes. *)
Lemma slot_lookup (l l' : list ProcessControlBlock) i p p' j q : l !! i = Some p -> l' = <[i := p']> l ->
  l' !! j = Some q -> j = i /\ q = p' \/ j <> i /\ l !! j = Some q.
Proof.
  intros Hi%lookup_lt_Some ->. destruct (decide (i = j)) as [->|Hne].
  - rewrite list_lookup_insert_eq by done. intros [= <-]. by left.
  - rewrite list_lookup_insert_ne by done. right. split; [by apply not_eq_sym | done].
Qed.

Lemma proc_inv_set pg pm pg' pm' i p p' : proc_inv pg pm -> process_list pm !! i = Some p ->
  process_list pm' = <[i := p']> (process_list pm) ->
  directory_ok (kernel_directory pg') -> pool_ok (directory_pool pg') ->
  active_process_count pm <= active_process_count pm' <= 16 ->
  pid_counter pm <= pid_counter pm' <= active_process_count pm' + 1 ->
  Z.of_nat (live_count (process_list pm)) + Z.b2z (is_live p') - Z.b2z (is_live p) < pid_counter pm' ->
  pcb_ok (pid_counter pm') p' ->
  (pid p' <> 0 -> is_Some (pcb_dir p') /\
     forall j q, j <> i -> process_list pm !! j = Some q -> pid q <> 0 -> pid q <> pid p') ->
  proc_inv pg' pm'.
Proof.
  intros Hinv Hi Hl Hk Hp Hc Hn Hlive Hpcb Hdir. destruct Hinv.
  pose proof (fun j q => slot_lookup _ _ i p p' j q Hi Hl) as Hlook.
  constructor.
  - rewrite Hl. by rewrite length_insert.
  - done.
  - done.
  - lia.
  - lia.
  - rewrite Hl. pose proof (live_count_insert (process_list pm) i p p' Hi).
    destruct (is_live p), (is_live p'); cbn [Nat.b2n Z.b2z] in *; lia.
  - intros j q [[-> ->]|[Hj Hq]]%Hlook; [done |]. destruct (inv_pcb0 j q Hq). constructor; [lia | done | done | done].
  - intros j q [[-> ->]|[Hj Hq]]%Hlook Hpid; [by apply Hdir | by eapply inv_dir0].
  - intros j k q q' [[-> ->]|[Hj Hq]]%Hlook [[-> ->]|[Hk' Hq']]%Hlook Hne H1 H2; [done | | | by eapply inv_distinct0].
    + destruct (Hdir H1) as [_ Ho]. by apply not_eq_sym, (Ho k q').
    + destruct (Hdir H2) as [_ Ho]. by apply (Ho j q).
Qed.

(** The slots that do not change keep their directories. *)
Lemma proc_owned_set pg pm pg' pm' i p p' : proc_owned pg pm -> process_list pm !! i = Some p ->
  process_list pm' = <[i := p']> (process_list pm) -> proc_name p' !! 31%nat = Some 0 ->
  (forall d, pid p' <> 0 -> pcb_dir p' = Some d -> dir_in_use pg' d) ->
  (forall j q, pid p' <> 0 -> j <> i -> process_list pm !! j = Some q -> pid q <> 0 -> pcb_dir q <> pcb_dir p') ->
  (forall j q d, j <> i -> process_list pm !! j = Some q -> pid q <> 0 -> pcb_dir q = Some d ->
     dir_in_use pg d -> dir_in_use pg' d) ->
  proc_owned pg' pm'.
Proof.
  intros [Hu Hd Hn] Hi Hl Hname Hused Hother Hkeep.
  pose proof (fun j q => slot_lookup _ _ i p p' j q Hi Hl) as Hlook. constructor.
  - intros j q d [[-> ->]|[Hj Hq]]%Hlook Hpid Hdir; [by apply Hused | by eapply Hkeep, Hu].
  - intros j k q q' [[-> ->]|[Hj Hq]]%Hlook [[-> ->]|[Hk' Hq']]%Hlook Hne H1 H2; [done | | | by eapply Hd].
    + by apply not_eq_sym, (Hother k q').
    + by apply (Hother j q).
  - intros j q [[-> ->]|[Hj Hq]]%Hlook; [done | by eapply Hn].
Qed.

(** ** The user pages of a new directory *)

Lemma page_index_kernel_half i : (i < 256)%nat ->
  page_index (u32 (KERNEL_VIRTUAL_ADDRESS_BASE + Z.of_nat i * PAGE_FRAME_SIZE)) = 768 + Z.of_nat i.
Proof.
  intros Hi. unfold KERNEL_VIRTUAL_ADDRESS_BASE, PAGE_FRAME_SIZE. rewrite u32_id by lia.
  rewrite page_index_mod by lia. unfold PAGE_FRAME_SIZE. Z.div_mod_to_equations. lia.
Qed.

Lemma page_index_frame i : (i < 256)%nat -> page_index (u32 (Z.of_nat i * PAGE_FRAME_SIZE)) = Z.of_nat i.
Proof.
  intros Hi. unfold PAGE_FRAME_SIZE. rewrite u32_id by lia.
  rewrite page_index_mod by lia. unfold PAGE_FRAME_SIZE. Z.div_mod_to_equations. lia.
Qed.

(** Pages [0 .. n) of the kernel's half point to frames [0 .. n), user flag set. *)
Record user_mapped (dir dir' : PageDirectory) (n : nat) : Prop := {
  um_ok : directory_ok dir';
  um_in i : (i < n)%nat -> exists e, aget dir' (768 + Z.of_nat i) = Ret e /\
    flag e = user_flag /\ lower_address e = Z.of_nat i;
  um_out j : 0 <= j -> j < 768 \/ 768 + Z.of_nat n <= j -> aget dir' j = aget dir j;
}.

Lemma map_user_pages_spec dir used n : directory_ok dir -> length used = 8%nat -> (n <= 8)%nat ->
  exists dir' used', map_user_pages dir used n = Ret (dir', used') /\ user_mapped dir dir' n /\
    length used' = 8%nat /\
    forall i : nat, used' !! i = if (i <? n)%nat
      then Some (KERNEL_VIRTUAL_ADDRESS_BASE + Z.of_nat i * PAGE_FRAME_SIZE) else used !! i.
Proof.
  intros Hd Hu Hn. unfold map_user_pages.
  match goal with |- context [for_upM 0 n ?body _] =>
    destruct (for_upM_ind (fun k '(dir', used') => user_mapped dir dir' k /\ length used' = 8%nat /\
      forall i : nat, used' !! i = if (i <? k)%nat
        then Some (KERNEL_VIRTUAL_ADDRESS_BASE + Z.of_nat i * PAGE_FRAME_SIZE) else used !! i)
      body 0 n (dir, used)) as ([dir' used'] & -> & Hm & Hl & Hx) end.
  - split_and!; [constructor; [done | intros; lia | done] | done | done].
  - intros k [dir1 used1] Hk (Hm & Hl & Hx). destruct (update_spec dir1
      (u32 (Z.of_nat k * PAGE_FRAME_SIZE))
      (u32 (KERNEL_VIRTUAL_ADDRESS_BASE + Z.of_nat k * PAGE_FRAME_SIZE)) user_flag (um_ok _ _ _ Hm)) as (e & He & ->).
    rewrite bind_ret_l, aset_in, bind_ret_l, page_index_kernel_half, page_index_frame by lia.
    eexists. split; [reflexivity |]. pose proof (um_ok _ _ _ Hm) as Hok.
    unfold directory_ok, PAGE_ENTRY_COUNT in Hok. split_and!.
    + constructor.
      * unfold directory_ok. by rewrite length_insert.
      * intros i Hi. rewrite aget_insert by lia. destruct (Z.eqb_spec (768 + Z.of_nat i) (768 + Z.of_nat k)).
        -- eexists. split; [done |]. split; [done |]. cbn. lia.
        -- apply (um_in _ _ _ Hm). lia.
      * intros j Hj Ho. rewrite aget_insert by lia. destruct (Z.eqb_spec j (768 + Z.of_nat k)); [lia |].
        apply (um_out _ _ _ Hm); lia.
    + by rewrite length_insert.
    + intros i. rewrite Nat2Z.id. destruct (decide (i = k)) as [->|Hne].
      * rewrite list_lookup_insert_eq by lia. destruct (Nat.ltb_spec k (S k)); [| lia].
        f_equal. apply u32_id. unfold KERNEL_VIRTUAL_ADDRESS_BASE, PAGE_FRAME_SIZE. lia.
      * rewrite list_lookup_insert_ne by done. rewrite Hx.
        destruct (Nat.ltb_spec i k), (Nat.ltb_spec i (S k)); lia || done.
  - eexists _, _. done.
Qed.

(** ** Creation *)

Section Create.
Context {D : Type} `{BlockDevice D}.

(** The return code, given the code of the [read] of the executable. *)
Definition create_code (pg : PagingState) (pm : ProcessManager) (r : FAT32DriverRequest) (read_rc : Z) : Z :=
  if 16 <=? active_process_count pm then 1
  else if KERNEL_VIRTUAL_ADDRESS_BASE <=? buf r then 2
  else if negb (paging_allocate_check (page_manager pg) (page_frame_count_needed r)) ||
          (8 <? page_frame_count_needed r) then 3
  else match first_index negb (page_directory_used (directory_pool pg)) with
       | None => 3
       | Some _ => if read_rc =? 0 then 0 else 4
       end.

(** The string the name is copied from fits the slot's array. *)
Definition named (r : FAT32DriverRequest) (stack nm : list Z) : Prop :=
  c_string (bytes_from_name r stack) = Ret nm /\ (length nm <= PROCESS_NAME_LENGTH_MAX)%nat.

(** What a successful creation leaves in slot [i] and page directory [d]. *)
Record created (pg pg' : PagingState) (pm pm' : ProcessManager) (r : FAT32DriverRequest) (stack : list Z) (i d : nat)
    : Prop := {
  cr_slot : first_index (fun p => pid p =? 0) (process_list pm) = Some i;
  cr_free : first_index negb (page_directory_used (directory_pool pg)) = Some d;
  cr_pcb : exists old s used, process_list pm !! i = Some old /\ named r stack s /\ length used = 8%nat /\
    (forall k, (k < Z.to_nat (page_frame_count_needed r))%nat ->
       used !! k = Some (KERNEL_VIRTUAL_ADDRESS_BASE + Z.of_nat k * PAGE_FRAME_SIZE)) /\
    process_list pm' = <[i := mkPcb (pid_counter pm) (s ++ drop (length s) (proc_name old)) PROCESS_STATE_READY
      used (page_frame_count_needed r) (set_directory initial_context (Some d))]> (process_list pm);
  cr_active : active_process_count pm' = active_process_count pm + 1;
  cr_counter : pid_counter pm' = pid_counter pm + 1;
  cr_kernel : kernel_directory pg' = kernel_directory pg;
  cr_manager : page_manager pg' = page_manager pg;
  cr_used : page_directory_used (directory_pool pg') = <[d := true]> (page_directory_used (directory_pool pg));
  cr_others j : j <> d ->
    page_directory_list (directory_pool pg') !! j = page_directory_list (directory_pool pg) !! j;
  cr_pool : pool_ok (directory_pool pg');
  cr_dir : exists dir, page_directory_list (directory_pool pg') !! d = Some dir /\ directory_ok dir /\
    aget dir 0 = aget (kernel_directory pg) 0 /\
    forall k : nat, (k < Z.to_nat (page_frame_count_needed r))%nat -> exists e,
      aget dir (768 + Z.of_nat k) = Ret e /\ flag e = user_flag /\ lower_address e = Z.of_nat k;
}.

Lemma inactive_slot pg pm : proc_inv pg pm -> active_process_count pm < 16 ->
  exists i p, first_index (fun p => pid p =? 0) (process_list pm) = Some i /\
    process_list pm !! i = Some p /\ pid p = 0 /\ (i < 16)%nat.
Proof.
  intros Hinv Hc. destruct (first_index (fun p => pid p =? 0) (process_list pm)) as [i|] eqn:Hi.
  - pose proof Hi as [(p & Hp & Hz) _]%first_index_Some. exists i, p. split_and!; [done | done | lia |].
    apply lookup_lt_Some in Hp. by rewrite (inv_table _ _ Hinv) in Hp.
  - exfalso. rewrite first_index_None in Hi.
    assert (live_count (process_list pm) = 16%nat) as Hl.
    { rewrite live_count_full; [exact (inv_table _ _ Hinv) |]. intros i p Hp. specialize (Hi i p Hp). lia. }
    pose proof (inv_live _ _ Hinv). pose proof (inv_counter _ _ Hinv). lia.
Qed.

(** A parent cluster below 2^24 ends the name. *)
Lemma request_name_string r stack : req_ok r -> parent_cluster_number r < 2 ^ 24 ->
  exists s, c_string (bytes_from_name r stack) = Ret s /\ (length s <= 14)%nat.
Proof.
  intros (Hn & _ & He & _ & _ & Hp) Hlt.
  set (l := req_name r ++ req_ext r ++ le_encode 4 (parent_cluster_number r)).
  assert (l !! 14%nat = Some 0) as Hz.
  { unfold l. rewrite !lookup_app_r by lia. rewrite Hn, He. cbn -[Z.div Z.modulo]. f_equal.
    rewrite Z.div_div, Z.div_div by lia. rewrite Z.div_small by lia. done. }
  destruct (c_string_cstr l 14 Hz) as (s & _ & Hl & Hs & rest & Hr).
  exists s. split; [| done].
  unfold bytes_from_name. rewrite (app_assoc (req_ext r)), (app_assoc (req_name r)).
  replace (req_name r ++ req_ext r ++ le_encode 4 (parent_cluster_number r)) with l by done.
  rewrite Hr, <- app_assoc. cbn [app]. by apply c_string_exact.
Qed.

Lemma request_named r stack : req_ok r -> parent_cluster_number r < 2 ^ 24 -> exists s, named r stack s.
Proof.
  intros Hr Hp. destruct (request_name_string r stack Hr Hp) as (s & E & Hl). exists s. split; [done |].
  unfold PROCESS_NAME_LENGTH_MAX. lia.
Qed.

(** The last steps of a creation, from the new directory on. *)
Lemma create_finish pg pm (r : FAT32DriverRequest) i d old k0 k768 dir0 :
  proc_inv pg pm -> 0 <= page_frame_count_needed r <= 8 ->
  first_index (fun p => pid p =? 0) (process_list pm) = Some i -> process_list pm !! i = Some old ->
  first_index negb (page_directory_used (directory_pool pg)) = Some d -> (d < 32)%nat ->
  page_directory_list (directory_pool pg) !! d = Some dir0 -> directory_ok dir0 ->
  aget (kernel_directory pg) 0 = Ret k0 ->
  let dir1 := <[768%nat := k768]> (<[0%nat := k0]> dir0) in
  let dirs1 := <[d := dir1]> (page_directory_list (directory_pool pg)) in
  let used1 := <[d := true]> (page_directory_used (directory_pool pg)) in
  exists dir2 used, aget dirs1 (Z.of_nat d) = Ret dir1 /\
    map_user_pages dir1 (virtual_addr_used old) (Z.to_nat (page_frame_count_needed r)) = Ret (dir2, used) /\
    aset dirs1 (Z.of_nat d) dir2 = Ret (<[d := dir2]> dirs1) /\
    forall stack s, named r stack s ->
      overlay (proc_name old) s = Ret (s ++ drop (length s) (proc_name old)) /\
      created pg (mkPaging (kernel_directory pg) (page_manager pg) (mkPool (<[d := dir2]> dirs1) used1)) pm
        (mkPm (<[i := mkPcb (pid_counter pm) (s ++ drop (length s) (proc_name old)) PROCESS_STATE_READY used
           (page_frame_count_needed r) (set_directory initial_context (Some d))]> (process_list pm))
           (active_process_count pm + 1) (pid_counter pm + 1)) r stack i d.
Proof.
  intros Hinv Hn Hi Hold Hd Hd32 Hdir Hok0 E0 dir1 dirs1 used1.
  destruct (new_directory_entries dir0 k0 k768 Hok0) as (Hok1 & N0 & _).
  pose proof (inv_pool _ _ Hinv) as (Hl & Hu & Hall).
  pose proof (inv_pcb _ _ Hinv i old Hold) as [Hpid Hnl Hfr _].
  destruct (map_user_pages_spec dir1 (virtual_addr_used old) (Z.to_nat (page_frame_count_needed r)) Hok1 Hfr)
    as (dir2 & used & Hm & [Hok2 Hin Hout] & Hul & Hux); [lia |].
  exists dir2, used.
  assert (length dirs1 = 32%nat) as Hl1 by (unfold dirs1; by rewrite length_insert, Hl).
  split_and!.
  - apply aget_ret. split; [lia |]. rewrite Nat2Z.id. unfold dirs1. apply list_lookup_insert_eq. by rewrite Hl.
  - exact Hm.
  - rewrite aset_in by lia. by rewrite Nat2Z.id.
  - intros stack s Hs. split.
    { destruct Hs as [_ Hs]. unfold overlay. rewrite Hnl.
      destruct (Nat.leb_spec (length s) PROCESS_NAME_LENGTH_MAX); [done | lia]. }
    constructor; cbn [kernel_directory page_manager directory_pool page_directory_list page_directory_used
      process_list active_process_count pid_counter]; [done | done | | done | done | done | done | done | | |].
    + exists old, s, used. split_and!; [done | done | done | | done].
      intros k Hk. rewrite Hux. destruct (Nat.ltb_spec k (Z.to_nat (page_frame_count_needed r))); [done | lia].
    + intros j Hj. unfold dirs1. by rewrite !list_lookup_insert_ne by done.
    + unfold pool_ok. cbn [page_directory_list page_directory_used]. split_and!.
      * etrans; [apply length_insert | exact Hl1].
      * etrans; [apply length_insert | exact Hu].
      * apply Forall_insert; [| done]. by apply Forall_insert.
    + exists dir2. split_and!; [| done | | done].
      * apply list_lookup_insert_eq. by rewrite Hl1.
      * rewrite Hout by lia. unfold dir1. by rewrite N0, E0.
Qed.

(** A failed [read] leaves the new directory behind, marked as used. *)
Record leaked (pg pg' : PagingState) (d : nat) : Prop := {
  lk_free : first_index negb (page_directory_used (directory_pool pg)) = Some d;
  lk_kernel : kernel_directory pg' = kernel_directory pg;
  lk_manager : page_manager pg' = page_manager pg;
  lk_used : page_directory_used (directory_pool pg') = <[d := true]> (page_directory_used (directory_pool pg));
  lk_pool : pool_ok (directory_pool pg');
}.

Lemma create_spec stack pg pm (fs fs' : Fs D) m m' r rc : proc_inv pg pm -> req_ok r ->
  (create_code pg pm r rc = 0 -> exists nm, named r stack nm) -> read_mem fs m r = Ret (fs', m', rc) ->
  exists pg' pm' fs2 m2,
    process_create_user_process stack pg pm fs m r = Ret (pg', pm', fs2, m2, create_code pg pm r rc) /\
    match create_code pg pm r rc with
    | 0 => fs2 = fs' /\ m2 = m' /\ exists i d, created pg pg' pm pm' r stack i d
    | 4 => pm' = pm /\ fs2 = fs' /\ m2 = m' /\ exists d, leaked pg pg' d
    | _ => pg' = pg /\ pm' = pm /\ fs2 = fs /\ m2 = m
    end.
Proof.
  intros Hinv Hr Hname Hread. unfold process_create_user_process, create_code in *.
  change (Z.of_nat PROCESS_COUNT_MAX) with 16 in *. change PROCESS_PAGE_FRAME_COUNT_MAX with 8 in *.
  destruct (Z.leb_spec 16 (active_process_count pm)); [by do 4 eexists |].
  destruct (KERNEL_VIRTUAL_ADDRESS_BASE <=? buf r); [by do 4 eexists |].
  destruct (negb (paging_allocate_check _ _) || (8 <? page_frame_count_needed r)) eqn:En; [by do 4 eexists |].
  assert (0 <= page_frame_count_needed r <= 8) as Hn.
  { split; [unfold page_frame_count_needed; apply u32_range | lia]. }
  destruct (inactive_slot pg pm Hinv) as (i & old & Hi & Hold & _ & Hi16); [lia |].
  destruct (first_index negb (page_directory_used (directory_pool pg))) as [d|] eqn:Hd.
  2:{ unfold paging_create_new_page_directory. rewrite Hd, bind_ret_l. destruct pg. by do 4 eexists. }
  destruct (create_directory_spec (kernel_directory pg) (directory_pool pg) d (inv_kernel _ _ Hinv)
    (inv_pool _ _ Hinv) Hd) as (dir0 & k0 & k768 & Hd32 & Hdir & Hok0 & E0 & E768 & ->).
  destruct (create_finish pg pm r i d old k0 k768 dir0 Hinv Hn Hi Hold Hd Hd32 Hdir Hok0 E0)
    as (dir2 & used & Ha & Hm & Hs & Hfin).
  rewrite bind_ret_l, Hread, bind_ret_l. unfold process_list_get_inactive_index. rewrite Hi.
  destruct (Z.eqb_spec rc 0) as [->|Hrc]; cbn [negb].
  - rewrite (proj2 (aget_ret (process_list pm) (Z.of_nat i) old)) by (rewrite Nat2Z.id; split; [lia | done]).
    rewrite bind_ret_l. cbn [page_directory_list page_directory_used]. rewrite Ha, bind_ret_l, Hm, bind_ret_l, Hs, bind_ret_l.
    unfold process_generate_new_pid. cbn [process_list active_process_count pid_counter].
    destruct (Hname eq_refl) as [s Hnm]. destruct (Hfin stack s Hnm) as [Ho Hcr].
    destruct Hnm as [-> _]. rewrite bind_ret_l, Ho, bind_ret_l.
    rewrite aset_in, bind_ret_l, Nat2Z.id by (rewrite (inv_table _ _ Hinv); unfold PROCESS_COUNT_MAX; lia).
    pose proof (inv_count _ _ Hinv). pose proof (inv_counter _ _ Hinv). pose proof (inv_live _ _ Hinv).
    rewrite !u32_id by lia. do 4 eexists. split; [reflexivity |]. split_and!; [done | done |]. by exists i, d.
  - do 4 eexists. split; [reflexivity |]. split_and!; [done | done | done |]. exists d.
    destruct (new_directory_entries dir0 k0 k768 Hok0) as (Hok1 & _).
    pose proof (inv_pool _ _ Hinv) as (Hl & Hu & Hall).
    constructor; cbn [kernel_directory page_manager directory_pool page_directory_list page_directory_used];
      [done | done | done | done |].
    unfold pool_ok. cbn [page_directory_list page_directory_used]. split_and!.
    + etrans; [apply length_insert | exact Hl].
    + etrans; [apply length_insert | exact Hu].
    + by apply Forall_insert.
Qed.

(** A creation that returns after a successful [read] had a name that fits. *)
Lemma create_named stack pg pm (fs fs' : Fs D) m m' r res : proc_inv pg pm -> read_mem fs m r = Ret (fs', m', 0) ->
  create_code pg pm r 0 = 0 -> process_create_user_process stack pg pm fs m r = Ret res -> exists nm, named r stack nm.
Proof.
  intros Hinv Hread Hcode E. unfold process_create_user_process, create_code in *.
  change (Z.of_nat PROCESS_COUNT_MAX) with 16 in *. change PROCESS_PAGE_FRAME_COUNT_MAX with 8 in *.
  destruct (16 <=? active_process_count pm); [done |]. destruct (KERNEL_VIRTUAL_ADDRESS_BASE <=? buf r); [done |].
  destruct (negb (paging_allocate_check _ _) || _); [done |].
  destruct (first_index negb (page_directory_used (directory_pool pg))) as [d|] eqn:Hd; [| done].
  destruct (create_directory_spec (kernel_directory pg) (directory_pool pg) d (inv_kernel _ _ Hinv)
    (inv_pool _ _ Hinv) Hd) as (? & ? & ? & _ & _ & _ & _ & _ & Ed).
  rewrite Ed, bind_ret_l, Hread, bind_ret_l in E. cbn [negb Z.eqb] in E.
  apply bind_ret_inv in E as (old & Hold & E). apply bind_ret_inv in E as (dir & _ & E).
  apply bind_ret_inv in E as ([dir' used] & _ & E). apply bind_ret_inv in E as (dirs & _ & E).
  cbn [process_generate_new_pid] in E. apply bind_ret_inv in E as (nm & Hnm & E).
  apply bind_ret_inv in E as (nm' & Ho & _). exists nm. split; [done |].
  apply aget_ret in Hold as [_ Hold]. unfold overlay in Ho.
  rewrite (pcb_name_length _ _ (inv_pcb _ _ Hinv _ _ Hold)) in Ho.
  destruct (Nat.leb_spec (length nm) PROCESS_NAME_LENGTH_MAX); [done | done].
Qed.
End Create.

(** ** Preservation *)

Lemma fresh_directory pg pm d j q : proc_owned pg pm ->
  first_index negb (page_directory_used (directory_pool pg)) = Some d ->
  process_list pm !! j = Some q -> pid q <> 0 -> pcb_dir q <> Some d.
Proof.
  intros Hown [(b & Hb & Hnb) _]%first_index_Some Hq Hpid Heq.
  pose proof (own_used _ _ Hown j q d Hq Hpid Heq) as Hu. unfold dir_in_use in Hu.
  rewrite Hu in Hb. by injection Hb as <-.
Qed.

Lemma free_dir_bound pg pm d : proc_inv pg pm -> first_index negb (page_directory_used (directory_pool pg)) = Some d ->
  (d < 32)%nat.
Proof.
  intros Hinv [(b & Hb & _) _]%first_index_Some. pose proof (inv_pool _ _ Hinv) as (_ & Hu & _).
  apply lookup_lt_Some in Hb. by rewrite Hu in Hb.
Qed.

Lemma dir_in_use_insert pg pg' d d' : page_directory_used (directory_pool pg') = <[d := true]> (page_directory_used (directory_pool pg)) ->
  dir_in_use pg d' -> dir_in_use pg' d'.
Proof.
  unfold dir_in_use. intros -> Hin. destruct (decide (d = d')) as [->|Hne'].
  - apply list_lookup_insert_eq. by apply lookup_lt_Some in Hin.
  - by rewrite list_lookup_insert_ne.
Qed.

Section Created.
Context (pg pg' : PagingState) (pm pm' : ProcessManager) (r : FAT32DriverRequest) (stack : list Z) (i d : nat).
Hypotheses (Hinv : proc_inv pg pm) (Hcr : created pg pg' pm pm' r stack i d).

Lemma created_slot_free p : process_list pm !! i = Some p -> pid p = 0.
Proof.
  intros Hp. pose proof (cr_slot _ _ _ _ _ _ _ _ Hcr) as [(q & Hq & Hz) _]%first_index_Some.
  assert (p = q) as -> by congruence. lia.
Qed.

Lemma created_inv : active_process_count pm < 16 -> proc_inv pg' pm'.
Proof using All.
  intros Hc. destruct (cr_pcb _ _ _ _ _ _ _ _ Hcr) as (old & s & used & Hold & [_ Hsl] & Hul & _ & Hl).
  pose proof (inv_pcb _ _ Hinv i old Hold) as [Hpid Hnl Hfr _]. pose proof (created_slot_free old Hold) as Hz.
  pose proof (cr_active _ _ _ _ _ _ _ _ Hcr). pose proof (cr_counter _ _ _ _ _ _ _ _ Hcr) as Hn.
  pose proof (inv_count _ _ Hinv). pose proof (inv_counter _ _ Hinv). pose proof (inv_live _ _ Hinv).
  eapply proc_inv_set with (i := i); [exact Hinv | exact Hold | exact Hl | | exact (cr_pool _ _ _ _ _ _ _ _ Hcr) | lia | lia | | |].
  - rewrite (cr_kernel _ _ _ _ _ _ _ _ Hcr). exact (inv_kernel _ _ Hinv).
  - unfold is_live at 2. rewrite Hz. cbn -[is_live]. destruct (is_live _); cbn; lia.
  - rewrite Hn. constructor; cbn [pid proc_name virtual_addr_used]; [lia | | done |].
    + rewrite length_app, length_drop, Hnl. lia.
    + intros d' [= <-]. eapply free_dir_bound; [exact Hinv | exact (cr_free _ _ _ _ _ _ _ _ Hcr)].
  - intros _. split; [by eexists |]. intros j q Hj Hq Hpq. cbn [pid].
    pose proof (pcb_pid _ _ (inv_pcb _ _ Hinv j q Hq)). lia.
Qed.

Lemma created_owned : req_ok r -> parent_cluster_number r < 2 ^ 24 -> proc_owned pg pm -> proc_owned pg' pm'.
Proof using All.
  intros Hr Hpar Hown. destruct (cr_pcb _ _ _ _ _ _ _ _ Hcr) as (old & s & used & Hold & [Hs _] & Hul & _ & Hl).
  destruct (request_name_string r stack Hr Hpar) as (s' & Hs' & Hsl). assert (s' = s) as -> by congruence.
  pose proof (cr_free _ _ _ _ _ _ _ _ Hcr) as Hfree. pose proof (cr_used _ _ _ _ _ _ _ _ Hcr) as Hu.
  pose proof (inv_pool _ _ Hinv) as (_ & Hul0 & _).
  eapply proc_owned_set with (i := i); [exact Hown | exact Hold | exact Hl | | | |].
  - cbn [proc_name]. rewrite lookup_app_r by lia. rewrite lookup_drop.
    rewrite <- (own_name _ _ Hown i old Hold). f_equal. lia.
  - intros d' _ [= <-]. unfold dir_in_use. rewrite Hu. apply list_lookup_insert_eq.
    rewrite Hul0. by eapply free_dir_bound.
  - intros j q _ Hj Hq Hpq. by eapply fresh_directory.
  - intros j q d' _ _ _ _. by eapply dir_in_use_insert.
Qed.
End Created.

Lemma leaked_inv pg pg' pm d : proc_inv pg pm -> leaked pg pg' d -> proc_inv pg' pm.
Proof. intros Hinv [_ Hk _ _ Hpool]. destruct Hinv. constructor; try done. by rewrite Hk. Qed.

Lemma leaked_owned pg pg' pm d : proc_owned pg pm -> leaked pg pg' d -> proc_owned pg' pm.
Proof.
  intros [Hu Hd Hn] Hlk. constructor; [| done | done]. intros i p d' Hp Hpid Hdir.
  eapply dir_in_use_insert; [exact (lk_used _ _ _ Hlk) | by eapply Hu].
Qed.

(** ** Destruction *)

(** What a destroyed slot holds. *)
Definition vacate (p : ProcessControlBlock) : ProcessControlBlock :=
  mkPcb 0 (<[0%nat := 0]> (proc_name p)) PROCESS_STATE_TERMINATED
    (virtual_addr_used p) (page_frame_used_count p) (context p).

(** What destroying the process [p] in slot [i] with directory [d] leaves. *)
Record destroyed (pg pg' : PagingState) (pm pm' : ProcessManager) (i d : nat) (p : ProcessControlBlock) : Prop := {
  de_slot : process_list pm !! i = Some p;
  de_dir : pcb_dir p = Some d;
  de_list : process_list pm' = <[i := vacate p]> (process_list pm);
  de_active : active_process_count pm' = active_process_count pm;
  de_counter : pid_counter pm' = pid_counter pm;
  de_kernel : kernel_directory pg' = kernel_directory pg;
  de_manager : page_manager pg' = page_manager pg;
  de_used : page_directory_used (directory_pool pg') = <[d := false]> (page_directory_used (directory_pool pg));
  de_cleared : exists dir, page_directory_list (directory_pool pg') !! d = Some dir /\
    forall va, translate dir va = None;
  de_others j : j <> d ->
    page_directory_list (directory_pool pg') !! j = page_directory_list (directory_pool pg) !! j;
  de_pool : pool_ok (directory_pool pg');
}.

Lemma free_pool_ok p i dir : pool_ok p -> page_directory_list p !! i = Some dir ->
  pool_ok (mkPool (<[i := clear_pde <$> dir]> (page_directory_list p)) (<[i := false]> (page_directory_used p))).
Proof.
  intros (Hl & Hu & Hall) Hdir. unfold pool_ok. cbn [page_directory_list page_directory_used]. split_and!.
  - etrans; [apply length_insert | exact Hl].
  - etrans; [apply length_insert | exact Hu].
  - apply Forall_insert; [done |]. unfold directory_ok. rewrite length_fmap.
    exact (Forall_lookup_1 _ _ _ _ Hall Hdir).
Qed.

(** Whatever pid is destroyed, 0 included: the call returns, and the slot it
    finds is vacated. *)
Lemma destroy_any pg pm wanted : proc_inv pg pm ->
  match process_list_get_pcb_by_pid pm wanted with
  | None => process_destroy pg pm wanted = Ret (pg, pm, false) /\
      forall i p, process_list pm !! i = Some p -> pid p <> wanted
  | Some i => exists pg' p, process_list pm !! i = Some p /\ pid p = wanted /\
      process_destroy pg pm wanted = Ret (pg', mkPm (<[i := vacate p]> (process_list pm))
        (active_process_count pm) (pid_counter pm), true) /\
      kernel_directory pg' = kernel_directory pg /\ pool_ok (directory_pool pg') /\
      forall d, pcb_dir p = Some d -> destroyed pg pg' pm (mkPm (<[i := vacate p]> (process_list pm))
        (active_process_count pm) (pid_counter pm)) i d p
  end.
Proof.
  intros Hinv. destruct (process_list_get_pcb_by_pid pm wanted) as [i|] eqn:Hi.
  2:{ unfold process_destroy. rewrite Hi. split; [done |]. intros i p Hp Heq.
      unfold process_list_get_pcb_by_pid in Hi. rewrite first_index_None in Hi. specialize (Hi i p Hp). lia. }
  pose proof Hi as [(p & Hp & Heq) _]%first_index_Some. apply Z.eqb_eq in Heq.
  assert (i < 16)%nat as Hi16.
  { apply lookup_lt_Some in Hp. by rewrite (inv_table _ _ Hinv) in Hp. }
  pose proof (inv_pcb _ _ Hinv i p Hp) as [_ Hnl _ Hbound]. unfold PROCESS_NAME_LENGTH_MAX in Hnl.
  unfold process_destroy. rewrite Hi.
  rewrite (proj2 (aget_ret (process_list pm) (Z.of_nat i) p)) by (rewrite Nat2Z.id; split; [lia | done]).
  rewrite bind_ret_l. fold (pcb_dir p). pose proof (inv_table _ _ Hinv) as Htab. unfold PROCESS_COUNT_MAX in Htab.
  destruct (pcb_dir p) as [d|] eqn:Hd.
  - destruct (free_directory_spec (directory_pool pg) d (inv_pool _ _ Hinv) (Hbound d eq_refl)) as (dir & Hdir & ->).
    rewrite bind_ret_l, (aset_in (proc_name p)), bind_ret_l, aset_in, bind_ret_l, Nat2Z.id by lia. pose proof (inv_pool _ _ Hinv) as (Hl & _ & _).
    assert (pool_ok (mkPool (<[d := clear_pde <$> dir]> (page_directory_list (directory_pool pg)))
      (<[d := false]> (page_directory_used (directory_pool pg))))) as Hpool
      by (apply free_pool_ok; [exact (inv_pool _ _ Hinv) | exact Hdir]).
    eexists _, p. do 2 (split; [done |]). split; [reflexivity |]. split; [done |]. split; [exact Hpool |].
    intros d' Hd'. assert (d' = d) as -> by congruence.
    constructor; cbn [kernel_directory page_manager directory_pool page_directory_list
      page_directory_used process_list active_process_count pid_counter]; try done.
    + exists (clear_pde <$> dir). split; [apply list_lookup_insert_eq | apply cleared_translates_nothing].
      rewrite Hl. exact (Hbound d eq_refl).
    + intros j Hj. by rewrite list_lookup_insert_ne.
  - cbn [paging_free_page_directory].
    rewrite bind_ret_l, (aset_in (proc_name p)), bind_ret_l, aset_in, bind_ret_l, Nat2Z.id by lia. eexists _, p.
    do 2 (split; [done |]). split; [reflexivity |]. split; [done |]. split; [exact (inv_pool _ _ Hinv) |].
    intros d Hd'. congruence.
Qed.

(** A pid other than 0 names a live process, which has a directory. *)
Lemma destroy_spec pg pm wanted : proc_inv pg pm -> wanted <> 0 ->
  match process_list_get_pcb_by_pid pm wanted with
  | None => process_destroy pg pm wanted = Ret (pg, pm, false) /\
      forall i p, process_list pm !! i = Some p -> pid p <> wanted
  | Some i => exists pg' pm' p d, process_destroy pg pm wanted = Ret (pg', pm', true) /\
      pid p = wanted /\ destroyed pg pg' pm pm' i d p
  end.
Proof.
  intros Hinv Hw. pose proof (destroy_any pg pm wanted Hinv) as Hs.
  destruct (process_list_get_pcb_by_pid pm wanted) as [i|]; [| done].
  destruct Hs as (pg' & p & Hp & Heq & E & _ & _ & Hde).
  destruct (inv_dir _ _ Hinv i p Hp) as [d Hd]; [congruence |]. eexists pg', _, p, d. eauto.
Qed.

Lemma vacated_inv pg pg' pm pm' i p : proc_inv pg pm -> process_list pm !! i = Some p ->
  pm' = mkPm (<[i := vacate p]> (process_list pm)) (active_process_count pm) (pid_counter pm) ->
  kernel_directory pg' = kernel_directory pg -> pool_ok (directory_pool pg') -> proc_inv pg' pm'.
Proof.
  intros Hinv Hp -> Hk Hpool. pose proof (inv_pcb _ _ Hinv i p Hp) as [Hpr Hnl Hfr Hb].
  pose proof (inv_count _ _ Hinv). pose proof (inv_counter _ _ Hinv). pose proof (inv_live _ _ Hinv).
  eapply proc_inv_set with (i := i); [exact Hinv | exact Hp | reflexivity | | exact Hpool | cbn; lia | cbn; lia | | | done].
  - rewrite Hk. exact (inv_kernel _ _ Hinv).
  - unfold is_live at 1. cbn -[is_live]. destruct (is_live p); cbn; lia.
  - constructor; cbn [pid_counter vacate pid proc_name virtual_addr_used]; [lia | by rewrite length_insert | done | done].
Qed.

Lemma destroyed_inv pg pg' pm pm' i d p : proc_inv pg pm -> destroyed pg pg' pm pm' i d p -> proc_inv pg' pm'.
Proof.
  intros Hinv Hde. eapply vacated_inv; [exact Hinv | exact (de_slot _ _ _ _ _ _ _ Hde) | | exact (de_kernel _ _ _ _ _ _ _ Hde)
    | exact (de_pool _ _ _ _ _ _ _ Hde)].
  rewrite <- (de_list _ _ _ _ _ _ _ Hde), <- (de_active _ _ _ _ _ _ _ Hde), <- (de_counter _ _ _ _ _ _ _ Hde). by destruct pm'.
Qed.

Lemma destroyed_owned pg pg' pm pm' i d p : proc_owned pg pm -> pid p <> 0 ->
  destroyed pg pg' pm pm' i d p -> proc_owned pg' pm'.
Proof.
  intros Hown Hpid [Hslot Hdir Hl _ _ _ _ Hu _ _ _].
  eapply proc_owned_set with (i := i); [exact Hown | exact Hslot | exact Hl | | done | done |].
  - cbn [vacate proc_name]. rewrite list_lookup_insert_ne by done. by apply (own_name _ _ Hown i).
  - intros j q d' Hj Hq Hpq Hd' Hin. unfold dir_in_use in *. rewrite Hu.
    rewrite list_lookup_insert_ne; [done |]. intros ->.
    apply (own_distinct _ _ Hown i j p q Hslot Hq); [congruence | done | done | congruence].
Qed.
