(* ===== verification/ProcessProps.v ===== *)
(** * Properties of processes and scheduling

    The invariant of every reachable state, the safety of the operations in such
    states, and what the operations do: loading an executable, the scheduling
    order, where contexts are saved, and the defects of the process table. *)
From stdpp Require Import gmap.
From S2P Require Import Prelude CString BlockDevice Fat32Types Fat32 Fat32Chain Fat32Facts Fat32Ops Fat32Access Fat32Abs Fat32Refine DirList DirTree IntStr Paging Process ProcessInv PortIO Scheduler.
#[local] Open Scope Z_scope.

(** ** Steps preserve the invariant *)

Definition state_ok (p : ProcessControlBlock) : Prop :=
  (pid p <> 0 -> state p = PROCESS_STATE_READY) /\
  (pid p = 0 -> state p = PROCESS_STATE_NEW \/ state p = PROCESS_STATE_TERMINATED).

Lemma running_pointer pm : 0 <= active_process_count pm <= 16 ->
  process_get_current_running_pcb_pointer pm =
    if 0 <? active_process_count pm then Some (active_process_count pm - 1) else None.
Proof.
  intros Hc. unfold process_get_current_running_pcb_pointer.
  destruct (Z.ltb_spec 0 (active_process_count pm)); [| done]. by rewrite u32_id by lia.
Qed.

(** A timer interrupt replaces the registers of slot [active_process_count - 1]. *)
Lemma timer_spec pg pm stack_ss stack_cs frame : proc_inv pg pm -> 0 < active_process_count pm ->
  exists p, process_list pm !! Z.to_nat (active_process_count pm - 1) = Some p /\
    timer_interrupt stack_ss stack_cs pm frame =
      Ret (mkPm (<[Z.to_nat (active_process_count pm - 1) := set_context p
             (mkContext (frame_cpu frame) (int_eip (int_stack frame)) (int_eflags (int_stack frame))
                stack_ss stack_cs (pcb_dir p))]> (process_list pm)) (active_process_count pm) (pid_counter pm)).
Proof.
  intros Hinv Hc. pose proof (inv_count _ _ Hinv). pose proof (inv_table _ _ Hinv) as Hl.
  unfold PROCESS_COUNT_MAX in Hl.
  destruct (lookup_lt_is_Some_2 (process_list pm) (Z.to_nat (active_process_count pm - 1))) as [p Hp]; [lia |].
  exists p. split; [done |].
  unfold timer_interrupt, create_context_from_interrupt_frame, scheduler_save_context_to_current_running_pcb.
  rewrite !running_pointer by done. destruct (Z.ltb_spec 0 (active_process_count pm)); [| lia].
  rewrite (proj2 (aget_ret (process_list pm) (active_process_count pm - 1) p)) by (split; [lia | done]).
  rewrite !bind_ret_l. by rewrite aset_in by lia.
Qed.

Lemma timer_inv pg pm stack_ss stack_cs frame pm' : proc_inv pg pm ->
  timer_interrupt stack_ss stack_cs pm frame = Ret pm' ->
  proc_inv pg pm' /\ forall i p', process_list pm' !! i = Some p' ->
    exists p, process_list pm !! i = Some p /\ state p' = state p /\ pid p' = pid p /\
      pcb_dir p' = pcb_dir p /\ proc_name p' = proc_name p.
Proof.
  intros Hinv E. destruct (Z.ltb_spec 0 (active_process_count pm)) as [Hc|Hc].
  2:{ unfold timer_interrupt, create_context_from_interrupt_frame, process_get_current_running_pcb_pointer in E.
      destruct (Z.ltb_spec 0 (active_process_count pm)); [lia | done]. }
  destruct (timer_spec pg pm stack_ss stack_cs frame Hinv Hc) as (p & Hp & E').
  rewrite E in E'. injection E' as ->. set (k := Z.to_nat _) in *.
  pose proof (inv_pcb _ _ Hinv k p Hp) as Hpcb.
  pose proof (inv_count _ _ Hinv). pose proof (inv_counter _ _ Hinv). pose proof (inv_live _ _ Hinv).
  split.
  - eapply proc_inv_set with (i := k); [exact Hinv | exact Hp | reflexivity | exact (inv_kernel _ _ Hinv)
      | exact (inv_pool _ _ Hinv) | cbn; lia | cbn; lia | | |].
    + unfold is_live. cbn. lia.
    + destruct Hpcb. by constructor.
    + intros Hpid. split; [exact (inv_dir _ _ Hinv k p Hp Hpid) |].
      intros j q Hj Hq Hpq. exact (inv_distinct _ _ Hinv j k q p Hq Hp Hj Hpq Hpid).
  - intros i p' Hi. cbn in Hi. destruct (decide (k = i)) as [->|Hne].
    + rewrite list_lookup_insert_eq in Hi by (by apply lookup_lt_Some in Hp). injection Hi as <-. by exists p.
    + rewrite list_lookup_insert_ne in Hi by done. by exists p'.
Qed.

Lemma timer_owned pg pm stack_ss stack_cs frame pm' : proc_inv pg pm ->
  timer_interrupt stack_ss stack_cs pm frame = Ret pm' -> proc_owned pg pm -> proc_owned pg pm'.
Proof.
  intros Hinv E [Hu Hd Hn]. destruct (timer_inv pg pm stack_ss stack_cs frame pm' Hinv E) as [_ Hsame]. constructor.
  - intros i p' d (p & Hp & _ & -> & -> & _)%Hsame. by eapply Hu.
  - intros i j p' q' (p & Hp & _ & -> & -> & _)%Hsame (q & Hq & _ & -> & -> & _)%Hsame. by eapply Hd.
  - intros i p' (p & Hp & _ & _ & _ & ->)%Hsame. by eapply Hn.
Qed.

Lemma switch_spec pg pm sc : proc_inv pg pm -> 0 < active_process_count pm ->
  -1 <= current_running_process_index sc < 16 ->
  let next := (current_running_process_index sc + 1) mod active_process_count pm in
  exists p, process_list pm !! Z.to_nat next = Some p /\
    scheduler_switch_to_next_process sc pm = Ret (mkSched next (pcb_dir p) (Some (context p))).
Proof.
  intros Hinv Hc Hcur next. pose proof (inv_count _ _ Hinv). pose proof (inv_table _ _ Hinv) as Hl.
  unfold PROCESS_COUNT_MAX in Hl. pose proof (Z.mod_pos_bound (current_running_process_index sc + 1) _ Hc).
  destruct (lookup_lt_is_Some_2 (process_list pm) (Z.to_nat next)) as [p Hp]; [unfold next; lia |].
  exists p. split; [done |]. unfold scheduler_switch_to_next_process, get_next_process_index.
  destruct (Z.eqb_spec (active_process_count pm) 0); [lia |].
  rewrite bind_ret_l, u32_id, i32_id by lia. fold next.
  rewrite (proj2 (aget_ret (process_list pm) next p)) by (split; [unfold next; lia | done]). done.
Qed.

(** Another page in the kernel's directory. *)
Lemma kernel_page_inv pg pm dir pages : proc_inv pg pm -> directory_ok dir ->
  proc_inv (mkPaging dir pages (directory_pool pg)) pm.
Proof. intros [] Hd. by constructor. Qed.
Lemma kernel_page_owned pg pm dir pages : proc_owned pg pm -> proc_owned (mkPaging dir pages (directory_pool pg)) pm.
Proof. intros [Hu Hd Hn]. by constructor. Qed.

Lemma allocate_directory_ok pages dir va pages' dir' b :
  paging_allocate_user_page_frame pages dir va = Ret (pages', dir', b) -> directory_ok dir -> directory_ok dir'.
Proof.
  unfold paging_allocate_user_page_frame. intros E Hd. destruct (negb _); [by simplify_eq |].
  destruct (update_ok dir (free_page_frame_count pages) va user_flag Hd) as (dir2 & E2 & Hd2).
  rewrite E2, bind_ret_l in E. apply bind_ret_inv in E as (frames & _ & E). by simplify_eq.
Qed.

Section Steps.
Context {D : Type} `{BlockDevice D}.

(** A creation that returns although [read] does not has failed before it. *)
Lemma create_unread stack pg pm (fs fs' : Fs D) m m' r pg' pm' rc : proc_inv pg pm ->
  (forall x, read_mem fs m r <> Ret x) ->
  process_create_user_process stack pg pm fs m r = Ret (pg', pm', fs', m', rc) -> pg' = pg /\ pm' = pm /\ rc <> 0.
Proof.
  intros Hinv Hread E. unfold process_create_user_process in E.
  destruct (_ <=? active_process_count pm); [injection E as <- <- _ _ <-; done |].
  destruct (_ <=? buf r); [injection E as <- <- _ _ <-; done |].
  destruct (_ || _); [injection E as <- <- _ _ <-; done |].
  destruct (first_index negb (page_directory_used (directory_pool pg))) as [d|] eqn:Hd.
  - destruct (create_directory_spec (kernel_directory pg) (directory_pool pg) d (inv_kernel _ _ Hinv)
      (inv_pool _ _ Hinv) Hd) as (? & ? & ? & _ & _ & _ & _ & _ & E1). rewrite E1, bind_ret_l in E.
    apply bind_ret_inv in E as (rd & Hrd & _). by destruct (Hread rd).
  - unfold paging_create_new_page_directory in E. rewrite Hd, bind_ret_l in E. injection E as <- <- _ _ <-.
    by destruct pg.
Qed.

(** What a creation that returns has done: nothing, or lost a directory, or all of it. *)
Lemma create_step stack pg pm (fs fs' : Fs D) m m' r pg' pm' rc : proc_inv pg pm -> req_ok r ->
  process_create_user_process stack pg pm fs m r = Ret (pg', pm', fs', m', rc) ->
  (pm' = pm /\ rc <> 0 /\ (pg' = pg \/ exists d, leaked pg pg' d)) \/
  (active_process_count pm < 16 /\ exists i d, created pg pg' pm pm' r stack i d).
Proof.
  intros Hinv Hr E. destruct (read_mem fs m r) as [[[fs1 m1] rc1]| |] eqn:Hread.
  2, 3: destruct (create_unread stack pg pm fs fs' m m' r pg' pm' rc Hinv) as (-> & -> & Hrc);
    [intros x Hx; by rewrite Hread in Hx | done | by left; eauto].
  destruct (create_spec stack pg pm fs fs1 m m1 r rc1 Hinv Hr) as (pg2 & pm2 & fs2 & m2 & E2 & Hc); [| done |].
  { intros Hcode. assert (rc1 = 0) as ->.
    { unfold create_code in Hcode. repeat (case_match; try done). lia. }
    by eapply create_named. }
  assert (pg2 = pg' /\ pm2 = pm' /\ rc = create_code pg pm r rc1) as (-> & -> & ->) by (split_and!; congruence).
  unfold create_code in *. destruct (Z.leb_spec 16 (active_process_count pm)); [by destruct Hc as (-> & -> & _); left; auto |].
  destruct (KERNEL_VIRTUAL_ADDRESS_BASE <=? buf r); [by destruct Hc as (-> & -> & _); left; auto |].
  destruct (_ || _); [by destruct Hc as (-> & -> & _); left; auto |].
  destruct (first_index negb _); [| by destruct Hc as (-> & -> & _); left; auto].
  destruct (Z.eqb_spec rc1 0).
  + destruct Hc as (_ & _ & i & d & Hc). right. split; [done |]. by exists i, d.
  + destruct Hc as (-> & _ & _ & d & Hd). left. split_and!; [done | done |]. right. by exists d.
Qed.

Lemma create_inv stack pg pm (fs fs' : Fs D) m m' r pg' pm' rc : proc_inv pg pm -> req_ok r ->
  process_create_user_process stack pg pm fs m r = Ret (pg', pm', fs', m', rc) ->
  proc_inv pg' pm' /\ (parent_cluster_number r < 2 ^ 24 -> proc_owned pg pm -> proc_owned pg' pm').
Proof.
  intros Hinv Hr E.
  destruct (create_step stack pg pm fs fs' m m' r pg' pm' rc Hinv Hr E) as [(-> & _ & [->|[d Hd]])|(Hc & i & d & Hcr)].
  - done.
  - split; [by eapply leaked_inv | intros _ ?; by eapply leaked_owned].
  - split; [by eapply created_inv | intros ? ?; by eapply created_owned].
Qed.

Lemma destroy_step pg pm wanted pg' pm' b : proc_inv pg pm ->
  process_destroy pg pm wanted = Ret (pg', pm', b) ->
  proc_inv pg' pm' /\ (wanted <> 0 -> proc_owned pg pm -> proc_owned pg' pm') /\
  (pm' = pm \/ exists i p, process_list pm !! i = Some p /\
     pm' = mkPm (<[i := vacate p]> (process_list pm)) (active_process_count pm) (pid_counter pm)).
Proof.
  intros Hinv E. pose proof (destroy_any pg pm wanted Hinv) as Hs.
  destruct (process_list_get_pcb_by_pid pm wanted) as [i|].
  - destruct Hs as (pg2 & p & Hp & Hpid & E2 & Hk & Hpool & Hde). rewrite E in E2. injection E2 as <- -> ->.
    split_and!; [by eapply vacated_inv | | right; by eauto].
    intros Hw Hown. destruct (inv_dir _ _ Hinv i p Hp) as [d Hd]; [congruence |].
    eapply destroyed_owned; [exact Hown | | by apply Hde]. congruence.
  - destruct Hs as [E2 _]. assert (pg' = pg /\ pm' = pm) as [-> ->] by (split; congruence). auto.
Qed.

(** The invariant of the whole system. *)
Record sys_inv (s : System D) : Prop := {
  si_procs : proc_inv (sys_paging s) (sys_procs s);
  si_states i p : process_list (sys_procs s) !! i = Some p -> state_ok p;
  si_index : -1 <= current_running_process_index (sys_sched s) < 16;
}.

Lemma states_insert (ps : list ProcessControlBlock) i (p' : ProcessControlBlock) : (forall j q, ps !! j = Some q -> state_ok q) ->
  state_ok p' -> forall j q, <[i := p']> ps !! j = Some q -> state_ok q.
Proof.
  intros Hall Hp j q Hj. destruct (decide (i = j)) as [->|Hne].
  - apply list_lookup_insert_Some in Hj as [(_ & <- & _)|(? & _)]; [done | done].
  - rewrite list_lookup_insert_ne in Hj by done. eauto.
Qed.

Lemma sys_step_inv c (s s' : System D) : sys_inv s -> sys_step c s s' -> sys_inv s'.
Proof.
  intros [Hinv Hst Hidx] Hstep. destruct Hstep as
    [stack pg pm sc fs m r pg' pm' fs' m' rc Hr _ E | pg pm sc fs m w pg' pm' b _ E
    | pg pm sc fs m Hc | pg pm sc fs m sss scs frame pm' E | pg pm sc fs m sc' E
    | pg pm sc fs m va pages dir b E | pg pm sc fs m fs' m'];
    cbn [sys_paging sys_procs sys_sched] in *.
  - destruct (create_inv stack pg pm fs fs' m m' r pg' pm' rc Hinv Hr E) as [Hinv' _]. constructor; try done.
    destruct (create_step stack pg pm fs fs' m m' r pg' pm' rc Hinv Hr E) as [(-> & _)|(_ & i & d & Hcr)]; [done |].
    intros j q Hj. destruct (cr_pcb _ _ _ _ _ _ _ _ Hcr) as (old & nm & used & _ & _ & _ & _ & El).
    cbn [sys_procs] in Hj. rewrite El in Hj. eapply states_insert; [exact Hst | | exact Hj]. split; [done |].
    cbn. intros Hz. exfalso. pose proof (inv_live _ _ Hinv). lia.
  - destruct (destroy_step pg pm w pg' pm' b Hinv E) as (Hinv' & _ & [->|(i & p & Hp & ->)]); constructor; try done.
    intros j q Hj. eapply states_insert; [exact Hst | | exact Hj]. split; [done |]. by right.
  - constructor; try done. destruct Hinv. cbn. constructor; cbn; try done; lia.
  - destruct (timer_inv pg pm sss scs frame pm' Hinv E) as [Hinv' Hsame]. constructor; try done.
    cbn. intros i p' Hi. destruct (Hsame i p' Hi) as (p & Hp & Hs & Hpid & _). specialize (Hst i p Hp).
    unfold state_ok in *. by rewrite Hs, Hpid.
  - constructor; try done. cbn. destruct (Z.ltb_spec 0 (active_process_count pm)) as [Hc|Hc].
    + destruct (switch_spec pg pm sc Hinv Hc Hidx) as (p & _ & E'). rewrite E in E'. injection E' as ->.
      pose proof (inv_count _ _ Hinv). cbn. pose proof (Z.mod_pos_bound (current_running_process_index sc + 1) _ Hc). lia.
    + pose proof (inv_count _ _ Hinv). unfold scheduler_switch_to_next_process, get_next_process_index in E.
      destruct (Z.eqb_spec (active_process_count pm) 0); [done | lia].
  - constructor; try done. apply kernel_page_inv; [done |]. by apply (allocate_directory_ok _ _ _ _ _ _ E), Hinv.
  - by constructor.
Qed.

(** Careful steps keep the directories apart. *)
Lemma careful_step_owned (s s' : System D) : sys_inv s -> sys_step true s s' ->
  proc_owned (sys_paging s) (sys_procs s) -> proc_owned (sys_paging s') (sys_procs s').
Proof.
  intros [Hinv _ _] Hstep Hown. destruct Hstep as
    [stack pg pm sc fs m r pg' pm' fs' m' rc Hr Hp E | pg pm sc fs m w pg' pm' b Hw E
    | pg pm sc fs m Hc | pg pm sc fs m sss scs frame pm' E | pg pm sc fs m sc' E
    | pg pm sc fs m va pages dir b E | pg pm sc fs m fs' m'];
    cbn [sys_paging sys_procs sys_sched] in *; [| | | | done | | done].
  - apply (create_inv stack pg pm fs fs' m m' r pg' pm' rc Hinv Hr E); [by apply Hp | done].
  - apply (destroy_step pg pm w pg' pm' b Hinv E); [by apply Hw | done].
  - destruct Hown. by constructor.
  - by eapply timer_owned.
  - by apply kernel_page_owned.
Qed.

Lemma initial_inv (s : System D) : sys_initial s -> sys_inv s /\ proc_owned (sys_paging s) (sys_procs s).
Proof.
  intros (H1 & H2 & H3). rewrite H1, H2. split; [| exact proc_owned_initial].
  constructor; rewrite ?H1, ?H2, ?H3; [exact proc_inv_initial | | cbn; lia].
  intros i p ->%initial_slot. split; [done | by left].
Qed.

Lemma sys_reachable_inv c (s : System D) : sys_reachable c s -> sys_inv s.
Proof.
  intros (s0 & H0 & Hs). apply initial_inv in H0 as [H0 _].
  induction Hs as [|s1 s2 s3 _ IH Hstep]; [done |]. eapply sys_step_inv; [by apply IH | exact Hstep].
Qed.

Lemma careful_reachable_owned (s : System D) : sys_reachable true s -> proc_owned (sys_paging s) (sys_procs s).
Proof.
  intros (s0 & H0 & Hs). pose proof H0 as [_ Hown]%initial_inv.
  induction Hs as [|s1 s2 s3 Hs IH Hstep]; [done |]. eapply careful_step_owned; [| exact Hstep | by apply IH].
  apply (sys_reachable_inv true). by exists s1.
Qed.

(** ** Properties *)

(** C13: In every state the kernel reaches by any calls, whatever pids are
    destroyed and whatever requests are executed, the pids of live processes are
    distinct and positive, each points to a directory of the pool, a slot is READY
    exactly when it is live (no other state is ever entered before TERMINATED), and
    there are at most as many live processes as the count, at most 16.  In every
    state reached without destroying pid 0 and with parent clusters below 2^24, each
    live process moreover owns a used page directory nobody else owns, and every
    name in the table ends inside its array. *)
Theorem reachable_process_table careful (s : System D) : sys_reachable careful s ->
  let ps := process_list (sys_procs s) in
  (forall i p, ps !! i = Some p -> pid p <> 0 -> 0 < pid p < pid_counter (sys_procs s) /\
     state p = PROCESS_STATE_READY /\ exists d, pcb_dir p = Some d /\ (d < PAGING_DIRECTORY_TABLE_MAX_COUNT)%nat) /\
  (forall i p, ps !! i = Some p -> pid p = 0 ->
     state p = PROCESS_STATE_NEW \/ state p = PROCESS_STATE_TERMINATED) /\
  (forall i j p q, ps !! i = Some p -> ps !! j = Some q -> i <> j -> pid p <> 0 -> pid q <> 0 -> pid p <> pid q) /\
  Z.of_nat (live_count ps) <= active_process_count (sys_procs s) <= 16 /\ pid_counter (sys_procs s) <= 17 /\
  (careful = true ->
     (forall i p d, ps !! i = Some p -> pid p <> 0 -> pcb_dir p = Some d -> dir_in_use (sys_paging s) d) /\
     (forall i j p q, ps !! i = Some p -> ps !! j = Some q -> i <> j -> pid p <> 0 -> pid q <> 0 ->
        pcb_dir p <> pcb_dir q) /\
     (forall i p, ps !! i = Some p -> 0 ∈ proc_name p)).
Proof.
  intros Hr ps. pose proof (sys_reachable_inv _ s Hr) as [Hinv Hst _]. pose proof (inv_live _ _ Hinv).
  pose proof (inv_counter _ _ Hinv). pose proof (inv_count _ _ Hinv). split_and!; try (unfold ps; lia).
  - intros i p Hp Hpid. pose proof (inv_pcb _ _ Hinv i p Hp) as [? _ _ Hb]. split; [lia |].
    split; [by apply (Hst i p Hp) |]. destruct (inv_dir _ _ Hinv i p Hp Hpid) as [d Hd]. exists d.
    split; [done | by apply Hb].
  - intros i p Hp Hpid. by apply (Hst i p Hp).
  - intros i j p q. apply (inv_distinct _ _ Hinv).
  - intros ->. destruct (careful_reachable_owned s Hr) as [Hu Hd Hn]. split_and!; [done | done |].
    intros i p Hp. eapply list_elem_of_lookup_2. by apply (Hn i p).
Qed.

(** C29: In every reachable state the operations return: no access leaves the
    process table, the directory pool or a name.  Destroying any pid, 0 included,
    saving the context and switching (once a process counts as active) succeed,
    and a creation whose [read] returns and whose parent cluster is below 2^24 gives the code of the first check that
    fails. *)
Theorem reachable_operations_return (s : System D) : sys_reachable false s ->
  (forall wanted, exists pg' pm' b,
     process_destroy (sys_paging s) (sys_procs s) wanted = Ret (pg', pm', b)) /\
  (0 < active_process_count (sys_procs s) ->
     (forall sss scs frame, exists pm', timer_interrupt sss scs (sys_procs s) frame = Ret pm') /\
     exists sc', scheduler_switch_to_next_process (sys_sched s) (sys_procs s) = Ret sc') /\
  (forall stack m r fs' m' rc, req_ok r -> parent_cluster_number r < 2 ^ 24 ->
     read_mem (sys_fs s) m r = Ret (fs', m', rc) -> exists pg' pm' fs2 m2,
     process_create_user_process stack (sys_paging s) (sys_procs s) (sys_fs s) m r =
       Ret (pg', pm', fs2, m2, create_code (sys_paging s) (sys_procs s) r rc)).
Proof.
  intros [Hinv _ Hidx]%sys_reachable_inv. split_and!.
  - intros w. pose proof (destroy_any _ _ w Hinv) as Hs.
    destruct (process_list_get_pcb_by_pid (sys_procs s) w) as [i|].
    + destruct Hs as (pg' & p & _ & _ & E & _). by eexists _, _, _.
    + destruct Hs as [E _]. by eexists _, _, _.
  - intros Hc. split.
    + intros sss scs frame. destruct (timer_spec _ _ sss scs frame Hinv Hc) as (p & _ & E). by eexists.
    + destruct (switch_spec _ _ (sys_sched s) Hinv Hc Hidx) as (p & _ & E). by eexists.
  - intros stack m r fs' m' rc Hr Hpar Hrd.
    destruct (create_spec stack _ _ _ _ _ _ r rc Hinv Hr (fun _ => request_named r stack Hr Hpar) Hrd)
      as (pg' & pm' & fs2 & m2 & E & _).
    by exists pg', pm', fs2, m2.
Qed.

Lemma active_grows c (s s' : System D) : sys_inv s -> sys_step c s s' -> 2 <= active_process_count (sys_procs s) ->
  active_process_count (sys_procs s) <= active_process_count (sys_procs s').
Proof.
  intros [Hinv _ _] Hstep H2. destruct Hstep as
    [stack pg pm sc fs m r pg' pm' fs' m' rc Hr _ E | pg pm sc fs m w pg' pm' b _ E
    | pg pm sc fs m Hc | pg pm sc fs m sss scs frame pm' E | pg pm sc fs m sc' E
    | pg pm sc fs m va pages dir b E | pg pm sc fs m fs' m'];
    cbn [sys_paging sys_procs sys_sched] in *; [| | lia | | done | done | done].
  - destruct (create_step stack pg pm fs fs' m m' r pg' pm' rc Hinv Hr E) as [(-> & _)|(_ & i & d & Hcr)]; [done |].
    rewrite (cr_active _ _ _ _ _ _ _ _ Hcr). lia.
  - by destruct (destroy_step pg pm w pg' pm' b Hinv E) as (_ & _ & [->|(i & p & _ & ->)]).
  - destruct (timer_spec pg pm sss scs frame Hinv) as (p & _ & E'); [lia |]. rewrite E in E'. by injection E' as ->.
Qed.

(** Destroyed processes keep counting as active: once 16 processes have been
    created, no process can ever be created again, whatever is destroyed. *)
Theorem destroyed_processes_still_count (s s' : System D) stack m r : sys_reachable false s ->
  active_process_count (sys_procs s) = 16 -> sys_steps false s s' ->
  process_create_user_process stack (sys_paging s') (sys_procs s') (sys_fs s') m r =
    Ret (sys_paging s', sys_procs s', sys_fs s', m, PROCESS_CREATE_FAIL_MAX_PROCESS_EXCEEDED).
Proof.
  intros Hinv%sys_reachable_inv H16 Hs.
  assert (sys_inv s' /\ active_process_count (sys_procs s') = 16) as [Hinv' H16'].
  { induction Hs as [|s1 s2 s3 _ IH Hstep]; [done |]. destruct (IH Hinv H16) as [Hi2 H2].
    pose proof (sys_step_inv _ _ _ Hi2 Hstep) as Hi3. split; [done |].
    pose proof (active_grows _ _ _ Hi2 Hstep). pose proof (inv_count _ _ (si_procs _ Hi3)). lia. }
  unfold process_create_user_process. rewrite H16'. done.
Qed.
End Steps.
