(* ===== verification/ExecProps.v ===== *)
(** * Starting executables from the file system

    Process creation composed with the file system refinement: what an executable
    in a represented directory becomes in memory, page directory and process
    table, and what is left behind when it is missing. *)
From stdpp Require Import gmap.
From S2P Require Import Prelude CString BlockDevice Fat32Types Fat32 Fat32Chain Fat32Facts Fat32Ops Fat32Access Fat32Abs Fat32Refine DirList DirTree IntStr Paging Process ProcessInv PortIO Scheduler ProcessProps.
#[local] Open Scope Z_scope.

Lemma frames_needed r : 0 <= buffer_size r <= 7 * PAGE_FRAME_SIZE ->
  page_frame_count_needed r = 1 + (buffer_size r + PAGE_FRAME_SIZE - 1) / PAGE_FRAME_SIZE.
Proof.
  unfold page_frame_count_needed, ceil_div, PAGE_FRAME_SIZE. intros Hs.
  rewrite (u32_id (buffer_size r + 4194304)), i32_id by lia. rewrite Z.rem_mod_nonneg, Z.quot_div_nonneg by lia.
  destruct (Z.eqb_spec ((buffer_size r + 4194304) mod 4194304) 0); (rewrite u32_id; Z.div_mod_to_equations; lia).
Qed.

Lemma frames_needed_range r : 0 <= buffer_size r <= 7 * PAGE_FRAME_SIZE -> 1 <= page_frame_count_needed r <= 8.
Proof. intros Hs. rewrite frames_needed by done. unfold PAGE_FRAME_SIZE in *. Z.div_mod_to_equations. lia. Qed.

(** The directories still unused. *)
Definition unused_count (used : list bool) : nat := foldr (fun b n => Nat.b2n (negb b) + n)%nat O used.

Lemma unused_count_None used : first_index negb used = None -> unused_count used = 0%nat.
Proof.
  rewrite first_index_None. unfold unused_count. induction used as [|b used IH]; intros Hn; [done |]. cbn [foldr].
  rewrite (Hn 0%nat b eq_refl). rewrite IH; [done |]. intros i x Hx. by apply (Hn (S i)).
Qed.

Lemma unused_count_take used d : first_index negb used = Some d ->
  unused_count used = S (unused_count (<[d := true]> used)).
Proof.
  rewrite first_index_Some. unfold unused_count. revert d. induction used as [|b used IH]; intros d [(x & Hx & Hn) Hj]; [done |].
  destruct d as [|d].
  - injection Hx as ->. change (<[0%nat := true]> (x :: used)) with (true :: used). cbn [foldr]. rewrite Hn. done.
  - change (<[S d := true]> (b :: used)) with (b :: <[d := true]> used). cbn [foldr].
    rewrite (IH d); [lia |]. split; [by exists x |]. intros j y Hlt Hy. apply (Hj (S j)); [lia | done].
Qed.

Section Exec.
Context {D : Type} `{BlockDeviceSpec D}.

(** The checks before the executable is read pass. *)
Definition admissible (pg : PagingState) (pm : ProcessManager) (r : FAT32DriverRequest) : Prop :=
  active_process_count pm < 16 /\ 0 <= buf r < KERNEL_VIRTUAL_ADDRESS_BASE /\
  0 <= buffer_size r <= 7 * PAGE_FRAME_SIZE /\
  page_frame_count_needed r <= free_page_frame_count (page_manager pg).

Lemma admissible_code pg pm r rc : admissible pg pm r ->
  create_code pg pm r rc =
    if first_index negb (page_directory_used (directory_pool pg)) is Some _
    then if rc =? 0 then 0 else 4 else 3.
Proof.
  intros (Hc & Hb & Hs & Hf). pose proof (frames_needed_range r Hs). unfold create_code, paging_allocate_check.
  destruct (Z.leb_spec 16 (active_process_count pm)); [lia |].
  destruct (Z.leb_spec KERNEL_VIRTUAL_ADDRESS_BASE (buf r)); [lia |].
  destruct (Z.leb_spec (page_frame_count_needed r) (free_page_frame_count (page_manager pg))); [| lia].
  destruct (Z.ltb_spec 8 (page_frame_count_needed r)); [lia | done].
Qed.

Lemma create_exhausted stack pg pm (fs : Fs D) m r :
  first_index negb (page_directory_used (directory_pool pg)) = None -> admissible pg pm r ->
  process_create_user_process stack pg pm fs m r = Ret (pg, pm, fs, m, PROCESS_CREATE_FAIL_NOT_ENOUGH_MEMORY).
Proof.
  intros Hd (Hc & Hb & Hs & Hf). pose proof (frames_needed_range r Hs). unfold process_create_user_process.
  change (Z.of_nat PROCESS_COUNT_MAX) with 16. change PROCESS_PAGE_FRAME_COUNT_MAX with 8.
  destruct (Z.leb_spec 16 (active_process_count pm)); [lia |].
  destruct (Z.leb_spec KERNEL_VIRTUAL_ADDRESS_BASE (buf r)); [lia |]. unfold paging_allocate_check.
  destruct (Z.leb_spec (page_frame_count_needed r) (free_page_frame_count (page_manager pg))); [| lia].
  destruct (Z.ltb_spec 8 (page_frame_count_needed r)); [lia |]. cbn [negb orb].
  unfold paging_create_new_page_directory. rewrite Hd, bind_ret_l. by destruct pg.
Qed.

(** C15: Creating a process from a file of the directory, when the checks before
    the load pass and a page directory is unused, succeeds: the file's bytes are
    at the requested address, the first free slot holds a READY process with the
    next pid, entry point 0 and interrupts enabled, its directory translates the
    first 4 MiB like the kernel's, and directory and file contents are intact. *)
Theorem exec_loads_executable (s : System D) stack m (r : FAT32DriverRequest) own M data d : sys_reachable false s ->
  admissible (sys_paging s) (sys_procs s) r -> req_ok r -> parent_cluster_number r < 2 ^ 24 ->
  represents (sys_fs s) (parent_cluster_number r) own M -> req_key r <> zero_key ->
  M !! req_key r = Some (File data) -> Z.of_nat (length data) <= buffer_size r -> buf r + 2048 * 512 <= 2 ^ 32 ->
  first_index negb (page_directory_used (directory_pool (sys_paging s))) = Some d ->
  exists pg' pm' fs' m' i p dir,
    process_create_user_process stack (sys_paging s) (sys_procs s) (sys_fs s) m r =
      Ret (pg', pm', fs', m', PROCESS_CREATE_SUCCESS) /\
    load_bytes m' (buf r) (length data) = data /\ represents fs' (parent_cluster_number r) own M /\
    process_list_get_inactive_index (sys_procs s) = Z.of_nat i /\ process_list pm' !! i = Some p /\
    pid p = pid_counter (sys_procs s) /\ state p = PROCESS_STATE_READY /\
    eip (context p) = 0 /\ Z.testbit (eflags (context p)) 9 = true /\ pcb_dir p = Some d /\
    (forall j, j <> i -> process_list pm' !! j = process_list (sys_procs s) !! j) /\
    page_directory_list (directory_pool pg') !! d = Some dir /\
    (forall va, 0 <= va < PAGE_FRAME_SIZE -> translate dir va = translate (kernel_directory (sys_paging s)) va).
Proof.
  intros [Hinv _ _]%sys_reachable_inv Had Hr Hpar Hrep Hk HM Hsz Hend Hd.
  pose proof Hrep as [ls Hrepw].
  destruct (read_file_represents (sys_fs s) r own ls M Hrepw Hr Hk m data HM Hsz) as (m' & Hrd & _ & Hld);
    [by apply Had | done |].
  destruct (create_spec stack _ _ _ _ _ _ r 0 Hinv Hr (fun _ => request_named r stack Hr Hpar) Hrd) as (pg' & pm' & fs2 & m2 & E & Hc).
  rewrite (admissible_code _ _ _ _ Had), Hd in E, Hc. cbn [Z.eqb] in E, Hc.
  destruct Hc as (-> & -> & i & d' & Hcr). pose proof (cr_free _ _ _ _ _ _ _ _ Hcr) as Hd'.
  assert (d' = d) as -> by congruence.
  destruct (cr_pcb _ _ _ _ _ _ _ _ Hcr) as (old & nm & used & Hold & _ & _ & _ & El).
  destruct (cr_dir _ _ _ _ _ _ _ _ Hcr) as (dir & Hdir & _ & E0 & _).
  eexists pg', pm', _, m', i, _, dir. split_and!; [exact E | exact Hld | | | | | | | | | | exact Hdir |].
  - by eapply represents_same; [| | exact Hrep].
  - unfold process_list_get_inactive_index. by rewrite (cr_slot _ _ _ _ _ _ _ _ Hcr).
  - rewrite El. apply list_lookup_insert_eq. by apply lookup_lt_Some in Hold.
  - done.
  - done.
  - done.
  - done.
  - done.
  - intros j Hj. rewrite El. by rewrite list_lookup_insert_ne.
  - intros va Hva. unfold PAGE_FRAME_SIZE in Hva. assert (page_index va = 0) as Hpi.
    { rewrite page_index_mod by lia. apply Z.div_small. exact Hva. }
    unfold translate. by rewrite Hpi, E0.
Qed.

(** The pages a new process gets are the first frames of the kernel's half:
    the directory entry for the kernel's own address range is writable and open
    to user mode, while the entry for address 0, where the program runs, is a
    copy of the kernel's. *)
Theorem exec_opens_kernel_half (s : System D) stack m r pg' pm' fs' m' : sys_reachable false s -> req_ok r ->
  0 <= buffer_size r <= 7 * PAGE_FRAME_SIZE ->
  process_create_user_process stack (sys_paging s) (sys_procs s) (sys_fs s) m r =
    Ret (pg', pm', fs', m', PROCESS_CREATE_SUCCESS) ->
  exists p d dir e0 e, pcb_dir p = Some d /\ p ∈ process_list pm' /\ pid p = pid_counter (sys_procs s) /\
    page_directory_list (directory_pool pg') !! d = Some dir /\
    aget dir (page_index KERNEL_VIRTUAL_ADDRESS_BASE) = Ret e /\
    user_bit (flag e) = true /\ write_bit (flag e) = true /\
    (forall va, 0 <= va < PAGE_FRAME_SIZE -> translate dir (KERNEL_VIRTUAL_ADDRESS_BASE + va) = Some va) /\
    aget dir 0 = Ret e0 /\ aget (kernel_directory (sys_paging s)) 0 = Ret e0.
Proof.
  intros [Hinv _ _]%sys_reachable_inv Hr Hs E.
  destruct (create_step stack _ _ _ _ _ _ r _ _ _ Hinv Hr E) as [(_ & Hne & _)|(_ & i & d & Hcr)]; [done |].
  destruct (cr_pcb _ _ _ _ _ _ _ _ Hcr) as (old & nm & used & Hold & _ & _ & _ & El).
  destruct (cr_dir _ _ _ _ _ _ _ _ Hcr) as (dir & Hdir & _ & E0 & Hk).
  pose proof (frames_needed_range r Hs). destruct (Hk 0%nat) as (e & He & Hf & Hla); [lia |].
  destruct (directory_entry (kernel_directory (sys_paging s)) 0 (inv_kernel _ _ Hinv)) as [e0 Ee0]; [lia |].
  match type of El with _ = <[_ := ?q]> _ => exists q, d, dir, e0, e end. split_and!; [| | | exact Hdir | exact He | by rewrite Hf | by rewrite Hf | | congruence | done].
  - reflexivity.
  - rewrite El. eapply list_elem_of_lookup_2, list_lookup_insert_eq. by apply lookup_lt_Some in Hold.
  - done.
  - intros va Hva. unfold KERNEL_VIRTUAL_ADDRESS_BASE, PAGE_FRAME_SIZE in *.
    assert (page_index (0xC0000000 + va) = 768 + Z.of_nat 0) as Hpi.
    { rewrite page_index_mod by lia. unfold PAGE_FRAME_SIZE. Z.div_mod_to_equations. lia. }
    rewrite (translate_entry dir _ e) by (by rewrite Hpi). rewrite Hf, Hla. cbn -[Z.modulo].
    f_equal. unfold PAGE_FRAME_SIZE. Z.div_mod_to_equations. lia.
Qed.

(** [n] attempts to start the same executable. *)
Fixpoint repeat_create (stack : list Z) (n : nat) (pg : PagingState) (pm : ProcessManager) (fs : Fs D) (m : mem)
    (r : FAT32DriverRequest) : outcome (PagingState * ProcessManager * list Z) :=
  match n with
  | O => Ret (pg, pm, [])
  | S n' =>
    '(pg, pm, fs, m, rc) ← process_create_user_process stack pg pm fs m r;
    '(pg, pm, rcs) ← repeat_create stack n' pg pm fs m r;
    Ret (pg, pm, rc :: rcs)
  end.

(** Starting a missing executable fails with code 4, but each attempt keeps a
    page directory: after as many attempts as directories were unused the pool is
    exhausted and every attempt to start anything fails with code 3, although the
    process table has not changed. *)
Theorem failed_execs_exhaust_directories (s : System D) stack m (r : FAT32DriverRequest) own M k : sys_reachable false s ->
  admissible (sys_paging s) (sys_procs s) r -> req_ok r -> parent_cluster_number r < 2 ^ 24 ->
  represents (sys_fs s) (parent_cluster_number r) own M -> req_key r <> zero_key ->
  M !! req_key r = None -> req_key r <> own ->
  let n := unused_count (page_directory_used (directory_pool (sys_paging s))) in
  exists pg', repeat_create stack (n + k) (sys_paging s) (sys_procs s) (sys_fs s) m r =
      Ret (pg', sys_procs s, replicate n 4 ++ replicate k 3) /\
    forall fs2 m2 r2, admissible pg' (sys_procs s) r2 ->
      process_create_user_process stack pg' (sys_procs s) fs2 m2 r2 =
        Ret (pg', sys_procs s, fs2, m2, PROCESS_CREATE_FAIL_NOT_ENOUGH_MEMORY).
Proof.
  intros [Hinv _ _]%sys_reachable_inv Had Hr Hpar Hrep Hk HM Hown n.
  destruct s as [pg pm sc fs m0]. cbn [sys_paging sys_procs sys_fs] in *. clear sc m0.
  remember n as n0 eqn:En. unfold n in En. clear n. revert pg fs Hinv Had Hrep En.
  induction n0 as [|n IH]; intros pg fs Hinv Had Hrep En.
  - assert (first_index negb (page_directory_used (directory_pool pg)) = None) as Hd.
    { destruct (first_index negb (page_directory_used (directory_pool pg))) as [d|] eqn:Hd; [| done].
      apply unused_count_take in Hd. lia. }
    assert (forall fs2 m2 r2, admissible pg pm r2 -> process_create_user_process stack pg pm fs2 m2 r2 =
      Ret (pg, pm, fs2, m2, PROCESS_CREATE_FAIL_NOT_ENOUGH_MEMORY)) as Hfail.
    { intros fs2 m2 r2 Had2. by apply create_exhausted. }
    exists pg. split; [| exact Hfail]. cbn [Nat.add replicate app]. clear En.
    induction k as [|k IH]; [done |]. cbn [repeat_create replicate]. rewrite Hfail, bind_ret_l, IH by done. done.
  - destruct (first_index negb (page_directory_used (directory_pool pg))) as [d|] eqn:Hd.
    2:{ apply unused_count_None in Hd. lia. }
    pose proof Hrep as [ls Hrepw].
    pose proof (read_missing fs r own ls M Hrepw Hr Hk m HM Hown) as Hrd.
    destruct (create_spec stack pg pm _ _ _ _ r 3 Hinv Hr (fun _ => request_named r stack Hr Hpar) Hrd) as (pg1 & pm1 & fs2 & m2 & E & Hc).
    rewrite (admissible_code _ _ _ _ Had), Hd in E, Hc. cbn [Z.eqb] in E, Hc.
    destruct Hc as (-> & -> & -> & d' & Hlk).
    destruct (IH pg1 (set_dir fs (dir_at fs (parent_cluster_number r)))) as (pg' & E2 & Hrest).
    + by eapply leaked_inv.
    + destruct Had as (? & ? & ? & ?). split_and!; try done; try lia. by rewrite (lk_manager _ _ _ Hlk).
    + by eapply represents_same; [| | exact Hrep].
    + rewrite (lk_used _ _ _ Hlk). pose proof (lk_free _ _ _ Hlk) as Hd'.
      pose proof (unused_count_take _ _ Hd'). lia.
    + exists pg'. split; [| exact Hrest]. cbn [Nat.add repeat_create replicate app].
      rewrite E, bind_ret_l, E2. done.
Qed.
End Exec.
