(* ===== verification/SchedProps.v ===== *)
(** * Scheduling order, context saving and the process listing *)
From Stdlib Require Import String.
From S2P Require Import Prelude CString BlockDevice Fat32Types Fat32 Fat32Chain Fat32Facts DirList DirTree IntStr Paging Process ProcessInv PortIO Scheduler ProcessProps.
#[local] Open Scope Z_scope.

(** ** Several switches in a row *)

Fixpoint switches (n : nat) (sc : SchedulerState) (pm : ProcessManager) : outcome SchedulerState :=
  match n with
  | O => Ret sc
  | S n' => sc ← switches n' sc pm; scheduler_switch_to_next_process sc pm
  end.

Lemma switches_spec pg pm sc n : proc_inv pg pm -> 0 < active_process_count pm ->
  -1 <= current_running_process_index sc < 16 ->
  let i := (current_running_process_index sc + Z.of_nat (S n)) mod active_process_count pm in
  exists p, process_list pm !! Z.to_nat i = Some p /\
    switches (S n) sc pm = Ret (mkSched i (pcb_dir p) (Some (context p))).
Proof.
  intros Hinv Hc Hidx. pose proof (inv_count _ _ Hinv). induction n as [|n IH].
  - cbn [switches]. rewrite bind_ret_l. by apply (switch_spec pg pm sc).
  - destruct IH as (p & _ & E). cbn [switches] in *. rewrite E, bind_ret_l.
    set (i := (_ + Z.of_nat (S n)) mod _) in *.
    assert (0 <= i < active_process_count pm) by (apply Z.mod_pos_bound; lia).
    destruct (switch_spec pg pm (mkSched i (pcb_dir p) (Some (context p))) Hinv Hc) as (q & Hq & Eq); [cbn; lia |].
    cbn [current_running_process_index] in *.
    assert ((i + 1) mod active_process_count pm =
      (current_running_process_index sc + Z.of_nat (S (S n))) mod active_process_count pm) as Hm.
    { unfold i. rewrite Zplus_mod_idemp_l. f_equal. lia. }
    rewrite Hm in *. by exists q.
Qed.

Section Sched.
Context {D : Type} `{BlockDevice D}.

(** C16: Round robin: in any reachable state, among the next
    [active_process_count] switches each slot below the count is chosen exactly
    once, and the slot chosen determines CR3 and the context resumed. *)
Theorem round_robin_is_fair (s : System D) i : sys_reachable false s -> 0 <= i < active_process_count (sys_procs s) ->
  exists k p, (1 <= k <= Z.to_nat (active_process_count (sys_procs s)))%nat /\
    process_list (sys_procs s) !! Z.to_nat i = Some p /\
    switches k (sys_sched s) (sys_procs s) = Ret (mkSched i (pcb_dir p) (Some (context p))) /\
    forall k' sc', (1 <= k' <= Z.to_nat (active_process_count (sys_procs s)))%nat ->
      switches k' (sys_sched s) (sys_procs s) = Ret sc' -> current_running_process_index sc' = i -> k' = k.
Proof.
  intros [Hinv _ Hidx]%sys_reachable_inv Hi. set (n := active_process_count (sys_procs s)) in *.
  set (c := current_running_process_index (sys_sched s)) in *.
  pose proof (Z.mod_pos_bound (i - c - 1) n ltac:(lia)) as Hb.
  set (j := Z.to_nat ((i - c - 1) mod n)).
  assert ((c + Z.of_nat (S j)) mod n = i) as Hj.
  { unfold j. rewrite Nat2Z.inj_succ, Z2Nat.id by lia.
    replace (c + Z.succ ((i - c - 1) mod n)) with ((c + 1) + (i - c - 1) mod n) by lia.
    rewrite Zplus_mod_idemp_r. replace (c + 1 + (i - c - 1)) with i by lia. by apply Z.mod_small. }
  destruct (switches_spec _ _ (sys_sched s) j Hinv) as (p & Hp & E); [lia | done |].
  fold c n in Hp, E. rewrite Hj in Hp, E. exists (S j), p. split_and!; [unfold j; lia | unfold j; lia | done | done |].
  intros [|k] sc' Hk Ek Hcur; [lia |].
  destruct (switches_spec _ _ (sys_sched s) k Hinv) as (q & _ & Eq); [lia | done |].
  rewrite Ek in Eq. injection Eq as ->. cbn [current_running_process_index] in Hcur. fold c n in Hcur.
  assert ((Z.of_nat (S k) - Z.of_nat (S j)) mod n = 0) as Hd.
  { replace (Z.of_nat (S k) - Z.of_nat (S j)) with ((c + Z.of_nat (S k)) - (c + Z.of_nat (S j))) by lia.
    rewrite Zminus_mod, Hcur, Hj, Z.sub_diag. apply Zmod_0_l. }
  apply Z.mod_divide in Hd as [q' Hq']; [| lia].
  assert (0 <= Z.of_nat j < n) as Hjr by (unfold j; lia). assert (0 <= Z.of_nat k < n) as Hkr by lia.
  clearbody j. assert (q' = 0) as -> by nia. lia.
Qed.

(** A timer interrupt saves the registers of the interrupted process in slot
    [active_process_count - 1], whichever slot is running: when the scheduler
    comes back to a slot, the interrupted state is resumed if it is that slot,
    with [ss] and [cs] from uninitialised memory; any other process resumes at
    the context it had before the interrupt. *)
Theorem timer_saves_into_last_slot (s : System D) sss scs frame : sys_reachable false s ->
  0 < active_process_count (sys_procs s) ->
  exists pm', timer_interrupt sss scs (sys_procs s) frame = Ret pm' /\
    forall k sc', switches (S k) (sys_sched s) pm' = Ret sc' ->
      exists p, process_list (sys_procs s) !! Z.to_nat (current_running_process_index sc') = Some p /\
        running sc' = Some
          (if current_running_process_index sc' =? active_process_count (sys_procs s) - 1
           then mkContext (frame_cpu frame) (int_eip (int_stack frame)) (int_eflags (int_stack frame))
                  sss scs (pcb_dir p)
           else context p).
Proof.
  intros [Hinv _ Hidx]%sys_reachable_inv Hc.
  destruct (timer_spec _ _ sss scs frame Hinv Hc) as (p & Hp & E). eexists. split; [exact E |].
  destruct (timer_inv _ _ sss scs frame _ Hinv E) as [Hinv' _].
  intros k sc' Ek. set (last := active_process_count (sys_procs s) - 1) in *.
  destruct (switches_spec _ _ (sys_sched s) k Hinv' Hc Hidx) as (q & Hq & Eq).
  cbn [active_process_count process_list] in *. rewrite Ek in Eq. injection Eq as ->.
  cbn [current_running_process_index running]. set (i := _ mod _) in *.
  assert (0 <= i < active_process_count (sys_procs s)) by (apply Z.mod_pos_bound; lia).
  destruct (Z.eqb_spec i last) as [->|Hne].
  - exists p. split; [done |]. rewrite list_lookup_insert_eq in Hq by (by apply lookup_lt_Some in Hp).
    by injection Hq as <-.
  - rewrite list_lookup_insert_ne in Hq by lia. by exists q.
Qed.

(** ** ps *)

(** The characters of a name up to its NUL. *)
Definition name_string (p : ProcessControlBlock) : list Z := cstr (proc_name p).

Definition ps_line (p : ProcessControlBlock) : list Z :=
  if pid p =? 0 then []
  else name_string p ++ bytes_of " (PID: " ++ decimal (pid p) ++ bytes_of ") - READY" ++ [10].

Lemma c_string_is_cstr l : 0 ∈ l -> c_string l = Ret (cstr l).
Proof.
  intros Hin. induction l as [|c l IH]; [by apply not_elem_of_nil in Hin |].
  unfold cstr in *. cbn [c_string length until_nul]. destruct (Z.eqb_spec c 0) as [|Hc]; [done |].
  rewrite IH; [done |]. apply elem_of_cons in Hin as [?|?]; [congruence | done].
Qed.

Lemma decimal_nonzero n : - 2 ^ 31 < n < 2 ^ 31 -> Forall (fun c => c <> 0) (decimal n).
Proof.
  intros Hn. unfold decimal. destruct (n =? 0); [by repeat constructor |].
  apply Forall_app. split; [destruct (n <? 0); by repeat constructor |].
  apply List.Forall_rev. eapply Forall_impl; [apply digits_rev_chars; lia |]. intros c Hc. cbn in Hc. lia.
Qed.

Lemma ps_entry_spec pid_str0 o p : length pid_str0 = 10%nat -> 0 ∈ proc_name p -> 0 <= pid p < 100 ->
  (pid p <> 0 -> state p = PROCESS_STATE_READY) ->
  exists o', ps_entry pid_str0 o p = Ret o' /\ out_text o' = out_text o ++ ps_line p.
Proof.
  intros Hl Hn Hp Hs. unfold ps_entry, ps_line. destruct (Z.eqb_spec (pid p) 0) as [|Hp0].
  { exists o. by rewrite app_nil_r. }
  rewrite (c_string_is_cstr _ Hn), bind_ret_l, i32_id, int_to_str_spec by lia.
  assert (length (decimal (pid p)) <= 2)%nat as Hd.
  { unfold decimal. destruct (Z.eqb_spec (pid p) 0); [done |]. destruct (Z.ltb_spec (pid p) 0); [lia |].
    rewrite Z.abs_eq by lia. cbn [app]. rewrite length_rev. cbn [digits_rev].
    destruct (Z.eqb_spec (pid p) 0); [done |]. destruct (Z.eqb_spec (pid p / 10) 0); [cbn; lia |].
    destruct (Z.eqb_spec (pid p / 10 / 10) 0) as [|Hz]; [cbn; lia |]. exfalso. apply Hz.
    rewrite Z.div_div by lia. apply Z.div_small. lia. }
  rewrite Hl. destruct (Nat.ltb_spec (length (decimal (pid p))) 10); [| lia]. rewrite bind_ret_l.
  cbn [app]. rewrite c_string_exact, bind_ret_l by (apply decimal_nonzero; lia).
  eexists. split; [reflexivity |]. rewrite !out_text_emits, (Hs Hp0). unfold name_string. cbn [state_name].
  rewrite <- !app_assoc. done.
Qed.

(** In every state reached with careful calls [ps] terminates, without overrunning
    its local buffer, and prints one line per live process in slot order: name,
    decimal pid and state, which is always READY. *)
Theorem ps_prints_live_processes (s : System D) pid_str0 buffer : sys_reachable true s -> length pid_str0 = 10%nat ->
  exists o, ps pid_str0 (sys_procs s) buffer = Ret o /\
    out_text o = flat_map ps_line (process_list (sys_procs s)).
Proof.
  intros Hr Hl. pose proof (careful_reachable_owned s Hr) as Hown.
  apply sys_reachable_inv in Hr as [Hinv Hst _]. unfold ps.
  assert (forall l o, (forall i p, l !! i = Some p -> 0 ∈ proc_name p /\ 0 <= pid p < 100 /\
      (pid p <> 0 -> state p = PROCESS_STATE_READY)) ->
    exists o', foldM (ps_entry pid_str0) o l = Ret o' /\ out_text o' = out_text o ++ flat_map ps_line l) as Hloop.
  { induction l as [|p l IH]; intros o Hall; cbn [foldM flat_map]; [exists o; by rewrite app_nil_r |].
    destruct (Hall 0%nat p eq_refl) as (Hn & Hp & Hs).
    destruct (ps_entry_spec pid_str0 o p Hl Hn Hp Hs) as (o1 & -> & Ho1). rewrite bind_ret_l.
    destruct (IH o1) as (o2 & -> & Ho2); [intros i q Hq; by apply (Hall (S i)) |].
    exists o2. split; [done |]. by rewrite Ho2, Ho1, <- app_assoc. }
  destruct (Hloop (process_list (sys_procs s)) (mkOut buffer 0)) as (o & E & Ho).
  - intros i p Hp. destruct (inv_pcb _ _ Hinv i p Hp) as [Hpid _ _ _].
    pose proof (own_name _ _ Hown i p Hp) as Hne.
    pose proof (inv_counter _ _ Hinv). pose proof (inv_count _ _ Hinv).
    split_and!; [by eapply list_elem_of_lookup_2 | lia | lia | by apply (Hst i p Hp)].
  - by exists o.
Qed.

Lemma cstr_exact w r : Forall (fun c => c <> 0) w -> cstr (w ++ 0 :: r) = w.
Proof.
  unfold cstr. induction 1 as [|c w Hc _ IH]; [done |]. cbn [app length until_nul].
  destruct (Z.eqb_spec c 0); [done |]. f_equal. exact IH.
Qed.

Lemma c_string_nonzero l s : c_string l = Ret s -> Forall (fun c => c <> 0) s.
Proof.
  revert s. induction l as [|c l IH]; intros s; [done |]. cbn [c_string].
  destruct (Z.eqb_spec c 0) as [->|Hc]; [by intros [= <-] |]. intros (s' & E & E2)%bind_ret_inv.
  injection E2 as <-. constructor; [done | by apply IH].
Qed.

(** Destroying a process clears only the first character of its name and
    creation does not terminate the new name: a process created in the slot of a
    destroyed one with a longer name shows the tail of the old name. *)
Theorem reused_slot_shows_old_name_tail (s : System D) stack m r w pg1 pm1 pg2 pm2 fs2 m2 i p p' nm :
  sys_reachable true s -> w <> 0 -> req_ok r ->
  process_list_get_pcb_by_pid (sys_procs s) w = Some i -> process_list (sys_procs s) !! i = Some p ->
  process_destroy (sys_paging s) (sys_procs s) w = Ret (pg1, pm1, true) ->
  process_list_get_inactive_index pm1 = Z.of_nat i ->
  process_create_user_process stack pg1 pm1 (sys_fs s) m r = Ret (pg2, pm2, fs2, m2, PROCESS_CREATE_SUCCESS) ->
  process_list pm2 !! i = Some p' ->
  c_string (bytes_from_name r stack) = Ret nm -> (1 <= length nm < length (name_string p))%nat ->
  name_string p' = nm ++ drop (length nm) (name_string p).
Proof.
  intros Hreach Hw Hr Hi Hp Ed Hin Ec Hp' Hnm Hlen.
  pose proof (careful_reachable_owned s Hreach) as Hown. apply sys_reachable_inv in Hreach as [Hinv _ _].
  pose proof (destroy_spec _ _ w Hinv Hw) as Hds. rewrite Hi in Hds.
  destruct Hds as (pg1' & pm1' & q & d & Ed' & Hq & Hde).
  assert (pg1' = pg1 /\ pm1' = pm1) as [-> ->] by (split; congruence).
  pose proof (de_slot _ _ _ _ _ _ _ Hde) as Hslot. assert (q = p) as -> by congruence.
  assert (proc_inv pg1 pm1) as Hinv1 by (eapply destroyed_inv; [exact Hinv | exact Hde]).
  destruct (create_step stack _ _ _ _ _ _ r _ _ _ Hinv1 Hr Ec) as [(_ & Hne & _)|(_ & j & d' & Hcr)]; [done |].
  pose proof (cr_slot _ _ _ _ _ _ _ _ Hcr) as Hj. unfold process_list_get_inactive_index in Hin. rewrite Hj in Hin.
  assert (j = i) as -> by lia. clear Hin.
  destruct (cr_pcb _ _ _ _ _ _ _ _ Hcr) as (old & v & used & Hold & [Hv _] & _ & _ & El).
  assert (v = nm) as -> by congruence. pose proof (c_string_nonzero _ _ Hnm) as Hv0.
  assert (i < length (process_list (sys_procs s)))%nat as Hlt by by apply lookup_lt_Some in Hp.
  rewrite (de_list _ _ _ _ _ _ _ Hde) in Hold. rewrite list_lookup_insert_eq in Hold by done. injection Hold as <-.
  rewrite El, (de_list _ _ _ _ _ _ _ Hde), list_insert_insert_eq, list_lookup_insert_eq in Hp' by done. injection Hp' as <-.
  unfold name_string. cbn [proc_name vacate].
  pose proof (own_name _ _ Hown i p Hp) as Hne.
  assert (0 ∈ proc_name p) as H0 by by eapply list_elem_of_lookup_2.
  destruct (cstr_split _ H0) as [r' Hsp]. unfold name_string in Hlen. set (o := cstr (proc_name p)) in *.
  assert (Forall (fun c => c <> 0) o) as Ho.
  { destruct (c_string_cstr (proc_name p) 31 Hne) as (o' & Eo & _ & Ho' & _).
    rewrite (c_string_is_cstr _ H0) in Eo. assert (o = o') as -> by (unfold o; congruence). done. }
  clearbody o.
  rewrite Hsp. destruct nm as [|a nm]; [cbn in Hlen; lia |]. destruct o as [|b o]; [cbn in Hlen; lia |].
  change (<[0%nat := 0]> ((b :: o) ++ 0 :: r')) with (0 :: o ++ 0 :: r').
  change (drop (length (a :: nm)) (0 :: o ++ 0 :: r')) with (drop (length nm) (o ++ 0 :: r')).
  change (drop (length (a :: nm)) (b :: o)) with (drop (length nm) o). cbn [length] in Hlen.
  rewrite drop_app_le by lia. rewrite app_assoc. apply cstr_exact. apply Forall_app. split; [done |].
  apply Forall_drop. by apply Forall_cons in Ho as [_ Ho].
Qed.
End Sched.
