(* ===== verification/ProcessExamples.v ===== *)
(** * Processes at concrete inputs

    A disk with two executables, "ikuyo" and "sh", and a run of the system on it;
    the last theorem shows a reachable state the kernel destroys itself. *)
From Stdlib Require Import String.
From stdpp Require Import gmap.
From S2P Require Import Prelude CString Memory BlockDevice Fat32Types Fat32 Fat32Chain Fat32Facts Fat32Ops Fat32Access Fat32Abs Fat32Refine DirList DirTree DirProps Fat32Examples IntStr Paging Process ProcessInv PortIO Scheduler ProcessProps ExecProps SchedProps.
#[local] Open Scope Z_scope.

(** ** Running commands *)

Inductive command : Type :=
  | Exec (r : FAT32DriverRequest)
  | Kill (wanted : Z)
  | Init
  | Timer (frame : InterruptFrame)
  | Switch.

#[export] Instance req_ok_dec r : Decision (req_ok r).
Proof. unfold req_ok. apply _. Defined.

Section Run.
Context {D : Type} `{BlockDevice D}.

Definition run_command (careful : bool) (s : System D) (c : command) : outcome (System D) :=
  let '(mkSystem pg pm sc fs m) := s in
  match c with
  | Exec r =>
    if bool_decide (req_ok r) && (negb careful || (parent_cluster_number r <? 2 ^ 24)) then
      '(pg, pm, fs, m, _) ← process_create_user_process [] pg pm fs m r; Ret (mkSystem pg pm sc fs m)
    else Oob
  | Kill w => if careful && (w =? 0) then Oob else '(pg, pm, _) ← process_destroy pg pm w; Ret (mkSystem pg pm sc fs m)
  | Init => if active_process_count pm <=? 1 then Ret (mkSystem pg (mkPm (process_list pm) 1 (pid_counter pm)) sc fs m)
            else Oob
  | Timer frame => pm ← timer_interrupt 0 0 pm frame; Ret (mkSystem pg pm sc fs m)
  | Switch => sc ← scheduler_switch_to_next_process sc pm; Ret (mkSystem pg pm sc fs m)
  end.

Lemma run_command_step careful s c s' : run_command careful s c = Ret s' -> sys_step careful s s'.
Proof.
  destruct s as [pg pm sc fs m], c as [r|w| |frame|]; cbn [run_command]; intros E.
  - destruct (bool_decide _ && _) eqn:Hb; [| done]. apply andb_prop in Hb as [Hr%bool_decide_eq_true Hp].
    apply bind_ret_inv in E as ([[[[pg' pm'] fs'] m'] rc] & E & Es). injection Es as <-.
    econstructor; [exact Hr | intros ->; cbn in Hp; lia | exact E].
  - destruct (careful && (w =? 0)) eqn:Hw; [done |].
    apply bind_ret_inv in E as ([[pg' pm'] b] & E & Es). injection Es as <-.
    eapply step_destroy; [intros ->; cbn in Hw; by apply Z.eqb_neq | exact E].
  - destruct (Z.leb_spec (active_process_count pm) 1); [| done]. injection E as <-. by constructor.
  - apply bind_ret_inv in E as (pm' & E & Es). injection Es as <-. by econstructor.
  - apply bind_ret_inv in E as (sc' & E & Es). injection Es as <-. by econstructor.
Qed.

Fixpoint run_commands (careful : bool) (s : System D) (cs : list command) : outcome (System D) :=
  match cs with
  | [] => Ret s
  | c :: cs' => s' ← run_command careful s c; run_commands careful s' cs'
  end.

Lemma run_commands_reachable careful cs : forall s s', sys_reachable careful s -> run_commands careful s cs = Ret s' ->
  sys_reachable careful s'.
Proof.
  induction cs as [|c cs IH]; intros s s' Hs E; cbn [run_commands] in E; [by injection E as <- |].
  apply bind_ret_inv in E as (s1 & E1 & E). eapply IH; [| exact E].
  destruct Hs as (s0 & H0 & Hsteps). exists s0. split; [done |]. econstructor; [exact Hsteps |]. by eapply run_command_step.
Qed.
End Run.

(** ** The disk *)

Definition bin_entry (nm : list Z) (c : Z) : FAT32DirectoryEntry := mk_entry nm [] 0 c 100.
Definition bin_t : list FAT32DirectoryEntry :=
  mk_table [mk_entry (bytes_of "root") [] 16 2 0; bin_entry (bytes_of "ikuyo") 3; bin_entry (bytes_of "sh") 4].
Definition bin_shelf : shelf := fun c =>
  if c =? 2 then encode_table bin_t else replicate 2048 c.
Definition bin_fs : Fs shelf :=
  mkFs (mkDriver [CLUSTER_0_VALUE; CLUSTER_1_VALUE; 268435455; 268435455; 268435455] [] []) bin_shelf.

Definition exec_req (nm : list Z) : FAT32DriverRequest :=
  mkRequest 0 (nm ++ replicate (8 - length nm) 0) [0; 0; 0] 2 2048.
Definition ikuyo : command := Exec (exec_req (bytes_of "ikuyo")).
Definition sh : command := Exec (exec_req (bytes_of "sh")).
Definition missing : command := Exec (exec_req (bytes_of "nijika")).

Definition boot : System shelf :=
  mkSystem initial_paging_state initial_process_manager initial_scheduler_state bin_fs (fun _ => 0).
Definition after (cs : list command) : System shelf := match run_commands true boot cs with Ret s => s | _ => boot end.

Lemma boot_reachable c : sys_reachable c boot.
Proof. exists boot. split; [done | constructor]. Qed.

Lemma after_reachable cs : sys_reachable true (after cs).
Proof.
  unfold after. destruct (run_commands true boot cs) as [s| |] eqn:E; [| apply boot_reachable | apply boot_reachable].
  eapply run_commands_reachable; [apply boot_reachable | exact E].
Qed.

Definition frame0 : InterruptFrame := mkFrame (mkCpu 1 2 3 4 5 6 7 8 9 10 11 12) 0x20 (mkIntStack 0 0x1234 0x1b 0x202).

Example two_processes : pid <$> process_list (sys_procs (after [ikuyo; Init; sh])) = [1; 2] ++ replicate 14 0.
Proof. vm_compute. reflexivity. Qed.

(** ** A live process loses its page directory *)

(** "ikuyo" and "sh" started, "ikuyo" destroyed, a missing file tried, "sh"
    destroyed and started again: slot 1 keeps a stale pointer to the directory
    that the new process, in slot 0, uses. *)
Definition stale : System shelf := after [ikuyo; sh; Kill 1; missing; Kill 2; sh].

Lemma stale_facts : sys_reachable true stale /\
  process_list_get_pcb_by_pid (sys_procs stale) 0 = Some 1%nat /\
  pcb_dir <$> process_list (sys_procs stale) !! 1%nat = Some (Some 1%nat) /\
  (fun p => (pid p, state p, pcb_dir p)) <$> process_list (sys_procs stale) !! 0%nat =
    Some (3, PROCESS_STATE_READY, Some 1%nat).
Proof.
  split; [apply after_reachable |]. split; [vm_compute; reflexivity |]. split; vm_compute; reflexivity.
Qed.

(** There is a state reached with careful calls in which [process_destroy(0)], which finds the
    first free slot, succeeds by freeing the page directory of a live process:
    the process stays in the table with a directory that is marked unused and
    translates no address. *)
Theorem destroy_zero_frees_live_directory : exists s : System shelf, sys_reachable true s /\
  exists pg' pm' (i : nat) p d dir, process_destroy (sys_paging s) (sys_procs s) 0 = Ret (pg', pm', true) /\
    process_list pm' !! i = Some p /\ pid p <> 0 /\ state p = PROCESS_STATE_READY /\ pcb_dir p = Some d /\
    page_directory_used (directory_pool pg') !! d = Some false /\
    page_directory_list (directory_pool pg') !! d = Some dir /\ forall va, translate dir va = None.
Proof.
  destruct stale_facts as (Hr & H1 & H2 & H3). exists stale. split; [exact Hr |].
  generalize dependent stale. intros s Hr H1 H2 H3.
  pose proof (si_procs _ (sys_reachable_inv _ _ Hr)) as Hinv.
  destruct (process_list (sys_procs s) !! 1%nat) as [p|] eqn:Hp; [| done]. injection H2 as Hd.
  destruct (process_list (sys_procs s) !! 0%nat) as [q|] eqn:Hq; [| done]. injection H3 as Hpid Hst Hqd.
  pose proof (destroy_any _ _ 0 Hinv) as Hda. rewrite H1 in Hda.
  destruct Hda as (pg' & p' & Hp' & _ & E & _ & _ & Hda). assert (p' = p) as -> by congruence.
  specialize (Hda _ Hd). destruct (de_cleared _ _ _ _ _ _ _ Hda) as (dir & Hdir & Hnone).
  eexists pg', _, 0%nat, q, 1%nat, dir. split; [exact E |]. split_and!; try assumption.
  - cbn. by rewrite list_lookup_insert_ne.
  - by rewrite Hpid.
  - rewrite (de_used _ _ _ _ _ _ _ Hda). apply list_lookup_insert_eq.
    pose proof (inv_pool _ _ Hinv) as (_ & Hu & _). rewrite Hu. unfold PAGING_DIRECTORY_TABLE_MAX_COUNT. lia.
Qed.

(** ** Instances of the theorems *)

Definition two : System shelf := after [ikuyo; Init; sh].
Lemma two_facts : sys_reachable true two /\ active_process_count (sys_procs two) = 2 /\
  pid <$> process_list (sys_procs two) !! 1%nat = Some 2.
Proof. split; [apply after_reachable |]. split; vm_compute; reflexivity. Qed.

(** The same run, and then "kill 0": "sh" goes on without a directory of its own. *)
Definition careless : System shelf :=
  match run_commands false stale [Kill 0] with Ret s => s | _ => boot end.
Lemma careless_facts : sys_reachable false careless /\
  (fun p => (pid p, pcb_dir p)) <$> process_list (sys_procs careless) !! 0%nat = Some (3, Some 1%nat) /\
  page_directory_used (directory_pool (sys_paging careless)) !! 1%nat = Some false.
Proof.
  split; [| split; vm_compute; reflexivity]. unfold careless.
  destruct (run_commands false stale [Kill 0]) as [s| |] eqn:E; [| apply boot_reachable | apply boot_reachable].
  eapply run_commands_reachable; [| exact E]. eapply sys_reachable_any, after_reachable.
Qed.

Lemma reachable_process_table_witness :
  (exists p d, process_list (sys_procs two) !! 1%nat = Some p /\ state p = PROCESS_STATE_READY /\
     pcb_dir p = Some d /\ dir_in_use (sys_paging two) d) /\
  exists p, process_list (sys_procs careless) !! 0%nat = Some p /\ state p = PROCESS_STATE_READY.
Proof.
  split.
  - destruct two_facts as (Hr & _ & H2). generalize dependent two. intros s Hr H2.
    destruct (reachable_process_table true s Hr) as (Hlive & _ & _ & _ & _ & Hown).
    destruct (Hown eq_refl) as (Hused & _ & _).
    destruct (process_list (sys_procs s) !! 1%nat) as [p|] eqn:Hp; [| discriminate H2].
    injection H2 as Hpid. destruct (Hlive 1%nat p Hp) as (_ & Hst & d & Hd & _); [lia |].
    exists p, d. split; [reflexivity |]. split; [exact Hst |]. split; [exact Hd |].
    apply (Hused 1%nat p d Hp); [lia | exact Hd].
  - destruct careless_facts as (Hr & H0 & _). generalize dependent careless. intros s Hr H0.
    destruct (reachable_process_table false s Hr) as (Hlive & _).
    destruct (process_list (sys_procs s) !! 0%nat) as [p|] eqn:Hp; [| discriminate H0].
    injection H0 as Hpid _. destruct (Hlive 0%nat p Hp) as (_ & Hst & _); [lia |].
    exists p. split; [reflexivity | exact Hst].
Defined.

Lemma reachable_operations_return_witness :
  exists pm' sc', timer_interrupt 0 0 (sys_procs two) frame0 = Ret pm' /\
    scheduler_switch_to_next_process (sys_sched two) (sys_procs two) = Ret sc'.
Proof.
  destruct two_facts as (Hr & Hc & _). generalize dependent two. intros s Hr Hc.
  destruct (reachable_operations_return s (sys_reachable_any _ _ Hr)) as (_ & Hsched & _).
  destruct Hsched as [Ht (sc' & Hs)]; [lia |]. destruct (Ht 0 0 frame0) as (pm' & Hpm).
  exists pm', sc'. split; assumption.
Defined.

Definition full : System shelf := after (ikuyo :: replicate 15 sh).
Lemma full_facts : sys_reachable false full /\ active_process_count (sys_procs full) = 16.
Proof. split; [eapply sys_reachable_any, after_reachable |]. vm_compute. reflexivity. Qed.

Lemma destroyed_processes_still_count_witness :
  process_create_user_process [] (sys_paging full) (sys_procs full) (sys_fs full) (fun _ => 0)
    (exec_req (bytes_of "sh")) =
  Ret (sys_paging full, sys_procs full, sys_fs full, (fun _ => 0), PROCESS_CREATE_FAIL_MAX_PROCESS_EXCEEDED).
Proof.
  destruct full_facts as [Hr Hc]. generalize dependent full. intros s Hr Hc.
  apply (destroyed_processes_still_count s s [] (fun _ => 0) _ Hr Hc). constructor.
Defined.

Lemma round_robin_is_fair_witness : exists k p, (1 <= k <= 2)%nat /\
  switches k (sys_sched two) (sys_procs two) = Ret (mkSched 1 (pcb_dir p) (Some (context p))).
Proof.
  destruct two_facts as (Hr & Hc & _). generalize dependent two. intros s Hr Hc.
  destruct (round_robin_is_fair s 1 (sys_reachable_any _ _ Hr)) as (k & p & Hk & _ & E & _); [lia |].
  rewrite Hc in Hk. exists k, p. split; assumption.
Defined.

Lemma timer_saves_into_last_slot_witness : exists pm', timer_interrupt 7 8 (sys_procs two) frame0 = Ret pm'.
Proof.
  destruct two_facts as (Hr & Hc & _). generalize dependent two. intros s Hr Hc.
  destruct (timer_saves_into_last_slot s 7 8 frame0 (sys_reachable_any _ _ Hr)) as (pm' & E & _); [lia |]. exists pm'. exact E.
Defined.

Lemma ps_prints_live_processes_witness : exists o,
  ps (replicate 10 99) (sys_procs two) (fun _ => 0) = Ret o /\
  out_text o = bytes_of "ikuyo (PID: 1) - READY" ++ [10] ++ bytes_of "sh (PID: 2) - READY" ++ [10].
Proof.
  assert (flat_map ps_line (process_list (sys_procs two)) =
    bytes_of "ikuyo (PID: 1) - READY" ++ [10] ++ bytes_of "sh (PID: 2) - READY" ++ [10]) as Ht
    by (vm_compute; reflexivity).
  destruct two_facts as (Hr & _ & _). generalize dependent two. intros s Ht Hr.
  destruct (ps_prints_live_processes s (replicate 10 99) (fun _ => 0) Hr eq_refl) as (o & E & Ho).
  rewrite Ht in Ho. exists o. split; assumption.
Defined.

(** "ikuyo" destroyed, "sh" started in its slot: the name shown is "shuyo". *)
Definition one : System shelf := after [ikuyo].
Definition sh_req : FAT32DriverRequest := exec_req (bytes_of "sh").

Lemma one_facts : sys_reachable true one /\
  process_list_get_pcb_by_pid (sys_procs one) 1 = Some 0%nat /\
  name_string <$> process_list (sys_procs one) !! 0%nat = Some (bytes_of "ikuyo") /\
  match process_destroy (sys_paging one) (sys_procs one) 1 with
  | Ret (pg1, pm1, true) =>
    process_list_get_inactive_index pm1 = 0 /\
    match process_create_user_process [] pg1 pm1 (sys_fs one) (fun _ => 0) sh_req with
    | Ret (_, _, _, _, rc) => rc = 0
    | _ => False
    end
  | _ => False
  end.
Proof.
  split; [apply after_reachable |]. split; [vm_compute; reflexivity |]. split; [vm_compute; reflexivity |].
  vm_compute. split; reflexivity.
Qed.

Lemma sh_req_ok : req_ok sh_req.
Proof. by_compute. Qed.

Lemma reused_slot_shows_old_name_tail_witness : exists pg1 pm1 pg2 pm2 fs2 m2,
  process_destroy (sys_paging one) (sys_procs one) 1 = Ret (pg1, pm1, true) /\
  process_create_user_process [] pg1 pm1 (sys_fs one) (fun _ => 0) sh_req = Ret (pg2, pm2, fs2, m2, 0) /\
  forall p, process_list pm2 !! 0%nat = Some p -> name_string p = bytes_of "shuyo".
Proof.
  destruct one_facts as (Hr & Hi & Hn & H). generalize dependent one. intros s Hr Hi Hn H.
  destruct (process_list (sys_procs s) !! 0%nat) as [p0|] eqn:Hp0; [| discriminate Hn]. injection Hn as Hn.
  destruct (process_destroy (sys_paging s) (sys_procs s) 1) as [[[pg1 pm1] [|]]| |] eqn:Ed; try contradiction.
  destruct H as [Hin H].
  destruct (process_create_user_process [] pg1 pm1 (sys_fs s) (fun _ => 0) sh_req)
    as [[[[[pg2 pm2] fs2] m2] rc]| |] eqn:Ec; try contradiction. subst rc.
  exists pg1, pm1, pg2, pm2, fs2, m2. split; [reflexivity |]. split; [exact Ec |]. intros p Hp.
  rewrite (reused_slot_shows_old_name_tail s [] (fun _ => 0) sh_req 1 pg1 pm1 pg2 pm2 fs2 m2 0 p0 p (bytes_of "sh") Hr
    ltac:(lia) sh_req_ok Hi Hp0 Ed Hin Ec Hp ltac:(reflexivity) ltac:(rewrite Hn; cbn; lia)), Hn.
  reflexivity.
Defined.

Lemma boot_creates : match process_create_user_process [] (sys_paging boot) (sys_procs boot) (sys_fs boot) (fun _ => 0) sh_req with
  | Ret (_, _, _, _, rc) => rc = 0
  | _ => False
  end.
Proof. vm_compute. reflexivity. Qed.

Lemma exec_opens_kernel_half_witness : exists pg pm fs m p d dir e,
  process_create_user_process [] (sys_paging boot) (sys_procs boot) (sys_fs boot) (fun _ => 0) sh_req =
    Ret (pg, pm, fs, m, 0) /\ p ∈ process_list pm /\ pcb_dir p = Some d /\
  page_directory_list (directory_pool pg) !! d = Some dir /\
  aget dir (page_index KERNEL_VIRTUAL_ADDRESS_BASE) = Ret e /\ user_bit (flag e) = true.
Proof.
  pose proof boot_creates as H. pose proof (boot_reachable false) as Hr. generalize dependent boot. intros s H Hr.
  destruct (process_create_user_process [] (sys_paging s) (sys_procs s) (sys_fs s) (fun _ => 0) sh_req)
    as [[[[[pg pm] fs] m] rc]| |] eqn:E; try contradiction. subst rc.
  destruct (exec_opens_kernel_half s [] (fun _ => 0) sh_req pg pm fs m Hr sh_req_ok
    ltac:(cbn; unfold PAGE_FRAME_SIZE; lia) E) as (p & d & dir & e0 & e & Hd & Hin & _ & Hdir & He & Hu & _).
  exists pg, pm, fs, m, p, d, dir, e. split; [reflexivity |]. split; [exact Hin |]. split; [exact Hd |].
  split; [exact Hdir |]. split; [exact He | exact Hu].
Defined.

(** *** On the image device *)

Definition boot_image (fs : Fs Image) : System Image :=
  mkSystem initial_paging_state initial_process_manager initial_scheduler_state fs zero_mem.
Lemma boot_image_reachable fs : sys_reachable false (boot_image fs).
Proof. exists (boot_image fs). split; [done | constructor]. Qed.

Lemma file_req_admissible : admissible initial_paging_state initial_process_manager file_req.
Proof.
  unfold admissible. split_and!; try (cbn; unfold KERNEL_VIRTUAL_ADDRESS_BASE, PAGE_FRAME_SIZE; lia).
  vm_compute. discriminate.
Qed.

Lemma first_directory_unused : first_index negb (page_directory_used (directory_pool initial_paging_state)) = Some 0%nat.
Proof. reflexivity. Qed.

Definition file_data : list Z := load_bytes zero_mem (buf file_req) (Z.to_nat (buffer_size file_req)).

Lemma exec_loads_executable_witness : exists (fs : Fs Image) pg pm fs' m' (i : nat) p,
  process_create_user_process [] initial_paging_state initial_process_manager fs zero_mem file_req =
    Ret (pg, pm, fs', m', PROCESS_CREATE_SUCCESS) /\
  load_bytes m' (buf file_req) (length file_data) = file_data /\
  process_list pm !! i = Some p /\ pid p = 1 /\ eip (context p) = 0.
Proof.
  destruct formatted as (fs & Hc & Hf & ls & Hrep).
  destruct (write_file_represents fs zero_mem file_req root_own ls ∅ Hrep file_req_ok zero_mem_ok ltac:(discriminate))
    as (fs' & _ & _ & _ & Hrep' & _).
  - apply (has_room_of_size fs 2 root_own ls ∅ Hrep). rewrite map_size_empty. lia.
  - apply lookup_empty.
  - discriminate.
  - cbn. lia.
  - rewrite Hf, fresh_available. vm_compute. discriminate.
  - destruct (exec_loads_executable (boot_image fs') [] zero_mem file_req root_own
      (<[req_key file_req := File file_data]> ∅) file_data 0 (boot_image_reachable fs'))
      as (pg' & pm' & fs2 & m2 & i & p & dir & E & Hl & _ & _ & Hp & Hpid & _ & He & _).
    + exact file_req_admissible.
    + exact file_req_ok.
    + cbn. lia.
    + eexists. exact Hrep'.
    + discriminate.
    + apply lookup_insert_eq.
    + unfold file_data. rewrite length_load_bytes. cbn. lia.
    + cbn. lia.
    + exact first_directory_unused.
    + exists fs', pg', pm', fs2, m2, i, p. split; [exact E |]. split; [exact Hl |]. split; [exact Hp |].
      split; [exact Hpid | exact He].
Defined.

Lemma failed_execs_exhaust_directories_witness : exists (fs : Fs Image) pg,
  repeat_create [] 33 initial_paging_state initial_process_manager fs zero_mem file_req =
    Ret (pg, initial_process_manager, replicate 32 4 ++ [3]).
Proof.
  destruct formatted as (fs & Hc & Hf & Hrep).
  destruct (failed_execs_exhaust_directories (boot_image fs) [] zero_mem file_req root_own ∅ 1 (boot_image_reachable fs))
    as (pg & E & _).
  - exact file_req_admissible.
  - exact file_req_ok.
  - cbn. lia.
  - exact Hrep.
  - discriminate.
  - apply lookup_empty.
  - discriminate.
  - exists fs, pg. exact E.
Defined.
