(* ===== verification/Kernel.v ===== *)
(** * The kernel (src/kernel.c, the dispatchers of src/interrupt.c)

    All components together: the state of the whole kernel, system calls, the
    interrupt dispatcher and the boot sequence.  Pointers of the caller are
    addresses of the flat memory, which is the address space as the kernel sees
    it while it runs: every page directory maps the first 4 MiB and the kernel's
    half alike. *)
From Stdlib Require Import String.
From S2P Require Import Prelude CString BlockDevice Fat32Types Fat32 DirList Paging PortIO Framebuffer Keyboard Clock Descriptors Process Scheduler.
#[local] Open Scope Z_scope.

(** What uninitialised memory and unnamed addresses hold, and the fuel of the
    loops that wait for hardware or follow the directory tree. *)
Record Environment := mkEnv {
  after_root_literal : list Z;
  above_request : list Z;
  stale_content : nat -> Z;
  name_buffer : list Z;
  pid_buffer : list Z;
  stale_century : Z;
  stale_ss : Z;
  stale_cs : Z;
  stack_frame : Z;
  tss_address : Z;
  isr_stub_table : list Z;
  polls : nat;
  rounds : nat;
  nesting : nat;
  longest_string : nat;
}.

Definition century_register : Z := 0.

(** ** The state *)

Record Kernel (B D : Type) := mkKernel {
  k_gdt : list SegmentDescriptor;
  k_tss : TSSEntry;
  k_idt : list IDTGate;
  k_console : Console B;
  k_fs : Fs D;
  k_paging : PagingState;
  k_procs : ProcessManager;
  k_sched : SchedulerState;
  k_rtc : Rtc;
}.
Arguments mkKernel {B D}.
Arguments k_gdt {B D}.
Arguments k_tss {B D}.
Arguments k_idt {B D}.
Arguments k_console {B D}.
Arguments k_fs {B D}.
Arguments k_paging {B D}.
Arguments k_procs {B D}.
Arguments k_sched {B D}.
Arguments k_rtc {B D}.

Section Kernel.
Context {B D : Type} `{PortBus B} `{BlockDevice D}.

Definition k_memory (K : Kernel B D) : mem := video (k_console K).
Definition set_console (K : Kernel B D) (c : Console B) : Kernel B D :=
  mkKernel (k_gdt K) (k_tss K) (k_idt K) c (k_fs K) (k_paging K) (k_procs K) (k_sched K) (k_rtc K).
Definition set_memory (K : Kernel B D) (m : mem) : Kernel B D :=
  set_console K (mkConsole (kb (k_console K)) (fb (k_console K)) m (ports (k_console K))).
Definition set_fs (K : Kernel B D) (fs : Fs D) : Kernel B D :=
  mkKernel (k_gdt K) (k_tss K) (k_idt K) (k_console K) fs (k_paging K) (k_procs K) (k_sched K) (k_rtc K).
Definition set_procs (K : Kernel B D) (pg : PagingState) (pm : ProcessManager) : Kernel B D :=
  mkKernel (k_gdt K) (k_tss K) (k_idt K) (k_console K) (k_fs K) pg pm (k_sched K) (k_rtc K).
Definition set_rtc (K : Kernel B D) (t : Rtc) : Kernel B D :=
  mkKernel (k_gdt K) (k_tss K) (k_idt K) (k_console K) (k_fs K) (k_paging K) (k_procs K) (k_sched K) t.

(** ** Arguments in the caller's memory *)

(** A packed struct FAT32DriverRequest. *)
Definition load_request (m : mem) (p : Z) : FAT32DriverRequest :=
  mkRequest (le_decode (load_bytes m p 4)) (load_bytes m (p + 4) 8) (load_bytes m (p + 12) 3)
    (le_decode (load_bytes m (p + 15) 4)) (le_decode (load_bytes m (p + 19) 4)).

(** The characters up to the terminator. *)
Definition load_string (m : mem) (p : Z) (fuel : nat) : outcome (list Z) :=
  c_string (load_bytes m p fuel).

(** [*(int8_t * )p = rc] and [*(uint32_t * )p = v] *)
Definition store_int8 (K : Kernel B D) (p rc : Z) : Kernel B D := set_memory K (store (k_memory K) p (u8 rc)).
Definition store_uint32 (K : Kernel B D) (p v : Z) : Kernel B D :=
  set_memory K (store_bytes (k_memory K) p (le_encode 4 (u32 v))).

(** A text written through a pointer: cells it did not touch keep their value. *)
Definition store_out (K : Kernel B D) (p : Z) (o : Out) : Kernel B D :=
  set_memory K (fun x => out_buf o (Z.to_nat (u32 (x - p)))).

(** ** The clock in the corner of the screen *)

Definition show_clock (m : mem) (t : Rtc) : mem :=
  let clock_row := 24 in
  let clock_col := 80 - 8 in
  let m := for_up 0 8 (fun i m => framebuffer_write m (clock_row - 1) (clock_col + Z.of_nat i) 32 0x07 0x00) m in
  let m := framebuffer_write m clock_row clock_col (hour t / 10 + 48) 0xA 0 in
  let m := framebuffer_write m clock_row (clock_col + 1) (hour t mod 10 + 48) 0xA 0 in
  let m := framebuffer_write m clock_row (clock_col + 2) 58 0xA 0 in
  let m := framebuffer_write m clock_row (clock_col + 3) (minute t / 10 + 48) 0xA 0 in
  let m := framebuffer_write m clock_row (clock_col + 4) (minute t mod 10 + 48) 0xA 0 in
  let m := framebuffer_write m clock_row (clock_col + 5) 58 0xA 0 in
  let m := framebuffer_write m clock_row (clock_col + 6) (second t / 10 + 48) 0xA 0 in
  framebuffer_write m clock_row (clock_col + 7) (second t mod 10 + 48) 0xA 0.

(** ** System calls *)

Definition syscall (env : Environment) (K : Kernel B D) (frame : InterruptFrame) : outcome (Kernel B D) :=
  let b := ebx (frame_cpu frame) in
  let c := ecx (frame_cpu frame) in
  let d := edx (frame_cpu frame) in
  let m := k_memory K in
  let con := k_console K in
  match eax (frame_cpu frame) with
  | 0 => '(fs, m, rc) ← read_mem (k_fs K) m (load_request m b); Ret (store_int8 (set_memory (set_fs K fs) m) c rc)
  | 1 => '(fs, rc) ← read_directory (k_fs K) (load_request m b); Ret (store_int8 (set_fs K fs) c rc)
  | 2 => '(fs, rc) ← write (k_fs K) m (load_request m b); Ret (store_int8 (set_fs K fs) c rc)
  | 3 => '(fs, rc) ← delete (k_fs K) (load_request m b); Ret (store_int8 (set_fs K fs) c rc)
  | 4 =>
    let '(k, m) := get_keyboard_buffer (kb con) m b c in
    Ret (set_console K (mkConsole k (fb con) m (ports con)))
  | 5 => '(f, m) ← putchar (fb con) m (u8 b) c; Ret (set_console K (mkConsole (kb con) f m (ports con)))
  | 6 => '(p, f, m) ← puts (ports con) (fb con) m b c d; Ret (set_console K (mkConsole (kb con) f m p))
  | 7 => Ret (set_console K (keyboard_state_activate con))
  | 8 => rc ← move_to_child_directory (k_fs K) (load_request m b); Ret (store_uint32 K c rc)
  | 9 => rc ← move_to_parent_directory (k_fs K) (load_request m b); Ret (store_uint32 K c rc)
  | 10 => o ← list_dir_content (at_ptr m b) (disk (k_fs K)) c; Ret (store_out K b o)
  | 11 => o ← print (at_ptr m b) (disk (k_fs K)) c (nesting env); Ret (store_out K b o)
  | 12 =>
    pattern_input ← load_string m d (longest_string env);
    '(fs, o) ← search_dls_bm (at_ptr m b) (k_fs K) (stale_content env) c pattern_input;
    Ret (store_out (set_fs K fs) b o)
  | 19 =>
    pattern_input ← load_string m d (longest_string env);
    '(fs, o) ← search_dls_kmp (at_ptr m b) (k_fs K) (stale_content env) c pattern_input;
    Ret (store_out (set_fs K fs) b o)
  | 13 => Ret (set_console K (mkConsole (kb con) (set_cursor (fb con) 0 0) (framebuffer_clear m) (ports con)))
  | 14 => '(pg, pm, _) ← process_destroy (k_paging K) (k_procs K) b; Ret (set_procs K pg pm)
  | 15 =>
    '(pg, pm, fs, m, _) ← process_create_user_process (above_request env) (k_paging K) (k_procs K) (k_fs K) m (load_request m b);
    Ret (set_memory (set_fs (set_procs K pg pm) fs) m)
  | 16 => o ← ps (pid_buffer env) (k_procs K) (at_ptr m b); Ret (store_out K b o)
  | 17 =>
    '(p, t) ← read_rtc (ports con) century_register (stale_century env) (polls env) (rounds env);
    let K := set_rtc (set_console K (mkConsole (kb con) (fb con) m p)) t in
    let K := store_int8 (store_int8 (store_int8 K b (hour t)) c (minute t)) d (second t) in
    Ret (set_memory K (show_clock (k_memory K) t))
  | 18 =>
    target ← load_string m d (longest_string env);
    o ← print_path_to_dir (at_ptr m b) (disk (k_fs K)) c (name_buffer env) (target ++ [0]) (nesting env);
    Ret (store_out K b o)
  | _ => Ret K
  end.

(** The switch that follows the timer's context saving is commented out. *)
Definition main_interrupt_handler (env : Environment) (K : Kernel B D) (frame : InterruptFrame) : outcome (Kernel B D) :=
  if int_number frame =? PIC1_OFFSET + IRQ_KEYBOARD then
    c ← keyboard_isr (k_console K); Ret (set_console K c)
  else if int_number frame =? PIC1_OFFSET + IRQ_TIMER then
    let c := k_console K in
    let K := set_console K (mkConsole (kb c) (fb c) (video c) (pic_ack (ports c) 0)) in
    pm ← timer_interrupt (stale_ss env) (stale_cs env) (k_procs K) frame;
    Ret (set_procs K (k_paging K) pm)
  else if int_number frame =? 0x30 then syscall env K frame
  else Ret K.

(** ** Boot *)

Definition shell_request : FAT32DriverRequest :=
  mkRequest 0 (bytes_of "shell" ++ [0; 0; 0]) [0; 0; 0] ROOT_CLUSTER_NUMBER 0x100000.

(** [load_gdt] and [set_tss_register] load processor registers; the last step is
    the context switched to. *)
Definition kernel_setup (env : Environment) (K : Kernel B D) : outcome (Kernel B D) :=
  let b := activate_keyboard_interrupt (pic_remap (ports (k_console K))) in
  idt ← initialize_idt (isr_stub_table env) (k_idt K);
  let m := framebuffer_clear (k_memory K) in
  let c := keyboard_state_activate (mkConsole (kb (k_console K)) (fb (k_console K)) m (framebuffer_set_cursor b 0 0)) in
  fs ← initialize_filesystem_fat32 (after_root_literal env) (k_fs K);
  gdt ← gdt_install_tss (tss_address env) (k_gdt K);
  let pg := k_paging K in
  '(pages, dir, _) ← paging_allocate_user_page_frame (page_manager pg) (kernel_directory pg) 0;
  let pg := mkPaging dir pages (directory_pool pg) in
  '(fs, m, _) ← read_mem fs (video c) shell_request;
  let tss := set_tss_kernel_current_stack (stack_frame env) (k_tss K) in
  '(b, rtc) ← read_rtc (ports c) century_register (stale_century env) (polls env) (rounds env);
  '(pg, pm, fs, m, _) ← process_create_user_process (above_request env) pg (k_procs K) fs m shell_request;
  let '(b, pm) := scheduler_init b pm in
  sched ← scheduler_switch_to_next_process (k_sched K) pm;
  Ret (mkKernel gdt tss idt (mkConsole (kb c) (fb c) m b) fs pg pm sched rtc).

(** The static state at power-on. *)
Definition power_on (m : mem) (b : B) (d : D) (t : Rtc) : Kernel B D :=
  mkKernel global_descriptor_table interrupt_tss_entry interrupt_descriptor_table
    (mkConsole initial_keyboard_state initial_framebuffer_state m b) (mkFs initial_driver_state d)
    initial_paging_state initial_process_manager initial_scheduler_state t.
End Kernel.
