(* ===== verification/KernelProps.v ===== *)
(** * The kernel as a whole

    Booting to the shell, and what interrupts and system calls preserve. *)
From stdpp Require Import gmap.
From S2P Require Import Prelude CString Memory BlockDevice Fat32Types Fat32 Fat32Chain Fat32Facts Fat32Ops Fat32Access Fat32Abs Fat32Refine Fat32Props DirList DirTree IntStr Paging PortIO Framebuffer Keyboard Clock ClockProps Descriptors Process ProcessInv Scheduler ProcessProps ExecProps Kernel.
#[local] Open Scope Z_scope.

(** The parts of the kernel that the process theorems are about. *)
Definition system_of {B D} (K : Kernel B D) : System D :=
  mkSystem (k_paging K) (k_procs K) (k_sched K) (k_fs K) (video (k_console K)).

(** The page the boot sequence maps. *)
Lemma boot_page : exists pages dir,
  paging_allocate_user_page_frame initial_page_manager_state paging_kernel_page_directory 0 = Ret (pages, dir, true) /\
  directory_ok dir /\ free_page_frame_count pages = 31.
Proof. eexists _, _. split; [by vm_compute |]. by split. Qed.

Section Boot.
Context {B D : Type} `{BlockDeviceSpec D} {contents : nat -> Z -> Z} `{RtcDevice B contents}.

Lemma shell_request_ok : req_ok shell_request.
Proof. unfold req_ok. split_and!; try done; by_compute. Qed.

Lemma represents_read (fs : Fs D) r own M data m : represents fs (parent_cluster_number r) own M -> req_ok r ->
  req_key r <> zero_key -> M !! req_key r = Some (File data) -> Z.of_nat (length data) <= buffer_size r ->
  0 <= buf r -> buf r + 2048 * 512 <= 2 ^ 32 ->
  exists fs' m', read_mem fs m r = Ret (fs', m', 0) /\ load_bytes m' (buf r) (length data) = data /\
    represents fs' (parent_cluster_number r) own M.
Proof.
  intros Hrep Hr Hz HM Hsz H0b Hb. pose proof Hrep as [ls Hrepw].
  destruct (read_file_represents fs r own ls M Hrepw Hr Hz m data HM Hsz H0b Hb) as (m' & E & _ & Hld).
  eexists _, m'. split_and!; [exact E | exact Hld | by eapply represents_same; [| | exact Hrep]].
Qed.

Lemma shell_reads (fs : Fs D) own M data m : represents fs ROOT_CLUSTER_NUMBER own M -> M !! req_key shell_request = Some (File data) ->
  Z.of_nat (length data) <= buffer_size shell_request ->
  exists fs' m', read_mem fs m shell_request = Ret (fs', m', 0) /\ load_bytes m' 0 (length data) = data /\
    represents fs' ROOT_CLUSTER_NUMBER own M.
Proof. intros Hr HM Hsz. by apply (represents_read fs shell_request own M data m Hr shell_request_ok ltac:(done) HM Hsz). Qed.

(** The shell's process: a ready one in slot 0 that the first switch enters. *)
Definition shell_process (env : Environment) (pg : PagingState) (pm : ProcessManager) (fs : Fs D) (m : mem) (p : ProcessControlBlock) : Prop :=
  process_list pm !! 0%nat = Some p /\ pid p = 1 /\ state p = PROCESS_STATE_READY /\ is_Some (pcb_dir p) /\
  eip (context p) = 0 /\ Z.testbit (eflags (context p)) 9 = true /\ active_process_count pm = 1 /\
  scheduler_switch_to_next_process initial_scheduler_state pm = Ret (mkSched 0 (pcb_dir p) (Some (context p))) /\
  sys_reachable true (mkSystem pg pm (mkSched 0 (pcb_dir p) (Some (context p))) fs m).

Lemma boot_process env pages dir (fs2 : Fs D) own M data m2 :
  paging_allocate_user_page_frame initial_page_manager_state paging_kernel_page_directory 0 = Ret (pages, dir, true) ->
  directory_ok dir -> free_page_frame_count pages = 31 ->
  represents fs2 ROOT_CLUSTER_NUMBER own M -> M !! req_key shell_request = Some (File data) ->
  Z.of_nat (length data) <= buffer_size shell_request ->
  exists pg pm fs3 m3 p, process_create_user_process (above_request env) (mkPaging dir pages initial_pool) initial_process_manager fs2 m2
      shell_request = Ret (pg, pm, fs3, m3, 0) /\
    load_bytes m3 0 (length data) = data /\ represents fs3 ROOT_CLUSTER_NUMBER own M /\
    shell_process env pg (mkPm (process_list pm) 1 (pid_counter pm)) fs3 m3 p.
Proof.
  intros Epage Hdir Hfree Hrep2 HM Hsz. set (pg := mkPaging dir pages initial_pool).
  assert (proc_inv pg initial_process_manager) as Hinv by (by apply (kernel_page_inv initial_paging_state); [exact proc_inv_initial |]).
  destruct (shell_reads fs2 own M data m2 Hrep2 HM Hsz) as (fs3 & m3 & Erd3 & Hld3 & Hrep3).
  destruct (create_spec (above_request env) pg initial_process_manager fs2 fs3 m2 m3 shell_request 0 Hinv shell_request_ok)
    as (pg' & pm' & fs4 & m4 & Ecr & Hcr); [by intros _; apply request_named; [apply shell_request_ok |] | exact Erd3 |].
  assert (create_code pg initial_process_manager shell_request 0 = 0) as Hcode.
  { rewrite admissible_code; [done |]. unfold admissible, pg. cbn [page_manager]. rewrite Hfree.
    split_and!; try done; vm_compute; done. }
  rewrite Hcode in Ecr, Hcr. cbn in Hcr. destruct Hcr as (-> & -> & i & d & Hcreated).
  assert (i = 0%nat) as -> by (pose proof (cr_slot _ _ _ _ _ _ _ _ Hcreated) as Hi; by injection Hi as <-).
  destruct (cr_pcb _ _ _ _ _ _ _ _ Hcreated) as (old & nm & used & Hold & _ & _ & _ & El).
  match type of El with _ = <[_ := ?q]> _ => set (p := q) in El end.
  assert (process_list pm' !! 0%nat = Some p) as Hp by (rewrite El; apply list_lookup_insert_eq; by apply lookup_lt_Some in Hold).
  set (pm1 := mkPm (process_list pm') 1 (pid_counter pm')).
  assert (sys_reachable true (mkSystem pg' pm1 initial_scheduler_state fs3 m3)) as Hreach.
  { exists (mkSystem initial_paging_state initial_process_manager initial_scheduler_state fs2 m2). split; [done |].
    eapply steps_snoc; [eapply steps_snoc; [eapply steps_snoc; [apply steps_refl |] |] |].
    - by apply step_kernel_page with (pages := pages) (dir := dir) (va := 0) (b := true).
    - by eapply (step_create _ (above_request env)); [exact shell_request_ok | | exact Ecr].
    - apply step_init. rewrite (cr_active _ _ _ _ _ _ _ _ Hcreated). cbn. lia. }
  pose proof (sys_reachable_inv _ _ Hreach) as [Hinv1 _ _]. cbn [sys_paging sys_procs] in Hinv1.
  destruct (switch_spec pg' pm1 initial_scheduler_state Hinv1) as (p' & Hp' & Esw); [done | done |].
  change (Z.to_nat _) with 0%nat in Hp'. change (process_list pm1) with (process_list pm') in Hp'.
  assert (p' = p) as -> by congruence. exists pg', pm', fs3, m3, p. unfold shell_process. split_and!; try done.
  destruct Hreach as (s0 & Hs0 & Hsteps). exists s0. split; [done |]. eapply steps_snoc; [exact Hsteps |]. by apply step_switch.
Qed.

(** The set-up, up to the shell's process. *)
Definition started (env : Environment) (K : Kernel B D) (p : ProcessControlBlock) : Prop :=
  (exists pg pm fs m, k_paging K = pg /\ k_procs K = pm /\ k_fs K = fs /\ k_memory K = m /\ shell_process env pg pm fs m p) /\
  k_sched K = mkSched 0 (pcb_dir p) (Some (context p)) /\ keyboard_input_on (kb (k_console K)) = true /\
  initialize_idt (isr_stub_table env) interrupt_descriptor_table = Ret (k_idt K) /\
  gdt_install_tss (tss_address env) global_descriptor_table = Ret (k_gdt K).

Lemma kernel_setup_spec env m (b : B) t (fs0 : Fs D) own M data T :
  represents fs0 ROOT_CLUSTER_NUMBER own M -> M !! req_key shell_request = Some (File data) ->
  Z.of_nat (length data) <= buffer_size shell_request ->
  length (isr_stub_table env) = ISR_STUB_TABLE_LIMIT -> Forall (fun h => 0 <= h < 2 ^ 32) (isr_stub_table env) ->
  clock_settles contents T -> (T <= polls env)%nat -> (3 <= rounds env)%nat ->
  exists (K : Kernel B D) p, kernel_setup env (power_on m b (disk fs0) t) = Ret K /\ started env K p /\
    load_bytes (k_memory K) 0 (length data) = data /\ represents (k_fs K) ROOT_CLUSTER_NUMBER own M.
Proof.
  intros Hrep HM Hsz Hstubs Hrange Hclock Hpolls Hrounds.
  destruct (initialize_idt_spec (isr_stub_table env) Hstubs Hrange) as (idt & Eidt & _).
  set (fs1 := set_fat (mkFs initial_driver_state (disk fs0)) (fat_of fs0)).
  pose proof (mount_same fs0 ROOT_CLUSTER_NUMBER own M (after_root_literal env) initial_driver_state Hrep) as Emount.
  assert (represents fs1 ROOT_CLUSTER_NUMBER own M) as Hrep1 by by apply represents_same with fs0.
  destruct boot_page as (pages & dir & Epage & Hdir & Hfree).
  destruct (shell_reads fs1 own M data (framebuffer_clear m) Hrep1 HM Hsz) as (fs2 & m2 & Erd & _ & Hrep2).
  destruct (boot_process env pages dir fs2 own M data m2) as (pg' & pm' & fs3 & m3 & p & Ecr & Hld3 & Hrep3 & Hp); [done .. |].
  pose proof Hp as (_ & _ & _ & _ & _ & _ & _ & Esw & _).
  unfold kernel_setup. cbn [power_on k_idt k_console k_fs k_gdt k_paging k_procs k_sched k_tss].
  rewrite Eidt, bind_ret_l. cbv zeta. rewrite Emount, bind_ret_l.
  destruct (gdt_install_tss (tss_address env) global_descriptor_table) as [gdt| |] eqn:Egdt; [| done | done].
  rewrite bind_ret_l. change (page_manager initial_paging_state) with initial_page_manager_state.
  change (kernel_directory initial_paging_state) with paging_kernel_page_directory.
  change (directory_pool initial_paging_state) with initial_pool.
  rewrite Epage, bind_ret_l. cbn [video keyboard_state_activate k_memory k_console power_on].
  change (k_memory (power_on m b (disk fs0) t)) with m. fold fs1. rewrite Erd, bind_ret_l.
  unfold century_register.
  match goal with |- context [read_rtc ?b0] =>
    destruct (read_rtc_answers b0 T (stale_century env) (polls env) (rounds env) Hclock Hpolls Hrounds) as (b1 & rtc & Ertc) end.
  rewrite Ertc, bind_ret_l, Ecr, bind_ret_l. unfold scheduler_init. rewrite Esw, bind_ret_l.
  eexists _, p. split; [reflexivity |]. split; [| by split]. split; [| by split_and!].
  eexists _, _, _, _. do 4 (split; [reflexivity |]). exact Hp.
Qed.

(** C2: Booting a machine whose disk holds a file system with a file "shell" in
    its root directory ends with the shell running: the set-up returns, the
    shell's bytes are at address 0, it is process 1 in slot 0, READY and the only
    active one, the processor runs in its page directory from its context (entry
    point 0, interrupts enabled), the file system is mounted unchanged, the
    keyboard is on, the descriptor tables are filled, and the state is a reachable
    one of the process system. *)
Theorem kernel_setup_starts_shell env m (b : B) t (fs0 : Fs D) own M data T :
  represents fs0 ROOT_CLUSTER_NUMBER own M -> M !! req_key shell_request = Some (File data) ->
  Z.of_nat (length data) <= buffer_size shell_request ->
  length (isr_stub_table env) = ISR_STUB_TABLE_LIMIT -> Forall (fun h => 0 <= h < 2 ^ 32) (isr_stub_table env) ->
  clock_settles contents T -> (T <= polls env)%nat -> (3 <= rounds env)%nat ->
  exists (K : Kernel B D) p, kernel_setup env (power_on m b (disk fs0) t) = Ret K /\
    load_bytes (k_memory K) 0 (length data) = data /\
    process_list (k_procs K) !! 0%nat = Some p /\ pid p = 1 /\ state p = PROCESS_STATE_READY /\
    active_process_count (k_procs K) = 1 /\
    k_sched K = mkSched 0 (pcb_dir p) (Some (context p)) /\ is_Some (pcb_dir p) /\
    eip (context p) = 0 /\ Z.testbit (eflags (context p)) 9 = true /\
    represents (k_fs K) ROOT_CLUSTER_NUMBER own M /\ keyboard_input_on (kb (k_console K)) = true /\
    initialize_idt (isr_stub_table env) interrupt_descriptor_table = Ret (k_idt K) /\
    gdt_install_tss (tss_address env) global_descriptor_table = Ret (k_gdt K) /\
    sys_reachable true (system_of K).
Proof.
  intros Hrep HM Hsz Hstubs Hrange Hclock Hpolls Hrounds.
  destruct (kernel_setup_spec env m b t fs0 own M data T) as (K & p & E & (Hproc & ? & ? & ? & ?) & Hld & Hr); [done .. |].
  destruct Hproc as (? & ? & ? & ? & <- & <- & <- & <- & ? & ? & ? & ? & ? & ? & ? & _ & Hreach).
  assert (k_sched K = mkSched 0 (pcb_dir p) (Some (context p))) as Es by done.
  exists K, p. split_and!; try done. unfold system_of. rewrite Es. exact Hreach.
Qed.
End Boot.

(** ** Requests in memory *)

(** The kernel reads the request a caller laid out. *)
Lemma load_request_bytes m p r : load_bytes m p 23 = request_bytes r -> req_ok r -> 0 <= buf r < 2 ^ 32 ->
  load_request m p = r.
Proof.
  intros E (Hn & _ & He & _ & Hs & Hp) Hb. unfold request_bytes in E.
  change 23%nat with (4 + (8 + (3 + (4 + 4))))%nat in E. rewrite !load_bytes_app in E.
  apply app_inj_1 in E as [E1 E]; [| by rewrite length_load_bytes, length_le_encode].
  apply app_inj_1 in E as [E2 E]; [| by rewrite length_load_bytes, Hn].
  apply app_inj_1 in E as [E3 E]; [| by rewrite length_load_bytes, He].
  apply app_inj_1 in E as [E4 E5]; [| by rewrite length_load_bytes, length_le_encode].
  change (Z.of_nat 4) with 4 in *. change (Z.of_nat 8) with 8 in *. change (Z.of_nat 3) with 3 in *.
  unfold load_request. replace (p + 12) with (p + 4 + 8) by lia. replace (p + 15) with (p + 4 + 8 + 3) by lia.
  replace (p + 19) with (p + 4 + 8 + 3 + 4) by lia.
  rewrite E1, E2, E3, E4, E5, !le_decode_encode by lia. by destruct r.
Qed.

Lemma load_request_ok m p : bytes_ok m -> req_ok (load_request m p).
Proof.
  intros Hm.
  assert (forall a, 0 <= le_decode (load_bytes m a 4) < 2 ^ 32) as Hr.
  { intros a. pose proof (le_decode_range _ (load_bytes_range m a 4 Hm)) as Hr. by rewrite length_load_bytes in Hr. }
  unfold req_ok, load_request. cbn [req_name req_ext buffer_size parent_cluster_number].
  rewrite !length_load_bytes. split_and!; try done; try (by apply load_bytes_range); apply Hr.
Qed.

(** ** Interrupts *)

Section Interrupts.
Context {B D : Type} `{PortBus B} `{BlockDevice D}.

(** Code that leaves processes, page directories and scheduler alone. *)
Lemma other_step c (K K' : Kernel B D) :
  k_paging K' = k_paging K -> k_procs K' = k_procs K -> k_sched K' = k_sched K -> sys_step c (system_of K) (system_of K').
Proof. intros Epg Epm Esc. unfold system_of. rewrite Epg, Epm, Esc. apply step_other. Qed.

Lemma sys_steps_trans c (s1 s2 s3 : System D) : sys_steps c s1 s2 -> sys_steps c s2 s3 -> sys_steps c s1 s3.
Proof. intros H12 H23. induction H23 as [|? ? ? _ IH Hstep]; [done | econstructor; [by apply IH | exact Hstep]]. Qed.

(** Set-up, whatever the disk, the devices and the memory hold, is a run of the system. *)
Lemma setup_steps env m (b : B) (d : D) t K : kernel_setup env (power_on m b d t) = Ret K ->
  sys_reachable true (system_of K) /\ active_process_count (k_procs K) = 1.
Proof.
  unfold kernel_setup. cbv zeta. cbn [power_on k_idt k_console k_fs k_gdt k_paging k_procs k_sched k_tss]. intros E.
  apply bind_ret_inv in E as (idt & _ & E). apply bind_ret_inv in E as (fs & _ & E).
  apply bind_ret_inv in E as (gdt & _ & E). apply bind_ret_inv in E as ([[pages dir] ok] & Epage & E).
  apply bind_ret_inv in E as ([[fs2 m2] rc] & _ & E). apply bind_ret_inv in E as ([b2 rtc] & _ & E).
  apply bind_ret_inv in E as ([[[[pg pm] fs3] m3] rc3] & Ecr & E). unfold scheduler_init in E.
  apply bind_ret_inv in E as (sched & Esw & E). injection E as <-. split; [| done].
  exists (mkSystem initial_paging_state initial_process_manager initial_scheduler_state fs2 m2). split; [done |].
  unfold system_of. cbn [k_paging k_procs k_sched k_fs k_console video].
  eapply steps_snoc; [eapply steps_snoc; [eapply steps_snoc; [eapply steps_snoc; [apply steps_refl |] |] |] |].
  - eapply step_kernel_page. exact Epage.
  - eapply step_create; [apply shell_request_ok | done | exact Ecr].
  - apply step_init. pose proof proc_inv_initial as Hinv.
    apply (kernel_page_inv _ _ dir pages) in Hinv; [| by eapply allocate_directory_ok; [exact Epage | exact kernel_directory_ok]].
    destruct (create_step _ _ _ _ _ _ _ _ _ _ _ Hinv shell_request_ok Ecr) as [(-> & _)|(_ & i & d' & Hcr)]; [done |].
    rewrite (cr_active _ _ _ _ _ _ _ _ Hcr). done.
  - by apply step_switch.
Qed.

(** The calls that are made with care ([sys_step]): "kill 0" is not, nor executing a
    file of a parent cluster beyond any disk. *)
Definition syscall_ok (K : Kernel B D) (frame : InterruptFrame) : Prop :=
  (eax (frame_cpu frame) = 14 -> ebx (frame_cpu frame) <> 0) /\
  (eax (frame_cpu frame) = 15 -> parent_cluster_number (load_request (k_memory K) (ebx (frame_cpu frame))) < 2 ^ 24).

Ltac unbind E :=
  repeat match type of E with
  | (_ ≫= _) = Ret _ => apply bind_ret_inv in E as (? & ? & E); cbn beta in E
  | (let '(_, _) := ?x in _) = Ret _ => destruct x
  | Ret _ = Ret _ => injection E as <-
  end.

Lemma syscall_step careful env (K K' : Kernel B D) frame : bytes_ok (k_memory K) ->
  (careful = true -> syscall_ok K frame) -> syscall env K frame = Ret K' -> sys_step careful (system_of K) (system_of K').
Proof.
  intros Hm Hok E. unfold syscall in E. cbv zeta in E.
  destruct (decide (eax (frame_cpu frame) = 14)) as [Eax|N14].
  { rewrite Eax in E. apply bind_ret_inv in E as ([[pg pm] ok] & Ed & E). injection E as <-.
    eapply step_destroy; [intros Hc; by apply (Hok Hc) | exact Ed]. }
  destruct (decide (eax (frame_cpu frame) = 15)) as [Eax|N15].
  { rewrite Eax in E. apply bind_ret_inv in E as ([[[[pg pm] fs] m] rc] & Ec & E). injection E as <-.
    eapply step_create; [by apply load_request_ok | intros Hc; by apply (Hok Hc) | exact Ec]. }
  destruct (eax (frame_cpu frame)) as [|q|q]; unbind E; try (by apply other_step).
  repeat match type of E with context [match ?p with xI _ => _ | xO _ => _ | xH => _ end] => destruct p end;
    unbind E; try done; by apply other_step.
Qed.

Lemma interrupt_step careful env (K K' : Kernel B D) frame : bytes_ok (k_memory K) ->
  (careful = true -> syscall_ok K frame) -> main_interrupt_handler env K frame = Ret K' ->
  sys_step careful (system_of K) (system_of K').
Proof.
  intros Hm Hok E. unfold main_interrupt_handler in E. destruct (_ =? _).
  { unbind E. by apply other_step. }
  destruct (_ =? _).
  { apply bind_ret_inv in E as (pm & Et & E). injection E as <-. eapply step_timer. exact Et. }
  destruct (_ =? _); [by eapply syscall_step | injection E as <-; by apply other_step].
Qed.

(** The life of a booted kernel: user programs change memory at will, devices
    move on, and then an interrupt arrives and is handled, with whatever lies in
    the places the handler reads uninitialised. *)
Definition user_runs (K : Kernel B D) (m : mem) (b : B) : Kernel B D :=
  set_console K (mkConsole (kb (k_console K)) (fb (k_console K)) m b).

Inductive kernel_life (careful : bool) (K : Kernel B D) : Kernel B D -> Prop :=
  | life_starts : kernel_life careful K K
  | life_interrupt K1 m b env frame K2 : kernel_life careful K K1 -> bytes_ok m ->
      (careful = true -> syscall_ok (user_runs K1 m b) frame) ->
      main_interrupt_handler env (user_runs K1 m b) frame = Ret K2 -> kernel_life careful K K2.

Lemma life_steps careful (K K' : Kernel B D) : kernel_life careful K K' -> sys_steps careful (system_of K) (system_of K').
Proof.
  induction 1 as [|K1 m b env frame K2 _ IH Hm Hok E]; [constructor |].
  eapply steps_snoc; [eapply steps_snoc; [exact IH | by apply (other_step _ K1 (user_runs K1 m b))] |].
  by eapply interrupt_step.
Qed.

(** A process once active stays counted. *)
Lemma active_positive c (s s' : System D) : sys_reachable c s -> sys_steps c s s' ->
  0 < active_process_count (sys_procs s) -> 0 < active_process_count (sys_procs s').
Proof.
  intros Hr Hs Hpos. assert (sys_inv s' /\ 0 < active_process_count (sys_procs s')) as [_ ?]; [| done].
  pose proof (sys_reachable_inv _ _ Hr) as Hinv. clear Hr.
  induction Hs as [|s1 s2 s3 _ IH Hstep]; [done |]. destruct (IH Hpos Hinv) as [Hi2 H2].
  split; [by eapply sys_step_inv |]. destruct (decide (2 <= active_process_count (sys_procs s2))) as [H2'|].
  { pose proof (active_grows _ _ _ Hi2 Hstep H2'). lia. }
  destruct Hi2 as [Hi2 _ _]. destruct Hstep as
    [stack pg pm sc fs m r pg' pm' fs' m' rc Hr _ E | pg pm sc fs m w pg' pm' b _ E
    | | pg pm sc fs m sss scs frame pm' E | | |]; cbn [sys_paging sys_procs sys_sched active_process_count] in *;
    [| | lia | | done | done | done].
  - destruct (create_step stack pg pm fs fs' m m' r pg' pm' rc Hi2 Hr E) as [(-> & _)|(_ & i & d & Hcr)]; [done |].
    rewrite (cr_active _ _ _ _ _ _ _ _ Hcr). lia.
  - by destruct (destroy_step pg pm w pg' pm' b Hi2 E) as (_ & _ & [->|(i & p & _ & ->)]).
  - destruct (timer_spec pg pm sss scs frame Hi2 H2) as (p & _ & E'). rewrite E in E'. by injection E' as ->.
Qed.

(** C14: For the whole life of the kernel, from power-on with any memory, disk and
    devices, whatever user programs do to memory and whatever keys, timer
    interrupts and system calls are handled, "kill 0" included: the state is a
    reachable one of the process system, so the invariant of the process table
    holds ([reachable_process_table]), and a careful one as long as all calls were
    careful.  The table itself never stops the kernel: in every such state a timer
    interrupt and a destroying system call return. *)
Theorem interrupts_keep_process_table careful env m (b : B) (d : D) t (K K' : Kernel B D) :
  kernel_setup env (power_on m b d t) = Ret K -> kernel_life careful K K' ->
  sys_reachable careful (system_of K') /\
  forall env' frame, int_number frame = PIC1_OFFSET + IRQ_TIMER \/
      (int_number frame = 0x30 /\ eax (frame_cpu frame) = 14) ->
    exists K'' : Kernel B D, main_interrupt_handler env' K' frame = Ret K''.
Proof.
  intros E Hlife. destruct (setup_steps env m b d t K E) as [Hr Ha]. pose proof (life_steps _ _ _ Hlife) as Hs.
  assert (sys_reachable careful (system_of K')) as Hr'.
  { destruct Hr as (s0 & Hs0 & Hsteps). exists s0. split; [done |]. eapply sys_steps_trans; [| exact Hs].
    destruct careful; [done | by eapply sys_steps_any]. }
  assert (0 < active_process_count (k_procs K')) as Hpos.
  { apply (active_positive false (system_of K) (system_of K')); [by eapply sys_reachable_any | by eapply sys_steps_any | cbn; lia]. }
  split; [done |]. pose proof (sys_reachable_inv _ _ Hr') as [Hinv _ _]. cbn [system_of sys_paging sys_procs] in Hinv.
  intros env' frame [Hint|[Hint Heax]]; unfold main_interrupt_handler; rewrite Hint.
  - change (PIC1_OFFSET + IRQ_TIMER =? PIC1_OFFSET + IRQ_KEYBOARD) with false. rewrite Z.eqb_refl. cbv iota zeta.
    destruct (timer_spec _ _ (stale_ss env') (stale_cs env') frame Hinv Hpos) as (p & _ & Et).
    cbn [set_console k_procs]. rewrite Et, bind_ret_l. by eexists.
  - change (0x30 =? PIC1_OFFSET + IRQ_KEYBOARD) with false. change (0x30 =? PIC1_OFFSET + IRQ_TIMER) with false.
    cbn -[process_destroy]. unfold syscall. rewrite Heax. cbv zeta iota.
    pose proof (destroy_any _ _ (ebx (frame_cpu frame)) Hinv) as Hd.
    destruct (process_list_get_pcb_by_pid (k_procs K') (ebx (frame_cpu frame))) as [i|].
    + destruct Hd as (pg' & p & _ & _ & -> & _). rewrite bind_ret_l. by eexists.
    + destruct Hd as [-> _]. rewrite bind_ret_l. by eexists.
Qed.
End Interrupts.

(** ** Files through system calls *)

(** The call numbers of the three file operations. *)
Definition file_call (o : fs_op) : Z :=
  match o with OpRead _ => 0 | OpWrite _ => 2 | OpDelete _ => 3 end.

Section FileCalls.
Context {B D : Type} `{PortBus B} `{BlockDeviceSpec D}.

(** A user program that lays out a packed request and raises interrupt 0x30
    for a read, write or delete makes exactly that step on the map of the files
    of the directory: the new contents and free space, the data in its buffer,
    and the return code of the step as a byte at the address in ecx; processes,
    scheduler, screen and keyboard are untouched. *)
Theorem file_syscalls_refine_map env (K : Kernel B D) frame p own A o :
  int_number frame = 0x30 -> eax (frame_cpu frame) = file_call o ->
  load_bytes (k_memory K) (ebx (frame_cpu frame)) 23 = request_bytes (op_req o) ->
  represents (k_fs K) p own (File <$> A) -> bytes_ok (k_memory K) -> op_ok p own o -> (size A < 63)%nat ->
  exists (K' : Kernel B D) c A' m', main_interrupt_handler env K frame = Ret K' /\
    map_step (mkMap A (k_memory K) (cluster_available (fat_of (k_fs K)))) o c
      (mkMap A' m' (cluster_available (fat_of (k_fs K')))) /\
    represents (k_fs K') p own (File <$> A') /\
    k_memory K' = store m' (ecx (frame_cpu frame)) (u8 c) /\
    k_paging K' = k_paging K /\ k_procs K' = k_procs K /\ k_sched K' = k_sched K /\
    kb (k_console K') = kb (k_console K) /\ fb (k_console K') = fb (k_console K) /\ ports (k_console K') = ports (k_console K).
Proof.
  intros Hint Heax Hreq Hrep Hm Hop Hsz. pose proof Hop as (Hr & Hpar & _ & _ & Hb0 & Hb & _).
  assert (load_request (k_memory K) (ebx (frame_cpu frame)) = op_req o) as Hload
    by (apply load_request_bytes; [done | done | lia]).
  unfold main_interrupt_handler. rewrite Hint. change (0x30 =? PIC1_OFFSET + IRQ_KEYBOARD) with false.
  change (0x30 =? PIC1_OFFSET + IRQ_TIMER) with false. change (0x30 =? 0x30) with true. cbv iota.
  unfold syscall. cbv zeta. rewrite Heax, Hload. subst p. destruct o as [r|r|r]; cbn [file_call op_req] in *.
  - destruct (write_step (k_fs K) (k_memory K) r own A) as (fs' & c & A' & -> & Hstep & _ & Hrep'); [done | done | done | done |].
    rewrite bind_ret_l. by eexists _, c, A', (k_memory K).
  - destruct (read_step (k_fs K) (k_memory K) r own A) as (fs' & m' & c & -> & _ & Hstep & Hrep'); [done | done | done |].
    rewrite bind_ret_l. by eexists _, c, A, m'.
  - destruct (delete_step (k_fs K) (k_memory K) r own A) as (fs' & c & A' & -> & Hstep & _ & Hrep'); [done | done |].
    rewrite bind_ret_l. by eexists _, c, A', (k_memory K).
Qed.
End FileCalls.
