(* ===== verification/KernelExamples.v ===== *)
(** * The kernel theorems at concrete inputs

    A machine with the year-end clock and an image as its disk. *)
From Stdlib Require Import String.
From stdpp Require Import gmap.
From S2P Require Import Prelude CString Memory BlockDevice Fat32Types Fat32 Fat32Chain Fat32Facts Fat32Ops Fat32Access Fat32Abs Fat32Refine Fat32Props Fat32Edge Fat32Examples Paging PortIO Framebuffer Keyboard Clock ClockProps Descriptors Process ProcessInv Scheduler ProcessProps ExecProps ProcessExamples Kernel KernelProps.
#[local] Open Scope Z_scope.

Definition machine : Environment :=
  mkEnv no_tail [] (fun _ => 0) (replicate 9 0) (replicate 10 0) 0 0 0 0xC0010000 0xC0123456 (replicate 64 0xC0101000) 4 3 10 100.

(** The shell as a 5000-byte file. *)
Definition shell_write : FAT32DriverRequest := mkRequest 4096 (bytes_of "shell" ++ [0; 0; 0]) [0; 0; 0] 2 5000.
Lemma shell_write_ok : req_ok shell_write.
Proof. unfold req_ok. split_and!; try done; by_compute. Qed.

Lemma shell_installed : exists fs : Fs Image,
  represents fs 2 root_own (<[req_key shell_write := File file_data]> ∅).
Proof.
  destruct formatted as (fs & Hc & Hf & ls & Hrep).
  destruct (write_file_represents fs zero_mem shell_write root_own ls ∅ Hrep shell_write_ok zero_mem_ok ltac:(discriminate))
    as (fs' & _ & _ & _ & Hrep' & _).
  - apply (has_room_of_size fs 2 root_own ls ∅ Hrep). rewrite map_size_empty. lia.
  - apply lookup_empty.
  - discriminate.
  - cbn. lia.
  - rewrite Hf, fresh_available. vm_compute. discriminate.
  - exists fs'. eexists. exact Hrep'.
Qed.

Lemma year_end_settles : clock_settles year_end_contents 4.
Proof.
  exists (encode_time bcd24 year_end), (encode_time bcd24 new_year). split_and!.
  - intros t Ht. unfold year_end_contents. rewrite (proj2 (Nat.ltb_lt t 4)) by lia. by split_and!.
  - intros t Ht. unfold year_end_contents. rewrite (proj2 (Nat.ltb_ge t 4)) by lia. by split_and!.
  - exact year_end_bytes.
Qed.

Lemma kernel_setup_starts_shell_witness : exists (fs : Fs Image) K p,
  kernel_setup machine (power_on zero_mem (mkCmos 0 0) (disk fs) new_year) = Ret K /\
  load_bytes (k_memory K) 0 (length file_data) = file_data /\
  process_list (k_procs K) !! 0%nat = Some p /\ pid p = 1 /\ k_sched K = mkSched 0 (pcb_dir p) (Some (context p)).
Proof.
  destruct shell_installed as (fs & Hrep).
  destruct (kernel_setup_starts_shell machine zero_mem (mkCmos 0 0) new_year fs root_own
    (<[req_key shell_write := File file_data]> ∅) file_data 4) as (K & p & E & Hl & Hp & Hpid & _ & _ & Hs & _).
  - exact Hrep.
  - apply lookup_insert_eq.
  - unfold file_data. rewrite length_load_bytes. cbn. lia.
  - reflexivity.
  - by_compute.
  - exact year_end_settles.
  - cbn. lia.
  - cbn. lia.
  - exists fs, K, p. split; [exact E |]. split; [exact Hl |]. split; [exact Hp |]. split; [exact Hpid | exact Hs].
Defined.

(** A machine just switched on, interrupted by system call [n]. *)
Definition idle_machine (fs : Fs Image) (m : mem) : Kernel Cmos Image :=
  mkKernel global_descriptor_table interrupt_tss_entry interrupt_descriptor_table
    (mkConsole initial_keyboard_state initial_framebuffer_state m (mkCmos 0 0)) fs
    initial_paging_state initial_process_manager initial_scheduler_state new_year.
Definition call_frame (n b c d : Z) : InterruptFrame :=
  mkFrame (mkCpu 0 0 0 0 b d c n 0 0 0 0) 0x30 (mkIntStack 0 0 0x1b 0x202).

(** A booted kernel whose shell says "kill 0", then a timer interrupt. *)
Lemma interrupts_keep_process_table_witness : exists (fs : Fs Image) (K K1 K2 : Kernel Cmos Image),
  kernel_setup machine (power_on zero_mem (mkCmos 0 0) (disk fs) new_year) = Ret K /\
  main_interrupt_handler machine (user_runs K zero_mem (mkCmos 0 0)) (call_frame 14 0 0 0) = Ret K1 /\
  main_interrupt_handler machine K1 (mkFrame (frame_cpu (call_frame 0 0 0 0)) 0x20 (mkIntStack 0 0 0x1b 0x202)) = Ret K2 /\
  sys_reachable false (system_of K1).
Proof.
  destruct shell_installed as (fs & Hrep).
  destruct (kernel_setup_spec machine zero_mem (mkCmos 0 0) new_year fs root_own
    (<[req_key shell_write := File file_data]> ∅) file_data 4) as (K & p & EK & _).
  - exact Hrep.
  - apply lookup_insert_eq.
  - unfold file_data. rewrite length_load_bytes. cbn. lia.
  - reflexivity.
  - by_compute.
  - exact year_end_settles.
  - cbn. lia.
  - cbn. lia.
  - destruct (interrupts_keep_process_table false machine zero_mem (mkCmos 0 0) (disk fs) new_year K
      (user_runs K zero_mem (mkCmos 0 0)) EK) as [_ Hret].
    { apply (life_interrupt false K K zero_mem (mkCmos 0 0) machine (mkFrame (frame_cpu (call_frame 0 0 0 0)) 0x2e
        (mkIntStack 0 0 0x1b 0x202)));
        [apply life_starts | exact zero_mem_ok | discriminate | reflexivity]. }
    destruct (Hret machine (call_frame 14 0 0 0)) as [K1 E1]; [right; split; reflexivity |].
    destruct (interrupts_keep_process_table false machine zero_mem (mkCmos 0 0) (disk fs) new_year K K1 EK)
      as [Hr Hret1].
    { eapply life_interrupt; [apply life_starts | exact zero_mem_ok | discriminate | exact E1]. }
    destruct (Hret1 machine (mkFrame (frame_cpu (call_frame 0 0 0 0)) 0x20 (mkIntStack 0 0 0x1b 0x202))) as [K2 E2];
      [left; reflexivity |].
    exists fs, K, K1, K2. split; [exact EK |]. split; [exact E1 |]. split; [exact E2 | exact Hr].
Defined.

Definition request_mem : mem := store_bytes zero_mem 0x3000 (request_bytes file_req).
Lemma request_mem_loads : load_bytes request_mem 0x3000 23 = request_bytes file_req.
Proof. by vm_compute. Qed.
Lemma request_mem_ok : bytes_ok request_mem.
Proof. apply store_bytes_bytes_ok; [by_compute | exact zero_mem_ok]. Qed.

Lemma file_syscalls_refine_map_witness : exists (fs : Fs Image) K c A m',
  represents fs 2 root_own ∅ /\
  main_interrupt_handler machine (idle_machine fs request_mem) (call_frame 2 0x3000 0x5000 0) = Ret K /\
  map_step (mkMap ∅ request_mem (cluster_available (fat_of fs))) (OpWrite file_req) c
    (mkMap A m' (cluster_available (fat_of (k_fs K)))) /\
  k_memory K = store m' 0x5000 (u8 c).
Proof.
  destruct formatted as (fs & _ & _ & Hrep).
  destruct (file_syscalls_refine_map machine (idle_machine fs request_mem) (call_frame 2 0x3000 0x5000 0) 2 root_own ∅
    (OpWrite file_req)) as (K & c & A & m' & E & Hstep & _ & Hmem & _).
  - reflexivity.
  - reflexivity.
  - exact request_mem_loads.
  - cbn [idle_machine k_fs]. by rewrite fmap_empty.
  - exact request_mem_ok.
  - pose proof file_req_ok. split_and!; try done; cbn; lia.
  - rewrite map_size_empty. lia.
  - exists fs, K, c, A, m'. split; [exact Hrep |]. split; [exact E |]. split; [exact Hstep | exact Hmem].
Defined.
