(* ===== verification/KernelTree.v ===== *)
(** * The directory tree through system calls

    The six file system calls of interrupt 0x30 make the steps of the abstract
    tree: the contract of fat32.c ([Fat32Client]) carried through the dispatcher to
    user programs. *)
From Stdlib Require Import String.
From stdpp Require Import gmap.
From S2P Require Import Prelude CString Memory BlockDevice Fat32Types Fat32 Fat32Chain Fat32Facts Fat32Ops Fat32Access Fat32Abs Fat32Refine Fat32Codes Fat32Props Fat32Examples Fat32Tree Fat32Client ClientExamples PortIO Framebuffer Keyboard ClockProps Process Scheduler Kernel KernelProps KernelExamples.
#[local] Open Scope Z_scope.

(** The number of a call, and how its answer is stored: a byte, or a cluster
    number of four bytes. *)
Definition call_number (o : tree_op) : Z :=
  match o with Read _ => 0 | ReadDirectory _ => 1 | Write _ => 2 | Delete _ => 3 | MoveToChild _ => 8 | MoveToParent _ => 9 end.
Definition store_answer (o : tree_op) (m : mem) (c a : Z) : mem :=
  match o with
  | MoveToChild _ | MoveToParent _ => store_bytes m c (le_encode 4 (u32 a))
  | _ => store m c (u8 a)
  end.

(** Only memory, disk and table, and the driver's buffers changed. *)
Definition same_devices {B D : Type} (K K' : Kernel B D) : Prop :=
  k_paging K' = k_paging K /\ k_procs K' = k_procs K /\ k_sched K' = k_sched K /\
  kb (k_console K') = kb (k_console K) /\ fb (k_console K') = fb (k_console K) /\ ports (k_console K') = ports (k_console K).

Section Calls.
Context {B D : Type} `{PortBus B} `{BlockDeviceSpec D}.

(** The dispatcher performs the request it finds in memory and stores the answer. *)
Lemma call_performs env (K : Kernel B D) frame o fs' m' a : int_number frame = 0x30 -> eax (frame_cpu frame) = call_number o ->
  load_request (k_memory K) (ebx (frame_cpu frame)) = request_of o -> perform (k_fs K) (k_memory K) o = Ret (fs', m', a) ->
  exists K', main_interrupt_handler env K frame = Ret K' /\ k_fs K' = fs' /\
    k_memory K' = store_answer o m' (ecx (frame_cpu frame)) a /\ same_devices K K'.
Proof.
  intros Hint Heax Hload E. unfold main_interrupt_handler. rewrite Hint. change (0x30 =? PIC1_OFFSET + IRQ_KEYBOARD) with false.
  change (0x30 =? PIC1_OFFSET + IRQ_TIMER) with false. change (0x30 =? 0x30) with true. cbv iota.
  unfold syscall. cbv zeta. rewrite Heax, Hload. destruct o as [r|r|r|r|r|r]; cbn [call_number request_of perform] in *.
  - apply bind_ret_inv in E as ([fs1 c] & -> & [= <- <- <-]). rewrite bind_ret_l. by eexists.
  - rewrite E, bind_ret_l. by eexists.
  - apply bind_ret_inv in E as ([fs1 c] & -> & [= <- <- <-]). rewrite bind_ret_l. by eexists.
  - apply bind_ret_inv in E as ([fs1 c] & -> & [= <- <- <-]). rewrite bind_ret_l. by eexists.
  - apply bind_ret_inv in E as (c & -> & [= <- <- <-]). rewrite bind_ret_l. by eexists.
  - apply bind_ret_inv in E as (c & -> & [= <- <- <-]). rewrite bind_ret_l. by eexists.
Qed.

(** C4: A user program that lays out a packed request for any directory of the disk
    and raises interrupt 0x30 to read, write, delete, look up, enter or leave makes
    exactly that step on the abstract tree: the handler returns, the answer is at the
    address in ecx, data in the program's buffer, the disk represents the new tree,
    and processes, scheduler, screen and keyboard are untouched. *)
Theorem file_syscalls_refine_tree env (K : Kernel B D) frame T o :
  int_number frame = 0x30 -> eax (frame_cpu frame) = call_number o ->
  load_bytes (k_memory K) (ebx (frame_cpu frame)) 23 = request_bytes (request_of o) -> 0 <= buf (request_of o) < 2 ^ 32 ->
  tree_rep (k_fs K) T -> enabled (state_of (k_fs K) T) (k_memory K) o ->
  exists K' a m' T', main_interrupt_handler env K frame = Ret K' /\
    tree_step (state_of (k_fs K) T) (k_memory K) o a m' (state_of (k_fs K') T') /\ tree_rep (k_fs K') T' /\
    k_memory K' = store_answer o m' (ecx (frame_cpu frame)) a /\ same_devices K K'.
Proof.
  intros Hint Heax Hreq Hb HT Ho. pose proof Ho as (Hr & Hm & _). destruct (request_simulates (k_fs K) T (k_memory K) o HT Ho) as (fs' & m' & a & T' & E & Hs & HT').
  destruct (call_performs env K frame o fs' m' a) as (K' & E' & <- & Hmem & Hdev); [done | done | by apply load_request_bytes | done |].
  by exists K', a, m', T'.
Qed.
End Calls.

(** A program makes the directory "docs" on the formatted image. *)
Definition docs_mem : mem := store_bytes zero_mem 0x3000 (request_bytes docs_request).
Lemma docs_mem_loads : load_bytes docs_mem 0x3000 23 = request_bytes docs_request.
Proof. by vm_compute. Qed.
Lemma docs_mem_ok : bytes_ok docs_mem.
Proof. apply store_bytes_bytes_ok; [by_compute | exact zero_mem_ok]. Qed.

Lemma file_syscalls_refine_tree_witness : exists (fs : Fs Image) K a m' T',
  tree_rep fs tree0 /\ main_interrupt_handler machine (idle_machine fs docs_mem) (call_frame 2 0x3000 0x5000 0) = Ret K /\
  tree_step (mkTree tree0 509) docs_mem (Write docs_request) a m' (state_of (k_fs K) T') /\ tree_rep (k_fs K) T' /\
  k_memory K = store m' 0x5000 (u8 a).
Proof.
  destruct formatted_tree as (fs & _ & HT & Es).
  destruct (file_syscalls_refine_tree machine (idle_machine fs docs_mem) (call_frame 2 0x3000 0x5000 0) tree0 (Write docs_request))
    as (K & a & m' & T' & E & Hs & HT' & Hmem & _).
  - reflexivity.
  - reflexivity.
  - exact docs_mem_loads.
  - by_compute.
  - exact HT.
  - change (k_fs (idle_machine fs docs_mem)) with fs. rewrite Es. split_and!; [apply docs_request_ok | exact docs_mem_ok |].
    eexists. split; [by apply tree0_root |]. cbn [nodes]. split_and!; [done | done | by_compute | by_compute |].
    intros _. rewrite map_size_empty. split; [lia | by intros _].
  - change (k_fs (idle_machine fs docs_mem)) with fs in Hs. rewrite Es in Hs.
    exists fs, K, a, m', T'. refine (conj HT (conj E (conj Hs (conj HT' Hmem)))).
Defined.
