(* ===== verification/ShellStrings.v ===== *)
(** * The string routines of the shell (src/user-shell.c)

    In-place editing of NUL-terminated strings in the flat memory, and what each
    routine does to the string.  Scans run to a terminator nobody guarantees, so
    they take fuel. *)
From S2P Require Import Prelude CString Memory.
#[local] Open Scope Z_scope.

Section Strings.
Context (fuel : nat).

Definition strlen_at (m : mem) (p : Z) : outcome Z := strlen (at_ptr m p) fuel.

(** The loop stops at the first newline. *)
Fixpoint newline_loop (m : mem) (str : Z) (i n : nat) : mem :=
  match n with
  | O => m
  | S n' =>
    if load m (str + Z.of_nat i) =? 10 then store m (str + Z.of_nat i) 0
    else newline_loop m str (S i) n'
  end.
Definition remove_newline (m : mem) (str : Z) : outcome mem :=
  len ← strlen_at m str;
  Ret (newline_loop m str 0 (Z.to_nat len)).

(** [while (pstr[i] != '\0' && pstr[i] != by) { result[i] = pstr[i]; i++; }] *)
Fixpoint split_copy (m : mem) (pstr by_ result : Z) (i n : nat) : outcome (mem * nat) :=
  match n with
  | O => NoFuel
  | S n' =>
    let c := load m (pstr + Z.of_nat i) in
    if negb (c =? 0) && negb (c =? by_)
    then split_copy (store m (result + Z.of_nat i) c) pstr by_ result (S i) n'
    else Ret (m, i)
  end.

(** [while (pstr[i] != '\0') { pstr[j] = pstr[i]; i++; j++; }] *)
Fixpoint shift_down (m : mem) (pstr : Z) (i j n : nat) : outcome (mem * nat) :=
  match n with
  | O => NoFuel
  | S n' =>
    let c := load m (pstr + Z.of_nat i) in
    if c =? 0 then Ret (m, j) else shift_down (store m (pstr + Z.of_nat j) c) pstr (S i) (S j) n'
  end.

Definition split_by_first (m : mem) (pstr by_ result : Z) : outcome mem :=
  '(m, i) ← split_copy m pstr by_ result 0 fuel;
  let m := store m (result + Z.of_nat i) 0 in
  if load m (pstr + Z.of_nat i) =? by_ then
    '(m, j) ← shift_down m pstr (S i) 0 fuel;
    Ret (store m (pstr + Z.of_nat j) 0)
  else Ret (store m pstr 0).

Fixpoint include_loop (m : mem) (str target : Z) (n : nat) : outcome Z :=
  match n with
  | O => NoFuel
  | S n' =>
    let c := load m str in
    if c =? 0 then Ret 0 else if c =? target then Ret 1 else include_loop m (str + 1) target n'
  end.
Definition is_include (m : mem) (str target : Z) : outcome Z := include_loop m str target fuel.

Fixpoint before_loop (m : mem) (str cmp : Z) (i n : nat) : outcome Z :=
  match n with
  | O => NoFuel
  | S n' =>
    let c := load m (str + Z.of_nat i) in
    if negb (c =? cmp) && negb (c =? 0) then before_loop m str cmp (S i) n' else Ret (Z.of_nat i)
  end.
Definition strlen_before_char (m : mem) (str cmp : Z) : outcome Z := before_loop m str cmp 0 fuel.

(** [while (path[idx] != '/' && idx >= 0) idx--;]: the byte before the string is
    read when there is no slash. *)
Fixpoint back_to_slash (m : mem) (path idx : Z) (n : nat) : outcome Z :=
  match n with
  | O => NoFuel
  | S n' =>
    if negb (load m (path + idx) =? 47) && (0 <=? idx) then back_to_slash m path (idx - 1) n' else Ret idx
  end.
Fixpoint copy_string (m : mem) (src dest : Z) (n : nat) : outcome mem :=
  match n with
  | O => NoFuel
  | S n' =>
    let c := load m src in
    if c =? 0 then Ret (store m dest 0) else copy_string (store m dest c) (src + 1) (dest + 1) n'
  end.
Definition get_last_name (m : mem) (path name : Z) : outcome mem :=
  len ← strlen_at m path;
  idx ← back_to_slash m path (len - 1) fuel;
  copy_string m (path + (idx + 1)) name fuel.

(** The loop of both [remove_space] and [remove_petik]. *)
Fixpoint remove_loop (m : mem) (str ch : Z) (i shift n : nat) : mem * nat :=
  match n with
  | O => (m, shift)
  | S n' =>
    let c := load m (str + Z.of_nat i) in
    if c =? ch then remove_loop m str ch (S i) (S shift) n'
    else remove_loop (store m (str + Z.of_nat (i - shift)) c) str ch (S i) shift n'
  end.
Definition remove_char (m : mem) (str ch : Z) : outcome mem :=
  len ← strlen_at m str;
  let '(m, shift) := remove_loop m str ch 0 0 (Z.to_nat len) in
  Ret (store m (str + (len - Z.of_nat shift)) 0).
Definition remove_space (m : mem) (str : Z) : outcome mem := remove_char m str 32.
Definition remove_petik (m : mem) (str : Z) : outcome mem := remove_char m str 34.

(** [while (len < size) { p[len] = '\0'; len++; }] *)
Definition pad (m : mem) (p len : Z) (size : nat) : mem :=
  for_up (Z.to_nat len) (size - Z.to_nat len) (fun i m => store m (p + Z.of_nat i) 0) m.
Definition pad_string (m : mem) (p : Z) (size : nat) : outcome mem :=
  len ← strlen_at m p; Ret (pad m p len size).
End Strings.

(** ** What they do to a string *)

(** The text before the first [by_], and the text behind it. *)
Fixpoint split_at (by_ : Z) (s : list Z) : list Z * list Z :=
  match s with
  | [] => ([], [])
  | c :: s' => if c =? by_ then ([], s') else let '(a, b) := split_at by_ s' in (c :: a, b)
  end.

Lemma split_at_cases by_ s :
  (by_ ∈ s /\ s = fst (split_at by_ s) ++ by_ :: snd (split_at by_ s) /\ by_ ∉ fst (split_at by_ s)) \/
  (by_ ∉ s /\ split_at by_ s = (s, [])).
Proof.
  induction s as [|c s IH]; cbn [split_at]; [right; split; [apply not_elem_of_nil | done] |].
  destruct (Z.eqb_spec c by_) as [->|Hc]; cbn [fst snd].
  { left. split_and!; [left | done | apply not_elem_of_nil]. }
  destruct (split_at by_ s) as [a b]. cbn [fst snd] in *. destruct IH as [(Hin & -> & Ha)|(Hin & [= -> ->])].
  - left. split_and!; [by right | done |]. by apply not_elem_of_cons.
  - right. split; [| done]. by apply not_elem_of_cons.
Qed.

Lemma split_at_app by_ a b : by_ ∉ a -> split_at by_ (a ++ by_ :: b) = (a, b).
Proof.
  induction a as [|c a IH]; cbn [app split_at]; intros Hn; [by rewrite Z.eqb_refl |].
  apply not_elem_of_cons in Hn as [Hc Hn]. destruct (Z.eqb_spec c by_); [done |]. by rewrite IH.
Qed.

Lemma lookup_at_split {A} (s a : list A) x b : s = a ++ x :: b -> s !! length a = Some x.
Proof. intros ->. by apply list_lookup_middle. Qed.

Section Specs.
Context (fuel : nat) {m : mem} (Hm : bytes_ok m).

Lemma is_include_spec p s target : cstring m p s -> target <> 0 -> (length s < fuel)%nat ->
  is_include fuel m p target = Ret (if decide (target ∈ s) then 1 else 0).
Proof using Type.
  intros Hs Ht. unfold is_include. revert fuel p Hs. induction s as [|c s IH]; intros [|f] p Hs Hf; cbn [length] in *; try lia;
    cbn [include_loop].
  - pose proof (cstring_end Hs) as E. cbn [length] in E. rewrite Z.add_0_r in E. rewrite E. done.
  - destruct (cstring_char Hs 0) as (c' & [= <-] & Hc & E); [cbn; lia |]. rewrite Z.add_0_r in E. rewrite E.
    destruct (Z.eqb_spec c 0); [done |]. destruct (Z.eqb_spec c target) as [->|Hct].
    + rewrite decide_True; [done | left].
    + rewrite IH; [| apply (cstring_drop Hs 1); cbn; lia | lia].
      destruct (decide (target ∈ s)); [rewrite decide_True by (by right) | rewrite decide_False by (by apply not_elem_of_cons)]; done.
Qed.

Lemma cstring_bytes p s : cstring m p s -> Forall is_byte s.
Proof using Hm.
  intros (_ & E & _). pose proof (load_bytes_range m p (S (length s)) Hm) as Hb. rewrite E in Hb. by apply Forall_app in Hb as [Hb _].
Qed.

(** The text before is the head of the string. *)
Lemma split_at_prefix by_ s : exists b, s = fst (split_at by_ s) ++ b.
Proof using Type.
  destruct (split_at_cases by_ s) as [(_ & E & _)|(_ & ->)]; [by eexists | exists []; by rewrite app_nil_r].
Qed.

Lemma split_at_stops p by_ s : cstring m p s ->
  let c := load m (p + Z.of_nat (length (fst (split_at by_ s)))) in negb (c =? 0) && negb (c =? by_) = false.
Proof using Type.
  intros Hs. cbv zeta. destruct (split_at_cases by_ s) as [(Hin & E & _)|(_ & E)].
  - destruct (cstring_char Hs (length (fst (split_at by_ s)))) as (c & Hc & _ & ->).
    { rewrite E at 2. rewrite length_app. cbn. lia. }
    assert (s !! length (fst (split_at by_ s)) = Some by_) as Hb by (by eapply lookup_at_split).
    rewrite Hb in Hc. injection Hc as <-. rewrite Z.eqb_refl. apply andb_false_r.
  - rewrite E. cbn [fst]. by rewrite (cstring_end Hs).
Qed.

Lemma split_at_goes_on p by_ s i : cstring m p s -> (i < length (fst (split_at by_ s)))%nat ->
  exists c, s !! i = Some c /\ is_byte c /\ load m (p + Z.of_nat i) = c /\ negb (c =? 0) && negb (c =? by_) = true.
Proof using Hm.
  intros Hs Hi. destruct (split_at_prefix by_ s) as [b Hb].
  destruct (cstring_char Hs i) as (c & Hc & Hc0 & E); [rewrite Hb, length_app; lia |].
  exists c. split_and!; [done | by apply (Forall_lookup_1 _ _ _ _ (cstring_bytes p s Hs) Hc) | done |].
  destruct (Z.eqb_spec c 0), (Z.eqb_spec c by_) as [->|]; try done. exfalso.
  assert (by_ ∈ fst (split_at by_ s)).
  { rewrite Hb, lookup_app_l in Hc by done. by eapply list_elem_of_lookup_2. }
  destruct (split_at_cases by_ s) as [(_ & _ & Hn)|(Hn & E')]; [done |]. rewrite E' in *. done.
Qed.

(** The copying loop of [split_by_first]. *)
Lemma split_copy_spec pstr by_ result s : cstring m pstr s ->
  let a := fst (split_at by_ s) in in_space result (S (length a)) ->
  apart pstr (S (length s)) result (S (length a)) ->
  forall n i m1, (i <= length a)%nat -> (length a - i < n)%nat ->
  patched m m1 result (take i s) -> bytes_ok m1 ->
  exists m2, split_copy m1 pstr by_ result i n = Ret (m2, length a) /\ patched m m2 result a /\ bytes_ok m2.
Proof using Hm.
  intros Hs a [Hr0 Hr1] Hap. pose proof Hs as ([Hp0 Hp1] & _). destruct (split_at_prefix by_ s) as [b Hb]. fold a in Hb.
  assert (length a <= length s)%nat as Hle by (rewrite Hb, length_app; subst a; lia).
  induction n as [|n IH]; intros i m1 Hi Hn Hp Hm1; [lia |]. cbn [split_copy].
  assert (load m1 (pstr + Z.of_nat i) = load m (pstr + Z.of_nat i)) as ->.
  { rewrite Hp by lia. rewrite length_take. unfold apart in Hap. split_cond; lia || done. }
  destruct (decide (i = length a)) as [->|Hne].
  { pose proof (split_at_stops pstr by_ s Hs) as Hst. cbv zeta in Hst. fold a in Hst. rewrite Hst. exists m1. split_and!; [done | | done].
    assert (take (length a) s = a) as Ht; [clearbody a; rewrite Hb; apply take_app_length | by rewrite Ht in Hp]. }
  destruct (split_at_goes_on pstr by_ s i Hs) as (c & Hc & Hby & -> & ->); [subst a; lia |].
  apply (IH (S i)); [lia | lia | | by apply store_bytes_ok].
  rewrite (take_S_r s i c Hc). apply patched_step; [done | rewrite length_take; lia | done | split; lia].
Qed.

(** Moving a string [k] places down. *)
Lemma shift_down_spec p k b : cstring m (p + Z.of_nat k) b -> 0 <= p -> (0 < k)%nat ->
  forall n j m1, (j <= length b)%nat -> (length b - j < n)%nat -> patched m m1 p (take j b) -> bytes_ok m1 ->
  exists m2, shift_down m1 p (k + j) j n = Ret (m2, length b) /\ patched m m2 p b /\ bytes_ok m2.
Proof using Hm.
  intros Hb Hp0 Hk. pose proof Hb as ([_ Hp1] & _).
  induction n as [|n IH]; intros j m1 Hj Hn Hp Hm1; [lia |]. cbn [shift_down].
  replace (p + Z.of_nat (k + j)) with (p + Z.of_nat k + Z.of_nat j) by lia.
  assert (load m1 (p + Z.of_nat k + Z.of_nat j) = load m (p + Z.of_nat k + Z.of_nat j)) as ->.
  { rewrite Hp by lia. rewrite length_take. split_cond; lia || done. }
  destruct (decide (j = length b)) as [->|Hne].
  { rewrite (cstring_end Hb). exists m1. split_and!; [done | | done]. by rewrite take_ge in Hp. }
  destruct (cstring_char Hb j) as (c & Hc & Hc0 & ->); [lia |].
  destruct (Z.eqb_spec c 0); [done |]. rewrite <- Nat.add_succ_r.
  apply (IH (S j)); [lia | lia | | by apply store_bytes_ok].
  rewrite (take_S_r b j c Hc). apply patched_step; [done | rewrite length_take; lia | | split; lia].
  by apply (Forall_lookup_1 _ _ _ _ (cstring_bytes _ _ Hb) Hc).
Qed.
End Specs.

(** Memory outside two runs is as before. *)
Definition same_beside (m m' : mem) (p : Z) (n : nat) (q : Z) (k : nat) : Prop := forall a, 0 <= a < 2 ^ 32 ->
  ~ (p <= a < p + Z.of_nat n) -> ~ (q <= a < q + Z.of_nat k) -> load m' a = load m a.

(** [split_by_first] leaves the text before the first [by_] in [result] and keeps
    the text behind it. *)
Lemma split_by_first_spec fuel m pstr by_ result s : bytes_ok m -> cstring m pstr s -> by_ <> 0 -> (length s < fuel)%nat ->
  let '(a, b) := split_at by_ s in in_space result (S (length a)) -> apart pstr (S (length s)) result (S (length a)) ->
  exists m', split_by_first fuel m pstr by_ result = Ret m' /\ bytes_ok m' /\ cstring m' result a /\ cstring m' pstr b /\
    same_beside m m' pstr (S (length s)) result (S (length a)).
Proof.
  intros Hm Hs Hby Hf. destruct (split_at by_ s) as [a b] eqn:E. intros Hsp Hap.
  pose proof (split_copy_spec Hm pstr by_ result s Hs) as Hcopy. cbv zeta in Hcopy. rewrite E in Hcopy. cbn [fst] in Hcopy.
  destruct (split_at_prefix by_ s) as [b0 Hb0]. rewrite E in Hb0. cbn [fst] in Hb0.
  assert (length a <= length s)%nat as Hle by (rewrite Hb0, length_app; lia).
  destruct (Hcopy Hsp Hap fuel 0%nat m) as (m2 & Ec & Hp2 & Hm2); [lia | lia | apply patched_nil | done |].
  pose proof Hs as ([Hp0 Hp1] & _ & Hnz). destruct Hsp as [Hr0 Hr1].
  unfold split_by_first. rewrite Ec, bind_ret_l. cbv zeta.
  set (m3 := store m2 (result + Z.of_nat (length a)) 0).
  assert (patched m m3 result (a ++ [0])) as Hp3 by (by apply (patched_snoc m m2 result a 0)).
  assert (bytes_ok m3) as Hm3 by by apply store_bytes_ok.
  assert (Forall nonzero a) as Hnza by (rewrite Hb0 in Hnz; by apply Forall_app in Hnz as [? _]).
  assert (forall x, 0 <= x < 2 ^ 32 -> ~ (result <= x < result + Z.of_nat (S (length a))) -> load m3 x = load m x) as H3.
  { intros x Hx Hn. rewrite Hp3 by done. rewrite length_app. cbn [length]. split_cond; lia || done. }
  assert (cstring m3 pstr s) as Hs3.
  { eapply cstring_ext; [| exact Hs]. apply (patched_other Hp3); [by split |].
    rewrite length_app, Nat.add_1_r. unfold apart in *. lia. }
  destruct (split_at_cases by_ s) as [(Hin & Es & Hna)|(Hin & Es)]; rewrite E in Es; cbn [fst snd] in Es.
  - assert (load m3 (pstr + Z.of_nat (length a)) = by_) as ->.
    { destruct (cstring_char Hs3 (length a)) as (c & Hc & _ & ->); [rewrite Es, length_app; cbn; lia |].
      assert (s !! length a = Some by_) as Hb by (by eapply lookup_at_split). congruence. }
    rewrite Z.eqb_refl. assert (length s = length a + S (length b))%nat as Hls by (rewrite Es, length_app; done).
    assert (cstring m3 (pstr + Z.of_nat (S (length a))) b) as Hb3.
    { pose proof (cstring_drop Hs3 (S (length a)) ltac:(lia)) as Hd.
      rewrite Es in Hd at 1. rewrite cons_middle, app_assoc, drop_app_length' in Hd; [exact Hd |]. rewrite length_app. cbn. lia. }
    destruct (shift_down_spec Hm3 pstr (S (length a)) b Hb3 Hp0 ltac:(lia) fuel 0%nat m3) as (m4 & Es4 & Hp4 & Hm4);
      [lia | lia | apply patched_nil | done |].
    rewrite Nat.add_0_r in Es4. rewrite Es4, bind_ret_l.
    assert (patched m3 (store m4 (pstr + Z.of_nat (length b)) 0) pstr (b ++ [0])) as Hp5
      by (apply (patched_snoc m3 m4 pstr b 0); [done | split; lia]).
    eexists. split; [reflexivity |]. split_and!; [by apply store_bytes_ok | | |].
    + eapply cstring_ext; [apply (patched_other Hp5); [by split |]; rewrite length_app; unfold apart in *; cbn [length]; lia |].
      apply (patched_cstring m m3); [done | by split | done].
    + apply (patched_cstring m3); [done | split; lia |]. rewrite Es in Hnz. apply Forall_app in Hnz as [_ Hnz]. by inversion Hnz.
    + intros x Hx H1 H2. rewrite Hp5 by done. rewrite length_app. cbn [length]. split_cond; [lia | by apply H3].
  - injection Es as -> ->. rewrite (cstring_end Hs3). destruct (Z.eqb_spec 0 by_); [done |].
    assert (patched m3 (store m3 pstr 0) pstr [0]) as Hp5 by (apply patched_store; lia).
    eexists. split; [reflexivity |]. split_and!; [by apply store_bytes_ok | | |].
    + eapply cstring_ext; [apply (patched_other Hp5); [by split |]; unfold apart in *; cbn [length]; lia |].
      apply (patched_cstring m m3); [done | by split | done].
    + apply (patched_cstring m3 _ pstr []); [done | split; cbn [length]; lia | constructor].
    + intros x Hx H1 H2. rewrite Hp5 by done. cbn [length]. split_cond; [lia | by apply H3].
Qed.

(** A string without newline stays as it is. *)
Lemma newline_loop_none m str i n : (forall k, (i <= k < i + n)%nat -> load m (str + Z.of_nat k) <> 10) ->
  newline_loop m str i n = m.
Proof.
  revert i. induction n as [|n IH]; intros i Hk; cbn [newline_loop]; [done |].
  destruct (Z.eqb_spec (load m (str + Z.of_nat i)) 10) as [E|]; [exfalso; apply (Hk i); [lia | done] |].
  apply IH. intros k Hki. apply Hk. lia.
Qed.

Lemma remove_newline_none fuel m p s : cstring m p s -> 10 ∉ s -> (length s < fuel)%nat -> remove_newline fuel m p = Ret m.
Proof.
  intros Hs Hn Hf. unfold remove_newline, strlen_at. rewrite (strlen_cstring m p s) by done. rewrite bind_ret_l, Nat2Z.id.
  f_equal. apply newline_loop_none. intros k Hk. destruct (cstring_char Hs k) as (c & Hc & _ & ->); [lia |].
  intros ->. apply Hn. by eapply list_elem_of_lookup_2.
Qed.

(** Padding with zeros. *)
Lemma patched_pad m p len size : 0 <= len -> in_space p size ->
  patched m (pad m p len size) (p + len) (replicate (size - Z.to_nat len) 0).
Proof.
  intros Hl [H0 H1]. unfold pad. set (k := Z.to_nat len). replace (p + len) with (p + Z.of_nat k) by lia.
  replace (size - k)%nat with (k + (size - k) - k)%nat at 2 by lia.
  apply (for_up_ind (fun i m' => patched m m' (p + Z.of_nat k) (replicate (i - k) 0)) _ k (size - k) m).
  - rewrite Nat.sub_diag. apply patched_nil.
  - intros i m' Hi Hp. replace (S i - k)%nat with (S (i - k)) by lia. rewrite replicate_S_end.
    replace (p + Z.of_nat i) with (p + Z.of_nat k + Z.of_nat (i - k)) by lia.
    apply patched_step; [done | apply length_replicate | by split | split; lia].
Qed.

Lemma pad_bytes_ok m p len size : bytes_ok m -> bytes_ok (pad m p len size).
Proof.
  intros Hm. unfold pad. apply (for_up_ind (fun _ => bytes_ok)); [done |]. intros i m' _ Hm'. by apply store_bytes_ok.
Qed.
