(* ===== verification/Shell.v ===== *)
(** * The shell's state and system calls (src/user-shell.c, first part)

    The shell is a user program: its globals and arrays are bytes of the address
    space, and it reaches the kernel through interrupt 0x30 only.  [Os] is the
    machine as the program sees it; a piece of C is an action of the monad [Sh].

    A [Layout] gives the addresses the compiler and linker choose.  The struct a
    system call wrapper takes by value is the copy at [arg]; an array of a function
    has one address, [var "function.array"]; the literals [puts] prints are at
    [text].  The kernel reads and writes the program's memory through these
    addresses. *)
From Stdlib Require Import String.
From S2P Require Import Prelude CString Fat32Types IntStr ShellStrings.
#[local] Open Scope Z_scope.

(** ** The machine *)

Class Os (K : Type) := {
  os_mem : K -> mem;
  set_mem : K -> mem -> K;
  (** interrupt 0x30 with eax, ebx, ecx and edx *)
  int30 : K -> Z -> Z -> Z -> Z -> outcome K;
}.

Record Layout := mkLayout {
  cl : Z;
  request : Z;
  retcode : Z;
  current_dir : Z;
  buf : Z;
  temp_buf : Z;
  cur_char : Z;
  is_entered : Z;
  currentdirlen : Z;
  cwd_cluster_number : Z;
  arg : Z;
  text : string -> Z;
  var : string -> Z;
}.

(** A line of text, ending in a newline. *)
Definition ln (s : string) : string := (s ++ String (Ascii.ascii_of_nat 10) EmptyString)%string.

(** ** Actions *)

Definition Sh (K A : Type) : Type := K -> outcome (A * K).
#[global] Typeclasses Opaque Sh.
#[export] Instance sh_ret {K} : MRet (Sh K) := fun A a s => Ret (a, s).
#[export] Instance sh_bind {K} : MBind (Sh K) := fun A B f e s =>
  match e s with
  | Ret (a, s') => f a s'
  | Oob => Oob
  | NoFuel => NoFuel
  end.
Definition skip {K} : Sh K unit := fun s => Ret (tt, s).
Definition when {K} (b : bool) (e : Sh K unit) : Sh K unit := if b then e else skip.

(** Offsets of the packed struct FAT32DriverRequest. *)
Definition REQUEST_SIZE : nat := 23.
Definition f_buf (r : Z) : Z := r.
Definition f_name (r : Z) : Z := r + 4.
Definition f_ext (r : Z) : Z := r + 12.
Definition f_parent (r : Z) : Z := r + 15.
Definition f_size (r : Z) : Z := r + 19.

(** The globals as the program file holds them; those without initialiser are zero.
    [&cl] is the first buffer of [request]. *)
Definition initial_request (g : Layout) : list Z :=
  le_encode 4 (u32 (cl g)) ++ bytes_of "shell" ++ replicate 3 0 ++ replicate 3 0 ++
  le_encode 4 ROOT_CLUSTER_NUMBER ++ le_encode 4 CLUSTER_SIZE.
Definition load_globals (g : Layout) (m : mem) : mem :=
  let m := memset m (cl g) 0 4096 in
  let m := store_bytes m (request g) (initial_request g) in
  let m := memset m (retcode g) 0 4 in
  let m := store_bytes m (current_dir g) (bytes_of "/" ++ replicate 254 0) in
  let m := memset m (buf g) 0 2000 in
  let m := memset m (temp_buf g) 0 2000 in
  let m := store m (cur_char g) 0 in
  let m := store m (is_entered g) 0 in
  let m := store m (currentdirlen g) 1 in
  store_bytes m (cwd_cluster_number g) (le_encode 4 ROOT_CLUSTER_NUMBER).

Section Actions.
Context {K : Type} `{Os K} (g : Layout) (fuel : nat).

(** ** Memory *)

(** A pure view of memory and a change of it. *)
Definition look {A} (f : mem -> A) : Sh K A := fun s => Ret (f (os_mem s), s).
Definition change (f : mem -> mem) : Sh K unit := fun s => Ret (tt, set_mem s (f (os_mem s))).
(** The same for routines that may not end. *)
Definition look_out {A} (f : mem -> outcome A) : Sh K A := fun s => a ← f (os_mem s); Ret (a, s).
Definition change_out (f : mem -> outcome mem) : Sh K unit := fun s => m ← f (os_mem s); Ret (tt, set_mem s m).

Definition get8 (p : Z) : Sh K Z := look (fun m => load m p).
Definition put8 (p v : Z) : Sh K unit := change (fun m => store m p v).
Definition get32 (p : Z) : Sh K Z := look (fun m => le_decode (load_bytes m p 4)).
Definition put32 (p v : Z) : Sh K unit := change (fun m => store_bytes m p (le_encode 4 (u32 v))).
(** An [int32_t]. *)
Definition get_int (p : Z) : Sh K Z := look (fun m => i32 (le_decode (load_bytes m p 4))).

Definition strlen_of (p : Z) : Sh K Z := look_out (fun m => strlen_at fuel m p).
Definition copy (dest src n : Z) : Sh K unit := change (fun m => memcpy m dest src (Z.to_nat n)).
Definition fill (p c : Z) (n : nat) : Sh K unit := change (fun m => memset m p c n).
(** [memcpy] from a literal and [memcmp] with one. *)
Definition copy_text (dest : Z) (s : string) : Sh K unit := change (fun m => store_bytes m dest (bytes_of s)).
Definition same_text (s : string) (p : Z) (n : nat) : Sh K bool :=
  look (fun m => memcmp (at_list (bytes_of s ++ [0])) (at_ptr m p) n =? 0).

Definition pad_to (p len : Z) (size : nat) : Sh K unit := change (fun m => pad m p len size).
Definition split (pstr by_ result : Z) : Sh K unit := change_out (fun m => split_by_first fuel m pstr by_ result).
Definition includes (p c : Z) : Sh K bool := look_out (fun m => r ← is_include fuel m p c; Ret (negb (r =? 0))).

(** [str[strlen(str)] = '\0'] when the string is shorter than [n], else
    [str[n] = '\0']. *)
Definition terminate (str n : Z) : Sh K unit :=
  len ← strlen_of str;
  put8 (if len <? n then str + len else str + n) 0.

(** ** System calls *)

Definition sys (a b c d : Z) : Sh K unit := fun s => s' ← int30 s a b c d; Ret (tt, s').

(** The struct argument of a wrapper is a copy. *)
Definition by_value (r : Z) : Sh K unit := copy (arg g) r (Z.of_nat REQUEST_SIZE).

Definition read_syscall (r : Z) : Sh K unit := by_value r;; sys 0 (arg g) (retcode g) 0.
Definition read_dir_syscall (r : Z) : Sh K unit := by_value r;; sys 1 (arg g) (retcode g) 0.
Definition write_syscall (r : Z) : Sh K unit := by_value r;; sys 2 (arg g) (retcode g) 0.
Definition delete_syscall (r : Z) : Sh K unit := by_value r;; sys 3 (arg g) (retcode g) 0.
Definition get_user_input (p : Z) : Sh K unit := sys 4 p (retcode g) 0.
Definition puts (str len color : Z) : Sh K unit := sys 6 str len color.
Definition activate_keyboard : Sh K unit := sys 7 0 0 0.
Definition move_child_dir (r : Z) : Sh K unit := by_value r;; sys 8 (arg g) (retcode g) 0.
Definition move_parent_dir (r : Z) : Sh K unit := by_value r;; sys 9 (arg g) (retcode g) 0.
(** Number 18 is the kernel's path search. *)
Definition move_sys (r dst : Z) : Sh K Z :=
  sys 18 r (var g "move_sys.ret") dst;; get32 (var g "move_sys.ret").

Definition say (s : string) (len color : Z) : Sh K unit := puts (text g s) len color.
(** [puts(str, strlen(str), 0xF)] *)
Definition puts_all (str : Z) : Sh K unit := len ← strlen_of str; puts str len 0xF.

(** Shorthands for the globals. *)
Definition req : Z := request g.
Definition get_retcode : Sh K Z := get_int (retcode g).
Definition get_cwd : Sh K Z := get32 (cwd_cluster_number g).
Definition put_cwd (v : Z) : Sh K unit := put32 (cwd_cluster_number g) v.
Definition get_dirlen : Sh K Z := get8 (currentdirlen g).
Definition put_dirlen (v : Z) : Sh K unit := put8 (currentdirlen g) v.

Definition command : Sh K unit :=
  say "UsusBuntu@OS-IF2230:" 21 0xA;;
  puts (current_dir g) 255 0x9;;
  say "$ " 3 0xF.
Definition clear : Sh K unit := sys 13 0 0 0.
Definition clear_buf : Sh K unit := fill (buf g) 0 256.
Definition clear_temp_buffer : Sh K unit := fill (temp_buf g) 0 256.

(** ** Changing directory *)

(** [while (current_dir[currentdirlen] != '/') { ... = '\0'; currentdirlen--; }] *)
Fixpoint chop (n : nat) : Sh K unit :=
  match n with
  | O => fun _ => NoFuel
  | S n' =>
    len ← get_dirlen;
    c ← get8 (current_dir g + len);
    if c =? 47 then skip else
    put8 (current_dir g + len) 0;;
    put_dirlen (len - 1);;
    chop n'
  end.

(** [current_dir[currentdirlen] = c; currentdirlen++;] *)
Definition append_char (c : Z) : Sh K unit :=
  len ← get_dirlen; put8 (current_dir g + len) c;; put_dirlen (len + 1).

(** [while (idx < strlen(request.name) && idx < 8) { ...; idx++; }] *)
Fixpoint append_name (idx : Z) (n : nat) : Sh K unit :=
  match n with
  | O => fun _ => NoFuel
  | S n' =>
    name_len ← strlen_of (f_name req);
    if negb ((idx <? name_len) && (idx <? 8)) then skip else
    c ← get8 (f_name req + idx);
    append_char c;;
    append_name (idx + 1) n'
  end.

Definition append_slash : Sh K unit := append_char 47.

Definition cd_up : Sh K unit :=
  cwd ← get_cwd;
  put32 (f_parent req) cwd;;
  when (negb (cwd =? ROOT_CLUSTER_NUMBER))
    (move_parent_dir req;;
     rc ← get_retcode; put_cwd rc;;
     len ← get_dirlen; put_dirlen (len - 2);;
     chop 257;;
     append_slash).

Definition cd_down (argument : Z) : Sh K unit :=
  put32 (f_size req) CLUSTER_SIZE;;
  put32 (f_buf req) (buf g);;
  len ← strlen_of argument;
  copy (f_name req) argument len;;
  idx ← strlen_of argument;
  pad_to (f_name req) idx 8;;
  copy_text (f_ext req) "dir";;
  cwd ← get_cwd; put32 (f_parent req) cwd;;
  read_dir_syscall req;;
  rc ← get_retcode;
  if rc =? 0 then
    move_child_dir req;;
    rc ← get_retcode; put_cwd rc;;
    append_name 0 9;;
    append_slash
  else when (rc =? 2) (say (ln "Folder not found.") 18 0xF).

(** [memcmp("..", argument, 2) == 0 && strlen(argument) == 2] *)
Definition is_up (argument : Z) : Sh K bool :=
  dots ← same_text ".." argument 2;
  if (dots : bool) then len ← strlen_of argument; mret (len =? 2) else mret false.

Definition cd (argument : Z) : Sh K unit :=
  up ← is_up argument;
  if (up : bool) then cd_up else cd_down argument.

(** [while (true) { if (is_include(path, '/')) { split_by_first(path, '/', res);
    cd(res); } else { cd(path); break; } }] *)
Fixpoint cd_path (path res : Z) (n : nat) : Sh K unit :=
  match n with
  | O => fun _ => NoFuel
  | S n' =>
    more ← includes path 47;
    if (more : bool) then split path 47 res;; cd res;; cd_path path res n' else cd path
  end.
End Actions.
