(* ===== verification/ShellCommands.v ===== *)
(** * The commands of the shell (src/user-shell.c, second part)

    Every command after [cd], the line editor and the main loop. *)
From Stdlib Require Import String.
From S2P Require Import Prelude CString Fat32Types IntStr DirList ShellStrings Shell.
#[local] Open Scope Z_scope.

Section Commands.
Context {K : Type} `{Os K} (g : Layout) (fuel : nat).

#[local] Notation strlen_of := (strlen_of fuel).
#[local] Notation split := (split fuel).
#[local] Notation includes := (includes fuel).
#[local] Notation terminate := (terminate fuel).
#[local] Notation puts_all := (puts_all fuel).
#[local] Notation cd := (cd g fuel).

(** Both paddings of [reader_with_clust] and [writer_with_clust]. *)
Definition pad_names (name ext : Z) : Sh K unit :=
  len_name ← strlen_of name; pad_to name len_name 8;;
  len_ext ← strlen_of ext; pad_to ext len_ext 3.

Definition reader_with_clust (dir_cluster_number name ext : Z) : Sh K unit :=
  pad_names name ext;;
  put32 (f_size (req g)) CLUSTER_SIZE;;
  put32 (f_parent (req g)) dir_cluster_number;;
  copy (f_name (req g)) name 8;;
  copy (f_ext (req g)) ext 3;;
  read_syscall g (req g).

Definition writer_with_clust (dir_cluster_number name ext buffer : Z) : Sh K unit :=
  pad_names name ext;;
  len_buffer ← strlen_of buffer; pad_to buffer len_buffer 512;;
  put32 (f_size (req g)) CLUSTER_SIZE;;
  put32 (f_parent (req g)) dir_cluster_number;;
  copy (f_name (req g)) name 8;;
  copy (f_ext (req g)) ext 3;;
  b ← get32 (f_buf (req g)); copy b buffer 512;;
  write_syscall g (req g).

(** The [while (true)] loop of [cp]: it counts the directories entered. *)
Fixpoint cp_enter (dest res cd_count : Z) (n : nat) : Sh K Z :=
  match n with
  | O => fun _ => NoFuel
  | S n' =>
    more ← includes dest 47;
    if (more : bool) then
      split dest 47 res;;
      cd res;;
      rc ← get_retcode g;
      if rc =? 2 then mret cd_count else cp_enter dest res (cd_count + 1) n'
    else
      cd dest;;
      rc ← get_retcode g;
      mret (if rc =? 2 then cd_count else cd_count + 1)
  end.

(** [for (i = 0; i < cd_count; i++) cd("..");] *)
Fixpoint cd_back (n : nat) : Sh K unit :=
  match n with O => skip | S n' => cd (text g "..");; cd_back n' end.

Definition failed_to_copy : Sh K unit :=
  rc ← get_retcode g; when (negb (rc =? 0)) (say g (ln "failed to copy ") 17 0x4).

Definition cp (argument : Z) : Sh K unit :=
  let source := var g "cp.source" in
  let source_ext := var g "cp.source_ext" in
  let source_name := var g "cp.source_name" in
  let dest := var g "cp.dest" in
  let source_content := var g "cp.source_content" in
  split argument 32 source;;
  split source 46 source_name;;
  len ← strlen_of source; copy source_ext source len;;
  pad_to source_ext (u8 len) 3;;
  len ← strlen_of argument; copy dest argument len;;
  pad_to dest len 200;;
  cwd ← get_cwd g; reader_with_clust cwd source_name source_ext;;
  b ← get32 (f_buf (req g));
  len ← strlen_of b; copy source_content b len;;
  pad_to source_content len 2000;;
  rc ← get_retcode g;
  if rc =? 0 then
    dotted ← includes dest 46;
    slashed ← includes dest 47;
    dest_len ← strlen_of dest;
    if dotted && negb slashed && (dest_len <=? 12) then
      let target_name := var g "cp.target_name" in
      let target_ext := var g "cp.target_ext" in
      split dest 46 target_name;;
      len ← strlen_of dest; copy target_ext dest len;;
      pad_to target_ext (u8 len) 3;;
      cwd ← get_cwd g; writer_with_clust cwd target_name target_ext source_content;;
      failed_to_copy
    else if negb dotted then
      cd_count ← cp_enter dest (var g "cp.res") 0 fuel;
      rc ← get_retcode g;
      if rc =? 2 then
        say g (ln "the path is invalid") 21 0x4;;
        cd_back (Z.to_nat cd_count)
      else
        cwd ← get_cwd g; writer_with_clust cwd source_name source_ext source_content;;
        failed_to_copy;;
        cd_back (Z.to_nat cd_count)
    else say g (ln "invalid target") 15 0x4
  else if rc =? 3 then say g (ln "Source file not found.") 24 0x4
  else say g (ln "Unknown error.") 16 0x4.

Definition mkdir (argument : Z) : Sh K unit :=
  len ← strlen_of argument;
  let name_len := u8 len in
  put32 (f_size (req g)) 0;;
  put32 (f_buf (req g)) (buf g);;
  pad_to argument name_len 8;;
  copy_text (f_ext (req g)) "dir";;
  cwd ← get_cwd g; put32 (f_parent (req g)) cwd;;
  copy (f_name (req g)) argument (Z.max name_len 8);;
  read_dir_syscall g (req g);;
  rc ← get_retcode g;
  if rc =? 0 then
    say g "Folder'" 7 0xF;;
    puts (f_name (req g)) 8 0xF;;
    say g (ln "' already exists.") 19 0xF
  else when (rc =? 2)
    (fill (buf g) 0 2048;;
     write_syscall g (req g);;
     rc ← get_retcode g;
     if negb (rc =? 0) then say g (ln "Unknown error.") 15 0xF
     else
       say g "Folder '" 8 0xF;;
       puts (f_name (req g)) 8 0xF;;
       say g (ln "' created.") 12 0xF).

Definition cat (argument : Z) : Sh K unit :=
  let filename := var g "cat.filename" in
  split argument 46 filename;;
  len ← strlen_of filename;
  let name_len := u8 len in
  put32 (f_size (req g)) CLUSTER_SIZE;;
  put32 (f_buf (req g)) (buf g);;
  pad_to filename name_len 8;;
  copy (f_name (req g)) filename (Z.max name_len 8);;
  len ← strlen_of argument; copy (f_ext (req g)) argument len;;
  cwd ← get_cwd g; put32 (f_parent (req g)) cwd;;
  read_syscall g (req g);;
  rc ← get_retcode g;
  if rc =? 0 then
    b ← get32 (f_buf (req g)); puts_all b;;
    say g (ln "") 1 0xF
  else if rc =? 1 then say g (ln "Not a file") 11 0x4
  else if rc =? 2 then say g (ln "Not enough buffer") 18 0x4
  else if rc =? -1 then say g (ln "Unknown error -1") 17 0x4
  else say g (ln "Unknown error") 14 0x4.

(** "Folder '", or "File '", then the name, and the extension of a file. *)
Definition rm_names : Sh K unit :=
  is_dir ← same_text "dir" (f_ext (req g)) 3;
  (if (is_dir : bool) then say g "Folder '" 8 0xF else say g "File '" 6 0xF);;
  puts (f_name (req g)) 8 0xF;;
  is_dir ← same_text "dir" (f_ext (req g)) 3;
  when (negb is_dir) (say g "." 1 0xF;; puts (f_ext (req g)) 3 0xF).

(** [memcmp(argument, "", 0) == 0] holds always. *)
Definition rm (argument : Z) : Sh K unit :=
  let filename := var g "rm.filename" in
  split argument 46 filename;;
  put32 (f_size (req g)) 0;;
  put32 (f_buf (req g)) (buf g);;
  cwd ← get_cwd g; put32 (f_parent (req g)) cwd;;
  len ← strlen_of filename;
  when (len <=? 8) (put8 (filename + len) 0);;
  put8 (filename + 8) 0;;
  len ← strlen_of filename; copy (f_name (req g)) filename len;;
  len ← strlen_of argument;
  when (len <=? 3) (put8 (argument + len) 0);;
  put8 (argument + 3) 0;;
  any ← same_text "" argument 0;
  when any
    (read_dir_syscall g (req g);;
     rc ← get_retcode g;
     if rc =? 0 then copy_text (f_ext (req g)) "dir"
     else when (rc =? 1)
       (read_syscall g (req g);;
        rc ← get_retcode g;
        copy (f_ext (req g)) (if rc =? 0 then text g "" else argument) 3));;
  delete_syscall g (req g);;
  rc ← get_retcode g;
  if rc =? 0 then
    say g "Success " 8 0xF;; rm_names;; say g (ln "' is deleted.") 15 0xF
  else if rc =? 1 then
    say g "Cannot remove: '" 22 0xF;; rm_names;; say g (ln "Not found") 10 0xF
  else if rc =? 2 then
    say g "Cannot remove: File '" 22 0xF;;
    puts (f_name (req g)) 8 0xF;;
    say g (ln "' is not empty.") 17 0xF
  else when (rc =? -1) (say g (ln "Unknown error.") 15 0xF).

(** The text a listing call left at [p], or [none]. *)
Definition print_result (p : Z) (none : string) (len : Z) : Sh K unit :=
  c ← get8 p;
  if c =? 0 then say g none len 0x4 else puts_all p.

Definition find (argument : Z) : Sh K unit :=
  let directories := var g "find.directories" in
  len ← strlen_of argument;
  let name_len := u8 len in
  put32 (f_size (req g)) CLUSTER_SIZE;;
  put32 (f_buf (req g)) (buf g);;
  pad_to argument name_len 8;;
  copy (f_name (req g)) argument (Z.max name_len 8);;
  copy_text (f_ext (req g)) "dir";;
  cwd ← get_cwd g; put32 (f_parent (req g)) cwd;;
  put8 directories 0;;
  sys 18 directories cwd argument;;
  print_result directories (ln "Directory Empty") 16.

Definition search_with (call : Z) (result argument : Z) : Sh K unit :=
  put8 result 0;;
  cwd ← get_cwd g; sys call result cwd argument;;
  print_result result (ln "No matching file found.") 24.
Definition search1 (argument : Z) : Sh K unit := search_with 12 (var g "search1.result") argument.
Definition search2 (argument : Z) : Sh K unit := search_with 19 (var g "search2.result") argument.

(** Copy a string with its terminator. *)
Definition save_string (dest src : Z) : Sh K unit :=
  len ← strlen_of src; copy dest src len;;
  len ← strlen_of src; put8 (dest + len) 0.

Fixpoint enter_path (path res : Z) (n : nat) : Sh K unit :=
  match n with
  | O => fun _ => NoFuel
  | S n' =>
    more ← includes path 47;
    if (more : bool) then split path 47 res;; cd res;; enter_path path res n' else skip
  end.

Definition search_cluster_resolve_path (cluster_number path : Z) : Sh K Z :=
  let initial_dir := var g "resolve.initial_dir" in
  let initial_path := var g "resolve.initial_path" in
  save_string initial_dir (current_dir g);;
  initial_curdirlen ← get_dirlen g;
  save_string initial_path path;;
  enter_path path (var g "resolve.res") fuel;;
  found ← get_cwd g;
  save_string (current_dir g) initial_dir;;
  put_dirlen g initial_curdirlen;;
  save_string path initial_path;;
  put_cwd g cluster_number;;
  mret found.

(** A request on the stack: extension and name of a moved entry; [true] when the
    command goes on. *)
Definition mv_source (last_name src_name src_req : Z) : Sh K unit :=
  dotted ← includes last_name 46;
  if (dotted : bool) then
    let src_ext := var g "mv.src_ext" in
    split last_name 46 src_name;;
    copy src_ext last_name 3;;
    copy (f_ext src_req) src_ext 3
  else
    copy_text (f_ext src_req) "dir";;
    copy src_name last_name 8;;
    read_dir_syscall g src_req;;
    rc ← get_retcode g;
    when (negb (rc =? 0)) (fill (f_ext src_req) 0 3).

Definition mv_target (dest_last_name dst_name dst_req : Z) : Sh K bool :=
  dotted ← includes dest_last_name 46;
  if (dotted : bool) then
    say g (ln "Destination is a file") 22 0xF;;
    say g (ln "Please specify a directory") 28 0xF;;
    mret false
  else
    copy_text (f_ext dst_req) "dir";;
    copy dst_name dest_last_name 8;;
    read_dir_syscall g dst_req;;
    rc ← get_retcode g;
    if rc =? 1 then say g (ln "Destination is not a directory") 31 0xF;; mret false
    else if rc =? -1 then say g (ln "Unknown error") 14 0xF;; mret false
    else mret true.

Definition mv_report (src_name dst_name src_req : Z) : Sh K unit :=
  rc ← get_retcode g;
  if rc =? 0 then
    say g "Success move '" 14 0xF;;
    puts src_name 8 0xF;;
    is_dir ← same_text "dir" (f_ext src_req) 3;
    when (negb is_dir) (say g "." 1 0xF;; puts (f_ext src_req) 3 0xF);;
    say g "' to '" 7 0xF;;
    puts dst_name 8 0xF;;
    say g (ln "'") 2 0xF
  else if rc =? 1 then say g (ln "Error: Source entry not found.") 31 0xF
  else if rc =? 2 then say g (ln "Error: Failed to read destination directory.") 45 0xF
  else if rc =? 3 then say g (ln "Error: Destination directory is full.") 39 0xF
  else if rc =? 4 then say g (ln "Error: Source and destination directories are the same.") 56 0xF
  else say g (ln "Error: Unknown error occurred.") 32 0xF.

Definition mv (argument : Z) : Sh K unit :=
  let source := var g "mv.source" in
  let last_name := var g "mv.last_name" in
  let dest_last_name := var g "mv.dest_last_name" in
  let source_buffer := var g "mv.source_buffer" in
  let dest_buffer := var g "mv.dest_buffer" in
  let src_req := var g "mv.src_req" in
  let dst_req := var g "mv.dst_req" in
  let src_name := var g "mv.src_name" in
  let dst_name := var g "mv.dst_name" in
  split argument 32 source;;
  len ← strlen_of source; put8 (if len <? 256 then source + len else source + 255) 0;;
  len ← strlen_of argument; put8 (if len <? 256 then argument + len else argument + 255) 0;;
  len ← strlen_of source; copy source_buffer source len;;
  len ← strlen_of argument; copy dest_buffer argument len;;
  cwd ← get_cwd g; source_cluster_number ← search_cluster_resolve_path cwd source;
  cwd ← get_cwd g; dest_cluster_number ← search_cluster_resolve_path cwd argument;
  change_out (fun m => get_last_name fuel m source last_name);;
  change_out (fun m => get_last_name fuel m argument dest_last_name);;
  mv_source last_name src_name src_req;;
  go_on ← mv_target dest_last_name dst_name dst_req;
  when go_on
    (put32 (f_size src_req) CLUSTER_SIZE;;
     put32 (f_size dst_req) CLUSTER_SIZE;;
     put32 (f_buf src_req) source_buffer;;
     put32 (f_buf dst_req) dest_buffer;;
     put32 (f_parent src_req) source_cluster_number;;
     put32 (f_parent src_req) dest_cluster_number;;
     ret ← move_sys g src_req dst_req;
     put32 (retcode g) ret;;
     mv_report src_name dst_name src_req).

(** "File 'name.ext" *)
Definition say_file (s : string) (len : Z) : Sh K unit :=
  say g s len 0xF;;
  puts (f_name (req g)) 8 0xF;;
  say g "." 1 0xF;;
  puts (f_ext (req g)) 3 0xF.

Definition touch (argument : Z) : Sh K unit :=
  let filename := var g "touch.filename" in
  split argument 46 filename;;
  put32 (f_size (req g)) CLUSTER_SIZE;;
  put32 (f_buf (req g)) (buf g);;
  terminate filename 8;;
  terminate argument 3;;
  copy (f_ext (req g)) argument 3;;
  cwd ← get_cwd g; put32 (f_parent (req g)) cwd;;
  copy (f_name (req g)) filename 8;;
  read_syscall g (req g);;
  rc ← get_retcode g;
  if rc =? 0 then say_file "File'" 7;; say g (ln "' already exists.") 19 0xF
  else when (rc =? 3)
    (fill (buf g) 0 2048;;
     write_syscall g (req g);;
     rc ← get_retcode g;
     if negb (rc =? 0) then say g (ln "Unknown error.") 15 0xF
     else say_file "File '" 8;; say g (ln "' created.") 12 0xF).

Definition echo (argument : Z) : Sh K unit :=
  let text_ := var g "echo.text" in
  let name := var g "echo.name" in
  change_out (fun m => remove_space fuel m argument);;
  change_out (fun m => remove_petik fuel m argument);;
  split argument 62 text_;;
  put32 (f_size (req g)) CLUSTER_SIZE;;
  put8 (text_ + 256) 0;;
  cwd ← get_cwd g; put32 (f_parent (req g)) cwd;;
  split argument 46 name;;
  put8 (argument + 3) 0;;
  len ← strlen_of argument; when (len <? 3) (put8 (argument + len) 0);;
  put8 (name + 8) 0;;
  len ← strlen_of name; when (len <? 8) (put8 (name + len) 0);;
  len ← strlen_of text_; when (len <? 256) (put8 (text_ + len) 0);;
  put8 (text_ + 256) 0;;
  b ← get32 (f_buf (req g)); copy b text_ 256;;
  put8 (argument + 3) 0;;
  copy (f_ext (req g)) argument 4;;
  copy (f_name (req g)) name 8;;
  read_syscall g (req g);;
  rc ← get_retcode g;
  if rc =? 1 then say g (ln "Not a file.") 12 0xF
  else if rc =? 2 then say g (ln "Not enough buffer") 18 0xF
  else if rc =? 3 then say g (ln "Not found.") 11 0xF
  else if rc =? -1 then say g (ln "Unknown error read.") 15 0xF
  else
    delete_syscall g (req g);;
    write_syscall g (req g);;
    rc ← get_retcode g;
    if negb (rc =? 0) then say g (ln "Unknown error write.") 15 0xF
    else say_file "File '" 8;; say g (ln "' updated.") 12 0xF.

Definition print_kaguya : Sh K unit :=
  cat (text g "kaguya.txt");;
  say g (ln "") 1 0xF;;
  say g (ln "Welcome to UsusBuntu OS") 25 0xF;;
  say g (ln "Type 'help' to see the list of available commands") 51 0xF.

Definition exec (argument : Z) : Sh K unit :=
  let filename := var g "exec.filename" in
  split argument 46 filename;;
  len ← strlen_of filename;
  put32 (f_size (req g)) CLUSTER_SIZE;;
  put32 (f_buf (req g)) (buf g);;
  pad_to filename (u8 len) 8;;
  len ← strlen_of argument;
  pad_to argument (u8 len) 3;;
  copy (f_ext (req g)) argument 3;;
  cwd ← get_cwd g; put32 (f_parent (req g)) cwd;;
  copy (f_name (req g)) filename 8;;
  read_syscall g (req g);;
  rc ← get_retcode g;
  if rc =? 0 then say_file "Executing '" 11;; say g (ln "'") 2 0xF;; sys 15 (req g) 0 0
  else if rc =? 3 then say g (ln "File not found") 15 0xF
  else say g (ln "Unknown error") 14 0xF.

Definition ps_syscall : Sh K unit :=
  say g (ln "Process list:") 14 0xF;; sys 16 (buf g) 0 0.

(** [str_to_int] reads to the terminator. *)
Definition kill (argument : Z) : Sh K unit :=
  pid ← look_out (fun m => str_to_int (i8 <$> load_bytes m argument fuel));
  sys 14 (u32 pid) 0 0.

(** [int_to_str] on memory: at most eleven characters and the terminator. *)
Definition int_to_str_at (num p : Z) : Sh K unit :=
  change_out (fun m =>
    str ← int_to_str num (replicate 12 0);
    str ← c_string str;
    Ret (store_bytes m p (str ++ [0]))).

Definition clock : Sh K unit :=
  sys 17 (var g "clock.hour") (var g "clock.minute") (var g "clock.second");;
  second ← get8 (var g "clock.second"); int_to_str_at second (var g "clock.secondChar");;
  minute ← get8 (var g "clock.minute"); int_to_str_at minute (var g "clock.minuteChar");;
  hour ← get8 (var g "clock.hour"); int_to_str_at (hour + 7) (var g "clock.hourChar");;
  puts (var g "clock.hourChar") 2 0xF;; say g (ln "") 1 0xF;;
  puts (var g "clock.minuteChar") 2 0xF;; say g (ln "") 1 0xF;;
  puts (var g "clock.secondChar") 2 0xF;; say g (ln "") 1 0xF.

Definition help : Sh K unit :=
  say g (ln "List of available commands:") 30 0xF;;
  say g (ln "1.  cd [directory]") 20 0xF;;
  say g (ln "2.  ls") 8 0xF;;
  say g (ln "3.  print") 11 0xF;;
  say g (ln "4.  mkdir [directory]") 23 0xF;;
  say g (ln "5.  touch [file]") 18 0xF;;
  say g (ln "6.  echo [text] > [file]") 26 0xF;;
  say g (ln "7.  cat [file]") 16 0xF;;
  say g (ln "8.  rm [file]") 15 0xF;;
  say g (ln "9.  find [file]") 17 0xF;;
  say g (ln "10. cp [source] [destination]") 31 0xF;;
  say g (ln "11. clear") 11 0xF;;
  say g (ln "12. help") 10 0xF;;
  say g (ln "12. search1 [input string]") 27 0xF;;
  say g (ln "12. search2 [input string]") 27 0xF.

Definition ls : Sh K unit :=
  put8 (buf g) 0;;
  cwd ← get_cwd g; sys 10 (buf g) cwd 0;;
  print_result (buf g) (ln "Directory Empty") 16.

Definition print_cmd : Sh K unit :=
  let directories := var g "main.directories" in
  put8 directories 0;;
  cwd ← get_cwd g; sys 11 directories cwd 0;;
  print_result directories (ln "Directory Empty") 16.

(** ** The main loop *)

Definition starts (s : string) : Sh K bool := same_text s (buf g) (String.length s).

(** The argument starts [off] characters into the line. *)
Definition with_argument (off : Z) (cmd : Z -> Sh K unit) : Sh K unit :=
  let argument := buf g + off in
  change_out (fun m => remove_newline fuel m argument);;
  len ← strlen_of argument;
  when (0 <? len) (cmd argument).

Definition cd_cmd : Sh K unit :=
  change_out (fun m => remove_newline fuel m (buf g + 3));;
  cd_path g fuel (buf g + 3) (var g "main.res") fuel.

(** The local [directories] is cleared before the name is looked at. *)
Definition find_line : Sh K unit :=
  fill (var g "main.find.directories") 0 255;;
  with_argument 5 find.

(** The first word that fits decides. *)
Fixpoint choose (table : list (string * Sh K unit)) (otherwise : Sh K unit) : Sh K unit :=
  match table with
  | [] => otherwise
  | (word, cmd) :: table' => hit ← starts word; if (hit : bool) then cmd else choose table' otherwise
  end.

Definition commands : list (string * Sh K unit) :=
  [("cd", cd_cmd);
   ("ls", ls);
   ("print", print_cmd);
   ("mkdir", with_argument 6 mkdir);
   ("touch", with_argument 6 touch);
   ("echo", with_argument 5 echo);
   ("cat", with_argument 4 cat);
   ("rm", with_argument 3 rm);
   ("find", find_line);
   ("search1", with_argument 8 search1);
   ("search2", with_argument 8 search2);
   ("cp", with_argument 3 cp);
   ("mv", with_argument 3 mv);
   ("ps", ps_syscall;; puts_all (buf g));
   ("exec", with_argument 5 exec);
   ("kill", with_argument 5 kill);
   ("clear", clear);
   ("help", help);
   ("clock", clock)]%string.

Definition unknown_command : Sh K unit := say g (ln "Command not found.") 20 0x4.

(** What every branch ends with. *)
Definition next_prompt : Sh K unit := clear_buf g;; command g;; activate_keyboard.

(** What one character does to the line; true when the line is complete. *)
Definition edit_line : Sh K unit :=
  c ← get8 (cur_char g);
  if c =? 10 then
    len ← strlen_of (temp_buf g);
    copy (buf g) (temp_buf g) len;;
    put8 (cur_char g) 0;;
    clear_temp_buffer g;;
    put8 (is_entered g) 1
  else if c =? 8 then
    len ← strlen_of (temp_buf g);
    when (0 <? len) (put8 (temp_buf g + (len - 1)) 0)
  else
    len ← strlen_of (temp_buf g);
    put8 (temp_buf g + len) c.

(** The loop up to the second [continue]: true when a line was entered. *)
Definition read_key : Sh K bool :=
  get_user_input g (cur_char g);;
  rc ← get_retcode g;
  if rc =? -1 then mret false else
  edit_line;;
  e ← get8 (is_entered g);
  mret (negb (e =? 0)).

Definition loop_body : Sh K unit :=
  entered ← read_key;
  when entered
    (choose commands unknown_command;;
     next_prompt;;
     put32 (retcode g) (-1);;
     put8 (is_entered g) 0).

(** [main] before its loop. *)
Definition main_start : Sh K unit :=
  put8 (buf g + 2000) 0;;
  read_syscall g (req g);;
  print_kaguya;;
  clear_buf g;;
  clear_temp_buffer g;;
  command g;;
  activate_keyboard.

(** [main] for [n] rounds of its endless loop. *)
Fixpoint rounds (n : nat) : Sh K unit :=
  match n with O => skip | S n' => loop_body;; rounds n' end.
Definition main (n : nat) : Sh K unit := main_start;; rounds n.
End Commands.
