(* ===== verification/ShellLogic.v ===== *)
(** * Reasoning about the shell

    What the shell relies on: the kernel's system calls as laws ([OsSpec]) and a
    memory layout that keeps its objects apart ([layout_ok]).  Programs are
    verified with weakest preconditions that include termination: [wp e s Q] says
    that [e] returns from [s] in a state that satisfies [Q].  The memory is seen
    as one run of bytes per object ([glob]); [step l s s'] says which objects
    changed. *)
From Stdlib Require Import String.
From stdpp Require Import gmap.
From S2P Require Import Prelude CString Memory BlockDevice Fat32Types Fat32 Fat32Chain Fat32Facts Fat32Ops Fat32Access Fat32Abs Fat32Refine Fat32Codes Fat32Tree PortIO Framebuffer IntStr ShellStrings Shell.
#[local] Open Scope Z_scope.

(** ** What the kernel promises *)

(** Requests for a name with extension "dir" under [p]. *)
Definition dir_request (r : FAT32DriverRequest) (p : Z) (own : key) : Prop :=
  req_ok r /\ parent_cluster_number r = p /\ req_ext r = bytes_of "dir" /\ req_key r <> own /\ 0 <= Fat32Types.buf r < 2 ^ 32.

(** Requests for any name in directory [p] but its own. *)
Definition request_in (r : FAT32DriverRequest) (p : Z) (own : key) : Prop :=
  req_ok r /\ parent_cluster_number r = p /\ req_key r <> zero_key /\ req_key r <> own /\ 0 <= Fat32Types.buf r < 2 ^ 32.

Lemma dir_request_in r p own : dir_request r p own -> request_in r p own.
Proof. intros (Hr & Hp & He & Hown & Hb). split_and!; try done || lia. unfold req_key. by rewrite He. Qed.

(** Memory under the program's own instructions: [os_ok] and [os_same] are up to
    the instance. *)
Class OsFrame (K : Type) `{Os K} := {
  (** The same outside memory, as far as it matters. *)
  os_same : relation K;
  (** Memory holds bytes, at least. *)
  os_ok : K -> Prop;
  os_cursor : K -> Z * Z;

  os_same_equiv :: Equivalence os_same;
  os_ok_bytes s : os_ok s -> bytes_ok (os_mem s);

  set_mem_mem s m : os_mem (set_mem s m) = m;
  set_mem_same s m : os_same s (set_mem s m);
  set_mem_ok s m : os_ok s -> bytes_ok m -> os_ok (set_mem s m);
  set_mem_cursor s m : os_cursor (set_mem s m) = os_cursor s;
}.

(** The system calls: [os_same] keeps the file system, [os_ok] has the cursor on
    the screen. *)
Class OsSpec (K : Type) `{Os K} := {
  os_frame :: OsFrame K;
  os_dir : K -> Z -> key -> gmap key node -> Prop;
  os_parent : K -> Z -> Z -> Prop;
  os_free : K -> Z;
  (** The clusters a name of a directory stands for, whole. *)
  os_stored : K -> Z -> key -> list Z -> Prop;
  (** The whole disk. *)
  os_tree : K -> tree -> Prop;
  (** The character and the keys not yet read. *)
  os_input : K -> Z * list Z;

  same_dir s s' p own M : os_same s s' -> os_dir s p own M -> os_dir s' p own M;
  same_stored s s' p k bs : os_same s s' -> os_stored s p k bs -> os_stored s' p k bs;
  same_parent s s' c p : os_same s s' -> os_parent s c p -> os_parent s' c p;
  same_free s s' : os_same s s' -> os_free s' = os_free s;
  same_input s s' : os_same s s' -> os_input s' = os_input s;
  same_whole s s' T : os_same s s' -> os_tree s T -> os_tree s' T;
  tree_shaped s T : os_tree s T -> tree_wf T;
  tree_dir s T p f : os_tree s T -> T !! p = Some f -> os_dir s p (own_key f) (nodes f);
  tree_parent s T c f : os_tree s T -> T !! c = Some f -> os_parent s c (up f);
  stored_known s p own M k data : os_dir s p own M -> M !! k = Some (File data) -> exists bs, os_stored s p k bs;
  stored_data s p own M k data bs : os_dir s p own M -> M !! k = Some (File data) -> os_stored s p k bs -> exists pad, bs = data ++ pad;
  stored_length s p own M k data bs : os_dir s p own M -> M !! k = Some (File data) -> os_stored s p k bs ->
    Z.of_nat (length data) <= 2048 -> Z.of_nat (length bs) <= 2048;
  os_ok_cursor s : os_ok s -> on_screen (fst (os_cursor s)) (snd (os_cursor s));

  sys_puts s str len color : os_ok s -> 0 <= len -> exists s', int30 s 6 str len color = Ret s' /\ os_ok s' /\
    os_same s s' /\ same_outside_screen (os_mem s) (os_mem s') /\
    forall t cs, same_grid (screen (os_mem s)) (cells t) -> os_cursor s = (t_row t, t_col t) ->
      cstring (os_mem s) str cs -> str + Z.of_nat (length cs) < FRAMEBUFFER_MEMORY_OFFSET ->
      let t' := type_string color t (take (Z.to_nat len) cs) in
      same_grid (screen (os_mem s')) (cells t') /\ os_cursor s' = (t_row t', t_col t');
  sys_activate s : os_ok s -> exists s', int30 s 7 0 0 0 = Ret s' /\ os_ok s' /\ os_same s s' /\
    os_mem s' = os_mem s /\ os_cursor s' = os_cursor s;
  sys_read_dir s p own M r b c : os_ok s -> os_dir s p own M -> request_in r p own ->
    load_bytes (os_mem s) b REQUEST_SIZE = request_bytes r ->
    exists s', int30 s 1 b c 0 = Ret s' /\ os_ok s' /\ os_same s s' /\ os_cursor s' = os_cursor s /\
      os_mem s' = store (os_mem s) c (u8 (dir_code (M !! req_key r)));
  sys_child s p own M r b c x : os_ok s -> os_dir s p own M -> dir_request r p own ->
    load_bytes (os_mem s) b REQUEST_SIZE = request_bytes r -> M !! req_key r = Some (Dir x) ->
    exists s', int30 s 8 b c 0 = Ret s' /\ os_ok s' /\ os_same s s' /\ os_cursor s' = os_cursor s /\
      os_mem s' = store_bytes (os_mem s) c (le_encode 4 (u32 x));
  sys_parent s b c x p : os_ok s -> os_parent s x p -> le_decode (load_bytes (os_mem s) (b + 15) 4) = x ->
    exists s', int30 s 9 b c 0 = Ret s' /\ os_ok s' /\ os_same s s' /\ os_cursor s' = os_cursor s /\
      os_mem s' = store_bytes (os_mem s) c (le_encode 4 (u32 p));
  sys_write_dir s T p f r b c : os_ok s -> os_tree s T -> T !! p = Some f -> dir_request r p (own_key f) ->
    load_bytes (os_mem s) b REQUEST_SIZE = request_bytes r -> nodes f !! req_key r = None -> buffer_size r = 0 ->
    req_name r <> replicate 8 0 -> (size (nodes f) < 63)%nat -> 0 < os_free s ->
    exists s' x, int30 s 2 b c 0 = Ret s' /\ os_ok s' /\ os_cursor s' = os_cursor s /\
      os_mem s' = store (os_mem s) c 0 /\ T !! x = None /\ 2 <= x <= 512 - os_free s /\ os_free s' = os_free s - 1 /\
      os_input s' = os_input s /\ os_tree s' (add_folder T p (req_key r) x);
  sys_read s p own M r b c data bs : os_ok s -> os_dir s p own M -> req_ok r -> parent_cluster_number r = p ->
    req_key r <> zero_key -> load_bytes (os_mem s) b REQUEST_SIZE = request_bytes r ->
    M !! req_key r = Some (File data) -> os_stored s p (req_key r) bs -> Z.of_nat (length data) <= buffer_size r <= 2048 ->
    0 <= Fat32Types.buf r -> Fat32Types.buf r + 2048 * 512 <= 2 ^ 32 ->
    exists s' m', int30 s 0 b c 0 = Ret s' /\ os_ok s' /\ os_same s s' /\ os_cursor s' = os_cursor s /\
      os_mem s' = store m' c 0 /\ load_bytes m' (Fat32Types.buf r) (length bs) = bs /\
      forall a, 0 <= a < 2 ^ 32 -> ~ (Fat32Types.buf r <= a < Fat32Types.buf r + 2048) -> load m' a = load (os_mem s) a;
  sys_read_refused s p own M r b c : os_ok s -> os_dir s p own M -> request_in r p own ->
    load_bytes (os_mem s) b REQUEST_SIZE = request_bytes r -> read_answer (buffer_size r) (M !! req_key r) <> 0 ->
    exists s', int30 s 0 b c 0 = Ret s' /\ os_ok s' /\ os_same s s' /\ os_cursor s' = os_cursor s /\
      os_mem s' = store (os_mem s) c (u8 (read_answer (buffer_size r) (M !! req_key r)));
  sys_write_file s T p f r b c : os_ok s -> os_tree s T -> T !! p = Some f -> request_in r p (own_key f) ->
    load_bytes (os_mem s) b REQUEST_SIZE = request_bytes r -> nodes f !! req_key r = None -> 0 < buffer_size r <= 2048 ->
    (size (nodes f) < 63)%nat -> 0 < os_free s ->
    exists s', int30 s 2 b c 0 = Ret s' /\ os_ok s' /\ os_cursor s' = os_cursor s /\ os_mem s' = store (os_mem s) c 0 /\
      os_free s' = os_free s - 1 /\ os_input s' = os_input s /\
      os_tree s' (add_node T p (req_key r) (File (load_bytes (os_mem s) (Fat32Types.buf r) (Z.to_nat (buffer_size r)))));
  sys_delete s T p f r b c : os_ok s -> os_tree s T -> T !! p = Some f -> request_in r p (own_key f) ->
    load_bytes (os_mem s) b REQUEST_SIZE = request_bytes r ->
    let code := delete_answer (empty_folder T (nodes f !! req_key r)) (nodes f !! req_key r) in
    exists s', int30 s 3 b c 0 = Ret s' /\ os_ok s' /\ os_cursor s' = os_cursor s /\ os_mem s' = store (os_mem s) c (u8 code) /\
      os_input s' = os_input s /\ if code =? 0 then os_tree s' (remove_node T p (req_key r)) else os_same s s';
}.

(** ** Objects in memory *)

(** The fields of [request], the other globals, the argument slot, the arrays
    used below, two literals (an empty line; the banner's file, which cat cuts) and
    the screen with the cell behind it,
    which the keyboard driver may write.  The commands read and clear a whole cluster in
    [buf], which has 2000 bytes only: [RSpill] are the 48 bytes behind it.  touch and
    rm write a ninth byte behind their [char filename[8]]: it counts with the array, so
    what is proved of them is for stack frames in which that byte holds nothing else.
    An array of variable length counts with the most its function fills. *)
Inductive region : Type :=
  | RqBuf | RqName | RqExt | RqParent | RqSize
  | RRetcode | RDir | RDirLen | RCwd | RArg | RLine | RSpill | RTemp | RChar | REntered | RRes | RFile | RTouch | RRm | RNewline | RBanner | RScreen.
#[export] Instance region_eq_dec : EqDecision region.
Proof. solve_decision. Defined.

Definition region_size (x : region) : nat :=
  match x with
  | RqBuf | RqParent | RqSize | RRetcode | RCwd => 4
  | RqName => 8
  | RqExt => 3
  | RDir => 255
  | RDirLen | RChar | REntered => 1
  | RArg => REQUEST_SIZE
  | RLine | RTemp => 2000
  | RSpill => 48
  | RRes | RFile => 256
  | RTouch | RRm => 8 + 1
  | RNewline => 2
  | RBanner => 11
  | RScreen => 4002
  end.

Definition place (g : Layout) (x : region) : Z :=
  match x with
  | RqBuf => f_buf (request g)
  | RqName => f_name (request g)
  | RqExt => f_ext (request g)
  | RqParent => f_parent (request g)
  | RqSize => f_size (request g)
  | RRetcode => retcode g
  | RDir => current_dir g
  | RDirLen => currentdirlen g
  | RCwd => cwd_cluster_number g
  | RArg => arg g
  | RLine => Shell.buf g
  | RSpill => Shell.buf g + 2000
  | RTemp => temp_buf g
  | RChar => cur_char g
  | REntered => is_entered g
  | RRes => var g "main.res"
  | RFile => var g "cat.filename"
  | RTouch => var g "touch.filename"
  | RRm => var g "rm.filename"
  | RNewline => text g (ln "")
  | RBanner => text g "kaguya.txt"
  | RScreen => FRAMEBUFFER_MEMORY_OFFSET
  end.

(** Objects that cannot overlap.  Nothing keeps the linker from placing
    [temp_buf] right behind [buf]. *)
Definition compatible (x y : region) : bool :=
  bool_decide (x <> y) &&
  match x, y with RSpill, RTemp | RTemp, RSpill => false | _, _ => true end.

(** The objects lie below the kernel. *)
Definition layout_ok (g : Layout) : Prop :=
  (forall x, 0 <= place g x) /\
  (forall x, x <> RScreen -> place g x + Z.of_nat (region_size x) <= 0xC0000000) /\
  (forall x y, compatible x y = true -> apart (place g x) (region_size x) (place g y) (region_size y)).

Lemma request_fields m p : load_bytes m p REQUEST_SIZE =
  load_bytes m (f_buf p) 4 ++ load_bytes m (f_name p) 8 ++ load_bytes m (f_ext p) 3 ++
  load_bytes m (f_parent p) 4 ++ load_bytes m (f_size p) 4.
Proof.
  unfold REQUEST_SIZE, f_buf, f_name, f_ext, f_parent, f_size. change 23%nat with (4 + (8 + (3 + (4 + 4))))%nat.
  rewrite !load_bytes_app. change (Z.of_nat 4) with 4. change (Z.of_nat 8) with 8. change (Z.of_nat 3) with 3.
  replace (p + 4 + 8) with (p + 12) by lia. replace (p + 12 + 3) with (p + 15) by lia.
  by replace (p + 15 + 4) with (p + 19) by lia.
Qed.

(** ** What changed *)

Section Steps.
Context {K : Type} `{OsFrame K} (g : Layout) (Hg : layout_ok g).

Definition inside (p : Z) (n : nat) (x : region) : Prop :=
  place g x <= p /\ p + Z.of_nat n <= place g x + Z.of_nat (region_size x).

(** Only the objects of [l] changed. *)
Definition only (l : list region) (m m' : mem) : Prop := forall a, 0 <= a < 2 ^ 32 ->
  (forall x, x ∈ l -> ~ (place g x <= a < place g x + Z.of_nat (region_size x))) -> load m' a = load m a.

Definition step (l : list region) (s s' : K) : Prop :=
  os_ok s' /\ os_same s s' /\ only l (os_mem s) (os_mem s') /\ (RScreen ∉ l -> os_cursor s' = os_cursor s).

Definition glob (x : region) (s : K) : list Z := load_bytes (os_mem s) (place g x) (region_size x).

Definition fresh (x : region) (l : list region) : bool := forallb (fun y => compatible y x) l.

Lemma region_space x : in_space (place g x) (region_size x).
Proof using Hg.
  destruct Hg as (Hp0 & Hp1 & _). split; [apply Hp0 |]. destruct (decide (x = RScreen)) as [->|Hx].
  - cbn. unfold FRAMEBUFFER_MEMORY_OFFSET. lia.
  - specialize (Hp1 x Hx). lia.
Qed.

Lemma only_refl l m : only l m m.
Proof using Type. by intros a _ _. Qed.
Lemma only_trans l l' m m1 m2 : only l m m1 -> only l' m1 m2 -> only (l ++ l') m m2.
Proof using Type.
  intros H1 H2 a Ha Hn. rewrite H2, H1; [done | done | | done |]; intros x Hx; apply Hn, elem_of_app; auto.
Qed.
Lemma only_mono l l' m m' : l ⊆ l' -> only l m m' -> only l' m m'.
Proof using Type. intros Hl Ho a Ha Hn. apply Ho; [done |]. intros x Hx. by apply Hn, Hl. Qed.

Lemma step_refl l s : os_ok s -> step l s s.
Proof using Type. intros Hs. split_and!; [done | done | apply only_refl | done]. Qed.
Lemma step_trans l l' s s1 s2 : step l s s1 -> step l' s1 s2 -> step (l ++ l') s s2.
Proof using Type.
  intros (_ & Hs1 & Ho1 & Hc1) (Hk & Hs2 & Ho2 & Hc2). split_and!; [done | by etrans | by eapply only_trans |].
  intros Hn. rewrite Hc2, Hc1; [done | |]; intros Hin; apply Hn, elem_of_app; auto.
Qed.
Lemma step_mono l l' s s' : l ⊆ l' -> step l s s' -> step l' s s'.
Proof using Type.
  intros Hl (Hk & Hs & Ho & Hc). split_and!; [done | done | by eapply only_mono |]. intros Hn. apply Hc. intros Hin. by apply Hn, Hl.
Qed.

(** What lies in an object that did not change. *)
Lemma only_inside l m m' x p n : only l m m' -> fresh x l = true -> inside p n x -> load_bytes m' p n = load_bytes m p n.
Proof using Hg.
  intros Ho Hf [H1 H2]. apply load_bytes_ext. intros i Hi. pose proof (region_space x) as [? ?].
  apply Ho; [lia |]. intros y Hy Hin. unfold fresh in Hf. rewrite forallb_forall in Hf.
  destruct Hg as (_ & _ & Hap). specialize (Hap y x (Hf y (proj1 (list_elem_of_In _ _) Hy))). unfold apart in Hap. lia.
Qed.

Lemma step_inside l s s' x p n : step l s s' -> fresh x l = true -> inside p n x ->
  load_bytes (os_mem s') p n = load_bytes (os_mem s) p n.
Proof using Hg. intros (_ & _ & Ho & _). by apply only_inside. Qed.

Lemma step_glob l s s' x : step l s s' -> fresh x l = true -> glob x s' = glob x s.
Proof using Hg. intros Hs Hf. apply (step_inside l s s' x); [done | done |]. split; lia. Qed.

Lemma step_cstring l s s' x p str : step l s s' -> fresh x l = true -> inside p (S (length str)) x ->
  cstring (os_mem s) p str -> cstring (os_mem s') p str.
Proof using Hg. intros Hs Hf Hin. apply cstring_ext. by eapply step_inside. Qed.

Lemma patched_only m m' p bs x : patched m m' p bs -> inside p (length bs) x -> only [x] m m'.
Proof using Type.
  intros Hp [H1 H2] a Ha Hn. rewrite Hp by done. specialize (Hn x (list_elem_of_here _ _)). split_cond; lia || done.
Qed.

Lemma step_ok l s s' : step l s s' -> os_ok s'.
Proof using Type. by intros (? & _). Qed.
Lemma step_same l s s' : step l s s' -> os_same s s'.
Proof using Type. by intros (_ & ? & _). Qed.
End Steps.

(** ** Weakest preconditions *)

Definition wp {K A} (e : Sh K A) (s : K) (Q : A -> K -> Prop) : Prop := exists a s', e s = Ret (a, s') /\ Q a s'.

Lemma wp_ret {K A} (a : A) (s : K) (Q : A -> K -> Prop) : Q a s -> wp (mret a) s Q.
Proof. by exists a, s. Qed.

Lemma wp_skip {K} (s : K) (Q : unit -> K -> Prop) : Q tt s -> wp skip s Q.
Proof. by exists tt, s. Qed.

Lemma wp_mono {K A} (e : Sh K A) s (P Q : A -> K -> Prop) : wp e s P -> (forall a s', P a s' -> Q a s') -> wp e s Q.
Proof. intros (a & s' & E & HP) HPQ. exists a, s'. split; [done | by apply HPQ]. Qed.

Lemma wp_bind {K A B} (e : Sh K A) (f : A -> Sh K B) s (Q : B -> K -> Prop) :
  wp e s (fun a s' => wp (f a) s' Q) -> wp (a ← e; f a) s Q.
Proof.
  intros (a & s1 & E1 & b & s2 & E2 & HQ). exists b, s2. split; [| done].
  unfold mbind, sh_bind. by rewrite E1.
Qed.

Lemma wp_look {K} `{Os K} {A} (f : mem -> A) s (Q : A -> K -> Prop) : Q (f (os_mem s)) s -> wp (look f) s Q.
Proof. by exists (f (os_mem s)), s. Qed.

Lemma wp_look_out {K} `{Os K} {A} (f : mem -> outcome A) a s (Q : A -> K -> Prop) :
  f (os_mem s) = Ret a -> Q a s -> wp (look_out f) s Q.
Proof. intros E HQ. exists a, s. unfold look_out. by rewrite E. Qed.

Lemma wp_sys {K} `{Os K} a b c d s s' (Q : unit -> K -> Prop) : int30 s a b c d = Ret s' -> Q tt s' -> wp (sys a b c d) s Q.
Proof. intros E HQ. exists tt, s'. unfold sys. by rewrite E. Qed.
