(* ===== verification/ShellRules.v ===== *)
(** * Rules for the shell's actions

    One rule per action of [Shell], for objects of a layout, and the tactics that
    carry facts about unchanged objects through a sequence of actions. *)
From Stdlib Require Import String.
From stdpp Require Import gmap.
From S2P Require Import Prelude CString Memory BlockDevice Fat32Types Fat32 Fat32Chain Fat32Facts Fat32Ops Fat32Access Fat32Abs Fat32Refine Fat32Codes PortIO Framebuffer IntStr ShellStrings Shell ShellLogic.
#[local] Open Scope Z_scope.

(** A fact about an object of the last state, from the state that set it. *)
Ltac rewind Hg :=
  repeat match goal with
  | H : step ?g ?l ?a ?b |- context [glob ?g ?x ?b] => rewrite (step_glob g Hg l a b x H eq_refl)
  end.

Definition covers (l l' : list region) : bool := forallb (fun x => bool_decide (x ∈ l')) l.

Lemma covers_sub l l' : covers l l' = true -> l ⊆ l'.
Proof. unfold covers. rewrite forallb_forall. intros Hc x Hx. apply list_elem_of_In in Hx. by apply Hc, bool_decide_eq_true in Hx. Qed.

Lemma fresh_covers x l l' : covers l l' = true -> fresh x l' = true -> fresh x l = true.
Proof.
  unfold covers, fresh. rewrite !forallb_forall. intros Hc Hf y Hy. apply Hf, list_elem_of_In. by apply Hc, bool_decide_eq_true in Hy.
Qed.

Section Rules.
Context {K : Type} `{OsFrame K} (g : Layout) (Hg : layout_ok g) (fuel : nat).

Lemma step_snoc l l' s s1 s2 : step g l' s s1 -> step g l s1 s2 -> covers l l' = true -> step g l' s s2.
Proof using Type.
  intros H1 H2 Hc. apply (step_mono g (l' ++ l)); [| by eapply step_trans].
  intros x Hx. apply elem_of_app in Hx as [Hx|Hx]; [done | by apply (covers_sub _ _ Hc)].
Qed.

(** ** Changing memory *)

Lemma set_mem_step s m' p bs x : os_ok s -> bytes_ok m' -> patched (os_mem s) m' p bs -> inside g p (length bs) x ->
  x <> RScreen -> step g [x] s (set_mem s m').
Proof using Type.
  intros Hs Hm Hp Hin Hx. split_and!; [by apply set_mem_ok | apply set_mem_same | | intros _; apply set_mem_cursor].
  rewrite set_mem_mem. by eapply patched_only.
Qed.

Lemma wp_change f s p bs x (Q : unit -> K -> Prop) : os_ok s -> patched (os_mem s) (f (os_mem s)) p bs ->
  bytes_ok (f (os_mem s)) -> inside g p (length bs) x -> x <> RScreen ->
  (forall s', step g [x] s s' -> patched (os_mem s) (os_mem s') p bs -> Q tt s') -> wp (change f) s Q.
Proof using Type.
  intros Hs Hp Hm Hin Hx HQ. eexists tt, _. split; [reflexivity |].
  apply HQ; [by eapply set_mem_step | by rewrite set_mem_mem].
Qed.

Lemma inside_space p n x : inside g p n x -> in_space p n.
Proof using Hg. intros [H1 H2]. destruct (region_space g Hg x) as [? ?]. split; lia. Qed.

Lemma inside_place x n : n = region_size x -> inside g (place g x) n x.
Proof using Type. intros ->. split; lia. Qed.

Lemma wp_put8 s p v x (Q : unit -> K -> Prop) : os_ok s -> inside g p 1 x -> x <> RScreen ->
  (forall s', step g [x] s s' -> patched (os_mem s) (os_mem s') p [u8 v] -> Q tt s') -> wp (put8 p v) s Q.
Proof using Hg.
  intros Hs Hin Hx HQ. pose proof (inside_space _ _ _ Hin) as [? ?].
  apply (wp_change _ s p [u8 v] x); [done | apply patched_store; lia | by apply store_bytes_ok, os_ok_bytes | done | done | done].
Qed.

Lemma wp_put32 x s v (Q : unit -> K -> Prop) : region_size x = 4%nat -> x <> RScreen -> os_ok s ->
  (forall s', step g [x] s s' -> glob g x s' = le_encode 4 (u32 v) -> Q tt s') -> wp (put32 (place g x) v) s Q.
Proof using Hg.
  intros Hx Hne Hs HQ. pose proof (region_space g Hg x) as Hsp. rewrite Hx in Hsp.
  apply (wp_change _ s (place g x) (le_encode 4 (u32 v)) x); [done | by apply patched_store_bytes | | by apply inside_place | done |].
  { apply store_bytes_bytes_ok; [apply le_encode_bytes | by apply os_ok_bytes]. }
  intros s' Hst Hp. apply HQ; [done |]. unfold glob. rewrite Hx. change 4%nat with (length (le_encode 4 (u32 v))).
  by apply (patched_at Hp).
Qed.

(** The one byte of a small object. *)
Lemma wp_put8_glob x s v (Q : unit -> K -> Prop) : region_size x = 1%nat -> x <> RScreen -> os_ok s ->
  (forall s', step g [x] s s' -> glob g x s' = [u8 v] -> Q tt s') -> wp (put8 (place g x) v) s Q.
Proof using Hg.
  intros Hx Hne Hs HQ. pose proof (region_space g Hg x) as Hsp. rewrite Hx in Hsp.
  apply (wp_put8 s _ v x); [done | by apply inside_place | done |].
  intros s' Hst Hp. apply HQ; [done |]. unfold glob. rewrite Hx. by apply (patched_at Hp).
Qed.

Lemma wp_get8_glob x s c (Q : Z -> K -> Prop) : glob g x s = [c] -> region_size x = 1%nat -> Q c s -> wp (get8 (place g x)) s Q.
Proof using Type.
  intros E Hx HQ. apply wp_look. unfold glob in E. rewrite Hx in E. cbn in E. rewrite Z.add_0_r in E. by injection E as ->.
Qed.

Lemma wp_get32_glob x s (Q : Z -> K -> Prop) v : glob g x s = le_encode 4 v -> 0 <= v < 2 ^ 32 -> region_size x = 4%nat ->
  Q v s -> wp (get32 (place g x)) s Q.
Proof using Type.
  intros E Hv Hx HQ. apply wp_look. unfold glob in E. rewrite Hx in E. rewrite E, le_decode_encode by done. done.
Qed.

Lemma wp_retcode s v (Q : Z -> K -> Prop) : glob g RRetcode s = le_encode 4 v -> 0 <= v < 2 ^ 31 ->
  Q v s -> wp (get_retcode g) s Q.
Proof using Type.
  intros E Hv HQ. apply wp_look. change (load_bytes (os_mem s) (retcode g) 4) with (glob g RRetcode s).
  rewrite E, le_decode_encode, i32_id by (change (256 ^ Z.of_nat 4) with (2 ^ 32); lia). done.
Qed.

(** [memcpy] between objects. *)
Lemma wp_copy s dest src n x y (Q : unit -> K -> Prop) : os_ok s -> 0 <= n -> inside g dest (Z.to_nat n) x ->
  inside g src (Z.to_nat n) y -> compatible x y = true -> x <> RScreen ->
  (forall s', step g [x] s s' -> patched (os_mem s) (os_mem s') dest (load_bytes (os_mem s) src (Z.to_nat n)) -> Q tt s') ->
  wp (copy dest src n) s Q.
Proof using Hg.
  intros Hs Hn Hd Hsr Hc Hx HQ. destruct Hg as (_ & _ & Hap). specialize (Hap x y Hc).
  apply (wp_change _ s dest (load_bytes (os_mem s) src (Z.to_nat n)) x); [done | | | | done | done].
  - apply patched_memcpy; [by apply os_ok_bytes | by eapply inside_space | by eapply inside_space |].
    destruct Hd, Hsr. unfold apart in *. lia.
  - by apply memcpy_ok, os_ok_bytes.
  - by rewrite length_load_bytes.
Qed.

Lemma wp_fill s p c n x (Q : unit -> K -> Prop) : os_ok s -> inside g p n x -> x <> RScreen ->
  (forall s', step g [x] s s' -> patched (os_mem s) (os_mem s') p (replicate n (u8 c)) -> Q tt s') -> wp (fill p c n) s Q.
Proof using Hg.
  intros Hs Hin Hx HQ. apply (wp_change _ s p (replicate n (u8 c)) x); [done | | | by rewrite length_replicate | done | done].
  - apply patched_memset. by eapply inside_space.
  - by apply memset_ok, os_ok_bytes.
Qed.

Lemma wp_pad s p len n x (Q : unit -> K -> Prop) : os_ok s -> 0 <= len <= Z.of_nat n -> inside g p n x -> x <> RScreen ->
  (forall s', step g [x] s s' -> patched (os_mem s) (os_mem s') (p + len) (replicate (n - Z.to_nat len) 0) -> Q tt s') ->
  wp (pad_to p len n) s Q.
Proof using Hg.
  intros Hs Hl Hin Hx HQ.
  apply (wp_change _ s (p + len) (replicate (n - Z.to_nat len) 0) x); [done | | | | done | done].
  - apply patched_pad; [lia | by eapply inside_space].
  - by apply pad_bytes_ok, os_ok_bytes.
  - rewrite length_replicate. destruct Hin. split; lia.
Qed.

Lemma wp_copy_text x s str (Q : unit -> K -> Prop) : os_ok s -> region_size x = length (bytes_of str) -> x <> RScreen ->
  Forall is_byte (bytes_of str) ->
  (forall s', step g [x] s s' -> glob g x s' = bytes_of str -> Q tt s') -> wp (copy_text (place g x) str) s Q.
Proof using Hg.
  intros Hs Hx Hne Hb HQ. pose proof (region_space g Hg x) as Hsp. rewrite Hx in Hsp.
  apply (wp_change _ s (place g x) (bytes_of str) x); [done | by apply patched_store_bytes | | by apply inside_place | done |].
  { apply store_bytes_bytes_ok; [done | by apply os_ok_bytes]. }
  intros s' Hst Hp. apply HQ; [done |]. unfold glob. rewrite Hx. by apply (patched_at Hp).
Qed.

(** ** Strings *)

Lemma wp_strlen s p str (Q : Z -> K -> Prop) : cstring (os_mem s) p str -> (length str < fuel)%nat ->
  Q (Z.of_nat (length str)) s -> wp (strlen_of fuel p) s Q.
Proof using Type. intros Hs Hf HQ. eapply wp_look_out; [by apply strlen_cstring | done]. Qed.

Lemma wp_includes s p str c (Q : bool -> K -> Prop) : cstring (os_mem s) p str -> c <> 0 -> (length str < fuel)%nat ->
  Q (bool_decide (c ∈ str)) s -> wp (includes fuel p c) s Q.
Proof using Type.
  intros Hs Hc Hf HQ. eapply wp_look_out; [| exact HQ]. rewrite (is_include_spec fuel p str c) by done. rewrite bind_ret_l.
  by destruct (decide (c ∈ str)); [rewrite bool_decide_true | rewrite bool_decide_false].
Qed.

(** What [split] leaves alone, byte by byte. *)
Definition split_frame (m m' : mem) (p : Z) (str : list Z) (result : Z) (by_ : Z) : Prop :=
  same_beside m m' p (S (length str)) result (S (length (fst (split_at by_ str)))).

Lemma wp_split_frame s p str by_ result x y (Q : unit -> K -> Prop) : os_ok s -> cstring (os_mem s) p str -> by_ <> 0 ->
  (length str < fuel)%nat -> inside g p (S (length str)) x -> inside g result (S (length (fst (split_at by_ str)))) y ->
  compatible x y = true -> x <> RScreen -> y <> RScreen ->
  (forall s', step g [x; y] s s' -> cstring (os_mem s') result (fst (split_at by_ str)) ->
    cstring (os_mem s') p (snd (split_at by_ str)) -> split_frame (os_mem s) (os_mem s') p str result by_ -> Q tt s') ->
  wp (split fuel p by_ result) s Q.
Proof using Hg.
  unfold split_frame. intros Hs Hstr Hby Hf Hin1 Hin2 Hc Hx Hy HQ. destruct Hg as (_ & _ & Hap). specialize (Hap x y Hc).
  pose proof (split_by_first_spec fuel (os_mem s) p by_ result str (os_ok_bytes s Hs) Hstr Hby Hf) as Hspec.
  destruct (split_at by_ str) as [a b]. cbn [fst snd] in *. destruct Hin1, Hin2.
  destruct Hspec as (m' & E & Hm' & Ha & Hb & Hout); [by apply (inside_space result _ y); split | unfold apart in *; lia |].
  eexists tt, _. unfold split, change_out. rewrite E, bind_ret_l. split; [reflexivity |].
  apply HQ; [| by rewrite set_mem_mem | by rewrite set_mem_mem | by rewrite set_mem_mem].
  split_and!; [by apply set_mem_ok | apply set_mem_same | | intros _; apply set_mem_cursor].
  rewrite set_mem_mem. intros q Hq Hn. apply Hout; [done | |]; intros Hin.
  - apply (Hn x); [left | lia].
  - apply (Hn y); [right; left | lia].
Qed.

Lemma wp_split s p str by_ result x y (Q : unit -> K -> Prop) : os_ok s -> cstring (os_mem s) p str -> by_ <> 0 ->
  (length str < fuel)%nat -> inside g p (S (length str)) x -> inside g result (S (length (fst (split_at by_ str)))) y ->
  compatible x y = true -> x <> RScreen -> y <> RScreen ->
  (forall s', step g [x; y] s s' -> cstring (os_mem s') result (fst (split_at by_ str)) ->
    cstring (os_mem s') p (snd (split_at by_ str)) -> Q tt s') ->
  wp (split fuel p by_ result) s Q.
Proof using Hg.
  intros Hs Hstr Hby Hf Hin1 Hin2 Hc Hx Hy HQ. apply (wp_split_frame s p str by_ result x y); [done .. |].
  intros s' Hst Ha Hb _. by apply HQ.
Qed.

(** Writing a zero where one is. *)
Lemma wp_put_zero s p (Q : unit -> K -> Prop) : os_ok s -> 0 <= p < 2 ^ 32 -> load (os_mem s) p = 0 ->
  (forall s', step g [] s s' -> Q tt s') -> wp (put8 p 0) s Q.
Proof using Type.
  intros Hs Hp E HQ. eexists tt, _. split; [reflexivity |]. apply HQ.
  split_and!; [apply set_mem_ok; [done | by apply store_bytes_ok, os_ok_bytes] | apply set_mem_same | | intros _; apply set_mem_cursor].
  rewrite set_mem_mem. intros a Ha _. rewrite load_store_in by lia. by destruct (Z.eqb_spec a p) as [->|].
Qed.

Lemma wp_remove_newline s p str (Q : unit -> K -> Prop) : os_ok s -> cstring (os_mem s) p str -> 10 ∉ str ->
  (length str < fuel)%nat -> (forall s', step g [] s s' -> cstring (os_mem s') p str -> Q tt s') ->
  wp (change_out (fun m => remove_newline fuel m p)) s Q.
Proof using Type.
  intros Hs Hstr Hn Hf HQ. eexists tt, (set_mem s (os_mem s)). split.
  { unfold change_out. by rewrite (remove_newline_none fuel _ _ str). }
  apply HQ; [| by rewrite set_mem_mem].
  split_and!; [by apply set_mem_ok, os_ok_bytes | apply set_mem_same | | intros _; apply set_mem_cursor].
  rewrite set_mem_mem. apply only_refl.
Qed.

(** Name fields: a string and zeros. *)
Definition pad8 (str : list Z) : list Z := str ++ replicate (8 - length str) 0.

Lemma padded m m1 m2 p str : patched m m1 p str -> patched m1 m2 (p + Z.of_nat (length str)) (replicate (8 - length str) 0) ->
  (length str <= 8)%nat -> in_space p 8 -> load_bytes m2 p 8 = pad8 str.
Proof using Type.
  intros H1 H2 Hl [? ?]. replace 8%nat with (length str + (8 - length str))%nat by lia. rewrite load_bytes_app. unfold pad8. f_equal.
  - rewrite (patched_other H2); [apply (patched_at H1); split; lia | split; lia | unfold apart; lia].
  - pose proof (patched_at H2) as E. rewrite length_replicate in E. apply E. split; lia.
Qed.

(** ** Requests *)

(** The copy of the request that is passed. *)
Lemma wp_by_value s (Q : unit -> K -> Prop) : os_ok s ->
  (forall s', step g [RArg] s s' ->
     glob g RArg s' = glob g RqBuf s ++ glob g RqName s ++ glob g RqExt s ++ glob g RqParent s ++ glob g RqSize s -> Q tt s') ->
  wp (by_value g (req g)) s Q.
Proof using Hg.
  intros Hs HQ. unfold req.
  assert (in_space (request g) REQUEST_SIZE) as [H1 H2].
  { pose proof (region_space g Hg RqBuf) as [? _]. pose proof (region_space g Hg RqSize) as [_ ?].
    cbn [place region_size] in *. unfold f_buf, f_size, REQUEST_SIZE in *. split; lia. }
  pose proof (region_space g Hg RArg) as Ha. cbn [place region_size] in Ha.
  assert (apart (arg g) REQUEST_SIZE (request g) REQUEST_SIZE) as Hap.
  { destruct Hg as (_ & _ & Hap). pose proof (Hap RArg RqBuf eq_refl) as A1. pose proof (Hap RArg RqName eq_refl) as A2.
    pose proof (Hap RArg RqExt eq_refl) as A3. pose proof (Hap RArg RqParent eq_refl) as A4. pose proof (Hap RArg RqSize eq_refl) as A5.
    unfold apart in *. cbn [place region_size] in *. unfold f_buf, f_name, f_ext, f_parent, f_size, REQUEST_SIZE in *. lia. }
  unfold by_value, copy. rewrite Nat2Z.id.
  apply (wp_change _ s (arg g) (load_bytes (os_mem s) (request g) REQUEST_SIZE) RArg); [done | | | | done |].
  - apply patched_memcpy; [by apply os_ok_bytes | done | by split | done].
  - by apply memcpy_ok, os_ok_bytes.
  - rewrite length_load_bytes. apply inside_place. done.
  - intros s' Hst Hp. apply HQ; [done |]. unfold glob at 1. cbn [place region_size].
    rewrite <- (length_load_bytes (os_mem s) (request g) REQUEST_SIZE) at 1. rewrite (patched_at Hp); [| by rewrite length_load_bytes].
    apply request_fields.
Qed.

(** A request in the fields of [request]. *)
Definition holds_request (s : K) (r : FAT32DriverRequest) : Prop :=
  glob g RqBuf s = le_encode 4 (Fat32Types.buf r) /\ glob g RqName s = req_name r /\ glob g RqExt s = req_ext r /\
  glob g RqParent s = le_encode 4 (parent_cluster_number r) /\ glob g RqSize s = le_encode 4 (buffer_size r).

(** [retcode] with a code that fits a byte. *)
Definition small_code (s : K) : Prop := exists v, 0 <= v < 256 /\ glob g RRetcode s = le_encode 4 v.

Lemma store_code_byte m m' w v : load_bytes m (retcode g) 4 = le_encode 4 w -> 0 <= w < 256 ->
  patched m m' (retcode g) [v] -> 0 <= v < 256 -> load_bytes m' (retcode g) 4 = le_encode 4 v.
Proof using Hg.
  intros E Hw Hp Hv. pose proof (region_space g Hg RRetcode) as [? ?]. cbn [place region_size] in *.
  assert (forall u, 0 <= u < 256 -> le_encode 4 u = [u; 0; 0; 0]) as Henc.
  { intros u Hu. cbn [le_encode]. rewrite Z.mod_small, Z.div_small by lia. done. }
  rewrite Henc in E |- * by done.
  change 4%nat with (1 + 3)%nat in *. rewrite load_bytes_app in *.
  rewrite (patched_other Hp _ 3); [| split; lia | unfold apart; cbn; lia].
  pose proof (patched_at Hp) as E1. cbn [length] in E1. rewrite E1 by (split; lia).
  change (w :: [0; 0; 0]) with ([w] ++ [0; 0; 0]) in E. apply app_inj_1 in E as [_ ->]; [done | by rewrite length_load_bytes].
Qed.

Lemma store_code s s' s0 v : small_code s0 -> glob g RRetcode s0 = glob g RRetcode s -> patched (os_mem s) (os_mem s') (retcode g) [v] ->
  0 <= v < 256 -> glob g RRetcode s' = le_encode 4 v.
Proof using Hg. intros (w & Hw & E) E0 Hp Hv. rewrite E0 in E. by eapply store_code_byte. Qed.
End Rules.

Section Puts.
Context {K : Type} `{OsSpec K} (g : Layout).

Lemma outside_only m m' : same_outside_screen m m' -> only g [RScreen] m m'.
Proof using Type.
  intros Ho a Ha Hn. specialize (Hn RScreen (list_elem_of_here _ _)). apply Ho; [done |]. change (place g RScreen) with FRAMEBUFFER_MEMORY_OFFSET in Hn. change (Z.of_nat (region_size RScreen)) with 4002 in Hn. lia.
Qed.

Lemma wp_puts s str len color (Q : unit -> K -> Prop) : os_ok s -> 0 <= len ->
  (forall s', step g [RScreen] s s' -> Q tt s') -> wp (puts str len color) s Q.
Proof using Type.
  intros Hs Hl HQ. destruct (sys_puts s str len color Hs Hl) as (s' & E & Hk & Hsame & Ho & _).
  eapply wp_sys; [exact E |]. apply HQ. split_and!; [done | done | by apply outside_only |]. intros Hn. exfalso. apply Hn. left.
Qed.
End Puts.

(** Any chain of steps. *)
Ltac chain := repeat (eapply step_snoc; [| eassumption | reflexivity]); first [apply step_refl; first [done | eapply step_ok; eassumption] | eassumption].
