(* ===== verification/ShellDirs.v ===== *)
(** * Walking the directory tree (cd of src/user-shell.c)

    The position of the shell as a path of clusters and names from the root, what
    a path does to it, and the proof that [cd] does just that. *)
From Stdlib Require Import String.
From stdpp Require Import gmap.
From S2P Require Import Prelude CString Memory BlockDevice Fat32Types Fat32 Fat32Chain Fat32Facts Fat32Ops Fat32Access Fat32Abs Fat32Refine Fat32Codes PortIO Framebuffer IntStr ShellStrings Shell ShellCommands ShellLogic ShellRules.
#[local] Open Scope Z_scope.

(** ** System calls on directories *)

Section Calls.
Context {K : Type} `{OsSpec K} (g : Layout) (Hg : layout_ok g).

Lemma dir_code_range n : 0 <= dir_code n < 3.
Proof using Type. destruct n as [[]|]; cbn; lia. Qed.

Lemma arg_request s s' r : holds_request g s r ->
  glob g RArg s' = glob g RqBuf s ++ glob g RqName s ++ glob g RqExt s ++ glob g RqParent s ++ glob g RqSize s ->
  load_bytes (os_mem s') (arg g) REQUEST_SIZE = request_bytes r.
Proof using Type. intros (-> & -> & -> & -> & ->) E. exact E. Qed.

(** A code stored by the kernel in one byte, or in four. *)
Lemma step_store_code s s' p v : os_ok s' -> os_same s s' -> os_cursor s' = os_cursor s ->
  os_mem s' = store (os_mem s) (retcode g) v -> p = [u8 v] ->
  step g [RRetcode] s s' /\ patched (os_mem s) (os_mem s') (retcode g) p.
Proof using Hg.
  intros Hk Hs Hc E ->. pose proof (region_space g Hg RRetcode) as [? ?]. cbn [place region_size] in *.
  assert (patched (os_mem s) (os_mem s') (retcode g) [u8 v]) as Hp by (rewrite E; apply patched_store; lia).
  split; [| done]. split_and!; [done | done | | by intros _].
  eapply patched_only; [exact Hp |]. unfold inside. cbn. lia.
Qed.

Lemma step_store_word s s' v : os_ok s' -> os_same s s' -> os_cursor s' = os_cursor s -> 0 <= v < 2 ^ 32 ->
  os_mem s' = store_bytes (os_mem s) (retcode g) (le_encode 4 (u32 v)) ->
  step g [RRetcode] s s' /\ glob g RRetcode s' = le_encode 4 v.
Proof using Hg.
  intros Hk Hs Hc Hv E. rewrite u32_id in E by done. pose proof (region_space g Hg RRetcode) as Hsp. cbn [place region_size] in *.
  assert (patched (os_mem s) (os_mem s') (retcode g) (le_encode 4 v)) as Hp by (rewrite E; by apply patched_store_bytes).
  split; [| exact (patched_at Hp Hsp)]. split_and!; [done | done | | by intros _].
  eapply patched_only; [exact Hp |]. unfold inside. cbn. lia.
Qed.

Lemma wp_read_dir s p own M r (Q : unit -> K -> Prop) : os_ok s -> os_dir s p own M -> request_in r p own ->
  holds_request g s r -> small_code g s ->
  (forall s', step g [RArg; RRetcode] s s' -> glob g RRetcode s' = le_encode 4 (dir_code (M !! req_key r)) -> Q tt s') ->
  wp (read_dir_syscall g (req g)) s Q.
Proof using Hg.
  intros Hs Hd Hr Hreq Hcode HQ. apply wp_bind. apply wp_by_value; [done | done |]. intros s1 H1 E1.
  destruct (sys_read_dir s1 p own M r (arg g) (retcode g)) as (s2 & E2 & Hk2 & Hs2 & Hc2 & Em2);
    [by apply (step_ok g _ _ _ H1) | by apply (same_dir s s1); [apply (step_same g _ _ _ H1) |] | done | by eapply arg_request |].
  eapply wp_sys; [exact E2 |]. pose proof (dir_code_range (M !! req_key r)) as Hrange.
  destruct (step_store_code s1 s2 [dir_code (M !! req_key r)] (u8 (dir_code (M !! req_key r)))) as [H2 Hp2];
    [done | done | done | done | by rewrite !u8_id by (rewrite ?u8_id; lia) |].
  apply HQ; [chain |]. eapply store_code; [done | exact Hcode | | exact Hp2 | lia]. by rewrite (step_glob g Hg _ _ _ RRetcode H1).
Qed.

Lemma wp_child s p own M r x (Q : unit -> K -> Prop) : os_ok s -> os_dir s p own M -> dir_request r p own ->
  holds_request g s r -> M !! req_key r = Some (Dir x) -> 0 <= x < 2 ^ 32 ->
  (forall s', step g [RArg; RRetcode] s s' -> glob g RRetcode s' = le_encode 4 x -> Q tt s') ->
  wp (move_child_dir g (req g)) s Q.
Proof using Hg.
  intros Hs Hd Hr Hreq HM Hx HQ. apply wp_bind. apply wp_by_value; [done | done |]. intros s1 H1 E1.
  destruct (sys_child s1 p own M r (arg g) (retcode g) x) as (s2 & E2 & Hk2 & Hs2 & Hc2 & Em2);
    [by apply (step_ok g _ _ _ H1) | by apply (same_dir s s1); [apply (step_same g _ _ _ H1) |] | done | by eapply arg_request | done |].
  eapply wp_sys; [exact E2 |]. destruct (step_store_word s1 s2 x) as [H2 Hg2]; [done .. |].
  apply HQ; [chain | done].
Qed.

Lemma wp_parent s x p (Q : unit -> K -> Prop) : os_ok s -> os_parent s x p -> glob g RqParent s = le_encode 4 x ->
  0 <= x < 2 ^ 32 -> 0 <= p < 2 ^ 32 ->
  (forall s', step g [RArg; RRetcode] s s' -> glob g RRetcode s' = le_encode 4 p -> Q tt s') ->
  wp (move_parent_dir g (req g)) s Q.
Proof using Hg.
  intros Hs Hup Hreq Hx Hp HQ. apply wp_bind. apply wp_by_value; [done | done |]. intros s1 H1 E1.
  assert (le_decode (load_bytes (os_mem s1) (arg g + 15) 4) = x) as Earg.
  { unfold glob in E1 at 1. cbn [place region_size] in E1. rewrite request_fields in E1.
    apply app_inj_1 in E1 as [_ E1]; [| unfold glob; by rewrite !length_load_bytes].
    apply app_inj_1 in E1 as [_ E1]; [| unfold glob; by rewrite !length_load_bytes].
    apply app_inj_1 in E1 as [_ E1]; [| unfold glob; by rewrite !length_load_bytes].
    apply app_inj_1 in E1 as [E1 _]; [| unfold glob; by rewrite !length_load_bytes].
    unfold f_parent in E1. rewrite E1, Hreq, le_decode_encode by done. done. }
  destruct (sys_parent s1 (arg g) (retcode g) x p) as (s2 & E2 & Hk2 & Hs2 & Hc2 & Em2);
    [by apply (step_ok g _ _ _ H1) | by apply (same_parent s s1); [apply (step_same g _ _ _ H1) |] | done |].
  eapply wp_sys; [exact E2 |]. destruct (step_store_word s1 s2 p) as [H2 Hg2]; [done .. |].
  apply HQ; [chain | done].
Qed.
End Calls.

(** ** Positions *)

(** Clusters and names of the directories entered, the innermost first. *)
Definition position : Type := list (Z * list Z).
Definition here (pos : position) : Z := match pos with [] => ROOT_CLUSTER_NUMBER | (c, _) :: _ => c end.
(** "/", "/a/", "/a/b/", ... *)
Fixpoint prompt (pos : position) : list Z :=
  match pos with [] => [47] | (_, n) :: pos' => prompt pos' ++ n ++ [47] end.

Definition dots : list Z := [46; 46].
Definition subdir (M : gmap key node) (n : list Z) : option node := M !! (pad8 n, bytes_of "dir").

(** One component of a path: up, down, or nowhere. *)
Definition walk (T : gmap Z (gmap key node)) (pos : position) (n : list Z) : position :=
  if decide (n = dots) then tl pos else
  match T !! here pos ≫= fun M => subdir M n with
  | Some (Dir c) => (c, n) :: pos
  | _ => pos
  end.

(** The components of a path, split at the slashes. *)
Fixpoint components (s : list Z) : list (list Z) :=
  match s with
  | [] => [[]]
  | c :: s' =>
    if c =? 47 then [] :: components s' else
    match components s' with [] => [[c]] | n :: ns => (c :: n) :: ns end
  end.

Lemma components_split s : components s =
  if decide (47 ∈ s) then fst (split_at 47 s) :: components (snd (split_at 47 s)) else [s].
Proof.
  induction s as [|c s IH]; cbn [components split_at].
  { by rewrite decide_False by apply not_elem_of_nil. }
  destruct (Z.eqb_spec c 47) as [->|Hc]; cbn [fst snd].
  { by rewrite decide_True by left. }
  rewrite IH. destruct (split_at 47 s) as [a b]. cbn [fst snd]. destruct (decide (47 ∈ s)).
  - by rewrite decide_True by (by right).
  - rewrite decide_False; [done |]. by apply not_elem_of_cons.
Qed.

(** Names the shell can enter: at most eight characters, none of them a slash. *)
Definition name_ok (n : list Z) : Prop := (length n <= 8)%nat /\ Forall (fun c => 0 < c < 256) n /\ 47 ∉ n.

Section Walk.
Context {K : Type} `{OsSpec K} (g : Layout) (Hg : layout_ok g).

Fixpoint pos_ok (s : K) (pos : position) : Prop :=
  match pos with
  | [] => True
  | (c, n) :: pos' => c <> ROOT_CLUSTER_NUMBER /\ 0 <= c < 256 /\ os_parent s c (here pos') /\ name_ok n /\ pos_ok s pos'
  end.

(** Directories the kernel shows, closed under going down. *)
Definition tree_ok (s : K) (T : gmap Z (gmap key node)) : Prop := is_Some (T !! ROOT_CLUSTER_NUMBER) /\
  forall p M, T !! p = Some M -> exists own, os_dir s p own M /\ snd own <> bytes_of "dir" /\
    forall n c, subdir M n = Some (Dir c) ->
      c <> ROOT_CLUSTER_NUMBER /\ 0 <= c < 256 /\ os_parent s c p /\ is_Some (T !! c).

(** The globals of the shell say that it is at [pos]. *)
Record at_pos (s : K) (pos : position) : Prop := {
  ap_cwd : glob g RCwd s = le_encode 4 (here pos);
  ap_len : glob g RDirLen s = [Z.of_nat (length (prompt pos))];
  ap_text : load_bytes (os_mem s) (current_dir g) (length (prompt pos)) = prompt pos;
  ap_code : small_code g s;
  ap_pos : pos_ok s pos;
}.

Lemma same_pos s s' pos : os_same s s' -> pos_ok s pos -> pos_ok s' pos.
Proof using Type.
  intros Hs. induction pos as [|[c n] pos IH]; cbn; [done |]. intros (? & ? & ? & ? & ?).
  split_and!; [done | lia | lia | by eapply same_parent | done | by apply IH].
Qed.

Lemma same_tree s s' T : os_same s s' -> tree_ok s T -> tree_ok s' T.
Proof using Type.
  intros Hs [Hroot HT]. split; [done |]. intros p M HM. destruct (HT p M HM) as (own & Hd & Ho & Hc).
  exists own. split_and!; [by eapply same_dir | done |]. intros n c Hn.
  destruct (Hc n c Hn) as (? & ? & ? & ?). split_and!; [done | lia | lia | by eapply same_parent | done].
Qed.

Lemma here_range s pos : pos_ok s pos -> 0 <= here pos < 256.
Proof using Type. destruct pos as [|[c n] pos]; cbn; [unfold ROOT_CLUSTER_NUMBER; lia | by intros (_ & ? & _)]. Qed.

Lemma prompt_length pos : (1 <= length (prompt pos))%nat.
Proof using Type. destruct pos as [|[c n] pos]; cbn [prompt length]; rewrite ?length_app; cbn; lia. Qed.

Lemma prompt_snoc pos : exists txt, prompt pos = txt ++ [47].
Proof using Type.
  destruct pos as [|[c n] pos]; cbn [prompt]; [by exists [] |]. exists (prompt pos ++ n). by rewrite app_assoc.
Qed.

(** ** Going up *)

(** What [cd] may change. *)
Definition cd_changes : list region :=
  [RqBuf; RqName; RqExt; RqParent; RqSize; RRetcode; RDir; RDirLen; RCwd; RArg; RScreen].

Lemma dir_byte s s' k v n : patched (os_mem s) (os_mem s') (current_dir g + Z.of_nat k) [v] -> (k < 255)%nat -> (n <= k)%nat ->
  load_bytes (os_mem s') (current_dir g) n = load_bytes (os_mem s) (current_dir g) n.
Proof using Hg.
  intros Hp Hk Hn. pose proof (region_space g Hg RDir) as [? ?]. cbn [place region_size] in *.
  apply (patched_other Hp); [split; lia | unfold apart; cbn; lia].
Qed.

Lemma wp_chop k n : forall j s (Q : unit -> K -> Prop), os_ok s -> (k <= j < 255)%nat -> (j - k < n)%nat ->
  glob g RDirLen s = [Z.of_nat j] -> load (os_mem s) (current_dir g + Z.of_nat k) = 47 ->
  (forall i, (k < i <= j)%nat -> load (os_mem s) (current_dir g + Z.of_nat i) <> 47) ->
  (forall s', step g [RDir; RDirLen] s s' -> glob g RDirLen s' = [Z.of_nat k] ->
     load_bytes (os_mem s') (current_dir g) (S k) = load_bytes (os_mem s) (current_dir g) (S k) -> Q tt s') ->
  wp (chop g n) s Q.
Proof using Hg.
  pose proof (region_space g Hg RDir) as [Hd0 Hd1]. cbn [place region_size] in Hd0, Hd1.
  induction n as [|n IH]; intros j s Q Hs Hj Hn Hlen Hk Hi HQ; [lia |]. cbn [chop].
  apply wp_bind, (wp_get8_glob g RDirLen s (Z.of_nat j)); [done | done |]. apply wp_bind, wp_look.
  destruct (decide (j = k)) as [->|Hne].
  { rewrite Hk. cbn [Z.eqb]. apply wp_skip. by apply HQ; [apply step_refl | |]. }
  destruct (Z.eqb_spec (load (os_mem s) (current_dir g + Z.of_nat j)) 47) as [E|_]; [exfalso; apply (Hi j); [lia | done] |].
  apply wp_bind, (wp_put8 g Hg s _ 0 RDir); [done | unfold inside; cbn; lia | done |]. intros s1 H1 Hp1.
  apply wp_bind, (wp_put8_glob g Hg RDirLen s1); [done | done | by apply (step_ok g _ _ _ H1) |]. intros s2 H2 E2.
  assert (forall m, (m <= j)%nat -> load_bytes (os_mem s2) (current_dir g) m = load_bytes (os_mem s) (current_dir g) m) as Hkeep.
  { intros m Hm. rewrite <- (dir_byte s s1 j 0 m) by (done || lia). eapply (step_inside g Hg _ _ _ RDir); [exact H2 | done |].
    unfold inside. cbn. lia. }
  assert (forall i, (i < j)%nat -> load (os_mem s2) (current_dir g + Z.of_nat i) = load (os_mem s) (current_dir g + Z.of_nat i)) as Hkeep1.
  { intros i Hij. pose proof (Hkeep (S i) ltac:(lia)) as E. apply (f_equal (fun l => l !! i)) in E.
    rewrite !load_bytes_lookup, !decide_True in E by lia. congruence. }
  apply (IH (j - 1)%nat); [by apply (step_ok g _ _ _ H2) | lia | lia | | | |].
  - rewrite E2, u8_id by lia. f_equal. lia.
  - rewrite Hkeep1 by lia. done.
  - intros i Hik. rewrite Hkeep1 by lia. apply Hi. lia.
  - intros s3 H3 E3 Ht3. apply HQ; [chain | done |]. rewrite Ht3. apply Hkeep. lia.
Qed.

(** Writing one character behind the text. *)
Lemma wp_append s c txt (Q : unit -> K -> Prop) : os_ok s -> is_byte c -> (length txt < 255)%nat ->
  glob g RDirLen s = [Z.of_nat (length txt)] -> load_bytes (os_mem s) (current_dir g) (length txt) = txt ->
  (forall s', step g [RDir; RDirLen] s s' -> glob g RDirLen s' = [Z.of_nat (length (txt ++ [c]))] ->
     load_bytes (os_mem s') (current_dir g) (length (txt ++ [c])) = txt ++ [c] -> Q tt s') ->
  wp (append_char g c) s Q.
Proof using Hg.
  intros Hs Hc Hl Hlen Htxt HQ. pose proof (region_space g Hg RDir) as [Hd0 Hd1]. cbn [place region_size] in Hd0, Hd1.
  apply wp_bind, (wp_get8_glob g RDirLen s (Z.of_nat (length txt))); [done | done |].
  apply wp_bind, (wp_put8 g Hg s _ c RDir); [done | unfold inside; cbn; lia | done |]. intros s1 H1 Hp1.
  apply (wp_put8_glob g Hg RDirLen s1); [done | done | by apply (step_ok g _ _ _ H1) |]. intros s2 H2 E2.
  apply HQ; [chain | |].
  - rewrite E2, u8_id, length_app by lia. cbn [length]. f_equal. lia.
  - rewrite (step_inside g Hg _ s1 s2 RDir _ _ H2); [| done | unfold inside; rewrite length_app; cbn; lia].
    rewrite length_app, load_bytes_app. rewrite (dir_byte s s1 (length txt) (u8 c)) by (done || lia). rewrite Htxt. f_equal.
    pose proof (patched_at Hp1) as E. rewrite u8_id in E by done. apply E. split; cbn; lia.
Qed.

(** Back over the last name, and its slash again. *)
Lemma wp_drop_name s txt n (Q : unit -> K -> Prop) : os_ok s -> 47 ∉ n -> (length txt + length n + 2 <= 255)%nat ->
  glob g RDirLen s = [Z.of_nat (length txt + length n)] ->
  load_bytes (os_mem s) (current_dir g) (length txt + 1 + (length n + 1)) = (txt ++ [47]) ++ n ++ [47] ->
  (forall s', step g [RDir; RDirLen] s s' -> glob g RDirLen s' = [Z.of_nat (length (txt ++ [47]))] ->
     load_bytes (os_mem s') (current_dir g) (length (txt ++ [47])) = txt ++ [47] -> Q tt s') ->
  wp (chop g 257;; append_slash g) s Q.
Proof using Hg.
  intros Hs Hn Hfit Elen Htxt HQ. pose proof (step_ok g) as Hok.
  assert (forall i x, ((txt ++ [47]) ++ n ++ [47]) !! i = Some x -> load (os_mem s) (current_dir g + Z.of_nat i) = x) as Hch.
  { apply load_bytes_eq. rewrite !length_app. exact Htxt. }
  apply wp_bind, (wp_chop (length txt) 257 (length txt + length n) s); [done | lia | lia | done | | |].
  - apply Hch. rewrite <- app_assoc. by apply list_lookup_middle.
  - intros i Hi E. destruct (lookup_lt_is_Some_2 n (i - (length txt + 1))) as [x Hx]; [lia |].
    rewrite (Hch i x) in E; [subst x; apply Hn; by eapply list_elem_of_lookup_2 |].
    rewrite lookup_app_r by (rewrite length_app; cbn; lia). rewrite lookup_app_l by (rewrite length_app; cbn; lia).
    by rewrite length_app.
  - intros s1 H1 E1 Ht1. apply (wp_append s1 47 txt); [by eapply Hok | done | lia | done | |].
    + rewrite <- (take_load_bytes _ _ _ (S (length txt))) by lia. rewrite Ht1, take_load_bytes by lia.
      rewrite <- (take_load_bytes _ _ _ (length txt + 1 + (length n + 1))), Htxt by lia. by rewrite <- app_assoc, take_app_length.
    + intros s2 H2 E2 Ht2. apply HQ; [chain | done | done].
Qed.

Lemma wp_cd_up s pos (Q : unit -> K -> Prop) : os_ok s -> at_pos s pos -> (length (prompt pos) <= 255)%nat ->
  (forall s', step g cd_changes s s' -> at_pos s' (tl pos) -> Q tt s') -> wp (cd_up g) s Q.
Proof using Hg.
  intros Hs Hat Hfit HQ. destruct Hat as [Hcwd Hlen Htxt Hcode Hpos]. pose proof (here_range s pos Hpos) as Hr.
  pose proof (region_space g Hg RDir) as [Hd0 Hd1]. cbn [place region_size] in Hd0, Hd1.
  apply wp_bind, (wp_get32_glob g RCwd s _ (here pos)); [done | lia | done |].
  apply wp_bind, (wp_put32 g Hg RqParent s); [done | done | done |]. intros s1 H1 E1. rewrite u32_id in E1 by lia.
  pose proof (step_ok g _ _ _ H1) as Hk1.
  destruct pos as [|[c n] pos].
  { cbn [here]. rewrite Z.eqb_refl. cbn [negb when]. apply wp_skip. apply HQ; [chain |]. split; cbn [tl].
    - by rewrite (step_glob g Hg _ _ _ RCwd H1).
    - by rewrite (step_glob g Hg _ _ _ RDirLen H1).
    - rewrite (step_inside g Hg _ _ _ RDir _ _ H1); [done | done | unfold inside; cbn; lia].
    - unfold small_code. by rewrite (step_glob g Hg _ _ _ RRetcode H1).
    - done. }
  cbn [here tl] in *. destruct Hpos as (Hroot & Hc & Hup & Hname & Hpos). pose proof (here_range s pos Hpos) as Hrp.
  destruct (Z.eqb_spec c ROOT_CLUSTER_NUMBER); [done |]. cbn [negb when].
  apply wp_bind, (wp_parent g Hg s1 c (here pos)); [done | by eapply same_parent, Hup; eapply step_same | done | lia | lia |].
  intros s2 H2 E2. apply wp_bind, (wp_retcode g s2 (here pos)); [done | lia |].
  apply wp_bind, (wp_put32 g Hg RCwd s2); [done | done | by apply (step_ok g _ _ _ H2) |]. intros s3 H3 E3.
  rewrite u32_id in E3 by lia. cbn [prompt] in *. rewrite !length_app in *. cbn [length] in *.
  apply wp_bind, (wp_get8_glob g RDirLen s3 (Z.of_nat (length (prompt pos) + (length n + 1))));
    [by rewrite (step_glob g Hg _ _ _ RDirLen H3), (step_glob g Hg _ _ _ RDirLen H2), (step_glob g Hg _ _ _ RDirLen H1) | done |].
  apply wp_bind, (wp_put8_glob g Hg RDirLen s3); [done | done | by apply (step_ok g _ _ _ H3) |]. intros s4 H4 E4.
  destruct (prompt_snoc pos) as [txt Ep]. rewrite Ep, length_app in *. cbn [length] in *.
  assert (load_bytes (os_mem s4) (current_dir g) (length txt + 1 + (length n + 1)) = (txt ++ [47]) ++ n ++ [47]) as Ht4.
  { rewrite <- Htxt. assert (inside g (current_dir g) (length txt + 1 + (length n + 1)) RDir) as Hin by (unfold inside; cbn; lia).
    rewrite (step_inside g Hg _ _ _ RDir _ _ H4), (step_inside g Hg _ _ _ RDir _ _ H3), (step_inside g Hg _ _ _ RDir _ _ H2),
      (step_inside g Hg _ _ _ RDir _ _ H1); done. }
  rewrite u8_id in E4 by lia.
  replace (Z.of_nat (length txt + 1 + (length n + 1)) - 2) with (Z.of_nat (length txt + length n)) in E4 by lia.
  apply (wp_drop_name s4 txt n); [by apply (step_ok g _ _ _ H4) | apply Hname | lia | done | done |].
  intros s5 H5 E5 Ht5. apply HQ; [unfold cd_changes; chain |]. split.
  - rewrite (step_glob g Hg _ _ _ RCwd H5), (step_glob g Hg _ _ _ RCwd H4); done.
  - by rewrite Ep.
  - by rewrite Ep.
  - exists (here pos). split; [done |].
    rewrite (step_glob g Hg _ _ _ RRetcode H5), (step_glob g Hg _ _ _ RRetcode H4), (step_glob g Hg _ _ _ RRetcode H3); done.
  - eapply same_pos; [| exact Hpos]. apply (step_same g cd_changes s s5). unfold cd_changes; chain.
Qed.
(** ** The shell between commands *)

(** The directories of the position are known. *)
Definition known (T : gmap Z (gmap key node)) (pos : position) : Prop := Forall (fun cn => is_Some (T !! fst cn)) pos.

(** The shell waits for a command at [pos] in the tree [T]. *)
Record ready (s : K) (T : gmap Z (gmap key node)) (pos : position) : Prop := {
  rd_ok : os_ok s;
  rd_pos : at_pos s pos;
  rd_tree : tree_ok s T;
  rd_known : known T pos;
}.

Lemma ready_step l s s' T pos : step g l s s' -> forallb (fun x => fresh x l) [RCwd; RDirLen; RDir; RRetcode] = true ->
  (length (prompt pos) <= 255)%nat -> ready s T pos -> ready s' T pos.
Proof using Hg.
  intros Hs Hf Hfit [Hk [Ec El Et (v & Hv & Erc) Hp] HT Hkn]. cbn [forallb] in Hf. rewrite !andb_true_iff in Hf.
  destruct Hf as (F1 & F2 & F3 & F4 & _). pose proof (step_same g _ _ _ Hs) as Hsame.
  split; [by eapply step_ok | split | by eapply same_tree | done].
  - by rewrite (step_glob g Hg l s s' RCwd Hs F1).
  - by rewrite (step_glob g Hg l s s' RDirLen Hs F2).
  - rewrite (step_inside g Hg l s s' RDir _ _ Hs F3); [done | unfold inside; cbn; lia].
  - exists v. by rewrite (step_glob g Hg l s s' RRetcode Hs F4).
  - by eapply same_pos.
Qed.

Lemma known_here s T pos : tree_ok s T -> known T pos -> is_Some (T !! here pos).
Proof using Type. intros [HT _] Hk. destruct pos as [|[c n] pos]; [done |]. by inversion Hk. Qed.

Lemma known_tl T pos : known T pos -> known T (tl pos).
Proof using Type. destruct 1; [constructor | done]. Qed.

Lemma walk_known T pos n : known T pos -> is_Some (T !! here (walk T pos n)) -> known T (walk T pos n).
Proof using Type.
  intros Hk Hh. unfold walk in *. destruct (decide _); [by apply known_tl |].
  destruct (_ ≫= _) as [[]|]; [done | by constructor | done].
Qed.

Lemma walk_prompt T pos n : (length (prompt (walk T pos n)) <= length (prompt pos) + length n + 1)%nat.
Proof using Type.
  unfold walk. destruct (decide _).
  - destruct pos as [|[c x] pos]; cbn [tl prompt]; rewrite ?length_app; lia.
  - destruct (_ ≫= _) as [[]|]; cbn [prompt]; rewrite ?length_app; cbn [length]; lia.
Qed.

(** ** Going down *)

Lemma name_bytes n : Forall (fun c => 0 < c < 256) n -> Forall is_byte n.
Proof using Type. intros Hc. eapply Forall_impl; [exact Hc |]. unfold is_byte. cbn. lia. Qed.

Lemma name_request n b p z : (length n <= 8)%nat -> Forall (fun c => 0 < c < 256) n -> 0 <= b < 2 ^ 32 -> 0 <= p < 2 ^ 32 -> 0 <= z < 2 ^ 32 ->
  forall own, snd own <> bytes_of "dir" -> dir_request (mkRequest b (pad8 n) (bytes_of "dir") p z) p own.
Proof using Type.
  intros Hl Hc Hb Hp Hz own Hown. split_and!; cbn; try done; try lia.
  - unfold req_ok. cbn. unfold pad8. rewrite length_app, length_replicate. split_and!; try lia; try (by repeat constructor).
    apply Forall_app. split; [by apply name_bytes | by apply Forall_replicate].
  - unfold req_key. cbn. intros <-. by apply Hown.
Qed.

(** The name field read as a string runs into the fields behind it. *)
Lemma name_string s n p : name_ok n -> glob g RqName s = pad8 n -> glob g RqExt s = bytes_of "dir" ->
  glob g RqParent s = le_encode 4 p -> 0 <= p < 256 ->
  exists str, cstring (os_mem s) (f_name (req g)) str /\ (length str <= 12)%nat /\
    (forall idx : nat, (Z.of_nat idx <? Z.of_nat (length str)) && (Z.of_nat idx <? 8) = (Z.of_nat idx <? Z.of_nat (length n))) /\
    forall i c, n !! i = Some c -> load (os_mem s) (f_name (req g) + Z.of_nat i) = c.
Proof using Hg.
  intros (Hl & Hc & _) E1 E2 E3 Hp. unfold req. pose proof (region_space g Hg RqName) as [H1 _].
  pose proof (region_space g Hg RqParent) as [_ H2].
  assert (load_bytes (os_mem s) (f_name (request g)) 15 = pad8 n ++ bytes_of "dir" ++ [p; 0; 0; 0]) as E.
  { change 15%nat with (8 + (3 + 4))%nat. rewrite !load_bytes_app. f_equal; [exact E1 | f_equal].
    - rewrite <- E2. unfold glob. cbn [place region_size]. unfold f_name, f_ext. f_equal. lia.
    - unfold glob in E3. cbn [place region_size] in E3. unfold f_name, f_parent in *.
      replace (request g + 4 + Z.of_nat 8 + Z.of_nat 3) with (request g + 15) by lia. rewrite E3.
      cbn [le_encode]. by rewrite Z.mod_small, Z.div_small by lia. }
  cbn [place region_size] in H1, H2. unfold f_name, f_parent in H1, H2.
  assert (Forall nonzero n) as Hnz by (eapply Forall_impl; [exact Hc | unfold nonzero; cbn; lia]).
  assert (forall k, (k <= 15)%nat -> load_bytes (os_mem s) (f_name (request g)) k = take k (pad8 n ++ bytes_of "dir" ++ [p; 0; 0; 0])) as Ek.
  { intros k Hk. by rewrite <- E, take_load_bytes. }
  assert (forall i c, n !! i = Some c -> load (os_mem s) (f_name (request g) + Z.of_nat i) = c) as Hch.
  { intros i c Hi. pose proof (lookup_lt_Some _ _ _ Hi). apply (load_bytes_eq _ _ n); [| done]. rewrite Ek by lia. unfold pad8.
    rewrite <- !app_assoc. apply take_app_length. }
  destruct (decide (length n = 8%nat)) as [H8|H8].
  - exists (n ++ bytes_of "dir" ++ if decide (p = 0) then [] else [p]).
    assert (pad8 n = n) as En by (unfold pad8; rewrite H8; apply app_nil_r). rewrite En in Ek.
    assert (Forall nonzero (bytes_of "dir")) as Hdir by by_compute.
    split_and!; [| | | done].
    + split_and!.
      * rewrite !length_app. unfold f_name. destruct (decide (p = 0)); cbn [length bytes_of]; split; lia.
      * rewrite Ek by (rewrite !length_app; destruct (decide (p = 0)); cbn [length bytes_of]; lia).
        rewrite <- !app_assoc, !length_app, H8. destruct (decide (p = 0)) as [->|]; cbn [length bytes_of];
          rewrite take_app_ge by (rewrite H8; lia); f_equal; rewrite H8; reflexivity.
      * apply Forall_app. split; [done |]. apply Forall_app. split; [done |]. by destruct (decide (p = 0)); repeat constructor.
    + rewrite !length_app. destruct (decide (p = 0)); cbn [length bytes_of]; lia.
    + intros idx. rewrite !length_app, H8. destruct (decide (p = 0)); cbn [length bytes_of];
        destruct (Z.ltb_spec (Z.of_nat idx) (Z.of_nat 8)); lia.
  - exists n. split_and!; [| lia | | done].
    + split_and!; [unfold f_name; split; lia | | done]. rewrite Ek by lia. unfold pad8.
      replace (8 - length n)%nat with (S (7 - length n)) by lia. cbn [replicate]. rewrite <- !app_assoc. cbn [app].
      rewrite cons_middle, app_assoc. apply take_app_length'. rewrite length_app. cbn. lia.
    + intros idx. destruct (Z.ltb_spec (Z.of_nat idx) (Z.of_nat (length n))); lia.
Qed.

Context (fuel : nat) (Hfuel : (256 < fuel)%nat).

Lemma wp_append_name s n p k : forall idx txt (Q : unit -> K -> Prop), os_ok s -> name_ok n ->
  glob g RqName s = pad8 n -> glob g RqExt s = bytes_of "dir" -> glob g RqParent s = le_encode 4 p -> 0 <= p < 256 ->
  (idx <= length n)%nat -> (length n - idx < k)%nat -> (length txt + (length n - idx) < 255)%nat ->
  glob g RDirLen s = [Z.of_nat (length txt)] -> load_bytes (os_mem s) (current_dir g) (length txt) = txt ->
  (forall s', step g [RDir; RDirLen] s s' -> glob g RDirLen s' = [Z.of_nat (length (txt ++ drop idx n))] ->
     load_bytes (os_mem s') (current_dir g) (length (txt ++ drop idx n)) = txt ++ drop idx n -> Q tt s') ->
  wp (append_name g fuel (Z.of_nat idx) k) s Q.
Proof using Hg Hfuel.
  revert s. induction k as [|k IH]; intros s idx txt Q Hs Hn E1 E2 E3 Hp Hi Hk Hfit Hlen Htxt HQ; [lia |]. cbn [append_name].
  destruct (name_string s n p Hn E1 E2 E3 Hp) as (str & Hstr & Hl & Hcond & Hch).
  apply wp_bind, (wp_strlen fuel s _ str); [done | lia |]. rewrite Hcond.
  destruct (Z.ltb_spec (Z.of_nat idx) (Z.of_nat (length n))) as [Hlt|Hge]; cbn [negb].
  - destruct (lookup_lt_is_Some_2 n idx) as [c Hc]; [lia |]. apply wp_bind, wp_look. rewrite (Hch idx c Hc).
    assert (is_byte c) as Hby.
    { destruct Hn as (_ & Hb & _). pose proof (Forall_lookup_1 _ _ _ _ Hb Hc) as Hbc. cbn in Hbc. unfold is_byte. lia. }
    apply wp_bind, (wp_append s c txt); [done | done | lia | done | done |]. intros s1 H1 El1 Et1.
    replace (Z.of_nat idx + 1) with (Z.of_nat (S idx)) by lia.
    apply (IH s1 (S idx) (txt ++ [c])); [by apply (step_ok g _ _ _ H1) | done | | | | done | lia | lia | rewrite length_app; cbn; lia | done | done |].
    + by rewrite (step_glob g Hg _ _ _ RqName H1).
    + by rewrite (step_glob g Hg _ _ _ RqExt H1).
    + by rewrite (step_glob g Hg _ _ _ RqParent H1).
    + intros s2 H2. rewrite <- app_assoc. cbn [app]. rewrite <- (drop_S _ _ _ Hc). intros El2 Et2. apply HQ; [chain | done | done].
  - assert (idx = length n) as -> by lia. rewrite drop_all, app_nil_r in HQ. apply wp_skip. apply HQ; [by apply step_refl | done | done].
Qed.
(** The argument of [cd], inside an object [cd] leaves alone. *)
Definition argument_at (s : K) (p : Z) (n : list Z) (x : region) : Prop :=
  cstring (os_mem s) p n /\ inside g p (S (length n)) x /\ fresh x cd_changes = true.

Lemma argument_step s s' p n x : step g cd_changes s s' -> argument_at s p n x -> argument_at s' p n x.
Proof using Hg. intros Hs (Hc & Hin & Hf). split_and!; [by eapply step_cstring | done | done]. Qed.

Lemma wp_is_up s p n x (Q : bool -> K -> Prop) : argument_at s p n x -> (length n < fuel)%nat ->
  Q (bool_decide (n = dots)) s -> wp (is_up fuel p) s Q.
Proof using Hfuel.
  intros (Hc & _) Hf HQ. apply wp_bind, wp_look.
  destruct (Z.eqb_spec (memcmp (at_list (bytes_of ".." ++ [0])) (at_ptr (os_mem s) p) 2) 0) as [E|E].
  - apply wp_bind. apply (wp_strlen fuel s p n); [done | done |]. apply wp_ret. replace (Z.of_nat (length n) =? 2) with (bool_decide (n = dots)); [done |].
    pose proof (proj1 (memcmp_zero _ _ _) E) as Ez. pose proof (Ez 0%nat ltac:(lia)) as E0. pose proof (Ez 1%nat ltac:(lia)) as E1.
    change (at_list _ 0%nat) with 46 in E0. change (at_list _ 1%nat) with 46 in E1. unfold at_ptr in E0, E1.
    destruct (Z.eqb_spec (Z.of_nat (length n)) 2) as [El|El].
    + apply bool_decide_eq_true. destruct n as [|a [|b [|]]]; cbn [length] in El; try lia.
      destruct (cstring_char Hc 0) as (? & [= <-] & _ & Ea); [cbn; lia |].
      destruct (cstring_char Hc 1) as (? & [= <-] & _ & Eb); [cbn; lia |]. unfold dots. congruence.
    + apply bool_decide_eq_false. intros ->. done.
  - apply wp_ret. rewrite bool_decide_false in HQ; [done |]. intros ->. apply E. apply memcmp_zero. intros [|[|k]] Hk; [| | lia];
      symmetry; unfold at_ptr.
    + by destruct (cstring_char Hc 0) as (? & [= <-] & _ & ->); [cbn; lia |].
    + by destruct (cstring_char Hc 1) as (? & [= <-] & _ & ->); [cbn; lia |].
Qed.

(** [cd] sets the fields of the request. *)
Lemma wp_cd_request s p n x pos (Q : unit -> K -> Prop) (rest : Sh K unit) : os_ok s -> argument_at s p n x ->
  (length n <= 8)%nat -> Forall (fun c => 0 < c < 256) n -> glob g RCwd s = le_encode 4 (here pos) -> 0 <= here pos < 256 ->
  (forall s', step g [RqBuf; RqName; RqExt; RqParent; RqSize] s s' ->
     holds_request g s' (mkRequest (Shell.buf g) (pad8 n) (bytes_of "dir") (here pos) CLUSTER_SIZE) -> wp rest s' Q) ->
  wp (put32 (f_size (req g)) CLUSTER_SIZE;;
      put32 (f_buf (req g)) (Shell.buf g);;
      len ← strlen_of fuel p;
      copy (f_name (req g)) p len;;
      idx ← strlen_of fuel p;
      pad_to (f_name (req g)) idx 8;;
      copy_text (f_ext (req g)) "dir";;
      cwd ← get_cwd g; put32 (f_parent (req g)) cwd;;
      rest) s Q.
Proof using Hg Hfuel.
  intros Hs Harg Hl Hn Hcwd Hr HQ. pose proof (step_ok g) as Hok. pose proof Harg as (_ & Hin & Hfr).
  assert (forall y, y ∈ cd_changes -> compatible y x = true) as Hcomp.
  { intros y Hy. unfold fresh in Hfr. rewrite forallb_forall in Hfr. by apply Hfr, list_elem_of_In. }
  apply wp_bind, (wp_put32 g Hg RqSize s); [done | done | done |]. intros s1 H1 E1.
  apply wp_bind, (wp_put32 g Hg RqBuf s1); [done | done | by eapply Hok |]. intros s2 H2 E2.
  assert (step g [RqSize; RqBuf] s s2) as H02 by chain.
  assert (argument_at s2 p n x) as Harg2 by (eapply argument_step, Harg; eapply step_mono, H02; set_solver).
  apply wp_bind, (wp_strlen fuel s2 p n); [by apply Harg2 | lia |].
  apply wp_bind, (wp_copy g Hg s2 _ p _ RqName x); [by eapply Hok | lia | | | apply Hcomp; set_solver | done |].
  { unfold inside. cbn [place region_size]. unfold req. lia. }
  { unfold inside in *. lia. }
  intros s3 H3 Hp3. assert (step g [RqSize; RqBuf; RqName] s s3) as H03 by chain.
  assert (argument_at s3 p n x) as Harg3 by (eapply argument_step, Harg; eapply step_mono, H03; set_solver).
  apply wp_bind, (wp_strlen fuel s3 p n); [by apply Harg3 | lia |].
  apply wp_bind, (wp_pad g Hg s3 _ _ 8 RqName); [by eapply Hok | lia | unfold inside; cbn; unfold req; lia | done |].
  intros s4 H4 Hp4. apply wp_bind, (wp_copy_text g Hg RqExt s4); [by eapply Hok | done | done | by_compute |]. intros s5 H5 E5.
  apply wp_bind, (wp_get32_glob g RCwd s5 _ (here pos)); [by rewind Hg | lia | done |].
  apply wp_bind, (wp_put32 g Hg RqParent s5); [done | done | by eapply Hok |]. intros s6 H6 E6.
  assert (glob g RqName s4 = pad8 n) as En.
  { rewrite Nat2Z.id in Hp3, Hp4. apply (padded (os_mem s2) (os_mem s3)); [| exact Hp4 | done | apply (region_space g Hg RqName)].
    replace (load_bytes (os_mem s2) p (length n)) with n in Hp3; [exact Hp3 |].
    destruct Harg2 as ((_ & E & _) & _). rewrite <- (take_load_bytes _ _ _ (S (length n))), E by lia. by rewrite take_app_length. }
  pose proof (region_space g Hg RLine) as [Hb0 Hb1]. cbn [place region_size] in *.
  apply HQ; [chain |]. unfold holds_request. cbn [Fat32Types.buf req_name req_ext parent_cluster_number buffer_size].
  rewrite u32_id in E1, E2, E6 by (unfold CLUSTER_SIZE; lia).
  split_and!; rewind Hg; done.
Qed.
Lemma holds_step l s s' r : step g l s s' -> holds_request g s r ->
  forallb (fun x => fresh x l) [RqBuf; RqName; RqExt; RqParent; RqSize] = true -> holds_request g s' r.
Proof using Hg.
  intros Hs (E1 & E2 & E3 & E4 & E5) Hf. cbn [forallb] in Hf. rewrite !andb_true_iff in Hf. destruct Hf as (? & ? & ? & ? & ? & _).
  unfold holds_request. by rewrite !(step_glob g Hg l s s' _ Hs).
Qed.

(** The position does not change when only the request and the screen do. *)
Lemma at_pos_step s s' pos v : step g cd_changes s s' -> at_pos s pos -> glob g RRetcode s' = le_encode 4 v -> 0 <= v < 256 ->
  glob g RCwd s' = glob g RCwd s -> glob g RDirLen s' = glob g RDirLen s -> glob g RDir s' = glob g RDir s ->
  (length (prompt pos) <= 255)%nat -> at_pos s' pos.
Proof using Type.
  intros Hs [? ? Htxt ? ?] Hrc Hv E1 E2 E3 Hfit. split; [congruence | congruence | | by exists v | eapply same_pos; [by eapply step_same | done]].
  etrans; [| exact Htxt]. unfold glob in E3. cbn [place region_size] in E3.
  rewrite <- (take_load_bytes (os_mem s') _ _ 255), E3, take_load_bytes by done. done.
Qed.

(** Into a directory the request names. *)
Lemma wp_enter_dir s own M n c pos (Q : unit -> K -> Prop) : let r := mkRequest (Shell.buf g) (pad8 n) (bytes_of "dir") (here pos) CLUSTER_SIZE in
  os_ok s -> os_dir s (here pos) own M -> dir_request r (here pos) own -> name_ok n -> holds_request g s r ->
  M !! req_key r = Some (Dir c) -> 0 <= c < 256 -> 0 <= here pos < 256 ->
  glob g RDirLen s = [Z.of_nat (length (prompt pos))] -> load_bytes (os_mem s) (current_dir g) (length (prompt pos)) = prompt pos ->
  (length (prompt pos) + length n + 1 <= 255)%nat ->
  (forall s', step g [RArg; RRetcode; RCwd; RDir; RDirLen] s s' -> glob g RCwd s' = le_encode 4 c -> glob g RRetcode s' = le_encode 4 c ->
     glob g RDirLen s' = [Z.of_nat (length (prompt pos ++ n ++ [47]))] ->
     load_bytes (os_mem s') (current_dir g) (length (prompt pos ++ n ++ [47])) = prompt pos ++ n ++ [47] -> Q tt s') ->
  wp (move_child_dir g (req g);;
      rc ← get_retcode g; put_cwd g rc;;
      append_name g fuel 0 9;;
      append_slash g) s Q.
Proof using Hg Hfuel.
  intros r Hs Hd Hr Hn Hreq HM Hc Hh Hlen Htxt Hfit HQ. pose proof (step_ok g) as Hok. pose proof Hn as (Hl & Hnc & _).
  pose proof (region_space g Hg RDir) as [Hd0 Hd1]. cbn [place region_size] in Hd0, Hd1.
  apply wp_bind, (wp_child g Hg s (here pos) own M r c); [done | done | done | done | done | lia |].
  intros s1 H1 E1. apply wp_bind, (wp_retcode g s1 c); [done | lia |].
  apply wp_bind, (wp_put32 g Hg RCwd s1); [done | done | by eapply Hok |]. intros s2 H2 E2. rewrite u32_id in E2 by lia.
  destruct Hreq as (_ & Hq2 & Hq3 & Hq4 & _). cbn [req_name req_ext parent_cluster_number r] in Hq2, Hq3, Hq4.
  assert (load_bytes (os_mem s2) (current_dir g) (length (prompt pos)) = prompt pos) as Ht2.
  { etrans; [| exact Htxt]. assert (inside g (current_dir g) (length (prompt pos)) RDir) as Hin by (unfold inside; cbn; lia).
    rewrite (step_inside g Hg _ _ _ RDir _ _ H2), (step_inside g Hg _ _ _ RDir _ _ H1); done. }
  apply wp_bind, (wp_append_name s2 n (here pos) 9 0 (prompt pos)); [by eapply Hok | done | | | | done | lia | lia | lia | | done |];
    [by rewind Hg | by rewind Hg | by rewind Hg | by rewind Hg |].
  rewrite drop_0. intros s3 H3 E3 Ht3. apply (wp_append s3 47 (prompt pos ++ n)); [by eapply Hok | done | rewrite length_app; lia | done | done |].
  rewrite <- app_assoc. intros s4 H4 E4 Ht4. apply HQ; [chain | by rewind Hg | by rewind Hg | done | done].
Qed.

Lemma wp_cd_down s p n x pos T (Q : unit -> K -> Prop) : os_ok s -> at_pos s pos -> tree_ok s T -> is_Some (T !! here pos) ->
  argument_at s p n x -> name_ok n -> n <> dots -> (length (prompt pos) + length n + 1 <= 255)%nat ->
  (forall s', step g cd_changes s s' -> at_pos s' (walk T pos n) -> is_Some (T !! here (walk T pos n)) -> Q tt s') ->
  wp (cd_down g fuel p) s Q.
Proof using Hg Hfuel.
  intros Hs Hat HT [M HM] Harg Hn Hdots Hfit HQ. pose proof Hn as (Hl & Hc & _). pose proof Hat as [Hcwd Hlen Htxt Hcode Hpos].
  pose proof (here_range s pos Hpos) as Hr. pose proof (step_ok g) as Hok. pose proof (region_space g Hg RLine) as [Hb0 Hb1]. cbn [place region_size] in *.
  apply (wp_cd_request s p n x pos); [done | done | done | done | done | done |]. intros s1 H1 Hreq1.
  set (r := mkRequest (Shell.buf g) (pad8 n) (bytes_of "dir") (here pos) CLUSTER_SIZE) in *.
  destruct (proj2 HT _ _ HM) as (own & Hd & Hown & Hchild).
  assert (dir_request r (here pos) own) as Hr1.
  { apply name_request; [done | done | lia | lia | unfold CLUSTER_SIZE; lia | done]. }
  apply wp_bind, (wp_read_dir g Hg s1 (here pos) own M r); [by eapply Hok | | by apply dir_request_in | done | |].
  { eapply same_dir; [by eapply step_same | done]. }
  { unfold small_code. by rewrite (step_glob g Hg _ _ _ RRetcode H1). }
  intros s2 H2 E2. assert (subdir M n = M !! req_key r) as Esub by done.
  pose proof (dir_code_range (M !! req_key r)) as Hdc.
  apply wp_bind, (wp_retcode g s2 (dir_code (M !! req_key r))); [done | lia |].
  assert (forall s', step g cd_changes s s' -> glob g RRetcode s' = le_encode 4 (dir_code (M !! req_key r)) ->
    glob g RCwd s' = glob g RCwd s -> glob g RDirLen s' = glob g RDirLen s -> glob g RDir s' = glob g RDir s ->
    walk T pos n = pos -> Q tt s') as Hstay.
  { intros s' Hst Erc Ec Eln Et Ew. apply HQ; [done | | rewrite Ew; by exists M]. rewrite Ew.
    eapply at_pos_step; [exact Hst | done | exact Erc | lia | done | done | done | lia]. }
  destruct (M !! req_key r) as [[data|c]|] eqn:EM; cbn [dir_code] in *.
  - cbn. apply wp_skip. apply Hstay; [unfold cd_changes; chain | done | by rewind Hg | by rewind Hg | by rewind Hg |].
    unfold walk. by rewrite decide_False, HM; [cbn; rewrite Esub |].
  - cbn [Z.eqb]. destruct (Hchild n c Esub) as (Hcr & Hcb & Hcp & HTc).
    apply (wp_enter_dir s2 own M n c pos); [by eapply Hok | | done | done | by eapply holds_step
      | done | lia | lia | by rewind Hg | | lia |].
    { eapply same_dir; [| exact Hd]. etrans; by eapply step_same. }
    { etrans; [| exact Htxt]. assert (inside g (current_dir g) (length (prompt pos)) RDir) as Hin by (unfold inside; cbn; lia).
      rewrite (step_inside g Hg _ _ _ RDir _ _ H2), (step_inside g Hg _ _ _ RDir _ _ H1); done. }
    intros s3 H3 E3 E4 E5 Ht3.
    assert (walk T pos n = (c, n) :: pos) as Ew.
    { unfold walk. rewrite decide_False, HM by done. cbn. by rewrite Esub. }
    assert (step g cd_changes s s3) as H03 by (unfold cd_changes; chain). pose proof (step_same g _ _ _ H03) as Hsame.
    apply HQ; [done | | rewrite Ew; exact HTc]. rewrite Ew. split; cbn [here prompt]; [done | done | done | by exists c; split; [lia |] |].
    split_and!; [done | lia | lia | by eapply same_parent | done | by eapply same_pos].
  - cbn. apply (wp_puts g); [by eapply Hok | lia |]. intros s3 H3.
    apply Hstay; [unfold cd_changes; chain | by rewind Hg | by rewind Hg | by rewind Hg | by rewind Hg |].
    unfold walk. by rewrite decide_False, HM; [cbn; rewrite Esub |].
Qed.
(** ** Paths *)

Lemma wp_cd s p n x pos T (Q : unit -> K -> Prop) : ready s T pos -> argument_at s p n x -> name_ok n ->
  (length (prompt pos) + length n + 1 <= 255)%nat ->
  (forall s', step g cd_changes s s' -> ready s' T (walk T pos n) -> Q tt s') -> wp (cd g fuel p) s Q.
Proof using Hg Hfuel.
  intros [Hk Hat HT Hkn] Harg Hn Hfit HQ. pose proof (known_here s T pos HT Hkn) as Hh.
  apply wp_bind, (wp_is_up s p n x); [done | destruct Hn; lia |]. destruct (bool_decide_reflect (n = dots)) as [->|Hne].
  - apply (wp_cd_up s pos); [done | done | lia |]. intros s' Hs Hat'. apply HQ; [done |].
    split; [by eapply step_ok | done | eapply same_tree; [by eapply step_same | done] |]. unfold walk. rewrite decide_True by done.
    by apply known_tl.
  - apply (wp_cd_down s p n x pos T); [done | done | done | done | done | done | done | done |].
    intros s' Hs Hat' Hh'. apply HQ; [done |].
    split; [by eapply step_ok | done | eapply same_tree; [by eapply step_same | done] |]. by apply walk_known.
Qed.

(** What a command line of [cd] may change. *)
Definition line_changes : list region := [RLine; RRes] ++ cd_changes.

Lemma wp_cd_path n : forall s path str pos T (Q : unit -> K -> Prop), ready s T pos -> cstring (os_mem s) path str ->
  inside g path (S (length str)) RLine -> Forall name_ok (components str) -> (length str < n)%nat ->
  (length (prompt pos) + length str + 1 <= 255)%nat ->
  (forall s', step g line_changes s s' -> ready s' T (foldl (walk T) pos (components str)) -> Q tt s') ->
  wp (cd_path g fuel path (var g "main.res") n) s Q.
Proof using Hg Hfuel.
  induction n as [|n IH]; intros s path str pos T Q Hrd Hstr Hin Hnames Hlen Hfit HQ; [lia |].
  cbn [cd_path]. apply wp_bind, (wp_includes fuel s path str); [done | done | lia |].
  pose proof (components_split str) as Hcs. destruct (bool_decide_reflect (47 ∈ str)) as [Hs|Hs].
  - rewrite decide_True in Hcs by done. destruct (split_at_cases 47 str) as [(_ & Estr & _)|(? & _)]; [| done].
    rewrite Hcs in *. destruct (split_at 47 str) as [a b] eqn:Eab. cbn [fst snd] in *.
    apply Forall_cons in Hnames as [Ha Hb].
    assert (length str = length a + S (length b))%nat as Hl by (rewrite Estr, length_app; done).
    apply wp_bind, (wp_split g Hg fuel s path str 47 (var g "main.res") RLine RRes);
      rewrite ?Eab; cbn [fst snd]; try done; try lia; [by apply rd_ok in Hrd | destruct Ha; unfold inside; cbn; lia |].
    intros s1 H1 Ha1 Hb1. assert (inside g path (S (length b)) RLine) as Hinb by (unfold inside in *; lia).
    apply wp_bind, (wp_cd s1 _ a RRes pos T); [| split_and!; [done | destruct Ha; unfold inside; cbn; lia | done] | done | lia |].
    { eapply ready_step; [exact H1 | done | lia | done]. }
    intros s2 H2 Hrd2. pose proof (walk_prompt T pos a) as Hwp.
    apply (IH s2 path b (walk T pos a) T); [done | | done | done | lia | lia |].
    { eapply step_cstring; [done | exact H2 | | exact Hinb | done]. done. }
    intros s3 H3 Hrd3. apply HQ; [| done]. eapply step_snoc; [| exact H3 | done].
    eapply step_snoc; [| exact H2 | done]. by eapply step_mono, H1; apply covers_sub.
  - rewrite decide_False in Hcs by done. rewrite Hcs in *. apply Forall_cons in Hnames as [Hn _].
    apply (wp_cd s path str RLine pos T); [done | by split_and! | done | lia |].
    intros s' Hs' Hrd'. apply HQ; [| done]. by eapply step_mono, Hs'; apply covers_sub.
Qed.

Lemma wp_cd_cmd s path pos T (Q : unit -> K -> Prop) : ready s T pos ->
  cstring (os_mem s) (Shell.buf g + 3) path -> 10 ∉ path -> Forall name_ok (components path) ->
  (length (prompt pos) + length path + 1 <= 255)%nat ->
  (forall s', step g line_changes s s' -> ready s' T (foldl (walk T) pos (components path)) -> Q tt s') ->
  wp (cd_cmd g fuel) s Q.
Proof using Hg Hfuel.
  intros Hrd Hstr Hnl Hnames Hfit HQ.
  unfold cd_cmd. apply wp_bind, (wp_remove_newline g fuel s _ path); [by apply rd_ok in Hrd | done | done | lia |].
  intros s1 H1 Hstr1. apply (wp_cd_path fuel s1 (Shell.buf g + 3) path pos T); [| done | | done | lia | done |].
  - eapply ready_step; [exact H1 | done | lia | done].
  - unfold inside. cbn. lia.
  - intros s' H' Hrd'. apply HQ; [| done]. eapply step_snoc; [| exact H' | done]. by eapply step_mono, H1; apply covers_sub.
Qed.

(** The shell's own globals say that it is at [pos]. *)
Definition placed (s : K) (pos : position) : Prop :=
  glob g RCwd s = le_encode 4 (here pos) /\ glob g RDirLen s = [Z.of_nat (length (prompt pos))] /\
  load_bytes (os_mem s) (current_dir g) (length (prompt pos)) = prompt pos /\ (length (prompt pos) <= 255)%nat.

Lemma at_pos_placed s pos : small_code g s -> pos_ok s pos -> placed s pos -> at_pos s pos.
Proof using Type. intros Hc Hp (? & ? & ? & _). by split. Qed.
Lemma placed_at_pos s pos : (length (prompt pos) <= 255)%nat -> at_pos s pos -> placed s pos.
Proof using Type. intros Hl [? ? ? _ _]. by split_and!. Qed.

(** C7: The command [cd path] walks the directory tree: whatever mixture of names,
    "..", missing directories and slashes the path has, the command returns, the
    current cluster becomes that of the directory the components lead to, one after
    the other from the current one (a component that names no directory stays where
    it is), and the recorded path, the first [currentdirlen] bytes of [current_dir],
    is the path to it.  The file system is untouched, and in memory nothing changes
    but the objects of [line_changes]: the line, the request and its argument slot,
    the return code, [res], the three globals of the place, and the screen.  (The
    prompt prints [current_dir] up to a NUL: behind the recorded path it may show
    the tail of a longer one, since going up leaves the removed name's slash.) *)
Theorem cd_walks_the_tree s T pos path : ready s T pos ->
  cstring (os_mem s) (Shell.buf g + 3) path -> 10 ∉ path -> Forall name_ok (components path) ->
  (length (prompt pos) + length path + 1 <= 255)%nat ->
  exists s', cd_cmd g fuel s = Ret (tt, s') /\ ready s' T (foldl (walk T) pos (components path)) /\ os_same s s' /\
    only g line_changes (os_mem s) (os_mem s').
Proof using Hg Hfuel.
  intros Hrd Hstr Hnl Hnames Hfit.
  enough (wp (cd_cmd g fuel) s (fun _ s' => ready s' T (foldl (walk T) pos (components path)) /\ os_same s s' /\
    only g line_changes (os_mem s) (os_mem s'))) as ([] & s' & E & HQ) by by exists s'.
  apply (wp_cd_cmd s path pos T); [done .. |]. intros s' Hs' Hrd'. split; [done |]. split; [by eapply step_same | by destruct Hs' as (_ & _ & ? & _)].
Qed.
End Walk.
