(* ===== verification/ShellFiles.v ===== *)
(** * Making directories and printing files (mkdir, cat of src/user-shell.c) *)
From Stdlib Require Import String.
From stdpp Require Import gmap.
From S2P Require Import Prelude CString Memory BlockDevice Fat32Types Fat32 Fat32Chain Fat32Facts Fat32Ops Fat32Access Fat32Abs Fat32Refine Fat32Codes Fat32Tree PortIO Framebuffer IntStr ShellStrings Shell ShellCommands ShellLogic ShellRules ShellDirs.
#[local] Open Scope Z_scope.

(** A text that ends within the bytes read. *)
Lemma prefix_string m p txt rest : load_bytes m p (length (txt ++ 0 :: rest)) = txt ++ 0 :: rest -> Forall nonzero txt ->
  in_space p (S (length txt)) -> cstring m p txt.
Proof.
  intros E Hnz Hsp. split_and!; [done | | done]. rewrite length_app in E. cbn [length] in E.
  rewrite <- (take_load_bytes _ _ _ (length txt + S (length rest))), E by lia.
  replace (S (length txt)) with (length (txt ++ [0])) by (rewrite length_app; cbn; lia).
  by rewrite (cons_middle 0 txt rest), app_assoc, take_app_length.
Qed.

(** Bytes written over the beginning of others, without a terminator. *)
Definition over_name (old n : list Z) : list Z := n ++ drop (length n) old.

Lemma over_name_full old n : length n = length old -> over_name old n = n.
Proof. intros Hl. unfold over_name. by rewrite drop_ge, app_nil_r by lia. Qed.

Lemma over_name_bytes m m' p n old k : patched m m' p n -> load_bytes m p k = old -> (length n <= k)%nat -> in_space p k ->
  load_bytes m' p k = over_name old n.
Proof.
  intros Hp <- Hl [H1 H2]. unfold over_name. replace k with (length n + (k - length n))%nat at 1 2 by lia. rewrite !load_bytes_app.
  rewrite (patched_at Hp) by (split; lia). f_equal. rewrite drop_app_length' by by rewrite length_load_bytes.
  apply (patched_other Hp); [split; lia | unfold apart; lia].
Qed.

Section Files.
Context {K : Type} `{OsSpec K} (g : Layout) (Hg : layout_ok g).

(** ** What the screen shows *)

Definition displays (s : K) (t : terminal) : Prop :=
  same_grid (screen (os_mem s)) (cells t) /\ os_cursor s = (t_row t, t_col t).

Lemma displays_step l s s' t : step g l s s' -> fresh RScreen l = true -> displays s t -> displays s' t.
Proof using Hg.
  intros Hs Hf [Hgrid Hc]. split.
  - rewrite <- Hgrid. intros r c Hon. pose proof (cell_addr_range r c Hon) as [Hlo Hhi]. unfold screen.
    assert (inside g (cell_addr r c) 2 RScreen) as Hin by (unfold inside; cbn; lia).
    pose proof (step_inside g Hg l s s' RScreen (cell_addr r c) 2 Hs Hf Hin) as E. unfold load_bytes in E.
    cbn [seq fmap list_fmap] in E. rewrite Z.add_0_r in E. injection E as E1 E2.
    change (cell_addr r c + 1) with (cell_addr r c + Z.of_nat 1). by rewrite E1, E2.
  - destruct Hs as (_ & _ & _ & Hcur). rewrite Hcur; [done |]. intros Hin. unfold fresh in Hf. rewrite forallb_forall in Hf.
    apply list_elem_of_In in Hin. by specialize (Hf _ Hin).
Qed.

Lemma wp_puts_string s str cs len color t (Q : unit -> K -> Prop) : os_ok s -> cstring (os_mem s) str cs ->
  str + Z.of_nat (length cs) < FRAMEBUFFER_MEMORY_OFFSET -> Z.of_nat (length cs) <= len -> displays s t ->
  (forall s', step g [RScreen] s s' -> displays s' (type_string color t cs) -> Q tt s') -> wp (puts str len color) s Q.
Proof using Type.
  intros Hs Hcs Hlow Hlen [Hgrid Hcur] HQ. destruct (sys_puts s str len color Hs) as (s' & E & Hk & Hsame & Ho & Hshow); [lia |].
  eapply wp_sys; [exact E |]. apply HQ.
  - split_and!; [done | done | by apply outside_only |]. intros Hn. exfalso. apply Hn. left.
  - destruct (Hshow t cs Hgrid Hcur Hcs Hlow) as [Hgrid' Hcur']. rewrite take_ge in Hgrid', Hcur' by lia. by split.
Qed.

(** ** The buffer of the commands *)

Lemma buf_only m m' n : (n <= 2048)%nat ->
  (forall a, 0 <= a < 2 ^ 32 -> ~ (Shell.buf g <= a < Shell.buf g + Z.of_nat n) -> load m' a = load m a) -> only g [RLine; RSpill] m m'.
Proof using Type.
  intros Hn Ho a Ha Hout. apply Ho; [done |]. pose proof (Hout RLine (list_elem_of_here _ _)) as H1.
  pose proof (Hout RSpill (list_elem_of_further _ _ _ (list_elem_of_here _ _))) as H2. cbn [place region_size] in H1, H2. lia.
Qed.

(** [memset(buf, 0, CLUSTER_SIZE)] *)
Lemma wp_clear_cluster s (Q : unit -> K -> Prop) : os_ok s ->
  (forall s', step g [RLine; RSpill] s s' -> load_bytes (os_mem s') (Shell.buf g) 2048 = replicate 2048 0 -> Q tt s') ->
  wp (fill (Shell.buf g) 0 2048) s Q.
Proof using Hg.
  intros Hs HQ. pose proof (region_space g Hg RLine) as [H1 _]. pose proof (region_space g Hg RSpill) as [_ H2]. cbn [place region_size] in H1, H2.
  eexists tt, _. split; [reflexivity |]. apply HQ.
  2:{ rewrite set_mem_mem. rewrite <- (length_replicate 2048 0) at 1. apply (patched_at (patched_memset (os_mem s) (Shell.buf g) 0 2048 ltac:(split; lia))).
    rewrite length_replicate. split; lia. }
  split_and!; [apply set_mem_ok; [done | by apply memset_ok, os_ok_bytes] | apply set_mem_same | | intros _; apply set_mem_cursor].
  rewrite set_mem_mem. apply (buf_only _ _ 2048); [done |]. intros a Ha Hn.
  rewrite (patched_memset (os_mem s) (Shell.buf g) 0 2048) by (unfold in_space; lia). rewrite length_replicate. split_cond; lia || done.
Qed.

(** The buffer of the line editor is empty; clearing a cluster may reach into it. *)
Definition temp_clean (s : K) : Prop := load_bytes (os_mem s) (temp_buf g) 256 = replicate 256 0.

Lemma only_clean l s s' : only g l (os_mem s) (os_mem s') -> fresh RTemp l = true -> temp_clean s -> temp_clean s'.
Proof using Hg. unfold temp_clean. intros Ho Hf <-. eapply (only_inside g Hg _ _ _ RTemp); [exact Ho | done | unfold inside; cbn; lia]. Qed.

Lemma zeros_at m p n i : load_bytes m p n = replicate n 0 -> (i < n)%nat -> load m (p + Z.of_nat i) = 0.
Proof using Type.
  intros E Hi. pose proof (load_bytes_lookup m p n i) as El. rewrite E, lookup_replicate_2, decide_True in El by done. by injection El.
Qed.

Lemma clear_clean s s' : step g [RLine; RSpill] s s' -> load_bytes (os_mem s') (Shell.buf g) 2048 = replicate 2048 0 ->
  temp_clean s -> temp_clean s'.
Proof using Hg.
  unfold temp_clean. intros (_ & _ & Ho & _) Hz Ht. rewrite <- Ht. apply load_bytes_ext. intros i Hi.
  rewrite (zeros_at _ _ _ i Ht Hi). pose proof (region_space g Hg RTemp) as [Hp0 Hp1]. cbn [place region_size] in Hp0, Hp1.
  destruct (decide (Shell.buf g <= temp_buf g + Z.of_nat i < Shell.buf g + 2048)) as [Hin|Hout].
  - pose proof (zeros_at _ _ _ (Z.to_nat (temp_buf g + Z.of_nat i - Shell.buf g)) Hz) as E. rewrite Z2Nat.id in E by lia.
    replace (Shell.buf g + (temp_buf g + Z.of_nat i - Shell.buf g)) with (temp_buf g + Z.of_nat i) in E by lia. apply E. lia.
  - rewrite Ho; [by apply zeros_at with (n := 256%nat) | lia |]. intros x Hx. set_unfold in Hx. destruct Hx as [->|[->|[]]]; cbn; lia.
Qed.

(** ** Creating a directory *)

Lemma wp_write_dir s T p f r (Q : unit -> K -> Prop) : os_ok s -> os_tree s T -> T !! p = Some f -> dir_request r p (own_key f) ->
  holds_request g s r -> small_code g s -> nodes f !! req_key r = None -> buffer_size r = 0 -> req_name r <> replicate 8 0 ->
  (size (nodes f) < 63)%nat -> 0 < os_free s ->
  (forall s' x, os_ok s' -> only g [RArg; RRetcode] (os_mem s) (os_mem s') -> glob g RRetcode s' = le_encode 4 0 -> os_input s' = os_input s ->
     T !! x = None -> 2 <= x <= 512 - os_free s -> os_free s' = os_free s - 1 -> os_tree s' (add_folder T p (req_key r) x) -> Q tt s') ->
  wp (write_syscall g (req g)) s Q.
Proof using Hg.
  intros Hs HT Hf Hr Hreq Hcode HM Hsz Hnz Hm Hfree HQ. apply wp_bind. apply wp_by_value; [done | done |]. intros s1 Hs1 E1.
  pose proof (step_same g _ _ _ Hs1) as Hsame1. pose proof (same_free s s1 Hsame1) as Ef1. pose proof (same_input s s1 Hsame1) as Ei1.
  destruct (sys_write_dir s1 T p f r (arg g) (retcode g)) as (s2 & x & E2 & Hk2 & Hc2 & Em2 & Hx2 & Hxr & Hf2 & Hi2 & HT2);
    [by apply (step_ok g _ _ _ Hs1) | by apply (same_whole s s1) | done | done | by eapply arg_request | done | done | done | done | by rewrite Ef1 |].
  eapply wp_sys; [exact E2 |]. pose proof (region_space g Hg RRetcode) as [Hr0 Hr1]. cbn [place region_size] in Hr0, Hr1.
  assert (patched (os_mem s1) (os_mem s2) (retcode g) [0]) as Hp by (rewrite Em2; apply (patched_store _ _ 0); lia).
  apply (HQ s2 x); [done | | | congruence | done | lia | lia | done].
  - apply (only_trans g [RArg] [RRetcode] (os_mem s) (os_mem s1)); [by destruct Hs1 as (_ & _ & ? & _) |].
    eapply patched_only; [exact Hp |]. unfold inside. cbn. lia.
  - eapply store_code; [done | exact Hcode | | exact Hp | lia]. by rewrite (step_glob g Hg _ _ _ RRetcode Hs1).
Qed.
(** ** Reading a file *)

Lemma wp_read_file s p own M r data bs (Q : unit -> K -> Prop) : os_ok s -> os_dir s p own M -> req_ok r ->
  parent_cluster_number r = p -> req_key r <> zero_key -> holds_request g s r -> small_code g s ->
  M !! req_key r = Some (File data) -> os_stored s p (req_key r) bs -> Z.of_nat (length data) <= buffer_size r <= 2048 ->
  Fat32Types.buf r = Shell.buf g ->
  (forall s', step g [RArg; RRetcode; RLine; RSpill] s s' -> glob g RRetcode s' = le_encode 4 0 ->
     load_bytes (os_mem s') (Shell.buf g) (length bs) = bs -> Q tt s') ->
  wp (read_syscall g (req g)) s Q.
Proof using Hg.
  intros Hs Hd Hr Hpar Hz Hreq Hcode HM Hst Hlen Hbuf HQ. apply wp_bind. apply wp_by_value; [done | done |]. intros s1 Hs1 E1.
  pose proof (stored_length s p own M _ data bs Hd HM Hst ltac:(lia)) as Hbl.
  pose proof (region_space g Hg RLine) as [Hb0 _]. pose proof Hg as (_ & Hlow & Hap).
  pose proof (Hlow RLine ltac:(done)) as Hb1. pose proof (region_space g Hg RSpill) as [_ Hb2].
  pose proof (region_space g Hg RRetcode) as [Hr0 Hr1]. cbn [place region_size] in *.
  destruct (sys_read s1 p own M r (arg g) (retcode g) data bs) as (s2 & m' & E2 & Hk2 & Hs2 & Hc2 & Em2 & Hld & Hout);
    [by apply (step_ok g _ _ _ Hs1) | by apply (same_dir s s1); [by eapply step_same |] | done | done | done
     | by eapply arg_request | done | eapply same_stored; [by eapply step_same | done] | done | lia | lia |].
  rewrite Hbuf in Hld, Hout.
  assert (only g [RLine; RSpill] (os_mem s1) m') as Ho by by apply (buf_only _ _ 2048).
  assert (patched m' (os_mem s2) (retcode g) [0]) as Hp by (rewrite Em2; apply (patched_store m' _ 0); lia).
  assert (only g [RRetcode] m' (os_mem s2)) as Ho2 by (eapply patched_only; [exact Hp | unfold inside; cbn; lia]).
  assert (step g [RArg; RRetcode; RLine; RSpill] s s2) as H02.
  { eapply step_snoc with (l := [RLine; RSpill; RRetcode]); [by eapply step_mono, Hs1; apply covers_sub | | done].
    split_and!; [done | done | by apply (only_trans g [RLine; RSpill] [RRetcode] (os_mem s1) m') | done]. }
  eapply wp_sys; [exact E2 |]. apply HQ; [done | |].
  - destruct Hcode as (w & Hw & E). apply (store_code_byte g Hg m' (os_mem s2) w 0); [| done | done | lia].
    rewrite <- E. unfold glob. cbn [place region_size].
    rewrite (only_inside g Hg _ _ _ RRetcode _ _ Ho), (step_inside g Hg _ _ _ RRetcode _ _ Hs1); try done; by apply inside_place.
  - rewrite (patched_other Hp); [done | split; lia |]. pose proof (Hap RLine RRetcode eq_refl) as A1.
    pose proof (Hap RSpill RRetcode eq_refl) as A2. unfold apart in *. cbn in *. lia.
Qed.

Context (fuel : nat) (Hfuel : (256 < fuel)%nat).

Lemma wp_with_argument s off cmd str (Q : unit -> K -> Prop) : os_ok s -> cstring (os_mem s) (Shell.buf g + off) str -> 10 ∉ str ->
  str <> [] -> (length str < fuel)%nat ->
  (forall s', step g [] s s' -> cstring (os_mem s') (Shell.buf g + off) str -> wp (cmd (Shell.buf g + off)) s' Q) ->
  wp (with_argument g fuel off cmd) s Q.
Proof using Hfuel.
  intros Hs Hstr Hn Hne Hf HQ. apply wp_bind, (wp_remove_newline g fuel s _ str); [done | done | done | done |].
  intros s1 H1 Hstr1. apply wp_bind, (wp_strlen fuel s1 _ str); [done | done |].
  destruct str as [|c str]; [done |]. cbn [length]. destruct (Z.ltb_spec 0 (Z.of_nat (S (length str)))); [| lia]. by apply HQ.
Qed.

(** A name of at most eight characters at [buf + off]. *)
Definition name_arg (s : K) (off : Z) (n : list Z) : Prop :=
  cstring (os_mem s) (Shell.buf g + off) n /\ (length n <= 8)%nat /\ Forall (fun c => 0 < c < 256) n /\ 0 <= off <= 16.

Lemma wp_mkdir_request s off n p (Q : unit -> K -> Prop) (rest : Sh K unit) : os_ok s -> name_arg s off n ->
  glob g RCwd s = le_encode 4 p -> 0 <= p < 2 ^ 32 ->
  (forall s', step g [RqBuf; RqName; RqExt; RqParent; RqSize; RLine] s s' ->
     holds_request g s' (mkRequest (Shell.buf g) (pad8 n) (bytes_of "dir") p 0) -> wp rest s' Q) ->
  let argument := Shell.buf g + off in
  wp (len ← strlen_of fuel argument;
      put32 (f_size (req g)) 0;;
      put32 (f_buf (req g)) (Shell.buf g);;
      pad_to argument (u8 len) 8;;
      copy_text (f_ext (req g)) "dir";;
      cwd ← get_cwd g; put32 (f_parent (req g)) cwd;;
      copy (f_name (req g)) argument (Z.max (u8 len) 8);;
      rest) s Q.
Proof using Hg Hfuel.
  intros Hs (Hstr & Hl & Hn & Hoff) Hcwd Hp HQ argument. pose proof (step_ok g) as Hok. pose proof (region_space g Hg RLine) as [Hb0 Hb1].
  assert (inside g argument 8 RLine) as Hin by (unfold inside, argument; cbn; lia). cbn [place region_size] in Hb0, Hb1.
  apply wp_bind, (wp_strlen fuel s _ n); [done | lia |]. rewrite u8_id by lia. rewrite Z.max_r by lia.
  apply wp_bind, (wp_put32 g Hg RqSize s); [done | done | done |]. intros s1 H1 E1.
  apply wp_bind, (wp_put32 g Hg RqBuf s1); [done | done | by eapply Hok |]. intros s2 H2 E2.
  apply wp_bind, (wp_pad g Hg s2 _ _ 8 RLine); [by eapply Hok | lia | done | done |]. intros s3 H3 Hp3.
  apply wp_bind, (wp_copy_text g Hg RqExt s3); [by eapply Hok | done | done | by_compute |]. intros s4 H4 E4.
  apply wp_bind, (wp_get32_glob g RCwd s4 _ p); [by rewind Hg | lia | done |].
  apply wp_bind, (wp_put32 g Hg RqParent s4); [done | done | by eapply Hok |]. intros s5 H5 E5.
  apply wp_bind, (wp_copy g Hg s5 _ argument 8 RqName RLine); [by eapply Hok | lia | by apply inside_place | done | done | done |].
  intros s6 H6 Hp6. change (Z.to_nat 8) with 8%nat in Hp6.
  assert (load_bytes (os_mem s5) argument 8 = pad8 n) as En.
  { rewrite (step_inside g Hg _ s4 s5 RLine _ _ H5), (step_inside g Hg _ s3 s4 RLine _ _ H4) by done.
    rewrite Nat2Z.id in Hp3. apply (padded (os_mem s2) (os_mem s2)); [| exact Hp3 | done | by eapply inside_space].
    assert (load_bytes (os_mem s2) argument (length n) = n) as E.
    { rewrite (step_inside g Hg _ s1 s2 RLine _ _ H2), (step_inside g Hg _ s s1 RLine _ _ H1); try done; try (unfold inside in *; lia).
      destruct Hstr as (_ & E & _). unfold argument. rewrite <- (take_load_bytes _ _ _ (S (length n))), E by lia. by rewrite take_app_length. }
    intros a Ha. split_cond; [| done]. symmetry. apply nth_lookup_Some. rewrite <- E, load_bytes_lookup, decide_True by lia.
    f_equal. f_equal. lia. }
  apply HQ; [chain |]. unfold holds_request. cbn [Fat32Types.buf req_name req_ext parent_cluster_number buffer_size].
  rewrite u32_id in E1, E2, E5 by lia. split_and!; try (rewind Hg; done).
  rewrite En in Hp6. pose proof (patched_at Hp6) as E. unfold pad8 in E. rewrite length_app, length_replicate in E.
  replace (length n + (8 - length n))%nat with 8%nat in E by lia. apply E, (region_space g Hg RqName).
Qed.

Definition same_place (s s' : K) : Prop :=
  glob g RCwd s' = glob g RCwd s /\ glob g RDir s' = glob g RDir s /\ glob g RDirLen s' = glob g RDirLen s.

(** What [mkdir] may change, and what it does to the disk. *)
Definition mkdir_changes : list region := [RqBuf; RqName; RqExt; RqParent; RqSize; RLine; RSpill; RArg; RRetcode; RScreen].
Definition after_mkdir (s s' : K) (T : tree) (p : Z) (f : folder) (n : list Z) : Prop :=
  match subdir (nodes f) n with
  | None => exists c, T !! c = None /\ 2 <= c <= 512 - os_free s /\ os_free s' = os_free s - 1 /\
      os_tree s' (add_folder T p (pad8 n, bytes_of "dir") c)
  | Some _ => os_same s s'
  end.

Lemma only_keeps s s' x l : only g l (os_mem s) (os_mem s') -> fresh x l = true -> glob g x s' = glob g x s.
Proof using Hg. intros Ho Hx. eapply (only_inside g Hg _ _ _ x); [exact Ho | done | by apply inside_place]. Qed.

(** The new directory. *)
Lemma wp_mkdir_new s T p f r (Q : unit -> K -> Prop) : os_ok s -> os_tree s T -> T !! p = Some f -> dir_request r p (own_key f) ->
  holds_request g s r -> small_code g s -> nodes f !! req_key r = None -> buffer_size r = 0 -> req_name r <> replicate 8 0 ->
  (size (nodes f) < 63)%nat -> 0 < os_free s ->
  (forall s' c, os_ok s' -> only g mkdir_changes (os_mem s) (os_mem s') -> small_code g s' -> (temp_clean s -> temp_clean s') ->
     os_input s' = os_input s -> T !! c = None -> 2 <= c <= 512 - os_free s -> os_free s' = os_free s - 1 -> os_tree s' (add_folder T p (req_key r) c) -> Q tt s') ->
  wp (fill (Shell.buf g) 0 2048;;
      write_syscall g (req g);;
      rc ← get_retcode g;
      if negb (rc =? 0) then say g (ln "Unknown error.") 15 0xF
      else say g "Folder '" 8 0xF;; puts (f_name (req g)) 8 0xF;; say g (ln "' created.") 12 0xF) s Q.
Proof using Hg.
  clear Hfuel. intros Hs HT Hf Hr Hreq Hcode HM Hsz Hnz Hm Hfree HQ. pose proof (step_ok g) as Hok.
  apply wp_bind, (wp_clear_cluster s); [done |]. intros s1 H1 Hz1. pose proof (clear_clean s s1 H1 Hz1) as Hcl1. clear Hz1. pose proof (step_same g _ _ _ H1) as Hsame1.
  pose proof (same_free s s1 Hsame1) as Ef1. pose proof (same_input s s1 Hsame1) as Ei1.
  apply wp_bind, (wp_write_dir s1 T p f r); [by eapply Hok | by apply (same_whole s s1) | done | done | | | done | done | done | done | by rewrite Ef1 |].
  { eapply holds_step; [done | exact H1 | done | done]. }
  { unfold small_code. by rewind Hg. }
  intros s2 c Hk2 Ho2 E2 Hi2 Hc Hcr Hf2 HT2. apply wp_bind, (wp_retcode g s2 0); [done | lia |]. cbn [Z.eqb negb].
  apply wp_bind, (wp_puts g); [done | lia |]. intros s3 H3.
  apply wp_bind, (wp_puts g); [by eapply Hok | lia |]. intros s4 H4. apply (wp_puts g); [by eapply Hok | lia |]. intros s5 H5.
  assert (step g [RScreen] s2 s5) as H25 by chain. pose proof (step_same g _ _ _ H25) as Hsame. pose proof H25 as (Hk5 & _ & Ho5 & _).
  pose proof (same_free _ _ Hsame) as Ef5. pose proof (same_input _ _ Hsame) as Ei5. apply (HQ s5 c); [done | | | | congruence | done | lia | lia | by apply (same_whole s2)].
  - destruct H1 as (_ & _ & Ho1 & _). eapply (only_mono g ([RLine; RSpill] ++ [RArg; RRetcode] ++ [RScreen])); [by apply covers_sub |].
    eapply only_trans; [exact Ho1 | by eapply only_trans].
  - exists 0. split; [lia |]. by rewrite (step_glob g Hg _ _ _ RRetcode H25).
  - intros Ht. apply (only_clean _ _ _ Ho5); [done |]. apply (only_clean _ _ _ Ho2); [done |]. by apply Hcl1.
Qed.

Lemma wp_mkdir s T p f n (Q : unit -> K -> Prop) : os_ok s -> small_code g s -> glob g RCwd s = le_encode 4 p -> os_tree s T -> T !! p = Some f ->
  snd (own_key f) <> bytes_of "dir" -> name_arg s 6 n -> n <> [] -> 10 ∉ n ->
  (subdir (nodes f) n = None -> (size (nodes f) < 63)%nat /\ 0 < os_free s) ->
  (forall s', os_ok s' -> only g mkdir_changes (os_mem s) (os_mem s') -> small_code g s' -> (temp_clean s -> temp_clean s') ->
     os_input s' = os_input s -> after_mkdir s s' T p f n -> Q tt s') ->
  wp (with_argument g fuel 6 (mkdir g fuel)) s Q.
Proof using Hg Hfuel.
  intros Hs Hcode Hcwd HT Hf Hown Hname Hne Hnl Hroom HQ. pose proof (step_ok g) as Hok. pose proof Hname as (Hstr & Hl & Hn & _).
  destruct (tree_shaped s T HT) as (_ & Hrange & _). pose proof (Hrange p f Hf) as Hp.
  set (r := mkRequest (Shell.buf g) (pad8 n) (bytes_of "dir") p 0).
  pose proof (region_space g Hg RLine) as [Hb0 Hb1]. cbn [place region_size] in Hb0, Hb1.
  assert (dir_request r p (own_key f)) as Hr by (apply name_request; done || lia).
  pose proof (dir_code_range (subdir (nodes f) n)) as Hdc.
  apply (wp_with_argument s 6 _ n); [done | done | done | done | lia |]. intros s1 H1 Hstr1.
  apply (wp_mkdir_request s1 6 n p); [by eapply Hok | by split_and! | by rewind Hg | lia |]. intros s2 H2 Hreq2.
  apply wp_bind, (wp_read_dir g Hg s2 p (own_key f) (nodes f) r); [by eapply Hok | | by apply dir_request_in | done | |].
  { apply (tree_dir _ T); [| done]. eapply same_whole; [| exact HT]. etrans; by eapply step_same. }
  { unfold small_code. by rewind Hg. }
  change (nodes f !! req_key r) with (subdir (nodes f) n). intros s3 H3 E3.
  apply wp_bind, (wp_retcode g s3 (dir_code (subdir (nodes f) n))); [done | lia |].
  assert (step g [RqBuf; RqName; RqExt; RqParent; RqSize; RLine; RArg; RRetcode] s s3) as H03 by chain.
  pose proof (fun Ht => only_clean _ s s3 (proj1 (proj2 (proj2 H03))) eq_refl Ht) as Hclean3.
  assert (forall s', step g [RScreen] s3 s' -> is_Some (subdir (nodes f) n) -> Q tt s') as Hstay.
  { intros s' H' [nd Hnd]. assert (step g mkdir_changes s s') as H0' by (unfold mkdir_changes; chain). pose proof (step_same g _ _ _ H0') as Hsame.
    apply HQ; [by eapply Hok | by destruct H0' as (_ & _ & ? & _) | | | by apply same_input | unfold after_mkdir; by rewrite Hnd].
    2:{ intros Ht. apply (only_clean [RScreen] s3); [by destruct H' as (_ & _ & ? & _) | done | by apply Hclean3]. }
    exists (dir_code (subdir (nodes f) n)). split; [lia |]. by rewrite (step_glob g Hg _ _ _ RRetcode H'). }
  destruct (subdir (nodes f) n) as [[data|c]|] eqn:EM; cbn [dir_code] in *.
  - cbn. apply wp_skip, Hstay; [by apply step_refl; eapply Hok | done].
  - cbn [Z.eqb]. apply wp_bind, (wp_puts g); [by eapply Hok | lia |]. intros s4 H4.
    apply wp_bind, (wp_puts g); [by eapply Hok | lia |]. intros s5 H5. apply (wp_puts g); [by eapply Hok | lia |]. intros s6 H6.
    apply Hstay; [chain | done].
  - cbn [Z.eqb when]. destruct (Hroom eq_refl) as [Hsz Hfree].
    pose proof (step_same g _ _ _ H03) as Hsame. pose proof (same_free s s3 Hsame) as Ef. pose proof (same_input s s3 Hsame) as Ei.
    apply (wp_mkdir_new s3 T p f r); [by eapply Hok | by apply (same_whole s s3) | done | done | | | done | done | | done | by rewrite Ef |].
    { eapply holds_step; [done | exact H3 | done | done]. }
    { exists 2. split; [lia | done]. }
    { cbn. destruct n as [|x n]; [done |]. apply Forall_cons in Hn as [Hx _]. unfold pad8. cbn. intros [= -> _]. lia. }
    intros s4 c Hk4 Ho4 Hcode4 Ht4 Hi4 Hc Hcr Hf4 HT4. apply HQ; [done | | done | by intros Ht; apply Ht4, Hclean3 | congruence |].
    + destruct H03 as (_ & _ & Ho3 & _). eapply (only_mono g ([RqBuf; RqName; RqExt; RqParent; RqSize; RLine; RArg; RRetcode] ++ mkdir_changes));
        [by apply covers_sub | by eapply only_trans].
    + unfold after_mkdir. rewrite EM. exists c. split_and!; [done | lia | lia | lia | done].
Qed.

(** C8: The command [mkdir name] creates an empty directory under the current one
    exactly when the name is new: in the tree of the whole disk the current directory
    gains the name and the new directory is its child, and nothing else changes; if
    the name is taken the file system stays as it is.  The shell stays where it is. *)
Theorem mkdir_creates_directory s T p f n :
  os_ok s -> small_code g s -> glob g RCwd s = le_encode 4 p -> os_tree s T -> T !! p = Some f ->
  snd (own_key f) <> bytes_of "dir" -> name_arg s 6 n -> n <> [] -> 10 ∉ n ->
  (subdir (nodes f) n = None -> (size (nodes f) < 63)%nat /\ 0 < os_free s) ->
  exists s', with_argument g fuel 6 (mkdir g fuel) s = Ret (tt, s') /\ os_ok s' /\ same_place s s' /\
    match subdir (nodes f) n with
    | None => exists c, T !! c = None /\ 2 <= c <= 512 - os_free s /\ os_free s' = os_free s - 1 /\
        os_tree s' (add_folder T p (pad8 n, bytes_of "dir") c)
    | Some _ => os_same s s'
    end.
Proof using Hg Hfuel.
  intros Hs Hcode Hcwd HT Hf Hown Hname Hne Hnl Hroom.
  match goal with |- exists s', _ /\ @?P s' => enough (wp (with_argument g fuel 6 (mkdir g fuel)) s (fun _ s' => P s')) as ([] & s' & E & HQ)
    by (by exists s') end.
  apply (wp_mkdir s T p f n); [done .. |]. intros s' Hk' Ho' _ _ _ Hafter. split_and!; [done | | exact Hafter].
  unfold same_place. split_and!; by apply (only_keeps _ _ _ mkdir_changes).
Qed.
(** ** Printing a file *)

(** [cat] splits its argument and sets the fields of the request. *)
Lemma wp_cat_request s argument x n e p (Q : unit -> K -> Prop) (rest : Sh K unit) : os_ok s -> x = RLine \/ x = RBanner ->
  inside g argument (S (length (n ++ 46 :: e))) x -> cstring (os_mem s) argument (n ++ 46 :: e) -> (length n <= 8)%nat -> 46 ∉ n -> (length e <= 3)%nat ->
  glob g RCwd s = le_encode 4 p -> 0 <= p < 2 ^ 32 ->
  (forall s', step g [RqBuf; RqName; RqExt; RqParent; RqSize; RLine; RBanner; RFile] s s' ->
     holds_request g s' (mkRequest (Shell.buf g) (pad8 n) (over_name (glob g RqExt s) e) p CLUSTER_SIZE) -> wp rest s' Q) ->
  let filename := var g "cat.filename" in
  wp (split fuel argument 46 filename;;
      len ← strlen_of fuel filename;
      put32 (f_size (req g)) CLUSTER_SIZE;;
      put32 (f_buf (req g)) (Shell.buf g);;
      pad_to filename (u8 len) 8;;
      copy (f_name (req g)) filename (Z.max (u8 len) 8);;
      len ← strlen_of fuel argument; copy (f_ext (req g)) argument len;;
      cwd ← get_cwd g; put32 (f_parent (req g)) cwd;;
      rest) s Q.
Proof using Hg Hfuel.
  intros Hs Hx Hina Hstr Hl Hn He Hcwd Hp HQ filename. pose proof (step_ok g) as Hok. pose proof (region_space g Hg RLine) as [Hb0 Hb1].
  cbn [place region_size] in Hb0, Hb1. pose proof (split_at_app 46 n e Hn) as Esplit.
  assert (inside g filename 8 RFile) as Hin by (unfold inside, filename; cbn; lia).
  assert (inside g argument (S (length e)) x) as Hin4 by (unfold inside in *; rewrite length_app in Hina; cbn [length] in Hina; lia).
  assert (forall l, fresh RLine l = true -> fresh RBanner l = true -> fresh x l = true) as Hfx by (by destruct Hx as [-> | ->]).
  assert (x <> RScreen /\ compatible x RFile = true /\ compatible RqExt x = true) as (Hxs & Hxf & Hxe) by (by destruct Hx as [-> | ->]).
  apply wp_bind, (wp_split g Hg fuel s argument (n ++ 46 :: e) 46 filename x RFile);
    rewrite ?Esplit; cbn [fst snd]; try done; [rewrite length_app; cbn; lia | unfold inside, filename; cbn; lia |].
  intros s1 H1x Hf1 Ha1. assert (step g [RLine; RBanner; RFile] s s1) as H1 by (eapply step_mono, H1x; by destruct Hx as [-> | ->]; apply covers_sub). clear H1x. apply wp_bind, (wp_strlen fuel s1 _ n); [done | lia |]. rewrite u8_id, Z.max_r by lia.
  apply wp_bind, (wp_put32 g Hg RqSize s1); [done | done | by eapply Hok |]. intros s2 H2 E2.
  apply wp_bind, (wp_put32 g Hg RqBuf s2); [done | done | by eapply Hok |]. intros s3 H3 E3.
  apply wp_bind, (wp_pad g Hg s3 _ _ 8 RFile); [by eapply Hok | lia | done | done |]. intros s4 H4 Hp4.
  apply wp_bind, (wp_copy g Hg s4 _ filename 8 RqName RFile); [by eapply Hok | lia | by apply inside_place | done | done | done |].
  change (Z.to_nat 8) with 8%nat. intros s5 H5 Hp5.
  assert (step g [RqSize; RqBuf; RFile; RqName] s1 s5) as H15 by chain.
  assert (cstring (os_mem s5) argument e) as Ha5.
  { apply (step_cstring g Hg _ s1 s5 x argument e H15); [by apply Hfx | done | done]. }
  apply wp_bind, (wp_strlen fuel s5 _ e); [done | lia |].
  apply wp_bind, (wp_copy g Hg s5 _ argument (Z.of_nat (length e)) RqExt x); [by eapply Hok | lia | unfold inside, req; cbn; lia
    | unfold inside in *; lia | done | done |]. rewrite Nat2Z.id. intros s6 H6 Hp6.
  apply wp_bind, (wp_get32_glob g RCwd s6 _ p); [by rewind Hg | lia | done |].
  apply wp_bind, (wp_put32 g Hg RqParent s6); [done | done | by eapply Hok |]. intros s7 H7 E7.
  assert (forall m q (l : list Z) k, cstring m q l -> (length l = k)%nat -> load_bytes m q k = l) as Hpre.
  { intros m q l k (_ & E & _) <-. rewrite <- (take_load_bytes _ _ _ (S (length l))), E by lia. by rewrite take_app_length. }
  apply HQ; [chain |]. unfold holds_request. cbn [Fat32Types.buf req_name req_ext parent_cluster_number buffer_size].
  rewrite u32_id in E2, E3, E7 by (unfold CLUSTER_SIZE; lia). split_and!; try (rewind Hg; done).
  - rewind Hg. assert (load_bytes (os_mem s4) filename 8 = pad8 n) as En.
    { rewrite Nat2Z.id in Hp4. apply (padded (os_mem s3) (os_mem s3)); [| exact Hp4 | done | by eapply inside_space].
      assert (cstring (os_mem s3) filename n) as Hf3.
      { eapply (step_cstring g Hg [RqSize; RqBuf] s1 s3 RFile); [chain | done | unfold inside, filename; cbn; lia | done]. }
      pose proof (Hpre _ _ _ _ Hf3 eq_refl) as E. intros a Ha. split_cond; [| done].
      symmetry. apply nth_lookup_Some. rewrite <- E, load_bytes_lookup, decide_True by lia. f_equal. f_equal. lia. }
    rewrite En in Hp5. pose proof (patched_at Hp5) as E. unfold pad8 in E. rewrite length_app, length_replicate in E.
    replace (length n + (8 - length n))%nat with 8%nat in E by lia. apply E, (region_space g Hg RqName).
  - rewind Hg. rewrite (Hpre _ _ _ _ Ha5 eq_refl) in Hp6.
    apply (over_name_bytes (os_mem s5)); [exact Hp6 | | done | apply (region_space g Hg RqExt)].
    change (glob g RqExt s5 = glob g RqExt s). rewrite (step_glob g Hg _ _ _ RqExt H15), (step_glob g Hg _ _ _ RqExt H1); done.
Qed.

(** The request is a proper one. *)
Lemma cat_request_ok s n e p : os_ok s -> Forall is_byte (n ++ 46 :: e) -> Forall nonzero (n ++ 46 :: e) ->
  (length n <= 8)%nat -> (1 <= length e <= 3)%nat -> 0 <= p < 2 ^ 32 ->
  let r := mkRequest (Shell.buf g) (pad8 n) (over_name (glob g RqExt s) e) p CLUSTER_SIZE in
  req_ok r /\ req_key r <> zero_key.
Proof using Type.
  clear Hfuel. intros Hs [Hbn Hbe%Forall_inv_tail]%Forall_app [_ Hze%Forall_inv_tail]%Forall_app Hl He Hp r. pose proof (length_load_bytes (os_mem s) (place g RqExt) (region_size RqExt)) as Hg0.
  fold (glob g RqExt s) in Hg0. cbn [region_size] in Hg0. split.
  - unfold req_ok. cbn [r req_name req_ext parent_cluster_number buffer_size]. unfold pad8, over_name, CLUSTER_SIZE.
    rewrite !length_app, length_replicate, length_drop. split_and!; try lia.
    + apply Forall_app. split; [done | by apply Forall_replicate].
    + apply Forall_app. split; [done |]. apply Forall_drop, load_bytes_range, os_ok_bytes, Hs.
  - unfold req_key, zero_key. cbn. destruct e as [|c e]; [cbn in He; lia |]. intros [= _ E _]. by apply Forall_inv in Hze.
Qed.

(** C9: The command [cat name.ext] prints a file of at most a cluster: the screen
    shows in white, typed at the cursor with wrapping and scrolling, what the file's
    cluster holds up to its first NUL, and then a new line; the file system and the
    shell's place are as before.  The cluster is the file's bytes and what lies behind
    them, so for a text without NUL the text is printed and then what follows it in
    the cluster up to a NUL: nothing, where it was written from a zeroed buffer, as
    the inserter's fresh pages and the shell's are.  A cluster without any NUL is not
    covered (the program then prints on into its own memory).  The extension looked up is the argument's over
    that of the request before it, so any extension of one to three letters is covered
    as the program treats it. *)
Theorem cat_prints_file s p own M n e data txt rest t :
  os_ok s -> small_code g s -> glob g RCwd s = le_encode 4 p -> 0 <= p < 2 ^ 32 -> os_dir s p own M ->
  cstring (os_mem s) (Shell.buf g + 4) (n ++ 46 :: e) -> 10 ∉ n ++ 46 :: e ->
  (length n <= 8)%nat -> 46 ∉ n -> (1 <= length e <= 3)%nat ->
  let k : key := (pad8 n, over_name (glob g RqExt s) e) in
  M !! k = Some (File data) -> Z.of_nat (length data) <= 2048 -> os_stored s p k (txt ++ 0 :: rest) -> Forall nonzero txt ->
  cstring (os_mem s) (text g (ln "")) [10] -> displays s t -> (2048 < fuel)%nat ->
  exists s', with_argument g fuel 4 (cat g fuel) s = Ret (tt, s') /\ os_ok s' /\ os_same s s' /\ same_place s s' /\
    displays s' (newline (type_string 0xF t txt)) /\ exists pad, txt ++ 0 :: rest = data ++ pad.
Proof using Hg Hfuel.
  intros Hs Hcode Hcwd Hp Hd Hstr Hnl Hl Hn He k HM Hsz Hst Hnz Hlit Hdisp Hf2. pose proof (step_ok g) as Hok.
  pose proof (stored_data s p own M k data _ Hd HM Hst) as Hpad.
  pose proof (stored_length s p own M k data _ Hd HM Hst Hsz) as Hbl. rewrite length_app in Hbl. cbn [length] in Hbl.
  pose proof (region_space g Hg RLine) as [Hb0 Hb1]. pose proof Hg as (_ & Hlow & _). pose proof (Hlow RSpill ltac:(done)) as Hb2.
  pose proof (Hlow RNewline ltac:(done)) as Hl2. cbn [place region_size] in Hb0, Hb1, Hb2, Hl2.
  assert (Forall is_byte (n ++ 46 :: e)) as Hby by (eapply cstring_bytes; [by apply os_ok_bytes | exact Hstr]).
  set (r := mkRequest (Shell.buf g) (pad8 n) (over_name (glob g RqExt s) e) p CLUSTER_SIZE).
  assert (req_ok r /\ req_key r <> zero_key) as [Hr Hz] by (apply cat_request_ok; [done | done | apply Hstr | done .. ]).
  match goal with |- exists s', _ /\ @?P s' => enough (wp (with_argument g fuel 4 (cat g fuel)) s (fun _ s' => P s')) as ([] & s' & E & HQ)
    by (by exists s') end.
  apply (wp_with_argument s 4 _ (n ++ 46 :: e)); [done | done | done | by destruct n | rewrite length_app; cbn; lia |]. intros s1 H1 Hstr1.
  apply (wp_cat_request s1 _ RLine n e p); [by eapply Hok | by left | unfold inside; rewrite length_app; cbn; lia | done | done | done | lia | by rewind Hg | done |]. intros s2 H2 Hreq2.
  rewrite (step_glob g Hg _ _ _ RqExt H1) in Hreq2 by done. fold r in Hreq2.
  assert (step g [RqBuf; RqName; RqExt; RqParent; RqSize; RLine; RBanner; RFile] s s2) as H02 by chain.
  apply wp_bind, (wp_read_file s2 p own M r data (txt ++ 0 :: rest)); [by eapply Hok | | done | done | done | done | | done | | done | done |].
  { eapply same_dir; [by eapply step_same | exact Hd]. }
  { unfold small_code. by rewind Hg. }
  { eapply same_stored; [by eapply step_same | exact Hst]. }
  intros s3 H3 E3 Hdata. apply wp_bind, (wp_retcode g s3 0); [done | lia |]. cbn [Z.eqb].
  destruct Hreq2 as (Eb & _). cbn [Fat32Types.buf] in Eb.
  apply wp_bind, (wp_get32_glob g RqBuf s3 _ (Shell.buf g)); [by rewind Hg | lia | done |].
  assert (cstring (os_mem s3) (Shell.buf g) txt) as Htxt by (apply (prefix_string _ _ _ rest); [exact Hdata | done | split; lia]).
  assert (step g [RqBuf; RqName; RqExt; RqParent; RqSize; RLine; RBanner; RSpill; RFile; RArg; RRetcode] s s3) as H03 by chain.
  apply wp_bind, wp_bind, (wp_strlen fuel s3 _ txt); [done | lia |].
  apply (wp_puts_string s3 _ txt _ _ t); [by eapply Hok | done | unfold FRAMEBUFFER_MEMORY_OFFSET; lia | lia | by eapply displays_step |].
  intros s4 H4 Hd4. apply (wp_puts_string s4 _ [10] _ _ (type_string 0xF t txt)); [by eapply Hok | | unfold FRAMEBUFFER_MEMORY_OFFSET; cbn; lia | cbn; lia | done |].
  { eapply (step_cstring g Hg _ s s4 RNewline); [eapply step_snoc with (l' := [RqBuf; RqName; RqExt; RqParent; RqSize; RLine; RBanner; RSpill; RFile; RArg; RRetcode; RScreen]);
      [by eapply step_mono, H03; apply covers_sub | exact H4 | done] | done | unfold inside; cbn; lia | done]. }
  intros s5 H5 Hd5. split_and!; [by eapply Hok | | unfold same_place; split_and!; by rewind Hg | exact Hd5 | exact Hpad].
  etrans; [by eapply step_same | etrans; by eapply step_same].
Qed.
End Files.
