(* ===== verification/ShellEntries.v ===== *)
(** * Making and removing files (touch, rm of src/user-shell.c)

    Neither command fills the name field of its request: touch stores what lies
    behind the name on its stack, rm keeps what the request before it left. *)
From Stdlib Require Import String.
From stdpp Require Import gmap.
From S2P Require Import Prelude CString Memory BlockDevice Fat32Types Fat32 Fat32Chain Fat32Facts Fat32Ops Fat32Access Fat32Abs Fat32Refine Fat32Codes Fat32Tree PortIO Framebuffer IntStr ShellStrings Shell ShellCommands ShellLogic ShellRules ShellDirs ShellFiles.
#[local] Open Scope Z_scope.

Section Entries.
Context {K : Type} `{OsSpec K} (g : Layout) (Hg : layout_ok g).

(** ** System calls *)

Lemma read_answer_range z n : 0 <= read_answer z n < 4.
Proof using Type. destruct n as [[]|]; cbn; [destruct (_ <=? _) | |]; lia. Qed.
Lemma delete_answer_range e n : 0 <= delete_answer e n < 3.
Proof using Type. destruct n as [[]|], e; cbn; lia. Qed.

Lemma wp_read_refused s p own M r (Q : unit -> K -> Prop) : os_ok s -> os_dir s p own M -> request_in r p own ->
  holds_request g s r -> small_code g s -> read_answer (buffer_size r) (M !! req_key r) <> 0 ->
  (forall s', step g [RArg; RRetcode] s s' -> glob g RRetcode s' = le_encode 4 (read_answer (buffer_size r) (M !! req_key r)) -> Q tt s') ->
  wp (read_syscall g (req g)) s Q.
Proof using Hg.
  intros Hs Hd Hr Hreq Hcode Hans HQ. apply wp_bind. apply wp_by_value; [done | done |]. intros s1 H1 E1.
  destruct (sys_read_refused s1 p own M r (arg g) (retcode g)) as (s2 & E2 & Hk2 & Hs2 & Hc2 & Em2);
    [by apply (step_ok g _ _ _ H1) | by apply (same_dir s s1); [apply (step_same g _ _ _ H1) |] | done | by eapply arg_request | done |].
  eapply wp_sys; [exact E2 |]. pose proof (read_answer_range (buffer_size r) (M !! req_key r)) as Hrange.
  set (code := read_answer (buffer_size r) (M !! req_key r)) in *.
  destruct (step_store_code g Hg s1 s2 [code] (u8 code)) as [H2 Hp2];
    [done | done | done | done | by rewrite !u8_id by (rewrite ?u8_id; lia) |].
  apply HQ; [chain |]. eapply store_code; [done | exact Hcode | | exact Hp2 | lia]. by rewrite (step_glob g Hg _ _ _ RRetcode H1).
Qed.

(** The cluster at [buf]. *)
Lemma step_cluster l s s' : step g l s s' -> fresh RLine l = true -> fresh RSpill l = true ->
  load_bytes (os_mem s') (Shell.buf g) 2048 = load_bytes (os_mem s) (Shell.buf g) 2048.
Proof using Hg.
  intros Hst H1 H2. change 2048%nat with (2000 + 48)%nat. rewrite !load_bytes_app. f_equal.
  - apply (step_inside g Hg l s s' RLine); [done | done |]. by apply inside_place.
  - apply (step_inside g Hg l s s' RSpill); [done | done |]. by apply inside_place.
Qed.

(** The code of a call, a byte. *)
Lemma code_stored s s1 s2 code : step g [RArg] s s1 -> small_code g s -> 0 <= code < 256 -> os_mem s2 = store (os_mem s1) (retcode g) (u8 code) ->
  only g [RArg; RRetcode] (os_mem s) (os_mem s2) /\ glob g RRetcode s2 = le_encode 4 code.
Proof using Hg.
  intros H1 Hcode Hc Em. pose proof (region_space g Hg RRetcode) as [Hr0 Hr1]. cbn [place region_size] in Hr0, Hr1.
  assert (patched (os_mem s1) (os_mem s2) (retcode g) [code]) as Hp.
  { rewrite Em. pose proof (patched_store (os_mem s1) (retcode g) (u8 code) ltac:(lia)) as Hst.
    rewrite !(u8_id code) in Hst by lia. rewrite (u8_id code) by lia. exact Hst. }
  split.
  - apply (only_trans g [RArg] [RRetcode] (os_mem s) (os_mem s1)); [by destruct H1 as (_ & _ & ? & _) |].
    eapply patched_only; [exact Hp |]. unfold inside. cbn. lia.
  - eapply store_code; [done | exact Hcode | | exact Hp | lia]. by rewrite (step_glob g Hg _ _ _ RRetcode H1).
Qed.

Lemma wp_write_file s T p f r (Q : unit -> K -> Prop) : os_ok s -> os_tree s T -> T !! p = Some f -> request_in r p (own_key f) ->
  holds_request g s r -> small_code g s -> nodes f !! req_key r = None -> Fat32Types.buf r = Shell.buf g -> buffer_size r = 2048 ->
  (size (nodes f) < 63)%nat -> 0 < os_free s ->
  (forall s', os_ok s' -> only g [RArg; RRetcode] (os_mem s) (os_mem s') -> glob g RRetcode s' = le_encode 4 0 ->
     os_input s' = os_input s -> os_free s' = os_free s - 1 ->
     os_tree s' (add_node T p (req_key r) (File (load_bytes (os_mem s) (Shell.buf g) 2048))) -> Q tt s') ->
  wp (write_syscall g (req g)) s Q.
Proof using Hg.
  intros Hs HT Hf Hr Hreq Hcode HM Hbuf Hsize Hm Hfree HQ. apply wp_bind. apply wp_by_value; [done | done |]. intros s1 H1 E1.
  pose proof (step_same g _ _ _ H1) as Hsame.
  destruct (sys_write_file s1 T p f r (arg g) (retcode g)) as (s2 & E2 & Hk2 & Hc2 & Em2 & Hf2 & Hi2 & HT2);
    [by apply (step_ok g _ _ _ H1) | by apply (same_whole s s1) | done | done | by eapply arg_request
     | done | lia | done | by rewrite (same_free s s1) |].
  eapply wp_sys; [exact E2 |]. destruct (code_stored s s1 s2 0 H1 Hcode ltac:(lia) Em2) as [Ho2 Ec2].
  apply HQ; [done | done | done | by rewrite Hi2, (same_input s s1) | by rewrite Hf2, (same_free s s1) |].
  rewrite Hbuf, Hsize in HT2. by rewrite <- (step_cluster _ s s1 H1).
Qed.

Lemma wp_delete s T p f r (Q : unit -> K -> Prop) : os_ok s -> os_tree s T -> T !! p = Some f -> request_in r p (own_key f) ->
  holds_request g s r -> small_code g s ->
  let code := delete_answer (empty_folder T (nodes f !! req_key r)) (nodes f !! req_key r) in
  (forall s', os_ok s' -> only g [RArg; RRetcode] (os_mem s) (os_mem s') -> glob g RRetcode s' = le_encode 4 code ->
     (if code =? 0 then os_tree s' (remove_node T p (req_key r)) else os_same s s') -> Q tt s') ->
  wp (delete_syscall g (req g)) s Q.
Proof using Hg.
  intros Hs HT Hf Hr Hreq Hcode code HQ. apply wp_bind. apply wp_by_value; [done | done |]. intros s1 H1 E1.
  pose proof (step_same g _ _ _ H1) as Hsame. pose proof (delete_answer_range (empty_folder T (nodes f !! req_key r)) (nodes f !! req_key r)) as Hrange.
  destruct (sys_delete s1 T p f r (arg g) (retcode g)) as (s2 & E2 & Hk2 & Hc2 & Em2 & _ & Hp2);
    [by apply (step_ok g _ _ _ H1) | by apply (same_whole s s1) | done | done | by eapply arg_request |].
  eapply wp_sys; [exact E2 |]. fold code in Em2, Hp2, Hrange. destruct (code_stored s s1 s2 code H1 Hcode ltac:(lia) Em2) as [Ho2 Ec2].
  apply HQ; [done | done | done |]. destruct (code =? 0); [exact Hp2 | by etrans].
Qed.

(** ** Creating a file *)

(** The eight bytes at [filename] once the name is written there. *)
Definition on_stack (m : mem) (filename : Z) (n : list Z) : list Z :=
  take 8 (n ++ 0 :: load_bytes m (filename + Z.of_nat (S (length n))) (7 - length n)).

Lemma on_stack_bytes m m' filename n : cstring m' filename n -> (length n <= 8)%nat -> filename + 9 <= 2 ^ 32 ->
  (forall a, filename + Z.of_nat (S (length n)) <= a < filename + 9 -> load m' a = load m a) ->
  load_bytes m' filename 8 = on_stack m filename n.
Proof using Type.
  intros ([Hp0 Hp1] & E & _) Hl Hsp Hrest. unfold on_stack.
  replace (n ++ 0 :: load_bytes m (filename + Z.of_nat (S (length n))) (7 - length n))
    with (load_bytes m' filename (S (length n) + (7 - length n))); [by rewrite take_load_bytes by lia |].
  rewrite load_bytes_app, E, <- app_assoc. cbn [app]. do 2 f_equal. apply load_bytes_ext. intros i Hi. apply Hrest. lia.
Qed.

Lemma length_on_stack m f n : (length n <= 8)%nat -> length (on_stack m f n) = 8%nat.
Proof using Type. intros Hl. unfold on_stack. rewrite length_take, length_app. cbn [length]. rewrite length_load_bytes. lia. Qed.

Lemma on_stack_ok m f n : bytes_ok m -> Forall is_byte n -> Forall is_byte (on_stack m f n).
Proof using Type.
  intros Hm Hn. unfold on_stack. apply Forall_take, Forall_app. split; [done |]. apply Forall_cons. split; [unfold is_byte; lia |].
  by apply load_bytes_range.
Qed.

Lemma plain_request_in p own nm e size : length nm = 8%nat -> Forall is_byte nm -> length e = 3%nat -> Forall is_byte e ->
  Forall nonzero e -> (nm, e) <> own -> 0 <= p < 2 ^ 32 -> 0 <= size < 2 ^ 32 ->
  request_in (mkRequest (Shell.buf g) nm e p size) p own.
Proof using Hg.
  intros Hn Hbn He Hbe Hnz Hown Hp Hsz. pose proof (region_space g Hg RLine) as [Hb0 Hb1]. cbn [place region_size] in Hb0, Hb1.
  refine (conj _ (conj eq_refl (conj _ (conj Hown _)))); [| | cbn; lia].
  - unfold req_ok. cbn. split_and!; done || lia.
  - unfold req_key, zero_key. cbn. intros [= _ ->]. by apply Forall_inv in Hnz.
Qed.

(** "File ", the name and the extension. *)
Lemma wp_say_file s str len (Q : unit -> K -> Prop) : os_ok s -> 0 <= len -> (forall s', step g [RScreen] s s' -> Q tt s') ->
  wp (say_file g str len) s Q.
Proof using Type.
  intros Hs Hl HQ. pose proof (step_ok g) as Hok. apply wp_bind, (wp_puts g); [done | done |]. intros s1 H1.
  apply wp_bind, (wp_puts g); [by eapply Hok | lia |]. intros s2 H2. apply wp_bind, (wp_puts g); [by eapply Hok | lia |]. intros s3 H3.
  apply (wp_puts g); [by eapply Hok | lia |]. intros s4 H4. apply HQ. chain.
Qed.

Context (fuel : nat) (Hfuel : (256 < fuel)%nat).

Lemma wp_terminate s str n cs (Q : unit -> K -> Prop) : os_ok s -> cstring (os_mem s) str cs -> (length cs <= n)%nat -> (length cs < fuel)%nat ->
  (forall s', step g [] s s' -> Q tt s') -> wp (terminate fuel str (Z.of_nat n)) s Q.
Proof using Hg Hfuel.
  intros Hs Hstr Hn Hf HQ. apply wp_bind, (wp_strlen fuel s str cs); [done | done |].
  replace (if Z.of_nat (length cs) <? Z.of_nat n then str + Z.of_nat (length cs) else str + Z.of_nat n) with (str + Z.of_nat (length cs))
    by (destruct (Z.ltb_spec (Z.of_nat (length cs)) (Z.of_nat n)); lia).
  pose proof Hstr as ([Hp0 Hp1] & _). apply (wp_put_zero g s); [done | lia | by apply cstring_end | done].
Qed.

(** [touch] splits its argument and sets the fields of the request. *)
Lemma wp_touch_request s n e p (Q : unit -> K -> Prop) (rest : Sh K unit) : os_ok s ->
  cstring (os_mem s) (Shell.buf g + 6) (n ++ 46 :: e) -> (length n <= 8)%nat -> 46 ∉ n -> length e = 3%nat ->
  glob g RCwd s = le_encode 4 p -> 0 <= p < 2 ^ 32 ->
  let argument := Shell.buf g + 6 in
  let filename := var g "touch.filename" in
  (forall s', step g [RqBuf; RqName; RqExt; RqParent; RqSize; RLine; RTouch] s s' ->
     holds_request g s' (mkRequest (Shell.buf g) (on_stack (os_mem s) filename n) e p CLUSTER_SIZE) -> wp rest s' Q) ->
  wp (split fuel argument 46 filename;;
      put32 (f_size (req g)) CLUSTER_SIZE;;
      put32 (f_buf (req g)) (Shell.buf g);;
      terminate fuel filename 8;;
      terminate fuel argument 3;;
      copy (f_ext (req g)) argument 3;;
      cwd ← get_cwd g; put32 (f_parent (req g)) cwd;;
      copy (f_name (req g)) filename 8;;
      rest) s Q.
Proof using Hg Hfuel.
  intros Hs Hstr Hl Hn He Hcwd Hp argument filename HQ. pose proof (step_ok g) as Hok. pose proof (region_space g Hg RLine) as [Hb0 Hb1].
  pose proof (region_space g Hg RTouch) as [Ht0 Ht1]. cbn [place region_size] in Hb0, Hb1, Ht0, Ht1. fold filename in Ht0, Ht1.
  pose proof (split_at_app 46 n e Hn) as Esplit.
  assert (inside g filename 8 RTouch) as Hin by (unfold inside, filename; cbn; lia).
  assert (inside g argument 4 RLine) as Hin4 by (unfold inside, argument; cbn; lia).
  apply wp_bind, (wp_split_frame g Hg fuel s argument (n ++ 46 :: e) 46 filename RLine RTouch);
    rewrite ?Esplit; cbn [fst snd]; try done; [rewrite length_app; cbn; lia
      | unfold inside, argument; rewrite length_app; cbn; lia | unfold inside, filename; cbn; lia |].
  intros s1 H1 Hf1 Ha1 Hframe.
  apply wp_bind, (wp_put32 g Hg RqSize s1); [done | done | by eapply Hok |]. intros s2 H2 E2.
  apply wp_bind, (wp_put32 g Hg RqBuf s2); [done | done | by eapply Hok |]. intros s3 H3 E3.
  assert (step g [RqSize; RqBuf] s1 s3) as H13 by chain.
  apply wp_bind, (wp_terminate s3 filename 8 n); [by eapply Hok | | lia | lia |].
  { apply (step_cstring g Hg _ s1 s3 RTouch filename n H13); [done | unfold inside, filename; cbn; lia | done]. }
  intros s4 H4. assert (step g [RqSize; RqBuf] s1 s4) as H14 by chain.
  assert (cstring (os_mem s4) argument e) as Ha4.
  { apply (step_cstring g Hg _ s1 s4 RLine argument e H14); [done | by rewrite He | done]. }
  apply wp_bind, (wp_terminate s4 argument 3 e); [by eapply Hok | done | lia | lia |]. intros s5 H5.
  apply wp_bind, (wp_copy g Hg s5 _ argument 3 RqExt RLine); [by eapply Hok | lia | by apply inside_place
    | unfold inside in *; cbn in *; lia | done | done |]. change (Z.to_nat 3) with 3%nat. intros s6 H6 Hp6.
  apply wp_bind, (wp_get32_glob g RCwd s6 _ p); [by rewind Hg | lia | done |].
  apply wp_bind, (wp_put32 g Hg RqParent s6); [done | done | by eapply Hok |]. intros s7 H7 E7.
  apply wp_bind, (wp_copy g Hg s7 _ filename 8 RqName RTouch); [by eapply Hok | lia | by apply inside_place | done | done | done |].
  change (Z.to_nat 8) with 8%nat. intros s8 H8 Hp8.
  apply HQ; [chain |]. unfold holds_request. cbn [Fat32Types.buf req_name req_ext parent_cluster_number buffer_size].
  rewrite u32_id in E2, E3, E7 by (unfold CLUSTER_SIZE; lia). split_and!; try (rewind Hg; done).
  - assert (step g [RqSize; RqBuf; RqExt; RqParent] s1 s7) as H17 by chain.
    rewrite (step_inside g Hg _ s1 s7 RTouch filename 8 H17) in Hp8 by done.
    rewrite (on_stack_bytes (os_mem s) (os_mem s1) filename n Hf1 Hl) in Hp8; [| lia |].
    + pose proof (patched_at Hp8) as E. rewrite length_on_stack in E by done. apply E, (region_space g Hg RqName).
    + intros a Ha. apply Hframe; [lia | |]; rewrite ?Esplit; cbn [fst].
      * pose proof Hg as (_ & _ & Hap). pose proof (Hap RLine RTouch eq_refl) as A. unfold apart in A. cbn [place region_size] in A.
        fold filename in A. unfold argument. rewrite length_app. cbn [length]. lia.
      * lia.
  - rewind Hg. pose proof (step_inside g Hg _ s4 s5 RLine argument 4 H5 eq_refl Hin4) as E5.
    assert (load_bytes (os_mem s5) argument 3 = e) as Ee.
    { destruct Ha4 as (_ & E4 & _). rewrite He in E4. rewrite <- (take_load_bytes _ _ 3 4), E5, E4 by lia. by rewrite <- He, take_app_length. }
    rewrite Ee in Hp6. pose proof (patched_at Hp6) as E. rewrite He in E. apply E, (region_space g Hg RqExt).
Qed.

(** The new file. *)
Lemma wp_touch_new s T p f r (Q : unit -> K -> Prop) : os_ok s -> os_tree s T -> T !! p = Some f -> request_in r p (own_key f) -> holds_request g s r ->
  small_code g s -> nodes f !! req_key r = None -> Fat32Types.buf r = Shell.buf g -> buffer_size r = 2048 -> (size (nodes f) < 63)%nat -> 0 < os_free s ->
  (forall s', os_ok s' -> os_tree s' (add_node T p (req_key r) (File (replicate 2048 0))) -> os_input s' = os_input s -> os_free s' = os_free s - 1 ->
     (temp_clean g s -> temp_clean g s') -> only g [RLine; RSpill; RArg; RRetcode; RScreen] (os_mem s) (os_mem s') -> Q tt s') ->
  wp (fill (Shell.buf g) 0 2048;;
      write_syscall g (req g);;
      rc ← get_retcode g;
      if negb (rc =? 0) then say g (ln "Unknown error.") 15 0xF
      else say_file g "File '" 8;; say g (ln "' created.") 12 0xF) s Q.
Proof using Hg.
  clear Hfuel. intros Hs HT Hf Hr Hreq Hcode HM Hbuf Hsize Hsz Hfree HQ. pose proof (step_ok g) as Hok.
  apply wp_bind, (wp_clear_cluster g Hg s); [done |]. intros s1 H1 Hzero. pose proof (clear_clean g Hg s s1 H1 Hzero) as Hcl1.
  pose proof (step_same g _ _ _ H1) as Hsame1. pose proof (same_free s s1 Hsame1) as Ef1. pose proof (same_input s s1 Hsame1) as Ei1.
  apply wp_bind, (wp_write_file s1 T p f r); [by eapply Hok | by apply (same_whole s s1) | done | done | | | done | done | done | done | by rewrite Ef1 |].
  { eapply holds_step; [done | exact H1 | done | done]. }
  { unfold small_code. by rewind Hg. }
  rewrite Hzero. intros s2 Hk2 Ho2 E2 Ei2 Ef2 HT2. apply wp_bind, (wp_retcode g s2 0); [done | lia |]. cbn [Z.eqb negb].
  apply wp_bind, wp_say_file; [done | lia |]. intros s3 H3. apply (wp_puts g); [by eapply Hok | lia |]. intros s4 H4.
  assert (step g [RScreen] s2 s4) as H24 by chain. clear Hzero. pose proof (step_same g _ _ _ H24) as Hsame. pose proof H24 as (Hk4 & _ & Ho4 & _).
  destruct H1 as (_ & _ & Ho1 & _). apply HQ; [done | by apply (same_whole s2) | by rewrite (same_input s2 s4), Ei2 | by rewrite (same_free s2 s4), Ef2, Ef1 | |].
  - intros Ht. apply (only_clean g Hg _ _ _ Ho4); [done |]. apply (only_clean g Hg _ _ _ Ho2); [done |]. by apply Hcl1.
  - eapply (only_mono g ([RLine; RSpill] ++ [RArg; RRetcode] ++ [RScreen])); [by apply covers_sub |]. eapply only_trans; [exact Ho1 | by eapply only_trans].
Qed.

(** What [touch] may change, and what it does to the disk. *)
Definition touch_changes : list region := [RqBuf; RqName; RqExt; RqParent; RqSize; RLine; RTouch; RArg; RRetcode; RSpill; RScreen].
Definition after_touch (s s' : K) (T : tree) (p : Z) (f : folder) (k : key) : Prop :=
  match nodes f !! k with
  | None => (temp_clean g s -> temp_clean g s') /\ os_free s' = os_free s - 1 /\ os_tree s' (add_node T p k (File (replicate 2048 0)))
  | Some _ => os_same s s'
  end.

(** The name is taken: the file is read, if it fits, and left alone. *)
Lemma wp_touch_taken s p own M r nd (Q : unit -> K -> Prop) (rest : Sh K unit) : os_ok s -> os_dir s p own M -> request_in r p own ->
  holds_request g s r -> small_code g s -> M !! req_key r = Some nd -> Fat32Types.buf r = Shell.buf g -> buffer_size r = 2048 ->
  (forall s', step g [RArg; RRetcode; RLine; RSpill; RScreen] s s' -> Q tt s') ->
  wp (read_syscall g (req g);;
      rc ← get_retcode g;
      if rc =? 0 then say_file g "File'" 7;; say g (ln "' already exists.") 19 0xF
      else when (rc =? 3) rest) s Q.
Proof using Hg.
  clear Hfuel. intros Hs Hd Hr Hreq Hcode HM Hbuf Hsize HQ. pose proof (step_ok g) as Hok. pose proof Hr as (Hrok & Hrp & Hrz & _).
  destruct (Z.eq_dec (read_answer 2048 (Some nd)) 0) as [Hans|Hans].
  - destruct nd as [data|x]; cbn [read_answer] in Hans; [| done]. destruct (Z.leb_spec (Z.of_nat (length data)) 2048) as [Hlen|]; [| done].
    assert (exists bs, os_stored s p (req_key r) bs) as [bs Hst] by (by eapply stored_known).
    apply wp_bind, (wp_read_file g Hg s p own M r data bs); [done .. | lia | done |].
    intros s3 H3 E3 _. apply wp_bind, (wp_retcode g s3 0); [done | lia |]. cbn [Z.eqb].
    apply wp_bind, wp_say_file; [by eapply Hok | lia |]. intros s4 H4. apply (wp_puts g); [by eapply Hok | lia |]. intros s5 H5. apply HQ. chain.
  - apply wp_bind, (wp_read_refused s p own M r); [done .. | by rewrite HM, Hsize |].
    rewrite HM, Hsize. intros s3 H3 E3. pose proof (read_answer_range 2048 (Some nd)) as Hrange.
    apply wp_bind, (wp_retcode g s3 (read_answer 2048 (Some nd))); [done | lia |].
    destruct (Z.eqb_spec (read_answer 2048 (Some nd)) 0); [done |].
    assert ((read_answer 2048 (Some nd) =? 3) = false) as -> by (destruct nd; cbn [read_answer]; [by destruct (_ <=? _) | done]).
    apply wp_skip, HQ. eapply step_mono, H3. by apply covers_sub.
Qed.

Lemma wp_touch s T p f n e (Q : unit -> K -> Prop) :
  os_ok s -> small_code g s -> glob g RCwd s = le_encode 4 p -> os_tree s T -> T !! p = Some f ->
  cstring (os_mem s) (Shell.buf g + 6) (n ++ 46 :: e) -> 10 ∉ n ++ 46 :: e ->
  (length n <= 8)%nat -> 46 ∉ n -> length e = 3%nat ->
  let k : key := (on_stack (os_mem s) (var g "touch.filename") n, e) in
  k <> own_key f -> (nodes f !! k = None -> (size (nodes f) < 63)%nat /\ 0 < os_free s) ->
  (forall s', os_ok s' -> only g touch_changes (os_mem s) (os_mem s') -> os_input s' = os_input s -> after_touch s s' T p f k -> Q tt s') ->
  wp (with_argument g fuel 6 (touch g fuel)) s Q.
Proof using Hg Hfuel.
  intros Hs Hcode Hcwd HT Hf Hstr Hnl Hl Hn He k Hown Hroom HQ. pose proof (step_ok g) as Hok.
  destruct (tree_shaped s T HT) as (_ & Hrange & _). assert (0 <= p < 2 ^ 32) as Hp by (specialize (Hrange p f Hf); lia). clear Hrange.
  assert (Forall is_byte (n ++ 46 :: e)) as Hby by (eapply cstring_bytes; [by apply os_ok_bytes | exact Hstr]).
  apply Forall_app in Hby as [Hbn Hbe%Forall_inv_tail].
  assert (Forall nonzero e) as Hnz by (destruct Hstr as (_ & _ & Hz); apply Forall_app in Hz as [_ Hz]; by apply Forall_inv_tail in Hz).
  apply (wp_with_argument g fuel Hfuel s 6 _ (n ++ 46 :: e)); [done | done | done | by destruct n | rewrite length_app; cbn; lia |]. intros s1 H1 Hstr1.
  apply (wp_touch_request s1 n e p); [by eapply Hok | done | done | done | done | by rewind Hg | lia |]. intros s2 H2 Hreq2.
  assert (on_stack (os_mem s1) (var g "touch.filename") n = fst k) as Ek.
  { cbn. unfold on_stack. do 3 f_equal. apply (step_inside g Hg _ s s1 RTouch _ _ H1 eq_refl). unfold inside. cbn. lia. }
  rewrite Ek in Hreq2. clear Ek. set (r := mkRequest (Shell.buf g) (fst k) e p CLUSTER_SIZE) in *.
  assert (request_in r p (own_key f)) as Hr.
  { apply plain_request_in; [by apply length_on_stack | apply on_stack_ok; [by apply os_ok_bytes | done] | done .. | unfold CLUSTER_SIZE; lia]. }
  assert (step g [RqBuf; RqName; RqExt; RqParent; RqSize; RLine; RTouch] s s2) as H02 by chain. pose proof (step_same g _ _ _ H02) as Hsame2.
  pose proof (same_whole s s2 T Hsame2 HT) as HT2. pose proof (tree_dir s2 T p f HT2 Hf) as Hd2. pose proof (same_input s s2 Hsame2) as Ei2.
  assert (small_code g s2) as Hcode2 by (unfold small_code; by rewind Hg). assert (req_key r = k) as Ek by done. rewrite <- Ek in HQ, Hroom.
  destruct (nodes f !! req_key r) as [nd|] eqn:HM.
  - apply (wp_touch_taken s2 p (own_key f) (nodes f) r nd); [by eapply Hok | done .. |]. intros s3 H3.
    assert (step g touch_changes s s3) as H03 by (unfold touch_changes; chain). pose proof (step_same g _ _ _ H03) as Hsame.
    apply HQ; [by eapply Hok | by destruct H03 as (_ & _ & ? & _) | by apply same_input | unfold after_touch; by rewrite HM].
  - apply wp_bind, (wp_read_refused s2 p (own_key f) (nodes f) r); [by eapply Hok | done .. | by rewrite HM |]. rewrite HM. cbn [read_answer]. intros s3 H3 E3.
    apply wp_bind, (wp_retcode g s3 3); [done | lia |]. cbn [Z.eqb Pos.eqb when]. destruct (Hroom eq_refl) as [Hsz Hfree].
    assert (step g [RqBuf; RqName; RqExt; RqParent; RqSize; RLine; RTouch; RArg; RRetcode] s s3) as H03 by chain. pose proof (step_same g _ _ _ H03) as Hsame3.
    pose proof H03 as (_ & _ & Ho3 & _). pose proof (same_free s s3 Hsame3) as Ef3. pose proof (same_input s s3 Hsame3) as Ei3.
    apply (wp_touch_new s3 T p f r); [by eapply Hok | by apply (same_whole s s3) | done | done | | | done | done | done | done | by rewrite Ef3 |].
    { eapply holds_step; [done | exact H3 | done | done]. }
    { exists 3. split; [lia |]. exact E3. }
    intros s4 Hk4 HT4 Hi4 Hf4 Hcl4 Ho4. apply HQ; [done | | congruence |].
    + eapply (only_mono g ([RqBuf; RqName; RqExt; RqParent; RqSize; RLine; RTouch; RArg; RRetcode] ++ [RLine; RSpill; RArg; RRetcode; RScreen]));
        [by apply covers_sub | by eapply only_trans].
    + unfold after_touch. rewrite HM. split_and!; [| lia | done]. intros Ht. apply Hcl4. by apply (only_clean g Hg _ _ _ Ho3).
Qed.

(** C10: The command [touch name.ext] makes a file of 2048 zeros when the name it
    stores is new, and changes no file otherwise; no other directory of the disk
    changes and the shell stays where it is.  The name it stores is not padded: behind a name of fewer than seven characters it
    holds what lay on the stack. *)
Theorem touch_creates_file s T p f n e :
  os_ok s -> small_code g s -> glob g RCwd s = le_encode 4 p -> os_tree s T -> T !! p = Some f ->
  cstring (os_mem s) (Shell.buf g + 6) (n ++ 46 :: e) -> 10 ∉ n ++ 46 :: e ->
  (length n <= 8)%nat -> 46 ∉ n -> length e = 3%nat ->
  let k : key := (on_stack (os_mem s) (var g "touch.filename") n, e) in
  k <> own_key f -> (nodes f !! k = None -> (size (nodes f) < 63)%nat /\ 0 < os_free s) ->
  exists s', with_argument g fuel 6 (touch g fuel) s = Ret (tt, s') /\ os_ok s' /\ same_place g s s' /\
    match nodes f !! k with
    | None => os_tree s' (add_node T p k (File (replicate 2048 0)))
    | Some _ => os_same s s'
    end.
Proof using Hg Hfuel.
  intros Hs Hcode Hcwd HT Hf Hstr Hnl Hl Hn He k Hown Hroom.
  match goal with |- exists s', _ /\ @?P s' => enough (wp (with_argument g fuel 6 (touch g fuel)) s (fun _ s' => P s')) as ([] & s' & E & HQ)
    by (by exists s') end.
  apply (wp_touch s T p f n e); [done .. |]. intros s' Hk' Ho' _ Hafter. fold k in Hafter. split_and!; [done | |].
  - unfold same_place. split_and!; by apply (only_keeps g Hg _ _ _ touch_changes).
  - unfold after_touch in Hafter. destruct (nodes f !! k); [done | by destruct Hafter as (_ & _ & ?)].
Qed.

(** ** Removing an entry *)

(** The name is written over the old one ([over_name]).  The extension [rm] deletes: the old one, unless an entry of that name and the old
    extension tells what to take. *)
Definition rm_ext (old e : list Z) (nd : option node) : list Z :=
  match nd with
  | Some (Dir _) => bytes_of "dir"
  | Some (File _) => e
  | None => old
  end.

(** [str[n] = '\0'] behind a string of at most [n] characters. *)
Lemma wp_cut s p n str x (Q : unit -> K -> Prop) : os_ok s -> cstring (os_mem s) p str -> (length str <= n)%nat ->
  inside g p (S n) x -> x <> RScreen ->
  (forall s', step g [x] s s' -> cstring (os_mem s') p str -> Q tt s') -> wp (put8 (p + Z.of_nat n) 0) s Q.
Proof using Hg.
  clear Hfuel. intros Hs Hstr Hl Hin Hx HQ. pose proof (inside_space g Hg _ _ _ Hin) as [H1 H2].
  apply (wp_put8 g Hg s _ 0 x); [done | unfold inside in *; lia | done |]. intros s' Hst Hp. apply HQ; [done |].
  eapply cstring_ext; [| exact Hstr]. apply load_bytes_ext. intros i Hi. rewrite Hp by lia. cbn [length]. split_cond; try done.
  replace (p + Z.of_nat i - (p + Z.of_nat n)) with 0 by lia. assert (i = length str) as -> by lia. symmetry. by apply cstring_end.
Qed.

Lemma wp_rm_request s n e p old x (Q : unit -> K -> Prop) (rest : Sh K unit) : os_ok s ->
  cstring (os_mem s) (Shell.buf g + 3) (n ++ 46 :: e) -> (length n <= 8)%nat -> 46 ∉ n -> length e = 3%nat ->
  glob g RCwd s = le_encode 4 p -> 0 <= p < 2 ^ 32 -> glob g RqName s = old -> glob g RqExt s = x ->
  let argument := Shell.buf g + 3 in
  let filename := var g "rm.filename" in
  (forall s', step g [RqBuf; RqName; RqParent; RqSize; RLine; RRm] s s' -> cstring (os_mem s') argument e ->
     holds_request g s' (mkRequest (Shell.buf g) (over_name old n) x p 0) -> wp rest s' Q) ->
  wp (split fuel argument 46 filename;;
      put32 (f_size (req g)) 0;;
      put32 (f_buf (req g)) (Shell.buf g);;
      cwd ← get_cwd g; put32 (f_parent (req g)) cwd;;
      len ← strlen_of fuel filename;
      when (len <=? 8) (put8 (filename + len) 0);;
      put8 (filename + 8) 0;;
      len ← strlen_of fuel filename; copy (f_name (req g)) filename len;;
      len ← strlen_of fuel argument;
      when (len <=? 3) (put8 (argument + len) 0);;
      put8 (argument + 3) 0;;
      rest) s Q.
Proof using Hg Hfuel.
  intros Hs Hstr Hl Hn He Hcwd Hp Hold Hx argument filename HQ. pose proof (step_ok g) as Hok. pose proof (region_space g Hg RLine) as [Hb0 Hb1].
  pose proof (region_space g Hg RRm) as [Ht0 Ht1]. cbn [place region_size] in Hb0, Hb1, Ht0, Ht1. fold filename in Ht0, Ht1.
  pose proof (split_at_app 46 n e Hn) as Esplit.
  assert (inside g filename 9 RRm) as Hin by (unfold inside, filename; cbn; lia).
  assert (inside g argument 4 RLine) as Hin4 by (unfold inside, argument; cbn; lia).
  apply wp_bind, (wp_split g Hg fuel s argument (n ++ 46 :: e) 46 filename RLine RRm);
    rewrite ?Esplit; cbn [fst snd]; try done; [rewrite length_app; cbn; lia
      | unfold inside, argument; rewrite length_app; cbn; lia | unfold inside, filename; cbn; lia |].
  intros s1 H1 Hf1 Ha1.
  apply wp_bind, (wp_put32 g Hg RqSize s1); [done | done | by eapply Hok |]. intros s2 H2 E2.
  apply wp_bind, (wp_put32 g Hg RqBuf s2); [done | done | by eapply Hok |]. intros s3 H3 E3.
  apply wp_bind, (wp_get32_glob g RCwd s3 _ p); [by rewind Hg | lia | done |].
  apply wp_bind, (wp_put32 g Hg RqParent s3); [done | done | by eapply Hok |]. intros s4 H4 E4.
  assert (step g [RqSize; RqBuf; RqParent] s1 s4) as H14 by chain.
  assert (cstring (os_mem s4) filename n) as Hf4.
  { apply (step_cstring g Hg _ s1 s4 RRm filename n H14); [done | unfold inside, filename; cbn; lia | done]. }
  apply wp_bind, (wp_strlen fuel s4 _ n); [done | lia |]. destruct (Z.leb_spec (Z.of_nat (length n)) 8) as [_|]; [| lia]. cbn [when].
  apply wp_bind, (wp_cut s4 filename (length n) n RRm); [by eapply Hok | done | lia | unfold inside in *; lia | done |]. intros s5 H5 Hf5.
  apply wp_bind, (wp_cut s5 filename 8 n RRm); [by eapply Hok | done | lia | done | done |]. intros s6 H6 Hf6.
  apply wp_bind, (wp_strlen fuel s6 _ n); [done | lia |].
  apply wp_bind, (wp_copy g Hg s6 _ filename (Z.of_nat (length n)) RqName RRm);
    [by eapply Hok | lia | unfold inside, req; cbn [place region_size]; lia | unfold inside in *; lia | done | done |]. rewrite Nat2Z.id. intros s7 H7 Hp7.
  assert (step g [RqSize; RqBuf; RqParent; RRm; RqName] s1 s7) as H17 by chain.
  assert (cstring (os_mem s7) argument e) as Ha7.
  { apply (step_cstring g Hg _ s1 s7 RLine argument e H17); [done | by rewrite He | done]. }
  apply wp_bind, (wp_strlen fuel s7 _ e); [done | lia |]. rewrite He. cbn [when Z.leb Z.compare Z.of_nat].
  apply wp_bind, (wp_cut s7 argument 3 e RLine); [by eapply Hok | done | lia | done | done |]. intros s8 H8 Ha8.
  apply wp_bind, (wp_cut s8 argument 3 e RLine); [by eapply Hok | done | lia | done | done |]. intros s9 H9 Ha9.
  apply HQ; [chain | done |]. unfold holds_request. cbn [Fat32Types.buf req_name req_ext parent_cluster_number buffer_size].
  rewrite u32_id in E2, E3, E4 by lia. split_and!; try (rewind Hg; done). rewind Hg.
  destruct Hf6 as (_ & Ef & _). rewrite <- (take_load_bytes _ _ (length n) (S (length n))), Ef, take_app_length in Hp7 by lia.
  apply (over_name_bytes (os_mem s6)); [exact Hp7 | | done | apply (region_space g Hg RqName)].
  change (load_bytes (os_mem s6) (place g RqName) (region_size RqName) = old). fold (glob g RqName s6). by rewind Hg.
Qed.

Lemma wp_rm_names s (Q : unit -> K -> Prop) : os_ok s -> (forall s', step g [RScreen] s s' -> Q tt s') -> wp (rm_names g) s Q.
Proof using Type.
  clear Hfuel. intros Hs HQ. pose proof (step_ok g) as Hok. apply wp_bind, wp_look.
  apply wp_bind. match goal with |- wp _ _ ?P => assert (forall s1, step g [RScreen] s s1 -> P tt s1) as Hrest end.
  - intros s1 H1. apply wp_bind, (wp_puts g); [by eapply Hok | lia |]. intros s2 H2. apply wp_bind, wp_look.
    destruct (negb _); cbn [when]; [| apply wp_skip, HQ; chain].
    apply wp_bind, (wp_puts g); [by eapply Hok | lia |]. intros s3 H3. apply (wp_puts g); [by eapply Hok | lia |]. intros s4 H4. apply HQ. chain.
  - destruct (memcmp _ _ _ =? 0); (apply (wp_puts g); [done | lia | exact Hrest]).
Qed.

(** What [rm] prints for a code. *)
Lemma wp_rm_report s code (Q : unit -> K -> Prop) : os_ok s -> glob g RRetcode s = le_encode 4 code -> 0 <= code < 3 ->
  (forall s', step g [RScreen] s s' -> Q tt s') ->
  wp (rc ← get_retcode g;
      if rc =? 0 then
        say g "Success " 8 0xF;; rm_names g;; say g (ln "' is deleted.") 15 0xF
      else if rc =? 1 then
        say g "Cannot remove: '" 22 0xF;; rm_names g;; say g (ln "Not found") 10 0xF
      else if rc =? 2 then
        say g "Cannot remove: File '" 22 0xF;;
        puts (f_name (req g)) 8 0xF;;
        say g (ln "' is not empty.") 17 0xF
      else when (rc =? -1) (say g (ln "Unknown error.") 15 0xF)) s Q.
Proof using Type.
  clear Hfuel. intros Hs E Hc HQ. pose proof (step_ok g) as Hok. apply wp_bind, (wp_retcode g s code); [done | lia |].
  assert (code = 0 \/ code = 1 \/ code = 2) as [->|[->| ->]] by lia; cbn [Z.eqb Pos.eqb];
    (apply wp_bind, (wp_puts g); [done | lia |]); intros s1 H1.
  1, 2: apply wp_bind, wp_rm_names; [by eapply Hok |]; intros s2 H2.
  3: apply wp_bind, (wp_puts g); [by eapply Hok | lia |]; intros s2 H2.
  all: apply (wp_puts g); [by eapply Hok | lia |]; intros s3 H3; apply HQ; chain.
Qed.

(** The look-ups that choose the extension. *)
Lemma wp_rm_choose s p own M nm old e (Q : unit -> K -> Prop) (rest : Sh K unit) : os_ok s -> os_dir s p own M -> small_code g s ->
  holds_request g s (mkRequest (Shell.buf g) nm old p 0) -> request_in (mkRequest (Shell.buf g) nm old p 0) p own ->
  (forall data, M !! (nm, old) = Some (File data) -> data <> []) -> length e = 3%nat ->
  cstring (os_mem s) (Shell.buf g + 3) e ->
  (forall s', step g [RqExt; RArg; RRetcode] s s' -> small_code g s' ->
     holds_request g s' (mkRequest (Shell.buf g) nm (rm_ext old e (M !! (nm, old))) p 0) -> wp rest s' Q) ->
  wp (any ← same_text "" (Shell.buf g + 3) 0;
      when any
        (read_dir_syscall g (req g);;
         rc ← get_retcode g;
         if rc =? 0 then copy_text (f_ext (req g)) "dir"
         else when (rc =? 1)
           (read_syscall g (req g);;
            rc ← get_retcode g;
            copy (f_ext (req g)) (if rc =? 0 then text g "" else Shell.buf g + 3) 3));;
      rest) s Q.
Proof using Hg.
  clear Hfuel. intros Hs Hd Hcode Hreq Hr Hfile He Harg HQ. pose proof (step_ok g) as Hok.
  pose proof (region_space g Hg RLine) as [Hb0 Hb1]. cbn [place region_size] in Hb0, Hb1.
  set (r := mkRequest (Shell.buf g) nm old p 0) in *. apply wp_bind, wp_look. cbn [memcmp Z.eqb when].
  apply wp_bind, wp_bind, (wp_read_dir g Hg s p own M r); [done .. |]. change (M !! req_key r) with (M !! (nm, old)).
  pose proof (dir_code_range (M !! (nm, old))) as Hrange. intros s1 H1 E1.
  apply wp_bind, (wp_retcode g s1 (dir_code (M !! (nm, old)))); [done | lia |].
  assert (small_code g s1) as Hcode1 by (exists (dir_code (M !! (nm, old))); split; [lia | done]).
  assert (holds_request g s1 r) as Hreq1 by (eapply holds_step; [done | exact H1 | done | done]).
  assert (forall s' x, step g [RqExt; RArg; RRetcode] s1 s' -> glob g RqExt s' = x -> holds_request g s' (mkRequest (Shell.buf g) nm x p 0)) as Hext.
  { intros s' x H' Ex. destruct Hreq as (E2 & E3 & _ & E4 & E5). refine (conj _ (conj _ (conj Ex (conj _ _)))); rewind Hg; [exact E2 | exact E3 | exact E4 | exact E5]. }
  destruct (M !! (nm, old)) as [[data|x]|] eqn:HM; cbn [dir_code rm_ext] in *; cbn [Z.eqb when].
  - assert (read_answer (buffer_size r) (M !! req_key r) = 2) as Hans.
    { change (M !! req_key r) with (M !! (nm, old)). rewrite HM. cbn. specialize (Hfile data eq_refl). destruct data; [done |]. reflexivity. }
    apply wp_bind, (wp_read_refused s1 p own M r); [by eapply Hok | eapply same_dir; [by eapply step_same | done] | done | done | done | by rewrite Hans |].
    rewrite Hans. intros s2 H2 E2. apply wp_bind, (wp_retcode g s2 2); [done | lia |]. cbn [Z.eqb].
    apply (wp_copy g Hg s2 _ (Shell.buf g + 3) 3 RqExt RLine); [by eapply Hok | lia | by apply inside_place
      | unfold inside; cbn; lia | done | done |]. change (Z.to_nat 3) with 3%nat. intros s3 H3 Hp3.
    apply HQ; [chain | exists 2; split; [lia | by rewind Hg] | apply Hext; [pose proof (Hok _ _ _ H1) as Hk1; clear H1; chain |]].
    assert (load_bytes (os_mem s2) (Shell.buf g + 3) 3 = e) as Ee.
    { assert (step g [RArg; RRetcode] s s2) as H02 by chain. rewrite (step_inside g Hg _ s s2 RLine _ _ H02) by (done || (unfold inside; cbn; lia)).
      destruct Harg as (_ & E4 & _). rewrite He in E4. rewrite <- (take_load_bytes _ _ 3 4), E4 by lia. by rewrite <- He, take_app_length. }
    rewrite Ee in Hp3. pose proof (patched_at Hp3) as E. rewrite He in E. apply E, (region_space g Hg RqExt).
  - apply (wp_copy_text g Hg RqExt s1); [by eapply Hok | done | done | by_compute |]. intros s2 H2 E2.
    apply HQ; [chain | unfold small_code; by rewind Hg | apply Hext; [pose proof (Hok _ _ _ H1) as Hk1; clear H1; chain | done]].
  - apply wp_skip, HQ; [chain | done | done].
Qed.

(** C11: What the command [rm name.ext] removes depends on the command before it.
    The name it deletes is the typed one written over the last request's, and the
    extension is the last request's too, unless an entry of that name and that
    extension exists: a directory makes it "dir", a file the typed extension.  An
    entry of the resulting name goes, a directory only when it is empty; nothing
    else changes, and the shell stays where it is. *)
Theorem rm_follows_previous_request s T p f n e old x :
  os_ok s -> small_code g s -> glob g RCwd s = le_encode 4 p -> os_tree s T -> T !! p = Some f ->
  cstring (os_mem s) (Shell.buf g + 3) (n ++ 46 :: e) -> 10 ∉ n ++ 46 :: e ->
  (0 < length n <= 8)%nat -> 46 ∉ n -> length e = 3%nat -> glob g RqName s = old -> glob g RqExt s = x ->
  let nm := over_name old n in
  let k : key := (nm, rm_ext x e (nodes f !! ((nm, x) : key))) in
  (nm, x) <> own_key f -> k <> own_key f -> (forall data, nodes f !! ((nm, x) : key) = Some (File data) -> data <> []) ->
  exists s', with_argument g fuel 3 (rm g fuel) s = Ret (tt, s') /\ os_ok s' /\ same_place g s s' /\
    if delete_answer (empty_folder T (nodes f !! k)) (nodes f !! k) =? 0 then os_tree s' (remove_node T p k) else os_same s s'.
Proof using Hg Hfuel.
  intros Hs Hcode Hcwd HT Hf Hstr Hnl Hl Hn He Hold Hx nm k Hown1 Hown2 Hfile. pose proof (step_ok g) as Hok.
  destruct (tree_shaped s T HT) as (_ & Hrange & _). assert (0 <= p < 2 ^ 32) as Hp by (specialize (Hrange p f Hf); lia). clear Hrange. pose proof (tree_dir s T p f HT Hf) as Hd.
  set (own := own_key f) in *. set (M := nodes f) in *.
  assert (Forall is_byte (n ++ 46 :: e)) as Hby by (eapply cstring_bytes; [by apply os_ok_bytes | exact Hstr]).
  apply Forall_app in Hby as [Hbn Hbe%Forall_inv_tail].
  assert (forall y, (nm, y) <> own -> length y = 3%nat -> Forall is_byte y -> request_in (mkRequest (Shell.buf g) nm y p 0) p own) as Hin.
  { intros y Hy Hly Hby. pose proof (region_space g Hg RLine) as [Hb0 Hb1]. cbn [place region_size] in Hb0, Hb1.
    refine (conj _ (conj eq_refl (conj _ (conj Hy _)))); [| | cbn; lia].
    - unfold req_ok. cbn. subst nm. unfold over_name. subst old. unfold glob. rewrite length_app, length_drop, length_load_bytes. cbn [region_size].
      split_and!; try done; try lia. apply Forall_app. split; [done |]. by apply Forall_drop, load_bytes_range, os_ok_bytes.
    - unfold req_key, zero_key. cbn. destruct Hstr as (_ & _ & Hnz). subst nm. unfold over_name. destruct n as [|c n]; [cbn in Hl; lia |].
      intros [= -> _]. by apply Forall_inv in Hnz. }
  assert (length x = 3%nat /\ Forall is_byte x) as [Hlx Hbx] by (subst x; split; [apply length_load_bytes | by apply load_bytes_range, os_ok_bytes]).
  match goal with |- exists s', _ /\ @?P s' => enough (wp (with_argument g fuel 3 (rm g fuel)) s (fun _ s' => P s')) as ([] & s' & E & HQ)
    by (by exists s') end.
  apply (wp_with_argument g fuel Hfuel s 3 _ (n ++ 46 :: e)); [done | done | done | by destruct n | rewrite length_app; cbn; lia |]. intros s1 H1 Hstr1.
  apply (wp_rm_request s1 n e p old x); [by eapply Hok | done | lia | done | done | by rewind Hg | lia | by rewind Hg | by rewind Hg |].
  intros s2 H2 Harg2 Hreq2. fold nm in Hreq2. assert (os_dir s2 p own M) as Hd2 by (apply (same_dir s s2); [etrans; by eapply step_same | done]).
  apply (wp_rm_choose s2 p own M nm x e); [by eapply Hok | done | unfold small_code; by rewind Hg | done | by apply Hin | done | done | done |].
  intros s3 H3 Hcode3 Hreq3. assert (os_same s s3) as H03 by (etrans; [by eapply step_same | etrans; by eapply step_same]).
  change (rm_ext x e (M !! ((nm, x) : key))) with (snd k) in Hreq3.
  apply wp_bind, (wp_delete s3 T p f (mkRequest (Shell.buf g) nm (snd k) p 0)); [by eapply Hok | by apply (same_whole s s3) | done | | done | done |].
  { apply Hin; [done | |]; subst k; cbn; destruct (M !! _) as [[]|]; done || by_compute. }
  change (req_key _) with k. intros s4 Hk4 Ho4 E4 Hans. apply (wp_rm_report s4 _ _ Hk4 E4); [apply delete_answer_range |]. intros s5 H5.
  split_and!; [by eapply Hok | |].
  - unfold same_place. split_and!; (rewind Hg; rewrite (only_keeps g Hg s3 s4 _ _ Ho4) by done; by rewind Hg).
  - pose proof (step_same g _ _ _ H5) as H45. destruct (_ =? 0); [by apply (same_whole s4 s5) | etrans; [exact H03 | by etrans]].
Qed.
End Entries.
