(* ===== verification/ShellKernel.v ===== *)
(** * The kernel as the machine of the shell

    The system calls of the kernel model keep what [OsSpec] promises: the client
    side of interrupt 0x30 (user-shell.c) against its implementation (interrupt.c
    and the components behind it). *)
From Stdlib Require Import String.
From stdpp Require Import gmap.
From S2P Require Import Prelude CString Memory BlockDevice Fat32Types Fat32 Fat32Chain Fat32Facts Fat32Ops Fat32Access Fat32Abs Fat32Refine Fat32Codes Fat32Props Fat32Tree PortIO Framebuffer Keyboard KeyboardProps Process Scheduler Kernel KernelProps IntStr ShellStrings Shell ShellLogic.
#[local] Open Scope Z_scope.

(** A user program's interrupt: four registers, the others as they are. *)
Definition user_frame (regs : CPURegister) (stack : InterruptStack) (a b c d : Z) : InterruptFrame :=
  mkFrame (mkCpu (edi regs) (esi regs) (ebp regs) (esp regs) b d c a (seg_gs regs) (seg_fs regs) (seg_es regs) (seg_ds regs))
    0x30 stack.

Section Kernel.
Context {B D : Type} `{KeyboardDevice B} `{BlockDeviceSpec D} (env : Environment) (regs : CPURegister) (stack : InterruptStack).

Definition kernel_os : Os (Kernel B D) := {|
  os_mem := k_memory;
  set_mem := set_memory;
  int30 K a b c d := main_interrupt_handler env K (user_frame regs stack a b c d);
|}.
#[local] Existing Instance kernel_os.

(** The character and the keys that the program has not read. *)
Definition input_of (K : Kernel B D) : Z * list Z := (keyboard_buffer (kb (k_console K)), waiting (ports (k_console K))).

(** The same file system, and the same keys waiting. *)
Definition same_files (K K' : Kernel B D) : Prop :=
  (fat_of (k_fs K') = fat_of (k_fs K) /\ disk (k_fs K') = disk (k_fs K)) /\
  keyboard_buffer (kb (k_console K')) = keyboard_buffer (kb (k_console K)) /\
  waiting (ports (k_console K')) = waiting (ports (k_console K)).
Definition console_ok (K : Kernel B D) : Prop := bytes_ok (k_memory K) /\ cursor_ok (fb (k_console K)).
Definition parent_is (K : Kernel B D) (c p : Z) : Prop :=
  forall r, parent_cluster_number r = c -> move_to_parent_directory (k_fs K) r = Ret p.

Lemma int30_syscall K a b c d : int30 K a b c d = syscall env K (user_frame regs stack a b c d).
Proof. reflexivity. Qed.

Lemma puts_law K str len color : console_ok K -> 0 <= len -> exists K', int30 K 6 str len color = Ret K' /\ console_ok K' /\
  same_files K K' /\ same_outside_screen (k_memory K) (k_memory K') /\
  forall t cs, same_grid (screen (k_memory K)) (cells t) ->
    (cur_row (fb (k_console K)), cur_col (fb (k_console K))) = (t_row t, t_col t) ->
    cstring (k_memory K) str cs -> str + Z.of_nat (length cs) < FRAMEBUFFER_MEMORY_OFFSET ->
    let t' := type_string color t (take (Z.to_nat len) cs) in
    same_grid (screen (k_memory K')) (cells t') /\ (cur_row (fb (k_console K')), cur_col (fb (k_console K'))) = (t_row t', t_col t').
Proof.
  intros [Hm Hc] Hlen. rewrite int30_syscall. unfold syscall. cbn [eax ebx ecx edx frame_cpu user_frame].
  destruct (puts_loop_returns (fb (k_console K)) (k_memory K) str color (Z.to_nat len) 0 Hm Hc) as (fb' & m' & E & Hm' & Hc' & Ho).
  assert (Framebuffer.puts (ports (k_console K)) (fb (k_console K)) (k_memory K) str len color =
    Ret (framebuffer_set_cursor (ports (k_console K)) (cur_row fb') (cur_col fb'), fb', m')) as Ep
    by (unfold Framebuffer.puts; by rewrite E, bind_ret_l).
  rewrite Ep, bind_ret_l. eexists. split; [reflexivity |]. refine (conj _ (conj _ (conj _ _))); [done | | done |].
  { split_and!; try done. apply set_cursor_waiting. }
  intros t cs Hg [= Hr Hcol] (Hsp & Hl & Hnz) Hlow.
  destruct (puts_spec (ports (k_console K)) (fb (k_console K)) (k_memory K) t str len color cs (take (Z.to_nat len) cs))
    as (fb2 & m2 & E2 & (Hg2 & Hr2 & Hc2) & _); [done | by split_and! | by rewrite <- Hr, <- Hcol | done | | done | done | done |].
  { destruct Hsp. intros i Hi. lia. }
  rewrite Ep in E2. injection E2 as _ <- <-. split; [exact Hg2 |]. cbn. by rewrite Hr2, Hc2.
Qed.

Lemma read_dir_law K p own M r b c : console_ok K -> represents (k_fs K) p own M -> request_in r p own ->
  load_bytes (k_memory K) b REQUEST_SIZE = request_bytes r ->
  exists K', int30 K 1 b c 0 = Ret K' /\ console_ok K' /\ same_files K K' /\ fb (k_console K') = fb (k_console K) /\
    k_memory K' = store (k_memory K) c (u8 (dir_code (M !! req_key r))).
Proof.
  intros [Hm Hc] [ls Hrep] (Hr & <- & Hz & Hown & Hb) Hreq. rewrite int30_syscall. unfold syscall. cbn [eax ebx ecx edx frame_cpu user_frame].
  rewrite (load_request_bytes _ _ r) by done.
  destruct (read_directory_represents (k_fs K) r own ls M Hrep Hr Hz Hown) as (t & ->). rewrite bind_ret_l.
  eexists. split; [reflexivity |]. refine (conj _ (conj _ (conj _ _))); [| done | done | done]. split; [by apply store_bytes_ok | done].
Qed.

Lemma child_law K p own M r b c x : console_ok K -> represents (k_fs K) p own M -> dir_request r p own ->
  load_bytes (k_memory K) b REQUEST_SIZE = request_bytes r -> M !! req_key r = Some (Dir x) ->
  exists K', int30 K 8 b c 0 = Ret K' /\ console_ok K' /\ same_files K K' /\ fb (k_console K') = fb (k_console K) /\
    k_memory K' = store_bytes (k_memory K) c (le_encode 4 (u32 x)).
Proof.
  intros [Hm Hc] Hrep (Hr & <- & Hext & Hown & Hb) Hreq HM. rewrite int30_syscall. unfold syscall. cbn [eax ebx ecx edx frame_cpu user_frame].
  rewrite (load_request_bytes _ _ r) by done. rewrite (move_to_child_spec (k_fs K) r own M x), bind_ret_l by done.
  eexists. split; [reflexivity |]. refine (conj _ (conj _ (conj _ _))); [| done | done | done]. split; [| done].
  apply store_bytes_bytes_ok; [apply le_encode_bytes | done].
Qed.

Lemma parent_law K b c x p : console_ok K -> parent_is K x p -> le_decode (load_bytes (k_memory K) (b + 15) 4) = x ->
  exists K', int30 K 9 b c 0 = Ret K' /\ console_ok K' /\ same_files K K' /\ fb (k_console K') = fb (k_console K) /\
    k_memory K' = store_bytes (k_memory K) c (le_encode 4 (u32 p)).
Proof.
  intros [Hm Hc] Hup Hx. rewrite int30_syscall. unfold syscall. cbn [eax ebx ecx edx frame_cpu user_frame].
  rewrite Hup, bind_ret_l by exact Hx. eexists. split; [reflexivity |]. refine (conj _ (conj _ (conj _ _))); [| done | done | done]. split; [| done].
  apply store_bytes_bytes_ok; [apply le_encode_bytes | done].
Qed.

Lemma write_dir_law K T p f r b c : console_ok K -> tree_rep (k_fs K) T -> T !! p = Some f -> dir_request r p (own_key f) ->
  load_bytes (k_memory K) b REQUEST_SIZE = request_bytes r -> nodes f !! req_key r = None -> buffer_size r = 0 ->
  req_name r <> replicate 8 0 -> (size (nodes f) < 63)%nat -> 0 < cluster_available (fat_of (k_fs K)) ->
  exists K' x, int30 K 2 b c 0 = Ret K' /\ console_ok K' /\ fb (k_console K') = fb (k_console K) /\
    k_memory K' = store (k_memory K) c 0 /\ T !! x = None /\ 2 <= x <= 512 - cluster_available (fat_of (k_fs K)) /\
    cluster_available (fat_of (k_fs K')) = cluster_available (fat_of (k_fs K)) - 1 /\
    input_of K' = input_of K /\ tree_rep (k_fs K') (add_folder T p (req_key r) x).
Proof.
  intros [Hm Hc] HT Hf Hdr Hreq HM Hs Hn Hsz Hav. destruct (dir_request_in _ _ _ Hdr) as (Hr & <- & Hz & Hown & Hb).
  rewrite int30_syscall. unfold syscall. cbn [eax ebx ecx edx frame_cpu user_frame]. rewrite (load_request_bytes _ _ r) by done.
  destruct (tree_mkdir (k_fs K) T r f HT Hf Hr Hz (k_memory K)) as (fs' & x & -> & Hx & Hxr & Hav' & HT'); [done .. |].
  rewrite bind_ret_l. eexists _, x. split; [reflexivity |]. refine (conj _ (conj _ (conj _ (conj Hx (conj Hxr (conj Hav' (conj eq_refl HT'))))))); [| done | done].
  split; [by apply store_bytes_ok | done].
Qed.

Lemma read_law K p own M r b c data bs : console_ok K -> represents (k_fs K) p own M -> req_ok r ->
  parent_cluster_number r = p -> req_key r <> zero_key -> load_bytes (k_memory K) b REQUEST_SIZE = request_bytes r ->
  M !! req_key r = Some (File data) -> stored (k_fs K) p (req_key r) bs -> Z.of_nat (length data) <= buffer_size r <= 2048 ->
  0 <= Fat32Types.buf r -> Fat32Types.buf r + 2048 * 512 <= 2 ^ 32 ->
  exists K' m', int30 K 0 b c 0 = Ret K' /\ console_ok K' /\ same_files K K' /\ fb (k_console K') = fb (k_console K) /\
    k_memory K' = store m' c 0 /\ load_bytes m' (Fat32Types.buf r) (length bs) = bs /\
    forall a, 0 <= a < 2 ^ 32 -> ~ (Fat32Types.buf r <= a < Fat32Types.buf r + 2048) -> load m' a = load (k_memory K) a.
Proof.
  intros [Hm Hc] [ls Hrep] Hr <- Hz Hreq HM Hst Hlen Hb0 Hb. rewrite int30_syscall. unfold syscall. cbn [eax ebx ecx edx frame_cpu user_frame].
  rewrite (load_request_bytes _ _ r) by (done || lia).
  destruct (read_file_region (k_fs K) r own ls M Hrep Hr Hz (k_memory K) data bs HM Hst) as (m' & -> & Hm' & Hld & Hout); [lia | done | done |].
  rewrite bind_ret_l. eexists _, m'. split; [reflexivity |]. refine (conj _ (conj _ (conj _ (conj _ (conj _ _))))); [| done | done | done | done |].
  - split; [by apply store_bytes_ok, Hm' | done].
  - intros a Ha Hn. apply Hout; [done |]. rewrite clusters_needed_small by lia. intros Hin. apply Hn.
    assert ((Z.of_nat (length data) + 2047) / 2048 <= 1) by (apply Z.lt_succ_r, Z.div_lt_upper_bound; lia). lia.
Qed.

Lemma read_refused_law K p own M r b c : console_ok K -> represents (k_fs K) p own M -> request_in r p own ->
  load_bytes (k_memory K) b REQUEST_SIZE = request_bytes r -> read_answer (buffer_size r) (M !! req_key r) <> 0 ->
  exists K', int30 K 0 b c 0 = Ret K' /\ console_ok K' /\ same_files K K' /\ fb (k_console K') = fb (k_console K) /\
    k_memory K' = store (k_memory K) c (u8 (read_answer (buffer_size r) (M !! req_key r))).
Proof.
  intros [Hm Hc] Hrep (Hr & <- & Hz & Hown & Hb) Hreq Hcode. rewrite int30_syscall. unfold syscall. cbn [eax ebx ecx edx frame_cpu user_frame].
  rewrite (load_request_bytes _ _ r), (read_refused (k_fs K) r own M), bind_ret_l by done.
  eexists. split; [reflexivity |]. refine (conj _ (conj _ (conj _ _))); [| done | done | done]. split; [by apply store_bytes_ok | done].
Qed.

Lemma write_file_law K T p f r b c : console_ok K -> tree_rep (k_fs K) T -> T !! p = Some f -> request_in r p (own_key f) ->
  load_bytes (k_memory K) b REQUEST_SIZE = request_bytes r -> nodes f !! req_key r = None -> 0 < buffer_size r <= 2048 ->
  (size (nodes f) < 63)%nat -> 0 < cluster_available (fat_of (k_fs K)) ->
  exists K', int30 K 2 b c 0 = Ret K' /\ console_ok K' /\ fb (k_console K') = fb (k_console K) /\ k_memory K' = store (k_memory K) c 0 /\
    cluster_available (fat_of (k_fs K')) = cluster_available (fat_of (k_fs K)) - 1 /\ input_of K' = input_of K /\
    tree_rep (k_fs K') (add_node T p (req_key r) (File (load_bytes (k_memory K) (Fat32Types.buf r) (Z.to_nat (buffer_size r))))).
Proof.
  intros [Hm Hc] HT Hf (Hr & <- & Hz & Hown & Hb) Hreq HM Hs Hsz Hav. rewrite int30_syscall. unfold syscall. cbn [eax ebx ecx edx frame_cpu user_frame].
  rewrite (load_request_bytes _ _ r) by done.
  assert (clusters_needed (buffer_size r) = 1) as Hone.
  { rewrite clusters_needed_small by lia. apply Z.le_antisymm; [apply Z.lt_succ_r, Z.div_lt_upper_bound; lia | apply Z.div_le_lower_bound; lia]. }
  destruct (tree_write_file (k_fs K) T r f HT Hf Hr Hz (k_memory K)) as (fs' & -> & Hav' & HT'); [done | done | done | done | lia | lia |].
  rewrite Hone in Hav'. rewrite bind_ret_l. eexists. split; [reflexivity |]. refine (conj _ (conj _ (conj _ (conj Hav' (conj eq_refl HT'))))); [| done | done].
  split; [by apply store_bytes_ok | done].
Qed.

Lemma delete_law K T p f r b c : console_ok K -> tree_rep (k_fs K) T -> T !! p = Some f -> request_in r p (own_key f) ->
  load_bytes (k_memory K) b REQUEST_SIZE = request_bytes r ->
  let code := delete_answer (empty_folder T (nodes f !! req_key r)) (nodes f !! req_key r) in
  exists K', int30 K 3 b c 0 = Ret K' /\ console_ok K' /\ fb (k_console K') = fb (k_console K) /\ k_memory K' = store (k_memory K) c (u8 code) /\
    input_of K' = input_of K /\ if code =? 0 then tree_rep (k_fs K') (remove_node T p (req_key r)) else same_files K K'.
Proof.
  intros [Hm Hc] HT Hf (Hr & <- & Hz & Hown & Hb) Hreq code. rewrite int30_syscall. unfold syscall. cbn [eax ebx ecx edx frame_cpu user_frame].
  rewrite (load_request_bytes _ _ r) by done. destruct (tree_delete_answer (k_fs K) T r f HT Hf Hr Hz Hown) as (fs' & -> & Hans). fold code in Hans |- *.
  rewrite bind_ret_l. eexists. split; [reflexivity |]. refine (conj _ (conj _ (conj _ (conj eq_refl _)))); [split; [by apply store_bytes_ok | done] | done | done |].
  destruct (code =? 0); [apply Hans | done].
Qed.

Lemma same_files_equiv : Equivalence same_files.
Proof.
  unfold same_files. split.
  - by intros K.
  - by intros K K' ([? ?] & ? & ?).
  - intros K1 K2 K3 ([? ?] & ? & ?) ([? ?] & ? & ?). split_and!; congruence.
Qed.

Lemma parent_same K K' c p : same_files K K' -> parent_is K c p -> parent_is K' c p.
Proof.
  intros ([_ Hd] & _) Hp r Hr. specialize (Hp r Hr). unfold move_to_parent_directory in *. by rewrite Hd.
Qed.

(** The cursor as the interface shows it. *)
Lemma cursor_of (K K' : Kernel B D) : fb (k_console K') = fb (k_console K) ->
  (cur_row (fb (k_console K')), cur_col (fb (k_console K'))) = (cur_row (fb (k_console K)), cur_col (fb (k_console K))).
Proof. by intros ->. Qed.

(** A frame for any notion of a sound kernel that memory writes keep. *)
Definition kernel_frame (same : relation (Kernel B D)) (ok : Kernel B D -> Prop) (Hsame : Equivalence same)
    (Hok : forall K, ok K -> bytes_ok (k_memory K)) (Hset : forall K m, same K (set_memory K m))
    (Hset_ok : forall K m, ok K -> bytes_ok m -> ok (set_memory K m)) : @OsFrame (Kernel B D) kernel_os.
Proof.
  refine {|
    os_same := same;
    os_ok := ok;
    os_cursor (K : Kernel B D) := (cur_row (fb (k_console K)), cur_col (fb (k_console K)));
    os_same_equiv := Hsame;
    os_ok_bytes := Hok;
    set_mem_same := Hset;
    set_mem_ok := Hset_ok;
  |}; reflexivity.
Defined.

Lemma console_set K m : console_ok K -> bytes_ok m -> console_ok (set_memory K m).
Proof. by intros [_ Hc] Hm. Qed.
Lemma console_bytes K : console_ok K -> bytes_ok (k_memory K).
Proof. by intros [? _]. Qed.
Lemma same_set K m : same_files K (set_memory K m).
Proof. done. Qed.

(** Every kernel over a block device is a machine the shell can rely on. *)
#[export] Instance kernel_os_spec : @OsSpec (Kernel B D) kernel_os.
Proof.
  refine {|
    os_frame := kernel_frame same_files console_ok same_files_equiv console_bytes same_set console_set;
    os_dir (K : Kernel B D) := represents (k_fs K);
    os_parent := parent_is;
    os_stored (K : Kernel B D) := stored (k_fs K);
    os_free (K : Kernel B D) := cluster_available (fat_of (k_fs K));
    os_tree (K : Kernel B D) := tree_rep (k_fs K);
    os_input := input_of;
  |}; cbn [os_same os_ok os_cursor kernel_frame].
  - intros K K' p own M ([Hf Hd] & _). by apply represents_same.
  - intros K K' p k bs ([Hf Hd] & _). by apply stored_same.
  - apply parent_same.
  - by intros K K' ([-> _] & _).
  - intros K K' (_ & Ek & Ew). unfold input_of. by rewrite Ek, Ew.
  - intros K K' T ([Hf Hd] & _). by apply tree_same.
  - intros K T [L HT]. by eapply tree_shape.
  - intros K T p f HT Hf. by apply (tree_represents _ T).
  - intros K T c f [L HT] Hf r Hr. destruct (tr_up _ _ _ HT c f Hf) as (e & He & Hup). pose proof (folder_range _ _ _ HT c f Hf).
    destruct (tr_dir _ _ _ HT c f Hf) as [Hwf _]. destruct (dw_inv _ _ _ _ Hwf) as (Hok & _).
    apply (move_to_parent_spec (k_fs K) r e); [done | rewrite Hr; lia | by rewrite Hr | done].
  - intros K p own M k data [ls Hrep]. by apply (stored_exists _ (mkRequest 0 [] [] p 0) _ _ _ Hrep).
  - intros K p own M k data bs [ls Hrep] HM Hst.
    destruct (stored_file _ (mkRequest 0 [] [] p 0) _ _ _ Hrep k data bs HM Hst) as (pad & -> & _). by exists pad.
  - intros K p own M k data bs [ls Hrep] HM Hst Hle. destruct (stored_file _ (mkRequest 0 [] [] p 0) _ _ _ Hrep k data bs HM Hst) as (_ & _ & ->).
    rewrite clusters_needed_small by lia.
    assert ((Z.of_nat (length data) + 2047) / 2048 <= 1) by (apply Z.lt_succ_r, Z.div_lt_upper_bound; lia). lia.
  - by intros K [_ ?].
  - apply puts_law.
  - intros K [Hm Hc]. eexists. split; [reflexivity |]. unfold same_files. split_and!; try done. apply set_cursor_waiting.
  - intros K p own M r b c Hk Hd Hr Hreq. destruct (read_dir_law K p own M r b c Hk Hd Hr Hreq) as (K' & ? & ? & ? & Hfb & ?).
    exists K'. by rewrite Hfb.
  - intros K p own M r b c x Hk Hd Hr Hreq HM. destruct (child_law K p own M r b c x Hk Hd Hr Hreq HM) as (K' & ? & ? & ? & Hfb & ?).
    exists K'. by rewrite Hfb.
  - intros K b c x p Hk Hup Hx. destruct (parent_law K b c x p Hk Hup Hx) as (K' & ? & ? & ? & Hfb & ?).
    exists K'. by rewrite Hfb.
  - intros K T p f r b c Hk HT Hf Hr Hreq HM Hs Hn Hsz Hav.
    destruct (write_dir_law K T p f r b c Hk HT Hf Hr Hreq HM Hs Hn Hsz Hav) as (K' & x & ? & ? & Hfb & ? & ? & ? & ? & ? & ?).
    exists K', x. by rewrite Hfb.
  - intros K p own M r b c data bs Hk Hd Hr Hpar Hz Hreq HM Hst Hlen Hb0 Hb.
    destruct (read_law K p own M r b c data bs Hk Hd Hr Hpar Hz Hreq HM Hst Hlen Hb0 Hb) as (K' & m' & ? & ? & ? & Hfb & ? & ? & ?).
    exists K', m'. by rewrite Hfb.
  - intros K p own M r b c Hk Hd Hr Hreq Hcode. destruct (read_refused_law K p own M r b c Hk Hd Hr Hreq Hcode) as (K' & ? & ? & ? & Hfb & ?).
    exists K'. by rewrite Hfb.
  - intros K T p f r b c Hk HT Hf Hr Hreq HM Hs Hsz Hav.
    destruct (write_file_law K T p f r b c Hk HT Hf Hr Hreq HM Hs Hsz Hav) as (K' & ? & ? & Hfb & ? & ? & ? & ?). exists K'. by rewrite Hfb.
  - intros K T p f r b c Hk HT Hf Hr Hreq.
    destruct (delete_law K T p f r b c Hk HT Hf Hr Hreq) as (K' & ? & ? & Hfb & ? & ? & ?). exists K'. by rewrite Hfb.
Defined.
End Kernel.
