(* ===== verification/ShellInput.v ===== *)
(** * The line editor (main of src/user-shell.c)

    What one character does to the line being typed, for any machine, and which
    command the main loop takes for a line. *)
From Stdlib Require Import String.
From stdpp Require Import gmap.
From S2P Require Import Prelude CString Memory BlockDevice Fat32Types PortIO Framebuffer Keyboard KeyboardProps Process Scheduler Kernel IntStr ShellStrings Shell ShellCommands ShellLogic ShellRules ShellKernel.
#[local] Open Scope Z_scope.

(** ** The line *)

(** Backspace takes the last character away, any other character is added. *)
Definition edit (l : list Z) (c : Z) : list Z := if c =? 8 then removelast l else l ++ [c].

(** [n] bytes that hold a string and zeros. *)
Definition filled (n : nat) (l : list Z) : list Z := l ++ replicate (n - length l) 0.

Lemma removelast_length (l : list Z) : length (removelast l) = (length l - 1)%nat.
Proof. induction l as [|x [|y l] IH]; [done | done |]. cbn [removelast length] in *. lia. Qed.

Lemma edit_length l c : (length (edit l c) <= S (length l))%nat.
Proof. unfold edit. destruct (c =? 8); [rewrite removelast_length | rewrite length_app; cbn]; lia. Qed.

Lemma removelast_sub (l : list Z) x : x ∈ removelast l -> x ∈ l.
Proof.
  induction l as [|y [|z l] IH]; [done | by intros ?%not_elem_of_nil |]. cbn [removelast]. intros [->|Hx]%elem_of_cons; [left |].
  right. by apply IH.
Qed.

Lemma edit_sub cs l x : x ∈ foldl edit l cs -> x ∈ l \/ x ∈ cs.
Proof.
  revert l. induction cs as [|c cs IH]; intros l; [by left |]. cbn [foldl]. intros [Hx|Hx]%IH; [| right; by right].
  unfold edit in Hx. destruct (c =? 8); [left; by apply removelast_sub |].
  apply elem_of_app in Hx as [Hx|Hx%list_elem_of_singleton]; [by left | right; subst; left].
Qed.

Lemma edit_run_length cs l : (length (foldl edit l cs) <= length l + length cs)%nat.
Proof.
  revert l. induction cs as [|c cs IH]; intros l; cbn [foldl length]; [lia |]. specialize (IH (edit l c)). pose proof (edit_length l c). lia.
Qed.

Lemma edit_ok l c : Forall (fun x => 0 < x < 256) l -> 0 < c < 256 -> Forall (fun x => 0 < x < 256) (edit l c).
Proof.
  intros Hl Hc. apply Forall_forall. intros x Hx. unfold edit in Hx. rewrite Forall_forall in Hl. destruct (c =? 8); [by apply Hl, removelast_sub |].
  apply elem_of_app in Hx as [Hx|Hx%list_elem_of_singleton]; [by apply Hl | by subst].
Qed.

(** A patch of one byte in a filled array. *)
Lemma filled_snoc m m' p n l c : load_bytes m p n = filled n l -> (length l < n)%nat -> in_space p n ->
  patched m m' (p + Z.of_nat (length l)) [c] -> load_bytes m' p n = filled n (l ++ [c]).
Proof.
  intros E Hl [Hp0 Hp1] Hp. pose proof (patched_at Hp) as Ec. cbn [length] in Ec.
  replace n with (length l + (1 + (n - S (length l))))%nat in E |- * by lia. unfold filled in *.
  rewrite !load_bytes_app in *. rewrite (patched_other Hp p) by (first [split; lia | unfold apart; cbn; lia]).
  rewrite Ec by (split; cbn; lia). rewrite (patched_other Hp _ (n - S (length l))) by (first [split; lia | unfold apart; cbn; lia]).
  apply app_inj_1 in E as [-> E]; [| by rewrite length_load_bytes].
  replace (length l + (1 + (n - S (length l))) - length l)%nat with (S (n - S (length l))) in E by lia.
  cbn [replicate] in E. change (0 :: replicate (n - S (length l)) 0) with ([0] ++ replicate (n - S (length l)) 0) in E.
  apply app_inj_1 in E as [_ ->]; [| by rewrite length_load_bytes].
  rewrite length_app. cbn [length]. rewrite <- app_assoc. do 3 f_equal. lia.
Qed.

Lemma filled_removelast m m' p n l : load_bytes m p n = filled n l -> (length l <= n)%nat -> in_space p n -> l <> [] ->
  patched m m' (p + Z.of_nat (length l - 1)) [0] -> load_bytes m' p n = filled n (removelast l).
Proof.
  intros E Hl Hs Hne Hp. destruct (exists_last Hne) as (l' & c & ->). rewrite removelast_last, length_app in *. cbn [length] in *.
  replace (length l' + 1 - 1)%nat with (length l') in Hp by lia. destruct Hs as [Hp0 Hp1]. pose proof (patched_at Hp) as Ec. cbn [length] in Ec.
  unfold filled in *. rewrite length_app in E. cbn [length] in E. rewrite <- app_assoc in E.
  replace n with (length l' + (1 + (n - S (length l'))))%nat in E |- * by lia.
  rewrite !load_bytes_app in *. rewrite (patched_other Hp p) by (first [split; lia | unfold apart; cbn; lia]).
  rewrite Ec by (split; cbn; lia). rewrite (patched_other Hp _ (n - S (length l'))) by (first [split; lia | unfold apart; cbn; lia]).
  apply app_inj_1 in E as [-> E]; [| by rewrite length_load_bytes].
  apply app_inj_1 in E as [_ ->]; [| by rewrite length_load_bytes].
  replace (length l' + (1 + (n - S (length l'))) - length l')%nat with (S (n - S (length l'))) by lia.
  cbn [replicate app]. do 3 f_equal. lia.
Qed.

Lemma filled_string m p n l : load_bytes m p n = filled n l -> (length l < n)%nat -> in_space p n -> Forall (fun x => 0 < x < 256) l ->
  cstring m p l.
Proof.
  intros E Hl [Hp0 Hp1] Hc. split_and!; [split; lia | | by eapply Forall_impl; [exact Hc | unfold nonzero; cbn; lia]].
  rewrite <- (take_load_bytes _ _ _ n), E by lia. unfold filled. replace (n - length l)%nat with (S (n - S (length l))) by lia.
  cbn [replicate]. rewrite cons_middle, app_assoc. apply take_app_length'. rewrite length_app. cbn. lia.
Qed.

(** ** One character *)

Section Edit.
Context {K : Type} `{OsFrame K} (g : Layout) (Hg : layout_ok g).

(** The first 256 bytes of [temp_buf] hold the line, those of [buf] are empty. *)
Record line_at (s : K) (l : list Z) : Prop := {
  la_text : load_bytes (os_mem s) (temp_buf g) 256 = filled 256 l;
  la_length : (length l <= 255)%nat;
  la_chars : Forall (fun c => 0 < c < 256) l;
  la_buf : load_bytes (os_mem s) (Shell.buf g) 256 = replicate 256 0;
  la_entered : glob g REntered s = [0];
}.

Lemma line_step l s s' txt : step g l s s' -> forallb (fun x => fresh x l) [RTemp; RLine; REntered] = true -> line_at s txt -> line_at s' txt.
Proof using Hg.
  intros Hs Hf [Et Hl Hc Eb Ee]. cbn [forallb] in Hf. rewrite !andb_true_iff in Hf. destruct Hf as (F1 & F2 & F3 & _). split; try done.
  - rewrite (step_inside g Hg l s s' RTemp _ _ Hs F1); [done | unfold inside; cbn; lia].
  - rewrite (step_inside g Hg l s s' RLine _ _ Hs F2); [done | unfold inside; cbn; lia].
  - by rewrite (step_glob g Hg l s s' REntered Hs F3).
Qed.

Lemma line_space : in_space (temp_buf g) 256 /\ in_space (Shell.buf g) 256.
Proof using Hg.
  pose proof (region_space g Hg RTemp) as [? ?]. pose proof (region_space g Hg RLine) as [? ?]. cbn [place region_size] in *.
  split; split; lia.
Qed.

Context (fuel : nat) (Hfuel : (256 < fuel)%nat).

(** A character of the line. *)
Lemma wp_edit_char s l c (Q : unit -> K -> Prop) : os_ok s -> line_at s l -> glob g RChar s = [c] -> 0 < c < 256 -> c <> 10 ->
  (length (edit l c) <= 255)%nat -> (forall s', step g [RTemp] s s' -> line_at s' (edit l c) -> Q tt s') -> wp (edit_line g fuel) s Q.
Proof using Hg Hfuel.
  intros Hs Hline Hchar Hc Hnl Hfit HQ. pose proof Hline as [Et Hl Hcs Eb Ee]. destruct line_space as [Hts _]. pose proof Hts as [Ht0 Ht1].
  pose proof (filled_string _ _ _ _ Et ltac:(lia) Hts Hcs) as Hstr.
  assert (forall s' l', step g [RTemp] s s' -> load_bytes (os_mem s') (temp_buf g) 256 = filled 256 l' -> l' = edit l c -> line_at s' (edit l c)) as Hdone.
  { intros s' l' Hst E ->. split; [done | done | by apply edit_ok | |].
    - rewrite (step_inside g Hg _ s s' RLine _ _ Hst); [done | done | unfold inside; cbn; lia].
    - by rewrite (step_glob g Hg _ s s' REntered Hst). }
  apply wp_bind, (wp_get8_glob g RChar s c); [done | done |]. destruct (Z.eqb_spec c 10); [done |]. unfold edit in *.
  destruct (Z.eqb_spec c 8) as [->|Hb].
  - apply wp_bind, (wp_strlen fuel s _ l); [done | lia |]. destruct l as [|x l]; cbn [length Z.of_nat Z.ltb Z.compare when].
    + apply wp_skip. apply HQ; [by apply step_refl | done].
    + assert (0 < Z.pos (Pos.of_succ_nat (length l))) as Hpos by lia.
      apply (wp_put8 g Hg s _ 0 RTemp); [done | unfold inside; cbn in *; lia | done |].
      intros s' Hst Hp. apply HQ; [done |]. eapply Hdone; [done | | done].
      apply (filled_removelast (os_mem s) _ _ _ (x :: l)); [done | cbn in *; lia | done | done |].
      replace (Z.of_nat (length (x :: l) - 1)) with (Z.pos (Pos.of_succ_nat (length l)) - 1) by (cbn; lia). done.
  - apply wp_bind, (wp_strlen fuel s _ l); [done | lia |]. rewrite length_app in Hfit. cbn [length] in Hfit.
    apply (wp_put8 g Hg s _ c RTemp); [done | unfold inside; cbn in *; lia | done |].
    intros s' Hst Hp. rewrite u8_id in Hp by lia. apply HQ; [done |]. eapply Hdone; [done | | done].
    apply (filled_snoc (os_mem s)); [done | lia | done | done].
Qed.

(** Enter: the line moves to [buf]. *)
Lemma wp_edit_enter s l (Q : unit -> K -> Prop) : os_ok s -> line_at s l -> glob g RChar s = [10] ->
  (forall s', step g [RLine; RChar; RTemp; REntered] s s' -> load_bytes (os_mem s') (Shell.buf g) 256 = filled 256 l ->
     load_bytes (os_mem s') (temp_buf g) 256 = replicate 256 0 -> glob g REntered s' = [1] -> Q tt s') -> wp (edit_line g fuel) s Q.
Proof using Hg Hfuel.
  intros Hs [Et Hl Hcs Eb Ee] Hchar HQ. destruct line_space as [Hts [Hb0 Hb1]]. pose proof (step_ok g) as Hok.
  pose proof (filled_string _ _ _ _ Et ltac:(lia) Hts Hcs) as Hstr.
  apply wp_bind, (wp_get8_glob g RChar s 10); [done | done |]. cbn [Z.eqb Pos.eqb].
  apply wp_bind, (wp_strlen fuel s _ l); [done | lia |].
  apply wp_bind, (wp_copy g Hg s _ _ _ RLine RTemp); [done | lia | unfold inside; cbn; lia | unfold inside; cbn; lia | done | done |].
  rewrite Nat2Z.id. intros s1 H1 Hp1.
  assert (load_bytes (os_mem s1) (Shell.buf g) 256 = filled 256 l) as E1.
  { assert (load_bytes (os_mem s) (temp_buf g) (length l) = l) as Epre.
    { rewrite <- (take_load_bytes _ _ _ 256), Et by lia. apply take_app_length. }
    rewrite Epre in Hp1. replace 256%nat with (length l + (256 - length l))%nat in Eb |- * by lia. unfold filled.
    rewrite load_bytes_app in Eb |- *. rewrite replicate_add in Eb. apply app_inj_1 in Eb as [_ Eb]; [| by rewrite length_load_bytes, length_replicate].
    rewrite (patched_at Hp1) by (split; lia). rewrite (patched_other Hp1) by (first [split; lia | unfold apart; lia]).
    rewrite Eb. do 2 f_equal. lia. }
  apply wp_bind, (wp_put8_glob g Hg RChar s1); [done | done | by eapply Hok |]. intros s2 H2 E2.
  apply wp_bind, (wp_fill g Hg s2 _ 0 256 RTemp); [by eapply Hok | unfold inside; cbn; lia | done |]. intros s3 H3 Hp3.
  apply (wp_put8_glob g Hg REntered s3); [done | done | by eapply Hok |]. intros s4 H4 E4.
  apply HQ; [chain | | | done].
  - rewrite (step_inside g Hg _ s3 s4 RLine _ _ H4), (step_inside g Hg _ s2 s3 RLine _ _ H3), (step_inside g Hg _ s1 s2 RLine _ _ H2);
      done || (unfold inside; cbn; lia).
  - rewrite (step_inside g Hg _ s3 s4 RTemp _ _ H4); [| done | unfold inside; cbn; lia]. apply (patched_at Hp3). done.
Qed.
End Edit.

(** ** The first word *)

Fixpoint is_prefix (w l : list Z) : bool :=
  match w, l with
  | [], _ => true
  | c :: w', d :: l' => (c =? d) && is_prefix w' l'
  | _, [] => false
  end.

(** What the words of a table say about a line. *)
Fixpoint dispatch {A} (table : list (string * A)) (otherwise : A) (l : list Z) : A :=
  match table with
  | [] => otherwise
  | (word, cmd) :: table' => if is_prefix (bytes_of word) l then cmd else dispatch table' otherwise l
  end.

Lemma is_prefix_spec w l (f : nat -> Z) : Forall nonzero w -> (forall k, (k <= length l)%nat -> (l ++ [0]) !! k = Some (f k)) ->
  is_prefix w l = true <-> forall k, (k < length w)%nat -> at_list (w ++ [0]) k = f k.
Proof.
  revert l f. induction w as [|c w IH]; intros l f Hw Hf; cbn [is_prefix length].
  { split; [intros _ k Hk; lia | done]. }
  apply Forall_cons in Hw as [Hc Hw]. pose proof (Hf 0%nat ltac:(lia)) as H0. destruct l as [|d l]; cbn in H0; injection H0 as H0.
  { split; [done |]. intros H. specialize (H 0%nat ltac:(lia)). cbn in H. unfold nonzero in Hc. congruence. }
  rewrite andb_true_iff, Z.eqb_eq, (IH l (fun k => f (S k))); [| done | intros k Hk; apply (Hf (S k)); cbn; lia].
  split.
  - intros [-> H] [|k] Hk; [exact H0 | apply H; lia].
  - intros H. split; [rewrite H0; exact (H 0%nat ltac:(lia)) | intros k Hk; exact (H (S k) ltac:(lia))].
Qed.

Lemma memcmp_word m p l w : cstring m p l -> Forall nonzero w ->
  (memcmp (at_list (w ++ [0])) (at_ptr m p) (length w) =? 0) = is_prefix w l.
Proof.
  intros (_ & E & _) Hw. apply eq_bool_prop_intro. rewrite !Is_true_true, Z.eqb_eq, memcmp_zero. symmetry. apply is_prefix_spec; [done |].
  intros k Hk. rewrite <- E, load_bytes_lookup, decide_True by lia. done.
Qed.

Lemma bytes_of_length s : length (bytes_of s) = String.length s.
Proof. induction s as [|c s IH]; [done |]. cbn [bytes_of length String.length]. by rewrite IH. Qed.

Lemma wp_choose {K} `{Os K} g l otherwise (Q : unit -> K -> Prop) s : cstring (os_mem s) (Shell.buf g) l -> forall table,
  Forall (fun wc => Forall nonzero (bytes_of (fst wc))) table -> wp (dispatch table otherwise l) s Q -> wp (choose g table otherwise) s Q.
Proof.
  intros Hl. induction table as [|[word cmd] table IH]; intros Hw HQ; [done |]. apply Forall_cons in Hw as [Hword Hw].
  cbn [choose dispatch] in *. apply wp_bind, wp_look. rewrite <- bytes_of_length, (memcmp_word _ _ l) by done.
  destruct (is_prefix (bytes_of word) l); [done | by apply IH].
Qed.
