(* ===== verification/ShellSession.v ===== *)
(** * A session at the keyboard

    The composition of the whole path of a command: keyboard interrupts of the
    kernel, the polls of the shell's main loop, the line editor, the dispatcher, a
    command with its system calls, and the next prompt. *)
From Stdlib Require Import String.
From stdpp Require Import gmap.
From S2P Require Import Prelude CString Memory BlockDevice Fat32Types Fat32 Fat32Chain Fat32Facts Fat32Ops Fat32Access Fat32Abs Fat32Refine Fat32Codes PortIO Framebuffer Keyboard KeyboardProps Process Scheduler Kernel KernelProps IntStr ShellStrings Shell ShellCommands ShellLogic ShellRules ShellDirs ShellFiles ShellKernel ShellInput.
#[local] Open Scope Z_scope.

Section Session.
Context {B D : Type} `{KeyboardDevice B} `{BlockDeviceSpec D} (env : Environment) (regs : CPURegister) (stack : InterruptStack).
Context (g : Layout) (Hg : layout_ok g).

#[local] Instance the_os : Os (Kernel B D) := kernel_os env regs stack.
#[local] Instance the_spec : OsSpec (Kernel B D) := kernel_os_spec env regs stack.

(** ** Interrupts and polls *)

(** A key: the keyboard's interrupt. *)
Definition press : Sh (Kernel B D) unit := fun K =>
  K' ← main_interrupt_handler env K (mkFrame regs (PIC1_OFFSET + IRQ_KEYBOARD) stack); Ret (tt, K').

(** A key is followed by at least one round of the main loop. *)
Definition key_then (fuel n : nat) : Sh (Kernel B D) unit := press;; rounds g fuel (S n).
Fixpoint session (fuel : nat) (ns : list nat) : Sh (Kernel B D) unit :=
  match ns with [] => skip | n :: ns' => key_then fuel n;; session fuel ns' end.

(** While a line is typed the cursor may stand behind the last column: the program
    touches nothing but memory. *)
Definition same_but_memory (K K' : Kernel B D) : Prop := K' = set_memory K (k_memory K').
Lemma same_but_memory_equiv : Equivalence same_but_memory.
Proof.
  unfold same_but_memory. split.
  - by intros [???[]].
  - intros K K' E. rewrite E. by destruct K as [???[]].
  - intros K1 K2 K3 E1 E2. rewrite E2, E1. done.
Qed.
Definition typing_frame : OsFrame (Kernel B D) :=
  @kernel_frame B D _ _ env regs stack same_but_memory (fun K => bytes_ok (k_memory K)) same_but_memory_equiv
    (fun K Hm => Hm) (fun K m => eq_refl) (fun K m _ Hm => Hm).

(** The shell reads a line: the characters so far, the driver's state, the scancodes
    to come. *)
Record typing (K : Kernel B D) (l : list Z) (ks : keys) (codes : list Z) : Prop := {
  ty_mem : bytes_ok (k_memory K);
  ty_cursor : cursor_bounded (fb (k_console K));
  ty_line : line_at g K l;
  ty_keys : keys_of (kb (k_console K)) = ks;
  ty_index : 0 <= buffer_index (kb (k_console K)) < 256;
  ty_polled : keyboard_buffer (kb (k_console K)) = 0;
  ty_codes : k_on ks = true -> waiting (ports (k_console K)) = codes;
}.

(** What typing leaves alone. *)
Definition typing_changes : list region := [RTemp; RChar; RRetcode; RScreen].
Definition kept (K K' : Kernel B D) : Prop := k_fs K' = k_fs K /\ only g typing_changes (k_memory K) (k_memory K').

Lemma kept_refl K : kept K K.
Proof. split; [done | apply only_refl]. Qed.
Lemma kept_trans K1 K2 K3 : kept K1 K2 -> kept K2 K3 -> kept K1 K3.
Proof.
  intros [E1 O1] [E2 O2]. split; [congruence |]. eapply (only_mono g (typing_changes ++ typing_changes)); [by apply covers_sub | by eapply only_trans].
Qed.

Lemma console_only m m' : same_outside_console m m' -> only g [RScreen] m m'.
Proof.
  intros Ho a Ha Hn. specialize (Hn RScreen (list_elem_of_here _ _)). apply Ho; [done |].
  change (place g RScreen) with FRAMEBUFFER_MEMORY_OFFSET in Hn. change (Z.of_nat (region_size RScreen)) with 4002 in Hn. lia.
Qed.

Lemma line_only l m m' K K' txt : k_memory K = m -> k_memory K' = m' -> only g l m m' ->
  forallb (fun x => fresh x l) [RTemp; RLine; REntered] = true -> line_at g K txt -> line_at g K' txt.
Proof using Hg.
  intros <- <- Ho Hf [Et Hl Hc Eb Ee]. cbn [forallb] in Hf. rewrite !andb_true_iff in Hf. destruct Hf as (F1 & F2 & F3 & _). split; try done.
  - rewrite <- Et. apply (only_inside g Hg l _ _ RTemp); [done | done | unfold inside; cbn; lia].
  - rewrite <- Eb. apply (only_inside g Hg l _ _ RLine); [done | done | unfold inside; cbn; lia].
  - rewrite <- Ee. apply (only_inside g Hg l _ _ REntered); [done | done | by apply inside_place].
Qed.

(** A key changes the driver and the screen. *)
Lemma press_spec K l ks code codes : typing K l ks (code :: codes) -> is_byte code -> arrow code = false ->
  exists c, keyboard_isr (k_console K) = Ret c /\ bytes_ok (video c) /\ cursor_bounded (fb c) /\
    only g [RScreen] (k_memory K) (video c) /\
    keys_of (kb c) = fst (key_press ks code) /\ 0 <= buffer_index (kb c) < 256 /\
    (k_on (fst (key_press ks code)) = true -> waiting (ports c) = codes) /\ 0 <= keyboard_buffer (kb c) < 256 /\
    snd (key_press ks code) = if keyboard_buffer (kb c) =? 0 then [] else [keyboard_buffer (kb c)].
Proof.
  intros [Hm Hf _ <- Hi Hk Hw] Hcode Ha.
  destruct (keyboard_isr_key (k_console K) code codes Hw Hcode Hi Hk) as (c & E & Hkeys & Hi' & Hw' & Hb & Hout).
  destruct (keyboard_isr_screen (k_console K) Hf Hm) as (c1 & E1 & Hf1 & Hm1 & Ho1).
  { intros Hon b code' Hin. destruct (waiting_in _ _ _ (Hw Hon)) as (b' & Hin' & _). rewrite Hin' in Hin.
    injection Hin as <- <-. done. }
  rewrite E in E1. injection E1 as <-. exists c. split_and!; try done; try lia.
  - by apply console_only.
  - intros Hon. apply Hw'. rewrite <- Hkeys in Hon. exact Hon.
Qed.

(** ** One round of the main loop *)

Definition at_key (K : Kernel B D) (c : Z) : Kernel B D :=
  set_console K (mkConsole (set_keyboard_buffer (kb (k_console K)) c) (fb (k_console K)) (k_memory K) (ports (k_console K))).

(** [get_user_input]: the character, or none, and the code. *)
Lemma wp_user_input K (Q : unit -> Kernel B D -> Prop) : bytes_ok (k_memory K) -> 0 <= keyboard_buffer (kb (k_console K)) < 256 ->
  (forall m, bytes_ok m -> only g [RChar; RRetcode] (k_memory K) m ->
     load_bytes m (cur_char g) 1 = [keyboard_buffer (kb (k_console K))] ->
     load_bytes m (retcode g) 4 = le_encode 4 (if keyboard_buffer (kb (k_console K)) =? 0 then 2 ^ 32 - 1 else 0) ->
     Q tt (set_memory (at_key K 0) m)) -> wp (get_user_input g (cur_char g)) K Q.
Proof using Hg.
  intros Hm Hc HQ. set (c := keyboard_buffer (kb (k_console K))) in *.
  pose proof (region_space g Hg RChar) as [Hc0 Hc1]. pose proof (region_space g Hg RRetcode) as Hrs. pose proof Hrs as [Hr0 Hr1].
  destruct Hg as (_ & _ & Hap). pose proof (Hap RChar RRetcode eq_refl) as Hdis. unfold apart in Hdis. cbn [place region_size] in *.
  set (v := if c =? 0 then 2 ^ 32 - 1 else 0) in *. assert (0 <= v < 2 ^ 32) as Hv by (unfold v; destruct (c =? 0); lia).
  set (m1 := store (k_memory K) (cur_char g) c). set (m2 := store_bytes m1 (retcode g) (le_encode 4 v)).
  assert (int30 K 4 (cur_char g) (retcode g) 0 = Ret (set_memory (at_key K 0) m2)) as E.
  { change (int30 K 4 (cur_char g) (retcode g) 0) with
      (let '(k, m) := get_keyboard_buffer (kb (k_console K)) (k_memory K) (cur_char g) (retcode g) in
       Ret (set_console K (mkConsole k (fb (k_console K)) m (ports (k_console K))))).
    unfold get_keyboard_buffer. fold c. subst m2 m1 v. destruct (Z.eqb_spec c 0) as [E0|]; [| reflexivity].
    unfold at_key, set_memory, set_console. cbn. subst c. rewrite E0. destruct (kb (k_console K)); cbn in *. by subst. }
  assert (patched (k_memory K) m1 (cur_char g) [c]) as Hp1.
  { pose proof (patched_store (k_memory K) (cur_char g) c) as Hp. rewrite u8_id in Hp by lia. apply Hp. lia. }
  assert (patched m1 m2 (retcode g) (le_encode 4 v)) as Hp2 by by apply patched_store_bytes.
  exists tt, (set_memory (at_key K 0) m2). split.
  { unfold get_user_input, sys. rewrite E. reflexivity. }
  apply HQ.
  - apply store_bytes_bytes_ok; [apply le_encode_bytes | by apply store_bytes_ok].
  - apply (only_trans g [RChar] [RRetcode] _ m1); eapply patched_only; try done; unfold inside; cbn; lia.
  - rewrite (patched_other Hp2) by (first [split; lia | unfold apart; cbn; lia]). apply (patched_at Hp1). split; cbn; lia.
  - apply (patched_at Hp2). done.
Qed.

(** The code as the shell sees it. *)
Lemma wp_input_code K m c (Q : Z -> Kernel B D -> Prop) :
  load_bytes m (retcode g) 4 = le_encode 4 (if c =? 0 then 2 ^ 32 - 1 else 0) ->
  Q (if c =? 0 then -1 else 0) (set_memory K m) -> wp (get_retcode g) (set_memory K m) Q.
Proof.
  intros E HQ. apply wp_look. change (os_mem (set_memory K m)) with m. rewrite E. by destruct (c =? 0).
Qed.

(** The program's globals put the shell in the root directory with an empty line. *)
Lemma write_region m m' x bs : patched m m' (place g x) bs -> length bs = region_size x ->
  load_bytes m' (place g x) (region_size x) = bs /\
  forall y, compatible x y = true -> load_bytes m' (place g y) (region_size y) = load_bytes m (place g y) (region_size y).
Proof using Hg.
  intros Hp Hl. pose proof (region_space g Hg x) as Hx. rewrite <- Hl in Hx. split; [rewrite <- Hl; by apply (patched_at Hp) |].
  intros y Hc. apply (only_inside g Hg [x] _ _ y); [| cbn; by rewrite Hc | by apply inside_place].
  eapply patched_only; [exact Hp | by apply inside_place].
Qed.

Lemma loaded_globals K m : k_memory K = load_globals g m -> placed g K [] /\ line_at g K [].
Proof using Hg.
  pose proof (region_space g Hg) as Hsp. unfold load_globals. cbv zeta. generalize (memset (store_bytes (memset m (cl g) 0 4096) (request g)
    (initial_request g)) (retcode g) 0 4). clear m. intros m Em.
  destruct (write_region m _ RDir _ (patched_store_bytes m (current_dir g) (bytes_of "/" ++ replicate 254 0) (Hsp RDir)) eq_refl) as [E3 _].
  set (m3 := store_bytes m (current_dir g) _) in *.
  destruct (write_region m3 _ RLine _ (patched_memset m3 (Shell.buf g) 0 2000 (Hsp RLine))) as [E4 F4]; [by rewrite length_replicate |].
  set (m4 := memset m3 _ _ _) in *.
  destruct (write_region m4 _ RTemp _ (patched_memset m4 (temp_buf g) 0 2000 (Hsp RTemp))) as [E5 F5]; [by rewrite length_replicate |].
  set (m5 := memset m4 _ _ _) in *.
  assert (forall x, region_size x = 1%nat -> 0 <= place g x < 2 ^ 32) as Hb1 by (intros x Hx; pose proof (Hsp x) as [? ?]; lia).
  destruct (write_region m5 _ RChar _ (patched_store m5 (cur_char g) 0 (Hb1 RChar eq_refl)) eq_refl) as [E6 F6].
  set (m6 := store m5 _ _) in *.
  destruct (write_region m6 _ REntered _ (patched_store m6 (is_entered g) 0 (Hb1 REntered eq_refl)) eq_refl) as [E7 F7].
  set (m7 := store m6 _ _) in *.
  destruct (write_region m7 _ RDirLen _ (patched_store m7 (currentdirlen g) 1 (Hb1 RDirLen eq_refl)) eq_refl) as [E8 F8].
  set (m8 := store m7 _ _) in *.
  destruct (write_region m8 _ RCwd _ (patched_store_bytes m8 (cwd_cluster_number g) (le_encode 4 ROOT_CLUSTER_NUMBER) (Hsp RCwd)) eq_refl) as [E9 F9].
  set (m9 := store_bytes m8 _ _) in *.
  assert (forall x n bs, glob g x K = bs -> (n <= region_size x)%nat -> load_bytes (k_memory K) (place g x) n = take n bs) as Hpre.
  { intros x n bs <- Hn. unfold glob. by rewrite take_load_bytes by done. }
  assert (forall x, glob g x K = load_bytes m9 (place g x) (region_size x)) as HG by (intros x; unfold glob; by rewrite <- Em).
  split; [split_and! | split].
  - rewrite HG. exact E9.
  - by rewrite HG, F9.
  - apply (Hpre RDir 1%nat (bytes_of "/" ++ replicate 254 0)); [| cbn; lia]. by rewrite HG, F9, F8, F7, F6, F5, F4.
  - cbn. lia.
  - apply (Hpre RTemp 256%nat (replicate 2000 0)); [by rewrite HG, F9, F8, F7, F6 | cbn; lia].
  - cbn. lia.
  - constructor.
  - apply (Hpre RLine 256%nat (replicate 2000 0)); [by rewrite HG, F9, F8, F7, F6, F5 | cbn; lia].
  - by rewrite HG, F9, F8.
Qed.

(** ** What changes of memory or of the file system leave true *)

Lemma tree_fs K K' T : k_fs K' = k_fs K -> tree_ok K T -> tree_ok K' T.
Proof.
  intros E [Hroot HT]. split; [done |]. intros p M HM. destruct (HT p M HM) as (own & Hd & Ho & Hc).
  assert (forall c q, os_parent K c q -> os_parent K' c q) as Hup.
  { intros c q Hq r Hr. rewrite E. by apply Hq. }
  exists own. split_and!; [change (represents (k_fs K') p own M); by rewrite E | done |].
  intros n c Hn. destruct (Hc n c Hn) as (? & ? & ? & ?). split_and!; [done | lia | lia | by apply Hup | done].
Qed.
Lemma pos_fs K K' pos : k_fs K' = k_fs K -> pos_ok K pos -> pos_ok K' pos.
Proof.
  intros E. induction pos as [|[c n] pos IH]; cbn; [done |]. intros (? & ? & Hq & ? & ?).
  split_and!; [done | lia | lia | | done | by apply IH]. intros r Hr. rewrite E. by apply Hq.
Qed.

Lemma placed_only l (K K' : Kernel B D) pos : only g l (k_memory K) (k_memory K') ->
  forallb (fun x => fresh x l) [RCwd; RDirLen; RDir] = true -> placed g K pos -> placed g K' pos.
Proof using Hg.
  intros Ho Hf (Ec & El & Et & Hl). cbn [forallb] in Hf. rewrite !andb_true_iff in Hf. destruct Hf as (F1 & F2 & F3 & _).
  split_and!; [| | | done].
  - rewrite <- Ec. apply (only_inside g Hg l _ _ RCwd); [done | done | by apply inside_place].
  - rewrite <- El. apply (only_inside g Hg l _ _ RDirLen); [done | done | by apply inside_place].
  - rewrite <- Et at 2. apply (only_inside g Hg l _ _ RDir); [done | done | unfold inside; cbn; lia].
Qed.

(** Components with the slash behind each. *)
Fixpoint path_length (ns : list (list Z)) : nat :=
  match ns with [] => 0 | n :: ns' => S (length n) + path_length ns' end.

Lemma walk_path_prompt T ns : forall pos,
  (length (prompt (foldl (walk T) pos ns)) <= length (prompt pos) + path_length ns)%nat.
Proof.
  induction ns as [|n ns IH]; intros pos; cbn [foldl path_length]; [lia |].
  specialize (IH (walk T pos n)). pose proof (walk_prompt T pos n). lia.
Qed.

Lemma components_length path : path_length (components path) = S (length path).
Proof.
  induction path as [|c path IH]; [done |]. cbn [components]. destruct (c =? 47).
  - cbn [path_length length]. lia.
  - destruct (components path) as [|n ns]; cbn [path_length length] in *; lia.
Qed.

Context (fuel : nat) (Hfuel : (256 < fuel)%nat).

(** The state after the character is read, when it is none or an ordinary one. *)
Definition polled (K K' : Kernel B D) : Prop :=
  k_fs K' = k_fs K /\ fb (k_console K') = fb (k_console K) /\ ports (k_console K') = ports (k_console K) /\
  kb (k_console K') = set_keyboard_buffer (kb (k_console K)) 0 /\ bytes_ok (k_memory K').

Lemma same_polled K m K' : bytes_ok (k_memory K') -> same_but_memory (set_memory (at_key K 0) m) K' -> polled K K'.
Proof. intros Hb E. unfold same_but_memory in E. split_and!; [.. | done]; rewrite E; reflexivity. Qed.

Lemma wp_poll K l (Q : unit -> Kernel B D -> Prop) : let c := keyboard_buffer (kb (k_console K)) in
  bytes_ok (k_memory K) -> line_at g K l -> 0 <= c < 256 -> c <> 10 -> (c <> 0 -> (length (edit l c) <= 255)%nat) ->
  (forall K', polled K K' -> only g [RChar; RRetcode; RTemp] (k_memory K) (k_memory K') ->
     line_at g K' (if c =? 0 then l else edit l c) -> Q tt K') -> wp (loop_body g fuel) K Q.
Proof using Hg Hfuel.
  intros c Hm Hline Hc Hnl Hfit HQ. unfold loop_body, read_key. apply wp_bind, wp_bind, wp_user_input; [done | done |].
  fold c. intros m Hmb Ho Ech Erc. apply wp_bind, (wp_input_code _ m c); [done |].
  assert (line_at g (set_memory (at_key K 0) m) l) as Hline1 by (eapply line_only; [reflexivity | reflexivity | exact Ho | done | done]).
  destruct (Z.eqb_spec c 0) as [E0|E0].
  - cbn [Z.eqb]. apply wp_ret, wp_skip. apply HQ; [by apply (same_polled K m) | eapply only_mono, Ho; by apply covers_sub | done].
  - cbn [Z.eqb Z.opp].
    apply wp_bind, (@wp_edit_char _ _ typing_frame g Hg fuel Hfuel _ l c); [done | done | | lia | done | by apply Hfit |].
    { exact Ech. }
    intros K2 Hst2 Hline2. pose proof Hst2 as (Hb2 & Hs2 & Ho2 & _).
    apply wp_bind, (wp_get8_glob g REntered K2 0); [apply Hline2 | done |]. cbn [Z.eqb negb]. apply wp_ret, wp_skip.
    apply HQ; [by apply (same_polled K m) | | done].
    apply (only_trans g [RChar; RRetcode] [RTemp] _ m); [exact Ho | exact Ho2].
Qed.

(** A round that finds no character. *)
Lemma wp_idle n : forall K l ks codes (Q : unit -> Kernel B D -> Prop), typing K l ks codes ->
  (forall K', typing K' l ks codes -> kept K K' -> Q tt K') -> wp (rounds g fuel n) K Q.
Proof using Hg Hfuel.
  induction n as [|n IH]; intros K l ks codes Q Ht HQ; cbn [rounds].
  { apply wp_skip, HQ; [done | apply kept_refl]. }
  pose proof Ht as [Hm Hf Hl Hks Hi Hk Hw]. apply wp_bind, (wp_poll K l); rewrite ?Hk; [done | done | lia | done | done |].
  cbn [Z.eqb]. intros K1 (Ef & Efb & Ep & Ek & Hb) Ho Hl1. apply (IH K1 l ks codes).
  - split; [done | by rewrite Efb | done | by rewrite Ek | by rewrite Ek | by rewrite Ek | by rewrite Ep].
  - intros K2 Ht2 Hk2. apply HQ; [done |]. eapply kept_trans; [| exact Hk2]. split; [done |]. eapply only_mono, Ho. by apply covers_sub.
Qed.

Lemma press_wp K c (Q : unit -> Kernel B D -> Prop) : keyboard_isr (k_console K) = Ret c -> Q tt (set_console K c) -> wp press K Q.
Proof.
  intros E HQ. exists tt, (set_console K c). split; [| done]. unfold press.
  change (main_interrupt_handler env K (mkFrame regs (PIC1_OFFSET + IRQ_KEYBOARD) stack)) with
    (c ← keyboard_isr (k_console K); Ret (set_console K c)). by rewrite E.
Qed.

(** A key and the rounds up to the next one. *)
Lemma wp_key K l ks code codes n (Q : unit -> Kernel B D -> Prop) : typing K l ks (code :: codes) -> is_byte code -> arrow code = false ->
  10 ∉ snd (key_press ks code) -> (length (foldl edit l (snd (key_press ks code))) <= 255)%nat ->
  (forall K', typing K' (foldl edit l (snd (key_press ks code))) (fst (key_press ks code)) codes -> kept K K' -> Q tt K') ->
  wp (key_then fuel n) K Q.
Proof using Hg Hfuel.
  intros Ht Hcode Ha Hnl Hfit HQ.
  destruct (press_spec K l ks code codes Ht Hcode Ha) as (c & E & Hm & Hf & Ho & Hkeys & Hi & Hw & Hkb & Hout).
  apply wp_bind, (press_wp K c); [done |]. cbn [rounds]. pose proof Ht as [_ _ Hl _ _ _ _].
  assert (line_at g (set_console K c) l) as Hl1 by (eapply line_only; [reflexivity | reflexivity | exact Ho | done | done]).
  rewrite Hout in *. apply wp_bind, (wp_poll (set_console K c) l); cbn [set_console k_console]; [done | done | lia | | |].
  - intros Ec. rewrite Ec in Hnl. by apply Hnl, list_elem_of_here.
  - intros Hne. destruct (Z.eqb_spec (keyboard_buffer (kb c)) 0); [done | exact Hfit].
  - intros K1 (Ef & Efb & Ep & Ek & Hb) Ho1 Hl1'. cbn [set_console k_console k_fs] in *.
    apply (wp_idle n K1 (foldl edit l (if keyboard_buffer (kb c) =? 0 then [] else [keyboard_buffer (kb c)])) (fst (key_press ks code)) codes).
    + split; [done | by rewrite Efb | by destruct (_ =? 0) | by rewrite Ek | by rewrite Ek | by rewrite Ek | by rewrite Ep].
    + intros K2 Ht2 Hk2. apply HQ; [done |]. eapply kept_trans; [| exact Hk2]. split; [done |].
      eapply only_mono; [| eapply only_trans; [exact Ho | exact Ho1]]. by apply covers_sub.
Qed.

(** A run of keys none of which is Enter. *)
Lemma wp_keys codes : forall ns K l ks rest (Q : unit -> Kernel B D -> Prop), typing K l ks (codes ++ rest) ->
  Forall (fun code => is_byte code /\ arrow code = false) codes -> length ns = length codes ->
  10 ∉ snd (key_presses ks codes) -> (length l + length (snd (key_presses ks codes)) <= 255)%nat ->
  (forall K', typing K' (foldl edit l (snd (key_presses ks codes))) (fst (key_presses ks codes)) rest -> kept K K' -> Q tt K') ->
  wp (session fuel ns) K Q.
Proof using Hg Hfuel.
  induction codes as [|code codes IH]; intros [|n ns] K l ks rest Q Ht Hcodes Hns Hnl Hfit HQ; try done; cbn [session].
  { apply wp_skip, HQ; [done | apply kept_refl]. }
  apply Forall_cons in Hcodes as [[Hcode Ha] Hcodes]. cbn [key_presses app] in *.
  destruct (key_press ks code) as [ks1 out] eqn:E1. destruct (key_presses ks1 codes) as [ks2 out'] eqn:E2. cbn [fst snd] in *.
  rewrite length_app in Hfit. apply not_elem_of_app in Hnl as [Hnl1 Hnl2]. pose proof (edit_run_length out l) as Hlen.
  apply wp_bind, (wp_key K l ks code (codes ++ rest)); rewrite ?E1; cbn [fst snd]; [done | done | done | done | lia |].
  intros K1 Ht1 Hk1. apply (IH ns K1 (foldl edit l out) ks1 rest); rewrite ?E2; cbn [fst snd]; [done | done | by injection Hns | done | lia |].
  rewrite <- foldl_app. intros K2 Ht2 Hk2. apply HQ; [done | by eapply kept_trans].
Qed.

(** ** Enter *)

(** The shell has taken the line and is about to look for the command. *)
Record entered (K K' : Kernel B D) (l : list Z) (rest : list Z) : Prop := {
  en_fs : k_fs K' = k_fs K;
  en_ok : console_ok K';
  en_only : only g (typing_changes ++ [RLine; REntered]) (k_memory K) (k_memory K');
  en_code : load_bytes (k_memory K') (retcode g) 4 = le_encode 4 0;
  en_rest : waiting (ports (k_console K')) = rest;
  en_polled : keyboard_buffer (kb (k_console K')) = 0;
  en_line : load_bytes (k_memory K') (Shell.buf g) 256 = filled 256 l;
  en_chars : (length l <= 255)%nat /\ Forall (fun c => 0 < c < 256) l;
  en_clean : load_bytes (k_memory K') (temp_buf g) 256 = replicate 256 0;
}.

(** What a command may rely on. *)
Record line_taken (K : Kernel B D) (l : list Z) (rest : list Z) : Prop := {
  lt_ok : console_ok K;
  lt_code : small_code g K;
  lt_keys : keyboard_buffer (kb (k_console K)) = 0 /\ waiting (ports (k_console K)) = rest;
  lt_line : cstring (k_memory K) (Shell.buf g) l;
  lt_chars : (length l <= 255)%nat /\ Forall (fun c => 0 < c < 256) l;
  lt_clean : temp_clean g K;
}.

Lemma entered_taken K K' l rest : entered K K' l rest -> line_taken K' l rest.
Proof using Hg.
  clear Hfuel fuel. intros [_ Hk _ Hcode Hrest Hkb Hline [Hlen Hchars] Hclean]. pose proof (line_space g Hg) as [_ [Hb0 Hb1]]. split; try done.
  - exists 0. split; [lia | done].
  - apply (filled_string _ _ 256); [done | lia | split; lia | done].
Qed.

(** What the main loop does with a line. *)
Definition run_line : Sh (Kernel B D) unit :=
  choose g (commands g fuel) (unknown_command g);; next_prompt g;; put32 (retcode g) (-1);; put8 (is_entered g) 0.

Lemma wp_enter K l ks rest n (Q : unit -> Kernel B D -> Prop) : typing K l ks (0x1c :: rest) -> k_on ks = true ->
  (forall K', entered K K' l rest -> wp run_line K' (fun _ K2 => wp (rounds g fuel n) K2 Q)) ->
  wp (key_then fuel n) K Q.
Proof using Hg Hfuel.
  intros Ht Hon HQ. pose proof Ht as [Hm Hf Hl Hks Hi Hk Hw]. pose proof (Hw Hon) as Hwait.
  destruct (press_spec K l ks 0x1c rest Ht) as (c & E & Hm1 & Hf1 & Ho1 & _ & _ & _ & _ & _); [unfold is_byte; lia | done |].
  destruct (waiting_in _ _ _ Hwait) as (b & Hin & _).
  assert (keyboard_input_on (kb (k_console K)) = true) as Hon' by (by rewrite <- Hks in Hon).
  destruct (keyboard_isr_enter (k_console K) c b Hon' Hf Hm Hin E) as [Hcur Hkb].
  destruct (keyboard_isr_on (k_console K) 0x1c rest Hwait ltac:(lia) Hon' Hi) as (c' & E' & Hw' & _). rewrite E in E'. injection E' as <-.
  apply wp_bind, (press_wp K c); [done |]. cbn [rounds]. apply wp_bind. unfold loop_body, read_key. apply wp_bind, wp_bind.
  apply wp_user_input; cbn [set_console k_console]; [done | rewrite Hkb; lia |]. rewrite Hkb. intros m Hmb Ho2 Ech Erc.
  apply wp_bind, (wp_input_code _ m 10); [done |]. cbn [Z.eqb Z.opp].
  assert (only g [RScreen; RChar; RRetcode] (k_memory K) m) as Ho12 by (apply (only_trans g [RScreen] [RChar; RRetcode] _ (video c)); [exact Ho1 | exact Ho2]).
  set (K1 := set_memory _ m). assert (line_at g K1 l) as Hl1 by (eapply line_only; [reflexivity | reflexivity | exact Ho12 | done | done]).
  apply wp_bind, (@wp_edit_enter _ _ typing_frame g Hg fuel Hfuel K1 l); [done | done | exact Ech |].
  intros K2 Hst2 Eb Et Ee. apply wp_bind, (wp_get8_glob g REntered K2 1); [done | done |]. cbn [Z.eqb negb]. apply wp_ret. cbn [when].
  apply HQ. pose proof Hst2 as (Hb2 & Hs2 & Ho3 & _). cbn [os_same os_ok typing_frame kernel_frame] in Hb2, Hs2.
  unfold same_but_memory in Hs2. destruct Hl as [_ Hlen Hchars _ _]. split; try done; try (rewrite Hs2; done).
  - eapply only_mono; [| eapply only_trans; [exact Ho12 | exact Ho3]]. by apply covers_sub.
  - etrans; [| exact Erc]. apply (only_inside g Hg [RLine; RChar; RTemp; REntered] m _ RRetcode); [exact Ho3 | done | by apply inside_place].
Qed.
(** ** The prompt *)

(** The shell waits for a line at [pos] of the tree [T]. *)
Record prompting (K : Kernel B D) (T : gmap Z (gmap key node)) (pos : position) (codes : list Z) : Prop := {
  pr_typing : typing K [] (mkKeys true false false false 0) codes;
  pr_tree : tree_ok K T;
  pr_known : known T pos;
  pr_pos : pos_ok K pos;
  pr_placed : placed g K pos;
}.

Lemma wp_activate K (Q : unit -> Kernel B D -> Prop) : Q tt (set_console K (keyboard_state_activate (k_console K))) ->
  wp activate_keyboard K Q.
Proof. intros HQ. eexists tt, _. split; [| exact HQ]. reflexivity. Qed.

(** The end of a round: a prompt on a clean line. *)
Lemma wp_next_prompt K (Q : unit -> Kernel B D -> Prop) : console_ok K -> keyboard_buffer (kb (k_console K)) = 0 -> temp_clean g K ->
  (forall K', same_files K K' -> only g [RLine; RScreen; RRetcode; REntered] (k_memory K) (k_memory K') -> cursor_ok (fb (k_console K')) ->
     typing K' [] (mkKeys true false false false 0) (waiting (ports (k_console K))) -> Q tt K') ->
  wp (next_prompt g;; put32 (retcode g) (-1);; put8 (is_entered g) 0) K Q.
Proof using All.
  intros Hk Hkb Ht HQ. pose proof (step_ok g) as Hok. pose proof (region_space g Hg RLine) as Hls. cbn [place region_size] in Hls.
  unfold next_prompt, command. apply wp_bind, wp_bind.
  apply (wp_fill g Hg K _ 0 256 RLine); [done | unfold inside; cbn; lia | done |]. intros K1 Hst1 Hp1. apply wp_bind, wp_bind.
  apply (wp_puts g); [by eapply Hok | lia |]. intros K2 Hst2. apply wp_bind, (wp_puts g); [by eapply Hok | lia |]. intros K3 Hst3.
  apply (wp_puts g); [by eapply Hok | lia |]. intros K4 Hst4.
  assert (step g [RScreen] K1 K4) as H14 by chain.
  assert (step g [RLine; RScreen] K K4) as H04 by (eapply step_snoc; [by eapply step_mono, Hst1; apply covers_sub | exact H14 | done]). pose proof H04 as ([Hm4 Hc4] & ([Ef4 Ed4] & Ekb4 & Ew4) & Ho4 & _).
  apply wp_activate. set (K5 := set_console K4 _). assert (os_ok K5) as Hk5 by by split.
  apply wp_bind, (@wp_put32 _ _ typing_frame g Hg RRetcode K5); [done | done | done |]. intros K6 Hst6 E6.
  apply (@wp_put8_glob _ _ typing_frame g Hg REntered K6); [done | done | by apply Hst6 |]. intros K7 Hst7 E7.
  destruct Hst6 as (Hm6 & Hs6 & Ho6 & _). destruct Hst7 as (Hm7 & Hs7 & Ho7 & _). cbn [os_same os_ok typing_frame kernel_frame] in *.
  unfold same_but_memory in *. assert (only g [RRetcode; REntered] (k_memory K5) (k_memory K7)) as Ho57.
  { apply (only_trans g [RRetcode] [REntered] _ (k_memory K6)); done. }
  assert (only g [RLine; RScreen; RRetcode; REntered] (k_memory K) (k_memory K7)) as Ho07.
  { apply (only_trans g [RLine; RScreen] [RRetcode; REntered] _ (k_memory K4)); [exact Ho4 | exact Ho57]. }
  assert (Forall (fun P : Prop => P) [k_fs K7 = k_fs K4; fb (k_console K7) = fb (k_console K5);
    kb (k_console K7) = kb (k_console K5); ports (k_console K7) = ports (k_console K5)]) as HF.
  { rewrite Hs7, Hs6. repeat constructor. }
  apply Forall_cons in HF as [Ef7 HF]. apply Forall_cons in HF as [Efb7 HF]. apply Forall_cons in HF as [Ekb7 HF]. apply Forall_cons in HF as [Ep7 _].
  assert (waiting (ports (k_console K7)) = waiting (ports (k_console K))) as Ew7.
  { rewrite Ep7, <- Ew4. apply set_cursor_waiting. }
  assert (cursor_ok (fb (k_console K7))) as Hc7 by (rewrite Efb7; exact Hc4).
  assert (keyboard_buffer (kb (k_console K7)) = 0) as Ekb0 by (rewrite Ekb7; cbn; congruence).
  apply HQ; [| exact Ho07 | exact Hc7 |].
  { split_and!; [by rewrite Ef7 | by rewrite Ef7 | congruence | done]. }
  split; [done | | | by rewrite Ekb7 | by rewrite Ekb7 | done | done].
  { destruct Hc7 as [? ?]. split; [done | unfold MAX_COLUMN in *; lia]. }
  split; [| cbn; lia | done | | exact E7].
  - rewrite (only_inside g Hg _ _ _ RTemp _ _ Ho07); [exact Ht | done | unfold inside; cbn; lia].
  - rewrite (only_inside g Hg _ _ _ RLine _ _ Ho57); [| done | unfold inside; cbn; lia].
    change (k_memory K5) with (os_mem K4).
    rewrite (step_inside g Hg _ _ _ RLine _ _ H14); [| done | unfold inside; cbn; lia]. destruct Hls. apply (patched_at Hp1). split; cbn; lia.
Qed.
(** ** A command of directories, typed *)

Lemma wp_session_snoc n ns : forall K (Q : unit -> Kernel B D -> Prop),
  wp (session fuel ns) K (fun _ K' => wp (key_then fuel n) K' Q) -> wp (session fuel (ns ++ [n])) K Q.
Proof.
  induction ns as [|n' ns IH]; intros K Q HQ; cbn [session app].
  - destruct HQ as ([] & K' & E & HQ). injection E as ->. apply wp_bind. eapply wp_mono; [exact HQ |]. intros [] K2 HQ2. by apply wp_skip.
  - destruct HQ as ([] & K' & E & HQ). apply wp_bind. cbn [session] in E. unfold mbind, sh_bind in E.
    destruct (key_then fuel n' K) as [[[] K1]| |] eqn:E1; [| done | done]. exists tt, K1. split; [done |]. apply IH. by exists tt, K'.
Qed.

(** A line that begins with "cd ". *)
Lemma wp_run_cd K T pos path rest (Q : unit -> Kernel B D -> Prop) :
  line_taken K (bytes_of "cd " ++ path) rest -> tree_ok K T -> known T pos -> pos_ok K pos -> placed g K pos ->
  10 ∉ path -> Forall name_ok (components path) ->
  (length (prompt pos) + length path + 1 <= 255)%nat ->
  (forall K2, same_files K K2 -> prompting K2 T (foldl (walk T) pos (components path)) rest -> Q tt K2) -> wp run_line K Q.
Proof using All.
  intros [Hk Hcode [Hkb Hrest] Hstr _ Hclean] HT Hkn Hpos Hpl Hnl Hnames Hfit HQ. pose proof (prompt_length pos) as Hp1.
  unfold run_line. apply wp_bind, (@wp_choose _ the_os g _ _ _ K Hstr); [by_compute |]. cbn -[cd_cmd].
  assert (cstring (k_memory K) (Shell.buf g + 3) path) as Harg by (apply (cstring_drop Hstr 3); cbn; lia).
  apply (wp_cd_cmd g Hg fuel Hfuel K path pos T); [| done | done | done | done |].
  { split; [done | by apply at_pos_placed | done | done]. }
  intros K3 Hst3 [Hk3 Hat3 HT3 Hkn3]. pose proof (step_same g _ _ _ Hst3) as Hs3. pose proof Hs3 as (_ & Ekb3 & Ew3).
  pose proof (walk_path_prompt T (components path) pos) as Hpp. rewrite components_length in Hpp.
  apply wp_next_prompt; [done | congruence | |].
  { destruct Hst3 as (_ & _ & Ho3 & _). by apply (only_clean g Hg _ _ _ Ho3). }
  intros K4 Hs4 Ho4 _ Ht4. apply HQ; [exact (transitivity (R := os_same) Hs3 Hs4) |]. split.
  - by rewrite Ew3, Hrest in Ht4.
  - eapply same_tree; [exact Hs4 | done].
  - done.
  - eapply same_pos; [exact Hs4 | apply Hat3].
  - eapply placed_only; [exact Ho4 | done |]. apply placed_at_pos; [lia | done].
Qed.
(** A whole line: keys that spell it, and Enter. *)
Definition spells (codes l : list Z) : Prop := let typed := key_presses (mkKeys true false false false 0) codes in
  Forall (fun code => is_byte code /\ arrow code = false) codes /\ k_on (fst typed) = true /\ 10 ∉ snd typed /\
  (length (snd typed) <= 255)%nat /\ foldl edit [] (snd typed) = l.

Lemma spells_no_newline codes l : spells codes l -> 10 ∉ l.
Proof.
  intros (_ & _ & Hnl & _ & <-) Hin. destruct (edit_sub _ [] 10 Hin) as [Hx|Hx]; [by apply not_elem_of_nil in Hx | by apply Hnl].
Qed.

Lemma wp_line K codes l rest ns n (Q : unit -> Kernel B D -> Prop) :
  typing K [] (mkKeys true false false false 0) (codes ++ 0x1c :: rest) -> spells codes l -> length ns = length codes ->
  (forall K1, entered K K1 l rest -> wp run_line K1 (fun _ K2 => typing K2 [] (mkKeys true false false false 0) rest /\
     forall K3, typing K3 [] (mkKeys true false false false 0) rest -> kept K2 K3 -> Q tt K3)) ->
  wp (session fuel (ns ++ [n])) K Q.
Proof using All.
  intros Ht (Hcodes & Hon & Hnl & Hlen & Hline) Hns HQ.
  apply wp_session_snoc, (wp_keys codes ns K [] (mkKeys true false false false 0) (0x1c :: rest)); [done .. |].
  intros K1 Ht1 [Ef1 Ho1]. rewrite Hline in Ht1. apply (wp_enter K1 _ _ rest n _ Ht1 Hon). intros K2 [Ef2 Hk2 Ho2 ? ? ? ? ? ?].
  assert (entered K K2 l rest) as Hent.
  { split; [congruence | done | | done ..]. eapply (only_mono g (typing_changes ++ typing_changes ++ [RLine; REntered])); [by apply covers_sub |].
    eapply only_trans; [exact Ho1 | exact Ho2]. }
  eapply wp_mono; [exact (HQ K2 Hent) |]. intros [] K3 [Ht3 HQ3].
  apply (wp_idle n K3 [] (mkKeys true false false false 0) rest); [done | exact HQ3].
Qed.

(** C12: The line editor of the shell on the kernel's keyboard: whatever keys are
    pressed (modifiers, releases, Backspace, Ctrl-C, but no arrows and not yet
    Enter; at most 255 characters in the line), and however often, once at least, the
    main loop polls after each, the line holds the
    characters the keyboard delivers with each backspace taking one away, nothing
    is lost or doubled, the file system is untouched, and only the line, the
    character, the return code and the screen change in memory. *)
Theorem typed_line_is_edited K l ks codes rest ns : typing K l ks (codes ++ rest) ->
  Forall (fun code => is_byte code /\ arrow code = false) codes -> length ns = length codes ->
  10 ∉ snd (key_presses ks codes) -> (length l + length (snd (key_presses ks codes)) <= 255)%nat ->
  exists K', session fuel ns K = Ret (tt, K') /\
    typing K' (foldl edit l (snd (key_presses ks codes))) (fst (key_presses ks codes)) rest /\
    k_fs K' = k_fs K /\ only g typing_changes (k_memory K) (k_memory K').
Proof using Hg Hfuel.
  intros Ht Hcodes Hns Hnl Hfit.
  enough (wp (session fuel ns) K (fun _ K' => typing K' (foldl edit l (snd (key_presses ks codes))) (fst (key_presses ks codes)) rest /\
    kept K K')) as ([] & K' & E & HQ & [? ?]) by by exists K'.
  apply (wp_keys codes ns K l ks rest); [done .. |]. by split.
Qed.

(** From the keyboard to the directory tree: when the shell waits at its prompt
    and keys are pressed that spell, after editing, "cd" and a path, then Enter, the
    keyboard interrupts, the polls, the line editor, the dispatcher, the command
    with its system calls and the new prompt all return, and the shell waits at its
    prompt again, at the place the path leads to, with an empty line, the keyboard
    on, and the disk as it was. *)
Theorem typed_cd_moves_the_shell K T pos codes rest path ns n : prompting K T pos (codes ++ 0x1c :: rest) ->
  let typed := key_presses (mkKeys true false false false 0) codes in
  Forall (fun code => is_byte code /\ arrow code = false) codes -> length ns = length codes ->
  k_on (fst typed) = true -> 10 ∉ snd typed -> (length (snd typed) <= 255)%nat ->
  foldl edit [] (snd typed) = bytes_of "cd " ++ path ->
  Forall name_ok (components path) -> (length (prompt pos) + length path + 1 <= 255)%nat ->
  exists K', session fuel (ns ++ [n]) K = Ret (tt, K') /\
    prompting K' T (foldl (walk T) pos (components path)) rest /\ disk (k_fs K') = disk (k_fs K).
Proof using All.
  intros [Ht HT Hkn Hpos Hpl] typed Hcodes Hns Hon Hnl Hlen Hline Hnames Hfit.
  assert (spells codes (bytes_of "cd " ++ path)) as Hsp by by split_and!.
  assert (10 ∉ path) as Hnlp by (intros Hin; apply (spells_no_newline _ _ Hsp), elem_of_app; by right).
  enough (wp (session fuel (ns ++ [n])) K (fun _ K' => prompting K' T (foldl (walk T) pos (components path)) rest /\
    disk (k_fs K') = disk (k_fs K))) as ([] & K' & E & HQ) by by exists K'.
  apply (wp_line K codes _ rest ns n _ Ht Hsp Hns). intros K2 Hent. pose proof Hent as [Ef2 _ Ho2 _ _ _ _ _ _].
  apply (wp_run_cd K2 T pos path rest); [by apply (entered_taken K) | by apply (tree_fs K) | done | by apply (pos_fs K) | | done | done | done |].
  { by eapply placed_only. }
  intros K3 ([_ Ed3] & _) [Ht3 HT3 Hkn3 Hpos3 Hpl3]. split; [done |].
  intros K4 Ht4 [Ef4 Ho4]. split; [split; [done | by apply (tree_fs K3) | done | by apply (pos_fs K3) | by eapply placed_only] | congruence].
Qed.
End Session.
