(* ===== verification/ShellTerminal.v ===== *)
(** * Sessions at the shell

    What somebody at the keyboard sees: line after line, the commands cd, mkdir and
    touch (and lines that are no command) move an abstract shell over the directory
    tree of the whole disk. *)
From Stdlib Require Import String.
From stdpp Require Import gmap.
From S2P Require Import Prelude CString Memory BlockDevice Fat32Types Fat32 Fat32Chain Fat32Facts Fat32Ops Fat32Access Fat32Abs Fat32Refine Fat32Codes Fat32Tree PortIO Framebuffer Keyboard KeyboardProps Process Scheduler Kernel KernelProps IntStr ShellStrings Shell ShellCommands ShellLogic ShellRules ShellDirs ShellFiles ShellEntries ShellKernel ShellInput ShellSession.
#[local] Open Scope Z_scope.

(** ** The abstract shell *)

Inductive line_command : Type :=
  | Cd (path : list Z)
  | Mkdir (n : list Z)
  | Touch (n e : list Z)
  | Unknown (l : list Z).

Definition line_of (c : line_command) : list Z :=
  match c with
  | Cd path => bytes_of "cd " ++ path
  | Mkdir n => bytes_of "mkdir " ++ n
  | Touch n e => bytes_of "touch " ++ n ++ 46 :: e
  | Unknown l => l
  end.

(** The tree, the free clusters and the directory the shell is in. *)
Record shell_view := mkView { v_tree : tree; v_free : Z; v_pos : position }.

(** The directories of a tree as [cd] sees them. *)
Definition contents (T : tree) : gmap Z (gmap key node) := nodes <$> T.

(** The name [touch] stores: behind the typed one and a zero, whatever was there. *)
Definition touched (n tail : list Z) : list Z := take 8 (n ++ 0 :: tail).

Inductive does : line_command -> shell_view -> shell_view -> Prop :=
  | does_cd T n pos path : does (Cd path) (mkView T n pos) (mkView T n (foldl (walk (contents T)) pos (components path)))
  | does_mkdir_nothing v : does (Mkdir []) v v
  | does_mkdir_taken T n pos name f : T !! here pos = Some f -> is_Some (subdir (nodes f) name) ->
      does (Mkdir name) (mkView T n pos) (mkView T n pos)
  | does_mkdir_new T n pos name f c : name <> [] -> T !! here pos = Some f -> subdir (nodes f) name = None -> T !! c = None -> 2 <= c <= 512 - n ->
      does (Mkdir name) (mkView T n pos) (mkView (add_folder T (here pos) (pad8 name, bytes_of "dir") c) (n - 1) pos)
  | does_touch T n pos name e f tail : T !! here pos = Some f -> length tail = (7 - length name)%nat -> Forall is_byte tail ->
      does (Touch name e) (mkView T n pos) (mkView (add_node T (here pos) (touched name tail, e) (File (replicate 2048 0))) (n - 1) pos)
  | does_unknown l v : does (Unknown l) v v.

Inductive does_all : list line_command -> shell_view -> shell_view -> Prop :=
  | does_none v : does_all [] v v
  | does_next c cs v1 v2 v3 : does c v1 v2 -> does_all cs v2 v3 -> does_all (c :: cs) v1 v3.

(** The words of the main loop. *)
Definition words : list string := ["cd"; "ls"; "print"; "mkdir"; "touch"; "echo"; "cat"; "rm"; "find"; "search1"; "search2"; "cp"; "mv"; "ps";
  "exec"; "kill"; "clear"; "help"; "clock"]%string.

(** What has to hold for a line: names of at most eight characters and a prompt that
    fits, room for a directory or a file (which is new whatever its stored name), a
    first word that is no command. *)
Definition fits (v : shell_view) (c : line_command) : Prop :=
  match c with
  | Cd path => Forall name_ok (components path) /\ (length (prompt (v_pos v)) + length path + 1 <= 255)%nat
  | Mkdir n => (length n <= 8)%nat /\ forall f, v_tree v !! here (v_pos v) = Some f -> subdir (nodes f) n = None ->
      (size (nodes f) < 63)%nat /\ 256 < v_free v
  | Touch n e => (length n <= 8)%nat /\ 46 ∉ n /\ length e = 3%nat /\ forall f, v_tree v !! here (v_pos v) = Some f ->
      (size (nodes f) < 63)%nat /\ 0 < v_free v /\ snd (own_key f) <> e /\
      forall tail, length tail = (7 - length n)%nat -> nodes f !! ((touched n tail, e) : key) = None
  | Unknown l => forallb (fun w => negb (is_prefix (bytes_of w) l)) words = true
  end.
Fixpoint fit_all (v : shell_view) (cs : list line_command) : Prop :=
  match cs with [] => True | c :: cs' => fits v c /\ forall v', does c v v' -> fit_all v' cs' end.

(** ** Views of a well-formed tree *)

(** Clusters in one byte, no directory called "dir". *)
Definition small_tree (T : tree) : Prop := forall p f, T !! p = Some f -> p < 256 /\ snd (own_key f) <> bytes_of "dir".

Fixpoint pos_in (T : tree) (pos : position) : Prop :=
  match pos with
  | [] => True
  | (c, n) :: pos' => c <> ROOT_CLUSTER_NUMBER /\ (exists f, T !! c = Some f /\ up f = here pos') /\ name_ok n /\ pos_in T pos'
  end.

Record view_ok (v : shell_view) : Prop := {
  vo_small : small_tree (v_tree v);
  vo_pos : pos_in (v_tree v) (v_pos v);
}.

Lemma contents_lookup T p M : contents T !! p = Some M <-> exists f, T !! p = Some f /\ nodes f = M.
Proof.
  unfold contents. rewrite lookup_fmap. destruct (T !! p) as [f|]; cbn.
  - split; [intros [= <-]; by exists f | by intros (? & [= <-] & ->)].
  - split; [done | by intros (? & ? & _)].
Qed.

Lemma walk_in T pos n : tree_wf T -> pos_in T pos -> name_ok n -> pos_in T (walk (contents T) pos n).
Proof.
  intros (_ & _ & Hsub) Hpos Hn. unfold walk. destruct (decide (n = dots)).
  { destruct pos as [|[c m] pos]; [done | by destruct Hpos as (_ & _ & _ & ?)]. }
  destruct (contents T !! here pos) as [M|] eqn:EM; [| done]. apply contents_lookup in EM as (f & Hf & <-). cbn [mbind option_bind].
  destruct (subdir (nodes f) n) as [[|c]|] eqn:Ec; [done | | done].
  destruct (Hsub _ f _ c Hf Ec) as (Hc & f' & Hf' & _ & Hup). split_and!; [done | by exists f' | done | done].
Qed.

Lemma walk_path_in T ns : tree_wf T -> forall pos, pos_in T pos -> Forall name_ok ns -> pos_in T (foldl (walk (contents T)) pos ns).
Proof.
  intros HT. induction ns as [|n ns IH]; intros pos Hpos Hns; [done |]. apply Forall_cons in Hns as [Hn Hns]. apply IH; [by apply walk_in | done].
Qed.

Lemma pos_here T pos : tree_wf T -> pos_in T pos -> is_Some (T !! here pos).
Proof. intros (Hroot & _) Hpos. destruct pos as [|[c n] pos]; [done |]. destruct Hpos as (_ & (f & Hf & _) & _). by exists f. Qed.

(** New entries leave the directories where they are. *)
Definition keeps_folders (T T' : tree) : Prop := forall q f, T !! q = Some f -> exists f', T' !! q = Some f' /\ own_key f' = own_key f /\ up f' = up f.

Lemma add_node_keeps T p k nd : keeps_folders T (add_node T p k nd).
Proof.
  intros q f Hq. unfold add_node. destruct (decide (q = p)) as [->|Hne].
  - rewrite lookup_alter_eq, Hq. by eexists.
  - rewrite lookup_alter_ne, Hq by done. by eexists.
Qed.

Lemma add_folder_keeps T p k c : T !! c = None -> keeps_folders T (add_folder T p k c).
Proof. intros Hc q f Hq. unfold add_folder. rewrite lookup_insert_ne by congruence. by apply add_node_keeps. Qed.

Lemma add_node_inv T p k nd q f : add_node T p k nd !! q = Some f -> exists f', T !! q = Some f' /\ own_key f = own_key f'.
Proof.
  unfold add_node. destruct (decide (q = p)) as [->|Hqp].
  - rewrite lookup_alter_eq. destruct (T !! p) as [f'|]; [| done]. intros [= <-]. by exists f'.
  - rewrite lookup_alter_ne by done. by exists f.
Qed.

Lemma pos_in_keeps T T' pos : keeps_folders T T' -> pos_in T pos -> pos_in T' pos.
Proof.
  intros HT. induction pos as [|[d n] pos IH]; [done |]. intros (Hd & (f & Hf & Hup) & Hn & Hpos). split_and!; [done | | done | by apply IH].
  destruct (HT d f Hf) as (f' & Hf' & _ & Hup'). exists f'. split; [done | congruence].
Qed.

Lemma does_view_ok c v v' : does c v v' -> tree_wf (v_tree v) -> fits v c -> view_ok v -> view_ok v'.
Proof.
  intros Hdoes HT Hfit [Hs Hp].
  destruct Hdoes as [T n pos path | | | T n pos name f c Hne Hf Hsub Hc Hcr | T n pos name e f tail Hf Hlt Hbt |];
    cbn [v_tree v_pos v_free fits] in *; try by split.
  - destruct Hfit as [Hnames _]. split; [done | by apply walk_path_in].
  - destruct Hfit as [_ Hroom]. destruct (Hroom f Hf Hsub) as [_ Hfree]. split; [| by eapply pos_in_keeps, Hp; apply add_folder_keeps].
    unfold add_folder. cbn [v_tree]. intros q fq [[-> <-]|[_ Hq]]%lookup_insert_Some; [split; [lia | done] |]. apply add_node_inv in Hq as (f' & Hq & ->). by apply (Hs q).
  - split; [| eapply pos_in_keeps, Hp; apply add_node_keeps]. cbn [v_tree]. intros q fq (f' & Hq & ->)%add_node_inv. by apply (Hs q).
Qed.

(** ** Views of a machine *)

Section Views.
Context {K : Type} `{OsSpec K}.

Lemma view_tree_ok s T : os_tree s T -> small_tree T -> tree_ok s (contents T).
Proof using Type.
  intros HT Hs. destruct (tree_shaped s T HT) as ([fr Hroot] & Hrange & Hsub). split.
  { exists (nodes fr). apply contents_lookup. by exists fr. }
  intros p M (f & Hf & <-)%contents_lookup. exists (own_key f). split_and!; [by apply (tree_dir s T) | by apply (Hs p) |].
  intros n c Hn. destruct (Hsub p f _ c Hf Hn) as (Hc & f' & Hf' & _ & <-). pose proof (Hrange c f' Hf'). destruct (Hs c f' Hf').
  split_and!; [done | lia | lia | by apply (tree_parent s T) |]. exists (nodes f'). apply contents_lookup. by exists f'.
Qed.

Lemma view_pos_ok s T pos : os_tree s T -> small_tree T -> pos_in T pos -> pos_ok s pos /\ known (contents T) pos.
Proof using Type.
  intros HT Hs. destruct (tree_shaped s T HT) as (_ & Hrange & _). unfold known.
  induction pos as [|[c n] pos IH]; [done |]. intros (Hc & (f & Hf & Hup) & Hn & Hpos). destruct (IH Hpos) as [Hok Hkn].
  pose proof (Hrange c f Hf). destruct (Hs c f Hf). split.
  - cbn. rewrite <- Hup. split_and!; [done | lia | lia | by apply (tree_parent s T) | done | rewrite ?Hup; done].
  - apply Forall_cons. split; [| done]. exists (nodes f). apply contents_lookup. by exists f.
Qed.
End Views.

Section Terminal.
Context {B D : Type} `{KeyboardDevice B} `{BlockDeviceSpec D} (env : Environment) (regs : CPURegister) (stack : InterruptStack).
Context (g : Layout) (Hg : layout_ok g).

#[local] Instance term_os : Os (Kernel B D) := kernel_os env regs stack.
#[local] Instance term_spec : OsSpec (Kernel B D) := kernel_os_spec env regs stack.

Abbreviation fresh_keys := (mkKeys true false false false 0).

(** The shell waits for a line and shows the view [v]. *)
Record at_prompt (K : Kernel B D) (v : shell_view) (codes : list Z) : Prop := {
  at_typing : typing env regs stack g K [] fresh_keys codes;
  at_tree : os_tree K (v_tree v);
  at_free : os_free K = v_free v;
  at_view : view_ok v;
  at_place : placed g K (v_pos v);
}.

(** Only the file system and the shell's globals matter. *)
Lemma at_prompt_same K K' v codes l : k_fs K' = k_fs K -> only g l (k_memory K) (k_memory K') ->
  forallb (fun x => fresh x l) [RCwd; RDirLen; RDir] = true -> typing env regs stack g K' [] fresh_keys codes ->
  os_tree K (v_tree v) -> os_free K = v_free v -> view_ok v -> placed g K (v_pos v) -> at_prompt K' v codes.
Proof using Hg.
  intros E Ho Hf Ht HT Hfree Hv Hpl. split; [done | | | done | by eapply placed_only].
  - change (tree_rep (k_fs K') (v_tree v)). rewrite E. exact HT.
  - change (cluster_available (fat_of (k_fs K')) = v_free v). rewrite E. exact Hfree.
Qed.

Context (fuel : nat) (Hfuel : (256 < fuel)%nat).

(** The prompt after a command. *)
Lemma wp_back K v (Q : unit -> Kernel B D -> Prop) : console_ok K -> keyboard_buffer (kb (k_console K)) = 0 -> temp_clean g K ->
  os_tree K (v_tree v) -> os_free K = v_free v -> view_ok v -> placed g K (v_pos v) ->
  (forall K', at_prompt K' v (waiting (ports (k_console K))) -> Q tt K') ->
  wp (next_prompt g;; put32 (retcode g) (-1);; put8 (is_entered g) 0) K Q.
Proof using All.
  intros Hk Hkb Ht HT Hfree Hv Hpl HQ. apply (wp_next_prompt env regs stack g Hg fuel Hfuel); [done .. |].
  intros K' Hsame Ho _ Hty. apply HQ. split; [exact Hty | | | done | by eapply placed_only].
  - eapply same_whole; [exact Hsame | done].
  - rewrite <- Hfree. apply same_free. exact Hsame.
Qed.

(** ** One line *)

(** The shell has taken a line in the view [v]. *)
Record taken (K : Kernel B D) (v : shell_view) (l rest : list Z) : Prop := {
  tk_line : line_taken env regs stack g K l rest;
  tk_tree : os_tree K (v_tree v);
  tk_free : os_free K = v_free v;
  tk_view : view_ok v;
  tk_place : placed g K (v_pos v);
}.

Lemma entered_view K K' v codes l rest : at_prompt K v codes -> entered g K K' l rest -> taken K' v l rest.
Proof using Hg.
  intros [_ HT Hfree Hv Hpl] Hent. pose proof Hent as [Ef _ Ho _ _ _ _ _ _]. split; [by apply (entered_taken env regs stack g Hg K) | | | done | by eapply placed_only].
  - change (tree_rep (k_fs K') (v_tree v)). rewrite Ef. exact HT.
  - change (cluster_available (fat_of (k_fs K')) = v_free v). rewrite Ef. exact Hfree.
Qed.

(** Between a line and the prompt: what a command that keeps the view leaves. *)
Lemma taken_back K K' v l rest changes (Q : unit -> Kernel B D -> Prop) : taken K v l rest -> step g changes K K' ->
  forallb (fun x => fresh x changes) [RCwd; RDirLen; RDir; RTemp] = true -> (forall K2, at_prompt K2 v rest -> Q tt K2) ->
  wp (next_prompt g;; put32 (retcode g) (-1);; put8 (is_entered g) 0) K' Q.
Proof using All.
  intros [[_ _ [Hkb <-] _ _ Hclean] HT Hfree Hv Hpl] Hst Hf HQ. cbn [forallb] in Hf. rewrite !andb_true_iff in Hf. destruct Hf as (F1 & F2 & F3 & F4 & _).
  pose proof (step_same g _ _ _ Hst) as Hsame. pose proof Hst as (Hk & _ & Ho & _). pose proof (same_input K K' Hsame) as Ei. injection Ei as Ekb Ew.
  rewrite <- Ew in HQ. apply (wp_back K' v Q); [done | congruence | by eapply only_clean | by eapply same_whole | | done | | done].
  - rewrite <- Hfree. by apply same_free.
  - apply (placed_only env regs stack g Hg changes K K'); [exact Ho | | done]. cbn [forallb]. by rewrite F1, F2, F3.
Qed.

Lemma run_line_eq : run_line env regs stack g fuel =
  (choose g (commands g fuel) (unknown_command g);; next_prompt g;; put32 (retcode g) (-1);; put8 (is_entered g) 0).
Proof using Type. reflexivity. Qed.

Lemma wp_run_unknown K v l rest (Q : unit -> Kernel B D -> Prop) : taken K v l rest -> fits v (Unknown l) ->
  (forall K2, at_prompt K2 v rest -> Q tt K2) -> wp (run_line env regs stack g fuel) K Q.
Proof using All.
  intros Ht Hfit HQ. pose proof Ht as [[Hk _ _ Hstr _ _] _ _ _ _]. cbn [fits forallb words] in Hfit. rewrite !andb_true_iff, !negb_true_iff in Hfit.
  rewrite run_line_eq. apply wp_bind, (@wp_choose _ term_os g _ _ _ K Hstr); [by_compute |].
  assert (dispatch (commands g fuel) (unknown_command g) l = unknown_command g) as ->.
  { unfold commands. cbn [dispatch]. repeat (let E := fresh in destruct Hfit as [E Hfit]; rewrite E; clear E). done. }
  unfold unknown_command, say. apply (wp_puts g); [exact Hk | by_compute |]. intros K1 Hst1. by apply (taken_back K K1 v l rest [RScreen]).
Qed.

Lemma wp_run_cd_view K v path rest (Q : unit -> Kernel B D -> Prop) : taken K v (line_of (Cd path)) rest -> 10 ∉ line_of (Cd path) ->
  fits v (Cd path) ->
  (forall K2, at_prompt K2 (mkView (v_tree v) (v_free v) (foldl (walk (contents (v_tree v))) (v_pos v) (components path))) rest -> Q tt K2) ->
  wp (run_line env regs stack g fuel) K Q.
Proof using All.
  intros [Hline HT Hfree Hv Hpl] Hnl [Hnames Hfit] HQ. pose proof Hv as [Hs Hp].
  destruct (view_pos_ok K _ _ HT Hs Hp) as [Hpos Hkn]. pose proof (tree_shaped K _ HT) as Hwf.
  apply (wp_run_cd env regs stack g Hg fuel Hfuel K (contents (v_tree v)) (v_pos v) path rest);
    [done | by apply view_tree_ok | done | done | done | intros Hin; apply Hnl, elem_of_app; by right | done | done |].
  intros K2 Hsame [Ht2 _ _ _ Hpl2]. apply HQ. split; [done | | | | done].
  - eapply same_whole; [exact Hsame | done].
  - rewrite <- Hfree. by apply same_free.
  - split; [done | by apply walk_path_in].
Qed.

(** An empty name: nothing happens. *)
Lemma wp_no_name K off cmd (Q : unit -> Kernel B D -> Prop) : os_ok K -> cstring (os_mem K) (Shell.buf g + off) [] ->
  (forall K', step g [] K K' -> Q tt K') -> wp (with_argument g fuel off cmd) K Q.
Proof using Hfuel.
  intros Hk Hstr HQ. apply wp_bind, (wp_remove_newline g fuel K _ []); [done | done | by apply not_elem_of_nil | cbn; lia |].
  intros K1 Hst1 Hstr1. apply wp_bind, (wp_strlen fuel K1 _ []); [done | cbn; lia |]. by apply wp_skip, HQ.
Qed.

Lemma mkdir_line_arg m p n : cstring m p (bytes_of "mkdir " ++ n) -> cstring m (p + 6) n.
Proof. intros Hstr. apply (cstring_drop Hstr 6). cbn. lia. Qed.

Lemma wp_run_mkdir K v n rest (Q : unit -> Kernel B D -> Prop) : taken K v (line_of (Mkdir n)) rest -> 10 ∉ line_of (Mkdir n) ->
  fits v (Mkdir n) -> (forall K2 v', does (Mkdir n) v v' -> at_prompt K2 v' rest -> Q tt K2) -> wp (run_line env regs stack g fuel) K Q.
Proof using All.
  intros Ht Hnl [Hlen Hroom] HQ. pose proof Ht as [[Hk Hcode [Hkb Hrest] Hstr [_ Hchars] Hclean] HT Hfree [Hs Hp] Hpl].
  pose proof (mkdir_line_arg _ _ _ Hstr) as Harg. pose proof (tree_shaped K _ HT) as Hwf. destruct (pos_here _ _ Hwf Hp) as [f Hf].
  rewrite run_line_eq. apply wp_bind, (@wp_choose _ term_os g _ _ _ K Hstr); [by_compute |]. cbn -[with_argument mkdir].
  destruct n as [|x n].
  { apply wp_no_name; [done | done |]. intros K1 Hst1. apply (taken_back K K1 v _ rest [] Q Ht Hst1); [done |].
    intros K2 HK2. apply (HQ K2 v); [apply does_mkdir_nothing | done]. }
  apply (wp_mkdir g Hg fuel Hfuel K (v_tree v) (here (v_pos v)) f (x :: n)); [done | done | by destruct Hpl | done | done | by apply (Hs _ f Hf) | | done | | |].
  { split_and!; [done | done | | lia | lia]. unfold line_of in Hchars. by apply Forall_app in Hchars as [_ ?]. }
  { intros Hin. apply Hnl, elem_of_app. by right. }
  { intros Hsub. destruct (Hroom f Hf Hsub). rewrite Hfree. split; [done | lia]. }
  intros K1 Hk1 Ho1 _ Hclean1 Hi1 Hafter. injection Hi1 as Ekb Ew. rewrite <- Hrest, <- Ew in HQ.
  assert (placed g K1 (v_pos v)) as Hpl1 by (by apply (placed_only env regs stack g Hg mkdir_changes K)).
  unfold after_mkdir in Hafter. destruct v as [T free pos]. cbn [v_tree v_free v_pos] in *.
  destruct (subdir (nodes f) (x :: n)) as [nd|] eqn:Esub.
  - apply (wp_back K1 (mkView T free pos)); [done | congruence | by apply Hclean1 | by eapply same_whole | | by split | done |].
    { rewrite <- Hfree. by apply same_free. }
    intros K2 HK2. eapply HQ; [| exact HK2]. apply (does_mkdir_taken _ _ _ _ f); [done | rewrite Esub; by eexists].
  - destruct Hafter as (c & Hc & Hcr & Hf1 & HT1). rewrite Hfree in Hcr, Hf1.
    assert (does (Mkdir (x :: n)) (mkView T free pos) (mkView (add_folder T (here pos) (pad8 (x :: n), bytes_of "dir") c) (free - 1) pos)) as Hdoes
      by (by eapply does_mkdir_new).
    apply (wp_back K1 (mkView (add_folder T (here pos) (pad8 (x :: n), bytes_of "dir") c) (free - 1) pos)); [done | congruence | by apply Hclean1 | done | done | | done |].
    { by eapply does_view_ok. }
    intros K2 HK2. by apply (HQ K2 _ Hdoes).
Qed.

Lemma wp_run_touch K v n e rest (Q : unit -> Kernel B D -> Prop) : taken K v (line_of (Touch n e)) rest -> 10 ∉ line_of (Touch n e) ->
  fits v (Touch n e) -> (forall K2 v', does (Touch n e) v v' -> at_prompt K2 v' rest -> Q tt K2) -> wp (run_line env regs stack g fuel) K Q.
Proof using All.
  intros Ht Hnl (Hlen & Hdot & He & Hroom) HQ. pose proof Ht as [[Hk Hcode [Hkb Hrest] Hstr _ Hclean] HT Hfree [Hs Hp] Hpl].
  pose proof (tree_shaped K _ HT) as Hwf. destruct (pos_here _ _ Hwf Hp) as [f Hf]. destruct (Hroom f Hf) as (Hsz & Hav & Hown & Hnew).
  assert (cstring (k_memory K) (Shell.buf g + 6) (n ++ 46 :: e)) as Harg by (apply (cstring_drop Hstr 6); cbn; lia).
  set (tail := load_bytes (k_memory K) (var g "touch.filename" + Z.of_nat (S (length n))) (7 - length n)).
  assert (length tail = (7 - length n)%nat) as Hlt by apply length_load_bytes.
  assert (Forall is_byte tail) as Hbt by (by apply load_bytes_range, Hk).
  rewrite run_line_eq. apply wp_bind, (@wp_choose _ term_os g _ _ _ K Hstr); [by_compute |]. cbn -[with_argument touch].
  apply (wp_touch g Hg fuel Hfuel K (v_tree v) (here (v_pos v)) f n e); [done | done | by destruct Hpl | done | done | exact Harg | | done | done | done | | |].
  { intros Hin. apply Hnl, elem_of_app. by right. }
  { intros Ek. apply Hown. by rewrite <- Ek. }
  { intros _. rewrite Hfree. by split. }
  intros K1 Hk1 Ho1 Hi1 Hafter. injection Hi1 as Ekb Ew. rewrite <- Hrest, <- Ew in HQ.
  assert (placed g K1 (v_pos v)) as Hpl1 by (by apply (placed_only env regs stack g Hg touch_changes K)).
  change (on_stack (os_mem K) (var g "touch.filename") n) with (touched n tail) in Hafter. unfold after_touch in Hafter. rewrite (Hnew tail Hlt) in Hafter.
  destruct Hafter as (Hcl & Hf1 & HT1). destruct v as [T free pos]. cbn [v_tree v_free v_pos] in *. rewrite Hfree in Hf1.
  pose proof (does_touch T free pos n e f tail Hf Hlt Hbt) as Hdoes.
  apply (wp_back K1 (mkView (add_node T (here pos) (touched n tail, e) (File (replicate 2048 0))) (free - 1) pos)); [done | congruence | by apply Hcl | done | done | | done |].
  { eapply does_view_ok; [exact Hdoes | done | by split_and! | by split]. }
  intros K2 HK2. by apply (HQ K2 _ Hdoes).
Qed.

(** Any line. *)
Lemma wp_run K v c rest (Q : unit -> Kernel B D -> Prop) : taken K v (line_of c) rest -> 10 ∉ line_of c -> fits v c ->
  (forall K2 v', does c v v' -> at_prompt K2 v' rest -> Q tt K2) -> wp (run_line env regs stack g fuel) K Q.
Proof using All.
  intros Ht Hnl Hfit HQ. destruct c as [path | n | n e | l].
  - apply (wp_run_cd_view K v path rest); [done .. |]. intros K2. destruct v as [T n pos]. apply HQ, does_cd.
  - by apply (wp_run_mkdir K v n rest).
  - by apply (wp_run_touch K v n e rest).
  - apply (wp_run_unknown K v l rest); [done .. |]. intros K2. apply HQ, does_unknown.
Qed.

(** ** Line after line *)

(** The scancodes of the lines, each with Enter. *)
Definition all_keys (lines : list (list Z)) : list Z := concat ((fun codes => codes ++ [0x1c]) <$> lines).

Lemma wp_session_app ns ms : forall K (Q : unit -> Kernel B D -> Prop),
  wp (session env regs stack g fuel ns) K (fun _ K' => wp (session env regs stack g fuel ms) K' Q) ->
  wp (session env regs stack g fuel (ns ++ ms)) K Q.
Proof using Type.
  induction ns as [|n ns IH]; intros K Q HQ; cbn [session app].
  - destruct HQ as ([] & K' & E & HQ). injection E as ->. exact HQ.
  - destruct HQ as ([] & K' & E & HQ). apply wp_bind. cbn [session] in E. unfold mbind, sh_bind in E.
    destruct (key_then env regs stack g fuel n K) as [[[] K1]| |] eqn:E1; [| done | done]. exists tt, K1. split; [done |]. apply IH. by exists tt, K'.
Qed.

Lemma wp_lines lines : forall cs ns K v rest (Q : unit -> Kernel B D -> Prop), at_prompt K v (all_keys lines ++ rest) ->
  Forall2 spells lines (line_of <$> cs) -> length ns = length (all_keys lines) -> fit_all v cs ->
  (forall K' v', does_all cs v v' -> at_prompt K' v' rest -> Q tt K') -> wp (session env regs stack g fuel ns) K Q.
Proof using All.
  induction lines as [|codes lines IH]; intros cs ns K v rest Q Hat Hsp Hns Hfit HQ.
  { destruct cs; [| by inversion Hsp]. destruct ns; [| done]. apply wp_skip, (HQ K v); [apply does_none | done]. }
  destruct cs as [|c cs]; [by inversion Hsp |]. apply Forall2_cons in Hsp as [Hc Hsp]. destruct Hfit as [Hfit1 Hfits].
  unfold all_keys in *. cbn [fmap list_fmap concat] in *. rewrite !length_app in Hns. cbn [length] in Hns. rewrite <- !app_assoc in Hat. cbn [app] in Hat.
  destruct (lookup_lt_is_Some_2 ns (length codes) ltac:(lia)) as [n Hn]. rewrite <- (take_drop_middle _ _ _ Hn), cons_middle, app_assoc.
  apply wp_session_app. pose proof (at_typing _ _ _ Hat) as Hty.
  apply (wp_line env regs stack g Hg fuel Hfuel K codes _ _ _ n _ Hty Hc); [rewrite length_take; lia |].
  intros K1 Hent. pose proof (spells_no_newline _ _ Hc) as Hnl. pose proof (entered_view _ _ _ _ _ _ Hat Hent) as Htk.
  apply (wp_run K1 v c _ _ Htk Hnl Hfit1). intros K2 v' Hdoes Hat2. split; [apply Hat2 |]. intros K3 Ht3 [Ef3 Ho3].
  destruct Hat2 as [_ HT2 Hfree2 Hv2 Hpl2].
  apply (IH cs _ K3 v' rest); [by eapply at_prompt_same | done | rewrite length_drop; lia | by apply Hfits |].
  intros K' v'' Hall. apply HQ. by eapply does_next.
Qed.

(** C5: A session at the keyboard: whatever lines are typed (with backspaces, shifts
    and any number of polls, at least one, after each key), "cd" with any path,
    "mkdir" with any name, "touch" with a new name and lines that are no command, as
    long as they fit ([fit_all]: names of at most eight characters, a prompt that fits
    its array, a free entry and free clusters, those of new directories below 256),
    the machine takes all of them and waits at its prompt again, and the directory tree of the whole
    disk, the free clusters and the shell's place are those of the abstract shell
    after these commands. *)
Theorem session_moves_the_shell K v lines cs rest ns : at_prompt K v (all_keys lines ++ rest) ->
  Forall2 spells lines (line_of <$> cs) -> length ns = length (all_keys lines) -> fit_all v cs ->
  exists K' v', session env regs stack g fuel ns K = Ret (tt, K') /\ does_all cs v v' /\ at_prompt K' v' rest.
Proof using All.
  intros Hat Hsp Hns Hfit. enough (wp (session env regs stack g fuel ns) K (fun _ K' => exists v', does_all cs v v' /\ at_prompt K' v' rest))
    as ([] & K' & E & v' & HQ) by (by exists K', v').
  apply (wp_lines lines cs ns K v rest); [done .. |]. intros K' v' Hall Hat'. by exists v'.
Qed.
End Terminal.
