(* ===== verification/ShellStart.v ===== *)
(** * The shell's first instructions (main of src/user-shell.c before its loop)

    From the globals as the program is loaded, over the first read, the banner and
    the clearing of its buffers, to the first prompt; and a whole run of the
    program from there. *)
From Stdlib Require Import String.
From stdpp Require Import gmap.
From S2P Require Import Prelude CString Memory BlockDevice Fat32Types Fat32 Fat32Chain Fat32Facts Fat32Ops Fat32Access Fat32Abs Fat32Refine Fat32Codes Fat32Tree PortIO Framebuffer Keyboard KeyboardProps Process Scheduler Kernel KernelProps IntStr ShellStrings Shell ShellCommands ShellLogic ShellRules ShellDirs ShellFiles ShellEntries ShellKernel ShellInput ShellSession ShellTerminal.
#[local] Open Scope Z_scope.

(** The entry the first read looks for, and the banner's file. *)
Definition shell_entry : key := (bytes_of "shell" ++ replicate 3 0, replicate 3 0).
Definition banner_name : list Z := bytes_of "kaguya".
Definition banner_entry : key := (pad8 banner_name, bytes_of "txt").

Section Banner.
Context {K : Type} `{OsSpec K} (g : Layout) (Hg : layout_ok g) (fuel : nat) (Hfuel : (2048 < fuel)%nat).

(** What [cat] can print: nothing (the file is missing, a directory or longer than a
    cluster), or a file whose cluster holds a NUL somewhere, in the file or behind
    it, as that of any text shorter than a cluster does when it was written from a
    zeroed buffer. *)
Definition printable (s : K) (p : Z) (k : key) (nd : option node) : Prop :=
  read_answer CLUSTER_SIZE nd <> 0 \/
  exists data txt rest, nd = Some (File data) /\ Z.of_nat (length data) <= 2048 /\
    os_stored s p k (txt ++ 0 :: rest) /\ Forall nonzero txt.

Lemma printable_same s s' p k nd : os_same s s' -> printable s p k nd -> printable s' p k nd.
Proof using Type.
  intros Hs [?|(data & txt & rest & Hnd & Hl & Hst & Hnz)]; [by left | right].
  exists data, txt, rest. split_and!; [done | done | by eapply same_stored | done].
Qed.

Definition banner_changes : list region :=
  [RqBuf; RqName; RqExt; RqParent; RqSize; RLine; RBanner; RSpill; RFile; RArg; RRetcode; RScreen].

(** What [cat] says when the file cannot be read. *)
Lemma wp_cat_refusal s code (Q : unit -> K -> Prop) : os_ok s -> glob g RRetcode s = le_encode 4 code -> 0 <= code < 4 -> code <> 0 ->
  (forall s', step g [RScreen] s s' -> Q tt s') ->
  wp (rc ← get_retcode g;
      if rc =? 0 then
        b ← get32 (f_buf (req g)); puts_all fuel b;;
        say g (ln "") 1 0xF
      else if rc =? 1 then say g (ln "Not a file") 11 0x4
      else if rc =? 2 then say g (ln "Not enough buffer") 18 0x4
      else if rc =? -1 then say g (ln "Unknown error -1") 17 0x4
      else say g (ln "Unknown error") 14 0x4) s Q.
Proof using Type.
  clear Hfuel. intros Hs E Hc Hne HQ. apply wp_bind, (wp_retcode g s code); [done | lia |].
  assert (code = 1 \/ code = 2 \/ code = 3) as [->|[->| ->]] by lia; cbn [Z.eqb Pos.eqb]; by apply (wp_puts g).
Qed.

Lemma wp_cat_any s argument x n e p own M (Q : unit -> K -> Prop) : os_ok s -> small_code g s -> x = RLine \/ x = RBanner ->
  inside g argument (S (length (n ++ 46 :: e))) x -> cstring (os_mem s) argument (n ++ 46 :: e) -> (length n <= 8)%nat -> 46 ∉ n -> length e = 3%nat ->
  glob g RCwd s = le_encode 4 p -> 0 <= p < 2 ^ 32 -> os_dir s p own M -> ((pad8 n, e) : key) <> own -> printable s p (pad8 n, e) (M !! ((pad8 n, e) : key)) ->
  (forall s', step g banner_changes s s' -> Q tt s') -> wp (cat g fuel argument) s Q.
Proof using Hg Hfuel.
  intros Hs Hcode Hx Hin Hstr Hl Hn He Hcwd Hp Hd Hown HM HQ. pose proof (step_ok g) as Hok.
  assert (Forall is_byte (n ++ 46 :: e)) as Hby by (eapply cstring_bytes; [by apply os_ok_bytes | exact Hstr]).
  apply Forall_app in Hby as [Hbn Hbe%Forall_inv_tail].
  assert (Forall nonzero e) as Hnz by (destruct Hstr as (_ & _ & Hz); apply Forall_app in Hz as [_ Hz]; by apply Forall_inv_tail in Hz).
  set (r := mkRequest (Shell.buf g) (pad8 n) e p CLUSTER_SIZE).
  assert (request_in r p own) as Hr.
  { apply plain_request_in; [done | unfold pad8; rewrite length_app, length_replicate; lia | | done .. | unfold CLUSTER_SIZE; lia].
    unfold pad8. apply Forall_app. split; [done | by apply Forall_replicate]. }
  pose proof Hr as (Hrok & _ & Hrz & _). assert (256 < fuel)%nat as Hf by lia.
  apply (wp_cat_request g Hg fuel Hf s argument x n e p); [done | done | done | done | done | done | lia | done | done |]. intros s1 H1 Hreq.
  rewrite over_name_full in Hreq by (unfold glob; by rewrite length_load_bytes). fold r in Hreq.
  assert (os_dir s1 p own M) as Hd1 by (eapply same_dir; [by eapply step_same | done]).
  assert (small_code g s1) as Hcode1 by (unfold small_code; by rewind Hg).
  apply (printable_same s s1) in HM; [| by eapply step_same].
  destruct HM as [Hans | (data & txt & rest & HM & Hsz & Hst & Hnt)].
  - apply wp_bind, (wp_read_refused g Hg s1 p own M r); [by eapply Hok | done .. |].
    intros s2 H2 E2. pose proof (read_answer_range CLUSTER_SIZE (M !! ((pad8 n, e) : key))) as Hrange.
    apply (wp_cat_refusal s2 _ _ (Hok _ _ _ H2) E2); [exact Hrange | exact Hans |]. intros s3 H3. apply HQ. unfold banner_changes. chain.
  - pose proof (region_space g Hg RLine) as [Hb0 _]. pose proof (region_space g Hg RSpill) as [_ Hb1]. cbn [place region_size] in Hb0, Hb1.
    pose proof (stored_length s1 p own M _ data _ Hd1 HM Hst Hsz) as Hbl. rewrite length_app in Hbl. cbn [length] in Hbl.
    apply wp_bind, (wp_read_file g Hg s1 p own M r data (txt ++ 0 :: rest)); [by eapply Hok | done .. |].
    intros s2 H2 E2 Hdata. apply wp_bind, (wp_retcode g s2 0); [done | lia |]. cbn [Z.eqb].
    destruct Hreq as (Eb & _). cbn [Fat32Types.buf r] in Eb.
    apply wp_bind, (wp_get32_glob g RqBuf s2 _ (Shell.buf g)); [by rewind Hg | lia | done |].
    assert (cstring (os_mem s2) (Shell.buf g) txt) as Htxt by (apply (prefix_string _ _ _ rest); [exact Hdata | done | split; lia]).
    apply wp_bind, wp_bind, (wp_strlen fuel s2 _ txt); [done | lia |].
    apply (wp_puts g); [by eapply Hok | lia |]. intros s3 H3. apply (wp_puts g); [by eapply Hok | lia |]. intros s4 H4.
    apply HQ. unfold banner_changes. chain.
Qed.

(** ** Up to the prompt *)

(** The request the program is linked with. *)
Definition first_request : FAT32DriverRequest := mkRequest (u32 (cl g)) (fst shell_entry) (snd shell_entry) ROOT_CLUSTER_NUMBER CLUSTER_SIZE.

Definition start_changes : list region := RTemp :: banner_changes.

(** Everything before the keyboard is switched on. *)
Lemma wp_start s own M (Q : unit -> K -> Prop) (rest : Sh K unit) : os_ok s -> small_code g s -> holds_request g s first_request ->
  cstring (os_mem s) (text g "kaguya.txt") (banner_name ++ 46 :: bytes_of "txt") -> glob g RCwd s = le_encode 4 ROOT_CLUSTER_NUMBER ->
  os_dir s ROOT_CLUSTER_NUMBER own M -> shell_entry <> own -> read_answer CLUSTER_SIZE (M !! shell_entry) <> 0 ->
  banner_entry <> own -> printable s ROOT_CLUSTER_NUMBER banner_entry (M !! banner_entry) ->
  (forall s', step g start_changes s s' -> load_bytes (os_mem s') (temp_buf g) 256 = replicate 256 0 ->
     load_bytes (os_mem s') (Shell.buf g) 256 = replicate 256 0 -> wp rest s' Q) ->
  wp (put8 (Shell.buf g + 2000) 0;; read_syscall g (req g);; print_kaguya g fuel;; clear_buf g;; clear_temp_buffer g;; command g;; rest) s Q.
Proof using Hg Hfuel.
  intros Hs Hcode Hreq Hlit Hcwd Hd Hown Hans Hbown HM HQ. pose proof (step_ok g) as Hok.
  assert (inside g (Shell.buf g + 2000) 1 RSpill) as Hin by (unfold inside; cbn; lia).
  apply wp_bind, (wp_put8 g Hg s _ 0 RSpill); [done | done | done |]. intros s1 H1 _.
  assert (request_in first_request ROOT_CLUSTER_NUMBER own) as Hr.
  { refine (conj _ (conj eq_refl (conj _ (conj Hown _)))); [| discriminate | apply u32_range].
    unfold req_ok. split_and!; try done; try by_compute. }
  assert (os_dir s1 ROOT_CLUSTER_NUMBER own M) as Hd1 by (eapply same_dir; [by eapply step_same | done]).
  apply wp_bind, (wp_read_refused g Hg s1 ROOT_CLUSTER_NUMBER own M first_request); [by eapply Hok | done | done | | | exact Hans |].
  { eapply holds_step; [done | exact H1 | done | done]. }
  { unfold small_code. by rewind Hg. }
  intros s2 H2 E2. pose proof (read_answer_range CLUSTER_SIZE (M !! shell_entry)) as Hrange.
  change (read_answer (buffer_size first_request) (M !! req_key first_request)) with (read_answer CLUSTER_SIZE (M !! shell_entry)) in E2.
  assert (step g [RSpill; RArg; RRetcode] s s2) as H02 by chain.
  apply wp_bind, wp_bind.
  apply (wp_cat_any s2 (text g "kaguya.txt") RBanner banner_name (bytes_of "txt") ROOT_CLUSTER_NUMBER own M);
    [by eapply Hok | | by right | unfold inside; cbn; lia | | by_compute | by_compute | done | by rewind Hg | by_compute | | exact Hbown | by eapply printable_same; [by eapply step_same | exact HM] |].
  { eexists. split; [| exact E2]. lia. }
  { eapply (step_cstring g Hg _ s s2 RBanner); [exact H02 | done | unfold inside; cbn; lia | exact Hlit]. }
  { eapply same_dir; [by eapply step_same | done]. }
  intros s3 H3. apply wp_bind, (wp_puts g); [by eapply Hok | lia |]. intros s4 H4. apply wp_bind, (wp_puts g); [by eapply Hok | lia |]. intros s5 H5.
  apply (wp_puts g); [by eapply Hok | lia |]. intros s6 H6.
  apply wp_bind, (wp_fill g Hg s6 _ 0 256 RLine); [by eapply Hok | unfold inside; cbn; lia | done |]. intros s7 H7 Hp7.
  apply wp_bind, (wp_fill g Hg s7 _ 0 256 RTemp); [by eapply Hok | unfold inside; cbn; lia | done |]. intros s8 H8 Hp8.
  apply wp_bind, wp_bind, (wp_puts g); [by eapply Hok | lia |]. intros s9 H9. apply wp_bind, (wp_puts g); [by eapply Hok | lia |]. intros s10 H10.
  apply (wp_puts g); [by eapply Hok | lia |]. intros s11 H11.
  assert (step g [RScreen] s8 s11) as H811 by chain. assert (step g [RTemp; RScreen] s7 s11) as H711 by chain.
  pose proof (region_space g Hg RTemp) as [Ht0 Ht1]. pose proof (region_space g Hg RLine) as [Hb0 Hb1]. cbn [place region_size] in Ht0, Ht1, Hb0, Hb1.
  apply HQ.
  - unfold start_changes, banner_changes in *. chain.
  - rewrite (step_inside g Hg _ _ _ RTemp _ _ H811); [| done | unfold inside; cbn; lia]. apply (patched_at Hp8). rewrite length_replicate. split; lia.
  - rewrite (step_inside g Hg _ _ _ RLine _ _ H711); [| done | unfold inside; cbn; lia]. apply (patched_at Hp7). rewrite length_replicate. split; lia.
Qed.
End Banner.

Section Begin.
Context {B D : Type} `{KeyboardDevice B} `{BlockDeviceSpec D} (env : Environment) (regs : CPURegister) (stack : InterruptStack).
Context (g : Layout) (Hg : layout_ok g).

#[local] Instance begin_os : Os (Kernel B D) := kernel_os env regs stack.
#[local] Instance begin_spec : OsSpec (Kernel B D) := kernel_os_spec env regs stack.

(** ** The globals as loaded *)

Lemma request_run : in_space (request g) REQUEST_SIZE.
Proof using Hg.
  pose proof (region_space g Hg RqBuf) as [Hlo _]. pose proof (region_space g Hg RqSize) as [_ Hhi]. cbn [place region_size] in Hlo, Hhi.
  unfold f_buf, f_size, REQUEST_SIZE in *. split; lia.
Qed.

Lemma fill_only x m : only g [x] m (memset m (place g x) 0 (region_size x)).
Proof using Hg.
  apply (patched_only g _ _ (place g x) (replicate (region_size x) 0)); [exact (patched_memset m _ 0 _ (region_space g Hg x)) |].
  apply inside_place. by rewrite length_replicate.
Qed.
Lemma write_only x m bs : length bs = region_size x -> only g [x] m (store_bytes m (place g x) bs).
Proof using Hg.
  intros Hl. apply (patched_only g _ _ (place g x) bs); [| by apply inside_place]. apply patched_store_bytes. rewrite Hl. apply (region_space g Hg).
Qed.
Lemma byte_only x m v : region_size x = 1%nat -> only g [x] m (store m (place g x) v).
Proof using Hg.
  intros Hl. apply (patched_only g _ _ (place g x) [u8 v]); [| by apply inside_place]. apply patched_store.
  pose proof (region_space g Hg x) as [? ?]. lia.
Qed.

Lemma loaded_bytes_ok m : bytes_ok m -> bytes_ok (load_globals g m).
Proof using Type.
  intros Hm. apply (memset_ok _ (cl g) 0 4096) in Hm.
  apply (store_bytes_bytes_ok _ (request g) (initial_request g)) in Hm;
    [| unfold initial_request; rewrite !Forall_app; split_and!; first [apply le_encode_bytes | by_compute]].
  apply (memset_ok _ (retcode g) 0 4) in Hm. apply (store_bytes_bytes_ok _ (current_dir g) (bytes_of "/" ++ replicate 254 0)) in Hm; [| by_compute].
  apply (memset_ok _ (Shell.buf g) 0 2000) in Hm. apply (memset_ok _ (temp_buf g) 0 2000) in Hm.
  apply (store_bytes_ok _ (cur_char g) 0) in Hm. apply (store_bytes_ok _ (is_entered g) 0) in Hm. apply (store_bytes_ok _ (currentdirlen g) 1) in Hm.
  apply (store_bytes_bytes_ok _ (cwd_cluster_number g) (le_encode 4 ROOT_CLUSTER_NUMBER)) in Hm; [exact Hm | apply le_encode_bytes].
Qed.

(** The globals behind the request. *)
Lemma later_globals m : only g [RDir; RLine; RTemp; RChar; REntered; RDirLen; RCwd]
  (memset (store_bytes (memset m (cl g) 0 4096) (request g) (initial_request g)) (retcode g) 0 4) (load_globals g m).
Proof using Hg.
  unfold load_globals. cbv zeta. set (m2 := memset (store_bytes _ _ _) (retcode g) 0 4). clearbody m2.
  apply (only_trans g [RDir] [RLine; RTemp; RChar; REntered; RDirLen; RCwd] _ _ _ (write_only RDir m2 (bytes_of "/" ++ replicate 254 0) eq_refl)).
  apply (only_trans g [RLine] [RTemp; RChar; REntered; RDirLen; RCwd] _ _ _ (fill_only RLine _)).
  apply (only_trans g [RTemp] [RChar; REntered; RDirLen; RCwd] _ _ _ (fill_only RTemp _)).
  apply (only_trans g [RChar] [REntered; RDirLen; RCwd] _ _ _ (byte_only RChar _ 0 eq_refl)).
  apply (only_trans g [REntered] [RDirLen; RCwd] _ _ _ (byte_only REntered _ 0 eq_refl)).
  apply (only_trans g [RDirLen] [RCwd] _ _ _ (byte_only RDirLen _ 1 eq_refl)).
  exact (write_only RCwd _ (le_encode 4 ROOT_CLUSTER_NUMBER) eq_refl).
Qed.

Lemma loaded_request K m : k_memory K = load_globals g m -> holds_request g K (first_request g) /\ small_code g K.
Proof using Hg.
  intros Em. pose proof (patched_at (patched_store_bytes (memset m (cl g) 0 4096) (request g) (initial_request g) request_run) request_run) as E1.
  pose proof (later_globals m) as Ho. rewrite <- Em in Ho. revert E1 Ho.
  generalize (store_bytes (memset m (cl g) 0 4096) (request g) (initial_request g)). clear m Em. intros m1 E1 Ho.
  pose proof (fill_only RRetcode m1) as Ho2. cbn [place region_size] in Ho2. pose proof (patched_at (patched_memset m1 (retcode g) 0 4 (region_space g Hg RRetcode))) as E2.
  set (m2 := memset m1 (retcode g) 0 4) in *.
  assert (forall x, fresh x [RDir; RLine; RTemp; RChar; REntered; RDirLen; RCwd] = true -> glob g x K = load_bytes m2 (place g x) (region_size x)) as Hk.
  { intros x Hx. apply (only_inside g Hg _ _ _ x _ _ Ho Hx). by apply inside_place. }
  assert (forall x, fresh x [RRetcode; RDir; RLine; RTemp; RChar; REntered; RDirLen; RCwd] = true -> glob g x K = load_bytes m1 (place g x) (region_size x)) as Hr.
  { intros x Hx. cbn [fresh forallb] in Hx. apply andb_true_iff in Hx as [Hx1 Hx]. rewrite (Hk x Hx).
    apply (only_inside g Hg _ _ _ x _ _ Ho2); [cbn; by rewrite Hx1 | by apply inside_place]. }
  split.
  - change (length (initial_request g)) with REQUEST_SIZE in E1. rewrite request_fields in E1. unfold initial_request in E1.
    apply app_inj_1 in E1 as [F1 E1]; [| by rewrite length_load_bytes].
    change (bytes_of "shell" ++ replicate 3 0 ++ replicate 3 0 ++ le_encode 4 ROOT_CLUSTER_NUMBER ++ le_encode 4 CLUSTER_SIZE)
      with (fst shell_entry ++ snd shell_entry ++ le_encode 4 ROOT_CLUSTER_NUMBER ++ le_encode 4 CLUSTER_SIZE) in E1.
    apply app_inj_1 in E1 as [F2 E1]; [| by rewrite length_load_bytes].
    apply app_inj_1 in E1 as [F3 E1]; [| by rewrite length_load_bytes].
    apply app_inj_1 in E1 as [F4 F5]; [| by rewrite length_load_bytes].
    split_and!; (rewrite Hr by done; done).
  - exists 0. split; [lia |]. rewrite Hk by done. apply E2. exact (region_space g Hg RRetcode).
Qed.

(** ** The first prompt *)

(** What the disk holds when the program starts: the shell's file, if there is one,
    is longer than a cluster (a shorter one would be loaded over the shell's own
    buffer), and the banner can be printed. *)
Record start_disk (K : Kernel B D) (T : tree) : Prop := {
  sd_small : small_tree T;
  sd_root f : T !! ROOT_CLUSTER_NUMBER = Some f -> shell_entry <> own_key f /\ banner_entry <> own_key f /\
    read_answer CLUSTER_SIZE (nodes f !! shell_entry) <> 0 /\ printable K ROOT_CLUSTER_NUMBER banner_entry (nodes f !! banner_entry);
}.

(** The program as it is loaded, its literal included, on a machine with a disk. *)
Record start_state (K : Kernel B D) (T : tree) (codes : list Z) : Prop := {
  ss_globals : exists m, k_memory K = load_globals g m;
  ss_literal : cstring (k_memory K) (text g "kaguya.txt") (bytes_of "kaguya.txt");
  ss_ok : console_ok K;
  ss_keys : keyboard_buffer (kb (k_console K)) = 0 /\ waiting (ports (k_console K)) = codes;
  ss_tree : os_tree K T;
  ss_disk : start_disk K T;
}.

Context (fuel : nat) (Hfuel : (2048 < fuel)%nat).

Lemma wp_main_start K T codes (Q : unit -> Kernel B D -> Prop) : start_state K T codes ->
  (forall K', at_prompt env regs stack g K' (mkView T (os_free K) []) codes -> Q tt K') -> wp (main_start g fuel) K Q.
Proof using All.
  intros [[m Em] Hlit Hk [Hkb Hw] HT [Hsmall Hdisk]] HQ. pose proof (tree_shaped K T HT) as ([f Hf] & _ & _).
  destruct (Hdisk f Hf) as (Hown & Hbown & Hans & Hban). destruct (loaded_request K m Em) as [Hreq Hcode].
  destruct (loaded_globals env regs stack g Hg K m Em) as [Hpl [_ _ _ _ Hent]].
  unfold main_start. lazymatch goal with |- wp (_;; _;; _;; _;; _;; _;; ?e) _ _ => apply (wp_start g Hg fuel Hfuel K (own_key f) (nodes f) Q e) end;
    [exact Hk | exact Hcode | exact Hreq | exact Hlit | apply Hpl | by apply (tree_dir K T) | done .. |].
  intros K1 Hst Etemp Ebuf. pose proof (step_same g _ _ _ Hst) as Hsame. pose proof (same_input K K1 Hsame) as Ei. injection Ei as Ekb Ew.
  pose proof (step_glob g Hg _ _ _ REntered Hst eq_refl) as Eent. destruct Hst as ([Hm1 Hc1] & _ & Ho & _).
  apply wp_activate, HQ. split.
  - split; [exact Hm1 | | | done | done | exact (eq_trans Ekb Hkb) | intros _; etrans; [apply set_cursor_waiting | exact (eq_trans Ew Hw)]].
    { exact (conj (proj1 Hc1) (conj (proj1 (proj2 Hc1)) (Z.lt_le_incl _ _ (proj2 (proj2 Hc1))))). }
    split; [exact Etemp | cbn; lia | constructor | exact Ebuf | exact (eq_trans Eent Hent)].
  - exact (same_whole K K1 T Hsame HT).
  - exact (same_free K K1 Hsame).
  - by split.
  - by apply (placed_only env regs stack g Hg start_changes K).
Qed.

(** C6: The shell program from its first instruction: with its globals as loaded, on
    a disk that holds a tree, [main] reads, prints its banner if there is one, clears
    its buffers and waits at the prompt of the root directory; and whatever lines of
    cd, mkdir, touch and unknown words are typed from then on, the tree of the whole
    disk, the free clusters and the shell's place follow the abstract shell.  The disk
    is any whose shell file is longer than a cluster and whose banner, if it fits in
    one, has a NUL in that cluster, in its text or behind it ([start_disk]): the disk
    the build makes, with the shell and a banner of 1299 bytes without NUL in a zeroed
    cluster, is one. *)
Theorem shell_runs_from_start K T codes lines cs rest ns : start_state K T codes -> codes = all_keys lines ++ rest ->
  Forall2 spells lines (line_of <$> cs) -> length ns = length (all_keys lines) -> fit_all (mkView T (os_free K) []) cs ->
  exists K' v', (main_start g fuel;; session env regs stack g fuel ns) K = Ret (tt, K') /\
    does_all cs (mkView T (os_free K) []) v' /\ at_prompt env regs stack g K' v' rest.
Proof using All.
  intros Hs -> Hsp Hns Hfit. assert (256 < fuel)%nat as Hf by lia.
  enough (wp (main_start g fuel;; session env regs stack g fuel ns) K (fun _ K' => exists v', does_all cs (mkView T (os_free K) []) v' /\
    at_prompt env regs stack g K' v' rest)) as ([] & K' & E & v' & HQ) by (by exists K', v').
  apply wp_bind, (wp_main_start K T _ _ Hs). intros K1 Hat.
  apply (wp_lines env regs stack g Hg fuel Hf lines cs ns K1 (mkView T (os_free K) []) rest); [exact Hat | exact Hsp | exact Hns | exact Hfit |]. intros K2 v' Hall Hat'. by exists v'.
Qed.
End Begin.
