(* ===== verification/ShellExamples.v ===== *)
(** * The shell theorems at concrete inputs

    A linked shell on a kernel whose disk is the inserter's image and whose keyboard
    holds a few scancodes. *)
From Stdlib Require Import String.
From stdpp Require Import gmap.
From S2P Require Import Prelude CString Memory BlockDevice Fat32Types Fat32 Fat32Chain Fat32Facts Fat32Ops Fat32Access Fat32Abs Fat32Refine Fat32Codes Fat32Props Fat32Examples Fat32Tree Fat32Client ClientExamples PortIO Framebuffer Keyboard KeyboardProps Clock ClockProps Descriptors Process Scheduler Kernel KernelProps KernelExamples Paging IntStr ShellStrings Shell ShellCommands ShellLogic ShellRules ShellDirs ShellFiles ShellEntries ShellKernel ShellInput ShellSession ShellTerminal ShellStart.
#[local] Open Scope Z_scope.

(** ** A layout *)

Definition linked : Layout := mkLayout 0x8000 0x1000 0x1100 0x1200 0x2000 0x3000 0x1400 0x1410 0x1420 0x1430 0x1500
  (fun s => if String.eqb s (ln "") then 0x6000 else if String.eqb s "kaguya.txt" then 0x6200 else 0x6100)
  (fun v => if String.eqb v "main.res" then 0x4000 else if String.eqb v "cat.filename" then 0x4200 else
    if String.eqb v "touch.filename" then 0x4400 else if String.eqb v "rm.filename" then 0x4500 else 0x5000).

Lemma linked_ok : layout_ok linked.
Proof.
  split_and!.
  - intros []; vm_compute; discriminate.
  - intros [] Hx; first [done | vm_compute; discriminate].
  - intros [] []; try discriminate; intros _; unfold apart; by_compute.
Qed.

(** Its memory at the prompt of the root directory, with a line in [buf]. *)
Definition shell_mem (line : list Z) : mem :=
  store_bytes (store_bytes (store_bytes (store_bytes (store_bytes (fun _ => 0) 0x1200 [47]) 0x1420 [1]) 0x1430 [2]) 0x6000 [10]) 0x2000 line.

Lemma shell_mem_ok line : Forall is_byte line -> bytes_ok (shell_mem line).
Proof.
  intros Hl. unfold shell_mem. repeat (apply store_bytes_bytes_ok; [first [done | by_compute] |]). intros a. split; lia.
Qed.

(** ** A machine *)

Definition user_regs : CPURegister := mkCpu 0 0 0 0 0 0 0 0 0 0 0 0.
Definition user_stack : InterruptStack := mkIntStack 0 0 0x1b 0x202.
#[local] Instance machine_os : Os (Kernel Controller Image) := kernel_os machine user_regs user_stack.
#[local] Instance machine_spec : OsSpec (Kernel Controller Image) := kernel_os_spec machine user_regs user_stack.

Definition shell_machine (fs : Fs Image) (m : mem) (codes : list Z) : Kernel Controller Image :=
  mkKernel global_descriptor_table interrupt_tss_entry interrupt_descriptor_table
    (mkConsole (mkKb true false false false 0 0) (mkFb 3 22 3 22) m (mkController codes)) fs
    initial_paging_state initial_process_manager initial_scheduler_state new_year.

Lemma machine_ok fs line codes : Forall is_byte line -> os_ok (shell_machine fs (shell_mem line) codes).
Proof.
  intros Hl. split; [by apply shell_mem_ok |]. unfold cursor_ok, on_screen. cbn. unfold MAX_ROW, MAX_COLUMN. lia.
Qed.

(** ** A directory *)

Definition docs : list Z := bytes_of "docs".
Definition docs_key : key := (pad8 docs, bytes_of "dir").
Definition docs_req : FAT32DriverRequest := mkRequest 0 (pad8 docs) (bytes_of "dir") 2 0.
Lemma docs_req_ok : req_ok docs_req.
Proof. unfold req_ok. split_and!; try done; by_compute. Qed.

(** The tree of an image with one directory. *)
Definition docs_tree : gmap Z (gmap key node) := <[2 := <[docs_key := Dir 3]> ∅]> (<[3 := ∅]> ∅).

(** Its root, before and after. *)
Definition empty_root : folder := mkFolder (root_name no_tail) 2 ∅.
Definition docs_root : folder := mkFolder (root_name no_tail) 2 (<[docs_key := Dir 3]> ∅).

Lemma docs_tree_installed : exists fs : Fs Image, tree_rep fs (tree1 3) /\ cluster_available (fat_of fs) = 508.
Proof.
  destruct formatted_tree as (fs & _ & HT & Es). injection Es as Hav. pose proof (proj2 (tree0_root _) eq_refl) as Hroot.
  destruct (tree_mkdir fs tree0 docs_request _ HT Hroot docs_request_ok ltac:(discriminate) zero_mem) as (fs' & c & _ & Hc & Hcr & Hav' & HT').
  - discriminate.
  - discriminate.
  - apply lookup_empty.
  - cbn [nodes empty_root]. rewrite map_size_empty. lia.
  - reflexivity.
  - rewrite Hav. lia.
  - rewrite Hav in Hcr, Hav'. assert (c <> 2) by (intros ->; congruence). assert (c = 3) as -> by lia. by exists fs'.
Qed.

Lemma docs_installed : exists fs : Fs Image, represents fs 2 root_own (<[docs_key := Dir 3]> ∅) /\
  represents fs 3 (pad8 docs, replicate 3 0) ∅ /\
  forall r, parent_cluster_number r = 3 -> move_to_parent_directory fs r = Ret 2.
Proof.
  destruct docs_tree_installed as (fs & HT & _). pose proof (proj2 (tree1_docs 3 _) eq_refl) as H3. exists fs. split_and!.
  - exact (tree_represents fs (tree1 3) 2 _ HT (proj2 (tree1_root 3 _ ltac:(lia)) eq_refl)).
  - exact (tree_represents fs (tree1 3) 3 _ HT H3).
  - exact (tree_parent (shell_machine fs zero_mem []) (tree1 3) 3 _ HT H3).
Qed.

(** The shell in the root of an image that shows the tree. *)
Lemma docs_tree_ok (fs : Fs Image) m codes : represents fs 2 root_own (<[docs_key := Dir 3]> ∅) ->
  represents fs 3 (pad8 docs, replicate 3 0) ∅ -> (forall r, parent_cluster_number r = 3 -> move_to_parent_directory fs r = Ret 2) ->
  tree_ok (shell_machine fs m codes) docs_tree.
Proof.
  intros H2 H3 Hup. split; [by exists (<[docs_key := Dir 3]> ∅) |]. intros p M HM. unfold docs_tree in HM.
  destruct (decide (p = 2)) as [->|Hp]; [| destruct (decide (p = 3)) as [->|Hp3]].
  - rewrite lookup_insert_eq in HM. injection HM as <-. exists root_own. split_and!; [exact H2 | discriminate |].
    intros n c Hn. unfold subdir in Hn. destruct (decide ((pad8 n, bytes_of "dir") = docs_key)) as [E|E].
    + rewrite E, lookup_insert_eq in Hn. injection Hn as <-. split_and!; [discriminate | lia | lia | exact Hup |].
      by exists ∅.
    + by rewrite lookup_insert_ne, lookup_empty in Hn by done.
  - rewrite lookup_insert_ne, lookup_insert_eq in HM by done. injection HM as <-. exists (pad8 docs, replicate 3 0).
    split_and!; [exact H3 | discriminate |]. intros n c Hn. unfold subdir in Hn. by rewrite lookup_empty in Hn.
  - by rewrite !lookup_insert_ne, lookup_empty in HM by done.
Qed.

Definition cd_line : list Z := bytes_of "cd docs/none/../docs" ++ [0].

Lemma cd_walks_the_tree_witness : exists (fs : Fs Image) K',
  cd_cmd linked 300 (shell_machine fs (shell_mem cd_line) []) = Ret (tt, K') /\
  ready linked K' docs_tree [(3, docs)].
Proof.
  destruct docs_installed as (fs & H2 & H3 & Hup).
  destruct (cd_walks_the_tree linked linked_ok 300 ltac:(lia) (shell_machine fs (shell_mem cd_line) []) docs_tree []
    (bytes_of "docs/none/../docs")) as (K' & E & Hrd & _).
  - split.
    + apply machine_ok. by_compute.
    + split; [by vm_compute | by vm_compute | by vm_compute | exists 0; split; [lia | by vm_compute] | done].
    + by apply docs_tree_ok.
    + constructor.
  - split_and!; [split; vm_compute; discriminate | by vm_compute | by_compute].
  - by_compute.
  - by_compute.
  - cbn. lia.
  - exists fs, K'. split; [exact E |]. replace [(3, docs)] with (foldl (walk docs_tree) [] (components (bytes_of "docs/none/../docs")));
      [exact Hrd | by vm_compute].
Defined.

Lemma mkdir_creates_directory_witness : exists (fs : Fs Image) K' c,
  with_argument linked 300 6 (mkdir linked 300) (shell_machine fs (shell_mem (bytes_of "mkdir docs" ++ [0])) []) = Ret (tt, K') /\
  os_tree K' (tree1 c).
Proof.
  destruct formatted_tree as (fs & _ & HT & Es). injection Es as Hav. pose proof (proj2 (tree0_root _) eq_refl) as Hroot.
  destruct (mkdir_creates_directory linked linked_ok 300 ltac:(lia) (shell_machine fs (shell_mem (bytes_of "mkdir docs" ++ [0])) [])
    tree0 2 empty_root docs) as (K' & E & _ & _ & Hpost).
  - apply machine_ok. by_compute.
  - exists 0. split; [lia | by vm_compute].
  - by vm_compute.
  - exact HT.
  - exact Hroot.
  - discriminate.
  - unfold name_arg, cstring. split_and!; [split; vm_compute; discriminate | by vm_compute | by_compute | cbn; lia | by_compute | lia | lia].
  - discriminate.
  - by_compute.
  - intros _. cbn [nodes empty_root]. rewrite map_size_empty. split; [lia |]. change (0 < cluster_available (fat_of fs)). rewrite Hav. lia.
  - unfold subdir in Hpost. cbn [nodes empty_root docs_root] in Hpost. rewrite lookup_empty in Hpost. destruct Hpost as (c & _ & _ & _ & HT'). exists fs, K', c.
    split; [exact E | exact HT'].
Defined.

(** A file of two bytes without a NUL, written from a zeroed buffer. *)
Definition greeting : list Z := bytes_of "hi".
Definition greeting_mem : mem := store_bytes (fun _ => 0) 4096 greeting.
Definition greeting_req : FAT32DriverRequest := mkRequest 4096 (pad8 greeting) (bytes_of "txt") 2 2.
Definition greeting_key : key := (pad8 greeting, bytes_of "txt").
Lemma greeting_mem_ok : bytes_ok greeting_mem.
Proof. apply store_bytes_bytes_ok; [by_compute | by intros a]. Qed.
Lemma greeting_req_ok : req_ok greeting_req.
Proof. unfold req_ok. split_and!; try done; by_compute. Qed.

Lemma greeting_installed : exists fs : Fs Image, represents fs 2 root_own (<[greeting_key := File greeting]> ∅) /\
  stored fs 2 greeting_key (greeting ++ 0 :: replicate 2045 0).
Proof.
  destruct formatted as (fs & Hc & Hf & ls & Hrep).
  assert (has_room (dir_at fs 2)) as Hroom by (apply (has_room_of_size fs 2 root_own ls ∅ Hrep); rewrite map_size_empty; lia).
  assert (clusters_needed (buffer_size greeting_req) <= cluster_available (fat_of fs)) as Hav by (rewrite Hf, fresh_available; vm_compute; discriminate).
  assert (0 < buffer_size greeting_req < 2 ^ 31) as Hs by (split; reflexivity).
  destruct (write_file_represents fs greeting_mem greeting_req root_own ls ∅ Hrep greeting_req_ok greeting_mem_ok ltac:(discriminate)
    Hroom (lookup_empty _) ltac:(discriminate) Hs Hav) as (fs' & Hw & _ & _ & Hrep' & _).
  pose proof (write_file_stored fs greeting_mem greeting_req root_own ls ∅ Hrep greeting_req_ok greeting_mem_ok ltac:(discriminate)
    fs' Hroom (lookup_empty _) ltac:(discriminate) Hs Hav Hw) as Hst.
  exists fs'. split.
  - eexists. change (load_bytes greeting_mem (Fat32Types.buf greeting_req) (Z.to_nat (buffer_size greeting_req))) with greeting in Hrep'.
    exact Hrep'.
  - replace (load_bytes _ _ _) with (greeting ++ 0 :: replicate 2045 0) in Hst by by vm_compute. exact Hst.
Qed.

Definition cat_line : list Z := bytes_of "cat hi.txt" ++ [0].
Definition blank_terminal : terminal := mkTerm (screen (shell_mem cat_line)) 3 22.

Lemma cat_prints_file_witness : exists (fs : Fs Image) K',
  with_argument linked 2500 4 (cat linked 2500) (shell_machine fs (shell_mem cat_line) []) = Ret (tt, K') /\
  displays K' (newline (type_string 0xF blank_terminal greeting)).
Proof.
  destruct greeting_installed as (fs & Hrep & Hst).
  assert ((pad8 greeting, over_name (glob linked RqExt (shell_machine fs (shell_mem cat_line) [])) (bytes_of "txt")) = greeting_key) as Ek by by vm_compute.
  destruct (cat_prints_file linked linked_ok 2500 ltac:(lia) (shell_machine fs (shell_mem cat_line) [])
    2 root_own (<[greeting_key := File greeting]> ∅) greeting (bytes_of "txt") greeting greeting (replicate 2045 0) blank_terminal)
    as (K' & E & _ & _ & _ & Hd & _).
  - apply machine_ok. by_compute.
  - exists 0. split; [lia | by vm_compute].
  - by vm_compute.
  - lia.
  - exact Hrep.
  - unfold cstring. split_and!; [split; vm_compute; discriminate | by vm_compute | by_compute].
  - by_compute.
  - cbn. lia.
  - by_compute.
  - cbn. lia.
  - rewrite Ek. apply lookup_insert_eq.
  - cbn. lia.
  - rewrite Ek. exact Hst.
  - by_compute.
  - unfold cstring. split_and!; [split; vm_compute; discriminate | by vm_compute | by_compute].
  - split; [intros r c _; reflexivity | reflexivity].
  - lia.
  - exists fs, K'. split; [exact E | exact Hd].
Defined.

Definition touch_line : list Z := bytes_of "touch notes.txt" ++ [0].
Definition notes_key : key := (bytes_of "notes" ++ [0; 0; 0], bytes_of "txt").

Lemma touch_creates_file_witness : exists (fs : Fs Image) K',
  with_argument linked 300 6 (touch linked 300) (shell_machine fs (shell_mem touch_line) []) = Ret (tt, K') /\
  os_tree K' (add_node tree0 2 notes_key (File (replicate 2048 0))).
Proof.
  destruct formatted_tree as (fs & _ & HT & Es). injection Es as Hav. pose proof (proj2 (tree0_root _) eq_refl) as Hroot.
  destruct (touch_creates_file linked linked_ok 300 ltac:(lia) (shell_machine fs (shell_mem touch_line) []) tree0 2 empty_root
    (bytes_of "notes") (bytes_of "txt")) as (K' & E & _ & _ & Hpost).
  - apply machine_ok. by_compute.
  - exists 0. split; [lia | by vm_compute].
  - by vm_compute.
  - exact HT.
  - exact Hroot.
  - unfold cstring. split_and!; [split; vm_compute; discriminate | by vm_compute | by_compute].
  - by_compute.
  - cbn. lia.
  - by_compute.
  - reflexivity.
  - discriminate.
  - intros _. cbn [nodes empty_root]. rewrite map_size_empty. split; [lia |]. change (0 < cluster_available (fat_of fs)). rewrite Hav. lia.
  - cbn [nodes empty_root docs_root] in Hpost. rewrite lookup_empty in Hpost. exists fs, K'. split; [exact E |].
    replace notes_key with (on_stack (os_mem (shell_machine fs (shell_mem touch_line) [])) (var linked "touch.filename") (bytes_of "notes"), bytes_of "txt");
      [exact Hpost | by vm_compute].
Defined.

(** After a cd or mkdir, "rm docs.txt" removes the directory docs. *)
Definition rm_mem : mem := store_bytes (shell_mem (bytes_of "rm docs.txt" ++ [0])) 0x1004 (pad8 docs ++ bytes_of "dir").

Lemma rm_finds_docs : (<[docs_key := Dir 3]> ∅ : gmap key node) !! ((over_name (pad8 docs) docs, bytes_of "dir") : key) = Some (Dir 3).
Proof. apply lookup_insert_eq. Qed.

Lemma rm_follows_previous_request_witness : exists (fs : Fs Image) K',
  with_argument linked 300 3 (rm linked 300) (shell_machine fs rm_mem []) = Ret (tt, K') /\
  os_tree K' (base.delete 3 (drop_node (tree1 3) 2 docs_key)).
Proof.
  destruct docs_tree_installed as (fs & HT & _). pose proof (proj2 (tree1_root 3 _ ltac:(lia)) eq_refl) as Hroot.
  pose proof (proj2 (tree1_docs 3 _) eq_refl) as Hdocs.
  destruct (rm_follows_previous_request linked linked_ok 300 ltac:(lia) (shell_machine fs rm_mem []) (tree1 3) 2 docs_root
    docs (bytes_of "txt") (pad8 docs) (bytes_of "dir")) as (K' & E & _ & _ & Hpost).
  - split; [apply store_bytes_bytes_ok; [by_compute | apply shell_mem_ok; by_compute] | unfold cursor_ok, on_screen; cbn; unfold MAX_ROW, MAX_COLUMN; lia].
  - exists 0. split; [lia | by vm_compute].
  - by vm_compute.
  - exact HT.
  - exact Hroot.
  - unfold cstring. split_and!; [split; vm_compute; discriminate | by vm_compute | by_compute].
  - by_compute.
  - cbn. lia.
  - by_compute.
  - reflexivity.
  - by vm_compute.
  - by vm_compute.
  - discriminate.
  - cbv zeta. cbn [nodes docs_root]. change ClientExamples.docs_key with docs_key. rewrite rm_finds_docs. discriminate.
  - cbv zeta. cbn [nodes docs_root]. change ClientExamples.docs_key with docs_key. rewrite rm_finds_docs. discriminate.
  - cbv zeta in Hpost. cbn [nodes empty_root docs_root] in Hpost. change ClientExamples.docs_key with docs_key in Hpost. rewrite rm_finds_docs in Hpost. cbn [rm_ext] in Hpost.
    rewrite rm_finds_docs in Hpost. cbn [empty_folder] in Hpost. rewrite Hdocs in Hpost. unfold remove_node in Hpost. rewrite Hroot in Hpost.
    cbn [mbind option_bind nodes docs_root] in Hpost. change ClientExamples.docs_key with docs_key in Hpost. rewrite rm_finds_docs in Hpost.
    exists fs, K'. split; [exact E | exact Hpost].
Defined.

(** "cd dx", a backspace, "ocs". *)
Definition cd_docs_codes : list Z := [0x2e; 0x20; 0x39; 0x20; 0x2d; 0x0e; 0x18; 0x2e; 0x1f].

Lemma prompt_line (fs : Fs Image) codes : typing machine user_regs user_stack linked (shell_machine fs (shell_mem [0]) codes) [] (mkKeys true false false false 0) codes.
Proof.
  split.
  - apply shell_mem_ok. by_compute.
  - unfold cursor_bounded. cbn. unfold MAX_ROW, MAX_COLUMN. lia.
  - split; [by vm_compute | cbn; lia | constructor | by vm_compute | by vm_compute].
  - reflexivity.
  - cbn. lia.
  - reflexivity.
  - reflexivity.
Qed.

Lemma typed_line_is_edited_witness : exists K',
  session machine user_regs user_stack linked 300 (replicate 9 2%nat) (shell_machine blank_fs (shell_mem [0]) (cd_docs_codes ++ [0x1c])) =
    Ret (tt, K') /\
  line_at linked K' (bytes_of "cd docs").
Proof.
  destruct (typed_line_is_edited machine user_regs user_stack linked linked_ok 300 ltac:(lia)
    (shell_machine blank_fs (shell_mem [0]) (cd_docs_codes ++ [0x1c])) [] (mkKeys true false false false 0) cd_docs_codes [0x1c] (replicate 9 2%nat))
    as (K' & E & Ht & _).
  - apply prompt_line.
  - by_compute.
  - reflexivity.
  - by_compute.
  - vm_compute. lia.
  - exists K'. split; [exact E | exact (ty_line _ _ _ _ _ _ _ _ Ht)].
Defined.

Lemma typed_cd_moves_the_shell_witness : exists (fs : Fs Image) K',
  session machine user_regs user_stack linked 300 (replicate 9 2%nat ++ [1%nat])
    (shell_machine fs (shell_mem [0]) (cd_docs_codes ++ [0x1c; 0x26])) = Ret (tt, K') /\
  prompting machine user_regs user_stack linked K' docs_tree [(3, docs)] [0x26].
Proof.
  destruct docs_installed as (fs & H2 & H3 & Hup).
  destruct (typed_cd_moves_the_shell machine user_regs user_stack linked linked_ok 300 ltac:(lia)
    (shell_machine fs (shell_mem [0]) (cd_docs_codes ++ [0x1c; 0x26])) docs_tree [] cd_docs_codes [0x26] docs (replicate 9 2%nat) 1%nat)
    as (K' & E & Hp & _).
  - split.
    + apply prompt_line.
    + by apply docs_tree_ok.
    + constructor.
    + exact I.
    + split_and!; [by vm_compute | by vm_compute | by vm_compute | cbn; lia].
  - by_compute.
  - reflexivity.
  - reflexivity.
  - by_compute.
  - vm_compute. lia.
  - by vm_compute.
  - by_compute.
  - cbn. lia.
  - exists fs, K'. split; [exact E |]. replace [(3, docs)] with (foldl (walk docs_tree) [] (components docs)); [exact Hp | by vm_compute].
Defined.

(** ** A session *)

(** "mkdir docs", "cd dx", a backspace, "ocs", "touch hi.txt". *)
Definition evening : list line_command := [Mkdir docs; Cd docs; Touch (bytes_of "hi") (bytes_of "txt")].
Definition evening_keys : list (list Z) :=
  [[0x32; 0x25; 0x20; 0x17; 0x13; 0x39; 0x20; 0x18; 0x2e; 0x1f]; cd_docs_codes;
   [0x14; 0x18; 0x16; 0x2e; 0x23; 0x39; 0x23; 0x17; 0x34; 0x14; 0x2d; 0x14]].
Definition blank_view : shell_view := mkView tree0 509 [].

Lemma evening_spelled : Forall2 spells evening_keys (line_of <$> evening).
Proof.
  repeat constructor; try by_compute.
Qed.

Lemma walk_docs c : c <> 2 -> foldl (walk (contents (tree1 c))) [] (components docs) = [(c, docs)].
Proof.
  intros Hc. change (components docs) with [docs]. cbn [foldl]. unfold walk. rewrite decide_False by discriminate.
  assert (contents (tree1 c) !! here [] = Some (<[docs_key := Dir c]> ∅)) as ->.
  { apply contents_lookup. eexists. split; [by apply tree1_root | done]. }
  cbn [mbind option_bind]. unfold subdir. change (pad8 docs, bytes_of "dir") with docs_key. by rewrite lookup_insert_eq.
Qed.

Lemma does_mkdir_docs v : does (Mkdir docs) blank_view v -> exists c, 2 <= c < 512 /\ c <> 2 /\ v = mkView (tree1 c) 508 [].
Proof.
  assert (forall f, tree0 !! here [] = Some f -> subdir (nodes f) docs = None) as Hnew.
  { intros f ->%tree0_root. apply lookup_empty. }
  inversion 1 as [| | ? ? ? ? f Hf Hsub | ? ? ? ? f c Hne Hf Hsub Hc Hcr | |]; subst.
  - rewrite (Hnew f Hf) in Hsub. by destruct Hsub.
  - exists c. assert (c <> 2) by (intros ->; pose proof (proj2 (tree0_root _) eq_refl); congruence). split_and!; [lia | lia | done | reflexivity].
Qed.

Lemma does_cd_docs c v : c <> 2 -> does (Cd docs) (mkView (tree1 c) 508 []) v -> v = mkView (tree1 c) 508 [(c, docs)].
Proof. intros Hc. inversion 1; subst. by rewrite walk_docs. Qed.

Lemma evening_fits : fit_all blank_view evening.
Proof.
  split.
  { split; [by_compute |]. intros f ->%tree0_root _. cbn [nodes]. rewrite map_size_empty. cbn [v_free blank_view]. lia. }
  intros v (c & Hc & Hne & ->)%does_mkdir_docs. split.
  { split; [by_compute | by_compute]. }
  intros v ->%does_cd_docs; [| done]. split; [| done]. split_and!; [by_compute | by_compute | by_compute |].
  intros f ->%tree1_docs. cbn [nodes own_key]. rewrite map_size_empty. split_and!; [lia | reflexivity | discriminate | intros tail _; apply lookup_empty].
Qed.

Lemma tree0_small : small_tree tree0.
Proof.
  intros p f Hf. destruct (decide (p = 2)) as [->|Hp].
  - apply tree0_root in Hf as ->. split; [lia | discriminate].
  - change (root_only (root_name no_tail) !! p = Some f) in Hf. unfold root_only in Hf. by rewrite lookup_singleton_ne in Hf.
Qed.

Lemma blank_prompt (fs : Fs Image) codes : tree_rep fs tree0 -> cluster_available (fat_of fs) = 509 ->
  at_prompt machine user_regs user_stack linked (shell_machine fs (shell_mem [0]) codes) blank_view codes.
Proof.
  intros HT Hav. split; [apply prompt_line | exact HT | exact Hav | |].
  - split; [exact tree0_small | exact I].
  - split_and!; [by vm_compute | by vm_compute | by vm_compute | cbn; lia].
Qed.

Lemma evening_views v : does_all evening blank_view v -> exists c tail,
  v = mkView (add_node (tree1 c) c (touched (bytes_of "hi") tail, bytes_of "txt") (File (replicate 2048 0))) 507 [(c, docs)].
Proof.
  intros Hall. inversion Hall as [| ? ? ? v1 ? H1 Hall1]; subst. apply does_mkdir_docs in H1 as (c & Hc & Hne & ->).
  inversion Hall1 as [| ? ? ? v2 ? H2 Hall2]; subst. apply does_cd_docs in H2 as ->; [| done].
  inversion Hall2 as [| ? ? ? v3 ? H3 Hall3]; subst. inversion Hall3; subst.
  inversion H3 as [| | | | ? ? ? ? ? f tail Hf Hlt Hbt |]; subst. exists c, tail. reflexivity.
Qed.

Lemma session_moves_the_shell_witness : exists (fs : Fs Image) K' c tail,
  session machine user_regs user_stack linked 300 (replicate 34 2%nat)
    (shell_machine fs (shell_mem [0]) (all_keys evening_keys ++ [0x26])) = Ret (tt, K') /\
  at_prompt machine user_regs user_stack linked K'
    (mkView (add_node (tree1 c) c (touched (bytes_of "hi") tail, bytes_of "txt") (File (replicate 2048 0))) 507 [(c, docs)]) [0x26].
Proof.
  destruct formatted_tree as (fs & _ & HT & Es). injection Es as Hav.
  destruct (session_moves_the_shell machine user_regs user_stack linked linked_ok 300 ltac:(lia)
    (shell_machine fs (shell_mem [0]) (all_keys evening_keys ++ [0x26])) blank_view evening_keys evening [0x26] (replicate 34 2%nat))
    as (K' & v' & E & Hall & Hat).
  - by apply blank_prompt.
  - apply evening_spelled.
  - reflexivity.
  - apply evening_fits.
  - destruct (evening_views v' Hall) as (c & tail & ->). exists fs, K', c, tail. split; [exact E | exact Hat].
Defined.

(** ** A run from the first instruction *)

Definition program_mem : mem := load_globals linked (store_bytes zero_mem 0x6200 (bytes_of "kaguya.txt" ++ [0])).

Lemma program_mem_ok : bytes_ok program_mem.
Proof. apply loaded_bytes_ok, store_bytes_bytes_ok; [by_compute | exact zero_mem_ok]. Qed.

Lemma program_literal : cstring program_mem (text linked "kaguya.txt") (bytes_of "kaguya.txt").
Proof. unfold cstring. split_and!; [split; vm_compute; discriminate | by vm_compute | by_compute]. Qed.

(** The disk of the build: the shell's file, longer than a cluster, and a banner of
    1299 bytes without a NUL, both written from buffers that are zero behind them. *)
Definition files_mem : mem := fun a => if (0x1000 <=? a) && (a <? 0x1000 + 1299) then 35 else 0.
Definition shell_req : FAT32DriverRequest := mkRequest 0x4000 (fst shell_entry) (snd shell_entry) 2 3000.
Definition banner_req : FAT32DriverRequest := mkRequest 0x1000 (fst banner_entry) (snd banner_entry) 2 1299.
Definition shell_file : list Z := load_bytes files_mem 0x4000 3000.
Definition banner_file : list Z := load_bytes files_mem 0x1000 1299.

Lemma files_mem_ok : bytes_ok files_mem.
Proof. intros a. unfold files_mem. by destruct (_ && _). Qed.
Lemma shell_req_ok : req_ok shell_req.
Proof. unfold req_ok. split_and!; try done; by_compute. Qed.
Lemma banner_req_ok : req_ok banner_req.
Proof. unfold req_ok. split_and!; try done; by_compute. Qed.

Definition half_tree : tree := add_node tree0 2 shell_entry (File shell_file).
Definition half_root : folder := mkFolder (root_name no_tail) 2 (<[shell_entry := File shell_file]> ∅).
Definition built_tree : tree := add_node half_tree 2 banner_entry (File banner_file).
Definition built_root : folder := mkFolder (root_name no_tail) 2 (<[banner_entry := File banner_file]> (<[shell_entry := File shell_file]> ∅)).

Lemma half_tree_root : half_tree !! 2 = Some half_root.
Proof. unfold half_tree, add_node. by rewrite lookup_alter_eq, (proj2 (tree0_root _) eq_refl). Qed.
Lemma built_tree_root f : built_tree !! 2 = Some f <-> f = built_root.
Proof. unfold built_tree, add_node. rewrite lookup_alter_eq, half_tree_root. split; [by intros [= <-] | by intros ->]. Qed.

Lemma banner_is_new : (<[shell_entry := File shell_file]> ∅ : gmap key node) !! banner_entry = None.
Proof. rewrite lookup_insert_ne; [apply lookup_empty | discriminate]. Qed.

Lemma built_disk : exists fs : Fs Image, tree_rep fs built_tree /\ cluster_available (fat_of fs) = 506 /\
  stored fs 2 banner_entry (banner_file ++ 0 :: replicate 748 0).
Proof.
  destruct formatted_tree as (fs & _ & HT & Es). injection Es as Hav. pose proof (proj2 (tree0_root _) eq_refl) as Hroot.
  destruct (tree_write_file fs tree0 shell_req _ HT Hroot shell_req_ok ltac:(discriminate) files_mem files_mem_ok ltac:(discriminate)
    (lookup_empty _)) as (fs1 & _ & Hav1 & HT1).
  { cbn [nodes]. rewrite map_size_empty. lia. }
  { split; reflexivity. }
  { rewrite Hav. vm_compute. discriminate. }
  change (cluster_available (fat_of fs1) = cluster_available (fat_of fs) - 2) in Hav1. change (tree_rep fs1 half_tree) in HT1.
  assert ((size (nodes half_root) < 63)%nat) as Hsz by (cbn [nodes half_root]; rewrite map_size_insert_None, map_size_empty by apply lookup_empty; lia).
  assert (0 < buffer_size banner_req < 2 ^ 31) as Hs by (split; reflexivity).
  assert (clusters_needed (buffer_size banner_req) <= cluster_available (fat_of fs1)) as Hroom by (rewrite Hav1, Hav; vm_compute; discriminate).
  destruct (tree_write_file fs1 half_tree banner_req _ HT1 half_tree_root banner_req_ok ltac:(discriminate) files_mem files_mem_ok ltac:(discriminate)
    banner_is_new Hsz Hs Hroom) as (fs2 & Hw & Hav2 & HT2).
  pose proof (tree_write_stored fs1 half_tree banner_req _ HT1 half_tree_root banner_req_ok ltac:(discriminate) files_mem fs2 files_mem_ok ltac:(discriminate)
    banner_is_new Hsz Hs Hroom Hw) as Hst.
  change (cluster_available (fat_of fs2) = cluster_available (fat_of fs1) - 1) in Hav2. exists fs2. split_and!.
  - exact HT2.
  - lia.
  - replace (load_bytes _ _ _) with (banner_file ++ 0 :: replicate 748 0) in Hst by by vm_compute. exact Hst.
Qed.

Lemma built_small : small_tree built_tree.
Proof.
  intros p f Hf. destruct (decide (p = 2)) as [->|Hp].
  - apply built_tree_root in Hf as ->. split; [lia | discriminate].
  - unfold built_tree, half_tree, add_node in Hf. rewrite !lookup_alter_ne in Hf by done. by apply tree0_small in Hf.
Qed.

Lemma built_start (fs : Fs Image) codes : tree_rep fs built_tree -> stored fs 2 banner_entry (banner_file ++ 0 :: replicate 748 0) ->
  start_state machine user_regs user_stack linked (shell_machine fs program_mem codes) built_tree codes.
Proof.
  intros HT Hst. split; [exists (store_bytes zero_mem 0x6200 (bytes_of "kaguya.txt" ++ [0])); reflexivity | exact program_literal | | split; reflexivity | exact HT |].
  - split; [exact program_mem_ok |]. unfold cursor_ok, on_screen. cbn. unfold MAX_ROW, MAX_COLUMN. lia.
  - split; [exact built_small |]. intros f ->%built_tree_root. cbn [nodes own_key built_root]. split_and!; [discriminate | discriminate | |].
    + rewrite lookup_insert_ne, lookup_insert_eq by discriminate. vm_compute. discriminate.
    + right. exists banner_file, banner_file, (replicate 748 0). split_and!; [apply lookup_insert_eq | vm_compute; discriminate | exact Hst | by_compute].
Qed.

(** A first line, "mkdir docs". *)
Definition first_line : list line_command := [Mkdir docs].
Definition first_keys : list (list Z) := take 1 evening_keys.
Definition built_view : shell_view := mkView built_tree 506 [].

Lemma first_spelled : Forall2 spells first_keys (line_of <$> first_line).
Proof. repeat constructor; by_compute. Qed.

Lemma built_no_docs : subdir (nodes built_root) docs = None.
Proof. unfold subdir. cbn [nodes built_root]. rewrite !lookup_insert_ne, lookup_empty by discriminate. done. Qed.

Lemma first_fits : fit_all built_view first_line.
Proof.
  split; [| done]. split; [by_compute |]. intros f ->%built_tree_root _. cbn [nodes built_root v_free built_view].
  rewrite map_size_insert_None, map_size_insert_None, map_size_empty by first [apply lookup_empty | apply banner_is_new]. lia.
Qed.

Lemma first_views v : does_all first_line built_view v -> exists c, v = mkView (add_folder built_tree 2 docs_key c) 505 [].
Proof.
  intros Hall. inversion Hall as [| ? ? ? v1 ? H1 Hall1]; subst. inversion Hall1; subst.
  inversion H1 as [| | ? ? ? ? f Hf Hsub | ? ? ? ? f c Hne Hf Hsub Hc Hcr | |]; subst.
  - apply built_tree_root in Hf as ->. rewrite built_no_docs in Hsub. by destruct Hsub.
  - by exists c.
Qed.

Lemma shell_runs_from_start_witness : exists (fs : Fs Image) K' c,
  (main_start linked 2500;; session machine user_regs user_stack linked 2500 (replicate 11 2%nat))
    (shell_machine fs program_mem (all_keys first_keys ++ [0x26])) = Ret (tt, K') /\
  at_prompt machine user_regs user_stack linked K' (mkView (add_folder built_tree 2 docs_key c) 505 []) [0x26].
Proof.
  destruct built_disk as (fs & HT & Hav & Hst).
  destruct (shell_runs_from_start machine user_regs user_stack linked linked_ok 2500 ltac:(lia)
    (shell_machine fs program_mem (all_keys first_keys ++ [0x26])) built_tree (all_keys first_keys ++ [0x26]) first_keys first_line [0x26] (replicate 11 2%nat))
    as (K' & v' & E & Hall & Hat).
  - by apply built_start.
  - reflexivity.
  - apply first_spelled.
  - reflexivity.
  - change (os_free _) with (cluster_available (fat_of fs)). rewrite Hav. apply first_fits.
  - change (os_free _) with (cluster_available (fat_of fs)) in Hall. rewrite Hav in Hall.
    destruct (first_views v' Hall) as (c & ->). exists fs, K', c. split; [exact E | exact Hat].
Defined.
