(* ===== verification/Insert.v ===== *)
(** * The host program that puts a file into an image (src/external-inserter.c)

    The same fat32.c, linked with an image in memory instead of a disk.  What the
    host gives it are arguments: the bytes of the image and of the file, which
    [fread] puts at [file_buffer], the command line, whose first word lies at
    [path], and the places of the two local arrays. *)
From Stdlib Require Import String.
From S2P Require Import Prelude CString BlockDevice Fat32Types Fat32 ShellStrings.
#[local] Open Scope Z_scope.

Record Host := mkHost {
  path : Z;
  filename : Z;
  extension : Z;
  file_buffer : Z;
  filesize : Z;
  parent_cluster : Z;
}.

Section Insert.
Context (fuel : nat).

(** [strrchr] of the C library: the last [c] of a string, or NULL. *)
Fixpoint strrchr (m : mem) (p c : Z) (last : option Z) (n : nat) : outcome (option Z) :=
  match n with
  | O => NoFuel
  | S n' =>
    let x := load m p in
    let last := if x =? c then Some p else last in
    if x =? 0 then Ret last else strrchr m (p + 1) c last n'
  end.

Definition get_filename (m : mem) (path : Z) : outcome Z :=
  slash ← strrchr m path 47 None fuel;
  Ret (match slash with None => path | Some s => s + 1 end).

(** The text of the shell's [split_by_first]. *)
Definition split_by_first_inserter (m : mem) (pstr by_ result : Z) : outcome mem :=
  split_by_first fuel m pstr by_ result.

(** What it prints for a return code. *)
Definition report (retcode : Z) : string :=
  if retcode =? 0 then "Write success"
  else if retcode =? 1 then "Error: File/folder name already exist"
  else if retcode =? 2 then "Error: Invalid parent cluster"
  else "Error: Unknown error".

(** The names in the request. *)
Definition insert_names (m : mem) (h : Host) : outcome mem :=
  full_filename ← get_filename m (path h);
  let m := memset m (filename h) 0 9 in
  let m := memset m (extension h) 0 4 in
  m ← split_by_first_inserter m full_filename 46 (filename h);
  m ← split_by_first_inserter m full_filename 46 (extension h);
  name_len ← strlen_at fuel m (filename h);
  Ret (pad m (filename h) (u8 name_len) 8).

(** [main] with its three arguments: the image it writes back and the message. *)
Definition insert (lit_tail : list Z) (image : Image) (m : mem) (h : Host) : outcome (Image * string) :=
  m ← insert_names m h;
  fs ← initialize_filesystem_fat32 lit_tail (mkFs initial_driver_state image);
  let request := mkRequest (file_buffer h) (load_bytes m (filename h) 8) (load_bytes m (extension h) 3)
    (parent_cluster h) (u32 (filesize h)) in
  '(fs, retcode) ← write fs m request;
  Ret (disk fs, report retcode).
End Insert.
