(* ===== verification/InsertProps.v ===== *)
(** * From the host to the running shell

    What the inserter does to an image, and the composition of the three programs:
    a file inserted as "shell" is what the kernel starts when it boots from the
    image. *)
From Stdlib Require Import String.
From stdpp Require Import gmap.
From S2P Require Import Prelude CString Memory BlockDevice Fat32Types Fat32 Fat32Chain Fat32Facts Fat32Ops Fat32Access Fat32Abs Fat32Refine Fat32Props Paging PortIO Framebuffer Keyboard Clock ClockProps Descriptors Process ProcessInv Scheduler ProcessProps Kernel KernelProps ShellStrings Insert.
#[local] Open Scope Z_scope.

(** ** Names *)

(** A name and, behind a point, an extension. *)
Definition base_name (n e : list Z) : list Z := if decide (e = []) then n else n ++ 46 :: e.
Definition zeros_to (k : nat) (s : list Z) : list Z := s ++ replicate (k - length s) 0.

Lemma split_base n e : 46 ∉ n -> split_at 46 (base_name n e) = (n, e).
Proof.
  intros Hn. unfold base_name. destruct (decide (e = [])) as [->|]; [| by apply split_at_app].
  destruct (split_at_cases 46 n) as [(? & _)|(_ & E)]; [done | exact E].
Qed.

Lemma strrchr_absent fuel c : forall s m p last, cstring m p s -> c <> 0 -> c ∉ s -> (length s < fuel)%nat ->
  strrchr m p c last fuel = Ret last.
Proof.
  induction fuel as [|fuel IH]; intros s m p last Hs Hc Hn Hf; [lia |]. cbn [strrchr]. destruct s as [|x s].
  - pose proof (cstring_end Hs) as E. cbn in E. rewrite Z.add_0_r in E. rewrite E.
    destruct (Z.eqb_spec 0 c); [done |]. done.
  - destruct (cstring_char Hs 0) as (y & [= <-] & Hx & E); [cbn; lia |]. rewrite Z.add_0_r in E. rewrite E.
    apply not_elem_of_cons in Hn as [Hxc Hn]. destruct (Z.eqb_spec x c); [done |]. destruct (Z.eqb_spec x 0); [done |].
    apply (IH s); [apply (cstring_drop Hs 1); cbn; lia | done | done | cbn in Hf; lia].
Qed.

Lemma strrchr_last fuel c b : forall a m p last, cstring m p (a ++ c :: b) -> c <> 0 -> c ∉ b -> (length (a ++ c :: b) < fuel)%nat ->
  strrchr m p c last fuel = Ret (Some (p + Z.of_nat (length a))).
Proof.
  induction fuel as [|fuel IH]; intros a m p last Hs Hc Hn Hf; [lia |]. cbn [strrchr].
  destruct (cstring_char Hs 0) as (y & Hy & Hx & E); [rewrite length_app; cbn; lia |]. rewrite Z.add_0_r in E. rewrite E.
  destruct (Z.eqb_spec y 0); [done |]. pose proof (cstring_drop Hs 1 ltac:(rewrite length_app; cbn; lia)) as Hs1. destruct a as [|x a].
  - injection Hy as <-. rewrite Z.eqb_refl. cbn [length Z.of_nat]. rewrite Z.add_0_r.
    apply (strrchr_absent fuel c b); [exact Hs1 | done | done | cbn in Hf; lia].
  - rewrite (IH a); [cbn [length]; do 2 f_equal; lia | exact Hs1 | done | done | cbn in Hf; lia].
Qed.

(** A directory part: empty, or ending in a slash. *)
Definition dir_part (d : list Z) : Prop := d = [] \/ exists d', d = d' ++ [47].

Lemma get_filename_spec fuel m p d b : cstring m p (d ++ b) -> dir_part d -> 47 ∉ b -> (length (d ++ b) < fuel)%nat ->
  get_filename fuel m p = Ret (p + Z.of_nat (length d)).
Proof.
  intros Hs [->|(d' & ->)] Hb Hf; unfold get_filename.
  - rewrite (strrchr_absent fuel 47 b), bind_ret_l by done. cbn. by rewrite Z.add_0_r.
  - rewrite <- app_assoc in Hs, Hf. cbn [app] in Hs, Hf. rewrite (strrchr_last fuel 47 b d'), bind_ret_l by done.
    rewrite length_app. cbn. f_equal. lia.
Qed.

(** ** The request *)

(** Runs of memory that changed at most. *)
Definition beside (l : list (Z * nat)) (m m' : mem) : Prop := forall a, 0 <= a < 2 ^ 32 ->
  Forall (fun r => ~ (fst r <= a < fst r + Z.of_nat (snd r))) l -> load m' a = load m a.

Lemma beside_trans l m1 m2 m3 : beside l m1 m2 -> beside l m2 m3 -> beside l m1 m3.
Proof. intros H1 H2 a Ha Hl. by rewrite H2, H1. Qed.

Lemma beside_patched l m m' p bs r : patched m m' p bs -> r ∈ l -> fst r <= p -> p + Z.of_nat (length bs) <= fst r + Z.of_nat (snd r) -> beside l m m'.
Proof.
  intros Hp Hr H1 H2 a Ha Hl. rewrite Forall_forall in Hl. specialize (Hl r Hr). rewrite Hp by done. split_cond; lia || done.
Qed.

Lemma beside_load l m m' p n : beside l m m' -> in_space p n -> Forall (fun r => apart (fst r) (snd r) p n) l ->
  load_bytes m' p n = load_bytes m p n.
Proof.
  intros Hb [H0 H1] Hl. apply load_bytes_ext. intros i Hi. apply Hb; [lia |]. eapply Forall_impl; [exact Hl |].
  unfold apart. cbn. lia.
Qed.

(** The strings and arrays of the program do not overlap. *)
Record host_ok (h : Host) (len : nat) : Prop := {
  ho_path : in_space (path h) (S len);
  ho_name : in_space (filename h) 9;
  ho_ext : in_space (extension h) 4;
  ho_path_name : apart (path h) (S len) (filename h) 9;
  ho_path_ext : apart (path h) (S len) (extension h) 4;
  ho_name_ext : apart (filename h) 9 (extension h) 4;
}.

Lemma cstring_at m p s k : cstring m p s -> k = length s -> load_bytes m p k = s.
Proof.
  intros (_ & E & _) ->. rewrite <- (take_load_bytes _ _ _ (S (length s))), E by lia. apply take_app_length.
Qed.

(** Zeros around a string make a field. *)
Lemma field_of m p s k : cstring m p s -> (length s <= k)%nat ->
  (forall i, (length s < i < k)%nat -> load m (p + Z.of_nat i) = 0) -> load_bytes m p k = zeros_to k s.
Proof.
  intros Hs Hk Hz. unfold zeros_to. replace k with (length s + (k - length s))%nat at 1 by lia. rewrite load_bytes_app.
  rewrite (cstring_at m p s) by done. f_equal. rewrite <- (length_replicate (k - length s) 0) at 1. apply load_bytes_eq.
  intros i c Hc. apply lookup_replicate in Hc as [-> Hi]. destruct i as [|i].
  - rewrite Z.add_0_r. apply (cstring_end Hs).
  - replace (p + Z.of_nat (length s) + Z.of_nat (S i)) with (p + Z.of_nat (length s + S i)) by lia. apply Hz. lia.
Qed.

Lemma insert_names_spec fuel m h d n e : let str := d ++ base_name n e in
  bytes_ok m -> cstring m (path h) str -> dir_part d -> 47 ∉ base_name n e -> 46 ∉ n -> 46 ∉ e ->
  (length n <= 8)%nat -> (length e <= 3)%nat -> host_ok h (length str) -> (length str < fuel)%nat ->
  exists m', insert_names fuel m h = Ret m' /\ bytes_ok m' /\ load_bytes m' (filename h) 8 = zeros_to 8 n /\
    load_bytes m' (extension h) 3 = zeros_to 3 e /\
    beside [(path h, S (length str)); (filename h, 9%nat); (extension h, 4%nat)] m m'.
Proof.
  intros str Hm Hs Hd Hsl Hn He Hln Hle Ho Hf. set (l := [(path h, S (length str)); (filename h, 9%nat); (extension h, 4%nat)]).
  pose proof (split_base n e Hn) as Esplit. set (b := base_name n e) in *. set (full := path h + Z.of_nat (length d)).
  assert (length str = length d + length b)%nat as Hlen by apply length_app.
  assert (length b = length n \/ length b = S (length n + length e))%nat as Hlb.
  { unfold b, base_name. destruct (decide _); [by left | right]. rewrite length_app. cbn. lia. }
  assert (length n + length e <= length b)%nat as Hlb2.
  { unfold b, base_name. destruct (decide _) as [->|]; [cbn; lia |]. rewrite length_app. cbn. lia. }
  destruct Ho as [[Hp0 Hp1] [Hn0 Hn1] [He0 He1] Apn Ape Ane]. unfold apart in *. cbn [fst snd] in *.
  unfold insert_names. rewrite (get_filename_spec fuel m (path h) d b), bind_ret_l by done. fold full. cbv zeta.
  set (m1 := memset m (filename h) 0 9). set (m2 := memset m1 (extension h) 0 4).
  pose proof (patched_memset m (filename h) 0 9 ltac:(split; lia)) as P1. pose proof (patched_memset m1 (extension h) 0 4 ltac:(split; lia)) as P2.
  assert (bytes_ok m2) as Hm2 by by do 2 apply memset_ok.
  assert (cstring m2 full b) as Hb2.
  { pose proof (cstring_drop Hs (length d) ltac:(lia)) as Hb. unfold str in Hb. rewrite drop_app_length in Hb. fold full in Hb.
    eapply cstring_ext; [| exact Hb]. etrans; [apply (patched_other P2) | apply (patched_other P1)]; cbn; unfold apart, full; (split || idtac); lia. }
  pose proof (split_by_first_spec fuel m2 full 46 (filename h) b Hm2 Hb2 ltac:(done) ltac:(lia)) as Sp3. rewrite Esplit in Sp3.
  destruct Sp3 as (m3 & E3 & Hm3 & Hn3 & Hb3 & F3); [split; lia | unfold apart, full; lia |].
  pose proof (split_base e [] He) as Esplit2. unfold base_name in Esplit2. cbn [decide] in Esplit2. rewrite decide_True in Esplit2 by done.
  pose proof (split_by_first_spec fuel m3 full 46 (extension h) e Hm3 Hb3 ltac:(done) ltac:(lia)) as Sp4. rewrite Esplit2 in Sp4.
  destruct Sp4 as (m4 & E4 & Hm4 & He4 & _ & F4); [split; lia | unfold apart, full; lia |].
  unfold split_by_first_inserter. rewrite E3, bind_ret_l, E4, bind_ret_l.
  assert (cstring m4 (filename h) n) as Hn4.
  { eapply cstring_ext; [| exact Hn3]. apply load_bytes_ext. intros i Hi. apply F4; unfold full; lia. }
  assert (strlen_at fuel m4 (filename h) = Ret (Z.of_nat (length n))) as E5 by (apply strlen_cstring; [done | lia]).
  rewrite E5, bind_ret_l, u8_id by lia. set (m5 := pad m4 (filename h) (Z.of_nat (length n)) 8).
  pose proof (patched_pad m4 (filename h) (Z.of_nat (length n)) 8 ltac:(lia) ltac:(split; lia)) as P5. rewrite Nat2Z.id in P5. fold m5 in P5.
  exists m5. split; [done |]. split; [by apply pad_bytes_ok |].
  assert (forall a, 0 <= a < 2 ^ 32 -> ~ (filename h <= a < filename h + 9) -> load m5 a = load m4 a) as F5.
  { intros a Ha Hout. rewrite P5 by done. rewrite length_replicate. split_cond; lia || done. }
  assert (beside l m m4) as B4.
  { unfold l. apply (beside_trans _ m m2); [apply (beside_trans _ m m1) | apply (beside_trans _ m2 m3)].
    - eapply beside_patched; [exact P1 | right; left | cbn; lia | cbn; lia].
    - eapply beside_patched; [exact P2 | right; right; left | cbn; lia | cbn; lia].
    - intros a Ha Hl. apply Forall_cons in Hl as [Hl1 Hl]. apply Forall_cons in Hl as [Hl2 _]. cbn in *. apply F3; unfold full; lia.
    - intros a Ha Hl. apply Forall_cons in Hl as [Hl1 Hl]. apply Forall_cons in Hl as [_ Hl]. apply Forall_cons in Hl as [Hl2 _].
      cbn in *. apply F4; unfold full; lia. }
  split; [| split].
  - unfold zeros_to. replace 8%nat with (length n + (8 - length n))%nat at 1 by lia. rewrite load_bytes_app. f_equal.
    + rewrite (patched_other P5); [by apply cstring_at | split; lia | unfold apart; lia].
    + pose proof (patched_at P5) as E. rewrite length_replicate in E. apply E. split; lia.
  - rewrite <- (field_of m4 (extension h) e 3 He4 Hle).
    + apply load_bytes_ext. intros i Hi. apply F5; lia.
    + intros i Hi. rewrite F4, F3 by (unfold full; lia). rewrite P2, length_replicate by lia. split_cond; try lia.
      apply nth_lookup_Some, lookup_replicate_2. lia.
  - intros a Ha Hl. rewrite F5; [by apply B4 | done |]. apply Forall_cons in Hl as [_ Hl]. by apply Forall_cons in Hl as [Hl _].
Qed.

(** ** The image afterwards *)

Definition insert_request (h : Host) (n e : list Z) : FAT32DriverRequest :=
  mkRequest (file_buffer h) (zeros_to 8 n) (zeros_to 3 e) (parent_cluster h) (filesize h).

(** The name and extension fields. *)
Definition insert_key (n e : list Z) : key := (zeros_to 8 n, zeros_to 3 e).

(** A command line the program has room for: a name and an extension behind a
    directory part, and the file's bytes apart from the strings. *)
Record command_line (fuel : nat) (m : mem) (h : Host) (d n e : list Z) : Prop := {
  cm_string : cstring m (path h) (d ++ base_name n e);
  cm_dir : dir_part d;
  cm_slash : 47 ∉ base_name n e;
  cm_points : 46 ∉ n /\ 46 ∉ e;
  cm_lengths : (0 < length n <= 8)%nat /\ (length e <= 3)%nat;
  cm_host : host_ok h (length (d ++ base_name n e));
  cm_fuel : (length (d ++ base_name n e) < fuel)%nat;
  cm_size : 0 < filesize h < 2 ^ 31;
  cm_parent : 0 <= parent_cluster h < 2 ^ 32;
  cm_buffer : in_space (file_buffer h) (Z.to_nat (filesize h));
  cm_apart : Forall (fun r => apart (fst r) (snd r) (file_buffer h) (Z.to_nat (filesize h)))
    [(path h, S (length (d ++ base_name n e))); (filename h, 9%nat); (extension h, 4%nat)];
}.

Lemma zeros_to_ok k s : (length s <= k)%nat -> Forall is_byte s -> length (zeros_to k s) = k /\ Forall is_byte (zeros_to k s).
Proof.
  intros Hk Hs. unfold zeros_to. rewrite length_app, length_replicate. split; [lia |]. apply Forall_app. split; [done |].
  by apply Forall_replicate.
Qed.

Lemma insert_request_ok fuel m h d n e : bytes_ok m -> command_line fuel m h d n e ->
  req_ok (insert_request h n e) /\ req_key (insert_request h n e) <> zero_key.
Proof.
  intros Hm [Hs _ _ _ [Hn He] _ _ Hsz Hp _ _].
  assert (Forall is_byte n /\ Forall is_byte e /\ Forall nonzero n) as (Hbn & Hbe & Hnz).
  { assert (Forall is_byte (d ++ base_name n e)) as Hb by (eapply cstring_bytes; [exact Hm | exact Hs]). destruct Hs as (_ & _ & Hz). apply Forall_app in Hb as [_ Hb]. apply Forall_app in Hz as [_ Hz].
    unfold base_name in *. destruct (decide (e = [])) as [->|]; [done |].
    apply Forall_app in Hb as [? Hb]. apply Forall_app in Hz as [? _]. split_and!; [done | by apply Forall_inv_tail in Hb | done]. }
  split.
  - unfold req_ok. cbn. pose proof (zeros_to_ok 8 n ltac:(lia) Hbn) as [? ?]. pose proof (zeros_to_ok 3 e He Hbe) as [? ?].
    split_and!; done || lia.
  - unfold req_key. cbn. intros [= E _]. destruct n as [|x n]; [cbn in Hn; lia |]. apply Forall_cons in Hnz as [Hx _].
    unfold zeros_to in E. cbn in E. injection E as E _. by apply Hx.
Qed.

Lemma insert_spec fuel lit_tail m h d n e (fs : Fs Image) own M : bytes_ok m -> command_line fuel m h d n e ->
  represents fs (parent_cluster h) own M -> (size M < 63)%nat -> req_key (insert_request h n e) <> own ->
  clusters_needed (filesize h) <= cluster_available (fat_of fs) ->
  match M !! req_key (insert_request h n e) with
  | None => exists fs', insert fuel lit_tail (disk fs) m h = Ret (disk fs', "Write success"%string) /\
      represents fs' (parent_cluster h) own
        (<[req_key (insert_request h n e) := File (load_bytes m (file_buffer h) (Z.to_nat (filesize h)))]> M)
  | Some _ => insert fuel lit_tail (disk fs) m h = Ret (disk fs, "Error: File/folder name already exist"%string)
  end.
Proof.
  intros Hm Hcm Hrep Hsz Hown Hav. destruct (insert_request_ok fuel m h d n e Hm Hcm) as [Hr Hz].
  destruct Hcm as [Hs Hd Hsl [Hn He] [[Hn0 Hln] Hle] Ho Hf Hfs Hp Hbuf Hap].
  destruct (insert_names_spec fuel m h d n e Hm Hs Hd Hsl Hn He Hln Hle Ho Hf) as (m' & Em & Hm' & En & Ee & Hb).
  set (r := insert_request h n e) in *. set (fs1 := set_fat (mkFs initial_driver_state (disk fs)) (fat_of fs)).
  assert (represents fs1 (parent_cluster_number r) own M) as Hrep1 by by apply represents_same with fs.
  assert (insert fuel lit_tail (disk fs) m h = '(fs2, rc) ← write fs1 m' r; Ret (disk fs2, report rc)) as ->.
  { unfold insert. rewrite Em, bind_ret_l, (mount_same fs (parent_cluster h) own M), bind_ret_l by done.
    rewrite En, Ee, u32_id by lia. done. }
  pose proof Hrep1 as [ls Hls]. destruct (M !! req_key r) as [nd|] eqn:EM.
  - destruct (rep_lookup _ _ _ _ _ Hls r nd Hr eq_refl Hz EM) as (i & en & l & _ & Hlk & _).
    assert (write_code fs1 r = 1) as Hcode.
    { unfold write_code. rewrite bool_decide_true by by apply (rep_is_dir _ _ _ _ _ Hls). cbn [negb]. by rewrite Hlk. }
    destruct Hls as [Hwf _]. destruct (dw_inv _ _ _ _ Hwf) as (Hok & _). pose proof (dw_p _ _ _ _ Hwf).
    rewrite write_reject, Hcode, bind_ret_l by (done || lia || (rewrite Hcode; done)). done.
  - destruct (write_file_represents fs1 m' r own ls M Hls Hr Hm' Hz) as (fs' & -> & _ & _ & Hrep' & _); [| done | done | done | done |].
    { by apply (has_room_of_size fs1 _ own ls M). }
    exists fs'. rewrite bind_ret_l. split; [done |]. eexists.
    change (Fat32Types.buf r) with (file_buffer h) in Hrep'. change (buffer_size r) with (filesize h) in Hrep'.
    rewrite (beside_load _ m m' (file_buffer h) (Z.to_nat (filesize h)) Hb Hbuf Hap) in Hrep'. exact Hrep'.
Qed.

(** ** Another device with the same blocks *)

Lemma represents_copied {D1 D2} `{BlockDeviceSpec D1} `{BlockDeviceSpec D2} (fs : Fs D1) (fs2 : Fs D2) p own M :
  represents fs p own M -> dev_ok (disk fs2) -> fat_of fs2 = fat_of fs ->
  (forall i, 0 <= i < 2048 -> dev_block (disk fs2) i = dev_block (disk fs) i) -> represents fs2 p own M.
Proof.
  intros (ls & [(Hok & Hf & Hc0 & Hc1 & Hd1 & Hsig) Hp Hal Hhead Hlen Hslot Hdisj Huniq] & HM) Hok2 Ef Hblk.
  assert (forall c, 0 <= c < 512 -> dev_cluster (disk fs2) c = dev_cluster (disk fs) c) as Hcl.
  { intros c Hc. by rewrite !dev_cluster_blocks, !Hblk by lia. }
  assert (dir_at fs2 p = dir_at fs p) as Edir by (unfold dir_at; by rewrite Hcl by lia).
  exists ls. split.
  - split; rewrite ?Edir, ?Ef; try done. unfold fs_inv. rewrite Ef, Hcl, Hblk by lia. by split_and!.
  - intros k nd. rewrite HM, Edir. apply exist_proper. intros i. apply exist_proper. intros e. apply exist_proper. intros l.
    assert (i <> 0%nat -> dir_at fs p !! i = Some e -> ls !! i = Some l -> live e -> node_of (disk fs2) e l = node_of (disk fs) e l) as En.
    { intros Hi He Hl Hlive. pose proof (Hslot i e l Hi He Hl) as Hs. unfold slot_wf in Hs. rewrite decide_True in Hs by done.
      destruct Hs as (Hc & _). pose proof (chain_clusters _ _ _ Hf Hc) as Hin. unfold node_of. destruct (decide _); [done |]. do 2 f_equal.
      unfold clusters_data. f_equal. apply list_fmap_ext. intros j c Hj. apply Hcl. by apply (Forall_lookup_1 _ _ _ _ Hin Hj). }
    split; intros (Hi & He & Hl & Hlive & Hk & Hn); split_and!; try done; [rewrite En by done; done | rewrite <- En by done; done].
Qed.

Lemma represents_dev_ok {D} `{BlockDeviceSpec D} (fs : Fs D) p own M : represents fs p own M -> dev_ok (disk fs).
Proof. intros (ls & [(Hok & _) _ _ _ _ _ _ _] & _). exact Hok. Qed.

(** C27: The inserter does what it says: run on an image of a mounted file system
    with a file of the host and a name with extension, a parent directory with at
    most 62 names and enough free clusters, it returns, and the image it writes back holds a file system whose directory has gained the file with the
    host file's bytes; if the name is taken it reports so and the image is as
    before. *)
Theorem inserter_inserts_file fuel lit_tail m h d n e (fs : Fs Image) own M : bytes_ok m -> command_line fuel m h d n e ->
  represents fs (parent_cluster h) own M -> (size M < 63)%nat -> insert_key n e <> own ->
  clusters_needed (filesize h) <= cluster_available (fat_of fs) ->
  exists image msg, insert fuel lit_tail (disk fs) m h = Ret (image, msg) /\
    match M !! insert_key n e with
    | None => msg = "Write success"%string /\ exists fs', disk fs' = image /\
        represents fs' (parent_cluster h) own
          (<[insert_key n e := File (load_bytes m (file_buffer h) (Z.to_nat (filesize h)))]> M)
    | Some _ => msg = "Error: File/folder name already exist"%string /\ image = disk fs
    end.
Proof.
  intros Hm Hcm Hrep Hsz Hown Hav. pose proof (insert_spec fuel lit_tail m h d n e fs own M Hm Hcm Hrep Hsz Hown Hav) as Hspec.
  change (req_key (insert_request h n e)) with (insert_key n e) in Hspec.
  revert Hspec. destruct (M !! insert_key n e); intros Hspec.
  - exists (disk fs), "Error: File/folder name already exist"%string. split; [exact Hspec | by split].
  - destruct Hspec as (fs' & E & Hrep'). exists (disk fs'), "Write success"%string. split; [done |]. split; [done |]. by exists fs'.
Qed.

(** C3: From the host to the running shell: a host file inserted under the name
    "shell" into an image without one is what the kernel starts.  On a machine with
    any disk that holds the image's blocks, booting returns with the file's bytes
    at address 0 and process 1, with entry point 0, about to run. *)
Theorem inserted_shell_boots {B D : Type} `{BlockDeviceSpec D} {contents : nat -> Z -> Z} `{RtcDevice B contents}
    fuel m h d (fs : Fs Image) own M env km (b : B) t T :
  bytes_ok m -> command_line fuel m h d (bytes_of "shell") [] -> parent_cluster h = ROOT_CLUSTER_NUMBER ->
  filesize h <= 0x100000 ->
  represents fs ROOT_CLUSTER_NUMBER own M -> (size M < 63)%nat -> insert_key (bytes_of "shell") [] <> own ->
  M !! insert_key (bytes_of "shell") [] = None ->
  clusters_needed (filesize h) <= cluster_available (fat_of fs) ->
  length (isr_stub_table env) = ISR_STUB_TABLE_LIMIT -> Forall (fun h => 0 <= h < 2 ^ 32) (isr_stub_table env) ->
  clock_settles contents T -> (T <= polls env)%nat -> (3 <= rounds env)%nat ->
  exists image, insert fuel (after_root_literal env) (disk fs) m h = Ret (image, "Write success"%string) /\ dev_ok image /\
    forall dev : D, dev_ok dev -> (forall i, 0 <= i < 2048 -> dev_block dev i = dev_block image i) ->
    exists (K : Kernel B D) p, kernel_setup env (power_on km b dev t) = Ret K /\
      load_bytes (k_memory K) 0 (Z.to_nat (filesize h)) = load_bytes m (file_buffer h) (Z.to_nat (filesize h)) /\
      process_list (k_procs K) !! 0%nat = Some p /\ pid p = 1 /\ state p = PROCESS_STATE_READY /\ eip (context p) = 0 /\
      k_sched K = mkSched 0 (pcb_dir p) (Some (context p)) /\ sys_reachable true (system_of K).
Proof.
  intros Hm Hcm Hpar Hmax Hrep Hsz Hown HM Hav Hstubs Hrange Hclock Hpolls Hrounds. rewrite <- Hpar in Hrep.
  pose proof (insert_spec fuel (after_root_literal env) m h d (bytes_of "shell") [] fs own M Hm Hcm Hrep Hsz Hown Hav) as Hspec.
  change (req_key (insert_request h (bytes_of "shell") [])) with (insert_key (bytes_of "shell") []) in Hspec.
  rewrite HM in Hspec. destruct Hspec as (fs' & E & Hrep'). exists (disk fs'). split; [done |].
  split; [exact (represents_dev_ok _ _ _ _ Hrep') |]. intros dev Hok Hblk.
  rewrite Hpar in Hrep'. pose proof (cm_size _ _ _ _ _ _ Hcm) as Hfs.
  set (data := load_bytes m (file_buffer h) (Z.to_nat (filesize h))) in *.
  assert (length data = Z.to_nat (filesize h)) as Hlen by apply length_load_bytes.
  pose proof (represents_copied fs' (set_fat (mkFs initial_driver_state dev) (fat_of fs')) _ _ _ Hrep' Hok eq_refl Hblk) as Hdev.
  destruct (kernel_setup_spec env km b t _ own _ data T Hdev) as (K & p & EK & (Hproc & Hsched & _) & Hld & _);
    [apply lookup_insert_eq | rewrite Hlen; cbn; lia | done | done | done | done | done |].
  destruct Hproc as (? & ? & ? & ? & <- & <- & <- & <- & Hslot & Hpid & Hst & _ & Heip & _ & _ & _ & Hreach).
  rewrite Hlen in Hld. exists K, p. split_and!; try done. unfold system_of. by rewrite Hsched.
Qed.
