(* ===== verification/InsertExamples.v ===== *)
(** * The inserter and the machine it feeds, at concrete inputs

    A formatted image, the host's words and file in memory, and the machine of
    KernelExamples. *)
From Stdlib Require Import String.
From stdpp Require Import gmap.
From S2P Require Import Prelude CString Memory BlockDevice Fat32Types Fat32 Fat32Chain Fat32Facts Fat32Ops Fat32Access Fat32Abs Fat32Refine Fat32Props Fat32Examples PortIO Clock ClockProps Process ProcessInv Scheduler ProcessProps Kernel KernelProps KernelExamples ShellStrings Insert InsertProps.
#[local] Open Scope Z_scope.

(** [./inserter bin/shell 2 storage] and [./inserter ikuyo.txt 2 storage]. *)
Definition host : Host := mkHost 0x100 0x200 0x300 4096 5000 2.
Definition host_mem (s : string) : mem := store_bytes zero_mem 0x100 (bytes_of s ++ [0]).

Lemma host_mem_ok s : Forall is_byte (bytes_of s) -> bytes_ok (host_mem s).
Proof. intros Hs. apply store_bytes_bytes_ok; [apply Forall_app; split; [done | by repeat constructor] | exact zero_mem_ok]. Qed.

Lemma shell_line : command_line 16 (host_mem "bin/shell") host (bytes_of "bin/") (bytes_of "shell") [].
Proof.
  split; cbn -[host_mem bytes_of length].
  - split; [| split]; vm_compute; [split; discriminate | reflexivity | repeat constructor; discriminate].
  - right. by exists (bytes_of "bin").
  - by_compute.
  - split; by_compute.
  - cbn. lia.
  - split; try change (length _) with 9%nat; unfold in_space, apart; cbn; lia.
  - change (9 < 16)%nat. lia.
  - lia.
  - lia.
  - unfold in_space. lia.
  - repeat constructor; cbn -[length]; try change (length _) with 9%nat; unfold apart; lia.
Qed.

Lemma text_line : command_line 16 (host_mem "ikuyo.txt") host [] (bytes_of "ikuyo") (bytes_of "txt").
Proof.
  split; cbn -[host_mem bytes_of length].
  - split; [| split]; vm_compute; [split; discriminate | reflexivity | repeat constructor; discriminate].
  - by left.
  - by_compute.
  - split; by_compute.
  - cbn. lia.
  - split; try change (length _) with 9%nat; unfold in_space, apart; cbn; lia.
  - change (9 < 16)%nat. lia.
  - lia.
  - lia.
  - unfold in_space. lia.
  - repeat constructor; cbn -[length]; try change (length _) with 9%nat; unfold apart; lia.
Qed.

Lemma room_for_host fs : fat_of fs = fresh_fat -> clusters_needed (filesize host) <= cluster_available (fat_of (D := Image) fs).
Proof. intros ->. rewrite fresh_available. vm_compute. discriminate. Qed.

Lemma inserter_inserts_file_witness : exists (fs fs' : Fs Image),
  create_fat32 no_tail blank_fs = Ret fs /\
  insert 16 no_tail (disk fs) (host_mem "ikuyo.txt") host = Ret (disk fs', "Write success"%string) /\
  represents fs' 2 root_own (<[insert_key (bytes_of "ikuyo") (bytes_of "txt") := File (load_bytes (host_mem "ikuyo.txt") 4096 5000)]> ∅).
Proof.
  destruct formatted as (fs & Hc & Hf & Hrep).
  destruct (inserter_inserts_file 16 no_tail (host_mem "ikuyo.txt") host [] (bytes_of "ikuyo") (bytes_of "txt") fs root_own ∅)
    as (image & msg & E & Hm).
  - apply host_mem_ok. by_compute.
  - exact text_line.
  - exact Hrep.
  - rewrite map_size_empty. lia.
  - discriminate.
  - by apply room_for_host.
  - rewrite lookup_empty in Hm. destruct Hm as (-> & fs' & <- & Hrep'). exists fs, fs'.
    split; [exact Hc |]. split; [exact E | exact Hrep'].
Defined.

Lemma inserted_shell_boots_witness : exists (fs : Fs Image) image (K : Kernel Cmos Image) p,
  create_fat32 no_tail blank_fs = Ret fs /\
  insert 16 no_tail (disk fs) (host_mem "bin/shell") host = Ret (image, "Write success"%string) /\
  kernel_setup machine (power_on zero_mem (mkCmos 0 0) image new_year) = Ret K /\
  load_bytes (k_memory K) 0 5000 = load_bytes (host_mem "bin/shell") 4096 5000 /\
  process_list (k_procs K) !! 0%nat = Some p /\ pid p = 1.
Proof.
  destruct formatted as (fs & Hc & Hf & Hrep).
  destruct (inserted_shell_boots (B := Cmos) (D := Image) 16 (host_mem "bin/shell") host (bytes_of "bin/") fs root_own ∅
    machine zero_mem (mkCmos 0 0) new_year 4) as (image & E & Hok & Hboot).
  - apply host_mem_ok. by_compute.
  - exact shell_line.
  - reflexivity.
  - vm_compute. discriminate.
  - exact Hrep.
  - rewrite map_size_empty. lia.
  - discriminate.
  - apply lookup_empty.
  - by apply room_for_host.
  - reflexivity.
  - by_compute.
  - exact year_end_settles.
  - cbn. lia.
  - cbn. lia.
  - destruct (Hboot image Hok) as (K & p & EK & Hl & Hp & Hpid & _); [done |].
    exists fs, image, K, p. split; [exact Hc |]. split; [exact E |]. split; [exact EK |]. split; [exact Hl |]. split; [exact Hp | exact Hpid].
Defined.
